(* ===== verification/_CoqProject ===== *)
-Q . S2P
Prelude.v
Prog.v
External.v
Bits.v
Types.v
Blst.v
Signer.v
BeaconTypes.v
BeaconBlock.v
Ssz.v
SszBlock.v
Merkle.v
Sha256.v
StorageTypes.v
Metrics.v
Header.v
Json.v
JsonTypes.v
Roots.v
VersionedBid.v
Storage.v
BidSpec.v
InMemory.v
World.v
InMemoryStorage.v
Grpc.v
HttpErrors.v
Warp.v
PostBids.v
GrpcServer.v
Builders.v
Auth.v
GetHeader.v
BlindedBlocks.v
PostValidators.v
DataApi.v
Routes.v
MetricsServer.v
BeaconApi.v
JsonApi.v
BeaconService.v
EventStream.v
RelayService.v
Startup.v
Cli.v
Auction.v
Signing.v
Concurrent.v
System.v
Relay.v
Typing.v
TypeSafety.v
TestKit.v
CliTests.v
GrpcTests.v
HttpTests.v
UnitTests.v
Toy.v
ToyServers.v
ToyJson.v
ToyCli.v
JsonTests.v
Examples.v
JsonWitnesses.v
Witnesses.v
SigningWitnesses.v
TestWitnesses.v
CliWitnesses.v
