(* ===== verification/Prelude.v ===== *)
(** * A verification of the MEV relay

    The program is a relay between block builders and validators (proposers) of Ethereum.
    Builders submit bids, each a signed trace of a block with its payload; the relay keeps the
    best one for each (slot, parent hash, proposer).  A registered proposer asks for the
    header of the best bid, signs a blinded block with it, and gets the payload back; the relay
    also publishes the unblinded block to a beacon node.  The relay follows the head slot, the
    payload attributes and the proposer duties through the event stream of that node.

    ** The parts, and the files that model them

    Every definition is a translation of the Rust code it names; pure functions are functions,
    fallible ones return [result], functions that may panic return [outcome] (both:
    [fallible]), and code with effects is a program of type [prog E] (a free monad whose nodes
    are the events [E], see Prog.v).

    - Prelude.v: results, panics, bytes and fixed-size arrays, [u64] arithmetic at its width with
      the build profile (overflow checked or wrapping) as a parameter, string functions of the
      Rust standard library.  Prog.v: programs, their run against a state, and interleavings
      of several of them: [pool_step] lets any task make its next event, so every event is an
      atomic step and other tasks may move between any two.  [guarded] is the program logic of
      such interleavings; [safe] keeps an invariant, [total] also excludes panics.
    - External.v: the libraries the sources call (blst, reth and alloy types, SSZ, tree_hash,
      hex codecs) as a class of parameters [Ext], and the documented facts some theorems
      use as [ExtLaws]; Toy.v is a concrete instance that satisfies the laws, on which all
      witnesses are evaluated.  Warp.v is the interface of the filters of warp ([Warp],
      [WarpLaws]), GrpcServer.v declares that of tonic ([Tonic], [TonicLaws], [Loopback]);
      ToyServers.v has instances of both.
    - crates/primitives: Types.v (types.rs), Blst.v (blst/ except signer.rs), Signer.v
      (blst/signer.rs), BeaconTypes.v and BeaconBlock.v (beacon/), Header.v
      (beacon/header.rs), StorageTypes.v (storage/), Metrics.v (metrics/mod.rs), VersionedBid.v
      (beacon/versioned_bid.rs, which no module includes).  Ssz.v is the SSZ specification with a
      decoder and its round trip, SszBlock.v the [Encode] derives read into it: [derive_encode]
      makes a container of the fields in their order, [SszLib] is the code ethereum_ssz
      generates, which must agree with the specification ([SszLibLaws]).  Bits.v has the packed
      bits.  Merkle.v is the specification of hash tree roots over a hash of two chunks, with what
      the tree_hash and ssz_types crates promise to compute ([TreeHashLaws]); Roots.v shows that
      the [TreeHash] implementations compute these roots; Sha256.v is the hash, executable.
      Json.v has the JSON values, the classes [Serde] and [SerdeLaws] of the types that are
      written and read as JSON, the derive ([derive_serde], a struct as the object of its fields)
      and the forms of the field types; JsonTypes.v the derived structs, field by field.  The
      forms of library types are parameters ([SerdeLib], [SerdeLibLaws]).
    - crates/storage: Storage.v is the trait as a class, with an abstract state
      ([StoreState]) and the contract of every method, once for a method that runs alone
      ([StorageLaws]) and once under interleaving ([StorageAtomic]: one event takes
      effect, the others change nothing).  InMemory.v is the state
      behind the lock and the body of every critical section, InMemoryStorage.v the
      methods as sequences of critical sections and metrics calls, and the proof of the
      contract.  BidSpec.v says what an admissible and an authentic bid is, on the abstract
      state.
    - World.v: the events of the relay (read lock, write lock, metric, clock, sleep, spawn,
      calls to the beacon node, HTTP requests), the state they act on, and the interfaces
      [BeaconHandle], [Host] and [HttpClient] the handlers are written against.
    - crates/grpc: Grpc.v (messages, conversions, [submit_block], and its reference
      [grpc_verdict]), GrpcServer.v (the generated client and server, and their start).
    - crates/http: HttpErrors.v (errors.rs and the error types of the routes), PostBids.v
      (builder_api), GetHeader.v, BlindedBlocks.v, PostValidators.v (proposer_api), DataApi.v
      (data_api and status), Routes.v (the route functions and the server of server/mod.rs),
      MetricsServer.v (metrics.rs), JsonApi.v (the JSON documents of the requests, the replies
      and the HTTP clients; their text is made by serde_json, the parameter [SerdeJson]).
      crates/auth: Auth.v.  Builders.v relates the two
      submission APIs.
    - crates/beacon: BeaconApi.v (the REST client), BeaconService.v (the service task, its
      command channel, the handle, as a transition system), EventStream.v (subscription and
      merged stream).
    - bin/relay: RelayService.v (the future that follows the events, the duties task),
      Startup.v (fork data, set-up of the storage, main), Cli.v (the options of the command
      line, their defaults and parsers, and main on a command line; clap is the parameter [Clap]).
    - Auction.v: a submission, the header served for it and the delivery of its payload, in
      sequence; Signing.v: what is signed in it, and the block in the bytes that are published.
      Concurrent.v: the tasks of the relay; System.v: the relay as a pool of tasks to which the
      tasks they spawn are added ([sys_step]), and its safety.  Relay.v: that system in the
      storage that the program set up from its command line.
      Typing.v and TypeSafety.v: the ranges of the machine integers in every state, and the
      inputs that make a task panic.
    - The tests of the repository: TestKit.v (assertions, random values by call site, the
      constants of test_utils.rs), GrpcTests.v, HttpTests.v, UnitTests.v, CliTests.v, JsonTests.v
      (the JSON fixtures).  A test is a program that panics when an assertion fails.
    - Examples.v, Witnesses.v, TestWitnesses.v, JsonWitnesses.v, SigningWitnesses.v and
      CliWitnesses.v: a concrete relay, and the theorems with hypotheses applied to it; ToyJson.v
      has concrete JSON forms, ToyCli.v a concrete parser of command lines.

    The handlers are generic in the storage: Grpc.v and PostBids.v prove their theorems
    against [StorageLaws] (what a method answers and does, run alone) and [StorageAtomic] (run
    among other tasks, it takes effect in one event) only, and InMemoryStorage.v discharges both.

    ** What the theorems show

    - The whole system, in every state that any interleaving of any tasks and of the tasks
      they spawn reaches: [system_bids_authentic], every bid that is stored or can be
      delivered is a positive bid signed by a whitelisted builder, under its own key;
      [system_type_safe], every stored integer is in its range, and a task that panics does so
      because of an input that is named: 0 slots per epoch, a head slot that is the last [u64], a
      key or a signature that does not parse.
    - The servers: [http_server_dispatches], a request is answered by the handler of its path
      or by the reply of its rejection; [json_requests_reach_handlers], the JSON text of a bid,
      of a blinded block or of registrations, posted to its path, is answered by the handler
      run on that value; [grpc_client_reaches_service], a call of the generated client runs the
      service and brings its answer back.
    - Functional correctness of every handler, on every branch: [submit_block_correct],
      [post_bids_correct], [post_blinded_blocks_correct], [get_header_correct],
      [post_validators_replaces], [api_key_gates_registration], [get_bids_ignores_slot],
      [publish_ignores_status]; consequences: [served_header_verifies],
      [best_bids_only_improve], [grpc_http_equivalent].  [submit_block_correct] gives the exact
      answer, by the reference [grpc_verdict].
    - End to end: [auction_round_trip], from the accepted submission to the proposer that is
      given the payload behind the header it was served; [auction_block_valid] and
      [published_block_signed], the signature in the published bytes is valid for the hash tree
      root of the block in these bytes, because the blinded block has the root of the block.
    - Signing: [signed_messages_conform], the signing roots and the domains are those of the
      specifications; [merkle_helpers_correct]; [domain_test_passes], the domains the tests expect,
      computed with SHA-256.
    - Refinement: [in_memory_refines_contract]; [relayed_blocks_counted] for the metrics.
    - The services: [relay_poll_event], [relay_service_reconnects], [duties_task_correct],
      [into_duties_correct], [event_stream_conserves], [event_stream_ends],
      [client_stream_retries], [service_answers_commands], [publish_request_served],
      [setup_storage_first_events].
    - Start-up: [command_line_read], what each option is read from, the defaults, and that
      everything else exits with a usage error; [main_starts] and
      [program_follows_command_line], what is started, from the arguments and from the command
      line, and that nothing starts without a secret key or without builders;
      [program_bids_authentic], every bid of the started relay is signed by a builder of the
      command line; [zero_epoch_slots], an option that should have been refused.
    - Codecs, bounds and errors of the data: [published_block_decodes] (the SSZ body the beacon
      node receives determines the block), [json_exchanges_decode] (the replies of the relay, the
      block it publishes in JSON and the answers of the node read back to the values they were
      written from), [public_key_codec], [signature_codec],
      [kzg_text_roundtrip], [fork_version_parse],
      [unblinding_keeps_block], [signed_header_limit], [execution_payload_conversion],
      [bid_trace_panics], [is_next_slot_cases], [epoch_bounds], [u64_as_f64_error],
      [handle_rejection_status], [versioned_bid_conversion].
    - The tests of the repository hold in the model, from their own set-up: [grpc_tests_pass],
      [http_tests_pass], [unit_tests_pass], [cli_tests_pass], [fixtures_decode],
      [domain_test_passes].  They tie the model to what the authors expect of the program;
      [storage_test_interleaved_fails] shows what they do not test.
    - Behaviour that surprises, proved as it is: [concurrent_submissions_lose_update] (the
      comparison and the update of the best bid are two critical sections),
      [payload_not_tied_to_header], [best_bid_by_slot_never_written], [hex_blobs_refused].

    ** Bounds and fuel

    Handlers are structurally recursive programs and need no fuel: each theorem about a run
    states the value it returns.  [service_poll] is given the budget of operations that the
    runtime allows to one poll (128 in tokio); its loop makes at most one turn more, which is its
    fuel, and [service_answers_commands] holds for every budget.  The future of the relay service
    has no end and is executed for a given number of polls ([relay_polls]), whatever it is: the
    theorems about the system hold for all of them.  [subscribe_loop] and [first_events] recurse
    on the answers of the outside and return [None] while they are still waiting ([client_stream_retries] and
    [setup_storage_first_events] say when they return).  The events of a task are a finite tree,
    and a lock is one event, so that deadlocks and non-termination are out of its reach: nothing
    is claimed about them.  Theorems about handlers that test for the next slot assume the head
    slot is not the last [u64]; [is_next_slot_cases] says what happens there.

    ** What is not modelled

    The libraries themselves (warp, tonic, reqwest, blst, serde_json, the Prometheus recorder)
    beyond the interfaces above, the transports, the messages of JSON decoding errors, the
    decoders of reth's event types, the executor's supervision of critical tasks, clap's
    splitting of a command line (its documented result is [ClapLaws], for options given as
    [--name value]) and its help, logging; random keys beyond the bytes they are made of; the RLP
    derives; the derived [Decode] of the fork data and of the tests; the tests of the event
    subscriptions. *)

From stdpp Require Export base gmap strings list fin_maps relations.
From stdpp Require Import pretty.
From Stdlib Require Export ZArith Lia Ascii.
From Stdlib Require Strings.Byte.

(** * Results and panics *)

(** Rust's [Result<A, E>]. *)
Inductive result (A E : Type) : Type :=
| Ok (a : A)
| Err (e : E).
Arguments Ok {A E} a.
Arguments Err {A E} e.

#[export] Instance result_eq_dec {A E} `{!EqDecision A} `{!EqDecision E} :
  EqDecision (result A E).
Proof. solve_decision. Defined.

Definition result_map {A B E} (f : A -> B) (r : result A E) : result B E :=
  match r with Ok a => Ok (f a) | Err e => Err e end.

Definition map_err {A E F} (f : E -> F) (r : result A E) : result A F :=
  match r with Ok a => Ok a | Err e => Err (f e) end.

Definition result_bind {A B E} (r : result A E) (k : A -> result B E) : result B E :=
  match r with Ok a => k a | Err e => Err e end.

Definition ok_or {A E} (o : option A) (e : E) : result A E :=
  match o with Some a => Ok a | None => Err e end.

(** [Result::ok] *)
Definition ok {A E} (r : result A E) : option A :=
  match r with Ok a => Some a | Err _ => None end.

Definition is_ok {A E} (r : result A E) : bool :=
  match r with Ok _ => true | Err _ => false end.

(** A Rust computation that may panic: [Val] is a normal return and [Panics] carries the
    message of the panic. *)
Inductive outcome (A : Type) : Type :=
| Val (a : A)
| Panics (msg : string).
Arguments Val {A} a.
Arguments Panics {A} msg.

Definition outcome_bind {A B} (o : outcome A) (k : A -> outcome B) : outcome B :=
  match o with Val a => k a | Panics m => Panics m end.

(** [Result::expect] and [Option::expect]. *)
Definition expect {A E} (msg : string) (r : result A E) : outcome A :=
  match r with Ok a => Val a | Err _ => Panics msg end.

Declare Scope relay_scope.
Delimit Scope relay_scope with relay.
Open Scope relay_scope.

(** [let? x := e in k] is the [?] operator on [Result], [let^ x := e in k] sequences
    computations that may panic. *)
Notation "'let?' x ':=' e 'in' k" := (result_bind e (fun x => k))
  (at level 10, x pattern, e at level 100, k at level 200) : relay_scope.
Notation "'let^' x ':=' e 'in' k" := (outcome_bind e (fun x => k))
  (at level 10, x pattern, e at level 100, k at level 200) : relay_scope.

(** A [Result]-returning function that may also panic, with its [?]. *)
Definition fallible (A E : Type) : Type := outcome (result A E).

Definition fallible_bind {A B E} (r : fallible A E) (k : A -> fallible B E) : fallible B E :=
  match r with Val (Ok a) => k a | Val (Err e) => Val (Err e) | Panics m => Panics m end.

Notation "'let^?' x ':=' e 'in' k" := (fallible_bind e (fun x => k))
  (at level 10, x pattern, e at level 100, k at level 200) : relay_scope.

Lemma fallible_bind_ok {A B E} (r : fallible A E) (k : A -> fallible B E) b :
  fallible_bind r k = Val (Ok b) <-> exists a, r = Val (Ok a) /\ k a = Val (Ok b).
Proof.
  destruct r as [[a|e]|m]; simpl; split; try done; try (by intros (? & ? & _)).
  - intros Hk. by exists a.
  - by intros (? & [= <-] & ?).
Qed.

Lemma fallible_bind_err {A B E} (r : fallible A E) (k : A -> fallible B E) e :
  fallible_bind r k = Val (Err e) ->
  r = Val (Err e) \/ exists a, r = Val (Ok a) /\ k a = Val (Err e).
Proof. destruct r as [[a|e']|m]; simpl; [eauto | naive_solver | done]. Qed.

(** [iter().map(f).collect::<Result<Vec<_>, _>>()]: stops at the first error. *)
Fixpoint collect {A B E} (f : A -> result B E) (l : list A) : result (list B) E :=
  match l with
  | [] => Ok []
  | a :: l' => let? b := f a in let? bs := collect f l' in Ok (b :: bs)
  end.

Section collect.
Context {A B E : Type} (f : A -> result B E).

Lemma collect_ok l bs : collect f l = Ok bs <-> Forall2 (fun a b => f a = Ok b) l bs.
Proof.
  revert bs; induction l as [|a l IH]; intros bs; simpl.
  - split; intros H; inversion H; constructor.
  - split.
    + destruct (f a) as [b|] eqn:Ha; simpl; [|done].
      destruct (collect f l) as [bs'|] eqn:Hl; simpl; [|done].
      intros [= <-]. constructor; [done | by apply IH].
    + inversion 1 as [|? b ? bs' Hb Hrest]; simplify_eq.
      apply IH in Hrest. by rewrite Hb, Hrest.
Qed.

Lemma collect_err l e :
  collect f l = Err e -> exists a, a ∈ l /\ f a = Err e.
Proof.
  induction l as [|a l IH]; simpl; [done |].
  destruct (f a) as [b|e'] eqn:Ha; simpl.
  - destruct (collect f l); simpl; [done |]. intros [= ->].
    destruct IH as (a' & ? & ?); [done |]. exists a'. split; [by right | done].
  - intros [= ->]. exists a. split; [by left | done].
Qed.

Lemma collect_length l bs : collect f l = Ok bs -> length bs = length l.
Proof. intros H%collect_ok. symmetry. by eapply Forall2_length. Qed.
End collect.

(** The same over a function that may panic. *)
Fixpoint collect_f {A B E} (f : A -> fallible B E) (l : list A) : fallible (list B) E :=
  match l with
  | [] => Val (Ok [])
  | a :: l' => let^? b := f a in let^? bs := collect_f f l' in Val (Ok (b :: bs))
  end.

(** * Bytes and fixed-size arrays *)

Abbreviation byte := Corelib.Init.Byte.byte.
Abbreviation bytes := (list byte).

#[export] Instance byte_eq_dec : EqDecision byte := Strings.Byte.byte_eq_dec.
#[export] Instance byte_countable : Countable byte :=
  inj_countable Strings.Byte.to_N Strings.Byte.of_N Strings.Byte.of_to_N.

Definition byte_of_N (n : N) : byte := default Byte.x00 (Strings.Byte.of_N n).
Definition byte_val (b : byte) : Z := Z.of_N (Strings.Byte.to_N b).

Definition lenN {A} (l : list A) : N := N.of_nat (length l).

(** The Rust type [[u8; n]].  The length is part of the type, with a boolean proof so that
    two arrays with the same bytes are equal. *)
Record array (n : N) : Type := Array {
  arr_bytes : bytes;
  arr_ok : Is_true (lenN arr_bytes =? n)%N
}.
Arguments Array {n} arr_bytes arr_ok.
Arguments arr_bytes {n} a.
Arguments arr_ok {n} a.

(** [<[u8; n]>::try_from(Vec<u8>)], up to the error value. *)
Definition array_of (n : N) (l : bytes) : option (array n) :=
  match decide (Is_true (lenN l =? n)%N) with
  | left H => Some (Array l H)
  | right _ => None
  end.

Section array.
Context {n : N}.
Implicit Types a b : array n.

Lemma array_eq a b : arr_bytes a = arr_bytes b -> a = b.
Proof.
  destruct a as [la Ha], b as [lb Hb]; simpl; intros ->.
  f_equal. apply proof_irrel.
Qed.

Lemma array_len a : lenN (arr_bytes a) = n.
Proof. destruct a as [l H]; simpl. by apply Is_true_eq_true, N.eqb_eq in H. Qed.

Lemma array_length a : length (arr_bytes a) = N.to_nat n.
Proof. pose proof (array_len a). unfold lenN in *. lia. Qed.

Lemma array_of_bytes a : array_of n (arr_bytes a) = Some a.
Proof.
  unfold array_of. case_decide as H.
  - f_equal. by apply array_eq.
  - destruct H. apply arr_ok.
Qed.

Lemma array_of_Some l a : array_of n l = Some a <-> arr_bytes a = l.
Proof.
  split.
  - unfold array_of. case_decide; [|done]. by intros [= <-].
  - intros <-. apply array_of_bytes.
Qed.

Lemma array_of_None l : array_of n l = None <-> lenN l <> n.
Proof.
  destruct (array_of n l) as [a|] eqn:Ha.
  - apply array_of_Some in Ha as <-. rewrite array_len. done.
  - split; [|done]. intros _ Hl. unfold array_of in Ha. case_decide as H; [done |].
    destruct H. by apply Is_true_eq_left, N.eqb_eq.
Qed.

#[export] Instance array_eq_dec : EqDecision (array n).
Proof.
  refine (fun a b => cast_if (decide (arr_bytes a = arr_bytes b)));
    [by apply array_eq | congruence].
Defined.

#[export] Instance array_countable : Countable (array n) :=
  inj_countable arr_bytes (array_of n) array_of_bytes.
End array.

(** [[b; n]] *)
Definition array_fill (n : N) (b : byte) : array n.
Proof.
  refine (Array (replicate (N.to_nat n) b) _).
  abstract (unfold lenN; rewrite length_replicate, N2Nat.id, N.eqb_refl; exact I).
Defined.

(** The first [n] bytes, zero-padded: [dst[..].copy_from_slice] into a zeroed array. *)
Definition pad_to (n : N) (l : bytes) : array n.
Proof.
  refine (Array (take (N.to_nat n) (l ++ replicate (N.to_nat n) Byte.x00)) _).
  abstract (unfold lenN; rewrite length_take, length_app, length_replicate;
    apply Is_true_eq_left, N.eqb_eq; lia).
Defined.

Lemma pad_to_bytes n l :
  (lenN l <= n)%N ->
  arr_bytes (pad_to n l) = l ++ replicate (N.to_nat n - length l) Byte.x00.
Proof.
  unfold lenN. intros H. simpl.
  rewrite take_app, take_replicate, take_ge by lia. do 2 f_equal. lia.
Qed.

(** * Machine integers *)

(** [u64] values are integers; the operations below write their wrap-around out.  Whether an
    overflowing operation panics or wraps is the build profile's [overflow-checks] (on in the
    dev profile, off in the release and maxperf profiles of Cargo.toml). *)
Abbreviation u64 := Z (only parsing).

Class BuildProfile := overflow_checks : bool.

Definition u64_modulus : Z := 2 ^ 64.
Definition u64_max : Z := u64_modulus - 1.
Definition is_u64 (z : Z) : Prop := (0 <= z < u64_modulus)%Z.

#[export] Instance is_u64_dec z : Decision (is_u64 z).
Proof. unfold is_u64. apply _. Defined.

Definition u64_add `{BuildProfile} (a b : u64) : outcome u64 :=
  if decide (a + b < u64_modulus)%Z then Val (a + b)%Z
  else if overflow_checks then Panics "attempt to add with overflow"
  else Val ((a + b) mod u64_modulus)%Z.

Definition u64_div (a b : u64) : outcome u64 :=
  if (b =? 0)%Z then Panics "attempt to divide by zero" else Val (a / b)%Z.

Definition u64_rem (a b : u64) : outcome u64 :=
  if (b =? 0)%Z
  then Panics "attempt to calculate the remainder with a divisor of zero"
  else Val (a mod b)%Z.

Section u64.
Context `{BuildProfile}.

Lemma u64_add_small a b : (a + b < u64_modulus)%Z -> u64_add a b = Val (a + b)%Z.
Proof. intros. unfold u64_add. by rewrite decide_True. Qed.

Lemma u64_add_val a b c :
  is_u64 a -> is_u64 b -> u64_add a b = Val c -> is_u64 c.
Proof.
  unfold u64_add, is_u64. intros Ha Hb. case_decide.
  - intros [= <-]. lia.
  - destruct overflow_checks; [done |]. intros [= <-]. by apply Z.mod_pos_bound.
Qed.
End u64.

(** * Strings *)

(** [str::trim_start_matches("0x")]: removes every leading repetition of the prefix. *)
Fixpoint trim_start_0x (s : string) : string :=
  match s with
  | String "0"%char (String "x"%char s') => trim_start_0x s'
  | _ => s
  end.

(** [str::contains] *)
Fixpoint str_contains (pat s : string) : bool :=
  String.prefix pat s ||
  match s with
  | EmptyString => false
  | String _ s' => str_contains pat s'
  end.

(** [str::to_lowercase], on ASCII (the strings the code compares with are ASCII; a character
    outside ASCII is kept, and no non-ASCII character lowercases to the letters of the
    names compared with except the Kelvin sign, which occurs in none of them). *)
Definition ascii_to_lower (c : ascii) : ascii :=
  let n := Ascii.N_of_ascii c in
  if ((65 <=? n) && (n <=? 90))%N then Ascii.ascii_of_N (n + 32) else c.

Fixpoint to_lowercase (s : string) : string :=
  match s with
  | EmptyString => EmptyString
  | String c s' => String (ascii_to_lower c) (to_lowercase s')
  end.

(** [u64::from_str]: decimal digits, with an optional [+]; [None] is the parse error. *)
Fixpoint digits_value (acc : Z) (s : string) : option Z :=
  match s with
  | EmptyString => Some acc
  | String c s' =>
      let n := Z.of_N (Ascii.N_of_ascii c) in
      if ((48 <=? n) && (n <=? 57))%Z then digits_value (acc * 10 + (n - 48))%Z s' else None
  end.

Definition u64_from_str (s : string) : option u64 :=
  let digits := match s with String "+"%char s' => s' | _ => s end in
  match digits with
  | EmptyString => None
  | _ => v ← digits_value 0 digits; if decide (v < u64_modulus)%Z then Some v else None
  end.

Lemma digits_value_nonneg s acc v :
  (0 <= acc)%Z -> digits_value acc s = Some v -> (0 <= v)%Z.
Proof.
  revert acc; induction s as [|c s IH]; intros acc Hacc; simpl; [by intros [= <-] |].
  destruct ((48 <=? _) && (_ <=? 57))%Z eqn:Hd; [|done]. apply IH.
  apply andb_true_iff in Hd as [Hd _]. lia.
Qed.

Lemma u64_from_str_is_u64 s v : u64_from_str s = Some v -> is_u64 v.
Proof.
  unfold u64_from_str, is_u64. intros Hv.
  assert (forall t, (v0 ← digits_value 0 t; if decide (v0 < u64_modulus)%Z then Some v0 else None) =
    Some v -> (0 <= v < u64_modulus)%Z) as Haux.
  { intros t. destruct (digits_value 0 t) as [v0|] eqn:Ht; simpl; [|done]. case_decide; [|done].
    intros [= <-]. split; [by eapply digits_value_nonneg | done]. }
  destruct (match s with String "+"%char s' => s' | _ => s end); [done | by eapply Haux].
Qed.

(** The decimal text of a number parses back to it. *)
Lemma digits_value_pretty (x : N) s :
  (0 < x)%N -> digits_value 0 (pretty_N_go x s) = digits_value (Z.of_N x) s.
Proof.
  revert s. induction (N.lt_wf_0 x) as [x _ IH]. intros s Hx.
  rewrite pretty_N_go_step by done.
  assert (forall acc, digits_value acc (String (pretty_N_char (x `mod` 10)) s) =
    digits_value (acc * 10 + Z.of_N (x `mod` 10)) s) as Hchar.
  { intros acc. pose proof (N.mod_lt x 10 ltac:(lia)) as Hlt. remember (x `mod` 10)%N as d eqn:Hd.
    clear -Hlt. assert (d = 0 \/ d = 1 \/ d = 2 \/ d = 3 \/ d = 4 \/ d = 5 \/ d = 6 \/ d = 7 \/ d = 8
      \/ d = 9)%N as Hd by lia. by destruct Hd as [->|[->|[->|[->|[->|[->|[->|[->|[->| ->]]]]]]]]]. }
  destruct (decide (x `div` 10 = 0))%N as [Hz|Hz].
  - rewrite Hz, pretty_N_go_0, Hchar. f_equal. pose proof (N.div_mod x 10 ltac:(done)). lia.
  - assert (x `div` 10 < x)%N as Hlt by (apply N.div_lt; lia).
    rewrite (IH _ Hlt) by (by apply N.neq_0_lt_0). rewrite Hchar. f_equal.
    pose proof (N.div_mod x 10 ltac:(done)). lia.
Qed.

Lemma digits_value_pretty_Z (z : Z) : (0 <= z)%Z -> digits_value 0 (pretty z) = Some z.
Proof.
  destruct z as [|p|p]; [done | | lia]. intros _.
  change (pretty (Z.pos p)) with (pretty (N.pos p)). unfold pretty, pretty_N.
  rewrite decide_False by done. by rewrite digits_value_pretty.
Qed.

Lemma u64_from_str_pretty (z : Z) : is_u64 z -> u64_from_str (pretty z) = Some z.
Proof.
  intros [Hlo Hhi]. pose proof (digits_value_pretty_Z z Hlo) as Hd. unfold u64_from_str.
  destruct (pretty z) as [|c s] eqn:Hp; [by injection Hd as <- |].
  assert (match String c s with String "+"%char s' => s' | _ => String c s end = String c s) as ->.
  { by destruct c as [[] [] [] [] [] [] [] []]. }
  rewrite Hd. simpl. by rewrite decide_True.
Qed.

(** * Little-endian bytes *)

Fixpoint le_bytes (n : nat) (z : Z) : bytes :=
  match n with
  | O => []
  | S n' => byte_of_N (Z.to_N (z mod 256)) :: le_bytes n' (z / 256)
  end.

Fixpoint le_value (l : bytes) : Z :=
  match l with [] => 0 | b :: l' => byte_val b + 256 * le_value l' end.

Lemma byte_val_of_N (n : N) : (n < 256)%N -> byte_val (byte_of_N n) = Z.of_N n.
Proof.
  intros Hn. unfold byte_val, byte_of_N. pose proof (Strings.Byte.of_N_None_iff n) as Hnone.
  destruct (Strings.Byte.of_N n) as [b|] eqn:Hb; simpl.
  - by rewrite (Strings.Byte.to_of_N n Hb).
  - pose proof (proj1 Hnone eq_refl). lia.
Qed.

Lemma length_le_bytes n z : length (le_bytes n z) = n.
Proof. revert z; induction n as [|n IH]; intros z; simpl; [done | by rewrite IH]. Qed.

Lemma le_value_bytes n z : (0 <= z < 256 ^ Z.of_nat n)%Z -> le_value (le_bytes n z) = z.
Proof.
  revert z; induction n as [|n IH]; intros z Hz; [simpl in *; lia |].
  rewrite Nat2Z.inj_succ, Z.pow_succ_r in Hz by lia.
  pose proof (Z.mod_pos_bound z 256 ltac:(lia)) as Hm. pose proof (Z.div_mod z 256 ltac:(lia)).
  cbn [le_bytes le_value]. rewrite byte_val_of_N by lia. rewrite Z2N.id by lia.
  rewrite IH; [lia |]. split; [apply Z.div_pos; lia |].
  apply Z.div_lt_upper_bound; lia.
Qed.

(** * Shared automation *)

Create HintDb relay.
Create Rewrite HintDb relay.
#[export] Hint Resolve array_len arr_ok array_eq : relay.
#[export] Hint Rewrite @array_of_bytes @array_length @length_replicate : relay.

(** Split conjunctions and do case analysis on the scrutinee of a [match] in a hypothesis. *)
Ltac destruct_match :=
  match goal with
  | H : context [match ?x with _ => _ end] |- _ =>
      lazymatch x with
      | context [match _ with _ => _ end] => fail
      | _ => destruct x eqn:?
      end
  | |- context [match ?x with _ => _ end] =>
      lazymatch x with
      | context [match _ with _ => _ end] => fail
      | _ => destruct x eqn:?
      end
  end.

(** An equation between closed terms, by evaluation of both sides. *)
Ltac vm_refl := match goal with |- _ = ?b => vm_cast_no_check (eq_refl b) end.
