(* ===== verification/Prog.v ===== *)
(** Programs with effects, as finite trees of events.

    A value of [prog E R] is a computation that performs events of the signature [E] and
    returns an [R] or panics.  Async functions of the sources are programs: an event is a
    point where the task touches shared state or the outside world, and every interleaving
    of concurrent tasks is an interleaving of their events.

    - [run] executes a program alone, against a deterministic interpretation of the events;
    - [safe] is a thread-modular invariant logic (the invariant holds after each event, from
      any state satisfying it, so whatever other tasks did in between);
    - [pool_step] interleaves a pool of tasks, [schedule] executes one interleaving. *)

From S2P Require Import Prelude.

Inductive prog (E : Type -> Type) (R : Type) : Type :=
| Ret (r : R)
| Panic (msg : string)
| Vis (X : Type) (e : E X) (k : X -> prog E R).
Arguments Ret {E R} r.
Arguments Panic {E R} msg.
Arguments Vis {E R X} e k.

Fixpoint bind {E A B} (p : prog E A) (k : A -> prog E B) : prog E B :=
  match p with
  | Ret a => k a
  | Panic m => Panic m
  | Vis e k' => Vis e (fun x => bind (k' x) k)
  end.

(** [e.await] for a single event. *)
Definition trigger {E X} (e : E X) : prog E X := Vis e Ret.

(** A pure computation that may panic. *)
Definition lift {E A} (o : outcome A) : prog E A :=
  match o with Val a => Ret a | Panics m => Panic m end.

(** The [?] operator inside a function returning [Result]. *)
Definition try_bind {E A B Er} (p : prog E (result A Er))
    (k : A -> prog E (result B Er)) : prog E (result B Er) :=
  bind p (fun r => match r with Ok a => k a | Err e => Ret (Err e) end).

Definition discard {E A} (p : prog E A) : prog E unit := bind p (fun _ => Ret tt).

Notation "'let!' x ':=' p 'in' k" := (bind p (fun x => k))
  (at level 10, x pattern, p at level 100, k at level 200) : relay_scope.
Notation "'let!?' x ':=' p 'in' k" := (try_bind p (fun x => k))
  (at level 10, x pattern, p at level 100, k at level 200) : relay_scope.
Notation "'do!' p ';' k" := (bind p (fun _ => k))
  (at level 10, p at level 100, k at level 200) : relay_scope.

(** [for x in l { body }] over a loop-carried value. *)
Fixpoint foldP {E A S} (body : S -> A -> prog E S) (l : list A) (s : S) : prog E S :=
  match l with
  | [] => Ret s
  | a :: l' => let! s' := body s a in foldP body l' s'
  end.

(** ** Monad laws, up to the equality of trees *)

Inductive prog_eq {E R} : prog E R -> prog E R -> Prop :=
| prog_eq_ret r : prog_eq (Ret r) (Ret r)
| prog_eq_panic m : prog_eq (Panic m) (Panic m)
| prog_eq_vis X (e : E X) k1 k2 :
    (forall x, prog_eq (k1 x) (k2 x)) -> prog_eq (Vis e k1) (Vis e k2).

#[export] Instance prog_equiv {E R} : Equiv (prog E R) := prog_eq.

#[export] Instance prog_eq_refl {E R} : Reflexive (@prog_eq E R).
Proof. intros p; induction p; by constructor. Qed.

#[export] Instance prog_eq_sym {E R} : Symmetric (@prog_eq E R).
Proof. intros p q H; induction H; by constructor. Qed.

Lemma prog_eq_inv {E R} (p q : prog E R) :
  prog_eq p q ->
  match p with
  | Vis e k => exists k', q = Vis e k' /\ forall x, prog_eq (k x) (k' x)
  | _ => q = p
  end.
Proof. intros []; [done.. |]. by eexists. Qed.

#[export] Instance prog_eq_trans {E R} : Transitive (@prog_eq E R).
Proof.
  intros p q r Hpq. revert r. induction Hpq as [| |X e k1 k2 _ IH]; intros r3 Hqr; [done.. |].
  apply prog_eq_inv in Hqr as (k3 & -> & Hk). constructor. intros x. by apply IH.
Qed.

Lemma bind_ret_r {E R} (p : prog E R) : bind p Ret ≡ p.
Proof. induction p; simpl; by constructor. Qed.

Lemma bind_assoc {E A B C} (p : prog E A) (f : A -> prog E B) (g : B -> prog E C) :
  bind (bind p f) g ≡ bind p (fun a => bind (f a) g).
Proof.
  induction p as [| |? ? ? IH]; simpl; [apply prog_eq_refl.. |]. by constructor.
Qed.

#[export] Instance bind_proper {E A B} :
  Proper ((≡) ==> pointwise_relation A (≡) ==> (≡)) (@bind E A B).
Proof.
  intros p q Hpq f g Hfg. induction Hpq; simpl; [apply Hfg | constructor..]; auto.
Qed.

#[export] Instance prog_equivalence {E R} : Equivalence (≡@{prog E R}).
Proof. split; apply _. Qed.

#[export] Instance try_bind_proper {E A B Er} :
  Proper ((≡) ==> pointwise_relation A (≡) ==> (≡)) (@try_bind E A B Er).
Proof.
  intros p q Hpq f g Hfg. unfold try_bind. apply bind_proper; [done |]. intros [a|e]; [apply Hfg |].
  apply prog_eq_refl.
Qed.

(** * Sequential execution *)

Section run.
Context {E : Type -> Type} {S : Type} (step : forall X, E X -> S -> X * S).

Fixpoint run {R} (p : prog E R) (s : S) : outcome R * S :=
  match p with
  | Ret r => (Val r, s)
  | Panic m => (Panics m, s)
  | Vis e k => run (k (step _ e s).1) (step _ e s).2
  end.

Lemma run_ret {R} (r : R) s : run (Ret r) s = (Val r, s).
Proof. done. Qed.

Lemma run_bind {A B} (p : prog E A) (k : A -> prog E B) s :
  run (bind p k) s =
  match run p s with
  | (Val a, s') => run (k a) s'
  | (Panics m, s') => (Panics m, s')
  end.
Proof. revert s; induction p as [| |X e k' IH]; intros s; simpl; [done.. |]. apply IH. Qed.

Lemma run_try_bind {A B Er} (p : prog E (result A Er)) (k : A -> prog E (result B Er)) s :
  run (try_bind p k) s =
  match run p s with
  | (Val (Ok a), s') => run (k a) s'
  | (Val (Err e), s') => (Val (Err e), s')
  | (Panics m, s') => (Panics m, s')
  end.
Proof. unfold try_bind. rewrite run_bind. by destruct (run p s) as [[[]|] ?]. Qed.

Lemma run_trigger {X} (e : E X) s : run (trigger e) s = (Val (step _ e s).1, (step _ e s).2).
Proof. done. Qed.

Lemma run_lift {A} (o : outcome A) s : run (lift o) s = (o, s).
Proof. by destruct o. Qed.

Lemma run_lift_val {A B} (a : A) (k : A -> prog E B) s :
  run (bind (lift (Val a)) k) s = run (k a) s.
Proof. done. Qed.

#[export] Instance run_proper {R} : Proper ((≡) ==> (=) ==> (=)) (@run R).
Proof.
  intros p q Hpq s ? <-. revert s; induction Hpq as [| |? ? ? ? _ IH]; intros s; simpl; [done.. |].
  apply IH.
Qed.

(** * The invariant logic

    [guarded pan I Q p]: the invariant [I] holds after every event of [p], from any state in
    which it holds, the result satisfies [Q], and a panic only happens with a message in [pan].
    [safe] allows every panic, [total] none. *)

Fixpoint guarded (pan : string -> Prop) (I : S -> Prop) {R} (Q : R -> Prop) (p : prog E R) :
  Prop :=
  match p with
  | Ret r => Q r
  | Panic m => pan m
  | Vis e k => forall s, I s -> I (step _ e s).2 /\ guarded pan I Q (k (step _ e s).1)
  end.

Abbreviation safe := (guarded (fun _ => True)).
Abbreviation total := (guarded (fun _ => False)).

Section guarded.
Context (pan : string -> Prop) (I : S -> Prop).

Lemma guarded_mono {R} (Q Q' : R -> Prop) p :
  (forall r, Q r -> Q' r) -> guarded pan I Q p -> guarded pan I Q' p.
Proof.
  intros HQ. induction p as [r|m|X e k IH]; simpl; [apply HQ | done |].
  intros H s Hs. destruct (H s Hs). auto.
Qed.

Lemma guarded_bind {A B} (Q : B -> Prop) (p : prog E A) (k : A -> prog E B) :
  guarded pan I (fun a => guarded pan I Q (k a)) p -> guarded pan I Q (bind p k).
Proof.
  induction p as [r|m|X e k' IH]; simpl; [done.. |].
  intros H s Hs. destruct (H s Hs). auto.
Qed.

Lemma guarded_try_bind {A B Er} (Q : result B Er -> Prop)
    (p : prog E (result A Er)) (k : A -> prog E (result B Er)) :
  guarded pan I (fun r => match r with Ok a => guarded pan I Q (k a) | Err e => Q (Err e) end) p ->
  guarded pan I Q (try_bind p k).
Proof. intros H. apply guarded_bind. eapply guarded_mono, H. intros []; done. Qed.

Lemma guarded_lift {A} (Q : A -> Prop) (o : outcome A) :
  (forall a, o = Val a -> Q a) -> (forall m, o = Panics m -> pan m) -> guarded pan I Q (lift o).
Proof. destruct o; simpl; auto. Qed.

Lemma guarded_foldP {A T} (Q : T -> Prop) (body : T -> A -> prog E T) l t :
  (forall t a, a ∈ l -> Q t -> guarded pan I Q (body t a)) ->
  Q t -> guarded pan I Q (foldP body l t).
Proof.
  revert t; induction l as [|a l IH]; intros t Hb Ht; simpl; [done |].
  apply guarded_bind. eapply guarded_mono; [|apply Hb; [by left | done]].
  intros t' Ht'. apply IH; [|done]. intros; apply Hb; [by right | done].
Qed.

(** A guarded program run alone ends in a state satisfying the invariant, with a result
    satisfying the postcondition or a panic that is allowed. *)
Lemma guarded_run {R} (Q : R -> Prop) (p : prog E R) s :
  guarded pan I Q p -> I s ->
  I (run p s).2 /\ match (run p s).1 with Val r => Q r | Panics m => pan m end.
Proof.
  revert s; induction p as [r|m|X e k IH]; intros s Hp Hs; simpl in *; [done.. |].
  destruct (Hp s Hs). by apply IH.
Qed.
End guarded.

Context (I : S -> Prop).

Lemma safe_mono {R} (Q Q' : R -> Prop) p :
  (forall r, Q r -> Q' r) -> safe I Q p -> safe I Q' p.
Proof. apply guarded_mono. Qed.

Lemma safe_bind {A B} (Q : B -> Prop) (p : prog E A) (k : A -> prog E B) :
  safe I (fun a => safe I Q (k a)) p -> safe I Q (bind p k).
Proof. apply guarded_bind. Qed.

Lemma safe_try_bind {A B Er} (Q : result B Er -> Prop)
    (p : prog E (result A Er)) (k : A -> prog E (result B Er)) :
  safe I (fun r => match r with Ok a => safe I Q (k a) | Err e => Q (Err e) end) p ->
  safe I Q (try_bind p k).
Proof. apply guarded_try_bind. Qed.

Lemma safe_lift {A} (Q : A -> Prop) (o : outcome A) :
  (forall a, o = Val a -> Q a) -> safe I Q (lift o).
Proof. intros. by apply guarded_lift. Qed.

Lemma safe_foldP {A T} (Q : T -> Prop) (body : T -> A -> prog E T) l t :
  (forall t a, a ∈ l -> Q t -> safe I Q (body t a)) ->
  Q t -> safe I Q (foldP body l t).
Proof. apply guarded_foldP. Qed.

Lemma safe_run {R} (Q : R -> Prop) (p : prog E R) s :
  safe I Q p -> I s ->
  I (run p s).2 /\ (forall r, (run p s).1 = Val r -> Q r).
Proof.
  intros Hp Hs. destruct (guarded_run _ _ Q p s Hp Hs) as [HI HQ]. split; [done |].
  intros r Hr. by rewrite Hr in HQ.
Qed.

(** For programs that do not panic. *)
Lemma total_mono {R} (Q Q' : R -> Prop) p :
  (forall r, Q r -> Q' r) -> total I Q p -> total I Q' p.
Proof. apply guarded_mono. Qed.

Lemma total_bind {A B} (Q : B -> Prop) (p : prog E A) (k : A -> prog E B) :
  total I (fun a => total I Q (k a)) p -> total I Q (bind p k).
Proof. apply guarded_bind. Qed.

Lemma total_try_bind {A B Er} (Q : result B Er -> Prop)
    (p : prog E (result A Er)) (k : A -> prog E (result B Er)) :
  total I (fun r => match r with Ok a => total I Q (k a) | Err e => Q (Err e) end) p ->
  total I Q (try_bind p k).
Proof. apply guarded_try_bind. Qed.

Lemma total_lift {A} (Q : A -> Prop) (o : outcome A) a :
  o = Val a -> Q a -> total I Q (lift o).
Proof. by intros -> HQ. Qed.

Lemma total_foldP {A T} (Q : T -> Prop) (body : T -> A -> prog E T) l t :
  (forall t a, a ∈ l -> Q t -> total I Q (body t a)) ->
  Q t -> total I Q (foldP body l t).
Proof. apply guarded_foldP. Qed.

(** * Interleaving *)

Inductive pool_step {R} : list (prog E R) * S -> list (prog E R) * S -> Prop :=
| PoolStep ts s i X (e : E X) k :
    ts !! i = Some (Vis e k) ->
    pool_step (ts, s) (<[i := k (step _ e s).1]> ts, (step _ e s).2).

(** One interleaving: the list says which task moves next (a task that is finished or
    absent does not move). *)
Fixpoint schedule {R} (sched : list nat) (ts : list (prog E R)) (s : S) :
  list (prog E R) * S :=
  match sched with
  | [] => (ts, s)
  | i :: sched' =>
      match ts !! i with
      | Some (Vis e k) => schedule sched' (<[i := k (step _ e s).1]> ts) (step _ e s).2
      | _ => schedule sched' ts s
      end
  end.

Lemma schedule_steps {R} sched (ts : list (prog E R)) s :
  rtc pool_step (ts, s) (schedule sched ts s).
Proof.
  revert ts s; induction sched as [|i sched IH]; intros ts s; simpl; [done |].
  destruct (ts !! i) as [[r|m|X e k]|] eqn:Hi; [apply IH | apply IH | | apply IH].
  eapply rtc_l; [by apply PoolStep | apply IH].
Qed.

(** The invariant holds in every state of every interleaving of guarded tasks. *)
Lemma pool_guarded pan {R} (Q : R -> Prop) (c c' : list (prog E R) * S) :
  rtc pool_step c c' ->
  Forall (guarded pan I Q) c.1 -> I c.2 ->
  Forall (guarded pan I Q) c'.1 /\ I c'.2.
Proof.
  induction 1 as [c|c1 c2 c3 Hstep _ IH]; [done |].
  intros Hts Hs. destruct Hstep as [ts s i X e k Hi]; simpl in *.
  pose proof (Forall_lookup_1 _ _ _ _ Hts Hi) as Hsafe.
  destruct (Hsafe s Hs). apply IH; [|done]. by apply Forall_insert.
Qed.

Lemma pool_safe {R} (Q : R -> Prop) (c c' : list (prog E R) * S) :
  rtc pool_step c c' ->
  Forall (safe I Q) c.1 -> I c.2 ->
  Forall (safe I Q) c'.1 /\ I c'.2.
Proof. apply pool_guarded. Qed.
End run.

Abbreviation safe step := (guarded step (fun _ => True)).
Abbreviation total step := (guarded step (fun _ => False)).

(** * Where an interleaving stops *)

(** A task that has nothing left to do: it returned, or it panicked. *)
Definition stopped {E R} (p : prog E R) : Prop :=
  match p with Vis _ _ => False | _ => True end.

#[export] Instance stopped_dec {E R} (p : prog E R) : Decision (stopped p).
Proof. destruct p; simpl; [left | left | right]; [exact I | exact I | intros []]. Defined.

Section stopping.
Context {E : Type -> Type} {S : Type} (step : forall X, E X -> S -> X * S) {R : Type}.

(** A pool in which some task is not stopped can move. *)
Lemma pool_step_progress (ts : list (prog E R)) (s : S) :
  Forall stopped ts \/ exists c', pool_step step (ts, s) c'.
Proof.
  destruct (decide (Forall stopped ts)) as [|Hn]; [by left | right].
  apply not_Forall_Exists in Hn; [|apply _].
  apply Exists_exists in Hn as (p & [i Hi]%list_elem_of_lookup & Hp).
  destruct p as [r|m|Y e k]; [by destruct Hp.. |]. eexists. by eapply PoolStep.
Qed.

Lemma stopped_no_step (ts : list (prog E R)) (s : S) c' :
  Forall stopped ts -> ~ pool_step step (ts, s) c'.
Proof.
  intros Hts Hstep. inversion Hstep as [? ? ? ? ? ? Hi]; subst.
  by apply (Forall_lookup_1 _ _ _ _ Hts Hi).
Qed.
End stopping.

#[export] Hint Rewrite @run_bind @run_ret @run_try_bind @run_lift : relay.
