(* ===== verification/External.v ===== *)
(** The code the relay calls and does not contain: the cryptographic library [blst], the
    Ethereum types of [reth]/[alloy], the SSZ and Merkleization crates and the hex codecs.

    [Ext] is the signature of that code: the operations the sources call, as parameters of
    every model definition that uses them.  [ExtLaws] states the documented behaviour that
    some theorems rely on, one named law each. *)

From S2P Require Import Prelude.

(** The values of [reth::primitives::U256] ([ruint::Uint<256, 4>]): an unsigned integer of
    256 bits.  Its derived comparison is the one of the integers. *)
Definition u256_modulus : Z := 2 ^ 256.

Record Uint256 : Type := Uint {
  uint_val : Z;
  uint_ok : Is_true ((0 <=? uint_val) && (uint_val <? u256_modulus))%Z
}.

Lemma uint_eq (a b : Uint256) : uint_val a = uint_val b -> a = b.
Proof.
  destruct a as [a Ha], b as [b Hb]; simpl; intros ->. f_equal. apply proof_irrel.
Qed.

#[export] Instance uint_eq_dec : EqDecision Uint256.
Proof.
  refine (fun a b => cast_if (decide (uint_val a = uint_val b))); [by apply uint_eq | congruence].
Defined.

Lemma uint_range (a : Uint256) : (0 <= uint_val a < u256_modulus)%Z.
Proof. destruct a as [a H]; simpl. apply Is_true_eq_true in H. lia. Qed.

Definition uint_of (z : Z) : option Uint256 :=
  match decide (Is_true ((0 <=? z) && (z <? u256_modulus))%Z) with
  | left H => Some (Uint z H)
  | right _ => None
  end.

(** The 32-byte hash type of [tree_hash] (and of [reth]). *)
Abbreviation Hash256 := (array 32).

(** How a type takes part in Merkleization ([tree_hash::TreeHashType]). *)
Inductive TreeHashType := Basic | Container | List | Vector.

Class Ext : Type := {
  (** ** blst::min_pk *)
  PublicKey : Type;
  Signature : Type;
  SecretKey : Type;
  BlstError : Type;
  BLST_SUCCESS : BlstError;
  blst_error_eq_dec :: EqDecision BlstError;
  blst_error_debug : BlstError -> string;
  pk_default : PublicKey;
  pk_compress : PublicKey -> array 48;
  pk_from_bytes : bytes -> result PublicKey BlstError;
  pk_key_validate : bytes -> result PublicKey BlstError;
  sig_to_bytes : Signature -> array 96;
  sig_from_bytes : bytes -> result Signature BlstError;
  (** [sig.verify(sig_groupcheck, msg, dst, aug, pk, pk_validate)] *)
  sig_verify : Signature -> bool -> bytes -> bytes -> bytes -> PublicKey -> bool -> BlstError;
  sk_key_gen : bytes -> bytes -> result SecretKey BlstError;
  sk_to_pk : SecretKey -> PublicKey;
  sk_sign : SecretKey -> bytes -> bytes -> bytes -> Signature;
  sk_from_bytes : bytes -> result SecretKey BlstError;
  sk_to_bytes : SecretKey -> array 32;

  (** ** alloy_primitives, alloy_rlp, ruint (errors of [from_str] are given by their [Debug]
      rendering, the only thing the sources do with them) *)
  TransactionSigned : Type;
  RlpError : Type;
  fixed_from_slice : forall n : N, bytes -> outcome (array n);
  b256_from_str : string -> result (array 32) string;
  uint_from_str : string -> result Uint256 string;
  uint_from_be_slice : bytes -> outcome Uint256;
  uint_as_le_slice : Uint256 -> array 32;
  uint_display : Uint256 -> string;
  hex_encode : bytes -> string;
  FromHexError : Type;
  hex_error_debug : FromHexError -> string;
  hex_error_display : FromHexError -> string;
  hex_decode : string -> result bytes FromHexError;
  address_from_str : string -> result (array 20) FromHexError;
  hash256_from_str : string -> result Hash256 string;
  keccak256 : bytes -> array 32;
  tx_decode : bytes -> result TransactionSigned RlpError;

  (** ** serde_utils::hex (hex strings with a [0x] prefix) *)
  serde_hex_encode : bytes -> string;
  serde_hex_decode : string -> result bytes string;
  prefixed_hex_visit : string -> result bytes string;
  (** [serde_utils::quoted_u64_vec]: an integer in quotes, and the visitor of a list of them *)
  quoted_int : u64 -> string;
  quoted_int_vec_visit : list string -> result (list u64) string;

  (** ** ssz_types: [VariableList<T, n>] and [FixedVector<T, n>] are read by the sources as
      the list of their elements; their constructors enforce the length. *)
  vl_new : forall {T : Type} (n : N), list T -> option (list T);
  vl_from : forall {T : Type} (n : N), list T -> list T;
  fv_new : forall {T : Type} (n : N), list T -> option (list T);
  (** the [Debug] form of the length error of both (actual length, allowed length) *)
  fv_error_debug : N -> N -> string;
  fv_from : forall {T : Type} (default : T) (n : N), list T -> list T;

  (** ** ethereum_ssz: the [Encode] implementation of the 32-byte hash *)
  hash256_is_ssz_fixed_len : bool;
  hash256_ssz_fixed_len : N;
  hash256_ssz_bytes_len : Hash256 -> N;
  hash256_ssz_append : Hash256 -> bytes -> bytes;

  (** ** tree_hash, tree_hash_derive *)
  MerkleHasher : Type;
  mh_with_leaves : N -> MerkleHasher;
  mh_write : MerkleHasher -> bytes -> option MerkleHasher;
  mh_finish : MerkleHasher -> option Hash256;
  merkle_root : bytes -> N -> Hash256;
  (** The [TreeHash] derive on a struct: the root over the roots of its fields. *)
  derive_root : list Hash256 -> Hash256;
  hash256_root : Hash256 -> Hash256;
  u64_root : u64 -> Hash256;
  bytes4_root : array 4 -> Hash256;
  (** the [TreeHash] implementation of [[u8; 48]] *)
  bytes48_tree_hash_type : TreeHashType;
  bytes48_packed_encoding : array 48 -> outcome bytes;
  bytes48_packing_factor : outcome N;
  bytes48_root : array 48 -> Hash256;
  fixed_bytes_root : N -> bytes -> Hash256;
  byte_list_root : N -> bytes -> Hash256;
  u64_list_root : N -> list u64 -> Hash256;
  list_root : N -> list Hash256 -> Hash256;
  vector_root : N -> list Hash256 -> Hash256;
  bitlist_root : N -> list bool -> Hash256;
  bitvector_root : N -> list bool -> Hash256
}.

(** The documented behaviour of that code. *)
Class ExtLaws (X : Ext) : Prop := {
  (** [VariableList::new]: an error when the list is longer than the capacity. *)
  vl_new_spec : forall T n (l : list T), vl_new n l = if (lenN l <=? n)%N then Some l else None;
  (** [VariableList::from]: truncates. *)
  vl_from_spec : forall T n (l : list T), vl_from n l = take (N.to_nat n) l;
  (** [FixedVector::new]: an error unless the length is the expected one. *)
  fv_new_spec : forall T n (l : list T), fv_new n l = if (lenN l =? n)%N then Some l else None;
  (** [FixedBytes::from_slice]: panics only when the length is wrong. *)
  fixed_from_slice_spec :
    forall n l (a : array n), arr_bytes a = l -> fixed_from_slice n l = Val a;
  (** [Uint::from_be_slice] does not panic on 32 bytes. *)
  uint_from_be_slice_spec :
    forall l, lenN l = 32%N -> exists u, uint_from_be_slice l = Val u;
  (** [Uint::as_le_slice]: the 32 bytes of the integer, the least significant first. *)
  uint_as_le_slice_spec : forall u, arr_bytes (uint_as_le_slice u) = le_bytes 32 (uint_val u);
  (** a 32-byte hash is encoded as its bytes. *)
  hash256_ssz_spec : forall h buf,
    hash256_is_ssz_fixed_len = true /\ hash256_ssz_fixed_len = 32%N /\
    hash256_ssz_bytes_len h = 32%N /\ hash256_ssz_append h buf = buf ++ arr_bytes h;
  (** compressed serialization is canonical: the validated points of 48 bytes serialize to
      these bytes, and so do the signatures of 96 bytes. *)
  pk_key_validate_canonical : forall l pk,
    lenN l = 48%N -> pk_key_validate l = Ok pk -> arr_bytes (pk_compress pk) = l;
  sig_from_bytes_canonical : forall l s,
    lenN l = 96%N -> sig_from_bytes l = Ok s -> arr_bytes (sig_to_bytes s) = l;
  (** a compressed public key parses back to the key. *)
  pk_from_bytes_compress : forall pk, pk_from_bytes (arr_bytes (pk_compress pk)) = Ok pk;
  (** so does a serialized signature. *)
  sig_from_bytes_to_bytes : forall s, sig_from_bytes (arr_bytes (sig_to_bytes s)) = Ok s;
  (** correctness of the signature scheme. *)
  sig_verify_sign : forall sk msg dst aug,
    sig_verify (sk_sign sk msg dst aug) true msg dst aug (sk_to_pk sk) false = BLST_SUCCESS;
  (** the prefixed hex codec round-trips. *)
  serde_hex_decode_encode : forall l, serde_hex_decode (serde_hex_encode l) = Ok l;
  (** the plain hex codec round-trips, and never starts with the [0x] prefix. *)
  hex_decode_encode : forall l, hex_decode (hex_encode l) = Ok l;
  hex_encode_trim : forall l, trim_start_0x (hex_encode l) = hex_encode l
}.
