(* ===== verification/Bits.v ===== *)
(** Packed bits, as SSZ writes bit vectors and bit lists ([ssz_types::BitVector] and
    [BitList]): bytes of eight bits, the least significant first. *)

From S2P Require Import Prelude.

Definition byte_of_bits (l : list bool) : Byte.byte :=
  let b n := nth n l false in
  Byte.of_bits (b 0%nat, (b 1%nat, (b 2%nat, (b 3%nat, (b 4%nat, (b 5%nat, (b 6%nat, b 7%nat))))))).

Definition bits_of_byte (x : Byte.byte) : list bool :=
  let '(b0, (b1, (b2, (b3, (b4, (b5, (b6, b7))))))) := Byte.to_bits x in
  [b0; b1; b2; b3; b4; b5; b6; b7].

(** [n] bytes of bits, the least significant bit first. *)
Fixpoint pack_bits (n : nat) (l : list bool) : bytes :=
  match n with O => [] | S n => byte_of_bits (take 8 l) :: pack_bits n (drop 8 l) end.

Fixpoint unpack_bits (b : bytes) : list bool :=
  match b with [] => [] | x :: b => bits_of_byte x ++ unpack_bits b end.

Lemma length_pack_bits n l : length (pack_bits n l) = n.
Proof. revert l. induction n as [|n IH]; intros l; cbn; [done | by rewrite IH]. Qed.

Lemma bits_of_byte_of_bits l :
  bits_of_byte (byte_of_bits (take 8 l)) = take 8 l ++ replicate (8 - length l) false.
Proof.
  unfold bits_of_byte, byte_of_bits. rewrite Byte.to_bits_of_bits.
  by do 8 (destruct l as [|? l]; [done |]).
Qed.

(** The bits come back, followed by zeros. *)
Lemma unpack_pack_bits n l :
  (length l <= 8 * n)%nat -> unpack_bits (pack_bits n l) = l ++ replicate (8 * n - length l) false.
Proof.
  revert l. induction n as [|n IH]; intros l Hl.
  - by destruct l; [|simpl in Hl; lia].
  - cbn [pack_bits unpack_bits].
    rewrite bits_of_byte_of_bits, IH by (rewrite length_drop; lia). rewrite length_drop.
    destruct (decide (length l <= 8)%nat) as [Hle|Hgt].
    + rewrite take_ge, drop_ge, <-app_assoc by lia. simpl app. rewrite <-replicate_add.
      do 2 f_equal. lia.
    + replace (8 - length l)%nat with 0%nat by lia. rewrite app_nil_r, app_assoc, take_drop.
      do 2 f_equal. lia.
Qed.

Lemma pack_bits_inj n l k :
  length l = length k -> (length l <= 8 * n)%nat -> pack_bits n l = pack_bits n k -> l = k.
Proof.
  intros Hlk Hl Heq. apply (f_equal unpack_bits) in Heq.
  rewrite !unpack_pack_bits in Heq by lia. by apply app_inj_1 in Heq as [-> _].
Qed.

(** A list of bits is closed by a set bit, so its length is not lost. *)
Definition bitlist_bytes (l : list bool) : bytes :=
  pack_bits (length l / 8 + 1) (l ++ [true]).

(** The bits up to the last one that is set. *)
Fixpoint drop_false (l : list bool) : option (list bool) :=
  match l with [] => None | true :: l => Some l | false :: l => drop_false l end.

Definition bitlist_of_bytes (b : bytes) : option (list bool) :=
  reverse <$> drop_false (reverse (unpack_bits b)).

Lemma drop_false_replicate n l : drop_false (replicate n false ++ true :: l) = Some l.
Proof. by induction n. Qed.

Lemma bitlist_of_bytes_spec l : bitlist_of_bytes (bitlist_bytes l) = Some l.
Proof.
  unfold bitlist_of_bytes, bitlist_bytes. rewrite unpack_pack_bits.
  - rewrite <-app_assoc, reverse_app. cbn [app]. rewrite reverse_cons, reverse_replicate, <-app_assoc.
    cbn [app]. rewrite drop_false_replicate. cbn. by rewrite reverse_involutive.
  - rewrite length_app. cbn [length].
    pose proof (Nat.div_mod_eq (length l) 8). pose proof (Nat.mod_upper_bound (length l) 8). lia.
Qed.

Lemma bitlist_bytes_inj l k : bitlist_bytes l = bitlist_bytes k -> l = k.
Proof.
  intros Heq. pose proof (bitlist_of_bytes_spec l) as Hl.
  rewrite Heq, bitlist_of_bytes_spec in Hl. by injection Hl.
Qed.
