(* ===== verification/Types.v ===== *)
(** The wrapped chain types of [crates/primitives/src/types.rs]: fixed-size hashes,
    addresses, 256-bit integers and byte strings, their conversions from the raw bytes of a
    request, their SSZ encoders, and the execution payload and its header. *)

From S2P Require Import Prelude External.

(** * Errors and traits *)

Inductive ConversionError `{Ext} : Type :=
| IncorrectLength (data_type : string) (expected actual : N)
| ParseError (data_type : string) (value : string)
| AlloyRlp (e : RlpError)
| SszTypes.

(** [ssz::Encode] *)
Class Encode (A : Type) := {
  is_ssz_fixed_len : bool;
  ssz_fixed_len : N;
  ssz_bytes_len : A -> N;
  ssz_append : A -> bytes -> bytes
}.
Arguments is_ssz_fixed_len A {_}.
Arguments ssz_fixed_len A {_}.

(** [as_ssz_bytes] *)
Definition as_ssz_bytes {A} `{!Encode A} (a : A) : bytes := ssz_append a [].

(** What a fixed-length encoder promises: it appends exactly the announced number of bytes
    and leaves what the buffer held. *)
Class FixedEncode (A : Type) `{!Encode A} : Prop := {
  fe_fixed : is_ssz_fixed_len A = true;
  fe_len : forall a : A, ssz_bytes_len a = ssz_fixed_len A;
  fe_append : forall (a : A) buf, ssz_append a buf = buf ++ as_ssz_bytes a;
  fe_size : forall a : A, lenN (as_ssz_bytes a) = ssz_fixed_len A
}.

Definition HASHSIZE : N := 32.
Definition BLOOM_SIZE_BYTES : N := 256.
Definition BYTES_PER_BLOB : N := 131072.

(** [kzg_commitments::Blob = FixedVector<u8, U131072>] *)
Abbreviation Blob := bytes.

Section types.
Context `{Ext}.

(** * B256 *)

Record B256 : Type := mkB256 { b256_0 : array 32 }.

#[export] Instance b256_eq_dec : EqDecision B256.
Proof. solve_decision. Defined.
#[export] Instance b256_countable : Countable B256 :=
  inj_countable' b256_0 mkB256 (fun x => match x with mkB256 _ => eq_refl end).

Definition b256_zero : B256 := mkB256 (array_fill 32 Byte.x00).
Definition b256_to_vec (x : B256) : bytes := arr_bytes (b256_0 x).
Definition b256_from_hash256 (h : Hash256) : B256 := mkB256 h.
Definition b256_into_hash256 (x : B256) : Hash256 := b256_0 x.
Definition b256_display (x : B256) : string := hex_encode (arr_bytes (b256_0 x)).

Definition b256_parse (s : string) : result B256 string :=
  let? value := map_err (fun e => "Failed to parse B256: " ++ e)%string (b256_from_str s) in
  Ok (mkB256 value).

Definition b256_try_from (v : bytes) : fallible B256 ConversionError :=
  if negb (lenN v =? HASHSIZE)%N
  then Val (Err (IncorrectLength "HASH" HASHSIZE (lenN v)))
  else let^ a := fixed_from_slice 32 v in Val (Ok (mkB256 a)).

#[export] Instance b256_encode : Encode B256 := {|
  is_ssz_fixed_len := hash256_is_ssz_fixed_len;
  ssz_fixed_len := hash256_ssz_fixed_len;
  ssz_bytes_len x := hash256_ssz_bytes_len (b256_0 x);
  ssz_append x buf := hash256_ssz_append (b256_0 x) buf
|}.

(** * U256 *)

Record U256 : Type := mkU256 { u256_0 : Uint256 }.

#[export] Instance u256_eq_dec : EqDecision U256.
Proof. solve_decision. Defined.

Definition u256_val (a : U256) : Z := uint_val (u256_0 a).

(** The derived [Ord], and the methods of the inner integer the sources call. *)
Definition u256_cmp (a b : U256) : comparison := Z.compare (u256_val a) (u256_val b).
Definition u256_is_zero (a : U256) : bool := (u256_val a =? 0)%Z.
Definition u256_try_into_u64 (a : U256) : option u64 :=
  if decide (is_u64 (u256_val a)) then Some (u256_val a) else None.

(** [From<u64>]: the same integer, which always fits. *)
Definition u256_from_u64 (value : u64) : U256 := mkU256 (default (Uint 0 I) (uint_of value)).

Definition u256_display (a : U256) : string := uint_display (u256_0 a).

Definition u256_parse (s : string) : result U256 string :=
  let? value := map_err (fun e => "Failed to parse U256: " ++ e)%string (uint_from_str s) in
  Ok (mkU256 value).

Definition u256_try_from (v : bytes) : fallible U256 ConversionError :=
  if negb (lenN v =? HASHSIZE)%N
  then Val (Err (IncorrectLength "U256" HASHSIZE (lenN v)))
  else let^ a := uint_from_be_slice v in Val (Ok (mkU256 a)).

#[export] Instance u256_encode : Encode U256 := {|
  is_ssz_fixed_len := true;
  ssz_fixed_len := 32;
  ssz_bytes_len _ := 32%N;
  ssz_append a buf := buf ++ arr_bytes (uint_as_le_slice (u256_0 a))
|}.

(** * Address *)

Record Address : Type := mkAddress { address_0 : array 20 }.

#[export] Instance address_eq_dec : EqDecision Address.
Proof. solve_decision. Defined.

Definition address_zero : Address := mkAddress (array_fill 20 Byte.x00).
Definition address_to_vec (x : Address) : bytes := arr_bytes (address_0 x).
Definition address_display (x : Address) : string := hex_encode (arr_bytes (address_0 x)).

Definition address_parse (s : string) : result Address FromHexError :=
  let? a := address_from_str s in Ok (mkAddress a).

Definition address_try_from (v : bytes) : fallible Address ConversionError :=
  if negb (lenN v =? 20)%N
  then Val (Err (IncorrectLength "Address" 20 (lenN v)))
  else let^ a := fixed_from_slice 20 v in Val (Ok (mkAddress a)).

#[export] Instance address_encode : Encode Address := {|
  is_ssz_fixed_len := true;
  ssz_fixed_len := 20;
  ssz_bytes_len _ := 20%N;
  ssz_append x buf := buf ++ arr_bytes (address_0 x)
|}.

(** * Bloom, Bytes, Bytes48, Blob *)

Record Bloom : Type := mkBloom { bloom_0 : array 256 }.

Definition bloom_new (b : array 256) : Bloom := mkBloom b.

Definition bloom_try_from (v : bytes) : fallible Bloom ConversionError :=
  if negb (lenN v =? BLOOM_SIZE_BYTES)%N
  then Val (Err (IncorrectLength "Bloom" BLOOM_SIZE_BYTES (lenN v)))
  else let^ a := fixed_from_slice 256 v in Val (Ok (mkBloom a)).

Record Bytes : Type := mkBytes { bytes_0 : bytes }.

Definition bytes_parse (s : string) : result Bytes string :=
  let? b := map_err (fun e => "Failed to parse Bytes: " ++ hex_error_debug e)%string
              (hex_decode (trim_start_0x s)) in
  Ok (mkBytes b).

Definition bytes_from_vec (v : bytes) : Bytes := mkBytes v.

Definition bytes_try_into_signed_tx (x : Bytes) : result TransactionSigned RlpError :=
  tx_decode (bytes_0 x).

(** A KZG commitment ([crates/primitives/src/beacon/kzg_commitments.rs]). *)
Record KzgCommitment : Type := mkKzg { kzg_0 : array 48 }.

Record Bytes48 : Type := mkBytes48 { bytes48_0 : array 48 }.

Definition as_kzg_commitment (x : Bytes48) : KzgCommitment := mkKzg (bytes48_0 x).

Definition from_kzg_commitment (c : KzgCommitment) : outcome Bytes48 :=
  let^ a := fixed_from_slice 48 (arr_bytes (kzg_0 c)) in Val (mkBytes48 a).

Definition bytes48_try_from (v : bytes) : fallible Bytes48 ConversionError :=
  if negb (lenN v =? 48)%N
  then Val (Err (IncorrectLength "Bytes48" 48 (lenN v)))
  else let^ a := fixed_from_slice 48 v in Val (Ok (mkBytes48 a)).

(** [types::Blob], the fixed-size array; the blobs of a bundle are the [FixedVector] of
    [kzg_commitments.rs], below. *)
Record RawBlob : Type := mkRawBlob { raw_blob_0 : array BYTES_PER_BLOB }.

Definition raw_blob_try_from (v : bytes) : fallible RawBlob ConversionError :=
  if negb (lenN v =? BYTES_PER_BLOB)%N
  then Val (Err (IncorrectLength "Blob" BYTES_PER_BLOB (lenN v)))
  else let^ a := fixed_from_slice BYTES_PER_BLOB v in Val (Ok (mkRawBlob a)).

(** * Payloads *)

Record Withdrawal : Type := mkWithdrawal {
  wd_index : u64;
  wd_validator_index : u64;
  wd_address : Address;
  wd_amount : u64
}.

Record ExecutionPayload : Type := mkExecutionPayload {
  ep_parent_hash : B256;
  ep_fee_recipient : Address;
  ep_state_root : B256;
  ep_receipts_root : B256;
  ep_logs_bloom : bytes;                  (* FixedVector<u8, U256> *)
  ep_prev_randao : B256;
  ep_block_number : u64;
  ep_gas_limit : u64;
  ep_gas_used : u64;
  ep_timestamp : u64;
  ep_extra_data : bytes;                  (* VariableList<u8, U32> *)
  ep_base_fee_per_gas : U256;
  ep_block_hash : B256;
  ep_transactions : list bytes;           (* VariableList<VariableList<u8, _>, U1048576> *)
  ep_withdrawals : list Withdrawal;       (* VariableList<Withdrawal, U16> *)
  ep_blob_gas_used : u64;
  ep_excess_blob_gas : u64
}.

Record ExecutionPayloadHeader : Type := mkExecutionPayloadHeader {
  eh_parent_hash : B256;
  eh_fee_recipient : Address;
  eh_state_root : B256;
  eh_receipts_root : B256;
  eh_logs_bloom : bytes;
  eh_prev_randao : B256;
  eh_block_number : u64;
  eh_gas_limit : u64;
  eh_gas_used : u64;
  eh_timestamp : u64;
  eh_extra_data : bytes;
  eh_base_fee_per_gas : U256;
  eh_block_hash : B256;
  eh_transactions_root : B256;
  eh_withdrawals_root : B256;
  eh_blob_gas_used : u64;
  eh_excess_blob_gas : u64
}.

Record BlobsBundle : Type := mkBlobsBundle {
  bb_commitments : list Bytes48;
  bb_proofs : list KzgCommitment;         (* VariableList<KzgCommitment, U4096> *)
  bb_blobs : list Blob                    (* VariableList<Blob, U4096> *)
}.

Definition blobs_bundle_default : BlobsBundle := mkBlobsBundle [] [] [].

(** * serde_logs_bloom *)

Definition logs_bloom_serialize (b : bytes) : string := "0x" ++ hex_encode b.

Definition logs_bloom_deserialize (n : N) (s : string) : result bytes string :=
  let? v := prefixed_hex_visit s in
  ok_or (fv_new n v) ("invalid logs bloom: " ++ fv_error_debug (lenN v) n)%string.

(** * quoted_variable_list_u64: the elements of the JSON array *)

Definition quoted_list_serialize (value : list u64) : list string := map quoted_int value.

Definition quoted_list_deserialize (n : N) (seq : list string) : result (list u64) string :=
  let? vec := quoted_int_vec_visit seq in
  ok_or (vl_new n vec) ("invalid length: " ++ fv_error_debug (lenN vec) n)%string.

End types.

(** * Laws of the encoders *)

Section laws.
Context {X : Ext} {L : ExtLaws X}.

#[export] Instance b256_fixed_encode : FixedEncode B256.
Proof.
  assert (Hs := fun a : B256 => hash256_ssz_spec (b256_0 a)).
  assert (Hz := hash256_ssz_spec (b256_0 b256_zero) []).
  split; unfold as_ssz_bytes; simpl.
  - apply Hz.
  - intros a. destruct (Hs a []) as (_ & -> & -> & _). done.
  - intros a buf. destruct (Hs a buf) as (_ & _ & _ & ->).
    destruct (Hs a []) as (_ & _ & _ & ->). done.
  - intros a. destruct (Hs a []) as (_ & -> & _ & ->). simpl. apply array_len.
Qed.

#[export] Instance u256_fixed_encode : FixedEncode U256.
Proof.
  split; unfold as_ssz_bytes; simpl; [done.. |]. intros a. apply array_len.
Qed.

#[export] Instance address_fixed_encode : FixedEncode Address.
Proof. split; unfold as_ssz_bytes; simpl; [done.. |]. intros a. apply array_len. Qed.

(** The length check guards [from_slice], so the conversions from raw bytes never panic: they
    return the value made of these bytes, or the length error. *)
Lemma checked_from_slice {A E} (n : N) (v : bytes) (f : array n -> A) (e : E) :
  (if negb (lenN v =? n)%N then Val (Err e)
   else let^ a := fixed_from_slice n v in Val (Ok (f a))) =
  Val (match array_of n v with Some a => Ok (f a) | None => Err e end).
Proof.
  destruct (array_of n v) as [a|] eqn:Ha.
  - apply array_of_Some in Ha. rewrite <-Ha at 1. rewrite array_len, N.eqb_refl. simpl.
    by rewrite (fixed_from_slice_spec _ _ a Ha).
  - apply array_of_None, N.eqb_neq in Ha. by rewrite Ha.
Qed.

Lemma b256_try_from_spec v :
  b256_try_from v = Val (match array_of 32 v with
                         | Some a => Ok (mkB256 a)
                         | None => Err (IncorrectLength "HASH" 32 (lenN v))
                         end).
Proof. apply checked_from_slice. Qed.

Lemma address_try_from_spec v :
  address_try_from v = Val (match array_of 20 v with
                            | Some a => Ok (mkAddress a)
                            | None => Err (IncorrectLength "Address" 20 (lenN v))
                            end).
Proof. apply checked_from_slice. Qed.

Lemma bytes48_try_from_spec v :
  bytes48_try_from v = Val (match array_of 48 v with
                            | Some a => Ok (mkBytes48 a)
                            | None => Err (IncorrectLength "Bytes48" 48 (lenN v))
                            end).
Proof. apply checked_from_slice. Qed.

Lemma u256_try_from_spec v :
  (lenN v <> 32%N /\ u256_try_from v = Val (Err (IncorrectLength "U256" 32 (lenN v)))) \/
  (lenN v = 32%N /\ exists a, u256_try_from v = Val (Ok (mkU256 a))).
Proof.
  unfold u256_try_from, HASHSIZE. destruct (N.eqb_spec (lenN v) 32) as [Hl|Hl]; simpl.
  - right. split; [done |]. destruct (uint_from_be_slice_spec _ Hl) as [a ->]. by exists a.
  - by left.
Qed.

(** The bytes of a value convert back to it. *)
Lemma b256_roundtrip x : b256_try_from (b256_to_vec x) = Val (Ok x).
Proof. rewrite b256_try_from_spec. unfold b256_to_vec. rewrite array_of_bytes. by destruct x. Qed.

Lemma address_roundtrip x : address_try_from (address_to_vec x) = Val (Ok x).
Proof.
  rewrite address_try_from_spec. unfold address_to_vec. rewrite array_of_bytes. by destruct x.
Qed.

Lemma kzg_bytes48_roundtrip c :
  (let^ b := from_kzg_commitment c in Val (as_kzg_commitment b)) = Val c.
Proof.
  unfold from_kzg_commitment. rewrite (fixed_from_slice_spec 48 _ (kzg_0 c) eq_refl). by destruct c.
Qed.
End laws.
