(* ===== verification/Blst.v ===== *)
(** BLS keys and signatures and their Merkleization: [crates/primitives/src/blst/]
    ([public_key.rs], [signature.rs], [secret_key.rs], [macros.rs], [mod.rs]). *)

From stdpp Require Import pretty.
From S2P Require Import Prelude External Types.

Definition PUBLIC_KEY_BYTES_LEN : N := 48.
Definition SIGNATURE_BYTES_LEN : N := 96.
Definition SECRET_KEY_BYTES_LEN : N := 32.
Definition BYTES_PER_CHUNK : N := 32.

(** [usize::div_ceil] *)
Definition div_ceil (a b : N) : outcome N :=
  if (b =? 0)%N then Panics "attempt to divide by zero" else Val ((a + b - 1) / b)%N.

Definition DST : bytes :=
  String.list_byte_of_string "BLS_SIG_BLS12381G2_XMD:SHA-256_SSWU_RO_POP_".

(** [0xc0] followed by zeroes. *)
Definition INFINITY_PUBLIC_KEY : array 48 := pad_to 48 [Byte.xc0].
Definition INFINITY_SIGNATURE : array 96 := pad_to 96 [Byte.xc0].
Definition NONE_SIGNATURE : array 96 := array_fill 96 Byte.x00.

Section blst.
Context `{Ext}.

Inductive BlsError : Type :=
| Blst (e : BlstError)
| InvalidByteLength (got expected : N)
| InvalidSecretKeyLength (got expected : N)
| InvalidInfinityPublicKey
| InvalidZeroSecretKey.

(** The derived [Debug]. *)
Definition bls_error_debug (e : BlsError) : string :=
  match e with
  | Blst e => "Blst(" +:+ blst_error_debug e +:+ ")"
  | InvalidByteLength g x =>
      "InvalidByteLength { got: " +:+ pretty g +:+ ", expected: " +:+ pretty x +:+ " }"
  | InvalidSecretKeyLength g x =>
      "InvalidSecretKeyLength { got: " +:+ pretty g +:+ ", expected: " +:+ pretty x +:+ " }"
  | InvalidInfinityPublicKey => "InvalidInfinityPublicKey"
  | InvalidZeroSecretKey => "InvalidZeroSecretKey"
  end.

(** * The traits of the points *)

Class TPublicKey (Pub : Type) := {
  tpk_serialize : Pub -> array 48;
  tpk_deserialize : bytes -> result Pub BlsError
}.

#[export] Instance PublicKey_tpublic_key : TPublicKey PublicKey := {|
  tpk_serialize := pk_compress;
  tpk_deserialize b :=
    if negb (lenN b =? PUBLIC_KEY_BYTES_LEN)%N
    then Err (InvalidByteLength (lenN b) PUBLIC_KEY_BYTES_LEN)
    else map_err Blst (pk_key_validate b)
|}.

Class TSignature (Pub Sig : Type) := {
  tsig_serialize : Sig -> array 96;
  tsig_deserialize : bytes -> result Sig BlsError;
  tsig_verify : Sig -> Pub -> Hash256 -> bool
}.

#[export] Instance Signature_tsignature : TSignature PublicKey Signature := {|
  tsig_serialize := sig_to_bytes;
  tsig_deserialize b := map_err Blst (sig_from_bytes b);
  tsig_verify s pubkey msg :=
    bool_decide (sig_verify s true (arr_bytes msg) DST [] pubkey false = BLST_SUCCESS)
|}.

Class TSecretKey (Sig Pub Sec : Type) := {
  tsk_random : array 32 -> outcome Sec;
  tsk_sign : Sec -> Hash256 -> Sig;
  tsk_public_key : Sec -> Pub;
  tsk_deserialize : bytes -> result Sec BlsError;
  tsk_serialize : Sec -> array 32
}.

(** [random] is given the 32 bytes drawn from the thread's generator. *)
#[export] Instance SecretKey_tsecret_key : TSecretKey Signature PublicKey SecretKey := {|
  tsk_random ikm :=
    expect "called `Result::unwrap()` on an `Err` value" (sk_key_gen (arr_bytes ikm) []);
  tsk_sign sk msg := sk_sign sk (arr_bytes msg) DST [];
  tsk_public_key := sk_to_pk;
  tsk_deserialize b := map_err Blst (sk_from_bytes b);
  tsk_serialize := sk_to_bytes
|}.

(** * Public keys *)

Record GenericPublicKey (Pub : Type) : Type := mkPublicKey { pk_point : Pub }.
Arguments mkPublicKey {Pub} pk_point.
Arguments pk_point {Pub} g.

Definition pk_serialize {Pub} `{!TPublicKey Pub} (k : GenericPublicKey Pub) : array 48 :=
  tpk_serialize (pk_point k).

Definition pk_deserialize {Pub} `{!TPublicKey Pub} (b : bytes) :
  result (GenericPublicKey Pub) BlsError :=
  if decide (b = arr_bytes INFINITY_PUBLIC_KEY) then Err InvalidInfinityPublicKey
  else let? point := tpk_deserialize b in Ok (mkPublicKey point).

(** [PartialEq]: keys are compared, hashed and used as map keys by their serialization. *)
Definition pk_eqb {Pub} `{!TPublicKey Pub} (a b : GenericPublicKey Pub) : bool :=
  bool_decide (pk_serialize a = pk_serialize b).

Abbreviation BlsPublicKey := (GenericPublicKey PublicKey).

(** [From<Vec<u8>>] and [From<rpc BlsPublicKey>]: both panic on bytes that are not a key. *)
Definition pk_from_vec (b : bytes) : outcome BlsPublicKey :=
  let^ k := expect "Failed to parse public key" (pk_from_bytes b) in Val (mkPublicKey k).

Definition pk_from_fixed (b : array 48) : outcome BlsPublicKey :=
  let^ k := expect "Failed to parse public key from fixed bytes" (pk_from_bytes (arr_bytes b)) in
  Val (mkPublicKey k).

Definition pk_from_point {Pub} (point : Pub) : GenericPublicKey Pub := mkPublicKey point.

Definition bls_pk_default : BlsPublicKey := mkPublicKey pk_default.

(** * Signatures *)

Record GenericSignature (Sig : Type) : Type := mkSignature {
  sig_point : option Sig;
  sig_is_infinity : bool
}.
Arguments mkSignature {Sig} sig_point sig_is_infinity.
Arguments sig_point {Sig} g.
Arguments sig_is_infinity {Sig} g.

Definition sig_empty {Sig} : GenericSignature Sig := mkSignature None false.
Definition sig_is_empty {Sig} (s : GenericSignature Sig) : bool :=
  match sig_point s with None => true | Some _ => false end.

Definition sig_from_point {Sig} (p : Sig) (is_infinity : bool) : GenericSignature Sig :=
  mkSignature (Some p) is_infinity.

Definition sig_serialize {Pub Sig} `{!TSignature Pub Sig} (s : GenericSignature Sig) : array 96 :=
  match sig_point s with
  | Some p => tsig_serialize (Pub:=Pub) p
  | None => NONE_SIGNATURE
  end.

Definition sig_deserialize {Pub Sig} `{!TSignature Pub Sig} (b : bytes) :
  result (GenericSignature Sig) BlsError :=
  let? point :=
    if decide (b = arr_bytes NONE_SIGNATURE) then Ok None
    else result_map Some (tsig_deserialize (Pub:=Pub) b) in
  Ok (mkSignature point (bool_decide (b = arr_bytes INFINITY_SIGNATURE))).

Definition gsig_verify {Pub Sig} `{!TSignature Pub Sig} (s : GenericSignature Sig)
    (pubkey : GenericPublicKey Pub) (msg : Hash256) : bool :=
  match sig_point s with
  | Some p => tsig_verify p (pk_point pubkey) msg
  | None => false
  end.

Abbreviation BlsSignature := (GenericSignature Signature).

Definition bls_sig_serialize : BlsSignature -> array 96 := sig_serialize (Pub:=PublicKey).
Definition bls_sig_deserialize : bytes -> result BlsSignature BlsError :=
  sig_deserialize (Pub:=PublicKey).
Definition bls_sig_verify : BlsSignature -> BlsPublicKey -> Hash256 -> bool := gsig_verify.

Definition sig_to_vec (s : BlsSignature) : bytes := arr_bytes (bls_sig_serialize s).

Definition bls_sig_default : BlsSignature := sig_empty.

(** [From<Vec<u8>>]: panics on bytes that are not a signature. *)
Definition sig_from_vec (b : bytes) : outcome BlsSignature :=
  let^ s := expect "Failed to parse signature" (sig_from_bytes b) in
  Val (sig_from_point s false).

(** * Secret keys *)

Record GenericSecretKey (Sec : Type) : Type := mkSecretKey { sk_point : Sec }.
Arguments mkSecretKey {Sec} sk_point.
Arguments sk_point {Sec} g.

Section secret_key.
Context {Sig Pub Sec : Type} `{!TSecretKey Sig Pub Sec}.

Definition gsk_random (ikm : array 32) : outcome (GenericSecretKey Sec) :=
  let^ p := tsk_random ikm in Val (mkSecretKey p).

Definition gsk_sign (sk : GenericSecretKey Sec) (msg : Hash256) : GenericSignature Sig :=
  sig_from_point (tsk_sign (sk_point sk) msg) false.

Definition gsk_public_key (sk : GenericSecretKey Sec) : GenericPublicKey Pub :=
  pk_from_point (tsk_public_key (sk_point sk)).

Definition gsk_deserialize (b : bytes) : result (GenericSecretKey Sec) BlsError :=
  if negb (lenN b =? SECRET_KEY_BYTES_LEN)%N
  then Err (InvalidSecretKeyLength (lenN b) SECRET_KEY_BYTES_LEN)
  else if forallb (fun x => bool_decide (x = Byte.x00)) b
  then Err InvalidZeroSecretKey
  else let? point := tsk_deserialize b in Ok (mkSecretKey point).

Definition gsk_serialize (sk : GenericSecretKey Sec) : array 32 := tsk_serialize (sk_point sk).
End secret_key.

Abbreviation BlsSecretKey := (GenericSecretKey SecretKey).

(** * The shared macros *)

Inductive DecodeError : Type :=
| DecInvalidByteLength (len expected : N)
| DecBytesInvalid (s : string).

(** [impl_ssz_encode!] *)
Definition impl_ssz_encode {A} (size : N) (ser : A -> array size) : Encode A := {|
  is_ssz_fixed_len := true;
  ssz_fixed_len := size;
  ssz_bytes_len _ := size;
  ssz_append x buf := buf ++ arr_bytes (ser x)
|}.

(** [impl_ssz_decode!] *)
Definition impl_ssz_decode {A} (size : N) (de : bytes -> result A BlsError) (b : bytes) :
  result A DecodeError :=
  if negb (lenN b =? size)%N then Err (DecInvalidByteLength (lenN b) size)
  else map_err (fun e => DecBytesInvalid (bls_error_debug e)) (de b).

(** [impl_display!] and [impl_from_str!]. *)
Definition impl_display {A} {size : N} (ser : A -> array size) (x : A) : string :=
  serde_hex_encode (arr_bytes (ser x)).

Definition impl_from_str {A} (de : bytes -> result A BlsError) (s : string) : result A string :=
  let? b := serde_hex_decode s in map_err bls_error_debug (de b).

(** [impl_debug!], [impl_serde_serialize!] and [impl_serde_deserialize!]: the string that is
    handed to [serialize_str], and the value made of the string that the visitor was given. *)
Definition impl_debug {A} {size : N} (ser : A -> array size) (x : A) : string :=
  serde_hex_encode (arr_bytes (ser x)).

Definition impl_serde_serialize {A} {size : N} (ser : A -> array size) (x : A) : string :=
  impl_display ser x.

Definition impl_serde_deserialize {A} (de : bytes -> result A BlsError) (s : string) :
  result A string := impl_from_str de s.

#[export] Instance pk_encode {Pub} `{!TPublicKey Pub} : Encode (GenericPublicKey Pub) :=
  impl_ssz_encode PUBLIC_KEY_BYTES_LEN pk_serialize.
#[export] Instance bls_sig_encode : Encode BlsSignature :=
  impl_ssz_encode SIGNATURE_BYTES_LEN bls_sig_serialize.

Definition pk_from_ssz_bytes : bytes -> result BlsPublicKey DecodeError :=
  impl_ssz_decode PUBLIC_KEY_BYTES_LEN pk_deserialize.
Definition sig_from_ssz_bytes : bytes -> result BlsSignature DecodeError :=
  impl_ssz_decode SIGNATURE_BYTES_LEN bls_sig_deserialize.

Definition pk_display : BlsPublicKey -> string := impl_display pk_serialize.
Definition pk_from_str : string -> result BlsPublicKey string := impl_from_str pk_deserialize.
Definition sig_display : BlsSignature -> string := impl_display bls_sig_serialize.
Definition sig_from_str : string -> result BlsSignature string :=
  impl_from_str bls_sig_deserialize.
Definition sk_from_str : string -> result BlsSecretKey string :=
  impl_from_str (gsk_deserialize (Sig:=Signature) (Pub:=PublicKey)).
Definition sk_display : BlsSecretKey -> string :=
  impl_display (gsk_serialize (Sig:=Signature) (Pub:=PublicKey)).
Definition sk_serde_serialize : BlsSecretKey -> string :=
  impl_serde_serialize (gsk_serialize (Sig:=Signature) (Pub:=PublicKey)).
Definition sk_serde_deserialize : string -> result BlsSecretKey string :=
  impl_serde_deserialize (gsk_deserialize (Sig:=Signature) (Pub:=PublicKey)).

Definition pk_serde_serialize : BlsPublicKey -> string := impl_serde_serialize pk_serialize.
Definition pk_serde_deserialize : string -> result BlsPublicKey string :=
  impl_serde_deserialize pk_deserialize.
Definition sig_serde_serialize : BlsSignature -> string :=
  impl_serde_serialize bls_sig_serialize.
Definition sig_serde_deserialize : string -> result BlsSignature string :=
  impl_serde_deserialize bls_sig_deserialize.

(** [as_hex_string]: the [Debug] form. *)
Definition pk_as_hex_string : BlsPublicKey -> string := impl_debug pk_serialize.

(** [GenericPublicKey::random]: the public key of a random secret key. *)
Definition pk_random (ikm : array 32) : outcome BlsPublicKey :=
  let^ secret_key := gsk_random (Sig:=Signature) (Pub:=PublicKey) ikm in
  Val (gsk_public_key (Sig:=Signature) secret_key).

(** * Merkleization *)

(** [tree_hash::TreeHash]; the two packing methods of the [Vector] types of this crate panic
    ([unreachable!]). *)
Class TreeHash (A : Type) := {
  tree_hash_type : TreeHashType;
  tree_hash_packed_encoding : A -> outcome bytes;
  tree_hash_packing_factor : outcome N;
  tree_hash_root : A -> Hash256
}.
#[global] Arguments tree_hash_type A {_}.
#[global] Arguments tree_hash_packing_factor A {_}.

(** [impl_tree_hash!] *)
Definition impl_tree_hash {A} (size : N) (ser : A -> array size) : TreeHash A := {|
  tree_hash_type := Vector;
  tree_hash_packed_encoding _ := Panics "internal error: entered unreachable code: Vector should never be packed.";
  tree_hash_packing_factor := Panics "internal error: entered unreachable code: Vector should never be packed.";
  tree_hash_root x :=
    merkle_root (arr_bytes (ser x)) ((size + BYTES_PER_CHUNK - 1) / BYTES_PER_CHUNK)
|}.

#[export] Instance pk_tree_hash {Pub} `{!TPublicKey Pub} : TreeHash (GenericPublicKey Pub) :=
  impl_tree_hash PUBLIC_KEY_BYTES_LEN pk_serialize.
#[export] Instance bls_sig_tree_hash : TreeHash BlsSignature :=
  impl_tree_hash SIGNATURE_BYTES_LEN bls_sig_serialize.

#[export] Instance b256_tree_hash : TreeHash B256 := {|
  tree_hash_type := Vector;
  tree_hash_packed_encoding x := Val (arr_bytes (b256_0 x));
  tree_hash_packing_factor := Val 1%N;
  tree_hash_root x := b256_into_hash256 x
|}.

#[export] Instance bloom_tree_hash : TreeHash Bloom := {|
  tree_hash_type := Vector;
  tree_hash_packed_encoding x := Val (arr_bytes (bloom_0 x));
  tree_hash_packing_factor := Val 1%N;
  tree_hash_root x := keccak256 (arr_bytes (bloom_0 x))
|}.

#[export] Instance bytes_tree_hash : TreeHash Bytes := {|
  tree_hash_type := Vector;
  tree_hash_packed_encoding x := Val (bytes_0 x);
  tree_hash_packing_factor := Val 1%N;
  tree_hash_root x := keccak256 (bytes_0 x)
|}.

#[export] Instance u256_tree_hash : TreeHash U256 := {|
  tree_hash_type := Basic;
  tree_hash_packed_encoding x := Val (arr_bytes (uint_as_le_slice (u256_0 x)));
  tree_hash_packing_factor := Val 1%N;
  tree_hash_root x := uint_as_le_slice (u256_0 x)
|}.

(** The address is the first 20 bytes of a zeroed chunk. *)
#[export] Instance address_tree_hash : TreeHash Address := {|
  tree_hash_type := Vector;
  tree_hash_packed_encoding x := Val (arr_bytes (pad_to 32 (arr_bytes (address_0 x))));
  tree_hash_packing_factor := Val 1%N;
  tree_hash_root x := pad_to 32 (arr_bytes (address_0 x))
|}.

#[export] Instance kzg_tree_hash : TreeHash KzgCommitment := {|
  tree_hash_type := bytes48_tree_hash_type;
  tree_hash_packed_encoding x := bytes48_packed_encoding (kzg_0 x);
  tree_hash_packing_factor := bytes48_packing_factor;
  tree_hash_root x := bytes48_root (kzg_0 x)
|}.

Definition write_all {A} (enc : A -> outcome bytes) (msg : string) :
  list A -> MerkleHasher -> outcome MerkleHasher :=
  fix go l h :=
    match l with
    | [] => Val h
    | x :: l' =>
        let^ b := enc x in
        match mh_write h b with
        | Some h' => go l' h'
        | None => Panics msg
        end
    end.

Definition finish_or (msg : string) (h : MerkleHasher) : outcome Hash256 :=
  match mh_finish h with Some r => Val r | None => Panics msg end.

(** [vec_tree_hash_root::<T, N>] *)
Definition vec_tree_hash_root {T} `{!TreeHash T} (n : N) (vec : list T) : outcome Hash256 :=
  match tree_hash_type T with
  | Basic =>
      let^ pf := tree_hash_packing_factor T in
      let^ leaves := div_ceil n pf in
      let^ h := write_all tree_hash_packed_encoding
        "ssz_types variable vec should not contain more elements than max" vec
        (mh_with_leaves leaves) in
      finish_or "ssz_types variable vec should not have a remaining buffer" h
  | Container | List | Vector =>
      let^ h := write_all (fun x => Val (arr_bytes (tree_hash_root x)))
        "ssz_types vec should not contain more elements than max" vec (mh_with_leaves n) in
      finish_or "ssz_types vec should not have a remaining buffer" h
  end.

(** [bitfield_bytes_tree_hash_root::<N>] *)
Definition bitfield_bytes_tree_hash_root (n : N) (b : bytes) : outcome Hash256 :=
  let^ byte_size := div_ceil n 8 in
  let^ leaf_count := div_ceil byte_size BYTES_PER_CHUNK in
  match mh_write (mh_with_leaves leaf_count) b with
  | Some h => finish_or "bitfield tree hash buffer should not exceed leaf limit" h
  | None => Panics "bitfield should not exceed tree hash leaf limit"
  end.

(** * Signing roots *)

Record SigningData : Type := mkSigningData { sd_object_root : Hash256; sd_domain : Hash256 }.

Definition signing_data_root (d : SigningData) : Hash256 :=
  derive_root [hash256_root (sd_object_root d); hash256_root (sd_domain d)].

(** The trait [SignedRoot] with its provided method. *)
Class SignedRoot (A : Type) := signed_root_tree_hash :: TreeHash A.

Definition signing_root {A} `{!SignedRoot A} (x : A) (domain : Hash256) : Hash256 :=
  signing_data_root (mkSigningData (tree_hash_root x) domain).
End blst.

Abbreviation BlsPublicKey := (GenericPublicKey PublicKey).
Abbreviation BlsSignature := (GenericSignature Signature).
Abbreviation BlsSecretKey := (GenericSecretKey SecretKey).

(** * Properties of the codecs *)

Section codec_laws.
Context {X : Ext} {L : ExtLaws X}.

(** A 48-byte string accepted as a public key is its compressed form, and is not the point at
    infinity. *)
Lemma pk_deserialize_canonical b (k : BlsPublicKey) :
  pk_deserialize b = Ok k ->
  arr_bytes (pk_serialize k) = b /\ b <> arr_bytes INFINITY_PUBLIC_KEY.
Proof.
  unfold pk_deserialize. case_decide as Hinf; [done |]. simpl.
  destruct (N.eqb_spec (lenN b) PUBLIC_KEY_BYTES_LEN) as [Hl|Hl]; simpl; [|done].
  destruct (pk_key_validate b) as [p|e] eqn:Hv; simpl; [|done].
  intros [= <-]. split; [by apply pk_key_validate_canonical | done].
Qed.

Lemma pk_deserialize_length b (k : BlsPublicKey) :
  pk_deserialize b = Ok k -> lenN b = PUBLIC_KEY_BYTES_LEN.
Proof. intros [<- _]%pk_deserialize_canonical. apply array_len. Qed.

(** The signature decoder accepts the all-zero string as the empty signature, which verifies
    nothing, and re-serializes 96-byte strings to themselves. *)
Lemma sig_deserialize_canonical b s :
  lenN b = SIGNATURE_BYTES_LEN -> bls_sig_deserialize b = Ok s ->
  arr_bytes (bls_sig_serialize s) = b.
Proof.
  intros Hl. unfold bls_sig_deserialize, sig_deserialize. case_decide as Hz; simpl.
  - intros [= <-]. by rewrite Hz.
  - destruct (sig_from_bytes b) as [p|e] eqn:Hs; simpl; [|done].
    intros [= <-]. by apply sig_from_bytes_canonical.
Qed.

Lemma sig_empty_never_verifies pk msg : bls_sig_verify sig_empty pk msg = false.
Proof. done. Qed.

(** A signature made by a key verifies under its public key and message. *)
Lemma gsk_sign_verifies (sk : BlsSecretKey) msg :
  bls_sig_verify (gsk_sign (Pub:=PublicKey) sk msg) (gsk_public_key (Sig:=Signature) sk) msg = true.
Proof.
  unfold bls_sig_verify, gsig_verify, gsk_sign; simpl.
  apply bool_decide_eq_true. apply sig_verify_sign.
Qed.

#[export] Instance pk_fixed_encode : FixedEncode BlsPublicKey.
Proof. split; unfold as_ssz_bytes; simpl; [done.. |]. intros k. apply array_len. Qed.

#[export] Instance bls_sig_fixed_encode : FixedEncode BlsSignature.
Proof. split; unfold as_ssz_bytes; simpl; [done.. |]. intros s. apply array_len. Qed.
End codec_laws.

Section main.
Context {X : Ext} {L : ExtLaws X}.

(** The public-key decoder is canonical: a string it accepts is the compressed form of the
    key it returns; it rejects the point at infinity and every other length than 48. *)
Theorem public_key_codec b :
  (forall k : BlsPublicKey, pk_deserialize b = Ok k -> arr_bytes (pk_serialize k) = b) /\
  (pk_deserialize (Pub:=PublicKey) (arr_bytes INFINITY_PUBLIC_KEY) = Err InvalidInfinityPublicKey) /\
  (lenN b <> 48%N -> pk_deserialize (Pub:=PublicKey) b = Err (InvalidByteLength (lenN b) 48)).
Proof.
  split_and!.
  - intros k [Hk _]%pk_deserialize_canonical. done.
  - unfold pk_deserialize. by rewrite decide_True.
  - intros Hlen. unfold pk_deserialize. rewrite decide_False.
    + simpl. apply N.eqb_neq in Hlen. unfold PUBLIC_KEY_BYTES_LEN. by rewrite Hlen.
    + intros ->. by rewrite array_len in Hlen.
Qed.

(** A signature survives its encoding: what is decoded encodes to the same 96 bytes; the
    96 zero bytes are the empty signature, which verifies nothing. *)
Theorem signature_codec (s : BlsSignature) pk msg :
  (exists s', bls_sig_deserialize (arr_bytes (bls_sig_serialize s)) = Ok s' /\
              bls_sig_serialize s' = bls_sig_serialize s) /\
  (forall s', bls_sig_deserialize (arr_bytes NONE_SIGNATURE) = Ok s' ->
              bls_sig_verify s' pk msg = false).
Proof.
  split.
  - destruct s as [[p|] inf].
    + assert (exists s', bls_sig_deserialize (arr_bytes (sig_to_bytes p)) = Ok s') as [s' Hs'].
      { unfold bls_sig_deserialize, sig_deserialize. case_decide; simpl; [by eexists |].
        rewrite sig_from_bytes_to_bytes. by eexists. }
      exists s'. split; [done |]. apply array_eq. change (bls_sig_serialize (mkSignature _ (Some p) inf))
        with (sig_to_bytes p). apply sig_deserialize_canonical; [apply array_len | done].
    + exists (mkSignature _ None
        (bool_decide (arr_bytes NONE_SIGNATURE = arr_bytes INFINITY_SIGNATURE))).
      split; [|reflexivity]. change (bls_sig_serialize (mkSignature _ None inf)) with NONE_SIGNATURE.
      unfold bls_sig_deserialize, sig_deserialize. rewrite decide_True by reflexivity. reflexivity.
  - intros s'. unfold bls_sig_deserialize, sig_deserialize. rewrite decide_True by done. simpl.
    intros [= <-]. apply sig_empty_never_verifies.
Qed.

(** The fixed-size SSZ encoders of the wrapped types append exactly the number of bytes they
    announce and keep what the buffer holds. *)
Theorem ssz_fixed_encoders :
  FixedEncode B256 /\ FixedEncode U256 /\ FixedEncode Address /\ FixedEncode BlsPublicKey /\
  FixedEncode BlsSignature.
Proof. split_and!; apply _. Qed.
End main.
