(* ===== verification/Signer.v ===== *)
(** Fork data, signing domains and the relay's signer:
    [crates/primitives/src/blst/signer.rs]. *)

From S2P Require Import Prelude External Types Blst.

(** [type Domain = [u8; 32]] *)
Abbreviation Domain := (array 32).

(** A zeroed domain whose first four bytes are copied from [tag] and whose last 28 are the
    first 28 of the fork data root. *)
Definition fill_domain (tag : array 4) (root : Hash256) : Domain.
Proof.
  refine (Array (arr_bytes tag ++ take 28 (arr_bytes root)) _).
  abstract (apply Is_true_eq_left, N.eqb_eq; unfold lenN;
    rewrite length_app, length_take, !array_length; reflexivity).
Defined.

Definition ProposerDomain : array 4 := array_fill 4 Byte.x00.
Definition BuilderDomain : array 4 := @Array 4 [Byte.x00; Byte.x00; Byte.x00; Byte.x01] I.

(** [reth::primitives::NamedChain]: the variants the code distinguishes, and the others with
    their [Debug] name. *)
Inductive NamedChain : Type :=
| Mainnet | Goerli | Holesky | Sepolia | Dev | OtherChain (debug : string).

Definition named_chain_debug (c : NamedChain) : string :=
  match c with
  | Mainnet => "Mainnet" | Goerli => "Goerli" | Holesky => "Holesky"
  | Sepolia => "Sepolia" | Dev => "Dev" | OtherChain d => d
  end.

Section signer.
Context `{Ext}.

Record ForkData : Type := mkForkData {
  fd_current_version : array 4;
  fd_genesis_validators_root : Hash256
}.

Definition hash256_default : Hash256 := array_fill 32 Byte.x00.
Definition fork_data_default : ForkData :=
  mkForkData (array_fill 4 Byte.x00) hash256_default.

(** The derived [TreeHash]. *)
Definition fork_data_root (d : ForkData) : Hash256 :=
  derive_root [bytes4_root (fd_current_version d); hash256_root (fd_genesis_validators_root d)].

Definition fd_compute_builder_domain (d : ForkData) : Domain :=
  fill_domain BuilderDomain (fork_data_root d).

Definition fd_compute_proposer_domain (d : ForkData) : Domain :=
  fill_domain ProposerDomain (fork_data_root d).

Record ForkDatas : Type := mkForkDatas { fds_builder : ForkData; fds_proposer : ForkData }.

Definition from_genesis_and_current_version (genesis_fork_version current_version : array 4)
    (genesis_validators_root : Hash256) : ForkDatas :=
  let builder := mkForkData genesis_fork_version hash256_default in
  let proposer := mkForkData current_version genesis_validators_root in
  mkForkDatas builder proposer.

Definition fork_datas_new (builder proposer : ForkData) : ForkDatas :=
  mkForkDatas builder proposer.

Definition compute_builder_domain (d : ForkDatas) : Domain :=
  fd_compute_builder_domain (fds_builder d).
Definition compute_proposer_domain (d : ForkDatas) : Domain :=
  fd_compute_proposer_domain (fds_proposer d).

(** * Fork versions *)

Record ForkVersion : Type := mkForkVersion { fv_0 : array 4 }.

Definition fork_version_from_str (s : string) : fallible ForkVersion string :=
  let s := trim_start_0x s in
  match hex_decode s with
  | Err e => Val (Err ("Invalid fork version: " ++ hex_error_display e)%string)
  | Ok b =>
      if negb (lenN b =? 4)%N then Val (Err "Invalid fork version length")
      else match array_of 4 b with
           | Some arr => Val (Ok (mkForkVersion arr))
           | None => Panics "slice with incorrect length"
           end
  end.

Definition try_from_chain (chain : NamedChain) : fallible ForkVersion string :=
  match chain with
  | Mainnet => fork_version_from_str "0x00000000"
  | Goerli => fork_version_from_str "0x00001020"
  | Holesky => fork_version_from_str "0x01017000"
  | Sepolia => fork_version_from_str "0x90000069"
  | Dev => fork_version_from_str "0x20000089"
  | OtherChain _ => Val (Err ("Unsupported chain: " ++ named_chain_debug chain)%string)
  end.

Definition unwrap_msg : string := "called `Result::unwrap()` on an `Err` value".

(** [ForkDatas::default] *)
Definition fork_datas_default : outcome ForkDatas :=
  let^ genesis_validators_root := expect unwrap_msg
    (hash256_from_str "0x0000000000000000000000000000000000000000000000000000000000000001") in
  let^ version := fork_version_from_str "0x20000093" in
  let^ version := expect unwrap_msg version in
  Val (mkForkDatas fork_data_default (mkForkData (fv_0 version) genesis_validators_root)).

(** * The signer *)

Record BlsSigner : Type := mkBlsSigner {
  signer_secret_key : BlsSecretKey;
  signer_fork_data : ForkDatas
}.

Definition signer_new (sk : BlsSecretKey) (fork_data : ForkDatas) : BlsSigner :=
  mkBlsSigner sk fork_data.

(** [BlsSigner::default], from the random bytes of the secret key. *)
Definition bls_signer_default (ikm : array 32) : outcome BlsSigner :=
  let^ secret_key := gsk_random (Sig:=Signature) (Pub:=PublicKey) ikm in
  let^ fork_data := fork_datas_default in
  Val (mkBlsSigner secret_key fork_data).

(** [BlsSigner::sign]: the builder domain. *)
Definition signer_sign {A} `{!SignedRoot A} (s : BlsSigner) (message : A) : BlsSignature :=
  let domain := compute_builder_domain (signer_fork_data s) in
  let root := signing_root message domain in
  gsk_sign (Pub:=PublicKey) (signer_secret_key s) root.

(** [BlsSigner::proposer_sign]: the proposer domain. *)
Definition signer_proposer_sign {A} `{!SignedRoot A} (s : BlsSigner) (message : A) :
  BlsSignature :=
  let domain := compute_proposer_domain (signer_fork_data s) in
  let root := signing_root message domain in
  gsk_sign (Pub:=PublicKey) (signer_secret_key s) root.

Definition signer_public_key (s : BlsSigner) : BlsPublicKey :=
  gsk_public_key (Sig:=Signature) (signer_secret_key s).

(** [fork_data_builder] and [fork_data_proposer] *)
Definition signer_fork_data_builder (s : BlsSigner) : ForkData := fds_builder (signer_fork_data s).
Definition signer_fork_data_proposer (s : BlsSigner) : ForkData :=
  fds_proposer (signer_fork_data s).
End signer.

(** * Properties *)

Section laws.
Context {X : Ext}.

Context {L : ExtLaws X}.

Lemma fork_version_from_str_total s :
  exists r, fork_version_from_str s = Val r.
Proof.
  unfold fork_version_from_str. destruct (hex_decode _) as [b|e]; [|eauto].
  destruct (N.eqb_spec (lenN b) 4) as [Hl|Hl]; simpl; [|eauto].
  destruct (array_of 4 b) eqn:Ha; [eauto |]. by apply array_of_None in Ha.
Qed.

(** Encoding a version, with or without the prefix, parses back to it. *)
Lemma fork_version_roundtrip (v : array 4) (prefix : string) :
  prefix = EmptyString \/ prefix = "0x" ->
  fork_version_from_str (prefix +:+ hex_encode (arr_bytes v)) = Val (Ok (mkForkVersion v)).
Proof.
  intros Hp. unfold fork_version_from_str.
  assert (trim_start_0x (prefix +:+ hex_encode (arr_bytes v)) = hex_encode (arr_bytes v)) as ->.
  { destruct Hp as [-> | ->]; simpl; apply hex_encode_trim. }
  rewrite hex_decode_encode, array_len, N.eqb_refl. simpl. by rewrite array_of_bytes.
Qed.

(** What the relay signs verifies under its own public key in the builder domain. *)
Lemma signer_sign_verifies {A} `{!SignedRoot A} (s : BlsSigner) (m : A) :
  bls_sig_verify (signer_sign s m) (signer_public_key s)
    (signing_root m (compute_builder_domain (signer_fork_data s))) = true.
Proof. apply gsk_sign_verifies. Qed.

Lemma signer_proposer_sign_verifies {A} `{!SignedRoot A} (s : BlsSigner) (m : A) :
  bls_sig_verify (signer_proposer_sign s m) (signer_public_key s)
    (signing_root m (compute_proposer_domain (signer_fork_data s))) = true.
Proof. apply gsk_sign_verifies. Qed.
End laws.

Section main.
Context {X : Ext} {L : ExtLaws X}.

(** Parsing a fork version inverts printing it, with or without the [0x] prefix, and on any
    string it either succeeds or reports an error: it never panics. *)
Theorem fork_version_parse (v : array 4) (s : string) :
  fork_version_from_str (hex_encode (arr_bytes v)) = Val (Ok (mkForkVersion v)) /\
  fork_version_from_str ("0x" +:+ hex_encode (arr_bytes v)) = Val (Ok (mkForkVersion v)) /\
  exists r, fork_version_from_str s = Val r.
Proof.
  split_and!; [| |apply fork_version_from_str_total].
  - apply (fork_version_roundtrip v EmptyString). by left.
  - apply (fork_version_roundtrip v "0x"). by right.
Qed.
End main.
