(* ===== verification/BeaconTypes.v ===== *)
(** The beacon-node types of [crates/primitives/src/beacon/]: validator registrations, known
    validators, proposer duties, fork names, the text forms of KZG commitments, versioned
    data and the blinded-block response. *)

From stdpp Require Import pretty.
From S2P Require Import Prelude External Types Blst Signer.

(** * Fork names ([fork.rs]) *)

Inductive ForkName : Type := Base | Altair | Merge | Capella | Deneb.

#[export] Instance fork_name_eq_dec : EqDecision ForkName.
Proof. solve_decision. Defined.

Definition fork_name_from_str (fork_name : string) : result ForkName string :=
  let s := to_lowercase fork_name in
  if (s =? "phase0")%string || (s =? "base")%string then Ok Base
  else if (s =? "altair")%string then Ok Altair
  else if (s =? "bellatrix")%string || (s =? "merge")%string then Ok Merge
  else if (s =? "capella")%string then Ok Capella
  else if (s =? "deneb")%string then Ok Deneb
  else Err ("unknown fork name: " ++ fork_name)%string.

(** [Display] *)
Definition fork_name_display (f : ForkName) : string :=
  match f with
  | Base => "phase0"
  | Altair => "altair"
  | Merge => "bellatrix"
  | Capella => "capella"
  | Deneb => "deneb"
  end.

(** [TryFrom<String>] and [From<ForkName> for String], the serde forms. *)
Definition fork_name_try_from (s : string) : result ForkName string := fork_name_from_str s.
Definition fork_name_into_string (f : ForkName) : string := fork_name_display f.

Record Versioned (T : Type) : Type := mkVersioned { vs_version : ForkName; vs_data : T }.
Arguments mkVersioned {T} vs_version vs_data.

Definition versioned_new {T} (version : ForkName) (data : T) : Versioned T :=
  mkVersioned version data.
Arguments vs_version {T} v.
Arguments vs_data {T} v.

(** * Formatting of KZG commitments ([kzg_commitments.rs]) *)

Definition hex_digit (n : N) : ascii :=
  if (n <? 10)%N then Ascii.ascii_of_N (48 + n) else Ascii.ascii_of_N (87 + n).

(** [{:02x}] *)
Definition byte_02x (b : byte) : string :=
  let n := Strings.Byte.to_N b in
  String (hex_digit (n / 16)) (String (hex_digit (n mod 16)) EmptyString).

Fixpoint concat_02x (l : bytes) : string :=
  match l with [] => EmptyString | b :: l' => (byte_02x b ++ concat_02x l')%string end.

Section beacon.
Context `{Ext}.

Definition BYTES_PER_COMMITMENT : N := 48.

(** [Display] shows the first and the last two bytes; [Debug] (and the serde form) all. *)
Definition kzg_display (c : KzgCommitment) : string :=
  let b := arr_bytes (kzg_0 c) in
  ("0x" ++ concat_02x (take 2 b) ++ "…" ++ concat_02x (drop 46 b))%string.

Definition kzg_debug (c : KzgCommitment) : string := serde_hex_encode (arr_bytes (kzg_0 c)).

Definition kzg_from_str (s : string) : result KzgCommitment string :=
  let? b := serde_hex_decode s in
  match array_of BYTES_PER_COMMITMENT b with
  | Some a => Ok (mkKzg a)
  | None => Err ("InvalidByteLength: got " +:+ pretty (lenN b) +:+ ", expected " +:+
                 pretty BYTES_PER_COMMITMENT)
  end.

(** The serde form: the [Debug] text out, [from_str] in. *)
Definition kzg_serialize (c : KzgCommitment) : string := kzg_debug c.
Definition kzg_deserialize (s : string) : result KzgCommitment string := kzg_from_str s.

(** * Registrations ([registrations.rs]) *)

Record ValidatorRegistrationMessage : Type := mkRegistrationMessage {
  rm_fee_recipient : Address;
  rm_gas_limit : u64;
  rm_timestamp : u64;
  rm_pubkey : BlsPublicKey
}.

Record ValidatorRegistration : Type := mkRegistration {
  vr_message : ValidatorRegistrationMessage;
  vr_signature : BlsSignature
}.

(** A struct that derives [TreeHash]: a container, which is never packed. *)
Definition derive_tree_hash {A} (root : A -> Hash256) : TreeHash A := {|
  tree_hash_type := Container;
  tree_hash_packed_encoding _ := Panics "Struct should never be packed.";
  tree_hash_packing_factor := Panics "Struct should never be packed.";
  tree_hash_root := root
|}.

#[export] Instance registration_message_signed_root : SignedRoot ValidatorRegistrationMessage :=
  derive_tree_hash (fun m => derive_root
    [tree_hash_root (rm_fee_recipient m); u64_root (rm_gas_limit m);
     u64_root (rm_timestamp m); tree_hash_root (rm_pubkey m)]).

Definition registration_verify_signature (r : ValidatorRegistration) (fork_data : ForkData) :
  bool :=
  let root := signing_root (vr_message r) (fd_compute_builder_domain fork_data) in
  bls_sig_verify (vr_signature r) (rm_pubkey (vr_message r)) root.

(** * Known validators ([known_validator.rs]) *)

Record KnownValidator : Type := mkKnownValidator {
  kv_pubkey : BlsPublicKey;
  kv_withdrawal_credentials : string;
  kv_effective_balance : string;
  kv_slashed : bool;
  kv_activation_eligibility_epoch : u64;
  kv_activation_epoch : u64;
  kv_exit_epoch : u64;
  kv_withdrawable_epoch : u64
}.

Record ValidatorEntry : Type := mkValidatorEntry {
  ve_index : u64;
  ve_balance : string;
  ve_status : string;
  ve_validator : KnownValidator
}.

Record KnownValidatorResponse : Type := mkKnownValidatorResponse {
  kvr_execution_optimistic : bool;
  kvr_finalized : bool;
  kvr_data : ValidatorEntry
}.

Definition is_active (r : KnownValidatorResponse) : bool :=
  str_contains "active" (ve_status (kvr_data r)).

(** * Duties, sync status, fork data ([proposer_duties.rs], [sync_status.rs], [fork.rs]) *)

(** The public key of a duty is the [FixedBytes<48>] of the RPC types. *)
Record ProposerDutiesData : Type := mkProposerDuty {
  pd_slot : u64;
  pd_pubkey : array 48;
  pd_validator_index : u64
}.

Record ProposerDutiesResponse : Type := mkProposerDuties { pdr_data : list ProposerDutiesData }.

Definition merge_with (self other : ProposerDutiesResponse) : list ProposerDutiesData :=
  pdr_data self ++ pdr_data other.

Record BeaconSyncStatus : Type := mkSyncStatus { ss_head_slot : u64; ss_is_syncing : bool }.
Record BeaconSyncStatusResponse : Type := mkSyncStatusResponse { ssr_data : BeaconSyncStatus }.

Record CurrentFork : Type := mkCurrentFork { cf_current_version : string }.
Record ForkDataResp : Type := mkForkDataResp {
  fdr_genesis_time : string;
  fdr_genesis_validators_root : string;
  fdr_fork : CurrentFork
}.
Record GetForkResponse : Type := mkGetForkResponse { gfr_data : ForkDataResp }.

(** * The response to a blinded block ([beacon/mod.rs]) *)

Record BlindedBlockResponse : Type := mkBlindedBlockResponse {
  bbr_execution_payload : ExecutionPayload;
  bbr_blobs_bundle : BlobsBundle
}.
End beacon.

(** * Properties *)

Section laws.
Context {X : Ext}.

(** The parser inverts the printer. *)
Lemma fork_name_roundtrip f : fork_name_from_str (fork_name_display f) = Ok f.
Proof. by destruct f. Qed.

(** The names accepted are the printed ones and the two aliases, in any case. *)
Lemma fork_name_from_str_inv s f :
  fork_name_from_str s = Ok f ->
  to_lowercase s = fork_name_display f \/
  (f = Base /\ to_lowercase s = "base") \/ (f = Merge /\ to_lowercase s = "merge").
Proof.
  unfold fork_name_from_str.
  repeat match goal with
  | |- context [(?a =? ?b)%string] => destruct (String.eqb_spec a b) as [->|?]; simpl
  end; intros [= <-]; auto.
Qed.

Lemma prefix_app pat s :
  String.prefix pat s = true <-> exists b, s = (pat ++ b)%string.
Proof.
  revert s; induction pat as [|p pat IH]; intros s; simpl.
  - split; [intros _; by exists s | by destruct s].
  - destruct s as [|c s]; simpl; [split; [done | by intros [b [=]]]|].
    destruct (ascii_dec p c) as [->|Hne]; [rewrite IH|]; split.
    + intros [b ->]. by exists b.
    + intros [b [= ->]]. by exists b.
    + done.
    + intros [b [= ]]. congruence.
Qed.

Lemma str_contains_spec pat s :
  str_contains pat s = true <-> exists a b, s = (a ++ pat ++ b)%string.
Proof.
  induction s as [|c s IH]; unfold str_contains; fold str_contains;
    rewrite orb_true_iff, prefix_app.
  - split.
    + intros [[b Hb]|]; [|done]. by exists EmptyString, b.
    + intros (a & b & Hab). destruct a; [|done]. left. by exists b.
  - rewrite IH. split.
    + intros [[b Hb]|(a & b & ->)]; [by exists EmptyString, b | by exists (String c a), b].
    + intros (a & b & Hab). destruct a as [|c' a]; simpl in *.
      * left. by exists b.
      * injection Hab as -> ->. right. by exists a, b.
Qed.

Context {L : ExtLaws X}.

(** The serde form of a commitment parses back to it. *)
Lemma kzg_roundtrip c : kzg_from_str (kzg_debug c) = Ok c.
Proof.
  unfold kzg_from_str, kzg_debug. rewrite serde_hex_decode_encode. simpl.
  rewrite array_of_bytes. by destruct c.
Qed.
End laws.

Section main.
Context {X : Ext}.

(** Fork names: the parser inverts the printer, and accepts, in any case, exactly the printed
    names and the aliases [base] and [merge]. *)
Theorem fork_name_parse f s g :
  fork_name_from_str (fork_name_display f) = Ok f /\
  (fork_name_from_str s = Ok g <->
   to_lowercase s = fork_name_display g \/
   (g = Base /\ to_lowercase s = "base") \/ (g = Merge /\ to_lowercase s = "merge")).
Proof.
  split; [apply fork_name_roundtrip |]. split; [apply fork_name_from_str_inv |].
  unfold fork_name_from_str. intros [->|[[-> ->]|[-> ->]]]; [by destruct g | done | done].
Qed.

(** A validator is active exactly when its status contains the word [active] somewhere,
    which the statuses [active_ongoing], [active_exiting] and [active_slashed] of the beacon
    API do. *)
Theorem is_active_substring r :
  is_active r = true <-> exists a b, ve_status (kvr_data r) = (a ++ "active" ++ b)%string.
Proof. apply str_contains_spec. Qed.

Context {L : ExtLaws X}.

(** The text form of a KZG commitment parses back to it, and a text is accepted only when it
    holds 48 bytes, which are then the commitment. *)
Theorem kzg_text_roundtrip c s :
  kzg_from_str (kzg_debug c) = Ok c /\
  (forall c', kzg_from_str s = Ok c' <-> serde_hex_decode s = Ok (arr_bytes (kzg_0 c'))).
Proof.
  split; [apply kzg_roundtrip |]. intros c'. unfold kzg_from_str, BYTES_PER_COMMITMENT.
  destruct (serde_hex_decode s) as [b|e]; simpl; [|naive_solver].
  destruct (array_of 48 b) as [a|] eqn:Ha.
  - apply array_of_Some in Ha as <-. split; [by intros [= <-] |].
    destruct c' as [a']. intros [= Heq]. do 2 f_equal. by apply array_eq.
  - apply array_of_None in Ha. split; [done |]. intros [= ->]. by rewrite array_len in Ha.
Qed.
End main.
