(* ===== verification/BeaconBlock.v ===== *)
(** Beacon blocks and blinded blocks, and the unblinding of one into the other:
    [crates/primitives/src/beacon/beacon_block.rs] and [blinded_block.rs]. *)

From S2P Require Import Prelude External Types Blst Signer BeaconTypes.

Section blocks.
Context `{Ext}.

(** * The operations of a block body

    [BitList] and [BitVector] are read as lists of bits, [VariableList] and [FixedVector] as
    lists. *)

Record Eth1Data : Type := mkEth1Data {
  e1_deposit_root : B256; e1_deposit_count : u64; e1_block_hash : B256 }.

Record BeaconBlockHeader : Type := mkBeaconBlockHeader {
  bh_slot : u64; bh_proposer_index : u64;
  bh_parent_root : B256; bh_state_root : B256; bh_body_root : B256 }.

Record SignedBeaconBlockHeader : Type := mkSignedBeaconBlockHeader {
  sbh_message : BeaconBlockHeader; sbh_signature : BlsSignature }.

Record ProposerSlashing : Type := mkProposerSlashing {
  ps_signed_header_1 : SignedBeaconBlockHeader;
  ps_signed_header_2 : SignedBeaconBlockHeader }.

Record Checkpoint : Type := mkCheckpoint { cp_epoch : u64; cp_root : B256 }.

Record AttestationData : Type := mkAttestationData {
  ad_slot : u64; ad_index : u64; ad_beacon_block_root : B256;
  ad_source : Checkpoint; ad_target : Checkpoint }.

Record IndexedAttestation : Type := mkIndexedAttestation {
  ia_attesting_indices : list u64; ia_data : AttestationData; ia_signature : BlsSignature }.

Record AttesterSlashing : Type := mkAttesterSlashing {
  as_attestation_1 : IndexedAttestation; as_attestation_2 : IndexedAttestation }.

Record Attestation : Type := mkAttestation {
  at_aggregation_bits : list bool; at_data : AttestationData; at_signature : BlsSignature }.

Record DepositData : Type := mkDepositData {
  dd_pubkey : BlsPublicKey; dd_withdrawal_credentials : B256;
  dd_amount : u64; dd_signature : BlsSignature }.

Record Deposit : Type := mkDeposit { dep_proof : list B256; dep_data : DepositData }.

Record VoluntaryExit : Type := mkVoluntaryExit { vx_epoch : u64; vx_validator_index : u64 }.

Record SignedVoluntaryExit : Type := mkSignedVoluntaryExit {
  svx_message : VoluntaryExit; svx_signature : BlsSignature }.

Record SyncAggregate : Type := mkSyncAggregate {
  sa_sync_committee_bits : list bool; sa_sync_committee_signature : BlsSignature }.

Record BlsToExecutionChange : Type := mkBlsToExecutionChange {
  bc_validator_index : u64; bc_from_bls_pubkey : BlsPublicKey;
  bc_to_execution_address : Address }.

Record SignedBlsToExecutionChange : Type := mkSignedBlsToExecutionChange {
  sbc_message : BlsToExecutionChange; sbc_signature : BlsSignature }.

(** * Blinded blocks *)

Record BlindedBlockBody : Type := mkBlindedBlockBody {
  bbb_randao_reveal : BlsSignature;
  bbb_eth1_data : Eth1Data;
  bbb_graffiti : B256;
  bbb_proposer_slashings : list ProposerSlashing;
  bbb_attester_slashings : list AttesterSlashing;
  bbb_attestations : list Attestation;
  bbb_deposits : list Deposit;
  bbb_voluntary_exits : list SignedVoluntaryExit;
  bbb_sync_aggregate : SyncAggregate;
  bbb_execution_payload_header : ExecutionPayloadHeader;
  bbb_bls_to_execution_changes : list SignedBlsToExecutionChange;
  bbb_blob_kzg_commitments : list KzgCommitment
}.

Record BlindedBlock : Type := mkBlindedBlock {
  bl_slot : u64;
  bl_proposer_index : u64;
  bl_parent_root : B256;
  bl_state_root : B256;
  bl_body : BlindedBlockBody
}.

Record SignedBlindedBlock : Type := mkSignedBlindedBlock {
  sbl_message : BlindedBlock;
  sbl_signature : BlsSignature
}.

Definition sbl_slot (b : SignedBlindedBlock) : u64 := bl_slot (sbl_message b).
Definition sbl_proposer_index (b : SignedBlindedBlock) : u64 := bl_proposer_index (sbl_message b).
Definition sbl_block_hash (b : SignedBlindedBlock) : B256 :=
  eh_block_hash (bbb_execution_payload_header (bl_body (sbl_message b))).

(** * Unblinded blocks *)

Record BeaconBlockBody : Type := mkBeaconBlockBody {
  bb_randao_reveal : BlsSignature;
  bb_eth1_data : Eth1Data;
  bb_graffiti : B256;
  bb_proposer_slashings : list ProposerSlashing;
  bb_attester_slashings : list AttesterSlashing;
  bb_attestations : list Attestation;
  bb_deposits : list Deposit;
  bb_voluntary_exits : list SignedVoluntaryExit;
  bb_sync_aggregate : SyncAggregate;
  bb_execution_payload : ExecutionPayload;
  bb_bls_to_execution_changes : list SignedBlsToExecutionChange;
  bb_blob_kzg_commitments : list KzgCommitment
}.

Definition beacon_block_body_new (execution_payload : ExecutionPayload) (b : BlindedBlockBody) :
  BeaconBlockBody := {|
  bb_randao_reveal := bbb_randao_reveal b;
  bb_eth1_data := bbb_eth1_data b;
  bb_graffiti := bbb_graffiti b;
  bb_proposer_slashings := bbb_proposer_slashings b;
  bb_attester_slashings := bbb_attester_slashings b;
  bb_attestations := bbb_attestations b;
  bb_deposits := bbb_deposits b;
  bb_voluntary_exits := bbb_voluntary_exits b;
  bb_sync_aggregate := bbb_sync_aggregate b;
  bb_execution_payload := execution_payload;
  bb_bls_to_execution_changes := bbb_bls_to_execution_changes b;
  bb_blob_kzg_commitments := bbb_blob_kzg_commitments b
|}.

Record BeaconBlock : Type := mkBeaconBlock {
  bk_slot : u64;
  bk_proposer_index : u64;
  bk_parent_root : B256;
  bk_state_root : B256;
  bk_body : BeaconBlockBody
}.

Definition beacon_block_new (execution_payload : ExecutionPayload) (b : BlindedBlock) :
  BeaconBlock := {|
  bk_slot := bl_slot b;
  bk_proposer_index := bl_proposer_index b;
  bk_parent_root := bl_parent_root b;
  bk_state_root := bl_state_root b;
  bk_body := beacon_block_body_new execution_payload (bl_body b)
|}.

Record SignedBeaconBlock : Type := mkSignedBeaconBlock {
  sb_message : BeaconBlock;
  sb_signature : BlsSignature
}.

Definition signed_beacon_block_new (execution_payload : ExecutionPayload) (b : BlindedBlock)
    (blinded_block_sig : BlsSignature) : SignedBeaconBlock :=
  mkSignedBeaconBlock (beacon_block_new execution_payload b) blinded_block_sig.

Record SignedBeaconBlockContent : Type := mkSignedBeaconBlockContent {
  sc_signed_block : SignedBeaconBlock;
  sc_kzg_proofs : list KzgCommitment;
  sc_blobs : list Blob
}.

Definition signed_beacon_block_content_new (execution_payload : ExecutionPayload)
    (b : BlindedBlock) (blinded_block_sig : BlsSignature) (blobs_data : BlobsBundle) :
  SignedBeaconBlockContent := {|
  sc_signed_block := signed_beacon_block_new execution_payload b blinded_block_sig;
  sc_kzg_proofs := bb_proofs blobs_data;
  sc_blobs := bb_blobs blobs_data
|}.

Definition sc_execution_payload (c : SignedBeaconBlockContent) : ExecutionPayload :=
  bb_execution_payload (bk_body (sb_message (sc_signed_block c))).
Definition sc_block_hash (c : SignedBeaconBlockContent) : B256 :=
  ep_block_hash (sc_execution_payload c).
Definition sc_extra_data (c : SignedBeaconBlockContent) : bytes :=
  ep_extra_data (sc_execution_payload c).
Definition sc_slot (c : SignedBeaconBlockContent) : u64 :=
  bk_slot (sb_message (sc_signed_block c)).
Definition sc_block_number (c : SignedBeaconBlockContent) : u64 :=
  ep_block_number (sc_execution_payload c).
Definition sc_num_txs (c : SignedBeaconBlockContent) : N :=
  lenN (ep_transactions (sc_execution_payload c)).

(** * Merkleization (derived) *)

Definition eth1_data_root (d : Eth1Data) : Hash256 := derive_root
  [tree_hash_root (e1_deposit_root d); u64_root (e1_deposit_count d);
   tree_hash_root (e1_block_hash d)].

Definition beacon_block_header_root (h : BeaconBlockHeader) : Hash256 := derive_root
  [u64_root (bh_slot h); u64_root (bh_proposer_index h); tree_hash_root (bh_parent_root h);
   tree_hash_root (bh_state_root h); tree_hash_root (bh_body_root h)].

Definition signed_header_root (h : SignedBeaconBlockHeader) : Hash256 := derive_root
  [beacon_block_header_root (sbh_message h); tree_hash_root (sbh_signature h)].

Definition proposer_slashing_root (s : ProposerSlashing) : Hash256 := derive_root
  [signed_header_root (ps_signed_header_1 s); signed_header_root (ps_signed_header_2 s)].

Definition checkpoint_root (c : Checkpoint) : Hash256 := derive_root
  [u64_root (cp_epoch c); tree_hash_root (cp_root c)].

Definition attestation_data_root (d : AttestationData) : Hash256 := derive_root
  [u64_root (ad_slot d); u64_root (ad_index d); tree_hash_root (ad_beacon_block_root d);
   checkpoint_root (ad_source d); checkpoint_root (ad_target d)].

Definition indexed_attestation_root (a : IndexedAttestation) : Hash256 := derive_root
  [u64_list_root 2048 (ia_attesting_indices a); attestation_data_root (ia_data a);
   tree_hash_root (ia_signature a)].

Definition attester_slashing_root (s : AttesterSlashing) : Hash256 := derive_root
  [indexed_attestation_root (as_attestation_1 s); indexed_attestation_root (as_attestation_2 s)].

Definition attestation_root (a : Attestation) : Hash256 := derive_root
  [bitlist_root 2048 (at_aggregation_bits a); attestation_data_root (at_data a);
   tree_hash_root (at_signature a)].

Definition deposit_data_root (d : DepositData) : Hash256 := derive_root
  [tree_hash_root (dd_pubkey d); tree_hash_root (dd_withdrawal_credentials d);
   u64_root (dd_amount d); tree_hash_root (dd_signature d)].

Definition deposit_root (d : Deposit) : Hash256 := derive_root
  [vector_root 33 (tree_hash_root <$> dep_proof d); deposit_data_root (dep_data d)].

Definition voluntary_exit_root (x : VoluntaryExit) : Hash256 := derive_root
  [u64_root (vx_epoch x); u64_root (vx_validator_index x)].

Definition signed_voluntary_exit_root (x : SignedVoluntaryExit) : Hash256 := derive_root
  [voluntary_exit_root (svx_message x); tree_hash_root (svx_signature x)].

Definition sync_aggregate_root (s : SyncAggregate) : Hash256 := derive_root
  [bitvector_root 512 (sa_sync_committee_bits s); tree_hash_root (sa_sync_committee_signature s)].

Definition bls_change_root (c : BlsToExecutionChange) : Hash256 := derive_root
  [u64_root (bc_validator_index c); tree_hash_root (bc_from_bls_pubkey c);
   tree_hash_root (bc_to_execution_address c)].

Definition signed_bls_change_root (c : SignedBlsToExecutionChange) : Hash256 := derive_root
  [bls_change_root (sbc_message c); tree_hash_root (sbc_signature c)].

(** The header of an execution payload ([types.rs]). *)
#[export] Instance execution_payload_header_tree_hash : TreeHash ExecutionPayloadHeader :=
  derive_tree_hash (fun h => derive_root
    [tree_hash_root (eh_parent_hash h); tree_hash_root (eh_fee_recipient h);
     tree_hash_root (eh_state_root h); tree_hash_root (eh_receipts_root h);
     fixed_bytes_root 256 (eh_logs_bloom h); tree_hash_root (eh_prev_randao h);
     u64_root (eh_block_number h); u64_root (eh_gas_limit h); u64_root (eh_gas_used h);
     u64_root (eh_timestamp h); byte_list_root 32 (eh_extra_data h);
     tree_hash_root (eh_base_fee_per_gas h); tree_hash_root (eh_block_hash h);
     tree_hash_root (eh_transactions_root h); tree_hash_root (eh_withdrawals_root h);
     u64_root (eh_blob_gas_used h); u64_root (eh_excess_blob_gas h)]).

#[export] Instance blinded_block_body_tree_hash : TreeHash BlindedBlockBody :=
  derive_tree_hash (fun b => derive_root
    [tree_hash_root (bbb_randao_reveal b); eth1_data_root (bbb_eth1_data b);
     tree_hash_root (bbb_graffiti b);
     list_root 16 (proposer_slashing_root <$> bbb_proposer_slashings b);
     list_root 2 (attester_slashing_root <$> bbb_attester_slashings b);
     list_root 128 (attestation_root <$> bbb_attestations b);
     list_root 16 (deposit_root <$> bbb_deposits b);
     list_root 16 (signed_voluntary_exit_root <$> bbb_voluntary_exits b);
     sync_aggregate_root (bbb_sync_aggregate b);
     tree_hash_root (bbb_execution_payload_header b);
     list_root 16 (signed_bls_change_root <$> bbb_bls_to_execution_changes b);
     list_root 4096 (tree_hash_root <$> bbb_blob_kzg_commitments b)]).

#[export] Instance blinded_block_signed_root : SignedRoot BlindedBlock :=
  derive_tree_hash (fun b => derive_root
    [u64_root (bl_slot b); u64_root (bl_proposer_index b); tree_hash_root (bl_parent_root b);
     tree_hash_root (bl_state_root b); tree_hash_root (bl_body b)]).

(** [print_tree_hash]: the lines printed, as the name and the root of each field. *)
Definition blinded_body_print_tree_hash (b : BlindedBlockBody) : list (string * Hash256) :=
  [("randao_reveal"%string, tree_hash_root (bbb_randao_reveal b));
   ("eth1_data"%string, eth1_data_root (bbb_eth1_data b));
   ("graffiti"%string, tree_hash_root (bbb_graffiti b));
   ("proposer_slashings"%string, list_root 16 (proposer_slashing_root <$> bbb_proposer_slashings b));
   ("attester_slashings"%string, list_root 2 (attester_slashing_root <$> bbb_attester_slashings b));
   ("attestations"%string, list_root 128 (attestation_root <$> bbb_attestations b));
   ("deposits"%string, list_root 16 (deposit_root <$> bbb_deposits b));
   ("voluntary_exits"%string, list_root 16 (signed_voluntary_exit_root <$> bbb_voluntary_exits b));
   ("sync_aggregate"%string, sync_aggregate_root (bbb_sync_aggregate b));
   ("execution_payload_header"%string, tree_hash_root (bbb_execution_payload_header b));
   ("bls_to_execution_changes"%string,
    list_root 16 (signed_bls_change_root <$> bbb_bls_to_execution_changes b));
   ("blob_kzg_commitments"%string, list_root 4096 (tree_hash_root <$> bbb_blob_kzg_commitments b))].

Definition blinded_block_print_tree_hash (b : BlindedBlock) : list (string * Hash256) :=
  [("slot"%string, u64_root (bl_slot b));
   ("proposer_index"%string, u64_root (bl_proposer_index b));
   ("parent_root"%string, tree_hash_root (bl_parent_root b));
   ("state_root"%string, tree_hash_root (bl_state_root b));
   ("body"%string, tree_hash_root (bl_body b))].

(** The roots printed are the leaves of the root of the container, in order: what is printed
    for a block determines the root that is signed. *)
Lemma printed_roots_determine_root b :
  derive_root (blinded_block_print_tree_hash b).*2 = tree_hash_root b /\
  derive_root (blinded_body_print_tree_hash (bl_body b)).*2 = tree_hash_root (bl_body b).
Proof. done. Qed.

(** * Unblinding *)

(** The blinded block a beacon block came from, given the header it replaced: unblinding
    keeps every other field, so the two determine each other. *)
Definition reblind (h : ExecutionPayloadHeader) (b : BeaconBlock) : BlindedBlock :=
  let body := bk_body b in
  mkBlindedBlock (bk_slot b) (bk_proposer_index b) (bk_parent_root b) (bk_state_root b)
    (mkBlindedBlockBody (bb_randao_reveal body) (bb_eth1_data body) (bb_graffiti body)
       (bb_proposer_slashings body) (bb_attester_slashings body) (bb_attestations body)
       (bb_deposits body) (bb_voluntary_exits body) (bb_sync_aggregate body) h
       (bb_bls_to_execution_changes body) (bb_blob_kzg_commitments body)).

Lemma reblind_beacon_block_new payload b :
  reblind (bbb_execution_payload_header (bl_body b)) (beacon_block_new payload b) = b.
Proof. by destruct b as [???? []]. Qed.
End blocks.

Section main.
Context {X : Ext}.

(** Unblinding only replaces the header by the payload: from the published block and the
    header the proposer signed one gets the blinded block back, the proposer's signature is
    kept, and the payload, proofs and blobs are those delivered. *)
Theorem unblinding_keeps_block payload b sig blobs :
  let c := signed_beacon_block_content_new payload b sig blobs in
  reblind (bbb_execution_payload_header (bl_body b)) (sb_message (sc_signed_block c)) = b /\
  sb_signature (sc_signed_block c) = sig /\
  sc_execution_payload c = payload /\ sc_slot c = bl_slot b /\
  sc_kzg_proofs c = bb_proofs blobs /\ sc_blobs c = bb_blobs blobs.
Proof. intros c. split; [apply reblind_beacon_block_new | done]. Qed.
End main.
