(* ===== verification/Ssz.v ===== *)
(** The SSZ encoding of the block that is published.  The [Encode] derives of
    [crates/primitives/src/beacon/beacon_block.rs] and [types.rs] list the fields of each
    container; the bytes they make of them are those of the SSZ specification, which is
    defined here with its decoder. *)

From S2P Require Import Prelude Bits External Types Blst Signer BeaconTypes BeaconBlock.

(** * The specification *)

(** Types: an unsigned integer of [n] bytes, a vector of [n] bytes, and lists of bytes, of bits
    and of elements with their capacity, and containers.  A vector of elements is the container
    of as many fields, a bit vector the vector of its packed bytes. *)
Inductive SszTy : Type :=
| TUint (n : N)
| TBytes (n : N)
| TByteList (limit : N)
| TBitlist (limit : N)
| TContainer (fields : list SszTy)
| TList (elt : SszTy) (limit : N).

Inductive SszVal : Type :=
| VBytes (b : bytes)
| VBits (l : list bool)
| VNode (l : list SszVal).

Definition OFFSET_SIZE : N := 4.
Definition MAX_SSZ : N := 4294967296.

(** The size of the values of a type of fixed size. *)
Definition sum_sizes (l : list (option N)) : option N :=
  foldr (fun s acc => match s, acc with Some a, Some b => Some (a + b)%N | _, _ => None end)
    (Some 0%N) l.

Fixpoint fixed_size (t : SszTy) : option N :=
  match t with
  | TUint n | TBytes n => Some n
  | TByteList _ | TBitlist _ | TList _ _ => None
  | TContainer fields => sum_sizes ((fix go l := match l with
      | [] => [] | t :: l => fixed_size t :: go l end) fields)
  end.

(** The parts of a container: the size of a part of fixed size, and its bytes.  The head holds
    the fixed parts and the offsets of the others, which follow. *)
Definition head_size (parts : list (option N * bytes)) : N :=
  foldr (fun p acc => (default OFFSET_SIZE p.1 + acc)%N) 0%N parts.

Fixpoint heads (off : N) (parts : list (option N * bytes)) : bytes :=
  match parts with
  | [] => []
  | (Some _, b) :: parts => b ++ heads off parts
  | (None, b) :: parts => le_bytes 4 (Z.of_N off) ++ heads (off + lenN b) parts
  end.

Fixpoint tails (parts : list (option N * bytes)) : bytes :=
  match parts with
  | [] => []
  | (Some _, _) :: parts => tails parts
  | (None, b) :: parts => b ++ tails parts
  end.

Definition join_parts (parts : list (option N * bytes)) : bytes :=
  heads (head_size parts) parts ++ tails parts.

Fixpoint ssz_spec (t : SszTy) (v : SszVal) : bytes :=
  match t, v with
  | TUint _, VBytes b | TBytes _, VBytes b | TByteList _, VBytes b => b
  | TBitlist _, VBits l => bitlist_bytes l
  | TContainer fields, VNode l =>
      join_parts ((fix go ts vs := match ts, vs with
        | t :: ts, v :: vs => (fixed_size t, ssz_spec t v) :: go ts vs
        | _, _ => [] end) fields l)
  | TList elt _, VNode l => join_parts ((fun v => (fixed_size elt, ssz_spec elt v)) <$> l)
  | _, _ => []
  end.

(** ** Decoding *)

(** The head: the fixed parts and the offsets. *)
Fixpoint read_heads (sizes : list (option N)) (b : bytes) : option (list (bytes + N)) :=
  match sizes with
  | [] => Some []
  | size :: sizes =>
      let n := N.to_nat (default OFFSET_SIZE size) in
      if (length b <? n)%nat then None else
      let part := take n b in
      rest ← read_heads sizes (drop n b);
      Some (match size with Some _ => inl part | None => inr (Z.to_N (le_value part)) end :: rest)
  end.

Definition next_offset (items : list (bytes + N)) (total : N) : N :=
  foldr (fun item acc => match item with inr off => off | inl _ => acc end) total items.

(** Each part; one of variable size goes from its offset to the next one. *)
Fixpoint cut (items : list (bytes + N)) (whole : bytes) : list bytes :=
  match items with
  | [] => []
  | inl b :: items => b :: cut items whole
  | inr off :: items =>
      take (N.to_nat (next_offset items (lenN whole) - off)) (drop (N.to_nat off) whole)
        :: cut items whole
  end.

Definition split_parts (sizes : list (option N)) (b : bytes) : option (list bytes) :=
  items ← read_heads sizes b; Some (cut items b).

(** The number of elements: those of fixed size fill the bytes; the first offset of the
    others tells how many offsets there are. *)
Definition list_sizes (elt : option N) (b : bytes) : list (option N) :=
  let count := match elt with
    | Some n => (lenN b / n)%N
    | None => (Z.to_N (le_value (take 4 b)) / OFFSET_SIZE)%N
    end in
  replicate (N.to_nat count) elt.

Fixpoint ssz_decode (t : SszTy) (b : bytes) : option SszVal :=
  match t with
  | TUint n | TBytes n => if (lenN b =? n)%N then Some (VBytes b) else None
  | TByteList limit => if (lenN b <=? limit)%N then Some (VBytes b) else None
  | TBitlist limit =>
      l ← bitlist_of_bytes b; if (lenN l <=? limit)%N then Some (VBits l) else None
  | TContainer fields =>
      parts ← split_parts (fixed_size <$> fields) b;
      vs ← (fix go ts bs := match ts, bs with
        | t :: ts, b :: bs => v ← ssz_decode t b; vs ← go ts bs; Some (v :: vs)
        | [], [] => Some []
        | _, _ => None end) fields parts;
      Some (VNode vs)
  | TList elt limit =>
      parts ← split_parts (list_sizes (fixed_size elt) b) b;
      vs ← (fix go bs := match bs with
        | b :: bs => v ← ssz_decode elt b; vs ← go bs; Some (v :: vs)
        | [] => Some [] end) parts;
      if (lenN vs <=? limit)%N then Some (VNode vs) else None
  end.

(** ** Values of a type *)

Inductive ssz_typed : SszTy -> SszVal -> Prop :=
| TypedUint n b : lenN b = n -> ssz_typed (TUint n) (VBytes b)
| TypedBytes n b : lenN b = n -> ssz_typed (TBytes n) (VBytes b)
| TypedByteList n b : (lenN b <= n)%N -> ssz_typed (TByteList n) (VBytes b)
| TypedBitlist n l : (lenN l <= n)%N -> ssz_typed (TBitlist n) (VBits l)
| TypedContainer ts vs : Forall2 ssz_typed ts vs -> ssz_typed (TContainer ts) (VNode vs)
| TypedList t n vs : fixed_size t <> Some 0%N -> (lenN vs <= n)%N -> Forall (ssz_typed t) vs ->
    ssz_typed (TList t n) (VNode vs).

(** * The round trip *)

Lemma lenN_app {A} (l k : list A) : lenN (l ++ k) = (lenN l + lenN k)%N.
Proof. unfold lenN. rewrite length_app. lia. Qed.

(** ** Parts *)

Definition part_ok (p : option N * bytes) : Prop :=
  match p.1 with Some n => lenN p.2 = n | None => True end.

Lemma lenN_heads off parts : Forall part_ok parts -> lenN (heads off parts) = head_size parts.
Proof.
  intros Hok. revert off. induction Hok as [|[[n|] b] parts Hp _ IH]; intros off; [done |..];
    cbn [heads head_size foldr]; unfold head_size in IH; rewrite lenN_app, IH; [by rewrite Hp |].
  unfold lenN. by rewrite length_le_bytes.
Qed.

Fixpoint head_items (off : N) (parts : list (option N * bytes)) : list (bytes + N) :=
  match parts with
  | [] => []
  | (Some _, b) :: parts => inl b :: head_items off parts
  | (None, b) :: parts => inr off :: head_items (off + lenN b) parts
  end.

Lemma read_heads_spec off parts rest :
  Forall part_ok parts -> (off + lenN (tails parts) < MAX_SSZ)%N ->
  read_heads parts.*1 (heads off parts ++ rest) = Some (head_items off parts).
Proof.
  intros Hok. revert off. induction Hok as [|[[n|] b] parts Hp _ IH]; intros off Hlt; [done |..].
  - unfold part_ok in Hp. simpl in Hp. cbn [heads tails fmap list_fmap fst read_heads default] in *.
    rewrite <-app_assoc. assert (N.to_nat n = length b) as Hn by (unfold lenN in Hp; lia).
    cbv [from_option id]. rewrite Hn, (proj2 (Nat.ltb_ge _ _)) by (rewrite length_app; lia).
    rewrite take_app_length, drop_app_length, IH by done. done.
  - cbn [heads tails fmap list_fmap fst read_heads default] in *. rewrite lenN_app in Hlt.
    rewrite <-app_assoc.
    pose proof (length_le_bytes 4 (Z.of_N off)) as H4.
    cbv [from_option]. change (N.to_nat OFFSET_SIZE) with 4%nat.
    rewrite (proj2 (Nat.ltb_ge _ _)) by (rewrite length_app; lia).
    rewrite take_app_length', drop_app_length', IH by (done || lia). cbn [mbind option_bind].
    rewrite le_value_bytes, N2Z.id; [done |]. unfold MAX_SSZ in Hlt. simpl. lia.
Qed.

Lemma next_offset_items off parts total :
  total = (off + lenN (tails parts))%N -> next_offset (head_items off parts) total = off.
Proof.
  intros ->. induction parts as [|[[n|] b] parts IH]; simpl; [unfold lenN; simpl; lia | done | done].
Qed.

Lemma cut_items parts pre whole :
  whole = pre ++ tails parts -> cut (head_items (lenN pre) parts) whole = parts.*2.
Proof.
  revert pre. induction parts as [|[[n|] b] parts IH]; intros pre Hw; [done |..].
  - cbn [head_items cut fmap list_fmap snd]. f_equal. by apply IH.
  - cbn [head_items cut fmap list_fmap snd tails] in *.
    rewrite next_offset_items by (rewrite Hw, !lenN_app; lia).
    f_equal.
    + replace (N.to_nat (lenN pre + lenN b - lenN pre)) with (length b) by (unfold lenN; lia).
      replace (N.to_nat (lenN pre)) with (length pre) by (unfold lenN; lia).
      by rewrite Hw, drop_app_length, take_app_length.
    + rewrite <-lenN_app. apply IH. by rewrite Hw, <-app_assoc.
Qed.

(** The parts are read back. *)
Lemma split_join parts :
  Forall part_ok parts -> (lenN (join_parts parts) < MAX_SSZ)%N ->
  split_parts parts.*1 (join_parts parts) = Some parts.*2.
Proof.
  intros Hok Hlt. unfold join_parts in *. rewrite lenN_app, lenN_heads in Hlt by done.
  unfold split_parts. rewrite read_heads_spec by done. cbn [mbind option_bind].
  f_equal. rewrite <-(lenN_heads (head_size parts) parts) at 1 by done. by apply cut_items.
Qed.

Lemma part_le_heads off parts n b : (Some n, b) ∈ parts -> (lenN b <= lenN (heads off parts))%N.
Proof.
  revert off. induction parts as [|[[m|] c] parts IH]; intros off; [by intros ?%elem_of_nil |..];
    intros [Heq|Hin]%elem_of_cons; cbn [heads]; rewrite lenN_app;
    try (injection Heq as -> ->; lia); try discriminate;
    [specialize (IH off Hin) | specialize (IH (off + lenN c)%N Hin)]; lia.
Qed.

Lemma part_le_tails parts b : (None, b) ∈ parts -> (lenN b <= lenN (tails parts))%N.
Proof.
  induction parts as [|[[m|] c] parts IH]; [by intros ?%elem_of_nil |..];
    intros [Heq|Hin]%elem_of_cons; cbn [tails]; rewrite ?lenN_app;
    try (injection Heq as ->; lia); try discriminate; specialize (IH Hin); lia.
Qed.

Lemma part_le parts p : p ∈ parts -> (lenN p.2 <= lenN (join_parts parts))%N.
Proof.
  destruct p as [[n|] b]; intros Hp; unfold join_parts; rewrite lenN_app; simpl;
    [apply (part_le_heads (head_size parts)) in Hp | apply part_le_tails in Hp]; lia.
Qed.

Lemma head_size_same size parts :
  Forall (fun p => p.1 = size) parts ->
  head_size parts = (default OFFSET_SIZE size * lenN parts)%N.
Proof.
  induction 1 as [|p parts Hp _ IH]; [unfold head_size, lenN; simpl; lia |].
  unfold head_size in *. cbn [foldr]. rewrite IH, Hp. unfold lenN. cbn [length]. lia.
Qed.

Lemma tails_fixed n parts : Forall (fun p => p.1 = Some n) parts -> tails parts = [].
Proof. induction 1 as [|[[m|] b] parts Hp _ IH]; done. Qed.

(** The number of elements is read back. *)
Lemma list_sizes_join size parts :
  size <> Some 0%N -> Forall (fun p => p.1 = size) parts -> Forall part_ok parts ->
  (lenN (join_parts parts) < MAX_SSZ)%N ->
  list_sizes size (join_parts parts) = parts.*1.
Proof.
  intros Hsize Hsame Hok Hlt. pose proof (head_size_same _ _ Hsame) as Hhead.
  assert (parts.*1 = replicate (length parts) size) as ->.
  { clear -Hsame. induction Hsame as [|p l Hp _ IH]; [done |].
    cbn [fmap list_fmap length replicate]. by f_equal. }
  unfold list_sizes. f_equal. unfold join_parts in *.
  rewrite lenN_app, lenN_heads in Hlt by done.
  destruct size as [n|]; cbn [default] in *.
  - assert (n <> 0%N) as Hn by congruence.
    rewrite lenN_app, lenN_heads, Hhead, (tails_fixed n) by done.
    change (lenN []) with 0%N. rewrite N.add_0_r, N.mul_comm, N.div_mul by done. unfold lenN. lia.
  - destruct Hsame as [|[s b] parts' Hs Hsame]; [done |]. simpl in Hs. subst s.
    cbn [heads]. rewrite <-app_assoc, take_app_length' by (by rewrite length_le_bytes).
    rewrite le_value_bytes.
    + rewrite N2Z.id, Hhead, N.mul_comm, N.div_mul by done. unfold lenN. lia.
    + change (256 ^ Z.of_nat 4)%Z with 4294967296%Z. unfold MAX_SSZ in Hlt. lia.
Qed.

(** ** Types *)

Section induction.
Context (P : SszTy -> Prop).
Context (Huint : forall n, P (TUint n)) (Hbytes : forall n, P (TBytes n)).
Context (Hblist : forall n, P (TByteList n)) (Hbits : forall n, P (TBitlist n)).
Context (Hcont : forall ts, Forall P ts -> P (TContainer ts)).
Context (Hlist : forall t n, P t -> P (TList t n)).

Fixpoint SszTy_nested_ind (t : SszTy) : P t :=
  match t with
  | TUint n => Huint n
  | TBytes n => Hbytes n
  | TByteList n => Hblist n
  | TBitlist n => Hbits n
  | TContainer ts => Hcont ts ((fix go l : Forall P l := match l with
      | [] => List.Forall_nil P
      | t :: l => List.Forall_cons P t l (SszTy_nested_ind t) (go l) end) ts)
  | TList t n => Hlist t n (SszTy_nested_ind t)
  end.
End induction.

(** The parts of a container. *)
Definition container_parts (ts : list SszTy) (vs : list SszVal) : list (option N * bytes) :=
  zip_with (fun t v => (fixed_size t, ssz_spec t v)) ts vs.

Lemma ssz_spec_container ts vs :
  ssz_spec (TContainer ts) (VNode vs) = join_parts (container_parts ts vs).
Proof. done. Qed.

Lemma fixed_size_container ts : fixed_size (TContainer ts) = sum_sizes (fixed_size <$> ts).
Proof. done. Qed.

(** The size of a value of a type of fixed size. *)
Lemma fixed_size_spec t v n :
  ssz_typed t v -> fixed_size t = Some n -> lenN (ssz_spec t v) = n.
Proof.
  revert v n. induction t as [m|m|m|m|ts IH|t m IH] using SszTy_nested_ind; intros v n Hv Hn;
    inversion Hv as [? b Hb|? b Hb|?|?|? vs Hvs|]; subst; try discriminate;
    try by injection Hn as <-.
  rewrite ssz_spec_container, fixed_size_container in *. clear Hv.
  assert (Forall part_ok (container_parts ts vs) /\ tails (container_parts ts vs) = [] /\
    head_size (container_parts ts vs) = n) as (Hok & Ht & Hh).
  { revert n Hn. induction Hvs as [|t v ts vs Hv Hvs IHvs]; intros n Hn.
    { injection Hn as <-. done. }
    apply Forall_cons in IH as [IH1 IH]. unfold sum_sizes in *. cbn [fmap list_fmap foldr] in Hn.
    destruct (fixed_size t) as [a|] eqn:Ha; [|done].
    destruct (foldr _ _ _) as [c|] eqn:Hc; [|done]. injection Hn as <-.
    destruct (IHvs IH c eq_refl) as (Hok & Ht & Hh).
    unfold container_parts in *. cbn [zip_with]. rewrite Ha. split; [|split].
    - constructor; [|done]. by apply (IH1 v).
    - done.
    - unfold head_size in *. cbn [foldr]. by rewrite Hh. }
  unfold join_parts. by rewrite lenN_app, lenN_heads, Ht, Hh, N.add_0_r.
Qed.

Lemma typed_part_ok t v : ssz_typed t v -> part_ok (fixed_size t, ssz_spec t v).
Proof.
  intros Hv. unfold part_ok. simpl. destruct (fixed_size t) eqn:Hn; [|done].
  by apply fixed_size_spec.
Qed.

(** Decoding the encoding of a typed value gives the value back. *)
Lemma ssz_decode_spec t v :
  ssz_typed t v -> (lenN (ssz_spec t v) < MAX_SSZ)%N -> ssz_decode t (ssz_spec t v) = Some v.
Proof.
  revert v. induction t as [m|m|m|m|ts IH|t m IH] using SszTy_nested_ind; intros v Hv Hlt;
    inversion Hv as [? b Hb|? b Hb|? b Hb|? l Hb|? vs Hvs|? ? vs Hne Hm Hvs]; subst.
  - cbn. by rewrite N.eqb_refl.
  - cbn. by rewrite N.eqb_refl.
  - cbn. by rewrite (proj2 (N.leb_le _ _) Hb).
  - cbn [ssz_spec ssz_decode]. rewrite bitlist_of_bytes_spec. cbn. by rewrite (proj2 (N.leb_le _ _) Hb).
  - rewrite ssz_spec_container in *. cbn [ssz_decode].
    assert (Forall part_ok (container_parts ts vs)) as Hok.
    { clear -Hvs. induction Hvs; constructor; [by apply typed_part_ok | done]. }
    assert ((container_parts ts vs).*1 = fixed_size <$> ts) as Hsizes.
    { clear -Hvs. unfold container_parts. induction Hvs; cbn; [done | by f_equal]. }
    rewrite <-Hsizes, split_join by done. cbn [mbind option_bind].
    assert (Forall (fun p => lenN p.2 < MAX_SSZ)%N (container_parts ts vs)) as Hsmall.
    { apply Forall_forall. intros p Hp. apply part_le in Hp. lia. }
    clear Hv Hlt Hok Hsizes.
    match goal with |- (?f ts ?bs ≫= _) = _ => assert (f ts bs = Some vs) as -> end; [|done].
    induction Hvs as [|t v ts vs Hv Hvs IHvs]; [done |].
    apply Forall_cons in IH as [IH1 IH]. unfold container_parts in *. cbn [zip_with] in Hsmall.
    apply Forall_cons in Hsmall as [Hs1 Hsmall]. cbn [zip_with fmap list_fmap snd].
    rewrite (IH1 v Hv Hs1). cbn [mbind option_bind]. by rewrite (IHvs IH Hsmall).
  - cbn [ssz_spec ssz_decode] in *.
    set (parts := (fun v => (fixed_size t, ssz_spec t v)) <$> vs) in *.
    assert (Forall part_ok parts) as Hok.
    { apply Forall_fmap. eapply Forall_impl; [exact Hvs |]. intros w. apply typed_part_ok. }
    assert (Forall (fun p => p.1 = fixed_size t) parts) as Hsame.
    { apply Forall_fmap. by apply Forall_true. }
    rewrite (list_sizes_join _ _ Hne Hsame Hok Hlt), split_join by done. cbn [mbind option_bind].
    assert (Forall (fun p => lenN p.2 < MAX_SSZ)%N parts) as Hsmall.
    { apply Forall_forall. intros p Hp. apply part_le in Hp. lia. }
    clear Hv Hlt Hok Hsame. subst parts.
    match goal with |- (?f ?bs ≫= _) = _ => assert (f bs = Some vs) as -> end;
      [|cbn; by rewrite (proj2 (N.leb_le _ _) Hm)].
    clear Hm. induction Hvs as [|v vs Hv Hvs IHvs]; [done |].
    cbn [fmap list_fmap snd] in *. apply Forall_cons in Hsmall as [Hs1 Hsmall].
    rewrite (IH v Hv Hs1). cbn [mbind option_bind]. by rewrite (IHvs Hsmall).
Qed.

(** * The library *)

(** The code [ethereum_ssz] generates for a derive, and what it promises: the encoding of the
    specification, as long as its length fits the 4-byte offsets. *)
Class SszLib := { ssz_encode : SszTy -> SszVal -> bytes }.

Class SszLibLaws (S : SszLib) : Prop := {
  ssz_encode_spec : forall t v,
    ssz_typed t v -> (lenN (ssz_spec t v) < MAX_SSZ)%N -> ssz_encode t v = ssz_spec t v
}.
