(* ===== verification/SszBlock.v ===== *)
(** The SSZ encoding of the published block: the [Encode] derives of
    [crates/primitives/src/beacon/beacon_block.rs] and of the payload in [types.rs], as lists of
    fields read into the specification of [Ssz.v].  The leaves are the encoders the sources
    write themselves. *)

From S2P Require Import Prelude External Types Blst Signer BeaconTypes BeaconBlock Bits Ssz.

(** * Encoders *)

(** The encoder of a type: its SSZ type, the SSZ value of an element, what the Rust type
    guarantees of its elements (the width of an integer, the length of a vector, the capacity of
    a list), and when two elements are the same to a reader of the bytes. *)
Class SszEnc (A : Type) := {
  ssz_ty : SszTy;
  ssz_val : A -> SszVal;
  ssz_ok : A -> Prop;
  ssz_eq : A -> A -> Prop
}.
Arguments ssz_ty A {_}.

Class SszLaws (A : Type) {enc : SszEnc A} : Prop := {
  ssz_ty_sized : fixed_size (ssz_ty A) <> Some 0%N;
  ssz_val_typed : forall a, ssz_ok a -> ssz_typed (ssz_ty A) (ssz_val a);
  ssz_val_inj : forall a b, ssz_ok a -> ssz_ok b -> ssz_val a = ssz_val b -> ssz_eq a b
}.
Arguments SszLaws A enc : clear implicits.

(** A type whose [Encode] is written in the sources, of fixed length. *)
Definition leaf_enc {A} `{!Encode A} (eq : A -> A -> Prop) : SszEnc A := {|
  ssz_ty := TBytes (ssz_fixed_len A);
  ssz_val a := VBytes (as_ssz_bytes a);
  ssz_ok _ := True;
  ssz_eq := eq
|}.

#[export] Instance u64_enc : SszEnc u64 := {|
  ssz_ty := TUint 8; ssz_val z := VBytes (le_bytes 8 z); ssz_ok := is_u64; ssz_eq := eq |}.

(** [FixedVector<u8, n>], [VariableList<u8, n>], [BitVector<n>] and [BitList<n>] *)
Definition fixed_bytes_enc (n : N) : SszEnc bytes := {|
  ssz_ty := TBytes n; ssz_val := VBytes; ssz_ok b := lenN b = n; ssz_eq := eq |}.
Definition byte_list_enc (n : N) : SszEnc bytes := {|
  ssz_ty := TByteList n; ssz_val := VBytes; ssz_ok b := (lenN b <= n)%N; ssz_eq := eq |}.
Definition bitvector_enc (n : N) : SszEnc (list bool) := {|
  ssz_ty := TBytes (n / 8); ssz_val l := VBytes (pack_bits (N.to_nat (n / 8)) l);
  ssz_ok l := lenN l = n; ssz_eq := eq |}.
Definition bitlist_enc (n : N) : SszEnc (list bool) := {|
  ssz_ty := TBitlist n; ssz_val := VBits;
  ssz_ok l := (lenN l <= n)%N; ssz_eq := eq |}.

(** [VariableList<A, n>] and [FixedVector<A, n>] *)
Definition list_enc {A} (enc : SszEnc A) (n : N) : SszEnc (list A) := {|
  ssz_ty := TList (ssz_ty A) n;
  ssz_val l := VNode (ssz_val <$> l);
  ssz_ok l := (lenN l <= n)%N /\ Forall ssz_ok l;
  ssz_eq := Forall2 ssz_eq
|}.
Definition vector_enc {A} (enc : SszEnc A) (n : N) : SszEnc (list A) := {|
  ssz_ty := TContainer (replicate (N.to_nat n) (ssz_ty A));
  ssz_val l := VNode (ssz_val <$> l);
  ssz_ok l := lenN l = n /\ Forall ssz_ok l;
  ssz_eq := Forall2 ssz_eq
|}.

(** [#[derive(Encode)]]: a field is a projection and the encoder of its type, and the derive
    makes a container of the fields in the order of their declaration. *)
Record Field (A : Type) : Type := mkField {
  fd_ty : SszTy;
  fd_val : A -> SszVal;
  fd_ok : A -> Prop;
  fd_eq : A -> A -> Prop
}.
Arguments mkField {A} _ _ _ _.
Arguments fd_ty {A} f.
Arguments fd_val {A} f a.
Arguments fd_ok {A} f a.
Arguments fd_eq {A} f a b.

Definition field_as {A B} (proj : A -> B) (enc : SszEnc B) : Field A :=
  mkField (ssz_ty B) (fun a => ssz_val (proj a)) (fun a => ssz_ok (proj a))
    (fun a b => ssz_eq (proj a) (proj b)).
Abbreviation field proj := (field_as proj _).

Definition derive_encode {A} (fields : list (Field A)) : SszEnc A := {|
  ssz_ty := TContainer (fd_ty <$> fields);
  ssz_val a := VNode ((fun f => fd_val f a) <$> fields);
  ssz_ok a := Forall (fun f => fd_ok f a) fields;
  ssz_eq a b := Forall (fun f => fd_eq f a b) fields
|}.

(** ** Their laws *)

#[export] Instance u64_enc_laws : SszLaws u64 u64_enc.
Proof.
  split; [done | |].
  - intros z _. constructor. unfold lenN. by rewrite length_le_bytes.
  - intros a b Ha Hb Heq. cbn [ssz_val u64_enc ssz_eq] in *.
    rewrite <-(le_value_bytes 8 a Ha), <-(le_value_bytes 8 b Hb). congruence.
Qed.

Lemma fixed_bytes_laws n : n <> 0%N -> SszLaws bytes (fixed_bytes_enc n).
Proof. intros Hn. split; simpl; [congruence | by constructor | by intros a b _ _ [= ->]]. Qed.

#[export] Instance byte_list_laws n : SszLaws bytes (byte_list_enc n).
Proof. split; simpl; [done | by constructor | by intros a b _ _ [= ->]]. Qed.

Lemma bitvector_laws n :
  (n mod 8 = 0)%N -> n <> 0%N -> SszLaws (list bool) (bitvector_enc n).
Proof.
  intros Hn Hne. pose proof (N.Div0.div_mod n 8) as Hd. split; simpl.
  - intros [= Hz]. lia.
  - intros l _. constructor. unfold lenN. rewrite length_pack_bits. lia.
  - unfold lenN. intros a b Ha Hb [= Heq]. apply pack_bits_inj in Heq; [done | lia | lia].
Qed.

#[export] Instance bitlist_laws n : SszLaws (list bool) (bitlist_enc n).
Proof.
  split; simpl; [done | by constructor | by intros a b _ _ [= ->]].
Qed.

Lemma leaf_laws {A} `{!Encode A} `{!FixedEncode A} (eq : A -> A -> Prop) :
  ssz_fixed_len A <> 0%N -> (forall a b : A, as_ssz_bytes a = as_ssz_bytes b -> eq a b) ->
  SszLaws A (leaf_enc eq).
Proof.
  intros Hn Hinj. split; simpl.
  - congruence.
  - intros a _. constructor. apply fe_size.
  - intros a b _ _ [= Heq]. by apply Hinj.
Qed.

Lemma ssz_val_list_inj {A} `{!SszLaws A enc} (l k : list A) :
  Forall ssz_ok l -> Forall ssz_ok k -> ssz_val <$> l = ssz_val <$> k -> Forall2 ssz_eq l k.
Proof.
  revert k. induction l as [|a l IH]; intros [|b k] Hl Hk Heq; try discriminate; constructor;
    apply Forall_cons in Hl as [Ha Hl], Hk as [Hb Hk]; injection Heq as Hv Heq.
  - by apply ssz_val_inj.
  - by apply IH.
Qed.

#[export] Instance list_laws {A} (enc : SszEnc A) n :
  SszLaws A enc -> SszLaws (list A) (list_enc enc n).
Proof.
  intros Hlaws. split; simpl; [done | |].
  - intros l [Hn Hl]. constructor; [apply ssz_ty_sized | by unfold lenN; rewrite length_fmap |].
    apply Forall_fmap.
    eapply Forall_impl; [exact Hl |]. intros a. apply ssz_val_typed.
  - intros a b [_ Ha] [_ Hb] [= Heq]. by apply ssz_val_list_inj.
Qed.

Lemma vector_laws {A} (enc : SszEnc A) n :
  fixed_size (TContainer (replicate (N.to_nat n) (ssz_ty A))) <> Some 0%N ->
  SszLaws A enc -> SszLaws (list A) (vector_enc enc n).
Proof.
  intros Hn Hlaws. split; [exact Hn | |]; simpl.
  - intros l [<- Hl]. constructor. unfold lenN. rewrite Nat2N.id. clear Hn.
    induction Hl as [|a l Ha _ IH]; cbn; [done |]. constructor; [by apply ssz_val_typed | done].
  - intros a b [_ Ha] [_ Hb] [= Heq]. by apply ssz_val_list_inj.
Qed.

(** Derived encoders are lawful when their fields are. *)
Class FieldLaws {A} (f : Field A) : Prop := {
  fd_ty_sized : fixed_size (fd_ty f) <> Some 0%N;
  fd_val_typed : forall a, fd_ok f a -> ssz_typed (fd_ty f) (fd_val f a);
  fd_val_inj : forall a b, fd_ok f a -> fd_ok f b -> fd_val f a = fd_val f b -> fd_eq f a b
}.

#[export] Instance field_laws {A B} (proj : A -> B) (enc : SszEnc B) :
  SszLaws B enc -> FieldLaws (field_as proj enc).
Proof.
  intros Hlaws. split; simpl.
  - apply ssz_ty_sized.
  - intros a. apply ssz_val_typed.
  - intros a b. apply ssz_val_inj.
Qed.

Lemma derive_laws {A} (fields : list (Field A)) :
  fields <> [] -> Forall FieldLaws fields -> SszLaws A (derive_encode fields).
Proof.
  intros Hne Hlaws. split.
  - cbn [ssz_ty derive_encode]. rewrite fixed_size_container.
    destruct Hlaws as [|f fields Hf _]; [done |]. cbn. intros Hz.
    pose proof (fd_ty_sized (f:=f)) as Hs. destruct (fixed_size (fd_ty f)) as [n|]; [|done].
    destruct (foldr _ _ _); [|done]. injection Hz as Hz. apply Hs. f_equal. lia.
  - intros a Ha. cbn in *. constructor. clear Hne.
    induction Hlaws as [|f fields Hf Hlaws IH]; cbn; [done |].
    apply Forall_cons in Ha as [Ha1 Ha]. constructor; [by apply fd_val_typed | by apply IH].
  - intros a b Ha Hb Heq. cbn in *. injection Heq as Heq. clear Hne.
    induction Hlaws as [|f fields Hf Hlaws IH]; [done |].
    apply Forall_cons in Ha as [Ha1 Ha], Hb as [Hb1 Hb]. injection Heq as Hv Heq.
    constructor; [by apply fd_val_inj | by apply IH].
Qed.

(** * The containers *)

Section containers.
Context `{Ext}.

#[export] Instance b256_enc : SszEnc B256 := leaf_enc eq.
#[export] Instance u256_enc : SszEnc U256 := leaf_enc eq.
#[export] Instance address_enc : SszEnc Address := leaf_enc eq.
#[export] Instance pk_enc : SszEnc BlsPublicKey := leaf_enc eq.

(** Two signatures of the same bytes differ at most in the flag of the point at infinity. *)
#[export] Instance bls_sig_enc : SszEnc BlsSignature :=
  leaf_enc (fun s t => bls_sig_serialize s = bls_sig_serialize t).

(** [struct_behaviour = "transparent"]: the 48 bytes. *)
#[export] Instance kzg_enc : SszEnc KzgCommitment := {|
  ssz_ty := TBytes 48; ssz_val c := VBytes (arr_bytes (kzg_0 c)); ssz_ok _ := True; ssz_eq := eq |}.

(** ** The payload ([types.rs]) *)

#[export] Instance withdrawal_enc : SszEnc Withdrawal := derive_encode
  [field wd_index; field wd_validator_index; field wd_address; field wd_amount].

#[export] Instance execution_payload_enc : SszEnc ExecutionPayload := derive_encode
  [field ep_parent_hash; field ep_fee_recipient; field ep_state_root; field ep_receipts_root;
   field_as ep_logs_bloom (fixed_bytes_enc 256); field ep_prev_randao; field ep_block_number;
   field ep_gas_limit; field ep_gas_used; field ep_timestamp;
   field_as ep_extra_data (byte_list_enc 32); field ep_base_fee_per_gas; field ep_block_hash;
   field_as ep_transactions (list_enc (byte_list_enc 1073741824) 1048576);
   field_as ep_withdrawals (list_enc _ 16); field ep_blob_gas_used; field ep_excess_blob_gas].

(** ** The operations ([beacon_block.rs]) *)

#[export] Instance eth1_data_enc : SszEnc Eth1Data := derive_encode
  [field e1_deposit_root; field e1_deposit_count; field e1_block_hash].

#[export] Instance beacon_block_header_enc : SszEnc BeaconBlockHeader := derive_encode
  [field bh_slot; field bh_proposer_index; field bh_parent_root; field bh_state_root;
   field bh_body_root].

#[export] Instance signed_header_enc : SszEnc SignedBeaconBlockHeader := derive_encode
  [field sbh_message; field sbh_signature].

#[export] Instance proposer_slashing_enc : SszEnc ProposerSlashing := derive_encode
  [field ps_signed_header_1; field ps_signed_header_2].

#[export] Instance checkpoint_enc : SszEnc Checkpoint := derive_encode
  [field cp_epoch; field cp_root].

#[export] Instance attestation_data_enc : SszEnc AttestationData := derive_encode
  [field ad_slot; field ad_index; field ad_beacon_block_root; field ad_source; field ad_target].

#[export] Instance indexed_attestation_enc : SszEnc IndexedAttestation := derive_encode
  [field_as ia_attesting_indices (list_enc _ 2048); field ia_data; field ia_signature].

#[export] Instance attester_slashing_enc : SszEnc AttesterSlashing := derive_encode
  [field as_attestation_1; field as_attestation_2].

#[export] Instance attestation_enc : SszEnc Attestation := derive_encode
  [field_as at_aggregation_bits (bitlist_enc 2048); field at_data; field at_signature].

#[export] Instance deposit_data_enc : SszEnc DepositData := derive_encode
  [field dd_pubkey; field dd_withdrawal_credentials; field dd_amount; field dd_signature].

#[export] Instance deposit_enc : SszEnc Deposit := derive_encode
  [field_as dep_proof (vector_enc _ 33); field dep_data].

#[export] Instance voluntary_exit_enc : SszEnc VoluntaryExit := derive_encode
  [field vx_epoch; field vx_validator_index].

#[export] Instance signed_voluntary_exit_enc : SszEnc SignedVoluntaryExit := derive_encode
  [field svx_message; field svx_signature].

#[export] Instance sync_aggregate_enc : SszEnc SyncAggregate := derive_encode
  [field_as sa_sync_committee_bits (bitvector_enc 512); field sa_sync_committee_signature].

#[export] Instance bls_change_enc : SszEnc BlsToExecutionChange := derive_encode
  [field bc_validator_index; field bc_from_bls_pubkey; field bc_to_execution_address].

#[export] Instance signed_bls_change_enc : SszEnc SignedBlsToExecutionChange := derive_encode
  [field sbc_message; field sbc_signature].

(** ** The block *)

#[export] Instance beacon_block_body_enc : SszEnc BeaconBlockBody := derive_encode
  [field bb_randao_reveal; field bb_eth1_data; field bb_graffiti;
   field_as bb_proposer_slashings (list_enc _ 16);
   field_as bb_attester_slashings (list_enc _ 2);
   field_as bb_attestations (list_enc _ 128);
   field_as bb_deposits (list_enc _ 16);
   field_as bb_voluntary_exits (list_enc _ 16);
   field bb_sync_aggregate; field bb_execution_payload;
   field_as bb_bls_to_execution_changes (list_enc _ 16);
   field_as bb_blob_kzg_commitments (list_enc _ 4096)].

#[export] Instance beacon_block_enc : SszEnc BeaconBlock := derive_encode
  [field bk_slot; field bk_proposer_index; field bk_parent_root; field bk_state_root;
   field bk_body].

#[export] Instance signed_beacon_block_enc : SszEnc SignedBeaconBlock := derive_encode
  [field sb_message; field sb_signature].

#[export] Instance content_enc : SszEnc SignedBeaconBlockContent := derive_encode
  [field sc_signed_block; field_as sc_kzg_proofs (list_enc _ 4096);
   field_as sc_blobs (list_enc (fixed_bytes_enc BYTES_PER_BLOB) 4096)].
End containers.

(** ** They are lawful *)

Section laws.
Context {X : Ext} {L : ExtLaws X}.

Lemma b256_ssz_bytes (a : B256) : as_ssz_bytes a = arr_bytes (b256_0 a).
Proof.
  unfold as_ssz_bytes. simpl. by destruct (hash256_ssz_spec (b256_0 a) []) as (_ & _ & _ & ->).
Qed.

#[export] Instance b256_laws : SszLaws B256 b256_enc.
Proof.
  apply leaf_laws.
  { cbn. by destruct (hash256_ssz_spec (b256_0 b256_zero) []) as (_ & -> & _). }
  intros [a] [b]. rewrite !b256_ssz_bytes. simpl. by intros ->%array_eq.
Qed.

#[export] Instance u256_laws : SszLaws U256 u256_enc.
Proof.
  apply leaf_laws; [done |]. intros [a] [b] Heq. f_equal. apply uint_eq.
  unfold as_ssz_bytes in Heq. cbn in Heq. rewrite !uint_as_le_slice_spec in Heq.
  rewrite <-(le_value_bytes 32 (uint_val a)), <-(le_value_bytes 32 (uint_val b))
    by apply uint_range.
  by rewrite Heq.
Qed.

#[export] Instance address_laws : SszLaws Address address_enc.
Proof. apply leaf_laws; [done |]. intros [a] [b] Heq. f_equal. by apply array_eq. Qed.

#[export] Instance pk_laws : SszLaws BlsPublicKey pk_enc.
Proof.
  apply leaf_laws; [done |]. intros [a] [b] Heq.
  change (arr_bytes (pk_compress a) = arr_bytes (pk_compress b)) in Heq.
  pose proof (pk_from_bytes_compress a) as Ha. rewrite Heq, pk_from_bytes_compress in Ha.
  congruence.
Qed.

#[export] Instance bls_sig_laws : SszLaws BlsSignature bls_sig_enc.
Proof. apply leaf_laws; [done |]. intros a b Heq. by apply array_eq. Qed.

#[export] Instance kzg_laws : SszLaws KzgCommitment kzg_enc.
Proof.
  split; [done | |].
  - intros c _. constructor. apply array_len.
  - intros [a] [b] _ _ [= Heq]. cbn. f_equal. by apply array_eq.
Qed.

(** The laws of a derived encoder follow from those of the types of its fields. *)
Ltac solve_derive :=
  apply derive_laws; [done |];
  repeat first
    [ apply List.Forall_nil | apply List.Forall_cons
    | apply field_laws | apply list_laws | apply byte_list_laws | apply bitlist_laws
    | apply fixed_bytes_laws; done | apply bitvector_laws; done | apply _ ].

#[export] Instance withdrawal_laws : SszLaws Withdrawal withdrawal_enc.
Proof. solve_derive. Qed.
#[export] Instance execution_payload_laws : SszLaws ExecutionPayload execution_payload_enc.
Proof. solve_derive. Qed.
#[export] Instance eth1_data_laws : SszLaws Eth1Data eth1_data_enc.
Proof. solve_derive. Qed.
#[export] Instance beacon_block_header_laws : SszLaws BeaconBlockHeader beacon_block_header_enc.
Proof. solve_derive. Qed.
#[export] Instance signed_header_laws : SszLaws SignedBeaconBlockHeader signed_header_enc.
Proof. solve_derive. Qed.
#[export] Instance proposer_slashing_laws : SszLaws ProposerSlashing proposer_slashing_enc.
Proof. solve_derive. Qed.
#[export] Instance checkpoint_laws : SszLaws Checkpoint checkpoint_enc.
Proof. solve_derive. Qed.
#[export] Instance attestation_data_laws : SszLaws AttestationData attestation_data_enc.
Proof. solve_derive. Qed.
#[export] Instance indexed_attestation_laws :
  SszLaws IndexedAttestation indexed_attestation_enc.
Proof. solve_derive. Qed.
#[export] Instance attester_slashing_laws : SszLaws AttesterSlashing attester_slashing_enc.
Proof. solve_derive. Qed.
#[export] Instance attestation_laws : SszLaws Attestation attestation_enc.
Proof. solve_derive. Qed.
#[export] Instance deposit_data_laws : SszLaws DepositData deposit_data_enc.
Proof. solve_derive. Qed.
#[export] Instance deposit_proof_laws : SszLaws (list B256) (vector_enc b256_enc 33).
Proof.
  apply vector_laws; [|apply _]. cbn.
  by destruct (hash256_ssz_spec (b256_0 b256_zero) []) as (_ & -> & _).
Qed.
#[export] Instance deposit_laws : SszLaws Deposit deposit_enc.
Proof. solve_derive. Qed.
#[export] Instance voluntary_exit_laws : SszLaws VoluntaryExit voluntary_exit_enc.
Proof. solve_derive. Qed.
#[export] Instance signed_voluntary_exit_laws :
  SszLaws SignedVoluntaryExit signed_voluntary_exit_enc.
Proof. solve_derive. Qed.
#[export] Instance sync_aggregate_laws : SszLaws SyncAggregate sync_aggregate_enc.
Proof. solve_derive. Qed.
#[export] Instance bls_change_laws : SszLaws BlsToExecutionChange bls_change_enc.
Proof. solve_derive. Qed.
#[export] Instance signed_bls_change_laws :
  SszLaws SignedBlsToExecutionChange signed_bls_change_enc.
Proof. solve_derive. Qed.
#[export] Instance beacon_block_body_laws : SszLaws BeaconBlockBody beacon_block_body_enc.
Proof. solve_derive. Qed.
#[export] Instance beacon_block_laws : SszLaws BeaconBlock beacon_block_enc.
Proof. solve_derive. Qed.
#[export] Instance signed_beacon_block_laws : SszLaws SignedBeaconBlock signed_beacon_block_enc.
Proof. solve_derive. Qed.
#[export] Instance content_laws : SszLaws SignedBeaconBlockContent content_enc.
Proof. solve_derive. Qed.
End laws.

(** * The bytes of a derived type *)

Definition derived_ssz_bytes {A} `{!SszLib} `{!SszEnc A} (a : A) : bytes :=
  ssz_encode (ssz_ty A) (ssz_val a).

(** What the type guarantees, and a size the 4-byte offsets can address. *)
Definition encodable {A} `{!SszEnc A} (a : A) : Prop :=
  ssz_ok a /\ (lenN (ssz_spec (ssz_ty A) (ssz_val a)) < MAX_SSZ)%N.

Section bytes.
Context {A} `{!SszEnc A} {Hlaws : SszLaws A _} `{!SszLib} {Hlib : SszLibLaws _}.

Lemma derived_bytes_decode (a : A) :
  encodable a -> ssz_decode (ssz_ty A) (derived_ssz_bytes a) = Some (ssz_val a).
Proof.
  intros [Hok Hsmall]. unfold derived_ssz_bytes.
  rewrite ssz_encode_spec by eauto using ssz_val_typed.
  apply ssz_decode_spec; [by apply ssz_val_typed | done].
Qed.

Lemma derived_bytes_inj (a b : A) :
  encodable a -> encodable b -> derived_ssz_bytes a = derived_ssz_bytes b -> ssz_eq a b.
Proof.
  intros Ha Hb Heq. pose proof (derived_bytes_decode a Ha) as Hd.
  rewrite Heq, derived_bytes_decode in Hd by done. injection Hd as Hv.
  destruct Ha, Hb. by apply ssz_val_inj.
Qed.
End bytes.

(** Payloads without signatures are the same when they are equal to a reader. *)
Section payload.
Context {X : Ext}.

Lemma Forall2_same {A} (R : relation A) l k :
  (forall a b, R a b -> a = b) -> Forall2 R l k -> l = k.
Proof. intros HR. induction 1; [done | f_equal; auto]. Qed.

Lemma withdrawal_ssz_eq (a b : Withdrawal) : ssz_eq a b -> a = b.
Proof.
  destruct a, b. cbn. intros Heq. decompose_Forall_hyps. cbn in *. congruence.
Qed.

Lemma payload_ssz_eq (a b : ExecutionPayload) : ssz_eq a b -> a = b.
Proof.
  destruct a, b. cbn. intros Heq. decompose_Forall_hyps. cbn in *.
  repeat match goal with
  | H : Forall2 _ ?l ?k |- _ =>
      apply Forall2_same in H;
        [| first [exact withdrawal_ssz_eq | done]]
  end. congruence.
Qed.

Lemma content_ssz_eq (c d : SignedBeaconBlockContent) :
  ssz_eq c d ->
  sc_execution_payload c = sc_execution_payload d /\ sc_slot c = sc_slot d /\
  sc_kzg_proofs c = sc_kzg_proofs d /\ sc_blobs c = sc_blobs d /\
  bls_sig_serialize (sb_signature (sc_signed_block c)) =
  bls_sig_serialize (sb_signature (sc_signed_block d)).
Proof.
  unfold ssz_eq at 1. cbn [content_enc derive_encode]. intros Heq.
  decompose_Forall_hyps. split_and!; try done.
  - apply payload_ssz_eq. repeat (apply List.Forall_cons; [assumption |]). apply List.Forall_nil.
  - by apply (Forall2_same eq).
  - by apply (Forall2_same eq).
Qed.
End payload.
