(* ===== verification/Merkle.v ===== *)
(** Merkleization: the hash tree roots of the SSZ specification, over a hash of two chunks, and
    what the [tree_hash] and [ssz_types] crates and the [TreeHash] derive promise to compute. *)

From S2P Require Import Prelude Bits External Ssz.

(** * The specification *)

Section spec.
Context (hash2 : Hash256 -> Hash256 -> Hash256).

Definition zero_chunk : Hash256 := array_fill 32 Byte.x00.

(** The root of a complete binary tree of the given depth. *)
Fixpoint tree_root (depth : nat) (leaf : nat -> Hash256) : Hash256 :=
  match depth with
  | O => leaf 0%nat
  | S d => hash2 (tree_root d leaf) (tree_root d (fun i => leaf (2 ^ d + i)%nat))
  end.

(** The same root, one level at a time from the leaves: [z] is the root of the trees of zero
    chunks of the level. *)
Fixpoint pair_up (z : Hash256) (l : list Hash256) : list Hash256 :=
  match l with
  | [] => []
  | [a] => [hash2 a z]
  | a :: b :: l => hash2 a b :: pair_up z l
  end.

Fixpoint merkle_levels (depth : nat) (z : Hash256) (l : list Hash256) : Hash256 :=
  match depth with
  | O => default z (head l)
  | S d => merkle_levels d (hash2 z z) (pair_up z l)
  end.

(** [merkleize(chunks, limit)]: the tree of the smallest power of two not under [limit], its
    missing leaves zero. *)
Definition merkleize (limit : N) (chunks : list Hash256) : Hash256 :=
  merkle_levels (N.to_nat (N.log2_up limit)) zero_chunk chunks.

(** [pack]: chunks of 32 bytes, the last one padded with zeros. *)
Definition chunk_count (n : N) : N := ((n + 31) / 32)%N.

Fixpoint chunks_of (n : nat) (b : bytes) : list Hash256 :=
  match n with O => [] | S n => pad_to 32 (take 32 b) :: chunks_of n (drop 32 b) end.

Definition pack (b : bytes) : list Hash256 := chunks_of (N.to_nat (chunk_count (lenN b))) b.

Definition mix_in_length (root : Hash256) (n : N) : Hash256 :=
  hash2 root (pad_to 32 (le_bytes 32 (Z.of_N n))).

(** The packed bits of a list, without the bit that closes it. *)
Definition bits_root (limit : N) (l : list bool) : Hash256 :=
  merkleize ((limit + 255) / 256) (pack (pack_bits (N.to_nat ((lenN l + 7) / 8)) l)).

Definition val_bytes (v : SszVal) : bytes := match v with VBytes b => b | _ => [] end.

(** [hash_tree_root(value)] *)
Fixpoint hash_tree_root (t : SszTy) (v : SszVal) : Hash256 :=
  match t, v with
  | TUint n, VBytes b | TBytes n, VBytes b => merkleize (chunk_count n) (pack b)
  | TByteList n, VBytes b => mix_in_length (merkleize (chunk_count n) (pack b)) (lenN b)
  | TBitlist n, VBits l => mix_in_length (bits_root n l) (lenN l)
  | TContainer fields, VNode vs =>
      merkleize (lenN fields) ((fix go ts vs := match ts, vs with
        | t :: ts, v :: vs => hash_tree_root t v :: go ts vs
        | _, _ => [] end) fields vs)
  | TList (TUint size) n, VNode vs =>
      mix_in_length (merkleize (chunk_count (n * size)) (pack (mjoin (val_bytes <$> vs)))) (lenN vs)
  | TList elt n, VNode vs =>
      mix_in_length (merkleize n (hash_tree_root elt <$> vs)) (lenN vs)
  | _, _ => zero_chunk
  end.

(** ** Properties *)

Lemma nth_pair_up l z i :
  nth i (pair_up z l) (hash2 z z) = hash2 (nth (2 * i) l z) (nth (2 * i + 1) l z).
Proof.
  revert i. induction l as [l IH] using (induction_ltof1 _ (@length _)). intros i.
  destruct l as [|a [|b l]].
  - by destruct i.
  - destruct i as [|[|i]]; [done | done |].
    cbn [pair_up]. by rewrite !nth_overflow by (simpl; lia).
  - destruct i as [|i]; [done |]. cbn [pair_up nth]. rewrite IH by (unfold ltof; simpl; lia).
    replace (2 * S i)%nat with (S (S (2 * i))) by lia. done.
Qed.

Lemma tree_root_ext d f g : (forall i, f i = g i) -> tree_root d f = tree_root d g.
Proof.
  revert f g. induction d as [|d IH]; intros f g Hfg; cbn; [done |].
  f_equal; apply IH; intros i; apply Hfg.
Qed.

Lemma tree_root_pairs d f :
  tree_root (S d) f = tree_root d (fun i => hash2 (f (2 * i)%nat) (f (2 * i + 1)%nat)).
Proof.
  revert f. induction d as [|d IH]; intros f; [done |].
  change (tree_root (S (S d)) f) with
    (hash2 (tree_root (S d) f) (tree_root (S d) (fun i => f (2 ^ S d + i)%nat))).
  rewrite (IH f), (IH (fun i => f (2 ^ S d + i)%nat)). cbn [tree_root]. f_equal. apply tree_root_ext. intros i.
  replace (2 ^ S d + 2 * i)%nat with (2 * (2 ^ d + i))%nat by (simpl; lia).
  by replace (2 ^ S d + (2 * i + 1))%nat with (2 * (2 ^ d + i) + 1)%nat by (simpl; lia).
Qed.

Lemma merkle_levels_tree d z l : merkle_levels d z l = tree_root d (fun i => nth i l z).
Proof.
  revert z l. induction d as [|d IH]; intros z l; [by destruct l |].
  cbn [merkle_levels]. rewrite IH, tree_root_pairs. apply tree_root_ext, nth_pair_up.
Qed.

(** [merkleize] is the root of the complete tree over the chunks and zero chunks. *)
Definition complete_tree (limit : N) (chunks : list Hash256) : Hash256 :=
  tree_root (N.to_nat (N.log2_up limit)) (fun i => nth i chunks zero_chunk).

Lemma merkleize_tree limit chunks : merkleize limit chunks = complete_tree limit chunks.
Proof. apply merkle_levels_tree. Qed.

(** The chunks of the bytes of a chunk. *)
Lemma pad_to_array (a : Hash256) : pad_to 32 (arr_bytes a) = a.
Proof.
  apply array_eq. rewrite pad_to_bytes by by rewrite array_len. rewrite array_length.
  apply app_nil_r.
Qed.

Lemma pack_short b : (0 < lenN b <= 32)%N -> pack b = [pad_to 32 b].
Proof.
  intros Hb. unfold pack, chunk_count. replace ((lenN b + 31) / 32)%N with 1%N.
  - change (N.to_nat 1) with 1%nat. cbn [chunks_of]. rewrite take_ge; [done |].
    unfold lenN in Hb. lia.
  - apply (N.div_unique _ _ _ (lenN b - 1)%N); lia.
Qed.

Lemma pack_chunk (a : Hash256) : pack (arr_bytes a) = [a].
Proof. rewrite pack_short by by rewrite array_len. by rewrite pad_to_array. Qed.

(** Chunks, one after the other. *)
Lemma chunks_of_app n m b c :
  length b = (32 * n)%nat -> chunks_of (n + m) (b ++ c) = chunks_of n b ++ chunks_of m c.
Proof.
  revert b. induction n as [|n IH]; intros b Hb.
  { by destruct b. }
  cbn [Nat.add chunks_of app]. rewrite take_app_le, drop_app_le by lia.
  rewrite IH by (rewrite length_drop; lia). done.
Qed.

Lemma chunk_count_app n m : (n mod 32 = 0)%N -> chunk_count (n + m) = (n / 32 + chunk_count m)%N.
Proof.
  intros Hn. unfold chunk_count. pose proof (N.Div0.div_mod n 32) as Hd.
  replace (n + m + 31)%N with ((m + 31) + n / 32 * 32)%N by lia.
  rewrite N.div_add by done. lia.
Qed.

Lemma pack_app b c : (lenN b mod 32 = 0)%N -> pack (b ++ c) = pack b ++ pack c.
Proof.
  intros Hb. unfold pack. pose proof (N.Div0.div_mod (lenN b) 32) as Hd.
  rewrite lenN_app, chunk_count_app by done.
  assert (chunk_count (lenN b) = lenN b / 32)%N as ->.
  { pose proof (chunk_count_app (lenN b) 0 Hb) as H0. rewrite N.add_0_r in H0.
    rewrite H0. change (chunk_count 0) with 0%N. lia. }
  rewrite N2Nat.inj_add. apply chunks_of_app. unfold lenN in *. lia.
Qed.

Lemma pack_chunks (l : list Hash256) : pack (mjoin (arr_bytes <$> l)) = l.
Proof.
  induction l as [|a l IH]; [done |]. cbn [fmap list_fmap mjoin list_join].
  rewrite pack_app, pack_chunk by by rewrite array_len. cbn. f_equal. exact IH.
Qed.

Lemma merkleize_one (a : Hash256) : merkleize 1 [a] = a.
Proof. done. Qed.

Lemma merkleize_two (a b : Hash256) : merkleize 2 [a; b] = hash2 a b.
Proof. done. Qed.

(** A container is the tree of the roots of its fields. *)
Lemma root_container ts vs :
  hash_tree_root (TContainer ts) (VNode vs) = merkleize (lenN ts) (zip_with hash_tree_root ts vs).
Proof. done. Qed.
End spec.

(** * The libraries *)

(** [tree_hash], [tree_hash_derive] and [ssz_types] on the types the sources use: each root is
    the one of the specification.  [hash2] is SHA-256 of two chunks. *)
Class TreeHashLaws (X : Ext) (hash2 : Hash256 -> Hash256 -> Hash256) : Prop := {
  derive_root_spec : forall l, derive_root l = merkleize hash2 (lenN l) l;
  merkle_root_spec : forall b n, (chunk_count (lenN b) <= n)%N ->
    merkle_root b n = merkleize hash2 n (pack b);
  hash256_root_spec : forall h, hash256_root h = h;
  u64_root_spec : forall z, is_u64 z -> u64_root z = pad_to 32 (le_bytes 8 z);
  bytes4_root_spec : forall b : array 4, bytes4_root b = pad_to 32 (arr_bytes b);
  bytes48_root_spec : forall b : array 48, bytes48_root b = merkleize hash2 2 (pack (arr_bytes b));
  fixed_bytes_root_spec : forall n b, lenN b = n ->
    fixed_bytes_root n b = hash_tree_root hash2 (TBytes n) (VBytes b);
  byte_list_root_spec : forall n b, (lenN b <= n)%N ->
    byte_list_root n b = hash_tree_root hash2 (TByteList n) (VBytes b);
  u64_list_root_spec : forall n l, (lenN l <= n)%N -> Forall is_u64 l ->
    u64_list_root n l =
    hash_tree_root hash2 (TList (TUint 8) n) (VNode ((fun z => VBytes (le_bytes 8 z)) <$> l));
  list_root_spec : forall n l, (lenN l <= n)%N ->
    list_root n l = mix_in_length hash2 (merkleize hash2 n l) (lenN l);
  vector_root_spec : forall n l, lenN l = n -> vector_root n l = merkleize hash2 n l;
  bitlist_root_spec : forall n l, (lenN l <= n)%N ->
    bitlist_root n l = hash_tree_root hash2 (TBitlist n) (VBits l);
  bitvector_root_spec : forall n l, lenN l = n ->
    bitvector_root n l = bits_root hash2 n l;
  (** [MerkleHasher]: the tree of the chunks of the bytes that were written, as long as they
      fit its leaves. *)
  mh_write_fits : forall n (parts : list bytes) h b,
    foldl (fun h b => h ≫= fun h => mh_write h b) (Some (mh_with_leaves n)) parts = Some h ->
    (chunk_count (lenN (mjoin parts ++ b)) <= n)%N -> is_Some (mh_write h b);
  mh_finish_spec : forall n (parts : list bytes) h,
    foldl (fun h b => h ≫= fun h => mh_write h b) (Some (mh_with_leaves n)) parts = Some h ->
    mh_finish h = Some (merkleize hash2 n (pack (mjoin parts)))
}.
