(* ===== verification/Sha256.v ===== *)
(** SHA-256 (FIPS 180-4), on integers: the hash of two chunks under the trees of [Merkle.v].  The
    round constants and the initial state are computed from their definition, the fractional
    parts of the roots of the first primes. *)

From S2P Require Import Prelude External Merkle.

Local Open Scope Z_scope.

Definition word_mask : Z := 2 ^ 32 - 1.
Definition wadd (x y : Z) : Z := Z.land (x + y) word_mask.
Definition rotr (n x : Z) : Z := Z.lor (Z.shiftr x n) (Z.land (Z.shiftl x (32 - n)) word_mask).
Definition xor3 (x y z : Z) : Z := Z.lxor x (Z.lxor y z).

(** ** Constants *)

Definition is_prime (n : nat) : bool :=
  forallb (fun d => negb (n mod d =? 0)%nat) (seq 2 (n - 2)).

Definition primes (count : nat) : list Z :=
  Z.of_nat <$> take count (List.filter is_prime (seq 2 310)).

(** The integer cube root, bit by bit from [2 ^ n]. *)
Fixpoint cube_root (n : nat) (r x : Z) : Z :=
  let s := r + 2 ^ Z.of_nat n in
  let r := if s * s * s <=? x then s else r in
  match n with O => r | S n => cube_root n r x end.

Definition round_constants : list Z :=
  Eval vm_compute in (fun p => Z.land (cube_root 36 0 (p * 2 ^ 96)) word_mask) <$> primes 64.

Definition initial_state : list Z :=
  Eval vm_compute in (fun p => Z.land (Z.sqrt (p * 2 ^ 64)) word_mask) <$> primes 8.

(** ** Words of a message *)

Definition be_word (l : bytes) : Z := foldl (fun acc b => acc * 256 + byte_val b) 0 l.

Definition be_bytes (n : nat) (z : Z) : bytes := reverse (le_bytes n z).

(** The message, a set bit, zeros, and its length in bits, in blocks of 64 bytes. *)
Definition padded (msg : bytes) : bytes :=
  let zeros := (55 - Z.of_nat (length msg)) mod 64 in
  msg ++ Byte.x80 :: replicate (Z.to_nat zeros) Byte.x00 ++
    be_bytes 8 (8 * Z.of_nat (length msg)).

Fixpoint words (n : nat) (l : bytes) : list Z :=
  match n with O => [] | S n => be_word (take 4 l) :: words n (drop 4 l) end.

(** The schedule of a block: its sixteen words and 48 more, [window] the last sixteen, the
    latest first. *)
Fixpoint schedule_words (n : nat) (window : list Z) : list Z :=
  match n with
  | O => []
  | S n =>
      let w i := nth i window 0 in
      let s0 := xor3 (rotr 7 (w 14%nat)) (rotr 18 (w 14%nat)) (Z.shiftr (w 14%nat) 3) in
      let s1 := xor3 (rotr 17 (w 1%nat)) (rotr 19 (w 1%nat)) (Z.shiftr (w 1%nat) 10) in
      let next := wadd (wadd s1 (w 6%nat)) (wadd s0 (w 15%nat)) in
      next :: schedule_words n (next :: take 15 window)
  end.

(** ** Compression *)

Definition round (state : list Z) (kw : Z * Z) : list Z :=
  match state with
  | [a; b; c; d; e; f; g; h] =>
      let ch := Z.lxor (Z.land e f) (Z.land (Z.lxor e word_mask) g) in
      let maj := xor3 (Z.land a b) (Z.land a c) (Z.land b c) in
      let t1 := wadd (wadd h (xor3 (rotr 6 e) (rotr 11 e) (rotr 25 e)))
                  (wadd ch (wadd kw.1 kw.2)) in
      let t2 := wadd (xor3 (rotr 2 a) (rotr 13 a) (rotr 22 a)) maj in
      [wadd t1 t2; a; b; c; wadd d t1; e; f; g]
  | _ => state
  end.

Definition compress (state : list Z) (block : bytes) : list Z :=
  let first := words 16 block in
  let w := first ++ schedule_words 48 (reverse first) in
  zip_with wadd state (foldl round state (zip round_constants w)).

Fixpoint compress_all (blocks : nat) (state : list Z) (l : bytes) : list Z :=
  match blocks with
  | O => state
  | S n => compress_all n (compress state (take 64 l)) (drop 64 l)
  end.

Definition sha256 (msg : bytes) : array 32 :=
  let l := padded msg in
  pad_to 32 (mjoin (be_bytes 4 <$> compress_all (length l / 64) initial_state l)).

Definition sha_hash2 (a b : Hash256) : Hash256 := sha256 (arr_bytes a ++ arr_bytes b).
