(* ===== verification/StorageTypes.v ===== *)
(** The stored types of [crates/primitives/src/storage/]: the head slot, the payload
    attributes, the duties, bid traces and bid submissions. *)

From S2P Require Import Prelude External Types Blst Signer BeaconTypes.

(** * Head slot ([head_slot.rs]) *)

Record HeadSlot : Type := mkHeadSlot { hs_slot : u64 }.

#[export] Instance head_slot_eq_dec : EqDecision HeadSlot.
Proof. solve_decision. Defined.

(** [self.0 + 1 == proposal_slot] *)
Definition is_next_slot `{BuildProfile} (h : HeadSlot) (proposal_slot : u64) : outcome bool :=
  let^ next := u64_add (hs_slot h) 1 in Val (next =? proposal_slot)%Z.

(** [self.0 % slots_per_epoch == 1] *)
Definition is_first_slot_of_new_epoch (h : HeadSlot) (slots_per_epoch : u64) : outcome bool :=
  let^ r := u64_rem (hs_slot h) slots_per_epoch in Val (r =? 1)%Z.

Definition epoch (h : HeadSlot) (slots_per_epoch : u64) : outcome u64 :=
  u64_div (hs_slot h) slots_per_epoch.

(** * Payload attributes ([payload_attributes.rs]) *)

(** The withdrawals of the RPC crate. *)
Record RpcWithdrawal : Type := mkRpcWithdrawal {
  rw_index : u64;
  rw_validator_index : u64;
  rw_address : array 20;
  rw_amount : u64
}.

(** The RPC crate's [PayloadAttributesData], with the attributes it nests. *)
Record PayloadAttributes : Type := mkPayloadAttributes {
  pa_proposal_slot : u64;
  pa_parent_block_root : array 32;
  pa_parent_block_number : u64;
  pa_parent_block_hash : array 32;
  pa_proposer_index : u64;
  pa_timestamp : u64;
  pa_prev_randao : array 32;
  pa_suggested_fee_recipient : array 20;
  pa_withdrawals : option (list RpcWithdrawal);
  pa_parent_beacon_block_root : option (array 32)
}.

#[export] Instance rpc_withdrawal_eq_dec : EqDecision RpcWithdrawal.
Proof. solve_decision. Defined.
#[export] Instance payload_attributes_eq_dec : EqDecision PayloadAttributes.
Proof. solve_decision. Defined.

Definition parent_hash (a : PayloadAttributes) : B256 := mkB256 (pa_parent_block_hash a).
Definition suggested_fee_recipient (a : PayloadAttributes) : Address :=
  mkAddress (pa_suggested_fee_recipient a).
Definition prev_randao (a : PayloadAttributes) : B256 := mkB256 (pa_prev_randao a).

Inductive ValidationErrors : Type := VSlot | VPrevRandao.

Definition validation_error_display (e : ValidationErrors) : string :=
  match e with
  | VSlot => "Payload attributes: Invalid slot."
  | VPrevRandao => "Payload attributes: Invalid prev_randao."
  end.

Definition validate_bid (a : PayloadAttributes) (slot : u64) (randao : B256) :
  result unit ValidationErrors :=
  if negb (pa_proposal_slot a =? slot)%Z then Err VSlot
  else if negb (bool_decide (prev_randao a = randao)) then Err VPrevRandao
  else Ok tt.

Section storage_types.
Context `{Ext}.

(** * Duties ([validator.rs]) *)

Record Validator : Type := mkValidator {
  v_slot : u64;
  v_validator_index : u64;
  v_entry : ValidatorRegistration
}.

(** The registered key of a duty. *)
Definition duty_pubkey (d : Validator) : BlsPublicKey := rm_pubkey (vr_message (v_entry d)).

Definition invalid_fee_recipient (d : Validator) (fee_recipient : Address) : bool :=
  negb (bool_decide (rm_fee_recipient (vr_message (v_entry d)) = fee_recipient)).

(** * Bid traces ([bid_traces.rs]) *)

Record BidTrace : Type := mkBidTrace {
  bt_slot : u64;
  bt_parent_hash : B256;
  bt_block_hash : B256;
  bt_builder_pubkey : BlsPublicKey;
  bt_proposer_pubkey : BlsPublicKey;
  bt_proposer_fee_recipient : Address;
  bt_gas_limit : u64;
  bt_gas_used : u64;
  bt_value : U256
}.

#[export] Instance bid_trace_signed_root : SignedRoot BidTrace :=
  derive_tree_hash (fun b => derive_root
    [u64_root (bt_slot b); tree_hash_root (bt_parent_hash b); tree_hash_root (bt_block_hash b);
     tree_hash_root (bt_builder_pubkey b); tree_hash_root (bt_proposer_pubkey b);
     tree_hash_root (bt_proposer_fee_recipient b); u64_root (bt_gas_limit b);
     u64_root (bt_gas_used b); tree_hash_root (bt_value b)]).

Definition bid_verify_signature (b : BidTrace) (signature : BlsSignature) (domain : Domain) :
  bool :=
  let root := signing_root b domain in
  bls_sig_verify signature (bt_builder_pubkey b) root.

(** [Ord] compares the values; [a > b] goes through [PartialOrd]. *)
Definition bid_cmp (a b : BidTrace) : comparison := u256_cmp (bt_value a) (bt_value b).
Definition bid_partial_cmp (a b : BidTrace) : option comparison := Some (bid_cmp a b).
Definition bid_gt (a b : BidTrace) : bool :=
  match bid_partial_cmp a b with Some Gt => true | _ => false end.

(** * Bid submissions ([bid_submission.rs]) *)

Record BidSubmission : Type := mkBidSubmission {
  bs_message : BidTrace;
  bs_execution_payload : ExecutionPayload;
  bs_blobs_bundle : BlobsBundle;
  bs_signature : BlsSignature
}.

Definition to_blinded_block_response (s : BidSubmission) : BlindedBlockResponse :=
  mkBlindedBlockResponse (bs_execution_payload s) (bs_blobs_bundle s).

(** The wei value of a bid. *)
Definition bid_value (s : BidSubmission) : Z := u256_val (bt_value (bs_message s)).
End storage_types.

(** * Properties *)

Lemma is_next_slot_spec `{BuildProfile} h s :
  (hs_slot h < u64_max)%Z -> is_next_slot h s = Val (hs_slot h + 1 =? s)%Z.
Proof.
  intros. unfold is_next_slot. rewrite u64_add_small; [done |]. unfold u64_max in *. lia.
Qed.

Lemma validate_bid_ok a slot randao :
  validate_bid a slot randao = Ok tt <-> pa_proposal_slot a = slot /\ prev_randao a = randao.
Proof.
  unfold validate_bid. destruct (Z.eqb_spec (pa_proposal_slot a) slot); simpl.
  - case_bool_decide; simpl; naive_solver.
  - naive_solver.
Qed.

Section laws.
Context {X : Ext}.

Lemma bid_gt_spec (a b : BidTrace) :
  bid_gt a b = true <-> (u256_val (bt_value b) < u256_val (bt_value a))%Z.
Proof.
  unfold bid_gt, bid_partial_cmp, bid_cmp, u256_cmp.
  destruct (Z.compare_spec (u256_val (bt_value a)) (u256_val (bt_value b)));
    split; intros; try done; lia.
Qed.

Lemma bid_gt_false (a b : BidTrace) :
  bid_gt a b = false <-> (u256_val (bt_value a) <= u256_val (bt_value b))%Z.
Proof. rewrite <-Z.nlt_ge, <-bid_gt_spec, not_true_iff_false. done. Qed.
End laws.

(** C40: the next-slot test on [u64]s: it is exact below [2^64 - 1]; at the last slot it panics
    when overflow checks are on, and takes slot [0] for the next one when they are off. *)
Theorem is_next_slot_cases `{BuildProfile} h s :
  is_u64 (hs_slot h) ->
  is_next_slot h s =
  if decide (hs_slot h < u64_max)%Z then Val (hs_slot h + 1 =? s)%Z
  else if overflow_checks then Panics "attempt to add with overflow"
  else Val (0 =? s)%Z.
Proof.
  unfold is_u64, u64_max. intros Hh. case_decide as Hlt.
  - by apply is_next_slot_spec.
  - unfold is_next_slot, u64_add. rewrite decide_False by lia.
    destruct overflow_checks; [done |]. simpl.
    assert (hs_slot h + 1 = u64_modulus)%Z as -> by lia. by rewrite Z.mod_same.
Qed.

(** Epochs: the epoch of a slot divides the slots in runs of [slots_per_epoch], the first
    slot of a new epoch being, for the code, the one that leaves remainder 1; both panic when
    [slots_per_epoch] is 0. *)
Theorem epoch_bounds h n :
  is_u64 (hs_slot h) -> (0 <= n)%Z ->
  match epoch h n with
  | Val e => (n * e <= hs_slot h < n * (e + 1))%Z /\
      exists b, is_first_slot_of_new_epoch h n = Val b /\
                (b = true <-> hs_slot h = n * e + 1)%Z
  | Panics m => n = 0%Z /\ m = "attempt to divide by zero" /\
      exists m', is_first_slot_of_new_epoch h n = Panics m'
  end.
Proof.
  unfold is_u64, epoch, is_first_slot_of_new_epoch, u64_div, u64_rem. intros Hh Hn.
  destruct (Z.eqb_spec n 0) as [->|Hne]; simpl; [by eauto |].
  pose proof (Z.div_mod (hs_slot h) n Hne). pose proof (Z.mod_pos_bound (hs_slot h) n ltac:(lia)).
  split; [lia |]. eexists; split; [done |]. rewrite Z.eqb_eq. lia.
Qed.
