(* ===== verification/Metrics.v ===== *)
(** The metrics of the relay ([crates/primitives/src/metrics/mod.rs]): the calls recorded on
    its gauges and counters, and the conversion of integers to the [f64] a gauge holds. *)

From S2P Require Import Prelude.

(** [n as f64] for an unsigned integer: the nearest multiple of the unit in the last place of
    a 53-bit significand, ties to even.  The double is given by its (integral) value. *)
Definition u64_as_f64 (n : Z) : Z :=
  if (n <? 2 ^ 53)%Z then n
  else
    let e := (Z.log2 n - 52)%Z in
    let q := (n / 2 ^ e)%Z in
    let r := (n mod 2 ^ e)%Z in
    let half := (2 ^ (e - 1))%Z in
    let up := if (r <? half)%Z then 0%Z
              else if (half <? r)%Z then 1%Z
              else (q mod 2)%Z in
    ((q + up) * 2 ^ e)%Z.

Inductive Gauge : Type :=
| GProposalSlot | GBlock
| GRegisteredValidators | GKnownValidators | GHeaderValues | GTxCount
| GBlindedBlockLatency | GHeaderLatency.

Inductive Counter : Type := CHeaders | CBlindedBlocks | CRelayedBlocks | CNonRelayedBlocks.

#[export] Instance gauge_eq_dec : EqDecision Gauge.
Proof. solve_decision. Defined.
#[export] Instance counter_eq_dec : EqDecision Counter.
Proof. solve_decision. Defined.

Inductive MetricOp : Type :=
| GaugeSet (g : Gauge) (v : Z)
| CounterInc (c : Counter) (by_ : Z).

(** * The methods of [Chain] and [Relay] *)

Definition set_proposal_slot (slot : u64) : MetricOp := GaugeSet GProposalSlot (u64_as_f64 slot).
Definition set_block (block : u64) : MetricOp := GaugeSet GBlock (u64_as_f64 block).
Definition set_blinded_block_latency (latency : u64) : MetricOp :=
  GaugeSet GBlindedBlockLatency (u64_as_f64 latency).
Definition set_header_latency (latency : u64) : MetricOp :=
  GaugeSet GHeaderLatency (u64_as_f64 latency).
Definition set_registered_validators (count : N) : MetricOp :=
  GaugeSet GRegisteredValidators (u64_as_f64 (Z.of_N count)).
Definition set_known_validators (count : u64) : MetricOp :=
  GaugeSet GKnownValidators (u64_as_f64 count).
Definition inc_headers : MetricOp := CounterInc CHeaders 1.
Definition set_header_values (value : u64) : MetricOp :=
  GaugeSet GHeaderValues (u64_as_f64 value).
Definition set_tx_count (count : N) : MetricOp := GaugeSet GTxCount (u64_as_f64 (Z.of_N count)).
Definition inc_blinded_blocks : MetricOp := CounterInc CBlindedBlocks 1.
Definition inc_relayed_blocks : MetricOp := CounterInc CRelayedBlocks 1.
Definition inc_non_relayed_blocks : MetricOp := CounterInc CNonRelayedBlocks 1.

(** What an exporter shows after a sequence of calls (latest first): the last value set, the
    sum of the increments. *)
Definition gauge_value (g : Gauge) (ops : list MetricOp) : option Z :=
  head (omap (fun o => match o with
                       | GaugeSet g' v => if decide (g' = g) then Some v else None
                       | CounterInc _ _ => None
                       end) ops).

Definition counter_value (c : Counter) (ops : list MetricOp) : Z :=
  fold_right Z.add 0%Z
    (omap (fun o => match o with
                    | CounterInc c' n => if decide (c' = c) then Some n else None
                    | GaugeSet _ _ => None
                    end) ops).

(** * Properties *)

Lemma u64_as_f64_exact n : (n <= 2 ^ 53)%Z -> u64_as_f64 n = n.
Proof.
  intros Hn. unfold u64_as_f64. destruct (Z.ltb_spec n (2 ^ 53)) as [|Hge]; [done |].
  assert (n = 2 ^ 53)%Z as -> by lia. reflexivity.
Qed.

(** The rounding step: the result is at most half a unit away. *)
Lemma f64_round_half q r e :
  (0 < e)%Z -> (0 <= r < 2 ^ e)%Z ->
  let up := if (r <? 2 ^ (e - 1))%Z then 0%Z
            else if (2 ^ (e - 1) <? r)%Z then 1%Z else (q mod 2)%Z in
  (Z.abs ((q + up) * 2 ^ e - (q * 2 ^ e + r)) <= 2 ^ (e - 1))%Z.
Proof.
  intros He Hr up.
  assert (2 ^ e = 2 * 2 ^ (e - 1))%Z as H2 by (rewrite <-Z.pow_succ_r by lia; f_equal; lia).
  pose proof (Z.mod_pos_bound q 2 ltac:(lia)).
  replace ((q + up) * 2 ^ e - (q * 2 ^ e + r))%Z with (up * 2 ^ e - r)%Z by ring.
  subst up. rewrite H2 in *.
  destruct (Z.ltb_spec r (2 ^ (e - 1))); [lia |].
  destruct (Z.ltb_spec (2 ^ (e - 1)) r); [lia |].
  assert (q mod 2 = 0 \/ q mod 2 = 1)%Z as [-> | ->] by lia; lia.
Qed.

Lemma u64_as_f64_error_ n :
  (0 <= n)%Z -> (2 ^ 53 * Z.abs (u64_as_f64 n - n) <= n)%Z.
Proof.
  intros Hn. unfold u64_as_f64. destruct (Z.ltb_spec n (2 ^ 53)) as [Hlt|Hge].
  - rewrite Z.sub_diag. simpl. lia.
  - set (e := (Z.log2 n - 52)%Z).
    assert (53 <= Z.log2 n)%Z as Hlog by (apply Z.log2_le_pow2; lia).
    pose proof (Z.log2_spec n ltac:(lia)) as [Hlo _].
    pose proof (Z.mod_pos_bound n (2 ^ e) ltac:(apply Z.pow_pos_nonneg; lia)) as Hr.
    pose proof (f64_round_half (n / 2 ^ e) (n mod 2 ^ e) e ltac:(lia) Hr) as Hround.
    cbv zeta in Hround |- *.
    assert (n / 2 ^ e * 2 ^ e + n mod 2 ^ e = n)%Z as Hdm.
    { rewrite (Z.mul_comm (n / _)). symmetry. apply Z.div_mod. lia. }
    rewrite Hdm in Hround.
    transitivity (2 ^ 53 * 2 ^ (e - 1))%Z.
    + apply Z.mul_le_mono_nonneg_l; [lia | exact Hround].
    + rewrite <-Z.pow_add_r by lia. replace (53 + (e - 1))%Z with (Z.log2 n) by lia. exact Hlo.
Qed.

Lemma counter_value_app c l1 l2 :
  counter_value c (l1 ++ l2) = (counter_value c l1 + counter_value c l2)%Z.
Proof.
  unfold counter_value. rewrite omap_app.
  induction (omap _ l1) as [|n l IH]; simpl; [done | rewrite IH; lia].
Qed.

Definition counter_delta (c : Counter) (o : MetricOp) : Z :=
  match o with
  | CounterInc c' n => if decide (c' = c) then n else 0
  | GaugeSet _ _ => 0
  end.

Lemma counter_value_cons c o ops :
  counter_value c (o :: ops) = (counter_delta c o + counter_value c ops)%Z.
Proof. destruct o as [|c' n]; unfold counter_value; simpl; [done |]. by case_decide. Qed.

(** The integer a gauge shows is the recorded [u64] up to a relative error of [2^-53], and
    exactly up to [2^53]. *)
Theorem u64_as_f64_error n :
  (0 <= n)%Z ->
  (2 ^ 53 * Z.abs (u64_as_f64 n - n) <= n)%Z /\ ((n <= 2 ^ 53)%Z -> u64_as_f64 n = n).
Proof. split; [by apply u64_as_f64_error_ | by apply u64_as_f64_exact]. Qed.

#[global] Arguments counter_value : simpl never.
#[global] Arguments u64_as_f64 : simpl never.
