(* ===== verification/Header.v ===== *)
(** Signed execution headers, [crates/primitives/src/beacon/header.rs]: the header of an
    execution payload, and the signed header the relay serves for a bid. *)

From S2P Require Import Prelude External Types Blst Signer BeaconTypes BeaconBlock StorageTypes.

(** The capacities of the SSZ lists ([typenum] constants of the sources). *)
Definition MAX_BYTES_PER_TRANSACTION : N := 1073741824.
Definition MAX_TRANSACTIONS : N := 1048576.
Definition MAX_WITHDRAWALS : N := 16.
Definition MAX_BLOB_COMMITMENTS : N := 4096.

Section header.
Context `{Ext}.

Record Header : Type := mkHeader {
  h_header : ExecutionPayloadHeader;
  h_blob_kzg_commitments : list KzgCommitment;
  h_value : U256;
  h_pubkey : BlsPublicKey
}.

Record SignedHeader : Type := mkSignedHeader {
  sh_message : Header;
  sh_signature : BlsSignature
}.

#[export] Instance header_signed_root : SignedRoot Header :=
  derive_tree_hash (fun h => derive_root
    [tree_hash_root (h_header h);
     list_root MAX_BLOB_COMMITMENTS (tree_hash_root <$> h_blob_kzg_commitments h);
     tree_hash_root (h_value h); tree_hash_root (h_pubkey h)]).

(** The derived [TreeHash] of a withdrawal and of the lists of the payload. *)
Definition withdrawal_root (w : Withdrawal) : Hash256 := derive_root
  [u64_root (wd_index w); u64_root (wd_validator_index w); tree_hash_root (wd_address w);
   u64_root (wd_amount w)].

Definition transactions_root (txs : list bytes) : Hash256 :=
  list_root MAX_TRANSACTIONS (byte_list_root MAX_BYTES_PER_TRANSACTION <$> txs).

Definition withdrawals_root (ws : list Withdrawal) : Hash256 :=
  list_root MAX_WITHDRAWALS (withdrawal_root <$> ws).

(** [From<ExecutionPayload> for ExecutionPayloadHeader] *)
Definition header_of_payload (payload : ExecutionPayload) : ExecutionPayloadHeader :=
  let tx_root := transactions_root (ep_transactions payload) in
  let withdrawls_root := b256_from_hash256 (withdrawals_root (ep_withdrawals payload)) in
  {|
    eh_parent_hash := ep_parent_hash payload;
    eh_fee_recipient := ep_fee_recipient payload;
    eh_state_root := ep_state_root payload;
    eh_receipts_root := ep_receipts_root payload;
    eh_logs_bloom := ep_logs_bloom payload;
    eh_prev_randao := ep_prev_randao payload;
    eh_block_number := ep_block_number payload;
    eh_gas_limit := ep_gas_limit payload;
    eh_gas_used := ep_gas_used payload;
    eh_timestamp := ep_timestamp payload;
    eh_extra_data := ep_extra_data payload;
    eh_base_fee_per_gas := ep_base_fee_per_gas payload;
    eh_block_hash := ep_block_hash payload;
    eh_transactions_root := b256_from_hash256 tx_root;
    eh_withdrawals_root := withdrawls_root;
    eh_blob_gas_used := ep_blob_gas_used payload;
    eh_excess_blob_gas := ep_excess_blob_gas payload
  |}.

(** [TryFrom<(BidSubmission, BlsSigner)> for SignedHeader] *)
Definition signed_header_try_from (submission : BidSubmission) (signer : BlsSigner) :
  result SignedHeader ConversionError :=
  let value := bt_value (bs_message submission) in
  let exec_payload := bs_execution_payload submission in
  let blobs_bundle := bs_blobs_bundle submission in
  let header := header_of_payload exec_payload in
  let kzg_commitments := as_kzg_commitment <$> bb_commitments blobs_bundle in
  let? blob_kzg_commitments := ok_or (vl_new MAX_BLOB_COMMITMENTS kzg_commitments) SszTypes in
  let pubkey := signer_public_key signer in
  let msg := mkHeader header blob_kzg_commitments value pubkey in
  let signature := signer_sign signer msg in
  Ok (mkSignedHeader msg signature).
End header.

(** * Properties *)

Section laws.
Context {X : Ext} {L : ExtLaws X}.

(** Signing succeeds exactly when the bundle has no more commitments than a block may carry,
    and the only error is [SszTypes]. *)
Lemma signed_header_try_from_spec (s : BidSubmission) (signer : BlsSigner) :
  signed_header_try_from s signer =
  if (lenN (bb_commitments (bs_blobs_bundle s)) <=? MAX_BLOB_COMMITMENTS)%N
  then let msg := mkHeader (header_of_payload (bs_execution_payload s))
                    (as_kzg_commitment <$> bb_commitments (bs_blobs_bundle s))
                    (bt_value (bs_message s)) (signer_public_key signer) in
       Ok (mkSignedHeader msg (signer_sign signer msg))
  else Err SszTypes.
Proof.
  unfold signed_header_try_from. rewrite vl_new_spec. unfold lenN.
  rewrite length_fmap. by destruct (_ <=? _)%N.
Qed.
End laws.

Section main.
Context {X : Ext} {L : ExtLaws X}.

(** Signing a header fails exactly when the bundle has more than 4096 commitments, and then
    with [SszTypes]; otherwise the header carries the fields of the payload, the value of the
    bid and the relay's key. *)
Theorem signed_header_limit (s : BidSubmission) (signer : BlsSigner) :
  ((MAX_BLOB_COMMITMENTS < lenN (bb_commitments (bs_blobs_bundle s)))%N <->
   signed_header_try_from s signer = Err SszTypes) /\
  (forall h, signed_header_try_from s signer = Ok h ->
     h_value (sh_message h) = bt_value (bs_message s) /\
     h_pubkey (sh_message h) = signer_public_key signer /\
     h_header (sh_message h) = header_of_payload (bs_execution_payload s) /\
     eh_transactions_root (h_header (sh_message h)) =
       b256_from_hash256 (transactions_root (ep_transactions (bs_execution_payload s)))).
Proof.
  rewrite signed_header_try_from_spec.
  destruct (N.leb_spec (lenN (bb_commitments (bs_blobs_bundle s))) MAX_BLOB_COMMITMENTS).
  - split; [split; [lia | done] |]. by intros h [= <-].
  - split; [done |]. done.
Qed.
End main.
