(* ===== verification/Json.v ===== *)
(** JSON forms: the values of [serde_json], the [Serialize] and [Deserialize] derives of a struct
    as a list of fields, and the forms of the types the structs are made of: those the sources
    write ([macros.rs], [kzg_commitments.rs], [fork.rs], [types.rs]) and, as parameters, those
    of the libraries. *)

From stdpp Require Import pretty.
From S2P Require Import Prelude External Types Blst Signer BeaconTypes.

(** * Values *)

(** The integers of a document are read as integers, its other numbers by their text. *)
Inductive JsonValue : Type :=
| JNull
| JBool (b : bool)
| JNumber (n : Z)
| JFloat (text : string)
| JString (s : string)
| JArray (l : list JsonValue)
| JObject (fields : list (string * JsonValue)).

(** [Serialize] and [Deserialize]: [None] is an error of serde, whose message is not modelled.
    [serde_ok] is what the Rust type guarantees of its elements (the width of an integer, the
    length of a vector) and, for a key or a signature, that it was made from its bytes. *)
Class Serde (A : Type) := {
  ser : A -> JsonValue;
  de : JsonValue -> option A;
  serde_ok : A -> Prop
}.

Class SerdeLaws {A} (s : Serde A) : Prop :=
  de_ser : forall a : A, serde_ok a -> de (ser a) = Some a.

(** ** Structs *)

(** The fields of a struct, in the order of their declaration; the index is the type of the
    constructor that is still to be applied. *)
Inductive Fields (A : Type) : Type -> Type :=
| FNil : Fields A A
| FCons {B C : Type} (name : string) (proj : A -> B) (s : Serde B) (rest : Fields A C) :
    Fields A (B -> C).
Arguments FNil {A}.
Arguments FCons {A B C} name proj s rest.

(** A field whose form is the one of its type, and one with an attribute. *)
Notation "n '~>' p ',,' r" := (FCons n%string p _ r)
  (at level 60, p at level 50, right associativity) : relay_scope.
Notation "n '~>' p 'as' s ',,' r" := (FCons n%string p s r)
  (at level 60, p at level 50, s at level 50, right associativity) : relay_scope.

Fixpoint field_names {A T} (fs : Fields A T) : list string :=
  match fs with FNil => [] | FCons n _ _ rest => n :: field_names rest end.

Fixpoint ser_fields {A T} (fs : Fields A T) (a : A) : list JsonValue :=
  match fs with FNil => [] | FCons _ p _ rest => ser (p a) :: ser_fields rest a end.

Fixpoint de_fields {A T} (fs : Fields A T) : T -> list JsonValue -> option A :=
  match fs in Fields _ T return T -> list JsonValue -> option A with
  | FNil => fun mk vs => match vs with [] => Some mk | _ => None end
  | FCons _ _ _ rest => fun mk vs =>
      match vs with
      | [] => None
      | v :: vs => b ← de v; de_fields rest (mk b) vs
      end
  end.

Fixpoint fields_ok {A T} (fs : Fields A T) (a : A) : Prop :=
  match fs with FNil => True | FCons _ p _ rest => serde_ok (p a) /\ fields_ok rest a end.

(** The values of the fields: of an object by name, each exactly once (other keys are ignored);
    of an array by position. *)
Definition struct_values (names : list string) (j : JsonValue) : option (list JsonValue) :=
  match j with
  | JObject kvs =>
      mapM (fun n =>
        match filter (fun kv => kv.1 = n) kvs with [(_, v)] => Some v | _ => None end) names
  | JArray l => if (length l =? length names)%nat then Some l else None
  | _ => None
  end.

(** [#[derive(Serialize, Deserialize)]] *)
Definition derive_serde {A T} (mk : T) (fs : Fields A T) : Serde A := {|
  ser a := JObject (zip (field_names fs) (ser_fields fs a));
  de j := vs ← struct_values (field_names fs) j; de_fields fs mk vs;
  serde_ok := fields_ok fs
|}.

(** *** Their round trip *)

(** The constructor applied to the fields of a value. *)
Fixpoint rebuild {A T} (fs : Fields A T) : T -> A -> A :=
  match fs in Fields _ T return T -> A -> A with
  | FNil => fun mk _ => mk
  | FCons _ p _ rest => fun mk a => rebuild rest (mk (p a)) a
  end.

Fixpoint fields_lawful {A T} (fs : Fields A T) : Prop :=
  match fs with FNil => True | FCons _ _ s rest => SerdeLaws s /\ fields_lawful rest end.

Lemma length_ser_fields {A T} (fs : Fields A T) a :
  length (ser_fields fs a) = length (field_names fs).
Proof. induction fs as [|B C n p s rest IH]; simpl; [done | by rewrite IH]. Qed.

Lemma de_ser_fields {A T} (fs : Fields A T) mk a :
  fields_lawful fs -> fields_ok fs a -> de_fields fs mk (ser_fields fs a) = Some (rebuild fs mk a).
Proof.
  induction fs as [|B C n p s rest IH]; simpl; [done |]. intros [Hs Hrest] [Hok Hoks].
  rewrite (Hs _ Hok). cbn. by apply IH.
Qed.

Lemma filter_zip_none (n : string) names (vs : list JsonValue) :
  n ∉ names -> filter (fun kv : string * JsonValue => kv.1 = n) (zip names vs) = [].
Proof.
  revert vs. induction names as [|m names IH]; intros [|v vs] Hn; try done. cbn [zip zip_with].
  apply not_elem_of_cons in Hn as [Hm Hn]. rewrite filter_cons_False by (simpl; congruence).
  by apply IH.
Qed.

Lemma lookup_zip names (vs : list JsonValue) (pre : list (string * JsonValue)) :
  NoDup names -> length vs = length names -> (forall n, n ∈ names -> n ∉ pre.*1) ->
  mapM (fun n => match filter (fun kv : string * JsonValue => kv.1 = n) (pre ++ zip names vs) with
                 | [(_, v)] => Some v | _ => None end) names = Some vs.
Proof.
  intros Hnd. revert vs pre. induction Hnd as [|n names Hn Hnd IH]; intros [|v vs] pre Hl Hpre;
    try discriminate; [done |].
  injection Hl as Hl. cbn [zip zip_with mapM].
  assert (filter (fun kv : string * JsonValue => kv.1 = n) pre = []) as Hf.
  { specialize (Hpre n ltac:(left)). clear -Hpre.
    induction pre as [|[m w] pre IHp]; [done |]. cbn in Hpre.
    apply not_elem_of_cons in Hpre as [Hm Hpre].
    rewrite filter_cons_False by (simpl; congruence). by apply IHp. }
  rewrite filter_app, Hf, filter_cons_True by done. cbn [app].
  change (zip_with pair names vs) with (zip names vs).
  rewrite filter_zip_none by done. cbn.
  pose proof (IH vs (pre ++ [(n, v)]) Hl) as Hrest. rewrite <-app_assoc in Hrest. cbn in Hrest.
  rewrite Hrest; [done |].
  intros m Hm. rewrite fmap_app, not_elem_of_app. split; [apply Hpre; by right |].
  cbn. intros ?%list_elem_of_singleton. by subst.
Qed.

(** An object with exactly these fields, in this order. *)
Lemma struct_values_zip names (vs : list JsonValue) :
  NoDup names -> length vs = length names ->
  struct_values names (JObject (zip names vs)) = Some vs.
Proof.
  intros Hnd Hl. apply (lookup_zip names vs []); [done | done |]. intros n _. apply not_elem_of_nil.
Qed.

Lemma derive_serde_laws {A T} (mk : T) (fs : Fields A T) :
  NoDup (field_names fs) -> (forall a, rebuild fs mk a = a) -> fields_lawful fs ->
  SerdeLaws (derive_serde mk fs).
Proof.
  intros Hnd Hmk Hlaws a Hok. cbn [de ser derive_serde].
  rewrite (struct_values_zip _ _ Hnd (length_ser_fields fs a)). cbn.
  by rewrite (de_ser_fields fs mk a Hlaws Hok), Hmk.
Qed.

(** Side conditions of [derive_serde_laws]: the names are distinct, the projections are those of
    the constructor, and each field has a lawful form. *)
Ltac solve_serde :=
  apply derive_serde_laws;
    [ apply (bool_decide_eq_true_1 _); vm_compute; reflexivity
    | by intros []
    | cbn [fields_lawful]; repeat (apply conj; [apply _ |]); exact I ].

(** * The libraries *)

(** The form a library gives to one of its types. *)
Record Codec (A : Type) : Type := mkCodec { enc : A -> JsonValue; dec : JsonValue -> option A }.
Arguments enc {A} c a.
Arguments dec {A} c j.

Definition lib_serde {A} (ok : A -> Prop) (c : Codec A) : Serde A := {|
  ser := enc c; de := dec c; serde_ok := ok |}.

Class SerdeLib `{Ext} := {
  (** alloy: [FixedBytes<n>] and [Address]; ruint: [Uint<256, 4>] *)
  fixed_bytes_codec : forall n : N, Codec (array n);
  uint_codec : Codec Uint256;
  (** serde_utils: [bytes_4_hex]; ethereum-types: the 32-byte hash *)
  bytes_4_hex : Codec (array 4);
  hash256_codec : Codec Hash256;
  (** ssz_types::serde_utils *)
  hex_fixed_vec : N -> Codec bytes;
  hex_var_list : N -> Codec bytes;
  list_of_hex_var_list : N -> N -> Codec (list bytes);
  (** ssz_types: the bit fields, and what the readers of [VariableList<T, n>] and of
      [FixedVector<T, n>] make of the elements that were read *)
  bitlist_codec : N -> Codec (list bool);
  bitvector_codec : N -> Codec (list bool);
  variable_list_read : forall {T : Type} (n : N), list T -> option (list T);
  fixed_vector_read : forall {T : Type} (n : N), list T -> option (list T);
  (** uuid *)
  uuid_codec : Codec N
}.

(** What was written is read back. *)
Class SerdeLibLaws `{Ext} (S : SerdeLib) : Prop := {
  fixed_bytes_dec : forall n (a : array n),
    dec (fixed_bytes_codec n) (enc (fixed_bytes_codec n) a) = Some a;
  uint_dec : forall u, dec uint_codec (enc uint_codec u) = Some u;
  bytes_4_hex_dec : forall a, dec bytes_4_hex (enc bytes_4_hex a) = Some a;
  hash256_dec : forall a, dec hash256_codec (enc hash256_codec a) = Some a;
  hex_fixed_vec_dec : forall n b,
    lenN b = n -> dec (hex_fixed_vec n) (enc (hex_fixed_vec n) b) = Some b;
  hex_var_list_dec : forall n b,
    (lenN b <= n)%N -> dec (hex_var_list n) (enc (hex_var_list n) b) = Some b;
  list_of_hex_dec : forall n m l, (lenN l <= m)%N -> Forall (fun b => lenN b <= n)%N l ->
    dec (list_of_hex_var_list n m) (enc (list_of_hex_var_list n m) l) = Some l;
  bitlist_dec : forall n l,
    (lenN l <= n)%N -> dec (bitlist_codec n) (enc (bitlist_codec n) l) = Some l;
  bitvector_dec : forall n l,
    lenN l = n -> dec (bitvector_codec n) (enc (bitvector_codec n) l) = Some l;
  variable_list_read_spec : forall T n (l : list T),
    (lenN l <= n)%N -> variable_list_read n l = Some l;
  fixed_vector_read_spec : forall T n (l : list T),
    lenN l = n -> fixed_vector_read n l = Some l;
  uuid_dec : forall u, (u < 2 ^ 128)%N -> dec uuid_codec (enc uuid_codec u) = Some u;
  (** the texts of [Display] are read by [FromStr] *)
  b256_from_str_hex : forall a : array 32, b256_from_str (hex_encode (arr_bytes a)) = Ok a;
  uint_from_str_display : forall u, uint_from_str (uint_display u) = Ok u;
  (** the visitors of [serde_utils] read what its encoders write *)
  prefixed_hex_visit_hex : forall b, prefixed_hex_visit ("0x" ++ hex_encode b)%string = Ok b;
  quoted_ints_visit : forall l,
    Forall is_u64 l -> quoted_int_vec_visit (map quoted_int l) = Ok l
}.

Lemma lib_serde_laws {A} (ok : A -> Prop) (c : Codec A) :
  (forall a, ok a -> dec c (enc c a) = Some a) -> SerdeLaws (lib_serde ok c).
Proof. intros Hc a Ha. by apply Hc. Qed.

(** * The forms of the types *)

Definition any {A} (_ : A) : Prop := True.

(** A string out, a string in. *)
Definition text_serde {A E} (ok : A -> Prop) (print : A -> string) (parse : string -> result A E) :
  Serde A := {|
  ser a := JString (print a);
  de j := match j with JString s => Prelude.ok (parse s) | _ => None end;
  serde_ok := ok
|}.

#[export] Instance string_serde : Serde string :=
  text_serde any (fun s => s) (Ok (E:=string)).

#[export] Instance bool_serde : Serde bool := {|
  ser := JBool; de j := match j with JBool b => Some b | _ => None end; serde_ok := any |}.

(** An unsigned integer of the given modulus, as a number. *)
Definition uint_number (modulus : Z) : Serde Z := {|
  ser := JNumber;
  de j := match j with JNumber n => if decide (0 <= n < modulus)%Z then Some n else None
                     | _ => None end;
  serde_ok n := (0 <= n < modulus)%Z
|}.

Definition u8_serde : Serde byte := {|
  ser b := JNumber (byte_val b);
  de j := match j with
          | JNumber n => if decide (0 <= n < 256)%Z then Some (byte_of_N (Z.to_N n)) else None
          | _ => None end;
  serde_ok := any
|}.

(** [DisplayFromStr] of a [u64]. *)
Definition quoted_u64 : Serde u64 :=
  text_serde is_u64 pretty (fun s => ok_or (u64_from_str s) tt).

Definition read_elements {A} (s : Serde A) (j : JsonValue) : option (list A) :=
  match j with JArray l => mapM de l | _ => None end.

(** [Vec<A>], [VariableList<A, n>], [FixedVector<A, n>] *)
#[export] Instance vec_serde {A} (s : Serde A) : Serde (list A) := {|
  ser l := JArray (ser <$> l); de := read_elements s; serde_ok := Forall serde_ok |}.

Section forms.
Context `{Ext} `{!SerdeLib}.

Definition variable_list {A} (n : N) (s : Serde A) : Serde (list A) := {|
  ser l := JArray (ser <$> l);
  de j := l ← read_elements s j; variable_list_read n l;
  serde_ok l := (lenN l <= n)%N /\ Forall serde_ok l
|}.
Definition fixed_vector {A} (n : N) (s : Serde A) : Serde (list A) := {|
  ser l := JArray (ser <$> l);
  de j := l ← read_elements s j; fixed_vector_read n l;
  serde_ok l := lenN l = n /\ Forall serde_ok l
|}.

(** The newtypes of [types.rs] derive the form of what they wrap. *)
Definition wrap_serde {A B} (mk : A -> B) (un : B -> A) (c : Codec A) : Serde B := {|
  ser b := enc c (un b); de j := mk <$> dec c j; serde_ok := any |}.

#[export] Instance b256_serde : Serde B256 := wrap_serde mkB256 b256_0 (fixed_bytes_codec 32).
#[export] Instance u256_serde : Serde U256 := wrap_serde mkU256 u256_0 uint_codec.
#[export] Instance address_serde : Serde Address :=
  wrap_serde mkAddress address_0 (fixed_bytes_codec 20).
#[export] Instance bytes48_serde : Serde Bytes48 :=
  wrap_serde mkBytes48 bytes48_0 (fixed_bytes_codec 48).

(** [DisplayFromStr] of the wrapped types. *)
Definition b256_text : Serde B256 := text_serde any b256_display b256_parse.
Definition u256_text : Serde U256 := text_serde any u256_display u256_parse.

(** The key and the signature types: their text; a value is read back when it decodes from its
    own bytes (a key that is not the point at infinity, a signature with the flag of its bytes). *)
#[export] Instance pk_serde : Serde BlsPublicKey :=
  text_serde (fun k => pk_deserialize (arr_bytes (pk_serialize k)) = Ok k)
    pk_serde_serialize pk_serde_deserialize.
#[export] Instance bls_sig_serde : Serde BlsSignature :=
  text_serde (fun s => bls_sig_deserialize (arr_bytes (bls_sig_serialize s)) = Ok s)
    sig_serde_serialize sig_serde_deserialize.
#[export] Instance kzg_serde : Serde KzgCommitment :=
  text_serde any kzg_serialize kzg_deserialize.

(** [serde(try_from, into)] *)
#[export] Instance fork_name_serde : Serde ForkName :=
  text_serde any fork_name_into_string fork_name_try_from.

(** The modules of [types.rs]. *)
Definition serde_logs_bloom (n : N) : Serde bytes :=
  text_serde (fun b => lenN b = n) logs_bloom_serialize (logs_bloom_deserialize n).

Definition quoted_variable_list_u64 (n : N) : Serde (list u64) := {|
  ser l := JArray (JString <$> quoted_list_serialize l);
  de j := seq ← read_elements string_serde j; Prelude.ok (quoted_list_deserialize n seq);
  serde_ok l := (lenN l <= n)%N /\ Forall is_u64 l
|}.

(** [Arc<T>] and [kzg_commitments::Blob]: the form of the vector, an array of numbers. *)
Definition blob_serde : Serde Blob := fixed_vector BYTES_PER_BLOB u8_serde.
End forms.

(** ** Their laws *)

Lemma text_serde_laws {A E} (ok : A -> Prop) (print : A -> string) (parse : string -> result A E) :
  (forall a, ok a -> parse (print a) = Ok a) -> SerdeLaws (text_serde ok print parse).
Proof. intros Hp a Ha. cbn. by rewrite Hp. Qed.

#[export] Instance string_laws : SerdeLaws string_serde.
Proof. by apply text_serde_laws. Qed.

#[export] Instance bool_laws : SerdeLaws bool_serde.
Proof. by intros b _. Qed.

#[export] Instance uint_number_laws m : SerdeLaws (uint_number m).
Proof. intros n Hn. cbn. by rewrite decide_True. Qed.

#[export] Instance u8_laws : SerdeLaws u8_serde.
Proof.
  intros b _. cbn. rewrite decide_True by by destruct b. by destruct b.
Qed.

#[export] Instance quoted_u64_laws : SerdeLaws quoted_u64.
Proof. apply text_serde_laws. intros z Hz. by rewrite u64_from_str_pretty. Qed.

Lemma read_elements_ser {A} (s : Serde A) (l : list A) :
  SerdeLaws s -> Forall serde_ok l -> read_elements s (JArray (ser <$> l)) = Some l.
Proof.
  intros Hs. cbn. induction 1 as [|a l Ha Hl IH]; [done |]. cbn. by rewrite (Hs a Ha), IH.
Qed.

#[export] Instance vec_laws {A} (s : Serde A) : SerdeLaws s -> SerdeLaws (vec_serde s).
Proof. intros Hs l Hl. by apply read_elements_ser. Qed.

Section laws.
Context {X : Ext} {L : ExtLaws X} {S : SerdeLib} {SL : SerdeLibLaws S}.

#[export] Instance variable_list_laws {A} n (s : Serde A) :
  SerdeLaws s -> SerdeLaws (variable_list n s).
Proof.
  intros Hs l [Hn Hl]. cbn [de ser variable_list].
  rewrite read_elements_ser by done. by apply variable_list_read_spec.
Qed.

#[export] Instance fixed_vector_laws {A} n (s : Serde A) :
  SerdeLaws s -> SerdeLaws (fixed_vector n s).
Proof.
  intros Hs l [Hn Hl]. cbn [de ser fixed_vector].
  rewrite read_elements_ser by done. by apply fixed_vector_read_spec.
Qed.

Lemma wrap_serde_laws {A B} (mk : A -> B) (un : B -> A) (c : Codec A) :
  (forall b, mk (un b) = b) -> (forall a, dec c (enc c a) = Some a) ->
  SerdeLaws (wrap_serde mk un c).
Proof. intros Hmk Hc b _. cbn. rewrite Hc. cbn. by rewrite Hmk. Qed.

#[export] Instance b256_serde_laws : SerdeLaws b256_serde.
Proof. apply wrap_serde_laws; [by intros [] | apply fixed_bytes_dec]. Qed.
#[export] Instance u256_serde_laws : SerdeLaws u256_serde.
Proof. apply wrap_serde_laws; [by intros [] | apply uint_dec]. Qed.
#[export] Instance address_serde_laws : SerdeLaws address_serde.
Proof. apply wrap_serde_laws; [by intros [] | apply fixed_bytes_dec]. Qed.
#[export] Instance bytes48_serde_laws : SerdeLaws bytes48_serde.
Proof. apply wrap_serde_laws; [by intros [] | apply fixed_bytes_dec]. Qed.

#[export] Instance b256_text_laws : SerdeLaws b256_text.
Proof.
  apply text_serde_laws. intros [a] _. unfold b256_parse, b256_display. cbn.
  by rewrite b256_from_str_hex.
Qed.
#[export] Instance u256_text_laws : SerdeLaws u256_text.
Proof.
  apply text_serde_laws. intros [u] _. unfold u256_parse, u256_display. cbn.
  by rewrite uint_from_str_display.
Qed.

Lemma serde_text_bytes {A} n (s : A -> array n) (d : bytes -> result A BlsError) a :
  d (arr_bytes (s a)) = Ok a -> impl_serde_deserialize d (impl_serde_serialize s a) = Ok a.
Proof.
  intros Hd. unfold impl_serde_deserialize, impl_serde_serialize, impl_from_str, impl_display.
  rewrite serde_hex_decode_encode. cbn. by rewrite Hd.
Qed.

#[export] Instance pk_serde_laws : SerdeLaws pk_serde.
Proof. apply text_serde_laws. intros k. apply serde_text_bytes. Qed.
#[export] Instance bls_sig_serde_laws : SerdeLaws bls_sig_serde.
Proof. apply text_serde_laws. intros s. apply serde_text_bytes. Qed.
#[export] Instance kzg_serde_laws : SerdeLaws kzg_serde.
Proof. apply text_serde_laws. intros c _. apply kzg_roundtrip. Qed.
#[export] Instance fork_name_serde_laws : SerdeLaws fork_name_serde.
Proof. apply text_serde_laws. intros f _. apply fork_name_roundtrip. Qed.

#[export] Instance serde_logs_bloom_laws n : SerdeLaws (serde_logs_bloom n).
Proof.
  apply text_serde_laws. intros b Hb. unfold logs_bloom_deserialize, logs_bloom_serialize.
  rewrite prefixed_hex_visit_hex. cbn. rewrite fv_new_spec, Hb. by rewrite N.eqb_refl.
Qed.

#[export] Instance quoted_list_laws n : SerdeLaws (quoted_variable_list_u64 n).
Proof.
  intros l [Hn Hl]. cbn [de ser quoted_variable_list_u64].
  rewrite (read_elements_ser string_serde) by (apply _ || by apply Forall_true). cbn.
  unfold quoted_list_deserialize, quoted_list_serialize. rewrite quoted_ints_visit by done. cbn.
  rewrite vl_new_spec. by rewrite (proj2 (N.leb_le _ _) Hn).
Qed.

#[export] Instance blob_serde_laws : SerdeLaws blob_serde.
Proof. apply _. Qed.
(** The forms of the libraries, with what the Rust types guarantee. *)
#[export] Instance fixed_bytes_laws n : SerdeLaws (lib_serde any (fixed_bytes_codec n)).
Proof. apply lib_serde_laws. intros a _. apply fixed_bytes_dec. Qed.
#[export] Instance bytes_4_hex_laws : SerdeLaws (lib_serde any bytes_4_hex).
Proof. apply lib_serde_laws. intros a _. apply bytes_4_hex_dec. Qed.
#[export] Instance hash256_laws : SerdeLaws (lib_serde any hash256_codec).
Proof. apply lib_serde_laws. intros a _. apply hash256_dec. Qed.
#[export] Instance hex_fixed_vec_laws n :
  SerdeLaws (lib_serde (fun b => lenN b = n) (hex_fixed_vec n)).
Proof. apply lib_serde_laws. apply hex_fixed_vec_dec. Qed.
#[export] Instance hex_var_list_laws n :
  SerdeLaws (lib_serde (fun b => lenN b <= n)%N (hex_var_list n)).
Proof. apply lib_serde_laws. apply hex_var_list_dec. Qed.
#[export] Instance list_of_hex_laws n m : SerdeLaws
  (lib_serde (fun l => (lenN l <= m)%N /\ Forall (fun b => lenN b <= n)%N l)
     (list_of_hex_var_list n m)).
Proof. apply lib_serde_laws. intros l [Hm Hn]. by apply list_of_hex_dec. Qed.
#[export] Instance bitlist_laws n :
  SerdeLaws (lib_serde (fun l => lenN l <= n)%N (bitlist_codec n)).
Proof. apply lib_serde_laws. apply bitlist_dec. Qed.
#[export] Instance bitvector_laws n :
  SerdeLaws (lib_serde (fun l => lenN l = n) (bitvector_codec n)).
Proof. apply lib_serde_laws. apply bitvector_dec. Qed.
#[export] Instance uuid_laws : SerdeLaws (lib_serde (fun u => u < 2 ^ 128)%N uuid_codec).
Proof. apply lib_serde_laws. apply uuid_dec. Qed.
End laws.
