(* ===== verification/JsonTypes.v ===== *)
(** The JSON forms of the types of the relay's HTTP interface and of the beacon node's: the
    [Serialize] and [Deserialize] derives of [crates/primitives], field by field with their
    attributes, and their round trips. *)

From S2P Require Import Prelude External Types Blst Signer BeaconTypes BeaconBlock Header.
From S2P Require Import StorageTypes Json.

Section derives.
Context `{Ext} `{!SerdeLib}.

(** * Payloads ([types.rs]) *)

#[export] Instance withdrawal_serde : Serde Withdrawal := derive_serde mkWithdrawal
  ("index" ~> wd_index as quoted_u64,,
   "validator_index" ~> wd_validator_index as quoted_u64,,
   "address" ~> wd_address,,
   "amount" ~> wd_amount as quoted_u64,, FNil).

#[export] Instance execution_payload_serde : Serde ExecutionPayload :=
  derive_serde mkExecutionPayload
  ("parent_hash" ~> ep_parent_hash,,
   "fee_recipient" ~> ep_fee_recipient,,
   "state_root" ~> ep_state_root,,
   "receipts_root" ~> ep_receipts_root,,
   "logs_bloom" ~> ep_logs_bloom as (lib_serde (fun b => lenN b = 256%N) (hex_fixed_vec 256)),,
   "prev_randao" ~> ep_prev_randao,,
   "block_number" ~> ep_block_number as quoted_u64,,
   "gas_limit" ~> ep_gas_limit as quoted_u64,,
   "gas_used" ~> ep_gas_used as quoted_u64,,
   "timestamp" ~> ep_timestamp as quoted_u64,,
   "extra_data" ~> ep_extra_data as (lib_serde (fun b => lenN b <= 32)%N (hex_var_list 32)),,
   "base_fee_per_gas" ~> ep_base_fee_per_gas as u256_text,,
   "block_hash" ~> ep_block_hash,,
   "transactions" ~> ep_transactions as
     (lib_serde (fun l => (lenN l <= 1048576)%N /\ Forall (fun b => lenN b <= 1073741824)%N l)
        (list_of_hex_var_list 1073741824 1048576)),,
   "withdrawals" ~> ep_withdrawals as (variable_list 16 _),,
   "blob_gas_used" ~> ep_blob_gas_used as quoted_u64,,
   "excess_blob_gas" ~> ep_excess_blob_gas as quoted_u64,, FNil).

#[export] Instance execution_payload_header_serde : Serde ExecutionPayloadHeader :=
  derive_serde mkExecutionPayloadHeader
  ("parent_hash" ~> eh_parent_hash,,
   "fee_recipient" ~> eh_fee_recipient,,
   "state_root" ~> eh_state_root,,
   "receipts_root" ~> eh_receipts_root,,
   "logs_bloom" ~> eh_logs_bloom as (serde_logs_bloom 256),,
   "prev_randao" ~> eh_prev_randao,,
   "block_number" ~> eh_block_number as quoted_u64,,
   "gas_limit" ~> eh_gas_limit as quoted_u64,,
   "gas_used" ~> eh_gas_used as quoted_u64,,
   "timestamp" ~> eh_timestamp as quoted_u64,,
   "extra_data" ~> eh_extra_data as (lib_serde (fun b => lenN b <= 32)%N (hex_var_list 32)),,
   "base_fee_per_gas" ~> eh_base_fee_per_gas as u256_text,,
   "block_hash" ~> eh_block_hash,,
   "transactions_root" ~> eh_transactions_root,,
   "withdrawals_root" ~> eh_withdrawals_root,,
   "blob_gas_used" ~> eh_blob_gas_used as quoted_u64,,
   "excess_blob_gas" ~> eh_excess_blob_gas as quoted_u64,, FNil).

#[export] Instance blobs_bundle_serde : Serde BlobsBundle := derive_serde mkBlobsBundle
  ("commitments" ~> bb_commitments,,
   "proofs" ~> bb_proofs as (variable_list 4096 _),,
   "blobs" ~> bb_blobs as (variable_list 4096 blob_serde),, FNil).

(** * The operations of a block ([beacon_block.rs]) *)

#[export] Instance eth1_data_serde : Serde Eth1Data := derive_serde mkEth1Data
  ("deposit_root" ~> e1_deposit_root,,
   "deposit_count" ~> e1_deposit_count as quoted_u64,,
   "block_hash" ~> e1_block_hash,, FNil).

(** The roots have the attribute of the integers: they are written by [Display]. *)
#[export] Instance beacon_block_header_serde : Serde BeaconBlockHeader :=
  derive_serde mkBeaconBlockHeader
  ("slot" ~> bh_slot as quoted_u64,,
   "proposer_index" ~> bh_proposer_index as quoted_u64,,
   "parent_root" ~> bh_parent_root as b256_text,,
   "state_root" ~> bh_state_root as b256_text,,
   "body_root" ~> bh_body_root as b256_text,, FNil).

#[export] Instance signed_block_header_serde : Serde SignedBeaconBlockHeader :=
  derive_serde mkSignedBeaconBlockHeader
  ("message" ~> sbh_message,, "signature" ~> sbh_signature,, FNil).

#[export] Instance proposer_slashing_serde : Serde ProposerSlashing :=
  derive_serde mkProposerSlashing
  ("signed_header_1" ~> ps_signed_header_1,,
   "signed_header_2" ~> ps_signed_header_2,, FNil).

#[export] Instance checkpoint_serde : Serde Checkpoint := derive_serde mkCheckpoint
  ("epoch" ~> cp_epoch as quoted_u64,, "root" ~> cp_root,, FNil).

#[export] Instance attestation_data_serde : Serde AttestationData :=
  derive_serde mkAttestationData
  ("slot" ~> ad_slot as quoted_u64,,
   "index" ~> ad_index as quoted_u64,,
   "beacon_block_root" ~> ad_beacon_block_root,,
   "source" ~> ad_source,, "target" ~> ad_target,, FNil).

#[export] Instance indexed_attestation_serde : Serde IndexedAttestation :=
  derive_serde mkIndexedAttestation
  ("attesting_indices" ~> ia_attesting_indices as (quoted_variable_list_u64 2048),,
   "data" ~> ia_data,, "signature" ~> ia_signature,, FNil).

#[export] Instance attester_slashing_serde : Serde AttesterSlashing :=
  derive_serde mkAttesterSlashing
  ("attestation_1" ~> as_attestation_1,, "attestation_2" ~> as_attestation_2,, FNil).

#[export] Instance attestation_serde : Serde Attestation := derive_serde mkAttestation
  ("aggregation_bits" ~> at_aggregation_bits as
     (lib_serde (fun l => lenN l <= 2048)%N (bitlist_codec 2048)),,
   "data" ~> at_data,, "signature" ~> at_signature,, FNil).

#[export] Instance deposit_data_serde : Serde DepositData := derive_serde mkDepositData
  ("pubkey" ~> dd_pubkey,,
   "withdrawal_credentials" ~> dd_withdrawal_credentials,,
   "amount" ~> dd_amount as quoted_u64,,
   "signature" ~> dd_signature,, FNil).

#[export] Instance deposit_serde : Serde Deposit := derive_serde mkDeposit
  ("proof" ~> dep_proof as (fixed_vector 33 _),, "data" ~> dep_data,, FNil).

#[export] Instance voluntary_exit_serde : Serde VoluntaryExit := derive_serde mkVoluntaryExit
  ("epoch" ~> vx_epoch as quoted_u64,,
   "validator_index" ~> vx_validator_index as quoted_u64,, FNil).

#[export] Instance signed_voluntary_exit_serde : Serde SignedVoluntaryExit :=
  derive_serde mkSignedVoluntaryExit
  ("message" ~> svx_message,, "signature" ~> svx_signature,, FNil).

#[export] Instance sync_aggregate_serde : Serde SyncAggregate := derive_serde mkSyncAggregate
  ("sync_committee_bits" ~> sa_sync_committee_bits as
     (lib_serde (fun l => lenN l = 512%N) (bitvector_codec 512)),,
   "sync_committee_signature" ~> sa_sync_committee_signature,, FNil).

#[export] Instance bls_change_serde : Serde BlsToExecutionChange :=
  derive_serde mkBlsToExecutionChange
  ("validator_index" ~> bc_validator_index as quoted_u64,,
   "from_bls_pubkey" ~> bc_from_bls_pubkey,,
   "to_execution_address" ~> bc_to_execution_address,, FNil).

#[export] Instance signed_bls_change_serde : Serde SignedBlsToExecutionChange :=
  derive_serde mkSignedBlsToExecutionChange
  ("message" ~> sbc_message,, "signature" ~> sbc_signature,, FNil).

(** * Blocks ([beacon_block.rs], [blinded_block.rs]) *)

#[export] Instance beacon_block_body_serde : Serde BeaconBlockBody :=
  derive_serde mkBeaconBlockBody
  ("randao_reveal" ~> bb_randao_reveal,,
   "eth1_data" ~> bb_eth1_data,,
   "graffiti" ~> bb_graffiti,,
   "proposer_slashings" ~> bb_proposer_slashings as (variable_list 16 _),,
   "attester_slashings" ~> bb_attester_slashings as (variable_list 2 _),,
   "attestations" ~> bb_attestations as (variable_list 128 _),,
   "deposits" ~> bb_deposits as (variable_list 16 _),,
   "voluntary_exits" ~> bb_voluntary_exits as (variable_list 16 _),,
   "sync_aggregate" ~> bb_sync_aggregate,,
   "execution_payload" ~> bb_execution_payload,,
   "bls_to_execution_changes" ~> bb_bls_to_execution_changes as (variable_list 16 _),,
   "blob_kzg_commitments" ~> bb_blob_kzg_commitments as (variable_list 4096 _),, FNil).

#[export] Instance beacon_block_serde : Serde BeaconBlock := derive_serde mkBeaconBlock
  ("slot" ~> bk_slot as quoted_u64,,
   "proposer_index" ~> bk_proposer_index as quoted_u64,,
   "parent_root" ~> bk_parent_root,,
   "state_root" ~> bk_state_root,,
   "body" ~> bk_body,, FNil).

#[export] Instance signed_beacon_block_serde : Serde SignedBeaconBlock :=
  derive_serde mkSignedBeaconBlock
  ("message" ~> sb_message,, "signature" ~> sb_signature,, FNil).

#[export] Instance content_serde : Serde SignedBeaconBlockContent :=
  derive_serde mkSignedBeaconBlockContent
  ("signed_block" ~> sc_signed_block,,
   "kzg_proofs" ~> sc_kzg_proofs as (variable_list 4096 _),,
   "blobs" ~> sc_blobs as (variable_list 4096 blob_serde),, FNil).

#[export] Instance blinded_block_body_serde : Serde BlindedBlockBody :=
  derive_serde mkBlindedBlockBody
  ("randao_reveal" ~> bbb_randao_reveal,,
   "eth1_data" ~> bbb_eth1_data,,
   "graffiti" ~> bbb_graffiti,,
   "proposer_slashings" ~> bbb_proposer_slashings as (variable_list 16 _),,
   "attester_slashings" ~> bbb_attester_slashings as (variable_list 2 _),,
   "attestations" ~> bbb_attestations as (variable_list 128 _),,
   "deposits" ~> bbb_deposits as (variable_list 16 _),,
   "voluntary_exits" ~> bbb_voluntary_exits as (variable_list 16 _),,
   "sync_aggregate" ~> bbb_sync_aggregate,,
   "execution_payload_header" ~> bbb_execution_payload_header,,
   "bls_to_execution_changes" ~> bbb_bls_to_execution_changes as (variable_list 16 _),,
   "blob_kzg_commitments" ~> bbb_blob_kzg_commitments as (variable_list 4096 _),, FNil).

#[export] Instance blinded_block_serde : Serde BlindedBlock := derive_serde mkBlindedBlock
  ("slot" ~> bl_slot as quoted_u64,,
   "proposer_index" ~> bl_proposer_index as quoted_u64,,
   "parent_root" ~> bl_parent_root,,
   "state_root" ~> bl_state_root,,
   "body" ~> bl_body,, FNil).

#[export] Instance signed_blinded_block_serde : Serde SignedBlindedBlock :=
  derive_serde mkSignedBlindedBlock
  ("message" ~> sbl_message,, "signature" ~> sbl_signature,, FNil).

(** * The answers of the proposer API ([beacon/mod.rs], [header.rs]) *)

#[export] Instance versioned_serde {T} (s : Serde T) : Serde (Versioned T) :=
  derive_serde mkVersioned ("version" ~> vs_version,, "data" ~> vs_data as s,, FNil).

#[export] Instance blinded_block_response_serde : Serde BlindedBlockResponse :=
  derive_serde mkBlindedBlockResponse
  ("execution_payload" ~> bbr_execution_payload,,
   "blobs_bundle" ~> bbr_blobs_bundle,, FNil).

#[export] Instance header_serde : Serde Header := derive_serde mkHeader
  ("header" ~> h_header,,
   "blob_kzg_commitments" ~> h_blob_kzg_commitments as (variable_list 4096 _),,
   "value" ~> h_value as u256_text,,
   "pubkey" ~> h_pubkey,, FNil).

#[export] Instance signed_header_serde : Serde SignedHeader := derive_serde mkSignedHeader
  ("message" ~> sh_message,, "signature" ~> sh_signature,, FNil).

(** * Registrations, duties and bids ([registrations.rs], [storage/]) *)

#[export] Instance registration_message_serde : Serde ValidatorRegistrationMessage :=
  derive_serde mkRegistrationMessage
  ("fee_recipient" ~> rm_fee_recipient,,
   "gas_limit" ~> rm_gas_limit as quoted_u64,,
   "timestamp" ~> rm_timestamp as quoted_u64,,
   "pubkey" ~> rm_pubkey,, FNil).

#[export] Instance registration_serde : Serde ValidatorRegistration :=
  derive_serde mkRegistration
  ("message" ~> vr_message,, "signature" ~> vr_signature,, FNil).

#[export] Instance validator_serde : Serde Validator := derive_serde mkValidator
  ("slot" ~> v_slot as quoted_u64,,
   "validator_index" ~> v_validator_index as quoted_u64,,
   "entry" ~> v_entry,, FNil).

(** The value has no attribute: it has the form of the integer type. *)
#[export] Instance bid_trace_serde : Serde BidTrace := derive_serde mkBidTrace
  ("slot" ~> bt_slot as quoted_u64,,
   "parent_hash" ~> bt_parent_hash,,
   "block_hash" ~> bt_block_hash,,
   "builder_pubkey" ~> bt_builder_pubkey,,
   "proposer_pubkey" ~> bt_proposer_pubkey,,
   "proposer_fee_recipient" ~> bt_proposer_fee_recipient,,
   "gas_limit" ~> bt_gas_limit as quoted_u64,,
   "gas_used" ~> bt_gas_used as quoted_u64,,
   "value" ~> bt_value,, FNil).

#[export] Instance bid_submission_serde : Serde BidSubmission := derive_serde mkBidSubmission
  ("message" ~> bs_message,,
   "execution_payload" ~> bs_execution_payload,,
   "blobs_bundle" ~> bs_blobs_bundle,,
   "signature" ~> bs_signature,, FNil).

(** * The answers of the beacon node ([proposer_duties.rs], [sync_status.rs], [fork.rs],
    [known_validator.rs]) and the fork data ([signer.rs]) *)

#[export] Instance proposer_duty_serde : Serde ProposerDutiesData := derive_serde mkProposerDuty
  ("slot" ~> pd_slot as quoted_u64,,
   "pubkey" ~> pd_pubkey as (lib_serde any (fixed_bytes_codec 48)),,
   "validator_index" ~> pd_validator_index as quoted_u64,, FNil).

#[export] Instance proposer_duties_serde : Serde ProposerDutiesResponse :=
  derive_serde mkProposerDuties ("data" ~> pdr_data,, FNil).

#[export] Instance sync_status_serde : Serde BeaconSyncStatus := derive_serde mkSyncStatus
  ("head_slot" ~> ss_head_slot as quoted_u64,, "is_syncing" ~> ss_is_syncing,, FNil).

#[export] Instance sync_status_response_serde : Serde BeaconSyncStatusResponse :=
  derive_serde mkSyncStatusResponse ("data" ~> ssr_data,, FNil).

#[export] Instance current_fork_serde : Serde CurrentFork :=
  derive_serde mkCurrentFork ("current_version" ~> cf_current_version,, FNil).

#[export] Instance fork_data_resp_serde : Serde ForkDataResp := derive_serde mkForkDataResp
  ("genesis_time" ~> fdr_genesis_time,,
   "genesis_validators_root" ~> fdr_genesis_validators_root,,
   "fork" ~> fdr_fork,, FNil).

#[export] Instance get_fork_response_serde : Serde GetForkResponse :=
  derive_serde mkGetForkResponse ("data" ~> gfr_data,, FNil).

#[export] Instance known_validator_serde : Serde KnownValidator := derive_serde mkKnownValidator
  ("pubkey" ~> kv_pubkey,,
   "withdrawal_credentials" ~> kv_withdrawal_credentials,,
   "effective_balance" ~> kv_effective_balance,,
   "slashed" ~> kv_slashed,,
   "activation_eligibility_epoch" ~> kv_activation_eligibility_epoch as quoted_u64,,
   "activation_epoch" ~> kv_activation_epoch as quoted_u64,,
   "exit_epoch" ~> kv_exit_epoch as quoted_u64,,
   "withdrawable_epoch" ~> kv_withdrawable_epoch as quoted_u64,, FNil).

#[export] Instance validator_entry_serde : Serde ValidatorEntry := derive_serde mkValidatorEntry
  ("index" ~> ve_index as quoted_u64,,
   "balance" ~> ve_balance,,
   "status" ~> ve_status,,
   "validator" ~> ve_validator,, FNil).

#[export] Instance known_validator_response_serde : Serde KnownValidatorResponse :=
  derive_serde mkKnownValidatorResponse
  ("execution_optimistic" ~> kvr_execution_optimistic,,
   "finalized" ~> kvr_finalized,,
   "data" ~> kvr_data,, FNil).

#[export] Instance fork_data_serde : Serde ForkData := derive_serde mkForkData
  ("current_version" ~> fd_current_version as (lib_serde any bytes_4_hex),,
   "genesis_validators_root" ~> fd_genesis_validators_root as
     (lib_serde any hash256_codec),, FNil).
End derives.

(** * Round trips *)

Section laws.
Context {X : Ext} {L : ExtLaws X} {S : SerdeLib} {SL : SerdeLibLaws S}.

#[export] Instance withdrawal_serde_laws : SerdeLaws withdrawal_serde.
Proof. solve_serde. Qed.
#[export] Instance execution_payload_serde_laws : SerdeLaws execution_payload_serde.
Proof. solve_serde. Qed.
#[export] Instance execution_payload_header_serde_laws : SerdeLaws execution_payload_header_serde.
Proof. solve_serde. Qed.
#[export] Instance blobs_bundle_serde_laws : SerdeLaws blobs_bundle_serde.
Proof. solve_serde. Qed.
#[export] Instance eth1_data_serde_laws : SerdeLaws eth1_data_serde.
Proof. solve_serde. Qed.
#[export] Instance beacon_block_header_serde_laws : SerdeLaws beacon_block_header_serde.
Proof. solve_serde. Qed.
#[export] Instance signed_block_header_serde_laws : SerdeLaws signed_block_header_serde.
Proof. solve_serde. Qed.
#[export] Instance proposer_slashing_serde_laws : SerdeLaws proposer_slashing_serde.
Proof. solve_serde. Qed.
#[export] Instance checkpoint_serde_laws : SerdeLaws checkpoint_serde.
Proof. solve_serde. Qed.
#[export] Instance attestation_data_serde_laws : SerdeLaws attestation_data_serde.
Proof. solve_serde. Qed.
#[export] Instance indexed_attestation_serde_laws : SerdeLaws indexed_attestation_serde.
Proof. solve_serde. Qed.
#[export] Instance attester_slashing_serde_laws : SerdeLaws attester_slashing_serde.
Proof. solve_serde. Qed.
#[export] Instance attestation_serde_laws : SerdeLaws attestation_serde.
Proof. solve_serde. Qed.
#[export] Instance deposit_data_serde_laws : SerdeLaws deposit_data_serde.
Proof. solve_serde. Qed.
#[export] Instance deposit_serde_laws : SerdeLaws deposit_serde.
Proof. solve_serde. Qed.
#[export] Instance voluntary_exit_serde_laws : SerdeLaws voluntary_exit_serde.
Proof. solve_serde. Qed.
#[export] Instance signed_voluntary_exit_serde_laws : SerdeLaws signed_voluntary_exit_serde.
Proof. solve_serde. Qed.
#[export] Instance sync_aggregate_serde_laws : SerdeLaws sync_aggregate_serde.
Proof. solve_serde. Qed.
#[export] Instance bls_change_serde_laws : SerdeLaws bls_change_serde.
Proof. solve_serde. Qed.
#[export] Instance signed_bls_change_serde_laws : SerdeLaws signed_bls_change_serde.
Proof. solve_serde. Qed.
#[export] Instance beacon_block_body_serde_laws : SerdeLaws beacon_block_body_serde.
Proof. solve_serde. Qed.
#[export] Instance beacon_block_serde_laws : SerdeLaws beacon_block_serde.
Proof. solve_serde. Qed.
#[export] Instance signed_beacon_block_serde_laws : SerdeLaws signed_beacon_block_serde.
Proof. solve_serde. Qed.
#[export] Instance content_serde_laws : SerdeLaws content_serde.
Proof. solve_serde. Qed.
#[export] Instance blinded_block_body_serde_laws : SerdeLaws blinded_block_body_serde.
Proof. solve_serde. Qed.
#[export] Instance blinded_block_serde_laws : SerdeLaws blinded_block_serde.
Proof. solve_serde. Qed.
#[export] Instance signed_blinded_block_serde_laws : SerdeLaws signed_blinded_block_serde.
Proof. solve_serde. Qed.
#[export] Instance versioned_serde_laws {T} (s : Serde T) :
  SerdeLaws s -> SerdeLaws (versioned_serde s).
Proof. intros Hs. solve_serde. Qed.
#[export] Instance blinded_block_response_serde_laws : SerdeLaws blinded_block_response_serde.
Proof. solve_serde. Qed.
#[export] Instance header_serde_laws : SerdeLaws header_serde.
Proof. solve_serde. Qed.
#[export] Instance signed_header_serde_laws : SerdeLaws signed_header_serde.
Proof. solve_serde. Qed.
#[export] Instance registration_message_serde_laws : SerdeLaws registration_message_serde.
Proof. solve_serde. Qed.
#[export] Instance registration_serde_laws : SerdeLaws registration_serde.
Proof. solve_serde. Qed.
#[export] Instance validator_serde_laws : SerdeLaws validator_serde.
Proof. solve_serde. Qed.
#[export] Instance bid_trace_serde_laws : SerdeLaws bid_trace_serde.
Proof. solve_serde. Qed.
#[export] Instance bid_submission_serde_laws : SerdeLaws bid_submission_serde.
Proof. solve_serde. Qed.
#[export] Instance proposer_duty_serde_laws : SerdeLaws proposer_duty_serde.
Proof. solve_serde. Qed.
#[export] Instance proposer_duties_serde_laws : SerdeLaws proposer_duties_serde.
Proof. solve_serde. Qed.
#[export] Instance sync_status_serde_laws : SerdeLaws sync_status_serde.
Proof. solve_serde. Qed.
#[export] Instance sync_status_response_serde_laws : SerdeLaws sync_status_response_serde.
Proof. solve_serde. Qed.
#[export] Instance current_fork_serde_laws : SerdeLaws current_fork_serde.
Proof. solve_serde. Qed.
#[export] Instance fork_data_resp_serde_laws : SerdeLaws fork_data_resp_serde.
Proof. solve_serde. Qed.
#[export] Instance get_fork_response_serde_laws : SerdeLaws get_fork_response_serde.
Proof. solve_serde. Qed.
#[export] Instance known_validator_serde_laws : SerdeLaws known_validator_serde.
Proof. solve_serde. Qed.
#[export] Instance validator_entry_serde_laws : SerdeLaws validator_entry_serde.
Proof. solve_serde. Qed.
#[export] Instance known_validator_response_serde_laws : SerdeLaws known_validator_response_serde.
Proof. solve_serde. Qed.
#[export] Instance fork_data_serde_laws : SerdeLaws fork_data_serde.
Proof. solve_serde. Qed.
End laws.
