(* ===== verification/Roots.v ===== *)
(** The [TreeHash] implementations of [crates/primitives]: the root the code computes for a value
    is the hash tree root of its SSZ value.  The types that are encoded have the containers of
    [SszBlock.v]; those that are only signed get theirs here. *)

From S2P Require Import Prelude Bits External Types Blst Signer BeaconTypes BeaconBlock.
From S2P Require Import StorageTypes Header Ssz SszBlock Merkle.

(** * The messages that are signed *)

Section messages.
Context `{Ext}.

Definition bid_trace_container : SszEnc BidTrace := derive_encode
  [field bt_slot; field bt_parent_hash; field bt_block_hash; field bt_builder_pubkey;
   field bt_proposer_pubkey; field bt_proposer_fee_recipient; field bt_gas_limit;
   field bt_gas_used; field bt_value].

Definition registration_container : SszEnc ValidatorRegistrationMessage := derive_encode
  [field rm_fee_recipient; field rm_gas_limit; field rm_timestamp; field rm_pubkey].

Definition payload_header_container : SszEnc ExecutionPayloadHeader := derive_encode
  [field eh_parent_hash; field eh_fee_recipient; field eh_state_root; field eh_receipts_root;
   field_as eh_logs_bloom (fixed_bytes_enc 256); field eh_prev_randao; field eh_block_number;
   field eh_gas_limit; field eh_gas_used; field eh_timestamp;
   field_as eh_extra_data (byte_list_enc 32); field eh_base_fee_per_gas; field eh_block_hash;
   field eh_transactions_root; field eh_withdrawals_root; field eh_blob_gas_used;
   field eh_excess_blob_gas].

Definition builder_bid_container : SszEnc Header := derive_encode
  [field_as h_header payload_header_container;
   field_as h_blob_kzg_commitments (list_enc _ 4096); field h_value; field h_pubkey].
End messages.

(** * The roots of the types *)

Section roots.
Context {X : Ext} {L : ExtLaws X} (hash2 : Hash256 -> Hash256 -> Hash256).
Context {T : TreeHashLaws X hash2}.

(** The root of an element of the type, by the specification. *)
Definition root_of {A} (enc : SszEnc A) (a : A) : Hash256 :=
  hash_tree_root hash2 (ssz_ty A) (ssz_val a).

(** The code computes this root. *)
Definition rooted {A} (enc : SszEnc A) (root : A -> Hash256) : Prop :=
  forall a, ssz_ok a -> root a = root_of enc a.

Lemma rooted_at {A} (enc : SszEnc A) root a :
  rooted enc root -> ssz_ok a -> root a = hash_tree_root hash2 (ssz_ty A) (ssz_val a).
Proof. intros Hroot. apply Hroot. Qed.

(** ** Leaves *)

Lemma bytes_root n (a : array n) :
  hash_tree_root hash2 (TBytes n) (VBytes (arr_bytes a)) =
  merkleize hash2 (chunk_count n) (pack (arr_bytes a)).
Proof. done. Qed.

Lemma one_chunk_root n (a : array n) :
  (0 < n <= 32)%N ->
  hash_tree_root hash2 (TBytes n) (VBytes (arr_bytes a)) = pad_to 32 (arr_bytes a).
Proof.
  intros Hn. cbn [hash_tree_root]. rewrite pack_short by by rewrite array_len.
  unfold chunk_count. replace ((n + 31) / 32)%N with 1%N; [done |].
  apply (N.div_unique _ _ _ (n - 1)%N); lia.
Qed.

Lemma u64_rooted : rooted u64_enc u64_root.
Proof.
  intros z Hz. rewrite u64_root_spec by done. unfold root_of. cbn -[pack le_bytes].
  by rewrite pack_short by (unfold lenN; by rewrite length_le_bytes).
Qed.

Lemma b256_rooted : rooted b256_enc tree_hash_root.
Proof.
  intros [a] _. unfold root_of. cbn [ssz_ty ssz_val b256_enc leaf_enc]. rewrite b256_ssz_bytes.
  cbn [ssz_fixed_len b256_encode]. destruct (hash256_ssz_spec a []) as (_ & -> & _).
  cbn [b256_0]. rewrite one_chunk_root by done. by rewrite pad_to_array.
Qed.

Lemma u256_rooted : rooted u256_enc tree_hash_root.
Proof.
  intros [a] _. unfold root_of. symmetry.
  change (hash_tree_root hash2 (TBytes 32) (VBytes (arr_bytes (uint_as_le_slice a))) =
    uint_as_le_slice a). by rewrite one_chunk_root, pad_to_array.
Qed.

Lemma address_rooted : rooted address_enc tree_hash_root.
Proof.
  intros [a] _. symmetry. unfold root_of.
  change (hash_tree_root hash2 (TBytes 20) (VBytes (arr_bytes a)) = pad_to 32 (arr_bytes a)).
  by rewrite one_chunk_root.
Qed.

(** The types of [impl_tree_hash!]. *)
Lemma impl_tree_hash_root {A} n (ser : A -> array n) a :
  @tree_hash_root _ (impl_tree_hash n ser) a =
  hash_tree_root hash2 (TBytes n) (VBytes (arr_bytes (ser a))).
Proof.
  rewrite bytes_root. cbn [tree_hash_root impl_tree_hash].
  change ((n + BYTES_PER_CHUNK - 1) / BYTES_PER_CHUNK)%N with ((n + 32 - 1) / 32)%N.
  replace (n + 32 - 1)%N with (n + 31)%N by lia. apply merkle_root_spec. by rewrite array_len.
Qed.

Lemma pk_rooted : rooted pk_enc tree_hash_root.
Proof. intros k _. exact (impl_tree_hash_root _ pk_serialize k). Qed.

Lemma bls_sig_rooted : rooted bls_sig_enc tree_hash_root.
Proof. intros s _. exact (impl_tree_hash_root _ bls_sig_serialize s). Qed.

Lemma kzg_rooted : rooted kzg_enc tree_hash_root.
Proof. intros c _. exact (bytes48_root_spec (kzg_0 c)). Qed.

Lemma fixed_bytes_rooted n : rooted (fixed_bytes_enc n) (fixed_bytes_root n).
Proof. intros b Hb. by apply fixed_bytes_root_spec. Qed.

Lemma byte_list_rooted n : rooted (byte_list_enc n) (byte_list_root n).
Proof. intros b Hb. by apply byte_list_root_spec. Qed.

Lemma bitlist_rooted n : rooted (bitlist_enc n) (bitlist_root n).
Proof. intros b Hb. by apply bitlist_root_spec. Qed.

Lemma bitvector_rooted n : (n mod 8 = 0)%N -> rooted (bitvector_enc n) (bitvector_root n).
Proof.
  intros Hn b Hb. cbn in Hb. rewrite bitvector_root_spec by done.
  unfold root_of, bits_root. cbn [ssz_ty ssz_val bitvector_enc hash_tree_root]. rewrite Hb.
  pose proof (N.Div0.div_mod n 8) as Hd. unfold chunk_count.
  assert ((n + 7) / 8 = n / 8)%N as ->.
  { symmetry. apply (N.div_unique _ _ _ 7%N); lia. }
  f_equal. replace (n + 255)%N with ((n / 8 + 31) * 8 + 7)%N by lia.
  change 256%N with (8 * 32)%N. rewrite <-N.Div0.div_div. f_equal.
  symmetry. apply (N.div_unique _ _ _ 7%N); lia.
Qed.

(** ** Lists and vectors *)

(** Elements that are not packed. *)
Definition composite (t : SszTy) : Prop := match t with TUint _ => False | _ => True end.

Lemma roots_of_list {A} (enc : SszEnc A) root (l : list A) :
  rooted enc root -> Forall ssz_ok l ->
  root <$> l = hash_tree_root hash2 (ssz_ty A) <$> (ssz_val <$> l).
Proof.
  intros Hroot Hl. induction Hl as [|a l Ha _ IH]; [done |]. cbn [fmap list_fmap].
  by rewrite (Hroot a Ha), IH.
Qed.

Lemma list_rooted {A} (enc : SszEnc A) root n :
  composite (ssz_ty A) -> rooted enc root -> rooted (list_enc enc n) (fun l => list_root n (root <$> l)).
Proof.
  intros Hty Hroot l [Hn Hl]. rewrite list_root_spec by (unfold lenN in *; by rewrite length_fmap).
  rewrite (roots_of_list enc root l Hroot Hl). unfold root_of, lenN.
  cbn [ssz_ty ssz_val list_enc]. rewrite !length_fmap. unfold lenN.
  destruct (ssz_ty A); try done; cbn [hash_tree_root]; unfold lenN; by rewrite length_fmap.
Qed.

Lemma u64_list_rooted n : rooted (list_enc u64_enc n) (u64_list_root n).
Proof. intros l [Hn Hl]. by apply u64_list_root_spec. Qed.

Lemma zip_replicate {A B C} (f : A -> B -> C) a (l : list B) :
  zip_with f (replicate (length l) a) l = f a <$> l.
Proof. induction l as [|b l IH]; [done |]. cbn. by rewrite IH. Qed.

Lemma vector_rooted {A} (enc : SszEnc A) root n :
  rooted enc root -> rooted (vector_enc enc n) (fun l => vector_root n (root <$> l)).
Proof.
  intros Hroot l [Hn Hl]. rewrite vector_root_spec by (unfold lenN in *; by rewrite length_fmap).
  rewrite (roots_of_list enc root l Hroot Hl). unfold root_of. cbn [ssz_ty ssz_val vector_enc].
  rewrite root_container. unfold lenN in *. rewrite length_replicate, N2Nat.id. f_equal.
  replace (N.to_nat n) with (length (ssz_val <$> l)) by (rewrite length_fmap; lia).
  by rewrite zip_replicate.
Qed.

(** ** Derives *)

(** The root of a derived container is the tree of the roots of its fields, when the code's
    roots of the fields, in order, are theirs. *)
Lemma derive_rooted {A} (fields : list (Field A)) (roots : A -> list Hash256) :
  (forall a, Forall (fun f => fd_ok f a) fields ->
     roots a = (fun f => hash_tree_root hash2 (fd_ty f) (fd_val f a)) <$> fields) ->
  rooted (derive_encode fields) (fun a => derive_root (roots a)).
Proof.
  intros Hroots a Ha. cbn in Ha. rewrite (Hroots a Ha), derive_root_spec. unfold root_of.
  cbn [ssz_ty ssz_val derive_encode]. rewrite root_container. unfold lenN. rewrite !length_fmap.
  f_equal. clear. induction fields as [|f fields IH]; [done |].
  cbn [fmap list_fmap zip_with]. by rewrite IH.
Qed.
End roots.

Create HintDb rooted.
#[export] Hint Resolve u64_rooted b256_rooted u256_rooted address_rooted pk_rooted bls_sig_rooted
  kzg_rooted fixed_bytes_rooted byte_list_rooted bitlist_rooted u64_list_rooted list_rooted
  vector_rooted : rooted.
#[export] Hint Extern 0 (rooted _ (bitvector_enc _) _) => apply bitvector_rooted : rooted.
#[export] Hint Extern 0 (composite _) => exact I : rooted.

(** The root of the element [x], an instance of a lemma of the database. *)
Ltac root_of_field :=
  match goal with
  | |- ?lhs = hash_tree_root ?h _ (@ssz_val _ ?enc ?x) =>
      let g := eval pattern x in lhs in
      match g with
      | ?root _ => apply (rooted_at h enc root x); [by eauto with rooted | assumption]
      end
  end.

(** Each root in the list of a derive is that of the field in its place. *)
Ltac solve_fields :=
  intros ? Hok;
  repeat match type of Hok with
  | Forall _ (_ :: _) => apply Forall_cons in Hok as [? Hok]
  end; clear Hok;
  cbn [fmap list_fmap fd_ty fd_val fd_ok field_as] in *;
  repeat (apply (f_equal2 cons); [root_of_field |]); reflexivity.

Ltac solve_rooted := apply derive_rooted; [exact _ |]; solve_fields.

(** * The containers *)

Section containers.
Context {X : Ext} {L : ExtLaws X} (hash2 : Hash256 -> Hash256 -> Hash256).
Context {T : TreeHashLaws X hash2}.
Abbreviation rooted := (rooted hash2).

Lemma withdrawal_rooted : rooted withdrawal_enc withdrawal_root.
Proof. solve_rooted. Qed.
#[local] Hint Resolve withdrawal_rooted : rooted.
Lemma bid_trace_rooted : rooted bid_trace_container tree_hash_root.
Proof. solve_rooted. Qed.
#[local] Hint Resolve bid_trace_rooted : rooted.
Lemma registration_rooted : rooted registration_container tree_hash_root.
Proof. solve_rooted. Qed.
#[local] Hint Resolve registration_rooted : rooted.
Lemma payload_header_rooted : rooted payload_header_container tree_hash_root.
Proof. solve_rooted. Qed.
#[local] Hint Resolve payload_header_rooted : rooted.
Lemma builder_bid_rooted : rooted builder_bid_container tree_hash_root.
Proof. solve_rooted. Qed.
#[local] Hint Resolve builder_bid_rooted : rooted.
Lemma eth1_data_rooted : rooted eth1_data_enc eth1_data_root.
Proof. solve_rooted. Qed.
#[local] Hint Resolve eth1_data_rooted : rooted.
Lemma beacon_block_header_rooted : rooted beacon_block_header_enc beacon_block_header_root.
Proof. solve_rooted. Qed.
#[local] Hint Resolve beacon_block_header_rooted : rooted.
Lemma signed_header_rooted : rooted signed_header_enc signed_header_root.
Proof. solve_rooted. Qed.
#[local] Hint Resolve signed_header_rooted : rooted.
Lemma proposer_slashing_rooted : rooted proposer_slashing_enc proposer_slashing_root.
Proof. solve_rooted. Qed.
#[local] Hint Resolve proposer_slashing_rooted : rooted.
Lemma checkpoint_rooted : rooted checkpoint_enc checkpoint_root.
Proof. solve_rooted. Qed.
#[local] Hint Resolve checkpoint_rooted : rooted.
Lemma attestation_data_rooted : rooted attestation_data_enc attestation_data_root.
Proof. solve_rooted. Qed.
#[local] Hint Resolve attestation_data_rooted : rooted.
Lemma indexed_attestation_rooted : rooted indexed_attestation_enc indexed_attestation_root.
Proof. solve_rooted. Qed.
#[local] Hint Resolve indexed_attestation_rooted : rooted.
Lemma attester_slashing_rooted : rooted attester_slashing_enc attester_slashing_root.
Proof. solve_rooted. Qed.
#[local] Hint Resolve attester_slashing_rooted : rooted.
Lemma attestation_rooted : rooted attestation_enc attestation_root.
Proof. solve_rooted. Qed.
#[local] Hint Resolve attestation_rooted : rooted.
Lemma deposit_data_rooted : rooted deposit_data_enc deposit_data_root.
Proof. solve_rooted. Qed.
#[local] Hint Resolve deposit_data_rooted : rooted.
Lemma deposit_rooted : rooted deposit_enc deposit_root.
Proof. solve_rooted. Qed.
#[local] Hint Resolve deposit_rooted : rooted.
Lemma voluntary_exit_rooted : rooted voluntary_exit_enc voluntary_exit_root.
Proof. solve_rooted. Qed.
#[local] Hint Resolve voluntary_exit_rooted : rooted.
Lemma signed_voluntary_exit_rooted : rooted signed_voluntary_exit_enc signed_voluntary_exit_root.
Proof. solve_rooted. Qed.
#[local] Hint Resolve signed_voluntary_exit_rooted : rooted.
Lemma sync_aggregate_rooted : rooted sync_aggregate_enc sync_aggregate_root.
Proof. solve_rooted. Qed.
#[local] Hint Resolve sync_aggregate_rooted : rooted.
Lemma bls_change_rooted : rooted bls_change_enc bls_change_root.
Proof. solve_rooted. Qed.
#[local] Hint Resolve bls_change_rooted : rooted.
Lemma signed_bls_change_rooted : rooted signed_bls_change_enc signed_bls_change_root.
Proof. solve_rooted. Qed.
#[local] Hint Resolve signed_bls_change_rooted : rooted.

(** The header of a payload has the root of the payload. *)
Lemma payload_rooted :
  rooted execution_payload_enc (fun p => tree_hash_root (header_of_payload p)).
Proof.
  apply (derive_rooted hash2 _ (fun p =>
    [tree_hash_root (ep_parent_hash p); tree_hash_root (ep_fee_recipient p);
     tree_hash_root (ep_state_root p); tree_hash_root (ep_receipts_root p);
     fixed_bytes_root 256 (ep_logs_bloom p); tree_hash_root (ep_prev_randao p);
     u64_root (ep_block_number p); u64_root (ep_gas_limit p); u64_root (ep_gas_used p);
     u64_root (ep_timestamp p); byte_list_root 32 (ep_extra_data p);
     tree_hash_root (ep_base_fee_per_gas p); tree_hash_root (ep_block_hash p);
     list_root 1048576 (byte_list_root 1073741824 <$> ep_transactions p);
     list_root 16 (withdrawal_root <$> ep_withdrawals p);
     u64_root (ep_blob_gas_used p); u64_root (ep_excess_blob_gas p)])).
  solve_fields.
Qed.
#[local] Hint Resolve payload_rooted : rooted.

(** The root of a block body, over the header of its payload. *)
Definition block_body_root (b : BeaconBlockBody) : Hash256 := derive_root
  [tree_hash_root (bb_randao_reveal b); eth1_data_root (bb_eth1_data b);
   tree_hash_root (bb_graffiti b);
   list_root 16 (proposer_slashing_root <$> bb_proposer_slashings b);
   list_root 2 (attester_slashing_root <$> bb_attester_slashings b);
   list_root 128 (attestation_root <$> bb_attestations b);
   list_root 16 (deposit_root <$> bb_deposits b);
   list_root 16 (signed_voluntary_exit_root <$> bb_voluntary_exits b);
   sync_aggregate_root (bb_sync_aggregate b);
   tree_hash_root (header_of_payload (bb_execution_payload b));
   list_root 16 (signed_bls_change_root <$> bb_bls_to_execution_changes b);
   list_root 4096 (tree_hash_root <$> bb_blob_kzg_commitments b)].

Lemma block_body_rooted : rooted beacon_block_body_enc block_body_root.
Proof. solve_rooted. Qed.
#[local] Hint Resolve block_body_rooted : rooted.

Lemma beacon_block_rooted :
  rooted beacon_block_enc (fun b => derive_root
    [u64_root (bk_slot b); u64_root (bk_proposer_index b); tree_hash_root (bk_parent_root b);
     tree_hash_root (bk_state_root b); block_body_root (bk_body b)]).
Proof. solve_rooted. Qed.

(** The root of a blinded block is that of the block made of it and of the payload whose header
    it has. *)
Lemma blinded_root payload b :
  bbb_execution_payload_header (bl_body b) = header_of_payload payload ->
  ssz_ok (beacon_block_new payload b) ->
  tree_hash_root b = root_of hash2 beacon_block_enc (beacon_block_new payload b).
Proof.
  intros Hheader Hok. rewrite <-(beacon_block_rooted _ Hok).
  destruct b as [slot index parent state body], body. simpl in Hheader. by subst.
Qed.
End containers.

(** * The helpers of [blst/mod.rs] *)

Section helpers.
Context {X : Ext} (hash2 : Hash256 -> Hash256 -> Hash256) {T : TreeHashLaws X hash2}.

Definition writes (n : N) (parts : list bytes) : option MerkleHasher :=
  foldl (fun h b => h ≫= fun h => mh_write h b) (Some (mh_with_leaves n)) parts.

Lemma writes_snoc n parts b : writes n (parts ++ [b]) = writes n parts ≫= fun h => mh_write h b.
Proof. unfold writes. by rewrite foldl_app. Qed.

Lemma chunk_count_mono n m : (n <= m)%N -> (chunk_count n <= chunk_count m)%N.
Proof. intros Hn. apply N.Div0.div_le_mono. lia. Qed.

(** Writing elements whose encodings fit the leaves. *)
Lemma write_all_spec {A} (encode : A -> outcome bytes) (e : A -> bytes) msg n l parts h :
  (forall a, a ∈ l -> encode a = Val (e a)) ->
  writes n parts = Some h -> (chunk_count (lenN (mjoin (parts ++ (e <$> l)))) <= n)%N ->
  exists h', write_all encode msg l h = Val h' /\ writes n (parts ++ (e <$> l)) = Some h'.
Proof.
  revert parts h. induction l as [|a l IH]; intros parts h He Hh Hn.
  { exists h. by rewrite app_nil_r. }
  cbn [fmap list_fmap] in *. cbn [write_all]. rewrite He by left. cbn [outcome_bind].
  assert (writes n (parts ++ [e a]) = mh_write h (e a)) as Hw by by rewrite writes_snoc, Hh.
  destruct (mh_write_fits n parts h (e a) Hh) as [h1 Hh1].
  { etrans; [apply chunk_count_mono | exact Hn]. rewrite !join_app. cbn.
    unfold lenN. rewrite !length_app. lia. }
  rewrite Hh1. rewrite Hh1 in Hw.
  replace (parts ++ e a :: (e <$> l)) with ((parts ++ [e a]) ++ (e <$> l)) in *
    by by rewrite <-app_assoc.
  apply IH; [| done | done]. intros b Hb. apply He. by right.
Qed.

Lemma hash_parts n {A} (encode : A -> outcome bytes) (e : A -> bytes) msg msg' l :
  (forall a, a ∈ l -> encode a = Val (e a)) -> (chunk_count (lenN (mjoin (e <$> l))) <= n)%N ->
  (let^ h := write_all encode msg l (mh_with_leaves n) in finish_or msg' h) =
  Val (merkleize hash2 n (pack (mjoin (e <$> l)))).
Proof.
  intros He Hn. destruct (write_all_spec encode e msg n l [] (mh_with_leaves n) He eq_refl Hn)
    as (h & -> & Hw).
  cbn [outcome_bind]. unfold finish_or. by rewrite (mh_finish_spec _ _ _ Hw).
Qed.

Lemma lenN_join (k : N) (l : list bytes) :
  Forall (fun b => lenN b = k) l -> lenN (mjoin l) = (k * lenN l)%N.
Proof.
  induction 1 as [|b l Hb _ IH]; [unfold lenN; simpl; lia |].
  change (lenN (b ++ mjoin l) = (k * lenN (b :: l))%N).
  rewrite lenN_app, IH, Hb. unfold lenN. cbn [length]. lia.
Qed.

Lemma chunk_count_chunks n : chunk_count (32 * n) = n.
Proof. unfold chunk_count. symmetry. apply (N.div_unique _ _ _ 31%N); lia. Qed.

Lemma chunk_count_packed k n pf :
  (k * pf = 32)%N -> (chunk_count (k * n) <= (n + pf - 1) / pf)%N.
Proof.
  intros Hk. assert (pf <> 0)%N by lia. unfold chunk_count.
  pose proof (N.Div0.div_mod (n + pf - 1) pf). pose proof (N.mod_lt (n + pf - 1) pf).
  apply N.lt_succ_r, N.Div0.div_lt_upper_bound. nia.
Qed.

(** [vec_tree_hash_root]: the tree of the elements' roots, or of their packed encodings when the
    type is basic and [pf] of them fill a chunk. *)
Lemma vec_root_composite {A} `{!TreeHash A} n (l : list A) :
  tree_hash_type A <> Basic -> (lenN l <= n)%N ->
  vec_tree_hash_root n l = Val (merkleize hash2 n (tree_hash_root <$> l)).
Proof.
  intros Hty Hn. rewrite <-(pack_chunks (tree_hash_root <$> l)), <-list_fmap_compose.
  assert (chunk_count (lenN (mjoin ((arr_bytes ∘ tree_hash_root) <$> l))) <= n)%N.
  { rewrite (lenN_join 32) by (apply Forall_fmap, Forall_true; intros a; apply array_len).
    unfold lenN in *. by rewrite length_fmap, chunk_count_chunks. }
  unfold vec_tree_hash_root. destruct (tree_hash_type A); try done; by apply hash_parts.
Qed.

Lemma vec_root_basic {A} `{!TreeHash A} n pf (e : A -> bytes) (l : list A) :
  tree_hash_type A = Basic -> tree_hash_packing_factor A = Val pf -> (pf <> 0)%N ->
  (forall a, tree_hash_packed_encoding a = Val (e a) /\ (lenN (e a) * pf = 32)%N) ->
  (lenN l <= n)%N ->
  vec_tree_hash_root n l =
  Val (merkleize hash2 ((n + pf - 1) / pf) (pack (mjoin (e <$> l)))).
Proof.
  intros Hty Hpf Hne He Hn. unfold vec_tree_hash_root. rewrite Hty, Hpf. cbn [outcome_bind].
  unfold div_ceil. rewrite (proj2 (N.eqb_neq _ _) Hne). cbn [outcome_bind].
  apply hash_parts; [intros a _; apply He |].
  destruct l as [|a0 l']; [apply N.le_0_l |]. set (l := a0 :: l') in *.
  assert (32 / pf * pf = 32)%N as Hdiv.
  { destruct (He a0) as [_ Ha]. rewrite <-Ha at 1. by rewrite N.div_mul. }
  rewrite (lenN_join (32 / pf)).
  - unfold lenN in *. rewrite length_fmap. etrans; [by apply (chunk_count_packed _ _ pf) |].
    apply N.Div0.div_le_mono. lia.
  - apply Forall_fmap, Forall_true. intros a. destruct (He a) as [_ Ha]. cbn. nia.
Qed.

(** [bitfield_bytes_tree_hash_root]: the tree of the chunks of the bytes of a bit field. *)
Lemma bitfield_root n b :
  (lenN b <= (n + 7) / 8)%N ->
  bitfield_bytes_tree_hash_root n b =
  Val (merkleize hash2 (chunk_count ((n + 7) / 8)) (pack b)).
Proof.
  intros Hb. unfold bitfield_bytes_tree_hash_root, div_ceil. cbn [outcome_bind N.eqb].
  change BYTES_PER_CHUNK with 32%N. cbn [outcome_bind N.eqb].
  replace (n + 8 - 1)%N with (n + 7)%N by lia.
  replace ((n + 7) / 8 + 32 - 1)%N with ((n + 7) / 8 + 31)%N by lia.
  change (((n + 7) / 8 + 31) / 32)%N with (chunk_count ((n + 7) / 8)).
  destruct (mh_write_fits (chunk_count ((n + 7) / 8)) [] (mh_with_leaves _) b eq_refl) as [h Hh].
  { by apply chunk_count_mono. }
  rewrite Hh. unfold finish_or.
  pose proof (mh_finish_spec (chunk_count ((n + 7) / 8)) [b] h) as Hf. cbn in Hf.
  rewrite app_nil_r in Hf. by rewrite (Hf Hh).
Qed.

(** C32: the helpers that compute the roots of vectors and bit fields do not panic on what fits,
    and compute the root of the complete binary tree over the right leaves, padded with zero
    chunks to the capacity: the roots of the elements, or the integers themselves (each fills a
    chunk), or the chunks of the bytes of the bit field. *)
Theorem merkle_helpers_correct :
  (forall (A : Type) (tree_hash : TreeHash A) n (l : list A),
     tree_hash_type A <> Basic -> (lenN l <= n)%N ->
     vec_tree_hash_root n l = Val (complete_tree hash2 n (tree_hash_root <$> l))) /\
  (forall n (l : list U256), (lenN l <= n)%N ->
     vec_tree_hash_root n l =
     Val (complete_tree hash2 n ((fun x => uint_as_le_slice (u256_0 x)) <$> l))) /\
  (forall n b, (lenN b <= (n + 7) / 8)%N ->
     bitfield_bytes_tree_hash_root n b =
     Val (complete_tree hash2 (chunk_count ((n + 7) / 8)) (pack b))).
Proof.
  split_and!.
  - intros A tree_hash n l Hty Hn. rewrite <-merkleize_tree. by apply vec_root_composite.
  - intros n l Hn. rewrite (vec_root_basic n 1 (fun x => arr_bytes (uint_as_le_slice (u256_0 x))));
      try done.
    + rewrite N.add_sub, N.div_1_r, merkleize_tree.
      by rewrite <-(pack_chunks ((fun x => uint_as_le_slice (u256_0 x)) <$> l)), <-list_fmap_compose.
    + intros a. split; [done |]. by rewrite array_len.
  - intros n b Hb. rewrite <-merkleize_tree. by apply bitfield_root.
Qed.
End helpers.
