(* ===== verification/VersionedBid.v ===== *)
(** The bid of the versions before the blobs, [crates/primitives/src/beacon/versioned_bid.rs].
    No module of the crate includes the file; it is modelled as it is written, with the two
    trie roots of reth as parameters, and compared with the conversion in use ([Header]). *)

From S2P Require Import Prelude External Types Blst Signer BeaconTypes StorageTypes Header.

Section versioned_bid.
Context `{Ext}.

(** ** Fork names; the file declares its own [ForkName] *)

Inductive VersionedForkName : Type := VBase | VAltair | VMerge | VCapella | VDeneb.

Definition versioned_fork_name_from_str (fork_name : string) : result VersionedForkName string :=
  let name := to_lowercase fork_name in
  if (name =? "phase0")%string || (name =? "base")%string then Ok VBase
  else if (name =? "altair")%string then Ok VAltair
  else if (name =? "bellatrix")%string || (name =? "merge")%string then Ok VMerge
  else if (name =? "capella")%string then Ok VCapella
  else if (name =? "deneb")%string then Ok VDeneb
  else Err ("unknown fork name: " +:+ fork_name).

Definition versioned_fork_name_try_from (s : string) : result VersionedForkName string := versioned_fork_name_from_str s.

Definition versioned_fork_name_display (self : VersionedForkName) : string :=
  match self with
  | VBase => "phase0"
  | VAltair => "altair"
  | VMerge => "bellatrix"
  | VCapella => "capella"
  | VDeneb => "deneb"
  end.

Definition versioned_fork_name_into_string (fork : VersionedForkName) : string := versioned_fork_name_display fork.

(** ** Bids *)

Record BuilderBid : Type := mkBuilderBid {
  vb_header : ExecutionPayloadHeader;
  vb_value : U256;
  vb_pubkey : BlsPublicKey
}.

Record SignedBuilderBid : Type := mkSignedBuilderBid {
  sbb_message : BuilderBid;
  sbb_signature : BlsSignature
}.

Record VersionedSignedBuilderBid : Type := mkVersionedSignedBuilderBid {
  vsb_version : VersionedForkName;
  vsb_data : SignedBuilderBid
}.

Definition versioned_signed_builder_bid_new (version : VersionedForkName) (data : SignedBuilderBid) :
  VersionedSignedBuilderBid := mkVersionedSignedBuilderBid version data.

(** ** Conversions *)

Section conversions.
(** [reth::primitives::proofs] *)
Context (calculate_transaction_root : list TransactionSigned -> array 32).
Context (ordered_trie_root : list Withdrawal -> array 32).

Definition header_try_from (payload : ExecutionPayload) :
  result ExecutionPayloadHeader ConversionError :=
  let txs := collect bytes_try_into_signed_tx (mkBytes <$> ep_transactions payload) in
  let? txs := map_err AlloyRlp txs in
  let tx_root := calculate_transaction_root txs in
  let withdrawls_root := ordered_trie_root (ep_withdrawals payload) in
  Ok {|
    eh_parent_hash := ep_parent_hash payload;
    eh_fee_recipient := ep_fee_recipient payload;
    eh_state_root := ep_state_root payload;
    eh_receipts_root := ep_receipts_root payload;
    eh_logs_bloom := ep_logs_bloom payload;
    eh_prev_randao := ep_prev_randao payload;
    eh_block_number := ep_block_number payload;
    eh_gas_limit := ep_gas_limit payload;
    eh_gas_used := ep_gas_used payload;
    eh_timestamp := ep_timestamp payload;
    eh_extra_data := ep_extra_data payload;
    eh_base_fee_per_gas := ep_base_fee_per_gas payload;
    eh_block_hash := ep_block_hash payload;
    eh_transactions_root := mkB256 tx_root;
    eh_withdrawals_root := mkB256 withdrawls_root;
    eh_blob_gas_used := ep_blob_gas_used payload;
    eh_excess_blob_gas := ep_excess_blob_gas payload
  |}.

Definition signed_builder_bid_try_from (submission : BidSubmission) :
  result SignedBuilderBid ConversionError :=
  let signature := bs_signature submission in
  let value := bt_value (bs_message submission) in
  let pubkey := bt_builder_pubkey (bs_message submission) in
  let? header := header_try_from (bs_execution_payload submission) in
  Ok (mkSignedBuilderBid (mkBuilderBid header value pubkey) signature).
End conversions.
End versioned_bid.

Section main.
Context {X : Ext}.

(** The header of [e] with other roots for the transactions and the withdrawals. *)
Definition with_roots (tx_root withdrawals_root : B256) (e : ExecutionPayloadHeader) :
  ExecutionPayloadHeader :=
  mkExecutionPayloadHeader (eh_parent_hash e) (eh_fee_recipient e) (eh_state_root e)
    (eh_receipts_root e) (eh_logs_bloom e) (eh_prev_randao e) (eh_block_number e)
    (eh_gas_limit e) (eh_gas_used e) (eh_timestamp e) (eh_extra_data e)
    (eh_base_fee_per_gas e) (eh_block_hash e) tx_root withdrawals_root
    (eh_blob_gas_used e) (eh_excess_blob_gas e).

(** The versioned bid of a submission exists exactly when each of its transactions decodes;
    its header is the one the relay serves except for the two roots (tries over the decoded
    transactions instead of hash trees over their bytes), its value and signature are those of
    the submission and its key is the builder's, where the served header has the relay's; the
    only error is the decoding error of one of the transactions. *)
Theorem versioned_bid_conversion tx_trie withdrawals_trie (s : BidSubmission) :
  let p := bs_execution_payload s in
  (forall b, signed_builder_bid_try_from tx_trie withdrawals_trie s = Ok b <->
    exists txs, Forall2 (fun t tx => tx_decode t = Ok tx) (ep_transactions p) txs /\
      b = mkSignedBuilderBid
        (mkBuilderBid (with_roots (mkB256 (tx_trie txs))
             (mkB256 (withdrawals_trie (ep_withdrawals p))) (header_of_payload p))
           (bt_value (bs_message s)) (bt_builder_pubkey (bs_message s)))
        (bs_signature s)) /\
  (forall e, signed_builder_bid_try_from tx_trie withdrawals_trie s = Err e ->
    exists t r, t ∈ ep_transactions p /\ tx_decode t = Err r /\ e = AlloyRlp r).
Proof.
  intros p. unfold signed_builder_bid_try_from, header_try_from. fold p. split.
  - intros b. split.
    + destruct (collect _ _) as [txs|] eqn:Hc; simpl; [|done]. intros [= <-].
      exists txs. split; [|done]. apply collect_ok, Forall2_fmap_l in Hc. exact Hc.
    + intros (txs & Htxs & ->).
      assert (collect bytes_try_into_signed_tx (mkBytes <$> ep_transactions p) = Ok txs) as ->
        by (by apply collect_ok, Forall2_fmap_l). done.
  - intros e. destruct (collect _ _) as [txs|r] eqn:Hc; simpl; [done |]. intros [= <-].
    apply collect_err in Hc as (t & (u & -> & Hu)%list_elem_of_fmap & Ht). by exists u, r.
Qed.
End main.
