(* ===== verification/Storage.v ===== *)
(** The storage interface, [crates/storage/src/lib.rs].

    [Storage E] is the trait: each method is a program over the events [E], because a method
    may take a lock, or several, and other tasks may move between two of them.  The handlers
    of the relay are written against it.  [StorageLaws] is the contract: an abstract state
    and what every method does to it when it runs alone ([Reads], [Writes]);
    [StorageAtomic], what it does when other tasks interleave: each method takes effect at
    exactly one of its events ([AtomicReads], [AtomicWrites]). *)

From S2P Require Import Prelude Prog External Types Blst Signer BeaconTypes StorageTypes.

Section storage.
Context `{Ext}.

(** [HashMap]s keyed by a public key hash and compare its serialization. *)
Abbreviation ValidatorRegistrations := (gmap (array 48) ValidatorRegistration).

(** [SlotHashKey] *)
Abbreviation SlotHashKey := (u64 * B256 * array 48)%type.

Definition slot_hash_key (slot : u64) (hash : B256) (validator : BlsPublicKey) : SlotHashKey :=
  (slot, hash, pk_serialize validator).

(** The key a bid is stored under. *)
Definition bid_key (slot : u64) (bid : BidSubmission) : SlotHashKey :=
  slot_hash_key slot (bt_parent_hash (bs_message bid)) (bt_proposer_pubkey (bs_message bid)).

Class Storage (E : Type -> Type) := {
  st_fork_data : prog E ForkDatas;
  st_set_head_slot : HeadSlot -> prog E unit;
  st_read_head_slot : prog E HeadSlot;
  st_set_payload_attributes : PayloadAttributes -> prog E unit;
  st_read_payload_attributes : prog E PayloadAttributes;
  st_set_validator_registration : BlsPublicKey -> ValidatorRegistration -> prog E unit;
  st_set_validator_registrations : ValidatorRegistrations -> prog E unit;
  st_empty_validator_regs : prog E bool;
  st_read_validator_registration : BlsPublicKey -> prog E (option ValidatorRegistration);
  st_set_proposer_duties : list Validator -> prog E unit;
  st_read_proposer_duties : prog E (list Validator);
  st_is_whitelisted_builder : BlsPublicKey -> prog E bool;
  st_find_duty_by_slot : u64 -> prog E (option Validator);
  st_set_best_bid : u64 -> BidSubmission -> prog E unit;
  st_read_best_bid : u64 -> B256 -> BlsPublicKey -> prog E (option BidSubmission);
  st_read_best_bid_by_block_number : u64 -> prog E (option BidSubmission);
  st_read_best_bid_by_slot : u64 -> prog E (option BidSubmission);
  st_set_blinded_block_response : BlsPublicKey -> BlindedBlockResponse -> prog E unit;
  st_read_blinded_block_response : BlsPublicKey -> prog E (option BlindedBlockResponse);
  st_set_delivered_blocks : B256 -> prog E unit;
  st_record_relayed_block : B256 -> prog E unit
}.

(** * The abstract state *)

Record StoreState : Type := mkStoreState {
  sto_head : HeadSlot;
  sto_attrs : PayloadAttributes;
  sto_duties : list Validator;
  sto_regs : ValidatorRegistrations;
  sto_builders : list BlsPublicKey;
  sto_best : gmap SlotHashKey BidSubmission;
  sto_by_number : gmap Z BidSubmission;
  sto_by_slot : gmap Z BidSubmission;
  sto_fork : ForkDatas;
  sto_blinded : gmap (array 48) BlindedBlockResponse;
  sto_delivered : list B256
}.

Definition sto_is_whitelisted (key : BlsPublicKey) (s : StoreState) : bool :=
  existsb (pk_eqb key) (sto_builders s).

(** The first duty of the slot. *)
Definition sto_find_duty (slot : u64) (s : StoreState) : option Validator :=
  List.find (fun d => (v_slot d =? slot)%Z) (sto_duties s).

Definition sto_read_best (slot : u64) (hash : B256) (key : BlsPublicKey) (s : StoreState) :
  option BidSubmission :=
  sto_best s !! slot_hash_key slot hash key.

Definition sto_set_head (h : HeadSlot) (s : StoreState) : StoreState :=
  mkStoreState h (sto_attrs s) (sto_duties s) (sto_regs s) (sto_builders s) (sto_best s)
    (sto_by_number s) (sto_by_slot s) (sto_fork s) (sto_blinded s) (sto_delivered s).
Definition sto_set_attrs (a : PayloadAttributes) (s : StoreState) : StoreState :=
  mkStoreState (sto_head s) a (sto_duties s) (sto_regs s) (sto_builders s) (sto_best s)
    (sto_by_number s) (sto_by_slot s) (sto_fork s) (sto_blinded s) (sto_delivered s).
Definition sto_set_duties (d : list Validator) (s : StoreState) : StoreState :=
  mkStoreState (sto_head s) (sto_attrs s) d (sto_regs s) (sto_builders s) (sto_best s)
    (sto_by_number s) (sto_by_slot s) (sto_fork s) (sto_blinded s) (sto_delivered s).
Definition sto_set_regs (r : ValidatorRegistrations) (s : StoreState) : StoreState :=
  mkStoreState (sto_head s) (sto_attrs s) (sto_duties s) r (sto_builders s) (sto_best s)
    (sto_by_number s) (sto_by_slot s) (sto_fork s) (sto_blinded s) (sto_delivered s).
Definition sto_set_best (slot : u64) (b : BidSubmission) (s : StoreState) : StoreState :=
  mkStoreState (sto_head s) (sto_attrs s) (sto_duties s) (sto_regs s) (sto_builders s)
    (<[bid_key slot b := b]> (sto_best s))
    (<[ep_block_number (bs_execution_payload b) := b]> (sto_by_number s))
    (sto_by_slot s) (sto_fork s) (sto_blinded s) (sto_delivered s).
Definition sto_set_blinded (k : BlsPublicKey) (r : BlindedBlockResponse) (s : StoreState) :
  StoreState :=
  mkStoreState (sto_head s) (sto_attrs s) (sto_duties s) (sto_regs s) (sto_builders s)
    (sto_best s) (sto_by_number s) (sto_by_slot s) (sto_fork s)
    (<[pk_serialize k := r]> (sto_blinded s)) (sto_delivered s).
Definition sto_set_delivered (h : B256) (s : StoreState) : StoreState :=
  mkStoreState (sto_head s) (sto_attrs s) (sto_duties s) (sto_regs s) (sto_builders s)
    (sto_best s) (sto_by_number s) (sto_by_slot s) (sto_fork s) (sto_blinded s)
    (sto_delivered s ++ [h]).

(** * The contract *)

Section contract.
Context {E : Type -> Type} {S : Type} (step : forall X, E X -> S -> X * S).
Context (abs : S -> StoreState).

(** What the rest of the world keeps when a storage method runs. *)
Context {F : Type} (frame : S -> F).

Definition Reads {A} (p : prog E A) (f : StoreState -> A) : Prop :=
  forall s, run step p s = (Val (f (abs s)), s).

Definition Writes (p : prog E unit) (f : StoreState -> StoreState) : Prop :=
  forall s, exists s', run step p s = (Val tt, s') /\ abs s' = f (abs s) /\ frame s' = frame s.

(** What an implementation keeps about its own representation. *)
Context (J : S -> Prop).

(** The rest of a method that has taken effect: it ends with a result in [Q], and none of its
    events changes the abstract state, whatever the other tasks do in between. *)
Fixpoint settled {A} (Q : A -> Prop) (p : prog E A) : Prop :=
  match p with
  | Ret a => Q a
  | Panic _ => False
  | Vis e k => forall s, J s ->
      let r := step _ e s in
      J r.2 /\ frame r.2 = frame s /\ abs r.2 = abs s /\ settled Q (k r.1)
  end.

(** A method is atomic when exactly one of its events takes effect: the state becomes [f] of
    what it is at that event, wherever the other tasks have brought it, the result is related
    to that same state, and every event before or after leaves the state alone. *)
Fixpoint atomic {A} (f : StoreState -> StoreState) (R : StoreState -> A -> Prop)
    (p : prog E A) : Prop :=
  match p with
  | Ret _ | Panic _ => False
  | Vis e k => forall s, J s ->
      let r := step _ e s in
      J r.2 /\ frame r.2 = frame s /\
      ((abs r.2 = abs s /\ atomic f R (k r.1)) \/
       (abs r.2 = f (abs s) /\ settled (R (abs s)) (k r.1)))
  end.

Definition AtomicReads {A} (p : prog E A) (g : StoreState -> A) : Prop :=
  atomic (fun s => s) (fun s a => a = g s) p.
Definition AtomicWrites (p : prog E unit) (f : StoreState -> StoreState) : Prop :=
  atomic f (fun _ _ => True) p.

(** What clients use of it, in the invariant logic: a read sees one state in which the invariant
    holds; a write keeps it. *)
Definition SafeReads {A} (p : prog E A) (f : StoreState -> A) : Prop :=
  forall (I : StoreState -> Prop) (Q : A -> Prop),
    (forall a, I a -> Q (f a)) -> safe step (fun s => J s /\ I (abs s)) Q p.

Definition SafeWrites (p : prog E unit) (f : StoreState -> StoreState) : Prop :=
  forall (I : StoreState -> Prop) (Q : unit -> Prop),
    (forall a, I a -> I (f a)) -> Q tt -> safe step (fun s => J s /\ I (abs s)) Q p.

Existing Class Reads.
Existing Class Writes.
Existing Class AtomicReads.
Existing Class AtomicWrites.
Existing Class SafeReads.
Existing Class SafeWrites.

Class StorageLaws `{!Storage E} : Prop := {
  law_fork_data :: Reads st_fork_data sto_fork;
  law_set_head :: forall h, Writes (st_set_head_slot h) (sto_set_head h);
  law_read_head :: Reads st_read_head_slot sto_head;
  law_set_attrs :: forall a, Writes (st_set_payload_attributes a) (sto_set_attrs a);
  law_read_attrs :: Reads st_read_payload_attributes sto_attrs;
  law_set_reg :: forall k r, Writes (st_set_validator_registration k r)
    (fun s => sto_set_regs (<[pk_serialize k := r]> (sto_regs s)) s);
  law_set_regs :: forall m, Writes (st_set_validator_registrations m) (sto_set_regs m);
  law_empty_regs :: Reads st_empty_validator_regs (fun s => bool_decide (sto_regs s = ∅));
  law_read_reg :: forall k,
    Reads (st_read_validator_registration k) (fun s => sto_regs s !! pk_serialize k);
  law_set_duties :: forall d, Writes (st_set_proposer_duties d) (sto_set_duties d);
  law_read_duties :: Reads st_read_proposer_duties sto_duties;
  law_whitelisted :: forall k, Reads (st_is_whitelisted_builder k) (sto_is_whitelisted k);
  law_find_duty :: forall slot, Reads (st_find_duty_by_slot slot) (sto_find_duty slot);
  law_set_best :: forall slot b, Writes (st_set_best_bid slot b) (sto_set_best slot b);
  law_read_best :: forall slot h k, Reads (st_read_best_bid slot h k) (sto_read_best slot h k);
  law_read_by_number :: forall n,
    Reads (st_read_best_bid_by_block_number n) (fun s => sto_by_number s !! n);
  law_read_by_slot :: forall n,
    Reads (st_read_best_bid_by_slot n) (fun s => sto_by_slot s !! n);
  law_set_blinded :: forall k r,
    Writes (st_set_blinded_block_response k r) (sto_set_blinded k r);
  law_read_blinded :: forall k,
    Reads (st_read_blinded_block_response k) (fun s => sto_blinded s !! pk_serialize k);
  law_set_delivered :: forall h, Writes (st_set_delivered_blocks h) (sto_set_delivered h);
  law_record_relayed :: forall h, Writes (st_record_relayed_block h) (fun s => s)
}.

Class StorageAtomic `{!Storage E} : Prop := {
  atomic_fork_data :: AtomicReads st_fork_data sto_fork;
  atomic_set_head :: forall h, AtomicWrites (st_set_head_slot h) (sto_set_head h);
  atomic_read_head :: AtomicReads st_read_head_slot sto_head;
  atomic_set_attrs :: forall a, AtomicWrites (st_set_payload_attributes a) (sto_set_attrs a);
  atomic_read_attrs :: AtomicReads st_read_payload_attributes sto_attrs;
  atomic_set_reg :: forall k r, AtomicWrites (st_set_validator_registration k r)
    (fun s => sto_set_regs (<[pk_serialize k := r]> (sto_regs s)) s);
  atomic_set_regs :: forall m, AtomicWrites (st_set_validator_registrations m) (sto_set_regs m);
  atomic_empty_regs :: AtomicReads st_empty_validator_regs (fun s => bool_decide (sto_regs s = ∅));
  atomic_read_reg :: forall k,
    AtomicReads (st_read_validator_registration k) (fun s => sto_regs s !! pk_serialize k);
  atomic_set_duties :: forall d, AtomicWrites (st_set_proposer_duties d) (sto_set_duties d);
  atomic_read_duties :: AtomicReads st_read_proposer_duties sto_duties;
  atomic_whitelisted :: forall k,
    AtomicReads (st_is_whitelisted_builder k) (sto_is_whitelisted k);
  atomic_find_duty :: forall slot, AtomicReads (st_find_duty_by_slot slot) (sto_find_duty slot);
  atomic_set_best :: forall slot b, AtomicWrites (st_set_best_bid slot b) (sto_set_best slot b);
  atomic_read_best :: forall slot h k,
    AtomicReads (st_read_best_bid slot h k) (sto_read_best slot h k);
  atomic_read_by_number :: forall n,
    AtomicReads (st_read_best_bid_by_block_number n) (fun s => sto_by_number s !! n);
  atomic_read_by_slot :: forall n,
    AtomicReads (st_read_best_bid_by_slot n) (fun s => sto_by_slot s !! n);
  atomic_set_blinded :: forall k r,
    AtomicWrites (st_set_blinded_block_response k r) (sto_set_blinded k r);
  atomic_read_blinded :: forall k,
    AtomicReads (st_read_blinded_block_response k) (fun s => sto_blinded s !! pk_serialize k);
  atomic_set_delivered :: forall h, AtomicWrites (st_set_delivered_blocks h) (sto_set_delivered h);
  atomic_record_relayed :: forall h, AtomicWrites (st_record_relayed_block h) (fun s => s)
}.

(** An atomic method keeps the invariants that its effect keeps. *)
Lemma settled_safe {A} (I : StoreState -> Prop) (Q : A -> Prop) p :
  settled Q p -> safe step (fun s => J s /\ I (abs s)) Q p.
Proof.
  induction p as [a|m|X e k IH]; [done | done |]. intros Hp s [HJ HI].
  destruct (Hp s HJ) as (HJ' & _ & Habs & Hk). split; [by rewrite Habs | by apply IH].
Qed.

Lemma atomic_guarded {A} f (R : StoreState -> A -> Prop) (I : StoreState -> Prop)
    (Q : A -> Prop) p :
  (forall a, I a -> I (f a)) -> (forall a r, I a -> R a r -> Q r) ->
  atomic f R p -> safe step (fun s => J s /\ I (abs s)) Q p.
Proof.
  intros Hf HR. induction p as [a|m|X e k IH]; [done | done |]. intros Hp s [HJ HI].
  destruct (Hp s HJ) as (HJ' & _ & [[Habs Hk]|[Habs Hk]]); rewrite Habs.
  - split; [done | by apply IH].
  - split; [by split; [|apply Hf] |]. apply settled_safe.
    revert Hk. generalize (k (step X e s).1) as q. clear -HI HR.
    induction q as [r|m|X e k IH]; [by apply HR | done |]. intros Hq s1 HJ.
    destruct (Hq s1 HJ) as (? & ? & ? & ?). split_and!; try done. by apply IH.
Qed.

#[export] Instance atomic_reads_safe {A} (p : prog E A) g : AtomicReads p g -> SafeReads p g.
Proof. intros Hp I Q HQ. eapply atomic_guarded; [| |exact Hp]; [done |]. intros a r HI ->. auto. Qed.

#[export] Instance atomic_writes_safe p f : AtomicWrites p f -> SafeWrites p f.
Proof. intros Hp I Q HI HQ. eapply atomic_guarded; [| |exact Hp]; [done |]. by intros a []. Qed.

(** Sequencing against the contract: what a method does is found by instance search. *)
Lemma run_reads {A B} (p : prog E A) f (k : A -> prog E B) s {Hp : Reads p f} :
  run step (bind p k) s = run step (k (f (abs s))) s.
Proof. by rewrite run_bind, (Hp s). Qed.

Lemma run_writes {B} (p : prog E unit) f (k : unit -> prog E B) s {Hp : Writes p f} :
  exists s', run step (bind p k) s = run step (k tt) s' /\
             abs s' = f (abs s) /\ frame s' = frame s.
Proof. destruct (Hp s) as (s' & Hr & Ha & Hf). exists s'. by rewrite run_bind, Hr. Qed.

Lemma safe_reads_bind {A B} (p : prog E A) f (k : A -> prog E B) I (Q : B -> Prop)
    {Hp : SafeReads p f} :
  (forall a, I a -> safe step (fun s => J s /\ I (abs s)) Q (k (f a))) ->
  safe step (fun s => J s /\ I (abs s)) Q (bind p k).
Proof. intros Hk. apply safe_bind. by apply (Hp I). Qed.

Lemma safe_writes_bind {B} (p : prog E unit) f (k : unit -> prog E B) I (Q : B -> Prop)
    {Hp : SafeWrites p f} :
  (forall a, I a -> I (f a)) -> safe step (fun s => J s /\ I (abs s)) Q (k tt) ->
  safe step (fun s => J s /\ I (abs s)) Q (bind p k).
Proof. intros Hf Hk. apply safe_bind. by apply (Hp I). Qed.

Lemma safe_writes_last (p : prog E unit) f I (Q : unit -> Prop) {Hp : SafeWrites p f} :
  (forall a, I a -> I (f a)) -> Q tt -> safe step (fun s => J s /\ I (abs s)) Q p.
Proof. apply (Hp I). Qed.
End contract.

(** * Lemmas on the abstract state *)

Lemma sto_find_duty_spec slot s d :
  sto_find_duty slot s = Some d ->
  v_slot d = slot /\ exists before after,
    sto_duties s = before ++ d :: after /\ Forall (fun d' => v_slot d' <> slot) before.
Proof.
  unfold sto_find_duty. induction (sto_duties s) as [|d' l IH]; simpl; [done |].
  destruct (Z.eqb_spec (v_slot d') slot) as [Heq|Hne].
  - intros [= <-]. split; [done |]. exists [], l. by split.
  - intros Hfind. destruct (IH Hfind) as (? & before & after & -> & Hb).
    split; [done |]. exists (d' :: before), after. split; [done |]. by constructor.
Qed.

Lemma sto_is_whitelisted_spec k s :
  sto_is_whitelisted k s = true <->
  exists k', k' ∈ sto_builders s /\ pk_serialize k' = pk_serialize k.
Proof.
  unfold sto_is_whitelisted. rewrite existsb_exists. unfold pk_eqb. split.
  - intros (k' & Hin & Heq%bool_decide_eq_true). exists k'.
    split; [by apply list_elem_of_In | done].
  - intros (k' & Hin & Heq). exists k'. split; [by apply list_elem_of_In |].
    by apply bool_decide_eq_true.
Qed.

Lemma sto_read_best_set slot b s :
  sto_read_best slot (bt_parent_hash (bs_message b)) (bt_proposer_pubkey (bs_message b))
    (sto_set_best slot b s) = Some b.
Proof. unfold sto_read_best; simpl. unfold bid_key. by rewrite lookup_insert_eq. Qed.
End storage.

Abbreviation ValidatorRegistrations := (gmap (array 48) ValidatorRegistration).
Abbreviation SlotHashKey := (u64 * B256 * array 48)%type.
#[global] Hint Mode Storage - ! : typeclass_instances.

(** One read, or one write, of the program that runs in the goal. *)
Ltac run_read :=
  match goal with
  | |- context [run ?step (bind ?p ?k) ?s] => rewrite (run_reads step _ p _ k s)
  end.

Ltac run_write frame s' Ha Hf :=
  match goal with
  | |- context [run ?step (bind ?p ?k) ?s] =>
      destruct (run_writes step _ frame p _ k s) as (s' & -> & Ha & Hf)
  end.

(** The same under the invariant logic. *)
Ltac safe_read :=
  match goal with
  | |- safe ?step _ _ (bind ?p ?k) =>
      refine (safe_reads_bind step _ _ p _ k _ _ _)
  end.

Ltac safe_write :=
  match goal with
  | |- safe ?step _ _ (bind ?p ?k) => refine (safe_writes_bind step _ _ p _ k _ _ _ _)
  end.

Ltac safe_last_write :=
  match goal with
  | |- safe ?step _ _ ?p => refine (safe_writes_last step _ _ p _ _ _ _ _)
  end.
