(* ===== verification/BidSpec.v ===== *)
(** What the relay promises about a bid submission, whichever API it comes through: when a
    bid is admissible, what accepting it does to the storage, and the invariant that every
    stored bid and every stored payload comes from an authentic submission. *)

From S2P Require Import Prelude External Types Blst Signer BeaconTypes StorageTypes Storage.

Section bid_spec.
Context `{Ext}.
Implicit Types st : StoreState.

(** The bid is strictly better than the one stored under its slot, parent and proposer. *)
Definition beats_best st (bid : BidTrace) : Prop :=
  forall best, sto_read_best (bt_slot bid) (bt_parent_hash bid) (bt_proposer_pubkey bid) st
                 = Some best ->
    (bid_value best < u256_val (bt_value bid))%Z.

Definition beats_best_b st (bid : BidTrace) : bool :=
  match sto_read_best (bt_slot bid) (bt_parent_hash bid) (bt_proposer_pubkey bid) st with
  | Some best => (bid_value best <? u256_val (bt_value bid))%Z
  | None => true
  end.

Lemma beats_best_b_spec st bid : beats_best_b st bid = true <-> beats_best st bid.
Proof.
  unfold beats_best_b, beats_best. destruct (sto_read_best _ _ _ _) as [best|]; [|naive_solver].
  rewrite Z.ltb_lt. naive_solver.
Qed.

(** A bid wins over the stored one by its value. *)
Lemma bid_gt_ltb a b : bid_gt a b = (u256_val (bt_value b) <? u256_val (bt_value a))%Z.
Proof. apply eq_true_iff_eq. by rewrite bid_gt_spec, Z.ltb_lt. Qed.

(** A builder allowed to submit signed the bid, for a value. *)
Record authentic (builders : list BlsPublicKey) (fork : ForkDatas) (bid : BidTrace)
    (signature : BlsSignature) : Prop := {
  au_value : (0 < u256_val (bt_value bid))%Z;
  au_builder : exists k, k ∈ builders /\ pk_serialize k = pk_serialize (bt_builder_pubkey bid);
  au_signature : bid_verify_signature bid signature (compute_builder_domain fork) = true
}.

(** The storage state admits the bid: it is for the slot after the head, it agrees with the
    payload attributes, and [duty] is the proposer duty of its slot. *)
Record admissible (fork : ForkDatas) st (bid : BidTrace) (randao : B256)
    (signature : BlsSignature) (duty : Validator) : Prop := {
  ad_best : beats_best st bid;
  ad_authentic : authentic (sto_builders st) fork bid signature;
  ad_next_slot : bt_slot bid = (hs_slot (sto_head st) + 1)%Z;
  ad_slot : pa_proposal_slot (sto_attrs st) = bt_slot bid;
  ad_randao : prev_randao (sto_attrs st) = randao;
  ad_duty : sto_find_duty (bt_slot bid) st = Some duty
}.

(** Accepting a submission: it becomes the best bid of its key and of its block number, and
    its payload is what the proposer of the slot will be given. *)
Definition accept_bid (submission : BidSubmission) (duty : Validator) st : StoreState :=
  sto_set_blinded (duty_pubkey duty) (to_blinded_block_response submission)
    (sto_set_best (bt_slot (bs_message submission)) submission st).

(** * The invariant of the stored bids *)

Definition authentic_submission builders fork (b : BidSubmission) : Prop :=
  authentic builders fork (bs_message b) (bs_signature b).

Record bids_authentic (builders : list BlsPublicKey) (fork : ForkDatas) st : Prop := {
  ba_builders : sto_builders st = builders;
  ba_fork : sto_fork st = fork;
  ba_best : forall key b, sto_best st !! key = Some b ->
    key = bid_key (bt_slot (bs_message b)) b /\ authentic_submission builders fork b;
  ba_number : forall n b, sto_by_number st !! n = Some b ->
    n = ep_block_number (bs_execution_payload b) /\ authentic_submission builders fork b;
  ba_blinded : forall k r, sto_blinded st !! k = Some r ->
    exists b, authentic_submission builders fork b /\ r = to_blinded_block_response b
}.

Section preserved.
Context (builders : list BlsPublicKey) (fork : ForkDatas).
Abbreviation I := (bids_authentic builders fork).

Lemma ba_set_best st b :
  I st -> authentic_submission builders fork b ->
  I (sto_set_best (bt_slot (bs_message b)) b st).
Proof.
  intros [Hb Hf Hbest Hnum Hbl] Hauth. split; simpl; [done..| | |done].
  - intros key b' [[<- <-]|[_ Hl]]%lookup_insert_Some; [by split | by apply Hbest].
  - intros n b' [[<- <-]|[_ Hl]]%lookup_insert_Some; [by split | by apply Hnum].
Qed.

Lemma ba_set_blinded st k b :
  I st -> authentic_submission builders fork b ->
  I (sto_set_blinded k (to_blinded_block_response b) st).
Proof.
  intros [Hb Hf Hbest Hnum Hbl] Hauth. split; simpl; [done.. |].
  intros k' r [[<- <-]|[_ Hl]]%lookup_insert_Some; [by exists b | by eapply Hbl].
Qed.

(** The other methods do not touch the bids. *)
Lemma ba_set_head st h : I st -> I (sto_set_head h st).
Proof. by intros []. Qed.
Lemma ba_set_attrs st a : I st -> I (sto_set_attrs a st).
Proof. by intros []. Qed.
Lemma ba_set_duties st d : I st -> I (sto_set_duties d st).
Proof. by intros []. Qed.
Lemma ba_set_regs st r : I st -> I (sto_set_regs r st).
Proof. by intros []. Qed.
Lemma ba_set_delivered st h : I st -> I (sto_set_delivered h st).
Proof. by intros []. Qed.

Lemma ba_accept st b duty :
  I st -> authentic_submission builders fork b -> I (accept_bid b duty st).
Proof. intros. apply ba_set_blinded; [by apply ba_set_best | done]. Qed.
End preserved.

(** * The best bid only improves *)

(** The value stored under a key, [0] when there is none. *)
Definition best_value (key : SlotHashKey) st : Z :=
  match sto_best st !! key with Some b => bid_value b | None => 0 end.

Lemma accept_bid_improves fork st sub duty randao :
  admissible fork st (bs_message sub) randao (bs_signature sub) duty ->
  forall key, (best_value key st <= best_value key (accept_bid sub duty st))%Z.
Proof.
  intros Ha key. unfold best_value; simpl.
  destruct (decide (bid_key (bt_slot (bs_message sub)) sub = key)) as [<-|Hne].
  - rewrite lookup_insert_eq. pose proof (ad_best _ _ _ _ _ _ Ha) as Hbeats.
    pose proof (au_value _ _ _ _ (ad_authentic _ _ _ _ _ _ Ha)).
    unfold beats_best, sto_read_best, bid_key in *. unfold bid_value at 2.
    destruct (sto_best st !! _) as [best|]; [specialize (Hbeats _ eq_refl); lia | lia].
  - by rewrite lookup_insert_ne.
Qed.
End bid_spec.

#[export] Hint Resolve ba_set_head ba_set_attrs ba_set_duties ba_set_regs ba_set_delivered
  ba_set_best ba_set_blinded ba_accept : relay.
