(* ===== verification/InMemory.v ===== *)
(** The state of the in-memory storage, [crates/storage/src/in_memory/mod.rs], and the critical
    sections of its methods: what each does while it holds the read or the write lock. *)

From S2P Require Import Prelude External Types Blst Signer BeaconTypes StorageTypes Storage.

Section in_memory.
Context `{Ext}.

Record InMemoryStorageInner : Type := mkInner {
  i_slot : HeadSlot;
  i_payload_attributes : PayloadAttributes;
  i_proposer_duties : list Validator;
  i_validator_registrations : ValidatorRegistrations;
  i_wlist_builders : list BlsPublicKey;
  i_best_bid_per_slot : gmap SlotHashKey BidSubmission;
  i_best_bid_by_slot : gmap Z BidSubmission;
  i_best_bid_by_block_number : gmap Z BidSubmission;
  i_fork_data : ForkDatas;
  i_blinded_block_resp : gmap (array 48) BlindedBlockResponse;
  i_delivered_blocks : list B256
}.

Implicit Types i : InMemoryStorageInner.

(** [InMemoryStorage::new], the state under the lock. *)
Definition inner_new (slot : HeadSlot) (payload_attributes : PayloadAttributes)
    (wlist_builders : list BlsPublicKey) (fork_data : ForkDatas)
    (validator_registrations : ValidatorRegistrations) (proposer_duties : list Validator) :
  InMemoryStorageInner := {|
  i_slot := slot;
  i_payload_attributes := payload_attributes;
  i_proposer_duties := proposer_duties;
  i_validator_registrations := validator_registrations;
  i_wlist_builders := wlist_builders;
  i_best_bid_per_slot := ∅;
  i_best_bid_by_slot := ∅;
  i_best_bid_by_block_number := ∅;
  i_fork_data := fork_data;
  i_blinded_block_resp := ∅;
  i_delivered_blocks := []
|}.

Definition inner_set_slot (slot : HeadSlot) i : InMemoryStorageInner :=
  mkInner slot (i_payload_attributes i) (i_proposer_duties i) (i_validator_registrations i)
    (i_wlist_builders i) (i_best_bid_per_slot i) (i_best_bid_by_slot i)
    (i_best_bid_by_block_number i) (i_fork_data i) (i_blinded_block_resp i)
    (i_delivered_blocks i).

Definition inner_set_payload_attributes (a : PayloadAttributes) i : InMemoryStorageInner :=
  mkInner (i_slot i) a (i_proposer_duties i) (i_validator_registrations i)
    (i_wlist_builders i) (i_best_bid_per_slot i) (i_best_bid_by_slot i)
    (i_best_bid_by_block_number i) (i_fork_data i) (i_blinded_block_resp i)
    (i_delivered_blocks i).

Definition inner_set_duties (duties : list Validator) i : InMemoryStorageInner :=
  mkInner (i_slot i) (i_payload_attributes i) duties (i_validator_registrations i)
    (i_wlist_builders i) (i_best_bid_per_slot i) (i_best_bid_by_slot i)
    (i_best_bid_by_block_number i) (i_fork_data i) (i_blinded_block_resp i)
    (i_delivered_blocks i).

Definition inner_set_registrations (regs : ValidatorRegistrations) i : InMemoryStorageInner :=
  mkInner (i_slot i) (i_payload_attributes i) (i_proposer_duties i) regs
    (i_wlist_builders i) (i_best_bid_per_slot i) (i_best_bid_by_slot i)
    (i_best_bid_by_block_number i) (i_fork_data i) (i_blinded_block_resp i)
    (i_delivered_blocks i).

Definition inner_insert_registration (key : BlsPublicKey) (r : ValidatorRegistration) i :
  InMemoryStorageInner :=
  inner_set_registrations (<[pk_serialize key := r]> (i_validator_registrations i)) i.

(** [set_best_bid]: both maps are written in one critical section; [best_bid_by_slot] is not. *)
Definition inner_set_best_bid (slot : u64) (bid : BidSubmission) i : InMemoryStorageInner :=
  let trace := bs_message bid in
  let execution_payload := bs_execution_payload bid in
  let key := slot_hash_key slot (bt_parent_hash trace) (bt_proposer_pubkey trace) in
  mkInner (i_slot i) (i_payload_attributes i) (i_proposer_duties i)
    (i_validator_registrations i) (i_wlist_builders i)
    (<[key := bid]> (i_best_bid_per_slot i)) (i_best_bid_by_slot i)
    (<[ep_block_number execution_payload := bid]> (i_best_bid_by_block_number i))
    (i_fork_data i) (i_blinded_block_resp i) (i_delivered_blocks i).

Definition inner_set_blinded (proposer : BlsPublicKey) (r : BlindedBlockResponse) i :
  InMemoryStorageInner :=
  mkInner (i_slot i) (i_payload_attributes i) (i_proposer_duties i)
    (i_validator_registrations i) (i_wlist_builders i) (i_best_bid_per_slot i)
    (i_best_bid_by_slot i) (i_best_bid_by_block_number i) (i_fork_data i)
    (<[pk_serialize proposer := r]> (i_blinded_block_resp i)) (i_delivered_blocks i).

Definition inner_push_delivered (block_hash : B256) i : InMemoryStorageInner :=
  mkInner (i_slot i) (i_payload_attributes i) (i_proposer_duties i)
    (i_validator_registrations i) (i_wlist_builders i) (i_best_bid_per_slot i)
    (i_best_bid_by_slot i) (i_best_bid_by_block_number i) (i_fork_data i)
    (i_blinded_block_resp i) (i_delivered_blocks i ++ [block_hash]).

(** ** Read sections *)

Definition inner_delivered_contains (block_hash : B256) i : bool :=
  bool_decide (block_hash ∈ i_delivered_blocks i).
Definition inner_regs_empty i : bool := bool_decide (i_validator_registrations i = ∅).
Definition inner_get_registration (key : BlsPublicKey) i : option ValidatorRegistration :=
  i_validator_registrations i !! pk_serialize key.
Definition inner_find_duty (slot : u64) i : option Validator :=
  List.find (fun duty => (v_slot duty =? slot)%Z) (i_proposer_duties i).
Definition inner_is_whitelisted (key : BlsPublicKey) i : bool :=
  existsb (pk_eqb key) (i_wlist_builders i).
Definition inner_best_by_number (block_number : u64) i : option BidSubmission :=
  i_best_bid_by_block_number i !! block_number.
Definition inner_best_by_slot (slot : u64) i : option BidSubmission :=
  i_best_bid_by_slot i !! slot.
Definition inner_get_blinded (proposer : BlsPublicKey) i : option BlindedBlockResponse :=
  i_blinded_block_resp i !! pk_serialize proposer.
Definition inner_best_bid (slot : u64) (parent_hash : B256) (validator : BlsPublicKey) i :
  option BidSubmission :=
  i_best_bid_per_slot i !! slot_hash_key slot parent_hash validator.

(** The abstract state of the storage contract. *)
Definition inner_abs i : StoreState := {|
  sto_head := i_slot i;
  sto_attrs := i_payload_attributes i;
  sto_duties := i_proposer_duties i;
  sto_regs := i_validator_registrations i;
  sto_builders := i_wlist_builders i;
  sto_best := i_best_bid_per_slot i;
  sto_by_number := i_best_bid_by_block_number i;
  sto_by_slot := i_best_bid_by_slot i;
  sto_fork := i_fork_data i;
  sto_blinded := i_blinded_block_resp i;
  sto_delivered := i_delivered_blocks i
|}.
End in_memory.
