(* ===== verification/World.v ===== *)
(** The world the relay's tasks run in: the storage behind its lock, the metrics, the clock,
    the beacon node and the HTTP services outside, and the tasks spawned.

    [RelayE] lists the events; a critical section of the storage is one event, so other tasks
    may run between any two of them.  [relay_step] interprets an event; what the outside
    answers is a function of the request, part of the world ([Outside]) and arbitrary. *)

From S2P Require Import Prelude Prog External Types Blst Signer BeaconTypes BeaconBlock.
From S2P Require Import StorageTypes Metrics InMemory.

(** ** HTTP, as the clients of the relay see it *)

Inductive HttpMethod : Type := GET | POST.

Inductive HttpBody : Type := NoBody | JsonBody (text : string) | RawBody (data : bytes).

Record HttpRequest : Type := mkHttpRequest {
  rq_method : HttpMethod;
  rq_url : string;
  rq_headers : list (string * string);
  rq_body : HttpBody
}.

Record HttpResponse : Type := mkHttpResponse {
  rs_status : Z;
  rs_text : result string string       (* reading the body can fail *)
}.

(** [reqwest::Error], by its message. *)
Abbreviation ReqwestError := string.

Section world.
Context `{Ext}.

(** [SubmissionType] of [crates/beacon/src/api/mod.rs]. *)
Inductive SubmissionType : Type := Json | Ssz.

(** The tasks handed to [tokio::spawn]: their captured variables. *)
Inductive Task : Type :=
| PublishTask (block : SignedBeaconBlockContent) (submission_type : SubmissionType)
| DutiesTask (head_slot : HeadSlot) (slots_per_epoch : u64).

Inductive RelayE : Type -> Type :=
| ReadLock {X} (f : InMemoryStorageInner -> X) : RelayE X
| WriteLock (f : InMemoryStorageInner -> InMemoryStorageInner) : RelayE unit
| Emit (m : MetricOp) : RelayE unit
| InstantNow : RelayE Z
| Sleep (secs : Z) : RelayE unit
| SpawnTask (t : Task) : RelayE unit
| SyncStatusReq : RelayE (result BeaconSyncStatusResponse string)
| ForkDataReq : RelayE (result GetForkResponse string)
| ProposerDutiesReq (epoch : u64) : RelayE (result ProposerDutiesResponse string)
| KnownValidatorReq (pubkey : BlsPublicKey) : RelayE (result KnownValidatorResponse string)
| PublishBlockReq (block : SignedBeaconBlockContent) (t : SubmissionType) :
    RelayE (result unit string)
| HttpSend (r : HttpRequest) : RelayE (result HttpResponse ReqwestError).

(** What the outside answers. *)
Record Outside : Type := mkOutside {
  out_sync : result BeaconSyncStatusResponse string;
  out_fork : result GetForkResponse string;
  out_duties : u64 -> result ProposerDutiesResponse string;
  out_known : BlsPublicKey -> result KnownValidatorResponse string;
  out_publish : SignedBeaconBlockContent -> result unit string;
  out_http : HttpRequest -> result HttpResponse ReqwestError;
  out_times : nat -> Z          (* successive readings of the monotonic clock, in ns *)
}.

Record World : Type := mkWorld {
  w_store : InMemoryStorageInner;
  w_metrics : list MetricOp;                          (* latest first *)
  w_spawned : list Task;                              (* latest first *)
  w_published : list (SignedBeaconBlockContent * SubmissionType);
  w_tick : nat;
  w_out : Outside
}.

Definition w_with_store (i : InMemoryStorageInner) (w : World) : World :=
  mkWorld i (w_metrics w) (w_spawned w) (w_published w) (w_tick w) (w_out w).

Definition relay_step {X} (e : RelayE X) (w : World) : X * World :=
  match e in RelayE X return X * World with
  | ReadLock f => (f (w_store w), w)
  | WriteLock f => (tt, w_with_store (f (w_store w)) w)
  | Emit m => (tt, mkWorld (w_store w) (m :: w_metrics w) (w_spawned w) (w_published w)
                     (w_tick w) (w_out w))
  | InstantNow => (out_times (w_out w) (w_tick w),
                   mkWorld (w_store w) (w_metrics w) (w_spawned w) (w_published w)
                     (Datatypes.S (w_tick w)) (w_out w))
  | Sleep _ => (tt, w)
  | SpawnTask t => (tt, mkWorld (w_store w) (w_metrics w) (t :: w_spawned w) (w_published w)
                          (w_tick w) (w_out w))
  | SyncStatusReq => (out_sync (w_out w), w)
  | ForkDataReq => (out_fork (w_out w), w)
  | ProposerDutiesReq epoch => (out_duties (w_out w) epoch, w)
  | KnownValidatorReq k => (out_known (w_out w) k, w)
  | PublishBlockReq b t =>
      (out_publish (w_out w) b,
       mkWorld (w_store w) (w_metrics w) (w_spawned w) ((b, t) :: w_published w)
         (w_tick w) (w_out w))
  | HttpSend r => (out_http (w_out w) r, w)
  end.

(** [tokio::time::Instant::elapsed], saturating, and [as_millis() as u64]. *)
Definition elapsed (started now : Z) : Z := Z.max 0 (now - started).
Definition as_millis_u64 (d : Z) : u64 := ((d / 1000000) mod u64_modulus)%Z.

(** ** Capabilities of the handlers besides the storage *)

Class BeaconHandle (E : Type -> Type) := {
  bh_sync_status : prog E (result BeaconSyncStatusResponse string);
  bh_get_fork_data : prog E (result GetForkResponse string);
  bh_get_known_validator : BlsPublicKey -> prog E (result KnownValidatorResponse string);
  bh_proposer_duties : u64 -> prog E (result ProposerDutiesResponse string);
  bh_publish_block : SignedBeaconBlockContent -> SubmissionType -> prog E (result unit string)
}.

#[export] Instance relay_beacon_handle : BeaconHandle RelayE := {|
  bh_sync_status := trigger SyncStatusReq;
  bh_get_fork_data := trigger ForkDataReq;
  bh_get_known_validator k := trigger (KnownValidatorReq k);
  bh_proposer_duties e := trigger (ProposerDutiesReq e);
  bh_publish_block b t := trigger (PublishBlockReq b t)
|}.

Class Host (E : Type -> Type) := {
  emit : MetricOp -> prog E unit;
  instant_now : prog E Z;
  sleep : Z -> prog E unit;
  spawn : Task -> prog E unit
}.

#[export] Instance relay_host : Host RelayE := {|
  emit m := trigger (Emit m);
  instant_now := trigger InstantNow;
  sleep s := trigger (Sleep s);
  spawn t := trigger (SpawnTask t)
|}.

Class HttpClient (E : Type -> Type) :=
  http_send : HttpRequest -> prog E (result HttpResponse ReqwestError).

#[export] Instance relay_http : HttpClient RelayE := fun r => trigger (HttpSend r).

(** What the poll of a service answers: always [Pending]; [Woken] when it asked to be polled
    again, [Waiting] when something else will wake it. *)
Inductive PollAnswer : Type := Woken | Waiting.

(** Running a task of the relay alone. *)
Definition run_relay {R} (p : prog RelayE R) (w : World) : outcome R * World :=
  run (fun X => @relay_step X) p w.

(** One event of the host at a time. *)
Definition w_ticked (w : World) : World :=
  mkWorld (w_store w) (w_metrics w) (w_spawned w) (w_published w) (S (w_tick w)) (w_out w).
Definition w_emitted (m : MetricOp) (w : World) : World :=
  mkWorld (w_store w) (m :: w_metrics w) (w_spawned w) (w_published w) (w_tick w) (w_out w).
Definition w_with_spawned (t : Task) (w : World) : World :=
  mkWorld (w_store w) (w_metrics w) (t :: w_spawned w) (w_published w) (w_tick w) (w_out w).

Abbreviation step := (fun X => @relay_step X).

Lemma run_now {R} (k : Z -> prog RelayE R) w :
  run step (bind instant_now k) w = run step (k (out_times (w_out w) (w_tick w))) (w_ticked w).
Proof. done. Qed.

Lemma run_emit {R} m (k : unit -> prog RelayE R) w :
  run step (bind (emit m) k) w = run step (k tt) (w_emitted m w).
Proof. done. Qed.

Lemma run_sleep {R} d (k : unit -> prog RelayE R) w :
  run step (bind (sleep d) k) w = run step (k tt) w.
Proof. done. Qed.

Lemma run_spawn {R} t (k : unit -> prog RelayE R) w :
  run step (bind (spawn t) k) w = run step (k tt) (w_with_spawned t w).
Proof. done. Qed.

Lemma run_known {R} pk (k : result KnownValidatorResponse string -> prog RelayE R) w :
  run step (bind (bh_get_known_validator pk) k) w = run step (k (out_known (w_out w) pk)) w.
Proof. done. Qed.

Lemma run_duties {R} e (k : result ProposerDutiesResponse string -> prog RelayE R) w :
  run step (bind (bh_proposer_duties e) k) w = run step (k (out_duties (w_out w) e)) w.
Proof. done. Qed.
End world.

#[global] Hint Mode BeaconHandle - ! : typeclass_instances.
#[global] Hint Mode Host - ! : typeclass_instances.
#[export] Hint Rewrite @run_now @run_emit @run_sleep @run_spawn @run_known @run_duties : relay.
