(* ===== verification/InMemoryStorage.v ===== *)
(** The in-memory implementation of the storage trait, [impl Storage for InMemoryStorage] of
    [crates/storage/src/in_memory/mod.rs]: every method as the sequence of its critical
    sections and metrics calls, and the proof that it meets the storage contract. *)

From S2P Require Import Prelude Prog External Types Blst Signer BeaconTypes StorageTypes Storage.
From S2P Require Import Metrics InMemory World.

Section in_memory_storage.
Context `{Ext}.

Definition rd {X} (f : InMemoryStorageInner -> X) : prog RelayE X := trigger (ReadLock f).
Definition wr (f : InMemoryStorageInner -> InMemoryStorageInner) : prog RelayE unit :=
  trigger (WriteLock f).

(** [if self.inner.read().delivered_blocks.contains(..)]: the guard is released before the
    branch runs. *)
Definition record_relayed_block (block_hash : B256) : prog RelayE unit :=
  let! relayed := rd (inner_delivered_contains block_hash) in
  if relayed then emit inc_relayed_blocks else emit inc_non_relayed_blocks.

Definition set_delivered_blocks (block_hash : B256) : prog RelayE unit :=
  do! emit inc_blinded_blocks; wr (inner_push_delivered block_hash).

Definition set_payload_attributes (payload_attr : PayloadAttributes) : prog RelayE unit :=
  let block_hash := parent_hash payload_attr in
  let parent_block_number := pa_parent_block_number payload_attr in
  let proposal_slot := pa_proposal_slot payload_attr in
  do! emit (set_block parent_block_number);
  do! emit (set_proposal_slot proposal_slot);
  do! record_relayed_block block_hash;
  wr (inner_set_payload_attributes payload_attr).

Definition set_validator_registrations (registrations : ValidatorRegistrations) :
  prog RelayE unit :=
  let count := N.of_nat (size registrations) in
  do! wr (inner_set_registrations registrations);
  emit (set_registered_validators count).

(** [InMemoryStorage::new]: the metrics set before the state is built, latest first, and the
    state. *)
Definition in_memory_storage_new (slot : HeadSlot) (payload_attributes : PayloadAttributes)
    (wlist_builders : list BlsPublicKey) (fork_data : ForkDatas)
    (validator_registrations : ValidatorRegistrations) (proposer_duties : list Validator) :
  list MetricOp * InMemoryStorageInner :=
  let proposal_slot := pa_proposal_slot payload_attributes in
  let p_block := pa_parent_block_number payload_attributes in
  ([set_block p_block; set_proposal_slot proposal_slot],
   inner_new slot payload_attributes wlist_builders fork_data validator_registrations
     proposer_duties).

#[export] Instance InMemoryStorage : Storage RelayE := {|
  st_fork_data := rd i_fork_data;
  st_set_head_slot slot := wr (inner_set_slot slot);
  st_read_head_slot := rd i_slot;
  st_set_payload_attributes := set_payload_attributes;
  st_read_payload_attributes := rd i_payload_attributes;
  st_set_validator_registration k r := wr (inner_insert_registration k r);
  st_set_validator_registrations := set_validator_registrations;
  st_empty_validator_regs := rd inner_regs_empty;
  st_read_validator_registration k := rd (inner_get_registration k);
  st_set_proposer_duties d := wr (inner_set_duties d);
  st_read_proposer_duties := rd i_proposer_duties;
  st_is_whitelisted_builder k := rd (inner_is_whitelisted k);
  st_find_duty_by_slot slot := rd (inner_find_duty slot);
  st_set_best_bid slot bid := wr (inner_set_best_bid slot bid);
  st_read_best_bid slot hash k := rd (inner_best_bid slot hash k);
  st_read_best_bid_by_block_number n := rd (inner_best_by_number n);
  st_read_best_bid_by_slot slot := rd (inner_best_by_slot slot);
  st_set_blinded_block_response k r := wr (inner_set_blinded k r);
  st_read_blinded_block_response k := rd (inner_get_blinded k);
  st_set_delivered_blocks := set_delivered_blocks;
  st_record_relayed_block := record_relayed_block
|}.

Definition w_abs (w : World) : StoreState := inner_abs (w_store w).

(** No method writes the map of the best bids by slot. *)
Definition by_slot_empty (w : World) : Prop := i_best_bid_by_slot (w_store w) = ∅.

(** What no storage method touches. *)
Definition w_frame (w : World) :
  list Task * list (BeaconBlock.SignedBeaconBlockContent * SubmissionType) * nat * Outside :=
  (w_spawned w, w_published w, w_tick w, w_out w).

Abbreviation step := (fun X => @relay_step _ X).

(** ** The contract *)

Lemma rd_reads {X} (f : InMemoryStorageInner -> X) g :
  (forall i, f i = g (inner_abs i)) -> Reads step w_abs (rd f) g.
Proof. intros Hf w. unfold w_abs. by rewrite <-Hf. Qed.

Lemma wr_writes f g :
  (forall i, inner_abs (f i) = g (inner_abs i)) -> Writes step w_abs w_frame (wr f) g.
Proof. intros Hf w. eexists. split; [done |]. split; [apply Hf | done]. Qed.

Lemma rd_atomic {X} (f : InMemoryStorageInner -> X) g :
  (forall i, f i = g (inner_abs i)) -> AtomicReads step w_abs w_frame by_slot_empty (rd f) g.
Proof. intros Hf w HJ. split_and!; [done.. |]. right. split; [done |]. apply Hf. Qed.

Lemma wr_atomic f g :
  (forall i, inner_abs (f i) = g (inner_abs i)) ->
  (forall i, i_best_bid_by_slot (f i) = i_best_bid_by_slot i) ->
  AtomicWrites step w_abs w_frame by_slot_empty (wr f) g.
Proof.
  intros Hf HJf w HJ. split_and!; [|done|].
  - unfold by_slot_empty in *. cbn. by rewrite HJf.
  - right. split; [apply Hf | done].
Qed.

(** A metrics call before the event that takes effect, or after it. *)
Lemma emit_atomic m f (p : prog RelayE unit) :
  AtomicWrites step w_abs w_frame by_slot_empty p f ->
  AtomicWrites step w_abs w_frame by_slot_empty (do! emit m; p) f.
Proof. intros Hp w HJ. split_and!; [done.. |]. by left. Qed.

Lemma emit_settled m : settled step w_abs w_frame by_slot_empty (fun _ => True) (emit m).
Proof. intros w HJ. by split_and!. Qed.

Lemma record_relayed_atomic h :
  AtomicWrites step w_abs w_frame by_slot_empty (record_relayed_block h) (fun s => s).
Proof.
  intros w HJ. split_and!; [done.. |]. right. split; [done |].
  cbn. destruct (inner_delivered_contains _ _); apply emit_settled.
Qed.

#[export] Instance in_memory_laws : StorageLaws step w_abs w_frame.
Proof.
  split; intros; try (apply rd_reads; intros i; reflexivity);
    try (apply wr_writes; intros i; reflexivity); intros w.
  - cbn. destruct (inner_delivered_contains _ _); cbn; eexists; repeat split; reflexivity.
  - cbn. eexists. repeat split; reflexivity.
  - cbn. eexists. repeat split; reflexivity.
  - cbn. destruct (inner_delivered_contains _ _); cbn; eexists; repeat split; reflexivity.
Qed.

#[export] Instance in_memory_atomic : StorageAtomic step w_abs w_frame by_slot_empty.
Proof.
  split; intros; try (apply rd_atomic; intros i; reflexivity);
    try (apply wr_atomic; intros i; reflexivity).
  - cbn [st_set_payload_attributes InMemoryStorage]. unfold set_payload_attributes.
    do 2 apply emit_atomic. intros w HJ. split_and!; [done.. |]. left. split; [done |].
    cbn. destruct (inner_delivered_contains _ _); apply emit_atomic; by apply wr_atomic.
  - intros w HJ. split_and!; [done.. |]. right. split; [done | apply emit_settled].
  - apply emit_atomic. by apply wr_atomic.
  - apply record_relayed_atomic.
Qed.
End in_memory_storage.

Section main.
Context {X : Ext}.

(** C16: the in-memory storage implements the storage contract.  Each of the methods, run alone,
    reads or updates the abstract state as specified and leaves the rest of the world as it
    was.  When other tasks interleave at its critical sections, each takes effect at exactly one
    of its events: there it reads, or updates as specified, the state the other tasks have
    brought about; no other event of it changes the state, none touches the rest of the world,
    it does not panic, and the map of the best bids by slot, which is read, stays empty. *)
Theorem in_memory_refines_contract :
  StorageLaws (fun A => @relay_step X A) w_abs w_frame /\
  StorageAtomic (fun A => @relay_step X A) w_abs w_frame by_slot_empty.
Proof. split; apply _. Qed.

(** Each payload-attributes event is counted once: as a relayed block exactly when its
    parent block was delivered by this relay, as a non-relayed block otherwise. *)
Theorem relayed_blocks_counted a w :
  let w' := (run_relay (st_set_payload_attributes a) w).2 in
  let delivered := bool_decide (parent_hash a ∈ sto_delivered (w_abs w)) in
  counter_value CRelayedBlocks (w_metrics w') =
    (counter_value CRelayedBlocks (w_metrics w) + if delivered then 1 else 0)%Z /\
  counter_value CNonRelayedBlocks (w_metrics w') =
    (counter_value CNonRelayedBlocks (w_metrics w) + if delivered then 0 else 1)%Z /\
  sto_attrs (w_abs w') = a.
Proof.
  intros w' delivered. subst w'. unfold run_relay. cbn. unfold inner_delivered_contains, delivered.
  cbn. case_bool_decide; cbn; rewrite !counter_value_cons; cbn [counter_delta inc_relayed_blocks
    inc_non_relayed_blocks set_block set_proposal_slot];
    repeat (case_decide; try done); split_and!; done || lia.
Qed.
End main.
