(* ===== verification/Grpc.v ===== *)
(** The gRPC API of the builders, [crates/grpc/src/]: the wire messages ([gen/mevrelay.rs]),
    their conversions ([gen/mod.rs]) and the block submission service ([service/mod.rs]). *)

From stdpp Require Import pretty.
From S2P Require Import Prelude Prog External Types Blst Signer BeaconTypes StorageTypes Storage.
From S2P Require Import BidSpec.

(** * Wire messages *)

Record PbBidTrace : Type := mkPbBidTrace {
  pb_slot : u64;
  pb_parent_hash : bytes;
  pb_block_hash : bytes;
  pb_builder_pubkey : bytes;
  pb_proposer_pubkey : bytes;
  pb_proposer_fee_recipient : bytes;
  pb_gas_limit : u64;
  pb_gas_used : u64;
  pb_value : string
}.

Record PbWithdrawal : Type := mkPbWithdrawal {
  pw_index : u64;
  pw_validator_index : u64;
  pw_address : bytes;
  pw_amount : u64
}.

Record PbBlobsBundle : Type := mkPbBlobsBundle {
  pbb_commitments : list bytes;
  pbb_proofs : list bytes;
  pbb_blobs : list bytes
}.

Record CompressTx : Type := mkCompressTx { tx_raw_data : bytes }.

Record PbExecutionPayload : Type := mkPbExecutionPayload {
  pe_parent_hash : bytes;
  pe_state_root : bytes;
  pe_receipts_root : bytes;
  pe_logs_bloom : bytes;
  pe_prev_randao : bytes;
  pe_extra_data : bytes;
  pe_base_fee_per_gas : bytes;
  pe_fee_recipient : bytes;
  pe_block_hash : bytes;
  pe_transactions : list CompressTx;
  pe_withdrawals : list PbWithdrawal;
  pe_block_number : u64;
  pe_gas_limit : u64;
  pe_timestamp : u64;
  pe_gas_used : u64;
  pe_blob_gas_used : u64;
  pe_excess_blob_gas : u64
}.

Record SubmitBlockRequest : Type := mkSubmitBlockRequest {
  sr_bid_trace : option PbBidTrace;
  sr_execution_payload : option PbExecutionPayload;
  sr_signature : bytes;
  sr_blobs_bundle : option PbBlobsBundle
}.

Record SubmitBlockResponse : Type := mkSubmitBlockResponse {
  sp_code : Z;
  sp_message : string
}.

Section grpc.
Context `{Ext}.

(** The [Display] of a conversion error. *)
Definition conversion_error_display (e : ConversionError) : string :=
  match e with
  | IncorrectLength data_type expected actual =>
      data_type +:+ " length mismatch: expected " +:+ pretty expected +:+ ", got " +:+
      pretty actual
  | ParseError data_type value =>
      "Failed to parse " +:+ data_type +:+ " from provided value: " +:+ value
  | AlloyRlp _ => "Failed to parse bytes to tx"
  | SszTypes => "Failed to parse ssz types"
  end.

(** * Conversions *)

Definition bid_trace_try_from (b : PbBidTrace) : fallible BidTrace ConversionError :=
  let^? value := Val (map_err (fun _ => ParseError "U256" (pb_value b))
                        (u256_parse (pb_value b))) in
  let^? parent_hash := b256_try_from (pb_parent_hash b) in
  let^? block_hash := b256_try_from (pb_block_hash b) in
  let^ builder_pubkey := pk_from_vec (pb_builder_pubkey b) in
  let^ proposer_pubkey := pk_from_vec (pb_proposer_pubkey b) in
  let^? proposer_fee_recipient := address_try_from (pb_proposer_fee_recipient b) in
  Val (Ok {|
    bt_slot := pb_slot b;
    bt_parent_hash := parent_hash;
    bt_block_hash := block_hash;
    bt_builder_pubkey := builder_pubkey;
    bt_proposer_pubkey := proposer_pubkey;
    bt_proposer_fee_recipient := proposer_fee_recipient;
    bt_gas_limit := pb_gas_limit b;
    bt_gas_used := pb_gas_used b;
    bt_value := value
  |}).

(** The validator index of the converted withdrawal is the amount of the message. *)
Definition withdrawal_try_from (w : PbWithdrawal) : fallible Withdrawal ConversionError :=
  let^? address := address_try_from (pw_address w) in
  Val (Ok {|
    wd_index := pw_index w;
    wd_validator_index := pw_amount w;
    wd_address := address;
    wd_amount := pw_amount w
  |}).

Definition blobs_bundle_try_from (b : PbBlobsBundle) : fallible BlobsBundle ConversionError :=
  let^? commitments := collect_f bytes48_try_from (pbb_commitments b) in
  let^? proofs := Val (collect (fun p => result_map mkKzg
                    (ok_or (array_of BYTES_PER_COMMITMENT p) SszTypes)) (pbb_proofs b)) in
  let^? blobs := Val (collect (fun v => ok_or (fv_new BYTES_PER_BLOB v) SszTypes)
                   (pbb_blobs b)) in
  let^? proofs := Val (ok_or (vl_new 4096 proofs) SszTypes) in
  let^? blobs := Val (ok_or (vl_new 4096 blobs) SszTypes) in
  Val (Ok (mkBlobsBundle commitments proofs blobs)).

Definition fallible_map_err {A E F} (f : E -> F) (r : fallible A E) : fallible A F :=
  match r with Val r => Val (map_err f r) | Panics m => Panics m end.

Definition execution_payload_try_from (p : PbExecutionPayload) :
  fallible ExecutionPayload ConversionError :=
  let^? withdrawals := collect_f withdrawal_try_from (pe_withdrawals p) in
  let^? parent_hash := b256_try_from (pe_parent_hash p) in
  let^? fee_recipient :=
    fallible_map_err (fun _ => IncorrectLength "Address" 20 (lenN (pe_fee_recipient p)))
      (address_try_from (pe_fee_recipient p)) in
  let^? state_root := b256_try_from (pe_state_root p) in
  let^? receipts_root := b256_try_from (pe_receipts_root p) in
  let logs_bloom := fv_from Byte.x00 256 (pe_logs_bloom p) in
  let^? prev_randao := b256_try_from (pe_prev_randao p) in
  let extra_data := vl_from 32 (pe_extra_data p) in
  let^? base_fee_per_gas := u256_try_from (pe_base_fee_per_gas p) in
  let^? block_hash := b256_try_from (pe_block_hash p) in
  let^? transactions := Val (ok_or
    (vl_new 1048576 ((fun t => vl_from 1073741824 (tx_raw_data t)) <$> pe_transactions p))
    SszTypes) in
  let^? withdrawals := Val (ok_or (vl_new 16 withdrawals) SszTypes) in
  Val (Ok {|
    ep_parent_hash := parent_hash;
    ep_fee_recipient := fee_recipient;
    ep_state_root := state_root;
    ep_receipts_root := receipts_root;
    ep_logs_bloom := logs_bloom;
    ep_prev_randao := prev_randao;
    ep_block_number := pe_block_number p;
    ep_gas_limit := pe_gas_limit p;
    ep_gas_used := pe_gas_used p;
    ep_timestamp := pe_timestamp p;
    ep_extra_data := extra_data;
    ep_base_fee_per_gas := base_fee_per_gas;
    ep_block_hash := block_hash;
    ep_transactions := transactions;
    ep_withdrawals := withdrawals;
    ep_blob_gas_used := pe_blob_gas_used p;
    ep_excess_blob_gas := pe_excess_blob_gas p
  |}).

(** * The service *)

(** [tonic::Status::invalid_argument], the only status the service returns. *)
Inductive Status : Type := InvalidArgument (message : string).

Section service.
Context {E : Type -> Type} `{!Storage E} `{!BuildProfile}.

(** [RelayService]: the storage is the instance, the fork data a field. *)
Record RelayService : Type := mkRelayService { rsv_fork_data : ForkDatas }.

Definition validate_bid_and_payload (bid : BidTrace) (execution_payload : ExecutionPayload) :
  prog E (result Validator Status) :=
  if u256_is_zero (bt_value bid) then Ret (Err (InvalidArgument "Block value 0.")) else
  let builder := bt_builder_pubkey bid in
  let! whitelisted := st_is_whitelisted_builder builder in
  if negb whitelisted then Ret (Err (InvalidArgument "Invalid builder address.")) else
  let! head_slot := st_read_head_slot in
  let! next := lift (is_next_slot head_slot (bt_slot bid)) in
  if negb next then Ret (Err (InvalidArgument "Submission for past slot.")) else
  let! attrs := st_read_payload_attributes in
  match validate_bid attrs (bt_slot bid) (ep_prev_randao execution_payload) with
  | Err error_message => Ret (Err (InvalidArgument (validation_error_display error_message)))
  | Ok _ =>
      let! duty := st_find_duty_by_slot (bt_slot bid) in
      Ret (ok_or duty (InvalidArgument "No duty found."))
  end.

Definition verify_signature (svc : RelayService) (bid : BidTrace) (signature : BlsSignature) :
  result unit Status :=
  let builder_domain := compute_builder_domain (rsv_fork_data svc) in
  let is_verified := bid_verify_signature bid signature builder_domain in
  if negb is_verified then Err (InvalidArgument "Invalid signature") else Ok tt.

Definition is_bid_higher (bid : BidTrace) : prog E bool :=
  let slot := bt_slot bid in
  let parent_hash := bt_parent_hash bid in
  let proposer := bt_proposer_pubkey bid in
  let! current := st_read_best_bid slot parent_hash proposer in
  match current with
  | Some current_best => Ret (bid_gt bid (bs_message current_best))
  | None => Ret true
  end.

Definition update_best (bid : BidTrace) (exec_payload : ExecutionPayload)
    (blobs_bundle : BlobsBundle) (signature : BlsSignature) (proposer_key : BlsPublicKey) :
  prog E unit :=
  let slot := bt_slot bid in
  let submission := mkBidSubmission bid exec_payload blobs_bundle signature in
  let blinded_block_response := to_blinded_block_response submission in
  do! st_set_best_bid slot submission;
  st_set_blinded_block_response proposer_key blinded_block_response.

Definition conversion_status {A} (r : fallible A ConversionError) : fallible A Status :=
  fallible_map_err (fun e => InvalidArgument (conversion_error_display e)) r.

Definition submit_block (svc : RelayService) (req : SubmitBlockRequest) :
  prog E (result SubmitBlockResponse Status) :=
  let!? bid := Ret (ok_or (sr_bid_trace req) (InvalidArgument "Missing bid")) in
  let!? exec_payload :=
    Ret (ok_or (sr_execution_payload req) (InvalidArgument "Missing Execution Payload")) in
  let!? blobs := Ret (ok_or (sr_blobs_bundle req) (InvalidArgument "Missing Blobs Bundle")) in
  let!? bid := lift (conversion_status (bid_trace_try_from bid)) in
  let! higher := is_bid_higher bid in
  if negb higher then Ret (Ok (mkSubmitBlockResponse 400 "Bid below best.")) else
  let!? exec_payload := lift (conversion_status (execution_payload_try_from exec_payload)) in
  let!? duty := validate_bid_and_payload bid exec_payload in
  let! signature := lift (sig_from_vec (sr_signature req)) in
  let!? _ := Ret (verify_signature svc bid signature) in
  let!? blobs := lift (conversion_status (blobs_bundle_try_from blobs)) in
  do! update_best bid exec_payload blobs signature (rm_pubkey (vr_message (v_entry duty)));
  Ret (Ok (mkSubmitBlockResponse 200 "Success")).
End service.
End grpc.

(** * Properties of the conversions *)

Section conversion_laws.
Context {X : Ext} {L : ExtLaws X}.

(** [collect] over a conversion that never panics. *)
Lemma collect_f_total {A B Er} (f : A -> fallible B Er) (l : list A) :
  (forall a, a ∈ l -> exists r, f a = Val r) -> exists r, collect_f f l = Val r.
Proof.
  induction l as [|a l IH]; intros Hf; simpl; [by eexists |].
  destruct (Hf a) as [[b|e] ->]; [by left | | by eexists]; simpl.
  destruct IH as [[bs|e] ->]; [intros; apply Hf; by right | by eexists..].
Qed.

Lemma collect_f_length {A B Er} (f : A -> fallible B Er) l bs :
  collect_f f l = Val (Ok bs) -> length bs = length l.
Proof.
  revert bs; induction l as [|a l IH]; simpl; intros bs; [by intros [= <-] |].
  destruct (f a) as [[b|]|]; simpl; try done.
  destruct (collect_f f l) as [[bs'|]|]; simpl; try done.
  intros [= <-]. simpl. by rewrite IH.
Qed.

Lemma withdrawal_try_from_spec w :
  withdrawal_try_from w = Val (match array_of 20 (pw_address w) with
    | Some a => Ok (mkWithdrawal (pw_index w) (pw_amount w) (mkAddress a) (pw_amount w))
    | None => Err (IncorrectLength "Address" 20 (lenN (pw_address w)))
    end).
Proof. unfold withdrawal_try_from. rewrite address_try_from_spec. by destruct (array_of _ _). Qed.

(** Of the request, only the keys of the bid and the signature can make a conversion panic. *)
Lemma execution_payload_try_from_total p : exists r, execution_payload_try_from p = Val r.
Proof.
  unfold execution_payload_try_from.
  destruct (collect_f_total withdrawal_try_from (pe_withdrawals p)) as [[ws|e] ->];
    [intros w _; rewrite withdrawal_try_from_spec; by eexists | | by eexists]; simpl.
  rewrite !b256_try_from_spec, address_try_from_spec.
  destruct (u256_try_from_spec (pe_base_fee_per_gas p)) as [[_ ->]|[_ [a ->]]];
    repeat (destruct (array_of _ _); simpl; [|by eexists]); try by eexists.
  repeat (destruct (vl_new _ _); simpl; [|by eexists]). by eexists.
Qed.

Lemma blobs_bundle_try_from_total b : exists r, blobs_bundle_try_from b = Val r.
Proof.
  unfold blobs_bundle_try_from.
  destruct (collect_f_total bytes48_try_from (pbb_commitments b)) as [[cs|e] ->];
    [intros c _; rewrite bytes48_try_from_spec; by eexists | | by eexists]; simpl.
  destruct (collect _ (pbb_proofs b)) as [ps|]; simpl; [|by eexists].
  destruct (collect _ (pbb_blobs b)) as [bs|]; simpl; [|by eexists].
  repeat (destruct (vl_new _ _); simpl; [|by eexists]). by eexists.
Qed.
End conversion_laws.

(** * Properties of the service *)

Section service_laws.
Context {X : Ext} `{!BuildProfile}.
Context {E : Type -> Type} {St : Storage E} {S : Type} (step : forall A, E A -> S -> A * S)
  (abs : S -> StoreState) {F : Type} (frame : S -> F) {L : StorageLaws step abs frame}.
Implicit Types s : S.

Lemma is_bid_higher_run bid s :
  run step (is_bid_higher bid) s = (Val (beats_best_b (abs s) bid), s).
Proof.
  unfold is_bid_higher, beats_best_b. run_read.
  destruct (sto_read_best _ _ _ _) as [best|]; simpl; [|done]. by rewrite bid_gt_ltb.
Qed.

Lemma verify_signature_ok svc bid sig u :
  verify_signature svc bid sig = Ok u <->
  bid_verify_signature bid sig (compute_builder_domain (rsv_fork_data svc)) = true.
Proof. unfold verify_signature. destruct (bid_verify_signature _ _ _), u; simpl; naive_solver. Qed.

Lemma update_best_run bid payload blobs sig duty s :
  exists s', run step (update_best bid payload blobs sig (duty_pubkey duty)) s = (Val tt, s') /\
    abs s' = accept_bid (mkBidSubmission bid payload blobs sig) duty (abs s) /\
    frame s' = frame s.
Proof.
  unfold update_best.
  set (sub := mkBidSubmission bid payload blobs sig).
  run_write frame s1 Ha1 Hf1.
  destruct (law_set_blinded step abs frame (duty_pubkey duty) (to_blinded_block_response sub) s1)
    as (s2 & -> & Ha2 & Hf2).
  exists s2. split; [done |]. split; [by rewrite Ha2, Ha1 | congruence].
Qed.

(** ** The verdict

    What a request deserves in a state, as a pure function: the submission it carries and the
    duty it is for, or the answer to send back; a panic when a conversion panics. *)

Definition ensure {A} (c : bool) (otherwise : A) : fallible unit A :=
  Val (if c then Ok tt else Err otherwise).

(** The checks of a decoded bid against the state, in the order of the code. *)
Definition state_verdict (st : StoreState) (bid : BidTrace) (payload : ExecutionPayload) :
  result Validator string :=
  if u256_is_zero (bt_value bid) then Err "Block value 0." else
  if negb (sto_is_whitelisted (bt_builder_pubkey bid) st) then Err "Invalid builder address." else
  if negb (hs_slot (sto_head st) + 1 =? bt_slot bid)%Z then Err "Submission for past slot." else
  let? _ := map_err validation_error_display
              (validate_bid (sto_attrs st) (bt_slot bid) (ep_prev_randao payload)) in
  ok_or (sto_find_duty (bt_slot bid) st) "No duty found.".

Abbreviation refusal m := (Err (InvalidArgument m) : result SubmitBlockResponse Status).

Definition grpc_verdict (fork : ForkDatas) (st : StoreState) (req : SubmitBlockRequest) :
  fallible (BidSubmission * Validator) (result SubmitBlockResponse Status) :=
  let unconverted e := refusal (conversion_error_display e) in
  let^? b := Val (ok_or (sr_bid_trace req) (refusal "Missing bid")) in
  let^? p := Val (ok_or (sr_execution_payload req) (refusal "Missing Execution Payload")) in
  let^? bl := Val (ok_or (sr_blobs_bundle req) (refusal "Missing Blobs Bundle")) in
  let^? bid := fallible_map_err unconverted (bid_trace_try_from b) in
  let^? _ := ensure (beats_best_b st bid) (Ok (mkSubmitBlockResponse 400 "Bid below best.")) in
  let^? payload := fallible_map_err unconverted (execution_payload_try_from p) in
  let^? duty := Val (map_err (fun m => refusal m) (state_verdict st bid payload)) in
  let^? sig := outcome_bind (sig_from_vec (sr_signature req)) (fun sig => Val (Ok sig)) in
  let^? _ := ensure (bid_verify_signature bid sig (compute_builder_domain fork))
               (refusal "Invalid signature") in
  let^? blobs := fallible_map_err unconverted (blobs_bundle_try_from bl) in
  Val (Ok (mkBidSubmission bid payload blobs sig, duty)).

Lemma validate_run bid payload s :
  (hs_slot (sto_head (abs s)) < u64_max)%Z ->
  run step (validate_bid_and_payload bid payload) s =
  (Val (map_err InvalidArgument (state_verdict (abs s) bid payload)), s).
Proof.
  intros Hhead. unfold validate_bid_and_payload, state_verdict.
  destruct (u256_is_zero _); [done |].
  run_read. destruct (sto_is_whitelisted _ _); simpl negb; cbv iota; [|done].
  run_read. rewrite is_next_slot_spec by done. simpl lift. simpl bind.
  destruct (_ =? _)%Z; simpl negb; cbv iota; [|done].
  run_read. destruct (validate_bid _ _ _) as [[]|e]; [|done].
  run_read. simpl. by destruct (sto_find_duty _ _).
Qed.

(** The service answers the verdict, in one step of the storage state. *)
Lemma submit_block_run svc req s :
  (hs_slot (sto_head (abs s)) < u64_max)%Z ->
  match grpc_verdict (rsv_fork_data svc) (abs s) req with
  | Val (Ok (sub, duty)) => exists s',
      run step (submit_block svc req) s =
        (Val (Ok (mkSubmitBlockResponse 200 "Success")), s') /\
      abs s' = accept_bid sub duty (abs s) /\ frame s' = frame s
  | Val (Err answer) => run step (submit_block svc req) s = (Val answer, s)
  | Panics m => run step (submit_block svc req) s = (Panics m, s)
  end.
Proof.
  intros Hhead. unfold submit_block, grpc_verdict, try_bind.
  destruct (sr_bid_trace req) as [b|]; simpl; [|done].
  destruct (sr_execution_payload req) as [p|]; simpl; [|done].
  destruct (sr_blobs_bundle req) as [bl|]; simpl; [|done].
  destruct (bid_trace_try_from b) as [[bid|e]|m]; simpl; [|done..].
  rewrite run_bind, is_bid_higher_run.
  destruct (beats_best_b (abs s) bid); simpl; [|done].
  destruct (execution_payload_try_from p) as [[payload|e]|m]; simpl; [|done..].
  rewrite run_bind, validate_run by done.
  destruct (state_verdict (abs s) bid payload) as [duty|m]; simpl; [|done].
  rewrite run_bind, run_lift. destruct (sig_from_vec (sr_signature req)) as [sig|m]; simpl; [|done].
  unfold verify_signature. destruct (bid_verify_signature _ _ _); simpl; [|done].
  destruct (blobs_bundle_try_from bl) as [[blobs|e]|m]; simpl; [|done..].
  destruct (update_best_run bid payload blobs sig duty s) as (s' & Hrun & Ha & Hf).
  exists s'. unfold duty_pubkey in Hrun. by rewrite run_bind, Hrun.
Qed.

(** ** What the verdict accepts *)

(** The request carries the parts of a submission, and they convert to it. *)
Definition decodes (req : SubmitBlockRequest) (sub : BidSubmission) : Prop :=
  exists b p bl,
    sr_bid_trace req = Some b /\ sr_execution_payload req = Some p /\
    sr_blobs_bundle req = Some bl /\
    bid_trace_try_from b = Val (Ok (bs_message sub)) /\
    execution_payload_try_from p = Val (Ok (bs_execution_payload sub)) /\
    blobs_bundle_try_from bl = Val (Ok (bs_blobs_bundle sub)) /\
    sig_from_vec (sr_signature req) = Val (bs_signature sub).

Definition grpc_acceptable fork (st : StoreState) (req : SubmitBlockRequest)
    (sub : BidSubmission) (duty : Validator) : Prop :=
  decodes req sub /\
  admissible fork st (bs_message sub) (ep_prev_randao (bs_execution_payload sub))
    (bs_signature sub) duty.

Lemma state_verdict_ok st bid payload duty :
  state_verdict st bid payload = Ok duty <->
  (0 < u256_val (bt_value bid))%Z /\
  sto_is_whitelisted (bt_builder_pubkey bid) st = true /\
  bt_slot bid = (hs_slot (sto_head st) + 1)%Z /\
  (pa_proposal_slot (sto_attrs st) = bt_slot bid /\
   prev_randao (sto_attrs st) = ep_prev_randao payload) /\
  sto_find_duty (bt_slot bid) st = Some duty.
Proof.
  unfold state_verdict, u256_is_zero.
  pose proof (uint_range (u256_0 (bt_value bid))) as Hrange. fold (u256_val (bt_value bid)) in *.
  destruct (Z.eqb_spec (u256_val (bt_value bid)) 0) as [Hz|Hz]; [split; [done | lia] |].
  destruct (sto_is_whitelisted _ _); simpl; [|split; [done | by intros (_ & ? & _)]].
  destruct (Z.eqb_spec (hs_slot (sto_head st) + 1) (bt_slot bid)) as [Hn|Hn]; simpl.
  2:{ split; [done | intros (_ & _ & Hs & _); lia]. }
  rewrite <-(validate_bid_ok (sto_attrs st) (bt_slot bid) (ep_prev_randao payload)).
  destruct (validate_bid _ _ _) as [[]|e]; simpl; [|split; [done | by intros (_ & _ & _ & ? & _)]].
  destruct (sto_find_duty _ _); simpl; [|split; [done | by intros (_ & _ & _ & _ & ?)]].
  split; [intros [= ->]; split_and!; done || lia | intros (_ & _ & _ & _ & ?); congruence].
Qed.

Lemma ensure_ok {A} c (e : A) u : ensure c e = Val (Ok u) <-> c = true.
Proof. unfold ensure. destruct c, u; naive_solver. Qed.

Lemma fallible_map_err_ok {A Er Er2} (f : Er -> Er2) (r : fallible A Er) a :
  fallible_map_err f r = Val (Ok a) <-> r = Val (Ok a).
Proof. destruct r as [[]|]; simpl; naive_solver. Qed.

Lemma val_ok_or {A Er} (o : option A) (e : Er) a : Val (ok_or o e) = Val (Ok a) <-> o = Some a.
Proof. destruct o; simpl; naive_solver. Qed.

Lemma val_map_err_ok {A Er Er2} (f : Er -> Er2) (r : result A Er) a :
  Val (map_err f r) = Val (Ok a) <-> r = Ok a.
Proof. destruct r; simpl; naive_solver. Qed.

Lemma outcome_ok {A Er} (o : outcome A) a :
  (outcome_bind o (fun a => Val (Ok a)) : fallible A Er) = Val (Ok a) -> o = Val a.
Proof. destruct o; simpl; naive_solver. Qed.

Lemma grpc_verdict_ok fork st req sub duty :
  grpc_verdict fork st req = Val (Ok (sub, duty)) <-> grpc_acceptable fork st req sub duty.
Proof.
  unfold grpc_verdict, grpc_acceptable, decodes.
  split.
  - intros Hv. apply fallible_bind_ok in Hv as (b & Hb & Hv). apply val_ok_or in Hb.
    apply fallible_bind_ok in Hv as (p & Hp & Hv). apply val_ok_or in Hp.
    apply fallible_bind_ok in Hv as (bl & Hbl & Hv). apply val_ok_or in Hbl.
    apply fallible_bind_ok in Hv as (bid & Hbid & Hv). apply fallible_map_err_ok in Hbid.
    apply fallible_bind_ok in Hv as ([] & Hbeats%ensure_ok & Hv).
    apply fallible_bind_ok in Hv as (payload & Hpay%fallible_map_err_ok & Hv).
    apply fallible_bind_ok in Hv as (d & Hd%val_map_err_ok & Hv).
    apply fallible_bind_ok in Hv as (sig & Hsig & Hv). apply outcome_ok in Hsig.
    apply fallible_bind_ok in Hv as ([] & Hver%ensure_ok & Hv).
    apply fallible_bind_ok in Hv as (blobs & Hblobs%fallible_map_err_ok & Hv).
    injection Hv as <- <-.
    apply state_verdict_ok in Hd as (Hval & Hbuilder & Hslot & [Hattr Hrandao] & Hduty).
    split; [by exists b, p, bl |]. split; try done; [by apply beats_best_b_spec |].
    split; [done | by apply sto_is_whitelisted_spec | done].
  - intros [(b & p & bl & Hb & Hp & Hbl & Hbid & Hpay & Hblobs & Hsig)
            [Hbeats [Hval Hbuilder Hver] Hslot Hattr Hrandao Hduty]].
    rewrite Hb. simpl. rewrite Hp. simpl. rewrite Hbl. simpl. rewrite Hbid. simpl.
    rewrite (proj2 (beats_best_b_spec _ _) Hbeats). simpl. rewrite Hpay. simpl.
    rewrite (proj2 (state_verdict_ok st _ _ duty)); simpl.
    + rewrite Hsig. simpl. rewrite Hver. simpl. rewrite Hblobs. simpl. by destruct sub.
    + split_and!; try done. by apply sto_is_whitelisted_spec.
Qed.

(** A request that is not accepted is not answered like one that is. *)
Lemma grpc_verdict_not_success fork st req a :
  grpc_verdict fork st req = Val (Err a) -> a <> Ok (mkSubmitBlockResponse 200 "Success").
Proof.
  unfold grpc_verdict, ensure. intros Hv ->.
  repeat (apply fallible_bind_err in Hv as [Hv|(? & _ & Hv)];
    [by unfold fallible_map_err, ok_or, map_err, outcome_bind in Hv;
        repeat case_match; simplify_eq/= |]).
  done.
Qed.

(** A decoded submission is unique. *)
Lemma decodes_inj req sub sub' : decodes req sub -> decodes req sub' -> sub' = sub.
Proof.
  intros (? & ? & ? & Hb & Hp & Hbl & ? & ? & ? & ?) (? & ? & ? & ? & ? & ? & ? & ? & ? & ?).
  destruct sub, sub'; simpl in *. f_equal; congruence.
Qed.
End service_laws.

(** * Safety under interleaving *)

Section service_safe.
Context {X : Ext} `{!BuildProfile}.
Context {E : Type -> Type} {St : Storage E} {S : Type} (step : forall A, E A -> S -> A * S)
  (abs : S -> StoreState) {F : Type} (frame : S -> F) (J : S -> Prop)
  {L : StorageAtomic step abs frame J}.
Context (builders : list BlsPublicKey) (fork : ForkDatas).
Abbreviation I := (fun s => J s /\ bids_authentic builders fork (abs s)).

(** A validated bid has a value and comes from a whitelisted builder, whatever the other tasks
    do meanwhile. *)
Lemma validate_safe bid payload (Q : result Validator Status -> Prop) :
  (forall e, Q (Err e)) ->
  (forall duty,
     (0 < u256_val (bt_value bid))%Z ->
     (exists k, k ∈ builders /\ pk_serialize k = pk_serialize (bt_builder_pubkey bid)) ->
     Q (Ok duty)) ->
  safe step I Q (validate_bid_and_payload bid payload).
Proof.
  intros Herr Hok. unfold validate_bid_and_payload, u256_is_zero.
  pose proof (uint_range (u256_0 (bt_value bid))) as Hrange. fold (u256_val (bt_value bid)) in *.
  destruct (Z.eqb_spec (u256_val (bt_value bid)) 0); [apply Herr |].
  safe_read. intros a Ha.
  destruct (sto_is_whitelisted _ a) eqn:Hw; simpl; [|apply Herr].
  apply sto_is_whitelisted_spec in Hw. rewrite (ba_builders _ _ _ Ha) in Hw.
  safe_read. intros a' _.
  apply safe_bind, safe_lift. intros [] _; simpl; [|apply Herr].
  safe_read. intros a'' _.
  destruct (validate_bid _ _ _); simpl; [|apply Herr].
  safe_read. intros a3 _.
  destruct (sto_find_duty _ _); simpl; [apply Hok; [lia | done] | apply Herr].
Qed.

Lemma update_best_safe bid payload blobs sig key (Q : unit -> Prop) :
  authentic builders fork bid sig -> Q tt ->
  safe step I Q (update_best bid payload blobs sig key).
Proof.
  intros Hauth HQ. unfold update_best.
  set (sub := mkBidSubmission bid payload blobs sig).
  safe_write; [by intros; apply (ba_set_best _ _ _ sub) |].
  safe_last_write; [|done].
  intros; by apply (ba_set_blinded _ _ _ _ sub).
Qed.

Lemma submit_block_safe svc req :
  rsv_fork_data svc = fork ->
  safe step I (fun _ => True) (submit_block svc req).
Proof.
  intros Hfork. unfold submit_block.
  apply safe_try_bind; simpl. destruct (ok_or _ _) as [b|]; [|done].
  apply safe_try_bind; simpl. destruct (ok_or _ _) as [p|]; [|done].
  apply safe_try_bind; simpl. destruct (ok_or _ _) as [bl|]; [|done].
  apply safe_try_bind, safe_lift. intros [bid|] _; [|done].
  apply safe_bind. unfold is_bid_higher.
  safe_read. intros a _.
  destruct (match _ with Some _ => _ | None => _ end) as [higher| |] eqn:Hh;
    [|done | by destruct (sto_read_best _ _ _ _)]. simpl.
  destruct higher; [|done]. simpl.
  apply safe_try_bind, safe_lift. intros [payload|] _; [|done].
  apply safe_try_bind, validate_safe; [done |]. intros duty Hval Hbuilder.
  apply safe_bind, safe_lift. intros sig _.
  apply safe_try_bind; simpl. destruct (verify_signature _ _ _) eqn:Hver; [|done].
  apply verify_signature_ok in Hver. rewrite Hfork in Hver.
  apply safe_try_bind, safe_lift. intros [blobs|] _; [|done].
  apply safe_bind. by apply update_best_safe.
Qed.
End service_safe.

(** * Main properties *)

Section main.
Context {X : Ext} `{!BuildProfile}.
Context {E : Type -> Type} {St : Storage E} {S : Type} (step : forall A, E A -> S -> A * S)
  (abs : S -> StoreState) {F : Type} (frame : S -> F) {L : StorageLaws step abs frame}.

(** C2: over any storage that meets the contract, [submit_block] is correct: the request gets
    exactly the answer of its verdict, a pure function of the request and of the storage state
    (every status, the order of the checks and the panics included), and nothing changes unless
    it is accepted; it is accepted exactly when it decodes to a submission that the storage
    admits (better than the current best, positive value, whitelisted builder, next slot,
    payload attributes, duty, signature), and then the answer is code 200 and the submission
    becomes the best bid and the payload of the duty's proposer. *)
Theorem submit_block_correct svc req s :
  (hs_slot (sto_head (abs s)) < u64_max)%Z ->
  let (answer, s') := run step (submit_block svc req) s in
  match grpc_verdict (rsv_fork_data svc) (abs s) req with
  | Val (Ok (sub, duty)) =>
      decodes req sub /\
      admissible (rsv_fork_data svc) (abs s) (bs_message sub)
        (ep_prev_randao (bs_execution_payload sub)) (bs_signature sub) duty /\
      answer = Val (Ok (mkSubmitBlockResponse 200 "Success")) /\
      abs s' = accept_bid sub duty (abs s) /\ frame s' = frame s
  | verdict =>
      ~ (exists sub duty,
           decodes req sub /\
           admissible (rsv_fork_data svc) (abs s) (bs_message sub)
             (ep_prev_randao (bs_execution_payload sub)) (bs_signature sub) duty) /\
      s' = s /\
      match verdict with
      | Val (Err a) => answer = Val a /\ a <> Ok (mkSubmitBlockResponse 200 "Success")
      | _ => exists m, answer = Panics m
      end
  end.
Proof.
  intros Hhead. pose proof (submit_block_run step abs frame svc req s Hhead) as Hrun.
  pose proof (grpc_verdict_ok (rsv_fork_data svc) (abs s) req) as Hok.
  pose proof (grpc_verdict_not_success (rsv_fork_data svc) (abs s) req) as Hno.
  destruct (run _ _ _) as [answer s'].
  destruct (grpc_verdict _ _ _) as [[[sub duty]|a]|m].
  - destruct Hrun as (s'' & [= -> ->] & Ha & Hf). by destruct (proj1 (Hok sub duty) eq_refl).
  - injection Hrun as -> ->. split; [|split; [done |]; split; [done | by apply Hno]].
    intros (sub & duty & Hacc). by apply Hok in Hacc.
  - injection Hrun as -> ->. split; [|split; [done | by eexists]].
    intros (sub & duty & Hacc). by apply Hok in Hacc.
Qed.
End main.

Section conversion_properties.
Context {X : Ext} {L : ExtLaws X}.

Lemma b256_try_from_ok v h : b256_try_from v = Val (Ok h) -> arr_bytes (b256_0 h) = v.
Proof.
  rewrite b256_try_from_spec. destruct (array_of 32 v) eqn:Ha; [|done].
  intros [= <-]. by apply array_of_Some in Ha.
Qed.

Lemma address_conversion_ok {Er} (f : ConversionError -> Er) v a :
  fallible_map_err f (address_try_from v) = Val (Ok a) -> arr_bytes (address_0 a) = v.
Proof.
  rewrite address_try_from_spec. destruct (array_of 20 v) eqn:Ha; [|done].
  intros [= <-]. by apply array_of_Some in Ha.
Qed.

Lemma vl_new_ok {T Er} n (l l' : list T) (e : Er) :
  Val (ok_or (vl_new n l) e) = Val (Ok l') -> l' = l /\ (lenN l <= n)%N.
Proof.
  rewrite vl_new_spec. destruct (N.leb_spec (lenN l) n); [|done]. by intros [= <-].
Qed.

(** A converted withdrawal carries the amount of the message as its validator index; the
    index the builder sent is dropped, so two messages that differ only there convert alike. *)
Theorem withdrawal_validator_index_dropped w i :
  withdrawal_try_from w = withdrawal_try_from
    (mkPbWithdrawal (pw_index w) i (pw_address w) (pw_amount w)) /\
  (forall w', withdrawal_try_from w = Val (Ok w') -> wd_validator_index w' = pw_amount w).
Proof.
  rewrite !withdrawal_try_from_spec. simpl. split; [done |].
  intros w'. destruct (array_of _ _); [|done]. by intros [= <-].
Qed.

(** C28: the conversion of a bid trace panics exactly when its value and hashes are well formed
    and one of its keys is not a valid key: a panic any client can provoke. *)
Theorem bid_trace_panics b :
  (exists m, bid_trace_try_from b = Panics m) <->
  is_ok (u256_parse (pb_value b)) = true /\
  lenN (pb_parent_hash b) = 32%N /\ lenN (pb_block_hash b) = 32%N /\
  (is_ok (pk_from_bytes (pb_builder_pubkey b)) = false \/
   is_ok (pk_from_bytes (pb_proposer_pubkey b)) = false).
Proof.
  unfold bid_trace_try_from, pk_from_vec. rewrite !b256_try_from_spec, address_try_from_spec.
  destruct (u256_parse (pb_value b)) as [v|e]; simpl; [|naive_solver].
  destruct (array_of 32 (pb_parent_hash b)) as [ph|] eqn:Hph; simpl.
  2:{ apply array_of_None in Hph. naive_solver. }
  apply array_of_Some in Hph as <-. rewrite array_len.
  destruct (array_of 32 (pb_block_hash b)) as [bh|] eqn:Hbh; simpl.
  2:{ apply array_of_None in Hbh. naive_solver. }
  apply array_of_Some in Hbh as <-. rewrite array_len.
  destruct (pk_from_bytes (pb_builder_pubkey b)); simpl; [|naive_solver].
  destruct (pk_from_bytes (pb_proposer_pubkey b)); simpl; [|naive_solver].
  destruct (array_of 20 _); simpl; naive_solver.
Qed.

(** A converted execution payload has the fields of the message (hashes and address byte
    for byte, extra data cut at 32 bytes), at most [2^20] transactions and 16 withdrawals. *)
Theorem execution_payload_conversion p e :
  execution_payload_try_from p = Val (Ok e) ->
  arr_bytes (b256_0 (ep_parent_hash e)) = pe_parent_hash p /\
  arr_bytes (address_0 (ep_fee_recipient e)) = pe_fee_recipient p /\
  arr_bytes (b256_0 (ep_state_root e)) = pe_state_root p /\
  arr_bytes (b256_0 (ep_receipts_root e)) = pe_receipts_root p /\
  arr_bytes (b256_0 (ep_prev_randao e)) = pe_prev_randao p /\
  arr_bytes (b256_0 (ep_block_hash e)) = pe_block_hash p /\
  ep_extra_data e = take 32 (pe_extra_data p) /\
  (ep_block_number e, ep_gas_limit e, ep_gas_used e, ep_timestamp e, ep_blob_gas_used e,
   ep_excess_blob_gas e) =
  (pe_block_number p, pe_gas_limit p, pe_gas_used p, pe_timestamp p, pe_blob_gas_used p,
   pe_excess_blob_gas p) /\
  length (ep_transactions e) = length (pe_transactions p) /\
  (lenN (pe_transactions p) <= 1048576)%N /\
  length (ep_withdrawals e) = length (pe_withdrawals p) /\
  (lenN (pe_withdrawals p) <= 16)%N.
Proof.
  unfold execution_payload_try_from. intros Hconv.
  repeat (apply fallible_bind_ok in Hconv as (? & ? & Hconv)).
  injection Hconv as <-; simpl.
  repeat match goal with
  | H : b256_try_from _ = _ |- _ => apply b256_try_from_ok in H as <-
  | H : fallible_map_err _ (address_try_from _) = _ |- _ => apply address_conversion_ok in H as <-
  | H : collect_f _ _ = _ |- _ => apply collect_f_length in H
  | H : Val (ok_or (vl_new _ _) _) = _ |- _ => apply vl_new_ok in H as [-> ?]
  end.
  unfold lenN in *. rewrite vl_from_spec, length_fmap in *. split_and!; try done; lia.
Qed.
End conversion_properties.
