(* ===== verification/HttpErrors.v ===== *)
(** Errors of the HTTP server, [crates/http/src/server/errors.rs] and the error types of its
    routes: rejections, and the reply each is turned into. *)

From stdpp Require Import pretty.
From S2P Require Import Prelude External Types.

(** ** The error types of the routes *)

(** [data_api/get_bids.rs] *)
Inductive GetBidsError : Type := MissingQueryParam.

(** [builder_api/post_bids.rs] *)
Inductive PostBidsError : Type :=
| BelowFloor | ZeroBid | UnauthorizedBuilder | PastSlotSubmission | DutyNotFound
| InvalidBidSignature | InvalidPayloadAttrs (msg : string).

(** [proposer_api/get_header.rs] *)
Inductive GetHeaderError : Type := InvalidSlot | NoBidFound | UnauthorizedGetHeader.

(** [proposer_api/blinded_blocks.rs] *)
Inductive PostBlindedBlockErr : Type :=
| NoDutyFound
| ProposerIndexMismatch (expected actual : u64)
| InvalidSignature
| NoBlockFromBlockHash
| PublishBlock
| UnauthorizedSubmission.

(** Their [Display]. *)
Definition get_bids_error_display (e : GetBidsError) : string :=
  match e with MissingQueryParam => "One of slot or block_number must be provided." end.

Definition post_bids_error_display (e : PostBidsError) : string :=
  match e with
  | BelowFloor => "Bid value is below floor."
  | ZeroBid => "Bid value 0."
  | UnauthorizedBuilder => "Builder is not allowed to submit bids."
  | PastSlotSubmission => "Submission is for past slot."
  | DutyNotFound => "No duty found from slot."
  | InvalidBidSignature => "Invalid signature."
  | InvalidPayloadAttrs m => "Invalid payload attributes: " +:+ m +:+ "."
  end.

Definition get_header_error_display (e : GetHeaderError) : string :=
  match e with
  | InvalidSlot => "slot is too old"
  | NoBidFound => "No bid found"
  | UnauthorizedGetHeader => "Not authorized to get the header."
  end.

Definition blinded_block_err_display (e : PostBlindedBlockErr) : string :=
  match e with
  | NoDutyFound => "No duty found from slot."
  | ProposerIndexMismatch expected actual =>
      "Proposer index mismatch: expected " +:+ pretty expected +:+ ", got " +:+
      pretty actual +:+ "."
  | InvalidSignature => "Invalid signature."
  | NoBlockFromBlockHash => "Could not find blinded block response for block hash."
  | PublishBlock => "Could not publish block."
  | UnauthorizedSubmission => "Not authorized to submit the blinded block."
  end.

Section errors.
Context `{Ext}.

(** The causes a rejection can carry: the custom ones of the routes, and those of warp's own
    filters (path, method, body and query), by their [Debug] form. *)
Inductive Cause : Type :=
| CGetHeader (e : GetHeaderError)
| CPostBlindedBlock (e : PostBlindedBlockErr)
| CPostBids (e : PostBidsError)
| CGetBids (e : GetBidsError)
| CConversion (e : ConversionError)
| CWarp (debug : string).

(** [warp::Rejection]: the causes of the alternatives that were tried, in order. *)
Definition Rejection : Type := list Cause.

(** [warp::reject::custom] and [warp::reject::reject]. *)
Definition reject_custom (c : Cause) : Rejection := [c].
Definition reject : Rejection := [CWarp "Rejection(NotFound)"].

(** [Rejection::find::<T>]: the first cause of the type. *)
Definition find_cause {T} (as_ : Cause -> option T) (r : Rejection) : option T :=
  head (omap as_ r).

Definition as_get_header (c : Cause) : option GetHeaderError :=
  match c with CGetHeader e => Some e | _ => None end.
Definition as_blinded (c : Cause) : option PostBlindedBlockErr :=
  match c with CPostBlindedBlock e => Some e | _ => None end.
Definition as_post_bids (c : Cause) : option PostBidsError :=
  match c with CPostBids e => Some e | _ => None end.
Definition as_get_bids (c : Cause) : option GetBidsError :=
  match c with CGetBids e => Some e | _ => None end.

Definition OK : Z := 200.
Definition BAD_REQUEST : Z := 400.
Definition INTERNAL_SERVER_ERROR : Z := 500.

(** An error reply: a JSON string and a status. *)
Record ErrorReply : Type := mkErrorReply { er_json : string; er_status : Z }.

(** [ApiError], whose [Display] is the one of the error it wraps. *)
Inductive ApiError : Type :=
| ApiGetHeader (e : GetHeaderError)
| ApiPostBlindedBlock (e : PostBlindedBlockErr)
| ApiPostBids (e : PostBidsError)
| ApiGetBids (e : GetBidsError).

Definition api_error_display (e : ApiError) : string :=
  match e with
  | ApiGetHeader e => get_header_error_display e
  | ApiPostBlindedBlock e => blinded_block_err_display e
  | ApiPostBids e => post_bids_error_display e
  | ApiGetBids e => get_bids_error_display e
  end.

Section handle.
(** The [Debug] form of a rejection, which warp derives. *)
Context (rejection_debug : Rejection -> string).

Definition handle_rejection (err : Rejection) : ErrorReply :=
  match find_cause as_get_header err with
  | Some e => mkErrorReply (api_error_display (ApiGetHeader e)) BAD_REQUEST
  | None =>
  match find_cause as_blinded err with
  | Some e => mkErrorReply (api_error_display (ApiPostBlindedBlock e)) BAD_REQUEST
  | None =>
  match find_cause as_post_bids err with
  | Some e => mkErrorReply (api_error_display (ApiPostBids e)) BAD_REQUEST
  | None =>
  match find_cause as_get_bids err with
  | Some e => mkErrorReply (api_error_display (ApiGetBids e)) BAD_REQUEST
  | None => mkErrorReply ("Error: " +:+ rejection_debug err) INTERNAL_SERVER_ERROR
  end end end end.
End handle.

(** The causes the handler recognises. *)
Definition is_api_cause (c : Cause) : bool :=
  match c with
  | CGetHeader _ | CPostBlindedBlock _ | CPostBids _ | CGetBids _ => true
  | CConversion _ | CWarp _ => false
  end.

Lemma find_cause_None {T} (as_ : Cause -> option T) r :
  find_cause as_ r = None <-> Forall (fun c => as_ c = None) r.
Proof.
  unfold find_cause. induction r as [|c r IH]; simpl; [done |].
  rewrite Forall_cons, <-IH. destruct (as_ c); simpl; naive_solver.
Qed.

Lemma find_cause_singleton {T} (as_ : Cause -> option T) c : find_cause as_ [c] = as_ c.
Proof. unfold find_cause; simpl. by destruct (as_ c). Qed.
End errors.

Section main.
Context {X : Ext}.

(** Every rejection is answered: with status 400 and the message of the error when a route
    raised one of its own errors, and with status 500 otherwise, which includes an unknown
    path, an undecodable body, a refused API key and a bid with too many commitments. *)
Theorem handle_rejection_status debug (err : Rejection) :
  er_status (handle_rejection debug err) =
    (if existsb is_api_cause err then BAD_REQUEST else INTERNAL_SERVER_ERROR) /\
  (forall c, is_api_cause c = true -> er_json (handle_rejection debug [c]) =
     match c with
     | CGetHeader e => get_header_error_display e
     | CPostBlindedBlock e => blinded_block_err_display e
     | CPostBids e => post_bids_error_display e
     | CGetBids e => get_bids_error_display e
     | _ => EmptyString
     end).
Proof.
  split; [|by intros []]. unfold handle_rejection.
  destruct (existsb is_api_cause err) eqn:Hex.
  - apply existsb_exists in Hex as (c & Hin%list_elem_of_In & Hc).
    destruct (find_cause as_get_header err) eqn:H1; [done |].
    destruct (find_cause as_blinded err) eqn:H2; [done |].
    destruct (find_cause as_post_bids err) eqn:H3; [done |].
    destruct (find_cause as_get_bids err) eqn:H4; [done |]. exfalso.
    rewrite find_cause_None, Forall_forall in H1. rewrite find_cause_None, Forall_forall in H2.
    rewrite find_cause_None, Forall_forall in H3. rewrite find_cause_None, Forall_forall in H4.
    specialize (H1 c Hin); specialize (H2 c Hin); specialize (H3 c Hin); specialize (H4 c Hin).
    by destruct c.
  - assert (forall T (as_ : Cause -> option T),
      (forall c, is_api_cause c = false -> as_ c = None) -> find_cause as_ err = None) as Hnone.
    { intros T as_ Has. apply find_cause_None, Forall_forall. intros c Hin. apply Has.
      apply not_true_is_false. intros Hc. rewrite <-not_true_iff_false in Hex. apply Hex.
      apply existsb_exists. exists c. split; [by apply list_elem_of_In | done]. }
    rewrite !Hnone by (by intros []). done.
Qed.
End main.
