(* ===== verification/Warp.v ===== *)
(** What the HTTP server uses of warp: filters and their combinators, as an interface.

    A filter is abstract; [serve] is what it does with a request.  [WarpLaws] states the
    documented behaviour of each combinator the sources call: a path or a method that does not
    match is a rejection without effects, [and] stops at the first rejection, [or] tries its
    second filter when the first rejects and then carries the causes of both, [and_then] runs a
    handler, [recover] turns a rejection into a reply.  The decoders of queries and bodies are
    known by their answers. *)

From S2P Require Import Prelude Prog External Types HttpErrors.

(** A request as the server receives it: the path is the list of its segments. *)
Record ServerRequest : Type := mkServerRequest {
  sq_method : string;
  sq_path : list string;
  sq_query : string;
  sq_headers : list (string * string);
  sq_body : string
}.

(** A header, by its lower-case name. *)
Definition header_value (name : string) (rq : ServerRequest) : option string :=
  snd <$> List.find (fun h => bool_decide (h.1 = name)) (sq_headers rq).

(** The length a request declares. *)
Definition content_length (rq : ServerRequest) : option u64 :=
  header_value "content-length" rq ≫= u64_from_str.

Section warp.
Context `{Ext}.

(** The causes warp raises itself. *)
Definition warp_cause (c : Cause) : Prop := is_api_cause c = false.
Definition only_warp (r : Rejection) : Prop := Forall warp_cause r.

Class WarpCauses := {
  method_not_allowed : Cause;
  length_required : Cause;
  payload_too_large : Cause;
  warp_causes : only_warp [method_not_allowed; length_required; payload_too_large]
}.

Context `{!WarpCauses}.

(** What [warp::body::content_length_limit] checks. *)
Definition length_check (limit : Z) (rq : ServerRequest) : result unit Cause :=
  match content_length rq with
  | None => Err length_required
  | Some n => if (n <=? limit)%Z then Ok tt else Err payload_too_large
  end.

Class Warp (E : Type -> Type) := {
  Filter : Type -> Type;
  serve : forall {A}, Filter A -> ServerRequest -> prog E (result A Rejection);
  (** [warp::path!]: the whole path, its parameters parsed *)
  path_macro : forall {A}, (list string -> option A) -> Filter A;
  post : Filter unit;
  get : Filter unit;
  (** [warp::query], [warp::body::json], [warp::body::content_length_limit] *)
  query : forall {T}, (ServerRequest -> result T Cause) -> Filter T;
  body_json : forall {T}, (ServerRequest -> result T Cause) -> Filter T;
  content_length_limit : Z -> Filter unit;
  (** [warp::any().map(move || value.clone())] *)
  any_map : forall {A}, A -> Filter A;
  and : forall {A B}, Filter A -> Filter B -> Filter (A * B);
  and_then : forall {A B}, Filter A -> (A -> prog E (result B Rejection)) -> Filter B;
  or : forall {A}, Filter A -> Filter A -> Filter A;
  recover : forall {A}, Filter A -> (Rejection -> A) -> Filter A;
  (** [.with(warp::cors().allow_any_origin())] *)
  with_cors_any_origin : forall {A}, Filter A -> Filter A
}.

Arguments Filter E {_} _.

Definition of_cause {A} (r : result A Cause) : result A Rejection := map_err (fun c => [c]) r.

Class WarpLaws (E : Type -> Type) `{!Warp E} : Prop := {
  law_path : forall A (f : list string -> option A) rq,
    serve (path_macro (E:=E) f) rq ≡ Ret (ok_or (f (sq_path rq)) reject);
  law_post : forall rq, serve (post (E:=E)) rq ≡
    Ret (if (sq_method rq =? "POST")%string then Ok tt else Err [method_not_allowed]);
  law_get : forall rq, serve (get (E:=E)) rq ≡
    Ret (if (sq_method rq =? "GET")%string then Ok tt else Err [method_not_allowed]);
  law_query : forall T (decode : ServerRequest -> result T Cause) rq,
    serve (query (E:=E) decode) rq ≡ Ret (of_cause (decode rq));
  law_body_json : forall T (decode : ServerRequest -> result T Cause) rq,
    serve (body_json (E:=E) decode) rq ≡ Ret (of_cause (decode rq));
  law_length : forall limit rq,
    serve (content_length_limit (E:=E) limit) rq ≡ Ret (of_cause (length_check limit rq));
  law_any_map : forall A (a : A) rq, serve (any_map (E:=E) a) rq ≡ Ret (Ok a);
  law_and : forall A B (f : Filter E A) (g : Filter E B) rq,
    serve (and f g) rq ≡ let!? a := serve f rq in let!? b := serve g rq in Ret (Ok (a, b));
  law_and_then : forall A B (f : Filter E A) (h : A -> prog E (result B Rejection)) rq,
    serve (and_then f h) rq ≡ let!? a := serve f rq in h a;
  law_or : forall A (f g : Filter E A) rq,
    serve (or f g) rq ≡ let! r := serve f rq in
      match r with
      | Ok a => Ret (Ok a)
      | Err e => let! r' := serve g rq in Ret (map_err (fun e' => e ++ e') r')
      end;
  law_recover : forall A (f : Filter E A) h rq,
    serve (recover f h) rq ≡ let! r := serve f rq in
      Ret (match r with Ok a => Ok a | Err e => Ok (h e) end);
  (** a request without an [Origin] header is not a CORS request *)
  law_cors : forall A (f : Filter E A) rq,
    header_value "origin" rq = None -> serve (with_cors_any_origin f) rq ≡ serve f rq
}.
End warp.
Arguments Filter {_} E {_} _.
#[global] Hint Mode Warp - ! : typeclass_instances.
