(* ===== verification/PostBids.v ===== *)
(** The HTTP API of the builders, [crates/http/src/server/builder_api/]: the submission of a
    bid ([post_bids.rs]) and the list of the duties ([get_validators.rs]). *)

From S2P Require Import Prelude Prog External Types Blst Signer BeaconTypes StorageTypes Storage.
From S2P Require Import BidSpec HttpErrors.

Section builder_api.
Context `{Ext} {E : Type -> Type} `{!Storage E} `{!BuildProfile}.

(** [GET /relay/v1/builder/validators] *)
Definition get_validators : prog E (result (list Validator) Rejection) :=
  let! duties := st_read_proposer_duties in
  Ret (Ok duties).

Definition http_is_bid_higher (bid : BidTrace) : prog E bool :=
  let slot := bt_slot bid in
  let parent_hash := bt_parent_hash bid in
  let proposer := bt_proposer_pubkey bid in
  let! current := st_read_best_bid slot parent_hash proposer in
  match current with
  | Some current_best => Ret (bid_gt bid (bs_message current_best))
  | None => Ret true
  end.

(** [POST /relay/v1/builder/blocks]; the reply is the status. *)
Definition post_bids (submission : BidSubmission) : prog E (result Z Rejection) :=
  let fail e := Ret (Err (reject_custom (CPostBids e))) in
  let bid := bs_message submission in
  let! higher := http_is_bid_higher bid in
  if negb higher then fail BelowFloor else
  if u256_is_zero (bt_value bid) then fail ZeroBid else
  let! whitelisted := st_is_whitelisted_builder (bt_builder_pubkey bid) in
  if negb whitelisted then fail UnauthorizedBuilder else
  let! head_slot := st_read_head_slot in
  let! next := lift (is_next_slot head_slot (bt_slot bid)) in
  if negb next then fail PastSlotSubmission else
  let execution_payload := bs_execution_payload submission in
  let! attrs := st_read_payload_attributes in
  match validate_bid attrs (bt_slot bid) (ep_prev_randao execution_payload) with
  | Err error_message => fail (InvalidPayloadAttrs (validation_error_display error_message))
  | Ok _ =>
      let! duty := st_find_duty_by_slot (bt_slot bid) in
      match duty with
      | None => fail DutyNotFound
      | Some duty =>
          let! fork_data := st_fork_data in
          let builder_domain := compute_builder_domain fork_data in
          let is_verified := bid_verify_signature bid (bs_signature submission) builder_domain in
          if negb is_verified then fail InvalidBidSignature else
          let slot := bt_slot bid in
          let submission := mkBidSubmission bid execution_payload (bs_blobs_bundle submission)
                              (bs_signature submission) in
          let blinded_block_response := to_blinded_block_response submission in
          do! st_set_best_bid slot submission;
          do! st_set_blinded_block_response (rm_pubkey (vr_message (v_entry duty)))
                blinded_block_response;
          Ret (Ok OK)
      end
  end.
End builder_api.

(** * Properties *)

Section laws.
Context {X : Ext} `{!BuildProfile}.
Context {E : Type -> Type} {St : Storage E} {S : Type} (step : forall A, E A -> S -> A * S)
  (abs : S -> StoreState) {F : Type} (frame : S -> F) {L : StorageLaws step abs frame}.
Implicit Types s : S.

(** The verdict on a submission, as a list of checks in the order of the code: each pairs a
    condition with the error returned when it is the first to fail. *)
Definition bid_checks (st : StoreState) (sub : BidSubmission) : list (bool * PostBidsError) :=
  let bid := bs_message sub in
  [(beats_best_b st bid, BelowFloor);
   ((0 <? u256_val (bt_value bid))%Z, ZeroBid);
   (sto_is_whitelisted (bt_builder_pubkey bid) st, UnauthorizedBuilder);
   ((bt_slot bid =? hs_slot (sto_head st) + 1)%Z, PastSlotSubmission);
   ((pa_proposal_slot (sto_attrs st) =? bt_slot bid)%Z,
     InvalidPayloadAttrs (validation_error_display VSlot));
   (bool_decide (prev_randao (sto_attrs st) = ep_prev_randao (bs_execution_payload sub)),
     InvalidPayloadAttrs (validation_error_display VPrevRandao));
   (bool_decide (is_Some (sto_find_duty (bt_slot bid) st)), DutyNotFound);
   (bid_verify_signature bid (bs_signature sub) (compute_builder_domain (sto_fork st)),
     InvalidBidSignature)].

Fixpoint first_failure {A} (checks : list (bool * A)) : option A :=
  match checks with
  | [] => None
  | (true, _) :: l => first_failure l
  | (false, e) :: _ => Some e
  end.

Lemma first_failure_None {A} (l : list (bool * A)) :
  first_failure l = None <-> Forall (fun c => c.1 = true) l.
Proof.
  induction l as [|[[] e] l IH]; simpl; [done | |].
  - rewrite Forall_cons, IH. naive_solver.
  - rewrite Forall_cons. naive_solver.
Qed.

(** No check fails exactly when the storage admits the bid. *)
Lemma bid_checks_admissible st sub :
  first_failure (bid_checks st sub) = None <->
  exists duty, admissible (sto_fork st) st (bs_message sub)
                 (ep_prev_randao (bs_execution_payload sub)) (bs_signature sub) duty.
Proof.
  rewrite first_failure_None. unfold bid_checks. rewrite !Forall_cons, Forall_nil. simpl.
  rewrite beats_best_b_spec, Z.ltb_lt, sto_is_whitelisted_spec, !Z.eqb_eq, !bool_decide_eq_true.
  split.
  - intros (Hb & Hv & Hw & Hs & Ha & Hr & [duty Hd] & Hver & _). exists duty.
    split; done.
  - intros [duty [Hb [Hv Hw Hver] Hs Ha Hr Hd]]. by rewrite Hd.
Qed.

(** The handler returns the error of the first check that fails and changes nothing, or
    stores the submission. *)
Lemma post_bids_run sub s :
  (hs_slot (sto_head (abs s)) < u64_max)%Z ->
  match first_failure (bid_checks (abs s) sub) with
  | Some e => run step (post_bids sub) s = (Val (Err [CPostBids e]), s)
  | None => exists duty s',
      sto_find_duty (bt_slot (bs_message sub)) (abs s) = Some duty /\
      run step (post_bids sub) s = (Val (Ok OK), s') /\
      abs s' = accept_bid sub duty (abs s) /\ frame s' = frame s
  end.
Proof.
  intros Hhead. unfold post_bids, http_is_bid_higher, bid_checks, beats_best_b.
  set (bid := bs_message sub).
  rewrite run_bind. run_read.
  assert (forall o : option BidSubmission,
    run step match o with
      | Some current_best => Ret (bid_gt bid (bs_message current_best))
      | None => Ret true end s =
    (Val (match o with Some best => (bid_value best <? u256_val (bt_value bid))%Z
          | None => true end), s)) as ->.
  { intros [best|]; simpl; [|done]. by rewrite bid_gt_ltb. }
  destruct (match sto_read_best _ _ _ _ with Some _ => _ | None => _ end); [|done]. simpl negb.
  cbv iota. unfold u256_is_zero. cbn [first_failure].
  pose proof (uint_range (u256_0 (bt_value bid))) as Hrange. fold (u256_val (bt_value bid)) in *.
  destruct (Z.eqb_spec (u256_val (bt_value bid)) 0) as [Hz|Hz].
  { by rewrite Hz. }
  rewrite (proj2 (Z.ltb_lt 0 (u256_val (bt_value bid)))) by lia.
  run_read. destruct (sto_is_whitelisted _ _); [|done]. simpl negb. cbv iota.
  run_read. rewrite is_next_slot_spec, (Z.eqb_sym (hs_slot _ + 1)) by done.
  simpl lift. simpl bind. destruct (bt_slot bid =? hs_slot (sto_head (abs s)) + 1)%Z;
    [|done]. simpl negb. cbv iota.
  run_read. unfold validate_bid. 
  destruct (pa_proposal_slot (sto_attrs (abs s)) =? bt_slot bid)%Z; [|done]. simpl negb.
  cbv iota. destruct (bool_decide (prev_randao _ = _)); [|done]. simpl negb. cbv iota.
  run_read. destruct (sto_find_duty _ _) as [duty|] eqn:Hduty; [|done].
  run_read. destruct (bid_verify_signature _ _ _); [|done]. simpl negb. cbv iota.
  cbn [bool_decide]. simpl.
  run_write frame s1 Ha1 Hf1. run_write frame s2 Ha2 Hf2.
  exists duty, s2. split; [done |]. split; [done |]. split; [|congruence].
  rewrite Ha2, Ha1. by destruct sub.
Qed.
End laws.

(** * Safety under interleaving *)

Section safety.
Context {X : Ext} `{!BuildProfile}.
Context {E : Type -> Type} {St : Storage E} {S : Type} (step : forall A, E A -> S -> A * S)
  (abs : S -> StoreState) {F : Type} (frame : S -> F) (J : S -> Prop)
  {L : StorageAtomic step abs frame J}.
Context (builders : list BlsPublicKey) (fork : ForkDatas).
Abbreviation I := (fun s => J s /\ bids_authentic builders fork (abs s)).

Lemma http_is_bid_higher_safe bid (Q : bool -> Prop) :
  (forall b, Q b) -> safe step I Q (http_is_bid_higher bid).
Proof.
  intros HQ. unfold http_is_bid_higher. safe_read. intros a _.
  destruct (sto_read_best _ _ _ _); apply HQ.
Qed.

Lemma post_bids_safe sub : safe step I (fun _ => True) (post_bids sub).
Proof.
  unfold post_bids, u256_is_zero. set (bid := bs_message sub).
  apply safe_bind, http_is_bid_higher_safe. intros []; [simpl negb; cbv iota | done].
  pose proof (uint_range (u256_0 (bt_value bid))) as Hrange. fold (u256_val (bt_value bid)) in *.
  destruct (Z.eqb_spec (u256_val (bt_value bid)) 0); [done |].
  safe_read. intros a Ha.
  destruct (sto_is_whitelisted _ a) eqn:Hw; simpl negb; cbv iota; [|done].
  apply sto_is_whitelisted_spec in Hw. rewrite (ba_builders _ _ _ Ha) in Hw.
  safe_read. intros a1 _.
  apply safe_bind, safe_lift. intros [] _; simpl negb; cbv iota; [|done].
  safe_read. intros a2 _. destruct (validate_bid _ _ _); [|done].
  safe_read. intros a3 _. destruct (sto_find_duty _ _) as [duty|]; [|done].
  safe_read. intros a4 Ha4. rewrite (ba_fork _ _ _ Ha4).
  destruct (bid_verify_signature _ _ _) eqn:Hver; simpl negb; cbv iota; [|done].
  assert (authentic_submission builders fork sub) as Hauth by (split; [fold bid; lia | exact Hw | exact Hver]).
  destruct sub as [msg payload blobs sig].
  safe_write; [intros; by apply (ba_set_best _ _ _ (mkBidSubmission msg payload blobs sig)) |].
  safe_write; [|done]. intros.
  by apply (ba_set_blinded _ _ _ _ (mkBidSubmission msg payload blobs sig)).
Qed.
End safety.

Section main.
Context {X : Ext} `{!BuildProfile}.
Context {E : Type -> Type} {St : Storage E} {S : Type} (step : forall A, E A -> S -> A * S)
  (abs : S -> StoreState) {F : Type} (frame : S -> F) {L : StorageLaws step abs frame}.

(** C3: over any storage that meets the contract, the HTTP submission returns the error of the
    first of its eight checks that fails and leaves the state exactly as it was; when none
    fails it answers OK and stores the submission and, under the key of the first duty of the
    slot, its payload. *)
Theorem post_bids_correct sub s :
  (hs_slot (sto_head (abs s)) < u64_max)%Z ->
  match first_failure (bid_checks (abs s) sub) with
  | Some e => run step (post_bids sub) s = (Val (Err [CPostBids e]), s)
  | None => exists duty s',
      sto_find_duty (bt_slot (bs_message sub)) (abs s) = Some duty /\
      run step (post_bids sub) s = (Val (Ok OK), s') /\
      abs s' = accept_bid sub duty (abs s) /\ frame s' = frame s
  end.
Proof. by apply (post_bids_run step abs frame). Qed.
End main.
