(* ===== verification/GrpcServer.v ===== *)
(** The gRPC server and client of [crates/grpc/src/gen/mevrelay.rs] (the committed output of
    tonic's generator) and the start of the server, [crates/grpc/src/server.rs].

    tonic itself is a parameter ([Tonic]): its per-call objects with their configuration, the
    transport, and the codec.  [TonicLaws] states what it documents of a client whose channel
    leads to a service in the same process. *)

From S2P Require Import Prelude Prog External Types Blst Signer BeaconTypes StorageTypes Storage.
From S2P Require Import Grpc.

(** The status codes of gRPC the sources use. *)
Inductive Code : Type := CodeInvalidArgument | CodeUnknown | CodeOther (code : Z).

Record GrpcStatus : Type := mkGrpcStatus { gs_code : Code; gs_message : string }.

(** The status the service raises, as the client sees it. *)
Definition status_of (s : Status) : GrpcStatus :=
  match s with InvalidArgument message => mkGrpcStatus CodeInvalidArgument message end.

(** [http::Response] as the generated code builds it. *)
Record GrpcResponse (Body : Type) : Type := mkGrpcResponse {
  gr_status : Z;
  gr_headers : list (string * string);
  gr_body : Body
}.
Arguments mkGrpcResponse {Body}.

(** tonic's types, and the operations on them that have no effects. *)
Class TonicTypes := {
  CompressionEncoding : Type;
  EnabledCompressionEncodings : Type;
  no_encodings : EnabledCompressionEncodings;
  enable : EnabledCompressionEncodings -> CompressionEncoding -> EnabledCompressionEncodings;
  (** [http::Request<B>] *)
  HttpReq : Type;
  uri_path : HttpReq -> string;
  BoxBody : Type;
  empty_body : BoxBody;
  (** the client's channel, [tonic::client::Grpc<T>] over it, and its configuration *)
  Channel : Type;
  Endpoint : Type;
  Origin : Type;
  ClientGrpc : Type;
  client_new : Channel -> ClientGrpc;
  client_with_origin : Channel -> Origin -> ClientGrpc;
  client_send_compressed : ClientGrpc -> CompressionEncoding -> ClientGrpc;
  client_accept_compressed : ClientGrpc -> CompressionEncoding -> ClientGrpc;
  client_max_decoding : ClientGrpc -> N -> ClientGrpc;
  client_max_encoding : ClientGrpc -> N -> ClientGrpc
}.

Class Tonic `{!TonicTypes} (E : Type -> Type) := {
  (** [tonic::server::Grpc<ProstCodec>::unary], with the two sets of encodings and the two
      message sizes it was configured with *)
  server_unary :
    EnabledCompressionEncodings -> EnabledCompressionEncodings -> option N -> option N ->
    (SubmitBlockRequest -> prog E (result SubmitBlockResponse Status)) -> HttpReq ->
    prog E (GrpcResponse BoxBody);
  channel_connect : Endpoint -> prog E (result Channel string);
  client_ready : ClientGrpc -> prog E (result unit string);
  (** the request, the extension that names the method, and the path *)
  client_unary : ClientGrpc -> SubmitBlockRequest -> string * string -> string ->
    prog E (result SubmitBlockResponse GrpcStatus);
  (** [tonic::transport::Server::builder().add_service(service).serve(addr)]: the services by
      their names *)
  transport_serve : list (string * (HttpReq -> prog E (GrpcResponse BoxBody))) -> string ->
    prog E (result unit string)
}.
#[global] Hint Mode Tonic - ! : typeclass_instances.

Section grpc_server.
Context `{!TonicTypes} {E : Type -> Type} `{!Tonic E}.

(** ** The generated server *)

(** The trait [MevRelay]: an implementation is its method. *)
Definition MevRelay : Type := SubmitBlockRequest -> prog E (result SubmitBlockResponse Status).

Record MevRelayServer : Type := mkMevRelayServer {
  ms_inner : MevRelay;
  ms_accept_compression_encodings : EnabledCompressionEncodings;
  ms_send_compression_encodings : EnabledCompressionEncodings;
  ms_max_decoding_message_size : option N;
  ms_max_encoding_message_size : option N
}.

Definition MevRelayServer_from_arc (inner : MevRelay) : MevRelayServer :=
  mkMevRelayServer inner no_encodings no_encodings None None.

Definition MevRelayServer_new (inner : MevRelay) : MevRelayServer :=
  MevRelayServer_from_arc inner.

Definition server_accept_compressed (self : MevRelayServer) (encoding : CompressionEncoding) :
  MevRelayServer :=
  mkMevRelayServer (ms_inner self) (enable (ms_accept_compression_encodings self) encoding)
    (ms_send_compression_encodings self) (ms_max_decoding_message_size self)
    (ms_max_encoding_message_size self).

Definition server_send_compressed (self : MevRelayServer) (encoding : CompressionEncoding) :
  MevRelayServer :=
  mkMevRelayServer (ms_inner self) (ms_accept_compression_encodings self)
    (enable (ms_send_compression_encodings self) encoding) (ms_max_decoding_message_size self)
    (ms_max_encoding_message_size self).

Definition server_max_decoding_message_size (self : MevRelayServer) (limit : N) :
  MevRelayServer :=
  mkMevRelayServer (ms_inner self) (ms_accept_compression_encodings self)
    (ms_send_compression_encodings self) (Some limit) (ms_max_encoding_message_size self).

Definition server_max_encoding_message_size (self : MevRelayServer) (limit : N) :
  MevRelayServer :=
  mkMevRelayServer (ms_inner self) (ms_accept_compression_encodings self)
    (ms_send_compression_encodings self) (ms_max_decoding_message_size self) (Some limit).

Definition MevRelayServer_clone (self : MevRelayServer) : MevRelayServer :=
  mkMevRelayServer (ms_inner self) (ms_accept_compression_encodings self)
    (ms_send_compression_encodings self) (ms_max_decoding_message_size self)
    (ms_max_encoding_message_size self).

Definition NAME : string := "mevrelay.MevRelay".

(** [Service::call]: an unknown method is answered 200 with the gRPC status 12,
    unimplemented. *)
Definition server_call (self : MevRelayServer) (req : HttpReq) : prog E (GrpcResponse BoxBody) :=
  let inner := ms_inner self in
  if (uri_path req =? "/mevrelay.MevRelay/SubmitBlock")%string then
    server_unary (ms_accept_compression_encodings self) (ms_send_compression_encodings self)
      (ms_max_decoding_message_size self) (ms_max_encoding_message_size self) inner req
  else
    Ret (mkGrpcResponse 200 [("grpc-status", "12"); ("content-type", "application/grpc")]
           empty_body).

(** ** The generated client *)

Record MevRelayClient : Type := mkMevRelayClient { mc_inner : ClientGrpc }.

Definition MevRelayClient_new (inner : Channel) : MevRelayClient :=
  let inner := client_new inner in mkMevRelayClient inner.

Definition MevRelayClient_with_origin (inner : Channel) (origin : Origin) : MevRelayClient :=
  let inner := client_with_origin inner origin in mkMevRelayClient inner.

Definition MevRelayClient_connect (dst : Endpoint) : prog E (result MevRelayClient string) :=
  let!? conn := channel_connect dst in Ret (Ok (MevRelayClient_new conn)).

Definition client_self_send_compressed (self : MevRelayClient) (encoding : CompressionEncoding) :
  MevRelayClient := mkMevRelayClient (client_send_compressed (mc_inner self) encoding).

Definition client_self_accept_compressed (self : MevRelayClient)
    (encoding : CompressionEncoding) : MevRelayClient :=
  mkMevRelayClient (client_accept_compressed (mc_inner self) encoding).

Definition client_self_max_decoding (self : MevRelayClient) (limit : N) : MevRelayClient :=
  mkMevRelayClient (client_max_decoding (mc_inner self) limit).

Definition client_self_max_encoding (self : MevRelayClient) (limit : N) : MevRelayClient :=
  mkMevRelayClient (client_max_encoding (mc_inner self) limit).

Definition client_submit_block (self : MevRelayClient) (request : SubmitBlockRequest) :
  prog E (result SubmitBlockResponse GrpcStatus) :=
  let! ready := client_ready (mc_inner self) in
  match ready with
  | Err e => Ret (Err (mkGrpcStatus CodeUnknown ("Service was not ready: " +:+ e)))
  | Ok _ =>
      let path := "/mevrelay.MevRelay/SubmitBlock" in
      client_unary (mc_inner self) request ("mevrelay.MevRelay", "SubmitBlock") path
  end.

(** ** The start of the server *)

Context `{Ext} `{!Storage E} `{!BuildProfile}.

Definition GrpcServer_start (url : string) (fork_data : ForkDatas) : prog E unit :=
  let service := MevRelayServer_new (submit_block (mkRelayService fork_data)) in
  let! r := transport_serve [(NAME, server_call service)] url in
  match r with
  | Ok _ => Ret tt
  | Err e => Panic ("called `Result::unwrap()` on an `Err` value: " +:+ e)
  end.
End grpc_server.

(** * What tonic documents *)

Section laws.
Context `{!TonicTypes} {E : Type -> Type} `{!Tonic E}.

(** The codec and the framing of a call, both ways, and a channel that leads to a service. *)
Record Loopback : Type := {
  lb_channel : (HttpReq -> prog E (GrpcResponse BoxBody)) -> Channel;
  lb_request : ClientGrpc -> SubmitBlockRequest -> string -> HttpReq;
  lb_decode : HttpReq -> option SubmitBlockRequest;
  lb_response : result SubmitBlockResponse GrpcStatus -> GrpcResponse BoxBody;
  lb_read : GrpcResponse BoxBody -> result SubmitBlockResponse GrpcStatus;
  (** the messages the sizes of the configuration let through *)
  lb_fits : SubmitBlockRequest -> Prop
}.

Class TonicLaws (lb : Loopback) : Prop := {
  (** the path of a call is the one the client was given *)
  law_request_path : forall c m path, uri_path (lb_request lb c m path) = path;
  (** the codec round-trips, within the default sizes *)
  law_decode : forall c m path, lb_fits lb m -> lb_decode lb (lb_request lb c m path) = Some m;
  law_read : forall r, lb_read lb (lb_response lb r) = r;
  (** a response without a message is read from its [grpc-status] header *)
  law_read_unimplemented : exists m, lb_read lb (mkGrpcResponse 200
    [("grpc-status", "12"); ("content-type", "application/grpc")] empty_body) =
    Err (mkGrpcStatus (CodeOther 12) m);
  law_ready : forall svc, client_ready (E:=E) (client_new (lb_channel lb svc)) ≡ Ret (Ok tt);
  (** a unary call sends the encoded message to the service and reads the response *)
  law_client_unary : forall svc m method path,
    client_unary (E:=E) (client_new (lb_channel lb svc)) m method path ≡
    let! resp := svc (lb_request lb (client_new (lb_channel lb svc)) m path) in
    Ret (lb_read lb resp);
  (** the unary server decodes the message, runs the method, and encodes its answer *)
  law_server_unary : forall f rq m,
    lb_decode lb rq = Some m ->
    server_unary (E:=E) no_encodings no_encodings None None f rq ≡
    let! r := f m in Ret (lb_response lb (map_err status_of r))
}.

Context (lb : Loopback) {L : TonicLaws lb}.

Lemma server_call_submit_block (svc : MevRelay (E:=E)) m c :
  lb_fits lb m ->
  server_call (MevRelayServer_new svc) (lb_request lb c m "/mevrelay.MevRelay/SubmitBlock") ≡
  let! r := svc m in Ret (lb_response lb (map_err status_of r)).
Proof.
  intros Hm. unfold server_call. rewrite law_request_path. simpl.
  by rewrite law_server_unary by by apply law_decode.
Qed.

(** A client whose channel leads to the generated server of [svc]. *)
Definition connected_client (svc : MevRelay (E:=E)) : MevRelayClient :=
  MevRelayClient_new (lb_channel lb (server_call (MevRelayServer_new svc))).

Lemma client_submit_block_reaches (svc : MevRelay (E:=E)) m :
  lb_fits lb m ->
  client_submit_block (connected_client svc) m ≡ let! r := svc m in Ret (map_err status_of r).
Proof.
  intros Hm. unfold client_submit_block, connected_client, MevRelayClient_new. cbn [mc_inner].
  rewrite law_ready. cbn [bind]. rewrite law_client_unary.
  rewrite server_call_submit_block, bind_assoc by done.
  apply bind_proper; [done |]. intros r. cbn [bind]. by rewrite law_read.
Qed.
End laws.

Section main.
Context `{!TonicTypes} {E : Type -> Type} `{!Tonic E}.

(** C19: a call of the generated client on a channel to the generated server is a call of the
    service: the two agree on the path and the method, the message arrives as it was sent, the
    method runs once with its effects, and its answer or its status comes back; on any other
    path the server calls nothing and the client reads the status unimplemented.  This is for
    messages within the size limits of the transport ([lb_fits]). *)
Theorem grpc_client_reaches_service lb {L : TonicLaws lb} (svc : MevRelay (E:=E)) m :
  lb_fits lb m ->
  let channel := lb_channel lb (server_call (MevRelayServer_new svc)) in
  client_submit_block (MevRelayClient_new channel) m ≡
    (let! r := svc m in Ret (map_err status_of r)) /\
  forall method path, path <> "/mevrelay.MevRelay/SubmitBlock"%string ->
    exists msg, client_unary (E:=E) (client_new channel) m method path ≡
      Ret (Err (mkGrpcStatus (CodeOther 12) msg)).
Proof.
  intros Hm channel. split.
  - by apply client_submit_block_reaches.
  - intros method path Hpath. destruct law_read_unimplemented as [msg Hmsg]. exists msg.
    unfold channel. rewrite law_client_unary. unfold server_call at 1. rewrite law_request_path.
    apply String.eqb_neq in Hpath. rewrite Hpath. cbn [bind]. by rewrite Hmsg.
Qed.
End main.
