(* ===== verification/Builders.v ===== *)
(** The two APIs of the builders side by side: gRPC ([crates/grpc/src/service/mod.rs]) and HTTP
    ([crates/http/src/server/builder_api/post_bids.rs]) run the same rules, and requests served
    one after the other only improve the best bids. *)

From S2P Require Import Prelude Prog External Types Blst Signer BeaconTypes StorageTypes Storage.
From S2P Require Import BidSpec HttpErrors Grpc PostBids.

Section builders.
Context {X : Ext} `{!BuildProfile}.
Context {E : Type -> Type} {St : Storage E} {S : Type} (step : forall A, E A -> S -> A * S)
  (abs : S -> StoreState) {F : Type} (frame : S -> F) {L : StorageLaws step abs frame}.
Implicit Types s : S.

(** A request of a builder, and the task that serves it with the fork data [fork]. *)
Inductive BuilderRequest : Type :=
| ViaGrpc (req : SubmitBlockRequest)
| ViaHttp (sub : BidSubmission).

Definition serve (fork : ForkDatas) (r : BuilderRequest) : prog E unit :=
  match r with
  | ViaGrpc req => discard (submit_block (mkRelayService fork) req)
  | ViaHttp sub => discard (post_bids sub)
  end.

(** Requests served one after the other. *)
Definition serve_all (fork : ForkDatas) (rs : list BuilderRequest) (s : S) : S :=
  fold_left (fun s r => (run step (serve fork r) s).2) rs s.

Lemma run_discard {A} (p : prog E A) s : (run step (discard p) s).2 = (run step p s).2.
Proof. unfold discard. rewrite run_bind. by destruct (run step p s) as [[] ?]. Qed.

(** One request keeps the head slot and the best bids, or accepts an admissible bid. *)
Lemma serve_step fork r s :
  (hs_slot (sto_head (abs s)) < u64_max)%Z ->
  let s' := (run step (serve fork r) s).2 in
  abs s' = abs s \/
  exists sub duty fork', abs s' = accept_bid sub duty (abs s) /\
    admissible fork' (abs s) (bs_message sub) (ep_prev_randao (bs_execution_payload sub))
      (bs_signature sub) duty.
Proof.
  intros Hhead s'. subst s'. destruct r as [req|sub]; simpl; rewrite run_discard.
  - pose proof (submit_block_run step abs frame (mkRelayService fork) req s Hhead) as Hrun.
    simpl in Hrun. destruct (grpc_verdict fork (abs s) req) as [[[sub duty]|a]|m] eqn:Hv;
      [right | left; by rewrite Hrun..].
    destruct Hrun as (s' & -> & Ha & _). apply grpc_verdict_ok in Hv as [_ Had].
    by exists sub, duty, fork.
  - pose proof (post_bids_run step abs frame sub s Hhead) as Hrun.
    destruct (first_failure _) as [e|] eqn:Hff; [left; by rewrite Hrun |]. right.
    destruct Hrun as (duty & s' & Hduty & -> & Ha & _). simpl.
    apply bid_checks_admissible in Hff as [duty' Had].
    pose proof (ad_duty _ _ _ _ _ _ Had). assert (duty' = duty) as -> by congruence.
    by exists sub, duty, (sto_fork (abs s)).
Qed.

Lemma serve_all_head fork rs s :
  (hs_slot (sto_head (abs s)) < u64_max)%Z ->
  forall key, (best_value key (abs s) <= best_value key (abs (serve_all fork rs s)))%Z.
Proof.
  revert s; induction rs as [|r rs IH]; intros s Hhead key; [done |]. simpl.
  destruct (serve_step fork r s Hhead) as [Heq|(sub & duty & fork' & Heq & Had)].
  - rewrite <-Heq. apply IH. by rewrite Heq.
  - transitivity (best_value key (abs (run step (serve fork r) s).2)).
    + rewrite Heq. by eapply accept_bid_improves.
    + apply IH. by rewrite Heq.
Qed.

(** C12: served one after the other, over any storage that meets the contract and in any mix of
    the two APIs, submissions never lower the value of the best bid of any key. *)
Theorem best_bids_only_improve fork rs s key :
  (hs_slot (sto_head (abs s)) < u64_max)%Z ->
  (best_value key (abs s) <= best_value key (abs (serve_all fork rs s)))%Z.
Proof. intros. by apply serve_all_head. Qed.

(** A submission that the gRPC verdict refuses fails a check of the HTTP handler. *)
Lemma refused_fails st req sub :
  decodes req sub -> (forall duty, grpc_verdict (sto_fork st) st req <> Val (Ok (sub, duty))) ->
  first_failure (bid_checks st sub) <> None.
Proof.
  intros Hdec Hno [duty Had]%bid_checks_admissible. by apply (Hno duty), grpc_verdict_ok.
Qed.

(** C13: the two APIs are equivalent: for a gRPC request that decodes to a submission, the gRPC
    service answers 200 exactly when the HTTP handler answers OK on that submission, and both
    leave the same storage state. *)
Theorem grpc_http_equivalent req sub s :
  decodes req sub ->
  (hs_slot (sto_head (abs s)) < u64_max)%Z ->
  let g := run step (submit_block (mkRelayService (sto_fork (abs s))) req) s in
  let h := run step (post_bids sub) s in
  (g.1 = Val (Ok (mkSubmitBlockResponse 200 "Success")) <-> h.1 = Val (Ok OK)) /\
  abs g.2 = abs h.2.
Proof.
  intros Hdec Hhead g h. subst g h.
  pose proof (post_bids_run step abs frame sub s Hhead) as Hh.
  pose proof (submit_block_run step abs frame (mkRelayService (sto_fork (abs s))) req s Hhead) as Hg.
  simpl in Hg. destruct (grpc_verdict _ _ _) as [[[sub' duty]|a]|m] eqn:Hv.
  - destruct Hg as (s1 & -> & Ha & _). apply grpc_verdict_ok in Hv as [Hdec' Had].
    rewrite (decodes_inj _ _ _ Hdec Hdec') in *.
    assert (first_failure (bid_checks (abs s) sub) = None) as Hff
      by (apply bid_checks_admissible; by exists duty).
    rewrite Hff in Hh. destruct Hh as (duty' & s2 & Hduty & -> & Ha' & _). simpl.
    pose proof (ad_duty _ _ _ _ _ _ Had) as Hduty'. simpl in Hduty'.
    assert (duty' = duty) as -> by congruence. by rewrite Ha, Ha'.
  - rewrite Hg. assert (first_failure (bid_checks (abs s) sub) <> None) as Hff.
    { apply (refused_fails _ _ _ Hdec). intros duty. by rewrite Hv. }
    destruct (first_failure _) as [e|]; [|done]. rewrite Hh. simpl. split; [|done].
    split; [|done]. intros [= ->]. by destruct (grpc_verdict_not_success _ _ _ _ Hv).
  - rewrite Hg. assert (first_failure (bid_checks (abs s) sub) <> None) as Hff.
    { apply (refused_fails _ _ _ Hdec). intros duty. by rewrite Hv. }
    destruct (first_failure _) as [e|]; [|done]. by rewrite Hh.
Qed.
End builders.
