(* ===== verification/Auth.v ===== *)
(** Authentication of the proposer API, [crates/auth/src/lib.rs], and the check of the API key
    of a request, [proposer_api/post_validators.rs]. *)

From S2P Require Import Prelude Prog External Types HttpErrors World.

(** [Deserialize] and [Serialize] of the JSON forms: derived code, known by its results. *)
Class FromJson (T : Type) := from_json : string -> result T ReqwestError.
Class ToJson (T : Type) := to_json : T -> string.

(** [resp.json::<T>()] *)
Definition response_json {T} `{!FromJson T} (r : HttpResponse) : result T ReqwestError :=
  let? text := rs_text r in from_json text.

Inductive AuthError : Type := RequestError (e : ReqwestError) | InvalidSecret.

Record MbsUser : Type := mkMbsUser { mu_team_id : N; mu_id : N }.
Record SecretBody : Type := mkSecretBody { sb_secret : string }.
Record MbsAuth : Type := mkMbsAuth { ma_url : string }.

(** The trait [Auth]. *)
Class Auth (E : Type -> Type) := validate : string -> prog E (result MbsUser AuthError).

Section auth.
Context `{Ext} {E : Type -> Type} `{!HttpClient E} `{!FromJson MbsUser} `{!ToJson SecretBody}.

(** [MbsAuth::validate] *)
Definition mbs_auth_validate (self : MbsAuth) (secret : string) :
  prog E (result MbsUser AuthError) :=
  let full_url := ma_url self +:+ "get-key" in
  let body := mkSecretBody secret in
  let request := mkHttpRequest POST full_url [] (JsonBody (to_json body)) in
  let! resp := http_send request in
  match resp with
  | Err e => Ret (Err (RequestError e))
  | Ok resp =>
      if (rs_status resp =? 200)%Z then
        Ret (map_err RequestError (response_json resp))
      else
        match rs_text resp with
        | Ok _ => Ret (Err InvalidSecret)
        | Err e => Ret (Err (RequestError e))
        end
  end.
End auth.

Section api_key.
Context `{Ext} {E : Type -> Type} `{!Auth E}.

Record ApiKeyQuery : Type := mkApiKeyQuery { ak_api_key : string }.

Definition validate_api_key (query_param : ApiKeyQuery) : prog E (result string Rejection) :=
  let api_key := ak_api_key query_param in
  let! user := validate api_key in
  match user with
  | Err _ => Ret (Err reject)
  | Ok _ => Ret (Ok api_key)
  end.
End api_key.

Section laws.
Context {X : Ext} `{!FromJson MbsUser} `{!ToJson SecretBody}.

(** A secret is accepted exactly when the service answers 200 with a user. *)
Lemma mbs_auth_validate_run self secret w :
  let req := mkHttpRequest POST (ma_url self +:+ "get-key") []
               (JsonBody (to_json (mkSecretBody secret))) in
  exists r, run_relay (mbs_auth_validate self secret) w = (Val r, w) /\
  forall u, r = Ok u <-> exists resp,
    out_http (w_out w) req = Ok resp /\ rs_status resp = 200%Z /\ response_json resp = Ok u.
Proof.
  intros req. unfold run_relay, mbs_auth_validate. cbn. fold req.
  destruct (out_http (w_out w) req) as [resp|e]; cbn.
  2:{ eexists; split; [done |]. intros u; split; [done | by intros (? & ? & _)]. }
  destruct (Z.eqb_spec (rs_status resp) 200); cbn.
  - eexists; split; [done |]. intros u; split.
    + intros Hu. exists resp. destruct (response_json resp); simplify_eq/=; done.
    + intros (? & [= <-] & _ & ->). done.
  - destruct (rs_text resp); cbn; (eexists; split; [done |]);
      (intros u; split; [done | intros (? & [= <-] & ? & _); congruence]).
Qed.
End laws.
