(* ===== verification/GetHeader.v ===== *)
(** [GET /eth/v1/builder/header/{slot}/{parent_hash}/{pubkey}]:
    [crates/http/src/server/proposer_api/get_header.rs]. *)

From S2P Require Import Prelude Prog External Types Blst Signer BeaconTypes BeaconBlock.
From S2P Require Import StorageTypes Header Storage BidSpec Metrics InMemory World.
From S2P Require Import InMemoryStorage HttpErrors.

Section get_header.
Context `{Ext} {E : Type -> Type} `{!Storage E} `{!Host E} `{!BuildProfile}.

Definition get_header (slot : u64) (parent_hash : B256) (pubkey : BlsPublicKey)
    (signer : BlsSigner) : prog E (result (Versioned SignedHeader) Rejection) :=
  let fail e := Ret (Err (reject_custom (CGetHeader e))) in
  let! registration := st_read_validator_registration pubkey in
  match registration with
  | None => fail UnauthorizedGetHeader
  | Some _ =>
      let! current_slot := st_read_head_slot in
      let! started := instant_now in
      let! next := lift (is_next_slot current_slot slot) in
      if negb next then fail InvalidSlot else
      let! bid := st_read_best_bid slot parent_hash pubkey in
      match bid with
      | None => fail NoBidFound
      | Some bid =>
          let value := bt_value (bs_message bid) in
          let tx_count := lenN (ep_transactions (bs_execution_payload bid)) in
          let!? signed_header :=
            Ret (map_err (fun e => reject_custom (CConversion e))
                   (signed_header_try_from bid signer)) in
          let versioned_header := mkVersioned Deneb signed_header in
          let! now := instant_now in
          let elapsed := elapsed started now in
          do! emit inc_headers;
          do! match u256_try_into_u64 value with
              | Some value => emit (set_header_values value)
              | None => Ret tt
              end;
          do! emit (set_tx_count tx_count);
          do! emit (set_header_latency (as_millis_u64 elapsed));
          Ret (Ok versioned_header)
      end
  end.
End get_header.

(** * Properties *)

Section laws.
Context {X : Ext} {L : ExtLaws X} `{!BuildProfile}.

(** What the handler answers in a state of the storage. *)
Inductive header_answer (st : StoreState) (slot : u64) (hash : B256) (pubkey : BlsPublicKey)
    (signer : BlsSigner) : result (Versioned SignedHeader) Rejection -> Prop :=
| HaUnregistered :
    sto_regs st !! pk_serialize pubkey = None ->
    header_answer st slot hash pubkey signer (Err [CGetHeader UnauthorizedGetHeader])
| HaOld r :
    sto_regs st !! pk_serialize pubkey = Some r ->
    slot <> (hs_slot (sto_head st) + 1)%Z ->
    header_answer st slot hash pubkey signer (Err [CGetHeader InvalidSlot])
| HaNoBid r :
    sto_regs st !! pk_serialize pubkey = Some r ->
    slot = (hs_slot (sto_head st) + 1)%Z ->
    sto_read_best slot hash pubkey st = None ->
    header_answer st slot hash pubkey signer (Err [CGetHeader NoBidFound])
| HaTooManyBlobs r bid :
    sto_regs st !! pk_serialize pubkey = Some r ->
    slot = (hs_slot (sto_head st) + 1)%Z ->
    sto_read_best slot hash pubkey st = Some bid ->
    (MAX_BLOB_COMMITMENTS < lenN (bb_commitments (bs_blobs_bundle bid)))%N ->
    header_answer st slot hash pubkey signer (Err [CConversion SszTypes])
| HaServed r bid msg :
    sto_regs st !! pk_serialize pubkey = Some r ->
    slot = (hs_slot (sto_head st) + 1)%Z ->
    sto_read_best slot hash pubkey st = Some bid ->
    (lenN (bb_commitments (bs_blobs_bundle bid)) <= MAX_BLOB_COMMITMENTS)%N ->
    msg = mkHeader (header_of_payload (bs_execution_payload bid))
            (as_kzg_commitment <$> bb_commitments (bs_blobs_bundle bid))
            (bt_value (bs_message bid)) (signer_public_key signer) ->
    header_answer st slot hash pubkey signer
      (Ok (mkVersioned Deneb (mkSignedHeader msg (signer_sign signer msg)))).

Lemma get_header_run slot hash pubkey signer w :
  (hs_slot (sto_head (w_abs w)) < u64_max)%Z ->
  exists r w', run_relay (get_header slot hash pubkey signer) w = (Val r, w') /\
    w_store w' = w_store w /\ w_spawned w' = w_spawned w /\
    header_answer (w_abs w) slot hash pubkey signer r.
Proof.
  intros Hhead. unfold run_relay, get_header.
  run_read. destruct (sto_regs _ !! _) as [reg|] eqn:Hreg.
  2:{ do 2 eexists; split; [reflexivity |]; split; [reflexivity|]; split; [reflexivity|]. by constructor. }
  run_read. rewrite run_now, is_next_slot_spec, run_lift_val by done.
  destruct (Z.eqb_spec (hs_slot (sto_head (w_abs w)) + 1) slot) as [Hslot|Hslot];
    simpl negb; cbv iota.
  2:{ do 2 eexists; split; [reflexivity |]; split; [reflexivity|]; split; [reflexivity|]. by eapply HaOld. }
  run_read. change (w_abs (w_ticked w)) with (w_abs w).
  destruct (sto_read_best _ _ _ _) as [bid|] eqn:Hbid.
  2:{ do 2 eexists; split; [reflexivity |]; split; [reflexivity|]; split; [reflexivity|]. by eapply HaNoBid. }
  rewrite signed_header_try_from_spec.
  destruct (N.leb_spec (lenN (bb_commitments (bs_blobs_bundle bid))) MAX_BLOB_COMMITMENTS).
  - cbn. destruct (u256_try_into_u64 _); cbn;
      (do 2 eexists; split; [reflexivity |]; split; [reflexivity|]; split; [reflexivity|]; by eapply HaServed).
  - do 2 eexists; split; [reflexivity |]; split; [reflexivity|]; split; [reflexivity|]. by eapply HaTooManyBlobs.
Qed.

(** Serving headers changes nothing in the storage, whatever interleaves. *)
Lemma get_header_safe builders fork slot hash pubkey signer :
  safe (fun X => @relay_step _ X) (fun w => by_slot_empty w /\ bids_authentic builders fork (w_abs w))
    (fun _ => True) (get_header slot hash pubkey signer).
Proof.
  unfold get_header. safe_read. intros a _. destruct (sto_regs _ !! _); [|done].
  safe_read. intros a1 _. apply safe_bind. intros w Hw. split; [done |].
  apply safe_bind, safe_lift. intros [] _; [|done]. simpl negb. cbv iota.
  safe_read. intros a2 _. destruct (sto_read_best _ _ _ _) as [bid|]; [|done].
  apply safe_try_bind. simpl. destruct (map_err _ _); [|done].
  intros w1 Hw1. split; [done |]. intros w2 Hw2. split; [done |].
  destruct (u256_try_into_u64 _); simpl; repeat (intros ? ?; split; [done |]); done.
Qed.
End laws.

Section main.
Context {X : Ext} {L : ExtLaws X} `{!BuildProfile}.

(** C8: the header request answers as specified on every branch ([header_answer]): refused for an
    unregistered key, then for a slot that is not the one after the head, then when no bid is
    stored under (slot, parent hash, key), then when the bid has more than 4096 commitments;
    otherwise it serves the signed header of the stored bid.  The storage and the spawned tasks
    are not touched. *)
Theorem get_header_correct slot hash pubkey signer w :
  (hs_slot (sto_head (w_abs w)) < u64_max)%Z ->
  exists r w', run_relay (get_header slot hash pubkey signer) w = (Val r, w') /\
    w_store w' = w_store w /\ w_spawned w' = w_spawned w /\
    header_answer (w_abs w) slot hash pubkey signer r.
Proof. apply get_header_run. Qed.

(** C9: a header that is served carries the value and the block hash of the bid stored for the
    slot, parent hash and key of the request, names the relay's key, and its signature verifies
    under that key in the builder domain. *)
Theorem served_header_verifies slot hash pubkey signer w v :
  (hs_slot (sto_head (w_abs w)) < u64_max)%Z ->
  (run_relay (get_header slot hash pubkey signer) w).1 = Val (Ok v) ->
  let msg := sh_message (vs_data v) in
  bls_sig_verify (sh_signature (vs_data v)) (signer_public_key signer)
    (signing_root msg (compute_builder_domain (signer_fork_data signer))) = true /\
  h_pubkey msg = signer_public_key signer /\
  exists bid, sto_read_best slot hash pubkey (w_abs w) = Some bid /\
    h_value msg = bt_value (bs_message bid) /\
    eh_block_hash (h_header msg) = ep_block_hash (bs_execution_payload bid) /\
    lenN (h_blob_kzg_commitments msg) = lenN (bb_commitments (bs_blobs_bundle bid)).
Proof.
  intros Hhead Hrun.
  destruct (get_header_run slot hash pubkey signer w Hhead) as (r & w' & Heq & _ & _ & Ha).
  rewrite Heq in Hrun. injection Hrun as ->.
  inversion Ha as [| | | |r bid msg Hreg Hslot Hbid Hlen Hmsg]; subst; simpl.
  split; [apply signer_sign_verifies |]. split; [done |].
  exists bid. split; [done |]. split; [done |]. split; [done |].
  unfold lenN. by rewrite length_fmap.
Qed.
End main.
