(* ===== verification/BlindedBlocks.v ===== *)
(** [POST /eth/v1/builder/blinded_blocks]:
    [crates/http/src/server/proposer_api/blinded_blocks.rs]. *)

From S2P Require Import Prelude Prog External Types Blst Signer BeaconTypes BeaconBlock.
From S2P Require Import StorageTypes Storage BidSpec Metrics InMemory World InMemoryStorage.
From S2P Require Import HttpErrors.

Section blinded.
Context `{Ext} {E : Type -> Type} `{!Storage E} `{!Host E}.

Definition post_blinded_blocks (versioned_signed_blinded_block : SignedBlindedBlock) :
  prog E (result (Versioned BlindedBlockResponse) Rejection) :=
  let fail e := Ret (Err (reject_custom (CPostBlindedBlock e))) in
  let slot := sbl_slot versioned_signed_blinded_block in
  let! started := instant_now in
  let! duty := st_find_duty_by_slot slot in
  match duty with
  | None => fail NoDutyFound
  | Some duty =>
      let proposer_index := sbl_proposer_index versioned_signed_blinded_block in
      if negb (v_validator_index duty =? proposer_index)%Z then
        fail (ProposerIndexMismatch (v_validator_index duty) proposer_index)
      else
      let! fork_data := st_fork_data in
      let domain := compute_proposer_domain fork_data in
      let signature := sbl_signature versioned_signed_blinded_block in
      let proposer_pubkey := rm_pubkey (vr_message (v_entry duty)) in
      let blinded_block := sbl_message versioned_signed_blinded_block in
      let! registration := st_read_validator_registration proposer_pubkey in
      match registration with
      | None => fail UnauthorizedSubmission
      | Some _ =>
          if negb (bls_sig_verify signature proposer_pubkey (signing_root blinded_block domain))
          then fail InvalidSignature
          else
          let! resp := st_read_blinded_block_response proposer_pubkey in
          match resp with
          | None => fail NoBlockFromBlockHash
          | Some resp =>
              let exec_payload := bbr_execution_payload resp in
              let blobs_data := bbr_blobs_bundle resp in
              let signed_beacon_block :=
                signed_beacon_block_content_new exec_payload blinded_block signature blobs_data in
              let block_hash := sc_block_hash signed_beacon_block in
              do! spawn (PublishTask signed_beacon_block Ssz);
              let! now := instant_now in
              let elapsed := elapsed started now in
              do! emit (set_blinded_block_latency (as_millis_u64 elapsed));
              let versioned_resp := mkVersioned Deneb resp in
              do! st_set_delivered_blocks block_hash;
              Ret (Ok versioned_resp)
          end
      end
  end.

(** The body of the spawned publication: its result is only logged. *)
Definition publish_task `{!BeaconHandle E} (signed_beacon_block : SignedBeaconBlockContent)
    (submission_type : SubmissionType) : prog E (result unit Rejection) :=
  let! r := bh_publish_block signed_beacon_block submission_type in
  Ret (map_err (fun _ => reject_custom (CPostBlindedBlock PublishBlock)) r).
End blinded.

(** * Properties *)

Section laws.
Context {X : Ext}.

(** The state admits the signed block: the duty of its slot is for its proposer, the proposer
    is registered and signed it. *)
Record blinded_admissible (st : StoreState) (b : SignedBlindedBlock) (duty : Validator) : Prop := {
  bl_duty : sto_find_duty (sbl_slot b) st = Some duty;
  bl_index : v_validator_index duty = sbl_proposer_index b;
  bl_registered : is_Some (sto_regs st !! pk_serialize (duty_pubkey duty));
  bl_signed : bls_sig_verify (sbl_signature b) (duty_pubkey duty)
                (signing_root (sbl_message b) (compute_proposer_domain (sto_fork st))) = true
}.

(** The block published for a signed blinded block. *)
Definition unblinded (b : SignedBlindedBlock) (resp : BlindedBlockResponse) :
  SignedBeaconBlockContent :=
  signed_beacon_block_content_new (bbr_execution_payload resp) (sbl_message b) (sbl_signature b)
    (bbr_blobs_bundle resp).

Inductive blinded_answer (st : StoreState) (b : SignedBlindedBlock) :
  result (Versioned BlindedBlockResponse) Rejection -> Prop :=
| BaNoDuty :
    sto_find_duty (sbl_slot b) st = None ->
    blinded_answer st b (Err [CPostBlindedBlock NoDutyFound])
| BaIndex duty :
    sto_find_duty (sbl_slot b) st = Some duty ->
    v_validator_index duty <> sbl_proposer_index b ->
    blinded_answer st b
      (Err [CPostBlindedBlock
              (ProposerIndexMismatch (v_validator_index duty) (sbl_proposer_index b))])
| BaUnregistered duty :
    sto_find_duty (sbl_slot b) st = Some duty ->
    v_validator_index duty = sbl_proposer_index b ->
    sto_regs st !! pk_serialize (duty_pubkey duty) = None ->
    blinded_answer st b (Err [CPostBlindedBlock UnauthorizedSubmission])
| BaSignature duty r :
    sto_find_duty (sbl_slot b) st = Some duty ->
    v_validator_index duty = sbl_proposer_index b ->
    sto_regs st !! pk_serialize (duty_pubkey duty) = Some r ->
    bls_sig_verify (sbl_signature b) (duty_pubkey duty)
      (signing_root (sbl_message b) (compute_proposer_domain (sto_fork st))) = false ->
    blinded_answer st b (Err [CPostBlindedBlock InvalidSignature])
| BaNoPayload duty :
    blinded_admissible st b duty ->
    sto_blinded st !! pk_serialize (duty_pubkey duty) = None ->
    blinded_answer st b (Err [CPostBlindedBlock NoBlockFromBlockHash])
| BaDelivered duty resp :
    blinded_admissible st b duty ->
    sto_blinded st !! pk_serialize (duty_pubkey duty) = Some resp ->
    blinded_answer st b (Ok (mkVersioned Deneb resp)).

(** The effect: a delivery publishes the unblinded block and records its hash, a refusal
    changes neither the storage nor the tasks. *)
Definition blinded_effect (w w' : World) (b : SignedBlindedBlock)
    (r : result (Versioned BlindedBlockResponse) Rejection) : Prop :=
  match r with
  | Ok v =>
      w_abs w' = sto_set_delivered (ep_block_hash (bbr_execution_payload (vs_data v))) (w_abs w) /\
      w_spawned w' = PublishTask (unblinded b (vs_data v)) Ssz :: w_spawned w
  | Err _ => w_store w' = w_store w /\ w_spawned w' = w_spawned w
  end.

Lemma post_blinded_blocks_run b w :
  exists r w', run_relay (post_blinded_blocks b) w = (Val r, w') /\
    blinded_answer (w_abs w) b r /\ blinded_effect w w' b r.
Proof.
  unfold run_relay, post_blinded_blocks. rewrite run_now.
  run_read. change (w_abs (w_ticked w)) with (w_abs w).
  destruct (sto_find_duty _ _) as [duty|] eqn:Hduty.
  2:{ do 2 eexists; split; [reflexivity |]. split; [by constructor | done]. }
  destruct (Z.eqb_spec (v_validator_index duty) (sbl_proposer_index b)) as [Hidx|Hidx];
    simpl negb; cbv iota.
  2:{ do 2 eexists; split; [reflexivity |]. split; [by eapply BaIndex | done]. }
  run_read. run_read. change (w_abs (w_ticked w)) with (w_abs w).
  fold (duty_pubkey duty).
  destruct (sto_regs _ !! _) as [reg|] eqn:Hreg.
  2:{ do 2 eexists; split; [reflexivity |]. split; [by eapply BaUnregistered | done]. }
  destruct (bls_sig_verify _ _ _) eqn:Hsig; simpl negb; cbv iota.
  2:{ do 2 eexists; split; [reflexivity |]. split; [by eapply BaSignature | done]. }
  assert (blinded_admissible (w_abs w) b duty) as Hadm by (split; [done.. | by eexists | done]).
  run_read. change (w_abs (w_ticked w)) with (w_abs w).
  destruct (sto_blinded _ !! _) as [resp|] eqn:Hresp.
  2:{ do 2 eexists; split; [reflexivity |]. split; [by eapply BaNoPayload | done]. }
  do 2 eexists; split; [reflexivity |]. split; [by eapply BaDelivered | done].
Qed.

Lemma post_blinded_blocks_safe builders fork b :
  safe (fun X => @relay_step _ X)
    (fun w => by_slot_empty w /\ bids_authentic builders fork (w_abs w))
    (fun _ => True) (post_blinded_blocks b).
Proof.
  unfold post_blinded_blocks. apply safe_bind. intros w Hw. split; [done |]. cbn [guarded].
  safe_read. intros a _. destruct (sto_find_duty _ _) as [duty|]; [|done].
  destruct (negb _); [done |].
  safe_read. intros a1 _. safe_read. intros a2 _. destruct (sto_regs _ !! _); [|done].
  destruct (negb _); [done |].
  safe_read. intros a3 _. destruct (sto_blinded _ !! _) as [resp|]; [|done].
  do 3 (apply safe_bind; intros ? ?; split; [done |]; cbn [guarded]).
  safe_write; [|done]. intros; by apply ba_set_delivered.
Qed.

Lemma publish_task_safe (I : World -> Prop) b t :
  (forall w p, I w -> I (mkWorld (w_store w) (w_metrics w) (w_spawned w) p (w_tick w) (w_out w))) ->
  safe (fun X => @relay_step _ X) I (fun _ => True) (publish_task b t).
Proof. intros HI w Hw. split; [by apply HI | done]. Qed.
End laws.

Section main.
Context {X : Ext}.

(** C4: the blinded-block request answers as specified on every branch ([blinded_answer]): no
    duty for the slot, another proposer, an unregistered proposer, a signature that does not
    verify under the key of the duty, no stored payload, or the stored payload.  A delivery
    spawns the publication of the unblinded block and records its hash; a refusal changes
    neither the storage nor the tasks. *)
Theorem post_blinded_blocks_correct b w :
  exists r w', run_relay (post_blinded_blocks b) w = (Val r, w') /\
    blinded_answer (w_abs w) b r /\ blinded_effect w w' b r.
Proof. apply post_blinded_blocks_run. Qed.

(** A storage in which the proposer with the key of [s] has the duty of the block [b], is
    registered, and the payload [resp] is stored for it. *)
Definition unblinding_store (i : InMemoryStorageInner) (s : BlsSigner) (b : BlindedBlock)
    (reg : ValidatorRegistrationMessage) (resp : BlindedBlockResponse) : InMemoryStorageInner :=
  let key := signer_public_key s in
  let registration := mkRegistration
    (mkRegistrationMessage (rm_fee_recipient reg) (rm_gas_limit reg) (rm_timestamp reg) key)
    sig_empty in
  let duty := mkValidator (bl_slot b) (bl_proposer_index b) registration in
  mkInner (i_slot i) (i_payload_attributes i) [duty] {[pk_serialize key := registration]}
    (i_wlist_builders i) (i_best_bid_per_slot i) (i_best_bid_by_slot i)
    (i_best_bid_by_block_number i) (signer_fork_data s) {[pk_serialize key := resp]}
    (i_delivered_blocks i).

Context {L : ExtLaws X}.

(** C27: the payload returned does not depend on the header the proposer signed: whatever block
    [b] the proposer of the duty signs, and whatever payload [resp] is stored under its key,
    the request returns [resp]; nothing ties the block hash of the one to the other. *)
Theorem payload_not_tied_to_header i s b reg resp w :
  (run_relay
     (post_blinded_blocks (mkSignedBlindedBlock b (signer_proposer_sign s b)))
     (w_with_store (unblinding_store i s b reg resp) w)).1 =
  Val (Ok (mkVersioned Deneb resp)).
Proof.
  destruct (post_blinded_blocks_run (mkSignedBlindedBlock b (signer_proposer_sign s b))
    (w_with_store (unblinding_store i s b reg resp) w)) as (r & w' & -> & Ha & _).
  simpl. do 2 f_equal.
  assert (forall d, sto_find_duty (bl_slot b)
      (w_abs (w_with_store (unblinding_store i s b reg resp) w)) = Some d ->
      d = mkValidator (bl_slot b) (bl_proposer_index b) (mkRegistration
        (mkRegistrationMessage (rm_fee_recipient reg) (rm_gas_limit reg) (rm_timestamp reg)
           (signer_public_key s)) sig_empty)) as Hduty.
  { intros d. unfold sto_find_duty; simpl. rewrite Z.eqb_refl. by intros [= <-]. }
  assert (bls_sig_verify (signer_proposer_sign s b) (signer_public_key s)
    (signing_root b (compute_proposer_domain (signer_fork_data s))) = true) as Hver
    by apply gsk_sign_verifies.
  inversion Ha as [Hd|duty Hd Hi|duty Hd Hi Hr|duty rg Hd Hi Hr Hs|duty Had Hb|duty rsp Had Hb];
    try (unfold sbl_slot in Hd; simpl in Hd).
  - unfold sto_find_duty in Hd; simpl in Hd. by rewrite Z.eqb_refl in Hd.
  - apply Hduty in Hd as ->. done.
  - apply Hduty in Hd as ->. unfold duty_pubkey in Hr; simpl in Hr.
    by rewrite lookup_singleton_eq in Hr.
  - apply Hduty in Hd as ->. assert (true = false); [|done]. rewrite <-Hver. exact Hs.
  - pose proof (bl_duty _ _ _ Had) as Hd. apply Hduty in Hd as ->.
    unfold duty_pubkey in Hb; simpl in Hb. by rewrite lookup_singleton_eq in Hb.
  - pose proof (bl_duty _ _ _ Had) as Hd. apply Hduty in Hd as ->.
    unfold duty_pubkey in Hb; simpl in Hb. rewrite lookup_singleton_eq in Hb. congruence.
Qed.
End main.
