(* ===== verification/PostValidators.v ===== *)
(** [POST /eth/v1/builder/validators]:
    [crates/http/src/server/proposer_api/post_validators.rs]. *)

From S2P Require Import Prelude Prog External Types Blst Signer BeaconTypes BeaconBlock.
From S2P Require Import StorageTypes Storage BidSpec Metrics InMemory World InMemoryStorage.
From S2P Require Import HttpErrors Auth.

Section post_validators.
Context `{Ext} {E : Type -> Type} `{!Storage E} `{!Host E} `{!BeaconHandle E} `{!Auth E}.

(** The state of the loop: [to_register] and the counter [registered]. *)
Abbreviation Acc := (ValidatorRegistrations * Z)%type.

(** One turn: [continue] keeps the state. *)
Definition register_one (domain : Domain) (acc : Acc) (reg : ValidatorRegistration) :
  prog E Acc :=
  let pubkey := rm_pubkey (vr_message reg) in
  let! known := bh_get_known_validator pubkey in
  match known with
  | Err _ => Ret acc
  | Ok validator =>
      if negb (is_active validator) then Ret acc
      else
        let invalid_sig := negb (bls_sig_verify (vr_signature reg) pubkey
                                   (signing_root (vr_message reg) domain)) in
        if invalid_sig then Ret acc
        else Ret (<[pk_serialize pubkey := reg]> acc.1, (acc.2 + 1)%Z)
  end.

Definition post_validators_handler (_api_key : string)
    (registrations : list ValidatorRegistration) : prog E (result Z Rejection) :=
  let! started := instant_now in
  let! fork_data := st_fork_data in
  let domain := compute_builder_domain fork_data in
  let! acc := foldP (register_one domain) registrations (∅, 0%Z) in
  do! st_set_validator_registrations acc.1;
  let! now := instant_now in
  Ret (Ok OK).

(** The route: the key is checked before the body is read. *)
Definition post_validators (query : ApiKeyQuery)
    (body : result (list ValidatorRegistration) Cause) : prog E (result Z Rejection) :=
  let!? api_key := validate_api_key query in
  match body with
  | Err cause => Ret (Err [cause])
  | Ok registrations => post_validators_handler api_key registrations
  end.
End post_validators.

(** * Properties *)

Section laws.
Context {X : Ext}.

(** A registration the beacon node and the signature vouch for. *)
Definition eligible (out : Outside) (domain : Domain) (reg : ValidatorRegistration) : bool :=
  match out_known out (rm_pubkey (vr_message reg)) with
  | Ok validator => is_active validator
  | Err _ => false
  end &&
  bls_sig_verify (vr_signature reg) (rm_pubkey (vr_message reg))
    (signing_root (vr_message reg) domain).

Definition add_eligible (out : Outside) (domain : Domain)
    (acc : ValidatorRegistrations * Z) (reg : ValidatorRegistration) :
  ValidatorRegistrations * Z :=
  if eligible out domain reg
  then (<[pk_serialize (rm_pubkey (vr_message reg)) := reg]> acc.1, (acc.2 + 1)%Z)
  else acc.

Lemma register_all_run domain regs acc w :
  run_relay (foldP (register_one domain) regs acc) w =
  (Val (foldl (add_eligible (w_out w) domain) acc regs), w).
Proof.
  revert acc; induction regs as [|reg regs IH]; intros acc; [done |].
  unfold run_relay in *. cbn [foldP]. rewrite run_bind. unfold register_one at 1.
  rewrite run_known. cbn [foldl]. unfold add_eligible at 2, eligible.
  destruct (out_known _ _) as [v|e]; [|apply IH].
  destruct (is_active v); [|apply IH].
  destruct (bls_sig_verify _ _ _); apply IH.
Qed.

(** The map built by the loop: under each key, the last eligible registration for it. *)
Lemma add_eligible_lookup out domain regs k r :
  (foldl (add_eligible out domain) (∅, 0%Z) regs).1 !! k = Some r <->
  exists before after, regs = before ++ r :: after /\
    eligible out domain r = true /\ pk_serialize (rm_pubkey (vr_message r)) = k /\
    Forall (fun r' => eligible out domain r' = true ->
                      pk_serialize (rm_pubkey (vr_message r')) <> k) after.
Proof.
  induction regs as [|x regs IH] using rev_ind.
  { simpl. split; [done |]. intros ([] & ? & ? & _); done. }
  rewrite foldl_app. cbn [foldl]. unfold add_eligible at 1.
  destruct (eligible out domain x) eqn:Hx; cbn [fst].
  - rewrite lookup_insert_Some, IH. split.
    + intros [[Hk ->]|[Hk (before & after & -> & He & Hr & Hall)]].
      * exists regs, []. done.
      * exists before, (after ++ [x]). split; [by rewrite <-app_assoc |].
        split; [done |]. split; [done |]. apply Forall_app. split; [done |].
        by apply Forall_singleton.
    + intros (before & after & Heq & He & Hr & Hall).
      destruct after as [|y after _] using rev_ind.
      * apply app_inj_tail in Heq as [-> ->]. by left.
      * right. rewrite app_comm_cons, app_assoc in Heq. apply app_inj_tail in Heq as [-> ->].
        apply Forall_app in Hall as [Hall [Hy _]%Forall_cons].
        split; [by apply Hy |]. by exists before, after.
  - rewrite IH. split.
    + intros (before & after & -> & He & Hr & Hall). exists before, (after ++ [x]).
      split; [by rewrite <-app_assoc |]. split; [done |]. split; [done |].
      apply Forall_app. split; [done |]. apply Forall_singleton. congruence.
    + intros (before & after & Heq & He & Hr & Hall).
      destruct after as [|y after _] using rev_ind.
      * apply app_inj_tail in Heq as [-> ->]. congruence.
      * rewrite app_comm_cons, app_assoc in Heq. apply app_inj_tail in Heq as [-> ->].
        apply Forall_app in Hall as [Hall _]. by exists before, after.
Qed.

Lemma post_validators_handler_run key regs w :
  exists w', run_relay (post_validators_handler key regs) w = (Val (Ok OK), w') /\
    w_abs w' = sto_set_regs
      (foldl (add_eligible (w_out w) (compute_builder_domain (sto_fork (w_abs w)))) (∅, 0%Z) regs).1
      (w_abs w) /\
    w_spawned w' = w_spawned w.
Proof.
  unfold run_relay, post_validators_handler. rewrite run_now. run_read.
  rewrite run_bind. pose proof (register_all_run
    (compute_builder_domain (sto_fork (w_abs (w_ticked w)))) regs (∅, 0%Z) (w_ticked w)) as Hr.
  unfold run_relay in Hr. rewrite Hr. eexists. split; [reflexivity |]. done.
Qed.

Lemma register_one_safe (I : World -> Prop) domain acc reg :
  safe (fun X => @relay_step _ X) I (fun _ => True) (register_one domain acc reg).
Proof.
  intros w Hw. split; [done |]. cbn.
  destruct (out_known _ _) as [v|]; [|done].
  destruct (negb (is_active v)); [done |]. by destruct (negb _).
Qed.

Lemma post_validators_safe {A : Auth RelayE} builders fork query body :
  let J := fun w => by_slot_empty w /\ bids_authentic builders fork (w_abs w) in
  (forall secret, safe (fun X => @relay_step _ X) J (fun _ => True) (validate secret)) ->
  safe (fun X => @relay_step _ X) J (fun _ => True) (post_validators query body).
Proof.
  intros J Hauth. unfold post_validators. apply safe_try_bind. unfold validate_api_key.
  apply safe_bind. eapply safe_mono, Hauth. intros [user|] _; [|done].
  cbn [guarded]. destruct body as [regs|c]; [|done].
  unfold post_validators_handler. apply safe_bind. intros w Hw. split; [done |]. cbn [guarded].
  safe_read. intros a _. apply safe_bind.
  apply (safe_mono _ _ (fun _ => True)).
  2:{ apply safe_foldP; [|done]. intros t r _ _. apply register_one_safe. }
  intros acc _. safe_write; [intros; by apply ba_set_regs |].
  intros w1 Hw1. by split.
Qed.

Lemma mbs_auth_safe `{!FromJson MbsUser} `{!ToJson SecretBody} (I : World -> Prop) self secret :
  safe (fun X => @relay_step _ X) I (fun _ => True)
    (mbs_auth_validate (E:=RelayE) self secret).
Proof.
  intros w Hw. split; [done |]. cbn. destruct (out_http _ _) as [r|]; [|done].
  destruct (rs_status r =? 200)%Z; [done |]. by destruct (rs_text r).
Qed.
End laws.

Section main.
Context {X : Ext}.

(** C17: a registration request replaces the registrations: afterwards a key is registered
    exactly when the request has an eligible registration for it (a validator the beacon node
    reports active, signed by its key in the builder domain), the last one winning; whatever
    was registered before and is not in the request is gone.  Nothing else changes. *)
Theorem post_validators_replaces key regs w :
  exists w', run_relay (post_validators_handler key regs) w = (Val (Ok OK), w') /\
    w_abs w' = sto_set_regs (sto_regs (w_abs w')) (w_abs w) /\
    forall k r, sto_regs (w_abs w') !! k = Some r <->
      exists before after, regs = before ++ r :: after /\
        eligible (w_out w) (compute_builder_domain (sto_fork (w_abs w))) r = true /\
        pk_serialize (rm_pubkey (vr_message r)) = k /\
        Forall (fun r' =>
          eligible (w_out w) (compute_builder_domain (sto_fork (w_abs w))) r' = true ->
          pk_serialize (rm_pubkey (vr_message r')) <> k) after.
Proof.
  destruct (post_validators_handler_run key regs w) as (w' & Hrun & Ha & _).
  exists w'. split; [done |]. split; [by rewrite Ha |]. intros k r. rewrite Ha.
  apply add_eligible_lookup.
Qed.

Context `{!FromJson MbsUser} `{!ToJson SecretBody}.

(** C18: the API key gates registration: unless the auth service answers 200 with a user for the
    key of the query, the request is rejected (with warp's not-found rejection, so that the
    reply is a 500) and the world is unchanged. *)
Theorem api_key_gates_registration auth query body w :
  (exists resp u,
     out_http (w_out w) (mkHttpRequest POST (ma_url auth +:+ "get-key") []
       (JsonBody (to_json (mkSecretBody (ak_api_key query))))) = Ok resp /\
     rs_status resp = 200%Z /\ response_json (T:=MbsUser) resp = Ok u) \/
  run_relay (post_validators (Auth0:=mbs_auth_validate auth) query body) w =
    (Val (Err reject), w).
Proof.
  destruct (mbs_auth_validate_run auth (ak_api_key query) w) as (r & Hrun & Hr).
  destruct r as [u|e].
  - left. destruct (proj1 (Hr u) eq_refl) as (resp & ?). by exists resp, u.
  - right. unfold run_relay, post_validators, validate_api_key, validate in *.
    by rewrite run_try_bind, run_bind, Hrun.
Qed.
End main.
