(* ===== verification/DataApi.v ===== *)
(** The data API, [crates/http/src/server/data_api/get_bids.rs], and the health check,
    [proposer_api/status.rs]. *)

From S2P Require Import Prelude Prog External Types Blst Signer BeaconTypes BeaconBlock.
From S2P Require Import StorageTypes Storage BidSpec Metrics InMemory World InMemoryStorage.
From S2P Require Import HttpErrors.

Record QueryParams : Type := mkQueryParams { qp_slot : option u64; qp_block_number : option u64 }.

Section data_api.
Context `{Ext} {E : Type -> Type} `{!Storage E} `{!Host E}.

(** [if let Some(x) = param { if let Some(bid) = read(x) { return .. } }] *)
Definition lookup_param (param : option u64) (read : u64 -> prog E (option BidSubmission)) :
  prog E (option BidSubmission) :=
  match param with Some x => read x | None => Ret None end.

Definition get_bids (params : QueryParams) : prog E (result (list BidSubmission) Rejection) :=
  let! start := instant_now in
  let! bid := lookup_param (qp_slot params) st_read_best_bid_by_slot in
  match bid with
  | Some bid => let! now := instant_now in Ret (Ok [bid])
  | None =>
      let! bid := lookup_param (qp_block_number params) st_read_best_bid_by_block_number in
      match bid with
      | Some bid => let! now := instant_now in Ret (Ok [bid])
      | None => Ret (Ok [])
      end
  end.

(** [GET /eth/v1/builder/status] *)
Definition status : prog E (result Z Rejection) := Ret (Ok OK).
End data_api.

Section laws.
Context {X : Ext}.

(** With the in-memory storage the slot of the query is ignored: the answer is the one for
    the block number alone. *)
Lemma get_bids_run params w :
  by_slot_empty w ->
  exists w', run_relay (get_bids params) w =
    (Val (Ok (option_list (qp_block_number params ≫= (fun n => sto_by_number (w_abs w) !! n)))), w')
    /\ w_store w' = w_store w.
Proof.
  intros Hempty. unfold run_relay, get_bids, lookup_param. rewrite run_now.
  destruct (qp_slot params) as [slot|]; cbn;
    [unfold inner_best_by_slot; rewrite Hempty, lookup_empty; cbn |];
    (destruct (qp_block_number params) as [n|]; cbn; [|by eexists]);
    unfold inner_best_by_number; destruct (i_best_bid_by_block_number _ !! n); cbn; by eexists.
Qed.

Lemma get_bids_safe builders fork params :
  let J := fun w => by_slot_empty w /\ bids_authentic builders fork (w_abs w) in
  safe (fun X => @relay_step _ X) J (fun _ => True) (get_bids params).
Proof.
  intros J w Hw. split; [done |]. cbn.
  destruct (qp_slot params) as [slot|]; cbn.
  - intros w1 Hw1. split; [done |].
    destruct (inner_best_by_slot _ _); cbn; [by intros |].
    destruct (qp_block_number params) as [n|]; cbn; [|done].
    intros w2 Hw2. split; [done |]. by destruct (inner_best_by_number _ _).
  - destruct (qp_block_number params) as [n|]; cbn; [|done].
    intros w2 Hw2. split; [done |]. by destruct (inner_best_by_number _ _).
Qed.
End laws.

Section main.
Context {X : Ext}.

(** The data API over the in-memory storage ignores the slot of the query: in every state
    of the storage reached from the initial one (where the map of the best bids by slot is
    empty, and no method writes it) the answer is the best bid of the block number alone, so a
    query by slot gets an empty list whatever bids are stored. *)
Theorem get_bids_ignores_slot params w :
  by_slot_empty w ->
  (run_relay (get_bids params) w).1 =
  Val (Ok (option_list (qp_block_number params ≫= (fun n => sto_by_number (w_abs w) !! n)))).
Proof. intros Hw. by destruct (get_bids_run params w Hw) as (w' & -> & _). Qed.
End main.
