(* ===== verification/Routes.v ===== *)
(** The routes of the HTTP server and their composition:
    [crates/http/src/server/mod.rs] and the route functions of [proposer_api], [builder_api] and
    [data_api]. *)

From S2P Require Import Prelude Prog External Types Blst Signer BeaconTypes BeaconBlock.
From S2P Require Import StorageTypes Header Storage Metrics World HttpErrors Warp.
From S2P Require Import PostBids Auth GetHeader BlindedBlocks PostValidators DataApi.

(** The derived decoders of the queries and of the JSON bodies, known by their answers. *)
Class FromQuery {X : Ext} (T : Type) := from_query : ServerRequest -> result T Cause.
Class FromBody {X : Ext} (T : Type) := from_body : ServerRequest -> result T Cause.

(** What a handler replies with. *)
Inductive Reply `{Ext} : Type :=
| StatusReply (status : Z)
| HeaderReply (header : Versioned SignedHeader)
| PayloadReply (payload : Versioned BlindedBlockResponse)
| DutiesReply (duties : list Validator)
| BidsReply (bids : list BidSubmission)
| ErrReply (error : ErrorReply).

(** The reply of a handler that answered. *)
Definition replying `{Ext} {E : Type -> Type} {A} (reply : A -> Reply)
    (p : prog E (result A Rejection)) : prog E (result Reply Rejection) :=
  let!? a := p in Ret (Ok (reply a)).

(** A path without parameters. *)
Definition exact (segments path : list string) : option unit :=
  if decide (path = segments) then Some tt else None.

Section routes.
Context `{Ext} {E : Type -> Type} `{!Storage E} `{!Host E} `{!BeaconHandle E} `{!Auth E}.
Context `{!BuildProfile} `{!WarpCauses} `{!Warp E}.
Context `{!FromQuery ApiKeyQuery} `{!FromQuery QueryParams}.
Context `{!FromBody BidSubmission} `{!FromBody SignedBlindedBlock}.
Context `{!FromBody (list ValidatorRegistration)}.

(** ** The filters that hand a handler its capabilities; the storage, the auth service and the
    beacon handle are the ones of the effects [E]. *)

Definition with_json_body (T : Type) `{!FromBody T} (size_limit : Z) : Filter E (unit * T) :=
  and (content_length_limit size_limit) (body_json from_body).
Definition with_storage : Filter E unit := any_map tt.
Definition with_auth : Filter E unit := any_map tt.
Definition with_signer (signer : BlsSigner) : Filter E BlsSigner := any_map signer.
Definition with_beacon_handle : Filter E unit := any_map tt.

(** ** The routes *)

Definition status_route : Filter E Reply :=
  and_then (path_macro (exact ["eth"; "v1"; "builder"; "status"]))
    (fun _ => replying StatusReply status).

Definition post_blinded_blocks_route : Filter E Reply :=
  let payload_limit := (1024 * 1024 * 8)%Z in
  and_then
    (and (and (and (and
      (path_macro (exact ["eth"; "v1"; "builder"; "blinded_blocks"]))
      post) with_storage) with_beacon_handle)
      (with_json_body SignedBlindedBlock payload_limit))
    (fun '(_, (_, block)) => replying PayloadReply (post_blinded_blocks block)).

(** [warp::path!("eth" / "v1" / "builder" / "header" / u64 / B256 / BlsPublicKey)] *)
Definition header_path (path : list string) : option (u64 * B256 * BlsPublicKey) :=
  if decide (take 4 path = ["eth"; "v1"; "builder"; "header"]) then
    match drop 4 path with
    | [slot; parent_hash; pubkey] =>
        slot ← u64_from_str slot;
        parent_hash ← ok (b256_parse parent_hash);
        pubkey ← ok (pk_from_str pubkey);
        Some (slot, parent_hash, pubkey)
    | _ => None
    end
  else None.

Definition get_header_route (signer : BlsSigner) : Filter E Reply :=
  and_then (and (and (path_macro header_path) with_storage) (with_signer signer))
    (fun '((slot, parent_hash, pubkey), _, signer) =>
       replying HeaderReply (get_header slot parent_hash pubkey signer)).

Definition post_validators_route : Filter E Reply :=
  let payload_limit := (1024 * 1024 * 80)%Z in
  and_then
    (and (and (and
      (and_then
        (and (and (and
          (path_macro (exact ["eth"; "v1"; "builder"; "validators"]))
          post) (query from_query)) with_auth)
        (fun '(_, query_param, _) => validate_api_key query_param))
      with_storage) with_beacon_handle)
      (with_json_body (list ValidatorRegistration) payload_limit))
    (fun '(api_key, _, _, (_, registrations)) =>
       replying StatusReply (post_validators_handler api_key registrations)).

Definition get_validators_route : Filter E Reply :=
  and_then (and (path_macro (exact ["relay"; "v1"; "builder"; "validators"])) with_storage)
    (fun _ => replying DutiesReply get_validators).

Definition post_bids_route : Filter E Reply :=
  let payload_limit := (1024 * 1024 * 8)%Z in
  and_then
    (and (and (and (path_macro (exact ["relay"; "v1"; "builder"; "blocks"])) post)
      with_storage) (with_json_body BidSubmission payload_limit))
    (fun '(_, (_, submission)) => replying StatusReply (post_bids submission)).

Definition get_bids_route : Filter E Reply :=
  and_then
    (and (and
      (path_macro (exact ["relay"; "v1"; "data"; "bidtraces"; "builder_blocks_received"]))
      with_storage) (query from_query))
    (fun '(_, params) => replying BidsReply (get_bids params)).

(** ** The server *)

Context (rejection_debug : Rejection -> string).

(** [RelayHttpServer::start]: the filter that is served. *)
Definition http_server (signer : BlsSigner) : Filter E Reply :=
  let proposer_api :=
    or (or (or status_route post_blinded_blocks_route) (get_header_route signer))
      post_validators_route in
  let builder_api := or get_validators_route post_bids_route in
  let data_api := get_bids_route in
  with_cors_any_origin
    (recover (or (or proposer_api builder_api) data_api)
       (fun err => ErrReply (handle_rejection rejection_debug err))).

(** The server answers as the handler does: with its reply; for a rejection with the reply of the
    recovery, the one of the handler's error when the rejection carries one. *)
Definition answered_as {S : Type} (server handler : outcome (result Reply Rejection) * S) : Prop :=
  match handler with
  | (Val (Ok reply), s') => server = (Val (Ok reply), s')
  | (Val (Err e), s') => exists err, server = (Val (Ok (ErrReply err)), s') /\
      if existsb is_api_cause e then err = handle_rejection rejection_debug e
      else er_status err = INTERNAL_SERVER_ERROR
  | (Panics msg, s') => server = (Panics msg, s')
  end.

(** * The reference: what a request asks for, by its path *)

Inductive Endpoint : Type :=
| EpStatus
| EpBlindedBlocks
| EpHeader (slot : u64) (parent_hash : B256) (pubkey : BlsPublicKey)
| EpValidators
| EpDuties
| EpBlocks
| EpBids.

Definition endpoint_of (path : list string) : option Endpoint :=
  if decide (path = ["eth"; "v1"; "builder"; "status"]) then Some EpStatus
  else if decide (path = ["eth"; "v1"; "builder"; "blinded_blocks"]) then Some EpBlindedBlocks
  else if decide (path = ["eth"; "v1"; "builder"; "validators"]) then Some EpValidators
  else if decide (path = ["relay"; "v1"; "builder"; "validators"]) then Some EpDuties
  else if decide (path = ["relay"; "v1"; "builder"; "blocks"]) then Some EpBlocks
  else if decide (path = ["relay"; "v1"; "data"; "bidtraces"; "builder_blocks_received"])
  then Some EpBids
  else '(slot, parent_hash, pubkey) ← header_path path; Some (EpHeader slot parent_hash pubkey).

(** The body of a request, within the limit. *)
Definition read_body (T : Type) `{!FromBody T} (size_limit : Z) (rq : ServerRequest) :
  result T Cause :=
  let? _ := length_check size_limit rq in from_body rq.

(** A handler that needs a decoded input. *)
Definition with_input {T} (input : result T Cause)
    (h : T -> prog E (result Reply Rejection)) : prog E (result Reply Rejection) :=
  match input with Ok t => h t | Err c => Ret (Err [c]) end.

(** Only for [POST]. *)
Definition posted (rq : ServerRequest)
    (h : prog E (result Reply Rejection)) : prog E (result Reply Rejection) :=
  if (sq_method rq =? "POST")%string then h else Ret (Err [method_not_allowed]).

Definition serve_endpoint (signer : BlsSigner) (ep : Endpoint)
    (rq : ServerRequest) : prog E (result Reply Rejection) :=
  match ep with
  | EpStatus => replying StatusReply status
  | EpBlindedBlocks =>
      posted rq (with_input (read_body SignedBlindedBlock 8388608 rq)
        (fun block => replying PayloadReply (post_blinded_blocks block)))
  | EpHeader slot parent_hash pubkey =>
      replying HeaderReply (get_header slot parent_hash pubkey signer)
  | EpValidators =>
      posted rq (with_input (from_query rq) (fun query =>
        replying StatusReply
          (post_validators query (read_body (list ValidatorRegistration) 83886080 rq))))
  | EpDuties => replying DutiesReply get_validators
  | EpBlocks =>
      posted rq (with_input (read_body BidSubmission 8388608 rq)
        (fun submission => replying StatusReply (post_bids submission)))
  | EpBids => with_input (from_query rq) (fun params => replying BidsReply (get_bids params))
  end.
End routes.

(** * Properties *)

Section laws.
Context {X : Ext} {E : Type -> Type} `{!WarpCauses} {W : Warp E} {L : WarpLaws E}.

(** [p] rejects without any effect, for reasons of warp's own. *)
Definition rejects {A} (p : prog E (result A Rejection)) : Prop :=
  exists e, only_warp e /\ p ≡ Ret (Err e).

(** [p] is [q], up to warp's own causes around those of a rejection. *)
Definition framed {A} (p q : prog E (result A Rejection)) : Prop :=
  exists pre suf, only_warp pre /\ only_warp suf /\
    p ≡ let! r := q in Ret (map_err (fun e => pre ++ e ++ suf) r).

Lemma reject_only_warp : only_warp reject.
Proof. by constructor. Qed.

Lemma only_warp_app e1 e2 : only_warp e1 -> only_warp e2 -> only_warp (e1 ++ e2).
Proof. intros. by apply Forall_app. Qed.

Lemma rejects_or {A} (f g : Filter E A) rq :
  rejects (serve f rq) -> rejects (serve g rq) -> rejects (serve (or f g) rq).
Proof.
  intros (e1 & He1 & Hf) (e2 & He2 & Hg). exists (e1 ++ e2).
  split; [by apply only_warp_app |]. rewrite law_or, Hf. simpl. by rewrite Hg.
Qed.

Lemma framed_refl {A} (p : prog E (result A Rejection)) : framed p p.
Proof.
  exists [], []. split; [constructor |]. split; [constructor |].
  rewrite <-(bind_ret_r p) at 1. apply bind_proper; [done |]. intros [a|e]; simpl; [done |].
  by rewrite app_nil_r.
Qed.

Lemma framed_or_l {A} (f g : Filter E A) rq q :
  framed (serve f rq) q -> rejects (serve g rq) -> framed (serve (or f g) rq) q.
Proof.
  intros (pre & suf & Hpre & Hsuf & Hf) (e & He & Hg). exists pre, (suf ++ e).
  split; [done |]. split; [by apply only_warp_app |].
  rewrite law_or, Hf, bind_assoc. apply bind_proper; [done |]. intros [a|e']; simpl; [done |].
  rewrite Hg. simpl. by rewrite <-!app_assoc.
Qed.

Lemma framed_or_r {A} (f g : Filter E A) rq q :
  rejects (serve f rq) -> framed (serve g rq) q -> framed (serve (or f g) rq) q.
Proof.
  intros (e & He & Hf) (pre & suf & Hpre & Hsuf & Hg). exists (e ++ pre), suf.
  split; [by apply only_warp_app |]. split; [done |].
  rewrite law_or, Hf. simpl. rewrite Hg, bind_assoc. apply bind_proper; [done |].
  intros [a|e']; simpl; [done |]. by rewrite <-!app_assoc.
Qed.

Lemma rejects_path {A} (f : list string -> option A) rq :
  f (sq_path rq) = None -> rejects (serve (path_macro f) rq).
Proof.
  intros Hf. exists reject. split; [apply reject_only_warp |]. by rewrite law_path, Hf.
Qed.

Lemma rejects_and {A B} (f : Filter E A) (g : Filter E B) rq :
  rejects (serve f rq) -> rejects (serve (and f g) rq).
Proof. intros (e & He & Hf). exists e. split; [done |]. by rewrite law_and, Hf. Qed.

Lemma rejects_and_then {A B} (f : Filter E A) (h : A -> prog E (result B Rejection)) rq :
  rejects (serve f rq) -> rejects (serve (and_then f h) rq).
Proof. intros (e & He & Hf). exists e. split; [done |]. by rewrite law_and_then, Hf. Qed.

(** A rejection that comes from a route keeps its reply. *)
Lemma find_cause_framed {T} (as_ : Cause -> option T) pre r suf :
  (forall c, warp_cause c -> as_ c = None) -> only_warp pre -> only_warp suf ->
  find_cause as_ (pre ++ r ++ suf) = find_cause as_ r.
Proof.
  intros Has Hpre Hsuf. unfold find_cause.
  assert (forall l, only_warp l -> omap as_ l = []) as Hnil.
  { induction 1 as [|c l Hc _ IH]; simpl; [done |]. by rewrite Has. }
  rewrite !omap_app, (Hnil pre), (Hnil suf) by done. simpl. by rewrite app_nil_r.
Qed.

Lemma handle_rejection_framed debug pre r suf :
  only_warp pre -> only_warp suf ->
  if existsb is_api_cause r
  then handle_rejection debug (pre ++ r ++ suf) = handle_rejection debug r
  else er_status (handle_rejection debug (pre ++ r ++ suf)) = INTERNAL_SERVER_ERROR.
Proof.
  intros Hpre Hsuf. destruct (existsb is_api_cause r) eqn:Hr.
  - unfold handle_rejection. rewrite !(find_cause_framed _ pre r suf) by (done || by intros []).
    destruct (find_cause as_get_header r) eqn:H1; [done |].
    destruct (find_cause as_blinded r) eqn:H2; [done |].
    destruct (find_cause as_post_bids r) eqn:H3; [done |].
    destruct (find_cause as_get_bids r) eqn:H4; [done |].
    rewrite !find_cause_None, !Forall_forall in *.
    apply existsb_exists in Hr as (c & Hin%list_elem_of_In & Hc).
    destruct c; naive_solver.
  - assert (only_warp (pre ++ r ++ suf)) as Hw.
    { apply only_warp_app; [done |]. apply only_warp_app; [|done]. apply Forall_forall.
      intros c Hin. apply not_true_is_false. intros Hc. rewrite <-not_true_iff_false in Hr.
      apply Hr, existsb_exists. exists c. by rewrite <-list_elem_of_In. }
    unfold handle_rejection.
    rewrite !(proj2 (find_cause_None _ _)); [done | | | |];
      (eapply Forall_impl; [exact Hw |]); by intros [].
Qed.
End laws.

Section main.
Context {X : Ext} {E : Type -> Type} `{!Storage E} `{!Host E} `{!BeaconHandle E} `{!Auth E}.
Context `{!BuildProfile} `{!WarpCauses} {W : Warp E} {L : WarpLaws E}.
Context `{!FromQuery ApiKeyQuery} `{!FromQuery QueryParams}.
Context `{!FromBody BidSubmission} `{!FromBody SignedBlindedBlock}.
Context `{!FromBody (list ValidatorRegistration)}.

(** Unfolds what a chain of filters does, from the left. *)
Ltac prog_red := cbn [try_bind bind ok_or of_cause map_err result_bind].
Ltac serve_steps := repeat (first [rewrite law_and_then | rewrite law_and | rewrite law_path
  | rewrite law_post | rewrite law_any_map | rewrite law_query]; prog_red).

Lemma exact_refl segs : exact segs segs = Some tt.
Proof. unfold exact. by rewrite decide_True. Qed.

Lemma exact_ne segs path : path <> segs -> exact segs path = None.
Proof. intros. unfold exact. by rewrite decide_False. Qed.

Lemma serve_json_body (T : Type) `{!FromBody T} limit rq :
  serve (with_json_body (E:=E) T limit) rq ≡
  Ret (of_cause (let? t := read_body T limit rq in Ok (tt, t))).
Proof.
  unfold with_json_body, read_body. rewrite law_and, law_length.
  destruct (length_check limit rq) as [[]|c]; cbn; [|reflexivity].
  rewrite law_body_json. by destruct (from_body rq).
Qed.

(** Each route runs its handler on its own path and rejects any other. *)
Definition route_for (route : Filter E Reply) (path : list string)
    (h : ServerRequest -> prog E (result Reply Rejection)) : Prop :=
  forall rq, (sq_path rq = path -> serve route rq ≡ h rq) /\
             (sq_path rq <> path -> rejects (serve route rq)).

Lemma status_route_for :
  route_for status_route ["eth"; "v1"; "builder"; "status"]
    (fun _ => replying StatusReply status).
Proof.
  intros rq. split; intros Hp.
  - unfold status_route. serve_steps. by rewrite Hp, exact_refl.
  - by apply rejects_and_then, rejects_path, exact_ne.
Qed.

Lemma blinded_route_for :
  route_for post_blinded_blocks_route ["eth"; "v1"; "builder"; "blinded_blocks"]
    (fun rq => posted rq (with_input (read_body SignedBlindedBlock 8388608 rq)
       (fun block => replying PayloadReply (post_blinded_blocks block)))).
Proof.
  intros rq. split; intros Hp.
  - unfold post_blinded_blocks_route, posted. serve_steps. rewrite Hp, exact_refl. prog_red. serve_steps.
    destruct (sq_method rq =? "POST")%string; prog_red; [|done].
    unfold with_storage, with_beacon_handle. serve_steps. rewrite serve_json_body.
    by destruct (read_body _ _ _).
  - by apply rejects_and_then; do 4 apply rejects_and; apply rejects_path, exact_ne.
Qed.

Lemma validators_route_for :
  route_for post_validators_route ["eth"; "v1"; "builder"; "validators"]
    (fun rq => posted rq (with_input (from_query rq) (fun query =>
       replying StatusReply
         (post_validators query (read_body (list ValidatorRegistration) 83886080 rq))))).
Proof.
  intros rq. split; intros Hp.
  - unfold post_validators_route, posted. serve_steps. rewrite Hp, exact_refl. prog_red. serve_steps.
    destruct (sq_method rq =? "POST")%string; prog_red; [|done].
    serve_steps. destruct (from_query rq) as [query|c]; prog_red; [|done].
    unfold with_auth. serve_steps. unfold with_input, replying, post_validators, try_bind.
    rewrite !bind_assoc. apply bind_proper; [done |]. intros [api_key|e]; prog_red; [|done].
    unfold with_storage, with_beacon_handle. serve_steps. rewrite serve_json_body.
    by destruct (read_body _ _ _).
  - apply rejects_and_then. do 3 apply rejects_and. apply rejects_and_then.
    by do 3 apply rejects_and; apply rejects_path, exact_ne.
Qed.

Lemma duties_route_for :
  route_for get_validators_route ["relay"; "v1"; "builder"; "validators"]
    (fun _ => replying DutiesReply get_validators).
Proof.
  intros rq. split; intros Hp.
  - unfold get_validators_route. serve_steps. rewrite Hp, exact_refl. prog_red.
    unfold with_storage. by serve_steps.
  - by apply rejects_and_then, rejects_and, rejects_path, exact_ne.
Qed.

Lemma bids_route_for :
  route_for post_bids_route ["relay"; "v1"; "builder"; "blocks"]
    (fun rq => posted rq (with_input (read_body BidSubmission 8388608 rq)
       (fun submission => replying StatusReply (post_bids submission)))).
Proof.
  intros rq. split; intros Hp.
  - unfold post_bids_route, posted. serve_steps. rewrite Hp, exact_refl. prog_red. serve_steps.
    destruct (sq_method rq =? "POST")%string; prog_red; [|done].
    unfold with_storage. serve_steps. rewrite serve_json_body. by destruct (read_body _ _ _).
  - by apply rejects_and_then; do 3 apply rejects_and; apply rejects_path, exact_ne.
Qed.

Lemma get_bids_route_for :
  route_for get_bids_route ["relay"; "v1"; "data"; "bidtraces"; "builder_blocks_received"]
    (fun rq => with_input (from_query rq) (fun params => replying BidsReply (get_bids params))).
Proof.
  intros rq. split; intros Hp.
  - unfold get_bids_route. serve_steps. rewrite Hp, exact_refl. prog_red.
    unfold with_storage. serve_steps. by destruct (from_query rq).
  - by apply rejects_and_then; do 2 apply rejects_and; apply rejects_path, exact_ne.
Qed.

Lemma header_route_serves signer rq :
  match header_path (sq_path rq) with
  | Some (slot, hash, pubkey) => serve (get_header_route (E:=E) signer) rq ≡
      replying HeaderReply (get_header slot hash pubkey signer)
  | None => rejects (serve (get_header_route (E:=E) signer) rq)
  end.
Proof.
  destruct (header_path (sq_path rq)) as [[[slot hash] pubkey]|] eqn:Hp.
  - unfold get_header_route. serve_steps. rewrite Hp. prog_red.
    unfold with_storage, with_signer. by serve_steps.
  - by apply rejects_and_then; do 2 apply rejects_and; apply rejects_path.
Qed.

(** The header path is none of the others. *)
Lemma header_path_exact path segs :
  path = segs -> take 4 segs <> ["eth"; "v1"; "builder"; "header"] -> header_path path = None.
Proof. intros -> Hne. unfold header_path. by rewrite decide_False. Qed.

(** The composition of the routes, before the recovery. *)
Definition all_routes (signer : BlsSigner) : Filter E Reply :=
  or (or (or (or (or status_route post_blinded_blocks_route) (get_header_route signer))
            post_validators_route)
         (or get_validators_route post_bids_route))
     get_bids_route.

Lemma route_for_hit route path h rq q :
  route_for route path h -> sq_path rq = path -> q = h rq -> framed (serve route rq) q.
Proof.
  intros Hr Hp ->. destruct (framed_refl (h rq)) as (pre & suf & Hpre & Hsuf & Heq).
  exists pre, suf. split; [done |]. split; [done |]. by rewrite (proj1 (Hr rq) Hp).
Qed.

Lemma route_for_miss route path h rq :
  route_for route path h -> sq_path rq <> path -> rejects (serve route rq).
Proof. intros Hr. apply Hr. Qed.

End main.

(** Which of the alternatives of [or] answers, by the path of the request. *)
Ltac the_route :=
  first [apply status_route_for | apply blinded_route_for | apply validators_route_for
        | apply duties_route_for | apply bids_route_for | apply get_bids_route_for].
Ltac route_rejects :=
  lazymatch goal with
  | |- rejects (serve (or _ _) _) => apply rejects_or; route_rejects
  | |- rejects (serve (get_header_route _) _) => assumption
  | |- _ => eapply route_for_miss; [the_route | first [congruence | discriminate]]
  end.
Ltac route_framed :=
  lazymatch goal with
  | |- framed (serve (or _ _) _) _ =>
      first [apply framed_or_l; [route_framed | route_rejects]
            | apply framed_or_r; [route_rejects | route_framed]]
  | |- framed (serve (get_header_route _) _) _ => assumption
  | |- _ => eapply route_for_hit; [the_route | first [assumption | reflexivity] | reflexivity]
  end.

Section dispatch.
Context {X : Ext} {E : Type -> Type} `{!Storage E} `{!Host E} `{!BeaconHandle E} `{!Auth E}.
Context `{!BuildProfile} `{!WarpCauses} {W : Warp E} {L : WarpLaws E}.
Context `{!FromQuery ApiKeyQuery} `{!FromQuery QueryParams}.
Context `{!FromBody BidSubmission} `{!FromBody SignedBlindedBlock}.
Context `{!FromBody (list ValidatorRegistration)}.

Lemma header_route_misses signer rq segs :
  sq_path rq = segs -> take 4 segs <> ["eth"; "v1"; "builder"; "header"] ->
  rejects (serve (get_header_route (E:=E) signer) rq).
Proof.
  intros Hp Hne. pose proof (header_route_serves signer rq) as Hheader.
  by rewrite (header_path_exact _ _ Hp Hne) in Hheader.
Qed.

Lemma all_routes_serve signer rq :
  match endpoint_of (sq_path rq) with
  | Some ep => framed (serve (all_routes signer) rq) (serve_endpoint signer ep rq)
  | None => rejects (serve (all_routes signer) rq)
  end.
Proof.
  unfold endpoint_of, all_routes.
  repeat case_decide; simpl serve_endpoint;
    try (assert (rejects (serve (get_header_route (E:=E) signer) rq))
           by (by eapply header_route_misses); route_framed).
  pose proof (header_route_serves signer rq) as Hheader.
  destruct (header_path (sq_path rq)) as [[[slot hash] pubkey]|]; simpl; [|route_rejects].
  assert (framed (serve (get_header_route (E:=E) signer) rq)
    (replying HeaderReply (get_header (E:=E) slot hash pubkey signer))).
  { destruct (framed_refl (replying HeaderReply (get_header (E:=E) slot hash pubkey signer)))
      as (pre & suf & Hpre & Hsuf & Heq).
    exists pre, suf. split; [done |]. split; [done |]. by rewrite Hheader. }
  route_framed.
Qed.
End dispatch.

Section claims.
Context {X : Ext} {E : Type -> Type} `{!Storage E} `{!Host E} `{!BeaconHandle E} `{!Auth E}.
Context `{!BuildProfile} `{!WarpCauses} {W : Warp E} {L : WarpLaws E}.
Context `{!FromQuery ApiKeyQuery} `{!FromQuery QueryParams}.
Context `{!FromBody BidSubmission} `{!FromBody SignedBlindedBlock}.
Context `{!FromBody (list ValidatorRegistration)}.

Lemma all_routes_recover {S} (step : forall A, E A -> S -> A * S) debug signer rq s q
    (h : Rejection -> Rejection) :
  header_value "origin" rq = None ->
  serve (all_routes signer) rq ≡ (let! r := q in Ret (map_err h r)) ->
  run step (serve (http_server debug signer) rq) s =
  run step (let! r := q in Ret (match r with
    | Ok a => Ok a | Err e => Ok (ErrReply (handle_rejection debug (h e))) end)) s.
Proof.
  intros Horigin Heq. apply run_proper; [|done]. unfold http_server.
  rewrite law_cors by done. rewrite law_recover.
  change (or (or _ (or get_validators_route post_bids_route)) get_bids_route)
    with (all_routes signer).
  rewrite Heq, bind_assoc. apply bind_proper; [done |]. by intros [a|e].
Qed.

(** The endpoint of the path answers. *)
Lemma http_server_answers {S} (step : forall A, E A -> S -> A * S) debug signer rq s ep :
  header_value "origin" rq = None -> endpoint_of (sq_path rq) = Some ep ->
  answered_as debug (run step (serve (http_server debug signer) rq) s)
    (run step (serve_endpoint signer ep rq) s).
Proof.
  intros Horigin Hep. pose proof (all_routes_serve signer rq) as Hserve. rewrite Hep in Hserve.
  destruct Hserve as (pre & suf & Hpre & Hsuf & Heq). unfold answered_as.
  rewrite (all_routes_recover step debug signer rq s _ _ Horigin Heq), run_bind.
  destruct (run step (serve_endpoint signer ep rq) s) as [[[reply|e]|msg] s']; simpl; try done.
  eexists. split; [done |]. pose proof (handle_rejection_framed debug pre e suf Hpre Hsuf) as Hh.
  by destruct (existsb is_api_cause e).
Qed.

(** C7: the composed server is the direct dispatch on the path: whatever the effects mean, a
    request that is not cross-origin is served by the handler of its path alone, with its body
    and query decoded within the limits (the seven routes do not shadow each other); the reply
    of the handler is the reply of the server; a rejection that carries an error of a route is
    answered with that error exactly as if the route were alone, any other (a wrong method, an
    undecodable body, a refused key) with status 500; and a path that no route has is answered
    with status 500 without any effect. *)
Theorem http_server_dispatches {S} (step : forall A, E A -> S -> A * S) debug signer rq s :
  header_value "origin" rq = None ->
  let server := run step (serve (http_server debug signer) rq) s in
  match endpoint_of (sq_path rq) with
  | Some ep => answered_as debug server (run step (serve_endpoint signer ep rq) s)
  | None => exists err, server = (Val (Ok (ErrReply err)), s) /\
      er_status err = INTERNAL_SERVER_ERROR
  end.
Proof.
  intros Horigin server. pose proof (all_routes_serve signer rq) as Hserve.
  destruct (endpoint_of (sq_path rq)) as [ep|] eqn:Hep; [by apply http_server_answers |].
  destruct Hserve as (e & He & Heq). unfold server.
  rewrite (all_routes_recover step debug signer rq s (Ret (Err e)) id Horigin Heq).
  simpl. eexists. split; [done |].
  pose proof (handle_rejection_framed debug e [] [] He) as Hh. simpl in Hh.
  rewrite app_nil_r in Hh. apply Hh. constructor.
Qed.
End claims.
