(* ===== verification/MetricsServer.v ===== *)
(** The server of the metrics, [crates/http/src/server/metrics.rs]: the recorder of the
    Prometheus exporter is installed once and its snapshot is served on [GET /metrics]. *)

From S2P Require Import Prelude Prog External Types HttpErrors Warp Routes.

(** [metrics_exporter_prometheus]: the builder's [install_recorder], and [render]. *)
Class Prometheus (E : Type -> Type) := {
  PrometheusHandle : Type;
  install_recorder : prog E (result PrometheusHandle string);
  render : PrometheusHandle -> prog E string
}.

(** [warp::reply::with_header] over a text. *)
Record TextReply : Type := mkTextReply {
  tx_body : string;
  tx_header : string * string
}.

Section metrics_server.
Context `{Ext} {E : Type -> Type} `{!WarpCauses} `{!Warp E} {P : Prometheus E}.

(** [handlers::get_metrics] *)
Definition get_metrics (handle : PrometheusHandle (E:=E)) :
  prog E (result TextReply Rejection) :=
  let! metrics := render handle in
  Ret (Ok (mkTextReply metrics ("content-type", "text/plain; charset=UTF-8"))).

(** [filters::with_handle] *)
Definition with_handle (handle : PrometheusHandle (E:=E)) : Filter E PrometheusHandle :=
  any_map handle.

(** [MetricsServer::spawn]: the route, and the filter that is served or the error the function
    returns early with. *)
Definition metrics_route (handle : PrometheusHandle (E:=E)) : Filter E TextReply :=
  and_then (and (and (path_macro (exact ["metrics"])) get) (with_handle handle))
    (fun '(_, _, handle) => get_metrics handle).

Definition metrics_server_spawn : prog E (result (Filter E TextReply) string) :=
  let!? handle := install_recorder in Ret (Ok (metrics_route handle)).
End metrics_server.

Section main.
Context `{X : Ext} {E : Type -> Type} `{!WarpCauses} `{!Warp E} {L : WarpLaws E} {P : Prometheus E}.

(** [GET /metrics] answers with the snapshot of the recorder as plain text; another path or
    method is rejected by warp, without rendering anything. *)
Theorem metrics_server_serves handle rq :
  serve (metrics_route handle) rq ≡
  if decide (sq_path rq = ["metrics"]) then
    if (sq_method rq =? "GET")%string then
      let! metrics := render handle in
      Ret (Ok (mkTextReply metrics ("content-type", "text/plain; charset=UTF-8")))
    else Ret (Err [method_not_allowed])
  else Ret (Err reject).
Proof.
  unfold metrics_route. rewrite law_and_then, !law_and, law_path. unfold exact.
  case_decide; cbn [ok_or try_bind bind]; [|done]. rewrite law_get.
  destruct (sq_method rq =? "GET")%string; cbn [try_bind bind]; [|done].
  unfold with_handle. by rewrite law_any_map.
Qed.
End main.
