(* ===== verification/BeaconApi.v ===== *)
(** The client of the beacon node, [crates/beacon/src/api/mod.rs]: the trait [BeaconApi] of
    [crates/beacon/src/lib.rs] over HTTP. *)

From stdpp Require Import pretty.
From S2P Require Import Prelude Prog External Types Blst Signer BeaconTypes BeaconBlock World.
From S2P Require Import Ssz SszBlock Auth.

Section beacon_api.
Context `{Ext}.

(** The trait.  [new] is the constructor of each implementation. *)
Class BeaconApi (E : Type -> Type) := {
  api_sync_status : prog E (result BeaconSyncStatusResponse string);
  api_proposer_duties : u64 -> prog E (result ProposerDutiesResponse string);
  api_publish_block : SignedBeaconBlockContent -> SubmissionType -> prog E (result unit string);
  api_get_fork_data : prog E (result GetForkResponse string);
  api_get_known_validator : BlsPublicKey -> prog E (result KnownValidatorResponse string)
}.

Definition SYNC_STATUS_PATH : string := "eth/v1/node/syncing".
Definition PROPOSER_DUTIES_PATH : string := "eth/v1/validator/duties/proposer/".
Definition PUBLISH_BLOCK : string := "eth/v1/beacon/blocks".
Definition GET_FORK_DATA : string := "eth/v2/debug/beacon/states/head".
Definition GET_VALIDATOR : string := "eth/v1/beacon/states/head/validators/".

Record BeaconNodeApi : Type := mkBeaconNodeApi { bn_url : string }.

Record ApiErrorResponse : Type := mkApiErrorResponse {
  ae_code : Z;
  ae_message : string;
  ae_stacktraces : list string
}.

(** [StatusCode::is_success] *)
Definition is_success (status : Z) : bool := ((200 <=? status) && (status <? 300))%Z.

Section node.
Context {E : Type -> Type} `{!HttpClient E} `{!FromJson ApiErrorResponse} `{!SszLib}.
Context (self : BeaconNodeApi).

Definition get_api_response {T} `{!FromJson T} (path : string) : prog E (result T string) :=
  let url := bn_url self +:+ path in
  let!? resp := http_send (mkHttpRequest GET url [] NoBody) in
  if is_success (rs_status resp) then Ret (response_json resp)
  else
    let!? error_resp := Ret (response_json (T:=ApiErrorResponse) resp) in
    Ret (Err ("API error: code " +:+ pretty (ae_code error_resp) +:+ ", message: " +:+
              ae_message error_resp)).

(** The body is sent in one of two encodings; the status of the answer is not looked at. *)
Definition post_api_response {B} `{!ToJson B} `{!SszEnc B} (path : string) (body : B)
    (submission_type : SubmissionType) : prog E (result unit string) :=
  let url := bn_url self +:+ path in
  let headers := [("Eth-Consensus-Version", fork_name_display Deneb)] in
  let!? _ :=
    match submission_type with
    | Json => http_send (mkHttpRequest POST url headers (JsonBody (to_json body)))
    | Ssz =>
        let headers := headers ++ [("content-type", "application/octet-stream")] in
        http_send (mkHttpRequest POST url headers (RawBody (derived_ssz_bytes body)))
    end in
  Ret (Ok tt).

Context `{!FromJson BeaconSyncStatusResponse} `{!FromJson ProposerDutiesResponse}
  `{!FromJson GetForkResponse} `{!FromJson KnownValidatorResponse}
  `{!ToJson SignedBeaconBlockContent}.

Definition beacon_node_api : BeaconApi E := {|
  api_sync_status := get_api_response SYNC_STATUS_PATH;
  api_proposer_duties epoch := get_api_response (PROPOSER_DUTIES_PATH +:+ pretty epoch);
  api_publish_block block submission_type :=
    let!? _ := post_api_response PUBLISH_BLOCK block submission_type in Ret (Ok tt);
  api_get_fork_data := get_api_response GET_FORK_DATA;
  api_get_known_validator pubkey := get_api_response (GET_VALIDATOR +:+ pk_display pubkey)
|}.
End node.
End beacon_api.

Section laws.
Context {X : Ext} `{!FromJson ApiErrorResponse} `{!SszLib}.

(** A GET succeeds exactly on a 2xx answer whose body parses. *)
Lemma get_api_response_run {T} `{!FromJson T} self path w :
  let req := mkHttpRequest GET (bn_url self +:+ path) [] NoBody in
  exists r, run_relay (get_api_response self path) w = (Val r, w) /\
  forall t : T, r = Ok t <-> exists resp,
    out_http (w_out w) req = Ok resp /\ is_success (rs_status resp) = true /\
    response_json resp = Ok t.
Proof.
  intros req. unfold run_relay, get_api_response. cbn. fold req.
  destruct (out_http (w_out w) req) as [resp|e]; cbn.
  2:{ eexists; split; [done |]. intros t; split; [done | by intros (? & ? & _)]. }
  destruct (is_success (rs_status resp)) eqn:Hs; cbn.
  - eexists; split; [done |]. intros t; split.
    + intros Ht. by exists resp.
    + by intros (? & [= <-] & _ & ->).
  - destruct (response_json (T:=ApiErrorResponse) resp); cbn; (eexists; split; [done |]);
      (intros t; split; [done | intros (? & [= <-] & ? & _); congruence]).
Qed.

(** The request of a POST. *)
Definition post_request {B} `{!ToJson B} `{!SszEnc B} (self : BeaconNodeApi) (path : string)
    (body : B) (t : SubmissionType) : HttpRequest :=
  let version := ("Eth-Consensus-Version", "deneb") in
  match t with
  | Json => mkHttpRequest POST (bn_url self +:+ path) [version] (JsonBody (to_json body))
  | Ssz =>
      mkHttpRequest POST (bn_url self +:+ path)
        [version; ("content-type", "application/octet-stream")]
        (RawBody (derived_ssz_bytes body))
  end.

(** A POST succeeds as soon as it is answered, whatever the status. *)
Lemma post_api_response_run {B} `{!ToJson B} `{!SszEnc B} self path (body : B) t w :
  run_relay (post_api_response self path body t) w =
  (Val (result_map (fun _ => tt) (out_http (w_out w) (post_request self path body t))), w).
Proof.
  unfold run_relay, post_api_response.
  destruct t; cbn; destruct (out_http _ _); reflexivity.
Qed.
End laws.

Section main.
Context {X : Ext} `{!FromJson ApiErrorResponse} `{!SszLib}
  `{!FromJson BeaconSyncStatusResponse} `{!FromJson ProposerDutiesResponse}
  `{!FromJson GetForkResponse} `{!FromJson KnownValidatorResponse}
  `{!ToJson SignedBeaconBlockContent}.

Lemma publish_block_run self block t w :
  run_relay (api_publish_block (BeaconApi:=beacon_node_api self) block t) w =
  (Val (result_map (fun _ => tt) (out_http (w_out w) (post_request self PUBLISH_BLOCK block t))), w).
Proof.
  cbn [api_publish_block beacon_node_api]. unfold run_relay. rewrite run_try_bind.
  pose proof (post_api_response_run self PUBLISH_BLOCK block t w) as Hrun.
  unfold run_relay in Hrun. rewrite Hrun. by destruct (out_http _ _).
Qed.

(** Publishing a block reports success as soon as the beacon node answers the POST, whatever
    the status of the answer: a node that refuses the block is indistinguishable from one that
    accepts it. *)
Theorem publish_ignores_status self block t w :
  run_relay (api_publish_block (BeaconApi:=beacon_node_api self) block t) w =
  (Val (match out_http (w_out w) (post_request self PUBLISH_BLOCK block t) with
        | Ok _ => Ok tt
        | Err e => Err e
        end), w).
Proof. rewrite publish_block_run. by destruct (out_http _ _). Qed.

(** C39: a block published as SSZ is received as it is: the body of the request decodes, under the
    types the derives list, to the value of the block, and no other block has the same body: one
    that had would agree on every field (signatures on their bytes), so that its slot, payload,
    proofs and blobs would be equal. *)
Theorem published_block_decodes {L : ExtLaws X} {S : SszLibLaws _} self c w :
  encodable c ->
  exists b,
    (run_relay (api_publish_block (BeaconApi:=beacon_node_api self) c Ssz) w).1 =
    Val (result_map (fun _ => tt) (out_http (w_out w)
      (mkHttpRequest POST (bn_url self +:+ PUBLISH_BLOCK)
         [("Eth-Consensus-Version", "deneb"); ("content-type", "application/octet-stream")]
         (RawBody b)))) /\
    ssz_decode (ssz_ty SignedBeaconBlockContent) b = Some (ssz_val c) /\
    forall d, encodable d -> derived_ssz_bytes d = b ->
      ssz_eq d c /\ sc_slot d = sc_slot c /\ sc_execution_payload d = sc_execution_payload c /\
      sc_kzg_proofs d = sc_kzg_proofs c /\ sc_blobs d = sc_blobs c.
Proof.
  intros Hc. exists (derived_ssz_bytes c). split; [|split; [by apply derived_bytes_decode |]].
  - by rewrite publish_block_run.
  - intros d Hd Heq. assert (ssz_eq d c) as Hsame by by apply derived_bytes_inj.
    destruct (content_ssz_eq d c Hsame) as (? & ? & ? & ? & _). done.
Qed.
End main.
