(* ===== verification/JsonApi.v ===== *)
(** JSON on the wire: the bodies of the requests the HTTP server reads and of the answers it
    writes, and those exchanged with the beacon node and the auth service.  The text of a value is
    made and read by [serde_json], the parameter [SerdeJson]. *)

From stdpp Require Import pretty.
From S2P Require Import Prelude Prog External Types Blst Signer BeaconTypes BeaconBlock.
From S2P Require Import StorageTypes Header Storage Metrics World HttpErrors Warp Ssz SszBlock.
From S2P Require Import PostBids Auth GetHeader BlindedBlocks PostValidators DataApi Routes.
From S2P Require Import Json JsonTypes BeaconApi.

(** * Texts *)

(** [serde_json::to_string], [serde_json::from_str], and the message of an error. *)
Class SerdeJson := {
  json_print : JsonValue -> string;
  json_parse : string -> option JsonValue;
  json_error : string -> string
}.

Class SerdeJsonLaws (J : SerdeJson) : Prop :=
  json_parse_print : forall j, json_parse (json_print j) = Some j.

Section texts.
Context `{!SerdeJson}.

Definition json_to_string {T} `{!Serde T} (a : T) : string := json_print (ser a).
Definition json_from_str {T} `{!Serde T} (text : string) : option T := j ← json_parse text; de j.

(** The bodies of the HTTP clients. *)
#[export] Instance json_to_json {T} `{!Serde T} : ToJson T := json_to_string.
#[export] Instance json_from_json {T} `{!Serde T} : FromJson T := fun text =>
  ok_or (json_from_str text) (json_error text).

(** [warp::body::json] on a request that declares JSON: the body parsed, or a cause of warp's. *)
Class BodyOfJson {X : Ext} (T : Type) `{!FromBody T} `{!Serde T} : Prop :=
  from_body_json : forall rq, header_value "content-type" rq = Some "application/json"%string ->
    match json_from_str (sq_body rq) with
    | Some a => from_body rq = Ok a
    | None => exists c, from_body rq = Err c /\ warp_cause c
    end.

Context `{Ext} `{!SerdeLib}.

(** The other structs of the clients ([auth/src/lib.rs], [beacon/src/api/mod.rs]). *)
#[export] Instance mbs_user_serde : Serde MbsUser := derive_serde mkMbsUser
  ("teamId" ~> mu_team_id as (lib_serde (fun u => u < 2 ^ 128)%N uuid_codec),,
   "id" ~> mu_id as (lib_serde (fun u => u < 2 ^ 128)%N uuid_codec),, FNil).

#[export] Instance secret_body_serde : Serde SecretBody :=
  derive_serde mkSecretBody ("secret" ~> sb_secret,, FNil).

#[export] Instance api_error_response_serde : Serde ApiErrorResponse :=
  derive_serde mkApiErrorResponse
  ("code" ~> ae_code as (uint_number 65536),,
   "message" ~> ae_message,,
   "stacktraces" ~> ae_stacktraces,, FNil).

(** The text of a reply: [warp::reply::json] of the value; a status comes with the text OK. *)
Definition reply_body (r : Reply) : string :=
  match r with
  | StatusReply _ => "OK"
  | HeaderReply h => json_to_string h
  | PayloadReply p => json_to_string p
  | DutiesReply l => json_to_string l
  | BidsReply l => json_to_string l
  | ErrReply e => json_to_string (er_json e)
  end.
End texts.

Section laws.
Context {X : Ext} {L : ExtLaws X} {S : SerdeLib} {SL : SerdeLibLaws S}.
Context {J : SerdeJson} {JL : SerdeJsonLaws J}.

#[export] Instance mbs_user_serde_laws : SerdeLaws mbs_user_serde.
Proof. solve_serde. Qed.
#[export] Instance secret_body_serde_laws : SerdeLaws secret_body_serde.
Proof. solve_serde. Qed.
#[export] Instance api_error_response_serde_laws : SerdeLaws api_error_response_serde.
Proof. solve_serde. Qed.

Lemma json_text_roundtrip {T} (s : Serde T) (a : T) :
  SerdeLaws s -> serde_ok a -> json_from_str (json_to_string a) = Some a.
Proof.
  intros Hs Ha. unfold json_from_str, json_to_string. rewrite json_parse_print. cbn. by apply Hs.
Qed.
End laws.

(** * Requests *)

(** A request for [path] that posts the JSON text [body], within the limit, from no other origin. *)
Record json_post (limit : Z) (path : list string) (body : string) (rq : ServerRequest) : Prop := {
  jp_origin : header_value "origin" rq = None;
  jp_method : sq_method rq = "POST"%string;
  jp_path : sq_path rq = path;
  jp_type : header_value "content-type" rq = Some "application/json"%string;
  jp_length : exists n, content_length rq = Some n /\ (n <= limit)%Z;
  jp_body : sq_body rq = body
}.

Section requests.
Context {X : Ext} {L : ExtLaws X} {S : SerdeLib} {SL : SerdeLibLaws S}.
Context {J : SerdeJson} {JL : SerdeJsonLaws J}.
Context {E : Type -> Type} `{!Storage E} `{!Host E} `{!BeaconHandle E} `{!Auth E}.
Context `{!BuildProfile} `{!WarpCauses} {W : Warp E} {WL : WarpLaws E}.
Context `{!FromQuery ApiKeyQuery} `{!FromQuery QueryParams}.
Context `{!FromBody BidSubmission} `{!FromBody SignedBlindedBlock}.
Context `{!FromBody (list ValidatorRegistration)}.
Context {JB1 : BodyOfJson BidSubmission} {JB2 : BodyOfJson SignedBlindedBlock}.
Context {JB3 : BodyOfJson (list ValidatorRegistration)}.

(** What the body filter reads. *)
Lemma read_json_body {T} `{!FromBody T} {s : Serde T} {JB : BodyOfJson T} limit path body rq :
  json_post limit path body rq ->
  match json_from_str body with
  | Some a => read_body T limit rq = Ok a
  | None => exists c, read_body T limit rq = Err c /\ warp_cause c
  end.
Proof.
  intros Hrq. destruct (jp_length _ _ _ _ Hrq) as (n & Hn & Hle).
  pose proof (from_body_json rq (jp_type _ _ _ _ Hrq)) as Hb. rewrite (jp_body _ _ _ _ Hrq) in Hb.
  unfold read_body, length_check. rewrite Hn, (proj2 (Z.leb_le _ _) Hle). exact Hb.
Qed.

(** A posted body that is not the JSON of an element of the type is answered with status 500, and
    the handler is not run. *)
Lemma undecodable_body {T A} `{!FromBody T} {s : Serde T} {JB : BodyOfJson T} (step : forall B, E B -> A -> B * A)
    debug limit path body rq (h : T -> prog E (result Reply Rejection)) server st :
  json_post limit path body rq -> json_from_str (T:=T) body = None ->
  answered_as debug server (run step (posted rq (with_input (read_body T limit rq) h)) st) ->
  exists err, server = (Val (Ok (ErrReply err)), st) /\ er_status err = INTERNAL_SERVER_ERROR.
Proof.
  intros Hrq Hbody. pose proof (read_json_body limit path body rq Hrq) as Hread.
  rewrite Hbody in Hread. destruct Hread as (c & Hread & Hc).
  unfold posted. rewrite (jp_method _ _ _ _ Hrq), Hread. cbn.
  unfold warp_cause in Hc. by rewrite Hc.
Qed.
End requests.

(** The JSON of a submission whose blobs are hexadecimal strings, as the builder and the beacon
    APIs of Ethereum write them. *)
Definition submission_with_hex_blobs {X : Ext} {S : SerdeLib} (sub : BidSubmission)
    (blobs : list string) : JsonValue :=
  JObject
    [("message", ser (bs_message sub));
     ("execution_payload", ser (bs_execution_payload sub));
     ("blobs_bundle", JObject
        [("commitments", ser (bb_commitments (bs_blobs_bundle sub)));
         ("proofs", ser (Serde:=variable_list 4096 kzg_serde) (bb_proofs (bs_blobs_bundle sub)));
         ("blobs", JArray (JString <$> blobs))]);
     ("signature", ser (bs_signature sub))]%string.

Section hex_blobs.
Context {X : Ext} {S : SerdeLib}.

Lemma bind_never {A B} (o : option A) (f : A -> option B) :
  (forall a, f a = None) -> o ≫= f = None.
Proof. intros Hf. destruct o; [apply Hf | done]. Qed.

Lemma hex_bundle_undecodable jc jp b blobs :
  de (Serde:=blobs_bundle_serde) (JObject (zip ["commitments"; "proofs"; "blobs"]%string
    [jc; jp; JArray (JString b :: blobs)])) = None.
Proof.
  cbn [de blobs_bundle_serde derive_serde field_names].
  rewrite struct_values_zip; [|apply (bool_decide_eq_true_1 _); vm_compute; reflexivity | done].
  cbn. do 2 (apply bind_never; intros ?). done.
Qed.

(** Such a submission is not one for the relay. *)
Lemma hex_blobs_undecodable sub b blobs :
  de (Serde:=bid_submission_serde) (submission_with_hex_blobs sub (b :: blobs)) = None.
Proof.
  unfold submission_with_hex_blobs. pose proof (hex_bundle_undecodable
    (ser (bb_commitments (bs_blobs_bundle sub)))
    (ser (Serde:=variable_list 4096 kzg_serde) (bb_proofs (bs_blobs_bundle sub)))
    b (JString <$> blobs)) as Hbundle.
  cbn [zip zip_with] in Hbundle.
  change (JObject _) with (JObject (zip ["message"; "execution_payload"; "blobs_bundle";
    "signature"]%string [ser (bs_message sub); ser (bs_execution_payload sub);
      JObject [("commitments", ser (bb_commitments (bs_blobs_bundle sub)));
         ("proofs", ser (Serde:=variable_list 4096 kzg_serde) (bb_proofs (bs_blobs_bundle sub)));
         ("blobs", JArray (JString <$> (b :: blobs)))]%string; ser (bs_signature sub)])).
  cbn [de bid_submission_serde derive_serde field_names].
  rewrite struct_values_zip; [|apply (bool_decide_eq_true_1 _); vm_compute; reflexivity | done].
  cbn [mbind option_bind de_fields]. do 2 (apply bind_never; intros ?).
  change (JArray (JString <$> b :: blobs)) with (JArray (JString b :: (JString <$> blobs))).
  by rewrite Hbundle.
Qed.
End hex_blobs.

Section claims.
Context {X : Ext} {L : ExtLaws X} {S : SerdeLib} {SL : SerdeLibLaws S}.
Context {J : SerdeJson} {JL : SerdeJsonLaws J}.
Context {E : Type -> Type} `{!Storage E} `{!Host E} `{!BeaconHandle E} `{!Auth E}.
Context `{!BuildProfile} `{!WarpCauses} {W : Warp E} {WL : WarpLaws E}.
Context `{!FromQuery ApiKeyQuery} `{!FromQuery QueryParams}.
Context `{!FromBody BidSubmission} `{!FromBody SignedBlindedBlock}.
Context `{!FromBody (list ValidatorRegistration)}.
Context {JB1 : BodyOfJson BidSubmission} {JB2 : BodyOfJson SignedBlindedBlock}.
Context {JB3 : BodyOfJson (list ValidatorRegistration)}.

(** The endpoint of the path answers a posted request. *)
Lemma endpoint_answers {A} (step : forall B, E B -> A -> B * A) debug signer rq st limit path body ep :
  json_post limit path body rq -> endpoint_of path = Some ep ->
  answered_as debug (run step (serve (http_server debug signer) rq) st)
    (run step (serve_endpoint signer ep rq) st).
Proof.
  intros Hrq Hep. apply http_server_answers; [apply (jp_origin _ _ _ _ Hrq) |].
  by rewrite (jp_path _ _ _ _ Hrq).
Qed.

Lemma read_json_value {T} `{!FromBody T} {s : Serde T} {JB : BodyOfJson T} limit path (a : T) rq :
  SerdeLaws s -> serde_ok a -> json_post limit path (json_to_string a) rq ->
  read_body T limit rq = Ok a /\ (sq_method rq =? "POST")%string = true.
Proof.
  intros Hs Ha Hrq. pose proof (read_json_body limit path _ rq Hrq (T:=T)) as Hread.
  rewrite json_text_roundtrip in Hread by done. by rewrite (jp_method _ _ _ _ Hrq).
Qed.

(** C35: the JSON of a value is what its handler works on: a posted submission, signed blinded block
    or list of registrations, written by the same derives, is read back and the server answers
    as the handler of the endpoint does on that very value. *)
Theorem json_requests_reach_handlers {A} (step : forall B, E B -> A -> B * A) debug signer rq st :
  let server := run step (serve (http_server debug signer) rq) st in
  (forall sub : BidSubmission, serde_ok sub ->
     json_post 8388608 ["relay"; "v1"; "builder"; "blocks"] (json_to_string sub) rq ->
     answered_as debug server (run step (replying StatusReply (post_bids sub)) st)) /\
  (forall block : SignedBlindedBlock, serde_ok block ->
     json_post 8388608 ["eth"; "v1"; "builder"; "blinded_blocks"] (json_to_string block) rq ->
     answered_as debug server
       (run step (replying PayloadReply (post_blinded_blocks block)) st)) /\
  (forall (regs : list ValidatorRegistration) key, serde_ok regs -> from_query rq = Ok key ->
     json_post 83886080 ["eth"; "v1"; "builder"; "validators"] (json_to_string regs) rq ->
     answered_as debug server
       (run step (replying StatusReply (post_validators key (Ok regs))) st)).
Proof.
  intros server. split_and!; intros a.
  - intros Ha Hrq. pose proof (endpoint_answers step debug signer rq st _ _ _ EpBlocks Hrq eq_refl).
    destruct (read_json_value _ _ a rq _ Ha Hrq) as [Hread Hpost].
    cbn [serve_endpoint] in *. unfold posted in *. by rewrite Hpost, Hread in *.
  - intros Ha Hrq.
    pose proof (endpoint_answers step debug signer rq st _ _ _ EpBlindedBlocks Hrq eq_refl).
    destruct (read_json_value _ _ a rq _ Ha Hrq) as [Hread Hpost].
    cbn [serve_endpoint] in *. unfold posted in *. by rewrite Hpost, Hread in *.
  - intros key Ha Hkey Hrq.
    pose proof (endpoint_answers step debug signer rq st _ _ _ EpValidators Hrq eq_refl).
    destruct (read_json_value _ _ a rq _ Ha Hrq) as [Hread Hpost].
    cbn [serve_endpoint] in *. unfold posted in *. by rewrite Hpost, Hread, Hkey in *.
Qed.

(** C38: the blobs of a submission are read and written as arrays of numbers, one per byte, not as the
    hexadecimal strings of the builder API: a submission whose blobs are such strings is answered
    with status 500 and changes nothing, and the blobs of a payload that is given to a proposer
    are arrays of numbers. *)
Theorem hex_blobs_refused {A} (step : forall B, E B -> A -> B * A) debug signer rq st
    sub b blobs :
  json_post 8388608 ["relay"; "v1"; "builder"; "blocks"]
    (json_print (submission_with_hex_blobs sub (b :: blobs))) rq ->
  (exists err, run step (serve (http_server debug signer) rq) st = (Val (Ok (ErrReply err)), st) /\
     er_status err = INTERNAL_SERVER_ERROR) /\
  struct_values ["commitments"; "proofs"; "blobs"] (ser (bs_blobs_bundle sub)) = Some
    [ser (bb_commitments (bs_blobs_bundle sub));
     ser (Serde:=variable_list 4096 kzg_serde) (bb_proofs (bs_blobs_bundle sub));
     JArray ((fun blob => JArray ((fun x => JNumber (byte_val x)) <$> blob))
               <$> bb_blobs (bs_blobs_bundle sub))].
Proof.
  intros Hrq. split.
  - apply (undecodable_body (T:=BidSubmission) step debug _ _ _ rq
      (fun sub => replying StatusReply (post_bids sub)) _ st Hrq).
    + unfold json_from_str. rewrite json_parse_print. cbn [mbind option_bind].
      apply hex_blobs_undecodable.
    + exact (endpoint_answers step debug signer rq st _ _ _ EpBlocks Hrq eq_refl).
  - apply (struct_values_zip ["commitments"; "proofs"; "blobs"]); [|done].
    apply (bool_decide_eq_true_1 _); vm_compute; reflexivity.
Qed.
End claims.

Section exchanges.
Context {X : Ext} {L : ExtLaws X} {S : SerdeLib} {SL : SerdeLibLaws S}.
Context {J : SerdeJson} {JL : SerdeJsonLaws J} `{!SszLib}.

(** A 2xx answer of the node with the JSON of a value is that value. *)
Lemma node_answer_decodes {T} (s : Serde T) (self : BeaconNodeApi) path (a : T) resp w :
  SerdeLaws s -> serde_ok a ->
  out_http (w_out w) (mkHttpRequest GET (bn_url self +:+ path) [] NoBody) = Ok resp ->
  is_success (rs_status resp) = true -> rs_text resp = Ok (json_to_string a) ->
  run_relay (get_api_response (T:=T) self path) w = (Val (Ok a), w).
Proof.
  intros Hs Ha Hresp Hok Htext. destruct (get_api_response_run (T:=T) self path w) as (r & Hr & Hiff).
  rewrite Hr. do 2 f_equal. apply Hiff. exists resp. split; [done |]. split; [done |].
  unfold response_json. rewrite Htext. cbn. unfold from_json, json_from_json.
  by rewrite json_text_roundtrip.
Qed.

(** C36: what the relay says in JSON is understood, and it understands what it is told: the text of
    a reply decodes to the header, payload, duties or bids it was made of; the block published as
    JSON decodes to the block; the JSON of the node's duties or validator, in a 2xx answer, is
    the answer of the call. *)
Theorem json_exchanges_decode (self : BeaconNodeApi) w :
  (forall h : Versioned SignedHeader, serde_ok h ->
     json_from_str (reply_body (HeaderReply h)) = Some h) /\
  (forall p : Versioned BlindedBlockResponse, serde_ok p ->
     json_from_str (reply_body (PayloadReply p)) = Some p) /\
  (forall l : list Validator, serde_ok l -> json_from_str (reply_body (DutiesReply l)) = Some l) /\
  (forall l : list BidSubmission, serde_ok l -> json_from_str (reply_body (BidsReply l)) = Some l) /\
  (forall c : SignedBeaconBlockContent, serde_ok c -> exists text,
     json_from_str text = Some c /\
     (run_relay (api_publish_block (BeaconApi:=beacon_node_api self) c Json) w).1 =
     Val (result_map (fun _ => tt) (out_http (w_out w)
       (mkHttpRequest POST (bn_url self +:+ PUBLISH_BLOCK)
          [("Eth-Consensus-Version", "deneb")] (JsonBody text))))) /\
  (forall (d : ProposerDutiesResponse) epoch resp, serde_ok d ->
     out_http (w_out w) (mkHttpRequest GET
       (bn_url self +:+ (PROPOSER_DUTIES_PATH +:+ pretty epoch)) [] NoBody) = Ok resp ->
     is_success (rs_status resp) = true -> rs_text resp = Ok (json_to_string d) ->
     run_relay (api_proposer_duties (BeaconApi:=beacon_node_api self) epoch) w = (Val (Ok d), w)) /\
  (forall (v : KnownValidatorResponse) pubkey resp, serde_ok v ->
     out_http (w_out w) (mkHttpRequest GET
       (bn_url self +:+ (GET_VALIDATOR +:+ pk_display pubkey)) [] NoBody) = Ok resp ->
     is_success (rs_status resp) = true -> rs_text resp = Ok (json_to_string v) ->
     run_relay (api_get_known_validator (BeaconApi:=beacon_node_api self) pubkey) w =
     (Val (Ok v), w)).
Proof.
  split_and!.
  1-4: intros a Ha; apply json_text_roundtrip; [apply _ | exact Ha].
  - intros c Hc. exists (json_to_string c). split; [apply json_text_roundtrip; [apply _ | done] |].
    by rewrite publish_block_run.
  - intros d epoch resp. apply node_answer_decodes. apply _.
  - intros v pubkey resp. apply node_answer_decodes. apply _.
Qed.
End exchanges.
