(* ===== verification/BeaconService.v ===== *)
(** The beacon service and its handle, [crates/beacon/src/service/]: a task that owns the
    client of the beacon node and answers commands.  A handle sends a command over an
    unbounded channel with a oneshot sender; the service sends back the future of the API
    call, which the caller awaits. *)

From S2P Require Import Prelude Prog External Types Blst Signer BeaconTypes BeaconBlock World.
From S2P Require Import BeaconApi.

Section service.
Context `{Ext}.

(** The boxed futures: the API call each will make when it is awaited. *)
Inductive ApiFuture : Type :=
| SyncStatusFuture
| ForkDataFuture
| ProposerDutyFuture (epoch : u64)
| KnownValidatorFuture (pubkey : BlsPublicKey)
| PublishBlockFuture (block : SignedBeaconBlockContent) (t : SubmissionType).

(** [BeaconCommands]; a oneshot channel is named by a number. *)
Inductive BeaconCommands : Type :=
| CmdSyncStatus (tx : nat)
| CmdForkData (tx : nat)
| CmdProposerDuties (epoch : u64) (tx : nat)
| CmdKnownValidator (pubkey : BlsPublicKey) (tx : nat)
| CmdPublishBlock (block : SignedBeaconBlockContent) (t : SubmissionType) (tx : nat).

Inductive BeaconServiceErr : Type := BrokenRecvChannel | BrokenSendChannel.

(** A oneshot channel: nothing sent yet, a future sent, or the receiver dropped. *)
Inductive Oneshot : Type := OsEmpty | OsSent (f : ApiFuture) | OsClosed.

Record BeaconState : Type := mkBeaconState {
  bs_queue : list BeaconCommands;        (* the command channel *)
  bs_oneshots : gmap nat Oneshot;
  bs_next : nat;                         (* the next oneshot channel *)
  bs_running : bool                      (* the service task still exists *)
}.

(** [BeaconService::new] *)
Definition beacon_service_new : BeaconState := mkBeaconState [] ∅ 0 true.

(** ** The service *)

Definition svc_sync_status : ApiFuture := SyncStatusFuture.
Definition svc_get_fork_data : ApiFuture := ForkDataFuture.
Definition svc_get_known_validator (pubkey : BlsPublicKey) : ApiFuture :=
  KnownValidatorFuture pubkey.
Definition svc_proposer_duties (epoch : u64) : ApiFuture := ProposerDutyFuture epoch.
Definition svc_publish_block (block : SignedBeaconBlockContent) (t : SubmissionType) : ApiFuture :=
  PublishBlockFuture block t.

(** [let _ = tx.send(fut)]: lost when the receiver is gone. *)
Definition oneshot_send (tx : nat) (fut : ApiFuture) (s : BeaconState) : BeaconState :=
  match bs_oneshots s !! tx with
  | Some OsEmpty =>
      mkBeaconState (bs_queue s) (<[tx := OsSent fut]> (bs_oneshots s)) (bs_next s) (bs_running s)
  | _ => s
  end.

Definition handle_command (command : BeaconCommands) (s : BeaconState) : BeaconState :=
  match command with
  | CmdSyncStatus tx => oneshot_send tx svc_sync_status s
  | CmdKnownValidator pubkey tx => oneshot_send tx (svc_get_known_validator pubkey) s
  | CmdForkData tx => oneshot_send tx svc_get_fork_data s
  | CmdProposerDuties epoch tx => oneshot_send tx (svc_proposer_duties epoch) s
  | CmdPublishBlock block t tx => oneshot_send tx (svc_publish_block block t) s
  end.

(** The answers of the receiver: a command, with what is left of the budget; nothing until a
    command is sent; or nothing until the task is polled again, which it has asked for. *)
Inductive RxPoll : Type :=
| RxReady (command : BeaconCommands) (s : BeaconState) (budget : nat)
| RxEmpty
| RxYield.

(** [self.command_rx.poll_next_unpin(cx)]: the service keeps a sender itself, so the channel
    is never closed.  The runtime gives a task a budget of operations for each poll, of which
    every command that is received takes one; without any left the receiver answers
    [Pending], even if commands are there, and wakes the task. *)
Definition command_rx_poll (budget : nat) (s : BeaconState) : RxPoll :=
  match budget with
  | O => RxYield
  | S budget =>
      match bs_queue s with
      | [] => RxEmpty
      | c :: q => RxReady c (mkBeaconState q (bs_oneshots s) (bs_next s) (bs_running s)) budget
      end
  end.

(** The loop, one turn per unit of fuel. *)
Fixpoint service_loop (fuel budget : nat) (s : BeaconState) : PollAnswer * BeaconState :=
  match fuel with
  | O => (Woken, s)
  | S fuel =>
      match command_rx_poll budget s with
      | RxReady command s budget => service_loop fuel budget (handle_command command s)
      | RxEmpty => (Waiting, s)
      | RxYield => (Woken, s)
      end
  end.

(** [Future::poll], with the budget the runtime gives to the poll; it makes at most one turn
    more than the budget. *)
Definition service_poll (budget : nat) (s : BeaconState) : PollAnswer * BeaconState :=
  service_loop (S budget) budget s.

(** The runtime polls the task [n] times. *)
Fixpoint service_polls (n budget : nat) (s : BeaconState) : BeaconState :=
  match n with
  | O => s
  | S n => service_polls n budget (service_poll budget s).2
  end.

(** The runtime polls the task until it waits for a command. *)
Definition service_run (s : BeaconState) : BeaconState :=
  (service_poll (S (length (bs_queue s))) s).2.

(** ** The handle *)

(** [oneshot::channel()] then [to_service.send(..)?]: the receiver waits on the channel. *)
Definition handle_send (command : nat -> BeaconCommands) (s : BeaconState) :
  result nat BeaconServiceErr * BeaconState :=
  let tx := bs_next s in
  if bs_running s then
    (Ok tx, mkBeaconState (bs_queue s ++ [command tx]) (<[tx := OsEmpty]> (bs_oneshots s))
              (S tx) true)
  else (Err BrokenSendChannel, s).

(** [rx.await?]: the future once it is there; the channel of a service that has stopped is
    broken. *)
Definition handle_recv (tx : nat) (s : BeaconState) : option (result ApiFuture BeaconServiceErr) :=
  match bs_oneshots s !! tx with
  | Some (OsSent f) => Some (Ok f)
  | Some OsEmpty => if bs_running s then None else Some (Err BrokenRecvChannel)
  | _ => Some (Err BrokenRecvChannel)
  end.

(** The caller gives up: its receiver is dropped. *)
Definition handle_drop (tx : nat) (s : BeaconState) : BeaconState :=
  mkBeaconState (bs_queue s) (<[tx := OsClosed]> (bs_oneshots s)) (bs_next s) (bs_running s).

Definition handle_sync_status := handle_send CmdSyncStatus.
Definition handle_get_fork_data := handle_send CmdForkData.
Definition handle_get_known_validator (pubkey : BlsPublicKey) :=
  handle_send (CmdKnownValidator pubkey).
Definition handle_proposer_duties (epoch : u64) := handle_send (CmdProposerDuties epoch).
Definition handle_publish_block (block : SignedBeaconBlockContent) (t : SubmissionType) :=
  handle_send (CmdPublishBlock block t).

(** Awaiting the future makes the call; [A] is the [API] of [BeaconService<API>]. *)
Definition await_sync {E} `{!BeaconApi E} (f : ApiFuture) :
  option (prog E (result BeaconSyncStatusResponse string)) :=
  match f with SyncStatusFuture => Some api_sync_status | _ => None end.
Definition await_fork {E} `{!BeaconApi E} (f : ApiFuture) :
  option (prog E (result GetForkResponse string)) :=
  match f with ForkDataFuture => Some api_get_fork_data | _ => None end.
Definition await_duties {E} `{!BeaconApi E} (f : ApiFuture) :
  option (prog E (result ProposerDutiesResponse string)) :=
  match f with ProposerDutyFuture epoch => Some (api_proposer_duties epoch) | _ => None end.
Definition await_known {E} `{!BeaconApi E} (f : ApiFuture) :
  option (prog E (result KnownValidatorResponse string)) :=
  match f with KnownValidatorFuture k => Some (api_get_known_validator k) | _ => None end.
Definition await_publish {E} `{!BeaconApi E} (f : ApiFuture) :
  option (prog E (result unit string)) :=
  match f with PublishBlockFuture b t => Some (api_publish_block b t) | _ => None end.

(** * Properties *)

Definition cmd_tx (c : BeaconCommands) : nat :=
  match c with
  | CmdSyncStatus tx | CmdForkData tx | CmdProposerDuties _ tx | CmdKnownValidator _ tx
  | CmdPublishBlock _ _ tx => tx
  end.

Definition cmd_future (c : BeaconCommands) : ApiFuture :=
  match c with
  | CmdSyncStatus _ => SyncStatusFuture
  | CmdForkData _ => ForkDataFuture
  | CmdProposerDuties e _ => ProposerDutyFuture e
  | CmdKnownValidator k _ => KnownValidatorFuture k
  | CmdPublishBlock b t _ => PublishBlockFuture b t
  end.

Lemma handle_command_send c s : handle_command c s = oneshot_send (cmd_tx c) (cmd_future c) s.
Proof. by destruct c. Qed.

(** Each queued command has its own channel, on which nothing was sent. *)
Record queue_wf (s : BeaconState) : Prop := {
  qw_nodup : NoDup (cmd_tx <$> bs_queue s);
  qw_waiting : forall c, c ∈ bs_queue s ->
    bs_oneshots s !! cmd_tx c = Some OsEmpty \/ bs_oneshots s !! cmd_tx c = Some OsClosed;
  qw_fresh : forall tx, (bs_next s <= tx)%nat -> bs_oneshots s !! tx = None
}.

Lemma oneshot_send_queue tx f s : bs_queue (oneshot_send tx f s) = bs_queue s.
Proof. unfold oneshot_send. by destruct (_ !! _) as [[]|]. Qed.

Lemma oneshot_send_lookup tx f s tx' :
  bs_oneshots (oneshot_send tx f s) !! tx' =
  if decide (tx' = tx) then
    match bs_oneshots s !! tx with Some OsEmpty => Some (OsSent f) | o => o end
  else bs_oneshots s !! tx'.
Proof.
  unfold oneshot_send. destruct (decide (tx' = tx)) as [->|Hne];
    destruct (bs_oneshots s !! tx) as [[]|] eqn:Htx; simpl; try done.
  - by rewrite lookup_insert_eq.
  - by rewrite lookup_insert_ne.
Qed.

(** Taking and answering the first command. *)
Lemma service_turn_wf c q s :
  bs_queue s = c :: q -> queue_wf s ->
  queue_wf (handle_command c (mkBeaconState q (bs_oneshots s) (bs_next s) (bs_running s))).
Proof.
  intros Hq [Hnd Hw Hf]. rewrite handle_command_send. rewrite Hq in *.
  apply NoDup_cons in Hnd as [Hnot Hnd].
  split.
  - rewrite oneshot_send_queue. done.
  - rewrite oneshot_send_queue. intros c' Hc'. rewrite oneshot_send_lookup.
    destruct (decide _) as [Heq|_]; [|apply Hw; by right].
    destruct Hnot. rewrite <-Heq. by apply list_elem_of_fmap_2.
  - intros tx Htx. rewrite oneshot_send_lookup. simpl.
    assert (bs_next (mkBeaconState q (bs_oneshots s) (bs_next s) (bs_running s)) <= tx)%nat
      as Hle by (revert Htx; unfold oneshot_send; by destruct (_ !! _) as [[]|]).
    specialize (Hf _ Hle). destruct (decide _) as [->|]; [by rewrite Hf | done].
Qed.

Lemma handle_send_wf mk s :
  (forall tx, cmd_tx (mk tx) = tx) -> queue_wf s -> queue_wf (handle_send mk s).2.
Proof.
  intros Hmk [Hnd Hw Hf]. unfold handle_send. destruct (bs_running s); [|done]. simpl.
  assert (forall c, c ∈ bs_queue s -> cmd_tx c <> bs_next s) as Hne.
  { intros c Hc Heq. pose proof (Hf (bs_next s) ltac:(lia)) as Hnone.
    destruct (Hw c Hc) as [Hs|Hs]; rewrite Heq, Hnone in Hs; done. }
  split; simpl.
  - rewrite fmap_app. apply NoDup_app. split; [done |]. split.
    + intros tx (c & -> & Hc)%list_elem_of_fmap Htx. apply list_elem_of_singleton in Htx.
      rewrite Hmk in Htx. by apply (Hne c).
    + simpl. apply NoDup_singleton.
  - intros c [Hc|Hc%list_elem_of_singleton]%elem_of_app.
    + rewrite lookup_insert_ne by (by apply not_eq_sym, Hne). by apply Hw.
    + subst. rewrite Hmk, lookup_insert_eq. by left.
  - intros tx Htx. rewrite lookup_insert_ne by lia. apply Hf. lia.
Qed.

Lemma handle_drop_wf tx s :
  is_Some (bs_oneshots s !! tx) -> queue_wf s -> queue_wf (handle_drop tx s).
Proof.
  intros [o Ho] [Hnd Hw Hf]. split; simpl; [done | |].
  - intros c Hc. destruct (decide (tx = cmd_tx c)) as [->|Hne].
    + rewrite lookup_insert_eq. by right.
    + rewrite lookup_insert_ne by done. by apply Hw.
  - intros tx' Htx'. rewrite lookup_insert_ne; [by apply Hf |].
    intros ->. rewrite (Hf _ Htx') in Ho. done.
Qed.

(** The loop does not run out of fuel: a poll is a command and then a poll with one unit less. *)
Lemma service_poll_eq budget s :
  service_poll budget s =
  match budget, bs_queue s with
  | O, _ => (Woken, s)
  | S _, [] => (Waiting, s)
  | S budget, c :: q =>
      service_poll budget
        (handle_command c (mkBeaconState q (bs_oneshots s) (bs_next s) (bs_running s)))
  end.
Proof. unfold service_poll. destruct budget; [done |]. cbn. by destruct (bs_queue s). Qed.

(** What a poll leaves: the commands beyond the budget and, on the channel of each command it
    took, the future of its call (unless the receiver is gone); the other channels are
    untouched. *)
Lemma service_poll_spec budget s :
  queue_wf s ->
  let s' := (service_poll budget s).2 in
  bs_queue s' = drop budget (bs_queue s) /\
  ((service_poll budget s).1 = Waiting <-> (length (bs_queue s) < budget)%nat) /\
  queue_wf s' /\
  (forall c, c ∈ take budget (bs_queue s) ->
     bs_oneshots s' !! cmd_tx c =
     match bs_oneshots s !! cmd_tx c with
     | Some OsEmpty => Some (OsSent (cmd_future c)) | o => o end) /\
  (forall tx, tx ∉ cmd_tx <$> take budget (bs_queue s) ->
     bs_oneshots s' !! tx = bs_oneshots s !! tx).
Proof.
  revert s; induction budget as [|budget IH]; intros s Hwf s'; subst s'; rewrite service_poll_eq.
  { split_and!; [done | split; [done | lia] | done | by intros c Hc%elem_of_nil | done]. }
  destruct (bs_queue s) as [|c q] eqn:Hq; simpl length.
  { split_and!; [done | split; [lia | done] | done | by intros c Hc%elem_of_nil | done]. }
  pose proof (service_turn_wf c q s Hq Hwf) as Hwf'.
  pose proof (qw_nodup s Hwf) as Hnd. rewrite Hq in Hnd.
  apply NoDup_cons in Hnd as [Hnot Hnd].
  rewrite handle_command_send in *.
  set (s1 := oneshot_send _ _ _) in *.
  assert (bs_queue s1 = q) as Hq1 by apply oneshot_send_queue.
  destruct (IH s1 Hwf') as (Hleft & Hanswer & Hwf2 & Hin & Hout). rewrite Hq1 in *.
  assert (cmd_tx c ∉ cmd_tx <$> take budget q) as Hnot'.
  { intros (c' & Heq & Hc')%list_elem_of_fmap. destruct Hnot. rewrite Heq.
    apply list_elem_of_fmap_2. rewrite <-(take_drop budget q). apply elem_of_app. by left. }
  split_and!; [done | rewrite Hanswer; lia | done | |].
  - intros c' [->|Hc']%elem_of_cons.
    + rewrite Hout by done. unfold s1. rewrite oneshot_send_lookup, decide_True by done. done.
    + rewrite Hin by done. unfold s1. rewrite oneshot_send_lookup, decide_False; [done |].
      intros Heq. apply Hnot'. rewrite <-Heq. by apply list_elem_of_fmap_2.
  - intros tx [Hne Htx]%not_elem_of_cons. rewrite Hout by done.
    unfold s1. by rewrite oneshot_send_lookup, decide_False.
Qed.

(** Polls one after the other are one poll with the sum of their budgets. *)
Lemma service_poll_add b1 b2 s :
  (service_poll b2 (service_poll b1 s).2).2 = (service_poll (b1 + b2) s).2.
Proof.
  revert s; induction b1 as [|b1 IH]; intros s; [done |].
  change (S b1 + b2)%nat with (S (b1 + b2)). destruct (bs_queue s) as [|c q] eqn:Hq.
  - assert (forall b, (service_poll b s).2 = s) as Hidle
      by (intros [|b]; by rewrite service_poll_eq, ?Hq).
    by rewrite !Hidle.
  - rewrite (service_poll_eq (S b1)), (service_poll_eq (S (b1 + b2))), Hq. apply IH.
Qed.

Lemma service_polls_poll n budget s :
  service_polls n budget s = (service_poll (n * budget) s).2.
Proof.
  revert s; induction n as [|n IH]; intros s; [done |]. cbn [service_polls].
  rewrite IH, service_poll_add. done.
Qed.
End service.

Section main.
Context {X : Ext}.

(** States of the channels reached from the start of the service by requests, polls and callers
    giving up. *)
Inductive beacon_step : BeaconState -> BeaconState -> Prop :=
| BsSend mk s : (forall tx, cmd_tx (mk tx) = tx) -> beacon_step s (handle_send mk s).2
| BsPoll budget s : beacon_step s (service_poll budget s).2
| BsDrop tx s : is_Some (bs_oneshots s !! tx) -> beacon_step s (handle_drop tx s).

Lemma beacon_reachable_wf s : rtc beacon_step beacon_service_new s -> queue_wf s.
Proof.
  assert (queue_wf beacon_service_new) as Hinit
    by (split; [constructor | by intros c Hc%elem_of_nil | done]).
  revert Hinit. generalize beacon_service_new as s0.
  intros s0 Hinit Hs. induction Hs as [|s1 s2 s3 Hstep _ IH]; [done |]. apply IH.
  destruct Hstep; [by apply handle_send_wf | | by apply handle_drop_wf].
  by apply service_poll_spec.
Qed.

(** C26: the service serves its commands in order, as many in a poll as the runtime's budget
    allows.  In every reachable state a poll answers the first commands of the queue, up to the
    budget, each on its own channel with the future of the call it asked for, unless its caller
    has given up; it leaves the other commands in their order and the other channels as they
    are; and it asks to be polled again unless it has found the queue empty.  With any budget,
    as many polls as it takes to have one unit per command answer all that were queued. *)
Theorem service_answers_commands budget s :
  rtc beacon_step beacon_service_new s ->
  let answered s' c :=
    bs_oneshots s' !! cmd_tx c =
    match bs_oneshots s !! cmd_tx c with
    | Some OsEmpty => Some (OsSent (cmd_future c)) | o => o end in
  let s' := (service_poll budget s).2 in
  bs_queue s' = drop budget (bs_queue s) /\
  ((service_poll budget s).1 = Waiting <-> (length (bs_queue s) < budget)%nat) /\
  (forall c, c ∈ take budget (bs_queue s) -> answered s' c) /\
  (forall tx, tx ∉ cmd_tx <$> take budget (bs_queue s) ->
     bs_oneshots s' !! tx = bs_oneshots s !! tx) /\
  (forall n, (length (bs_queue s) <= n * budget)%nat ->
     bs_queue (service_polls n budget s) = [] /\
     forall c, c ∈ bs_queue s -> answered (service_polls n budget s) c).
Proof.
  intros Hs%beacon_reachable_wf answered s'.
  destruct (service_poll_spec budget s Hs) as (? & ? & _ & ? & ?). split_and!; try done.
  intros n Hn. destruct (service_poll_spec (n * budget) s Hs) as (Hleft & _ & _ & Hin & _).
  rewrite service_polls_poll. rewrite drop_ge in Hleft by done. rewrite take_ge in Hin by done.
  by split.
Qed.

(** A request through the handle is served: in every reachable state of a running service,
    sending a command, then the service run, gives the receiver the future of that very call
    (here: the publication of a block). *)
Theorem publish_request_served s block t tx s1 :
  rtc beacon_step beacon_service_new s ->
  handle_publish_block block t s = (Ok tx, s1) ->
  handle_recv tx (service_run s1) = Some (Ok (PublishBlockFuture block t)).
Proof.
  intros Hs%beacon_reachable_wf Hsend.
  pose proof (handle_send_wf (CmdPublishBlock block t) s (fun _ => eq_refl) Hs) as Hwf.
  unfold handle_publish_block in Hsend. rewrite Hsend in Hwf. simpl in Hwf. unfold service_run.
  destruct (service_poll_spec (S (length (bs_queue s1))) s1 Hwf) as (_ & _ & _ & Hin & _).
  rewrite take_ge in Hin by lia.
  unfold handle_send in Hsend. destruct (bs_running s); [|done]. injection Hsend as <- <-.
  unfold handle_recv. specialize (Hin (CmdPublishBlock block t (bs_next s))). simpl in Hin |- *.
  rewrite Hin, lookup_insert_eq; [done |]. apply elem_of_app. right. by left.
Qed.
End main.
