(* ===== verification/EventStream.v ===== *)
(** The stream of beacon events, [crates/beacon/src/events/stream.rs], the subscription
    behind it ([events/mod.rs]) and the event types
    ([crates/primitives/src/beacon/events.rs]). *)

From S2P Require Import Prelude Prog External Types StorageTypes.

(** [std::task::Poll] *)
Inductive poll (A : Type) : Type := Ready (a : A) | Pending.
Arguments Ready {A} a.
Arguments Pending {A}.

(** The events of the RPC crate; the consensus version of an event by its name. *)
Record HeadEvent : Type := mkHeadEvent {
  he_slot : u64;
  he_block : array 32;
  he_state : array 32;
  he_epoch_transition : bool;
  he_previous_duty_dependent_root : array 32;
  he_current_duty_dependent_root : array 32;
  he_execution_optimistic : bool
}.

Record PayloadAttributesEvent : Type := mkPayloadAttributesEvent {
  pae_version : string;
  pae_data : PayloadAttributes
}.

#[export] Instance head_event_eq_dec : EqDecision HeadEvent.
Proof. solve_decision. Defined.
#[export] Instance payload_attributes_event_eq_dec : EqDecision PayloadAttributesEvent.
Proof. solve_decision. Defined.

Abbreviation SseError := string (only parsing).

Inductive BeaconEvent : Type :=
| PayloadAttribute (e : PayloadAttributesEvent)
| Head (e : HeadEvent).

#[export] Instance beacon_event_eq_dec : EqDecision BeaconEvent.
Proof. solve_decision. Defined.

Inductive BeaconEventTopic : Type := PayloadAttributesTopic | NewHeadTopic | NewBlockTopic.

Definition topic_as_str (t : BeaconEventTopic) : string :=
  match t with
  | PayloadAttributesTopic => "payload_attributes"
  | NewHeadTopic => "head"
  | NewBlockTopic => "block"
  end.

(** An [EventStream<T>], by what its successive polls return; once these are used up it is
    pending. *)
Abbreviation EventStream T := (list (poll (option (result T SseError)))).

Definition poll_next_unpin {T} (s : EventStream T) :
  poll (option (result T SseError)) * EventStream T :=
  match s with
  | [] => (Pending, [])
  | p :: s' => (p, s')
  end.

Record BeaconEventsStream : Type := mkBeaconEventsStream {
  es_payload_attributes : EventStream PayloadAttributesEvent;
  es_new_head : EventStream HeadEvent
}.

(** [Stream::poll_next] *)
Definition poll_next (self : BeaconEventsStream) :
  poll (option BeaconEvent) * BeaconEventsStream :=
  let (pa, payload_attributes) := poll_next_unpin (es_payload_attributes self) in
  let self := mkBeaconEventsStream payload_attributes (es_new_head self) in
  match pa with
  | Ready (Some (Ok event)) => (Ready (Some (PayloadAttribute event)), self)
  | Ready (Some (Err _)) => (Ready None, self)
  | Ready None | Pending =>
      let (h, new_head) := poll_next_unpin (es_new_head self) in
      let self := mkBeaconEventsStream (es_payload_attributes self) new_head in
      match h with
      | Ready (Some (Ok event)) => (Ready (Some (Head event)), self)
      | Ready (Some (Err _)) => (Ready None, self)
      | Ready None => (Ready None, self)
      | Pending => (Pending, self)
      end
  end.

(** The events of [n] polls. *)
Fixpoint poll_times (n : nat) (s : BeaconEventsStream) :
  list BeaconEvent * BeaconEventsStream :=
  match n with
  | O => ([], s)
  | S n' =>
      let (r, s') := poll_next s in
      let (evs, s'') := poll_times n' s' in
      (match r with Ready (Some e) => e :: evs | _ => evs end, s'')
  end.

(** The loop of [subscribe_with_retry], given the answers to the successive attempts: the
    subscription of the first that succeeds, after a pause for each failure. *)
Definition RETRY_DELAY_SECS : Z := 5.

Fixpoint subscribe_loop {T} (attempts : list (result (EventStream T) SseError)) :
  option (EventStream T * Z) :=
  match attempts with
  | [] => None
  | Ok subscription :: _ => Some (subscription, 0%Z)
  | Err _ :: attempts' =>
      match subscribe_loop attempts' with
      | Some (s, d) => Some (s, (RETRY_DELAY_SECS + d)%Z)
      | None => None
      end
  end.

(** The client of the events, [EventClient]: what it answers to the successive subscriptions to
    a URL, for the two kinds of events that are subscribed to. *)
Record EventClient : Type := mkEventClient {
  ec_payload_attributes : string -> list (result (EventStream PayloadAttributesEvent) SseError);
  ec_new_head : string -> list (result (EventStream HeadEvent) SseError)
}.

Record BeaconEventsClient : Type := mkBeaconEventsClient {
  bec_url : string;
  bec_client : EventClient
}.

(** [BeaconEventsClient::new]; [client] is [EventClient::default()]. *)
Definition beacon_events_client_new (client : EventClient) (url : string) : BeaconEventsClient :=
  mkBeaconEventsClient url client.

Definition subscribe_with_retry {T} (self : BeaconEventsClient)
    (subscribe : string -> list (result (EventStream T) SseError)) (topic : BeaconEventTopic) :
  option (EventStream T * Z) :=
  let events_url := bec_url self in
  let url := (events_url +:+ "eth/v1/events?topics=" +:+ topic_as_str topic)%string in
  subscribe_loop (subscribe url).

Definition client_payload_attributes (self : BeaconEventsClient) :=
  subscribe_with_retry self (ec_payload_attributes (bec_client self)) PayloadAttributesTopic.

Definition client_new_head (self : BeaconEventsClient) :=
  subscribe_with_retry self (ec_new_head (bec_client self)) NewHeadTopic.

(** [BeaconEventsClient::stream]: both subscriptions, the payload attributes first; with the
    seconds spent waiting between attempts. *)
Definition client_stream (self : BeaconEventsClient) : option (BeaconEventsStream * Z) :=
  match client_payload_attributes self with
  | Some (payload_attributes, d1) =>
      match client_new_head self with
      | Some (new_head, d2) =>
          Some (mkBeaconEventsStream payload_attributes new_head, (d1 + d2)%Z)
      | None => None
      end
  | None => None
  end.

(** * Properties *)

(** The events a stream will deliver, and those of a list of events, per kind. *)
Definition stream_oks {T} (s : EventStream T) : list T :=
  omap (fun p => match p with Ready (Some (Ok e)) => Some e | _ => None end) s.

Definition payload_events (l : list BeaconEvent) : list PayloadAttributesEvent :=
  omap (fun e => match e with PayloadAttribute e => Some e | Head _ => None end) l.
Definition head_events (l : list BeaconEvent) : list HeadEvent :=
  omap (fun e => match e with Head e => Some e | PayloadAttribute _ => None end) l.

Definition poll_events (r : poll (option BeaconEvent)) : list BeaconEvent :=
  match r with Ready (Some e) => [e] | _ => [] end.

(** One poll neither loses, invents nor reorders an event. *)
Lemma poll_next_conserves s :
  let (r, s') := poll_next s in
  payload_events (poll_events r) ++ stream_oks (es_payload_attributes s')
    = stream_oks (es_payload_attributes s) /\
  head_events (poll_events r) ++ stream_oks (es_new_head s') = stream_oks (es_new_head s).
Proof.
  destruct s as [pa nh]. unfold poll_next; simpl.
  destruct pa as [|[[[e|err]|]|] pa]; simpl; [| done | done | |];
    destruct nh as [|[[[h|err]|]|] nh]; done.
Qed.

Lemma payload_events_app l1 l2 :
  payload_events (l1 ++ l2) = payload_events l1 ++ payload_events l2.
Proof. apply omap_app. Qed.
Lemma head_events_app l1 l2 : head_events (l1 ++ l2) = head_events l1 ++ head_events l2.
Proof. apply omap_app. Qed.

Lemma poll_times_conserves n s :
  let (evs, s') := poll_times n s in
  payload_events evs ++ stream_oks (es_payload_attributes s')
    = stream_oks (es_payload_attributes s) /\
  head_events evs ++ stream_oks (es_new_head s') = stream_oks (es_new_head s).
Proof.
  revert s; induction n as [|n IH]; intros s; simpl; [done |].
  pose proof (poll_next_conserves s) as Hone. destruct (poll_next s) as [r s1].
  specialize (IH s1). destruct (poll_times n s1) as [evs s2].
  destruct IH as [IHp IHh], Hone as [Hp Hh].
  replace (match r with Ready (Some e) => e :: evs | _ => evs end)
    with (poll_events r ++ evs) by (by destruct r as [[]|]).
  rewrite payload_events_app, head_events_app, <-!app_assoc, IHp, IHh. done.
Qed.

(** The retries stop at the first successful attempt. *)
Lemma subscribe_loop_spec {T} (attempts : list (result (EventStream T) SseError)) s d :
  subscribe_loop attempts = Some (s, d) <->
  exists failed rest, attempts = failed ++ Ok s :: rest /\
    Forall (fun a => is_ok a = false) failed /\ d = (RETRY_DELAY_SECS * Z.of_nat (length failed))%Z.
Proof.
  revert d; induction attempts as [|[s'|e] l IH]; intros d; simpl.
  - split; [done |]. by intros ([] & ? & ? & _).
  - split.
    + intros [= -> <-]. by exists [], l.
    + intros (failed & rest & Heq & Hf & ->).
      destruct failed as [|a failed]; simplify_eq/=; [done |].
      apply Forall_cons in Hf as [Hf _]. done.
  - split.
    + destruct (subscribe_loop l) as [[s1 d1]|]; [|done]. intros [= -> <-].
      destruct (proj1 (IH d1) eq_refl) as (failed & rest & -> & Hf & ->).
      exists (Err e :: failed), rest. split; [done |]. split; [by constructor |].
      cbn [length]. lia.
    + intros (failed & rest & Heq & Hf & ->).
      destruct failed as [|a failed]; simplify_eq/=. apply Forall_cons in Hf as [_ Hf].
      rewrite (proj2 (IH (RETRY_DELAY_SECS * Z.of_nat (length failed))%Z)).
      * do 2 f_equal. unfold RETRY_DELAY_SECS. lia.
      * by exists failed, rest.
Qed.

(** C23: merging the two streams conserves the events: after any number of polls, the payload
    attributes events delivered followed by those still to come are the events of that stream
    in their order, and the same for the head events: none is lost, repeated or reordered. *)
Theorem event_stream_conserves n s :
  let (evs, s') := poll_times n s in
  payload_events evs ++ stream_oks (es_payload_attributes s')
    = stream_oks (es_payload_attributes s) /\
  head_events evs ++ stream_oks (es_new_head s') = stream_oks (es_new_head s).
Proof. apply poll_times_conserves. Qed.

(** A payload attributes event comes first, and the head stream is then not polled; the
    merged stream ends exactly on an error of the payload attributes stream, or, when that one
    has nothing to deliver, on an error or the end of the head stream: the end of the payload
    attributes stream alone never ends it. *)
Theorem event_stream_ends s :
  (forall e rest, es_payload_attributes s = Ready (Some (Ok e)) :: rest ->
     poll_next s = (Ready (Some (PayloadAttribute e)),
                    mkBeaconEventsStream rest (es_new_head s))) /\
  ((poll_next s).1 = Ready None <->
   (exists err, head (es_payload_attributes s) = Some (Ready (Some (Err err)))) \/
   (head (es_payload_attributes s) ∈ [None; Some Pending; Some (Ready None)] /\
    ((exists err, head (es_new_head s) = Some (Ready (Some (Err err)))) \/
     head (es_new_head s) = Some (Ready None)))).
Proof.
  destruct s as [pa nh]. split; [by intros e rest [= ->] |].
  unfold poll_next, poll_next_unpin; simpl. rewrite !elem_of_cons, elem_of_nil.
  destruct pa as [|[[[e|err]|]|] pa]; simpl; [| naive_solver | naive_solver | |];
    destruct nh as [|[[[h|err]|]|] nh]; simpl; naive_solver.
Qed.

(** C15: the retry loops of the client: [stream] returns if and only if both subscriptions are
    granted at some attempt, to the two topics of its node and at no other URL; the stream is then
    made of the first successful subscription to the payload attributes and of the first to the
    heads, and five seconds have passed for each failed attempt. *)
Theorem client_stream_retries self s d :
  client_stream self = Some (s, d) <->
  exists failed1 rest1 failed2 rest2,
    ec_payload_attributes (bec_client self)
      (bec_url self +:+ "eth/v1/events?topics=payload_attributes") =
      failed1 ++ Ok (es_payload_attributes s) :: rest1 /\
    ec_new_head (bec_client self) (bec_url self +:+ "eth/v1/events?topics=head") =
      failed2 ++ Ok (es_new_head s) :: rest2 /\
    Forall (fun a => is_ok a = false) failed1 /\ Forall (fun a => is_ok a = false) failed2 /\
    d = (RETRY_DELAY_SECS * Z.of_nat (length failed1 + length failed2))%Z.
Proof.
  unfold client_stream, client_payload_attributes, client_new_head, subscribe_with_retry.
  change ("eth/v1/events?topics=" +:+ topic_as_str PayloadAttributesTopic)
    with "eth/v1/events?topics=payload_attributes"%string.
  change ("eth/v1/events?topics=" +:+ topic_as_str NewHeadTopic)
    with "eth/v1/events?topics=head"%string.
  split.
  - destruct (subscribe_loop _) as [[p d1]|] eqn:H1; [|done].
    destruct (subscribe_loop (ec_new_head _ _)) as [[h d2]|] eqn:H2; [|done].
    intros [= <- <-].
    apply subscribe_loop_spec in H1 as (f1 & r1 & -> & Hf1 & ->).
    apply subscribe_loop_spec in H2 as (f2 & r2 & -> & Hf2 & ->).
    exists f1, r1, f2, r2. cbn [es_payload_attributes es_new_head].
    split_and!; try done. lia.
  - intros (f1 & r1 & f2 & r2 & -> & -> & Hf1 & Hf2 & ->).
    rewrite (proj2 (subscribe_loop_spec _ (es_payload_attributes s) _))
      by (exists f1, r1; split_and!; done).
    rewrite (proj2 (subscribe_loop_spec _ (es_new_head s) _))
      by (exists f2, r2; split_and!; done).
    destruct s. do 2 f_equal. lia.
Qed.
