(* ===== verification/RelayService.v ===== *)
(** The relay service, [bin/relay/src/service.rs]: the future that follows the beacon events,
    updates the storage, reconnects when the stream ends, and refreshes the duties. *)

From S2P Require Import Prelude Prog External Types Blst Signer BeaconTypes BeaconBlock.
From S2P Require Import StorageTypes Storage BidSpec Metrics InMemory World InMemoryStorage.
From S2P Require Import EventStream.

Definition BACKOFF_SECS : Z := 1.

(** A connection future, by the number of polls it stays pending and the stream it yields. *)
Record Connection : Type := mkConnection { cn_pending : nat; cn_stream : BeaconEventsStream }.

Definition connection_poll (c : Connection) : poll BeaconEventsStream * Connection :=
  match cn_pending c with
  | O => (Ready (cn_stream c), c)
  | S n => (Pending, mkConnection n (cn_stream c))
  end.

(** [enum Inner] *)
Inductive RelayInner : Type :=
| BeaconEvents (s : BeaconEventsStream)
| PendingConnection (c : Connection).

(** The state of the future.  [rs_connect] is [beacon_events]: what its successive
    connections (backoff included) will be. *)
Record RelayState : Type := mkRelayState {
  rs_inner : RelayInner;
  rs_connect : list Connection;
  rs_slots_per_epoch : u64
}.

(** [RelayService::new], once the first connection is there. *)
Definition relay_service_new (stream : BeaconEventsStream) (connect : list Connection)
    (slots_per_epoch : u64) : RelayState :=
  mkRelayState (BeaconEvents stream) connect slots_per_epoch.

(** The next connection of the client; past the given ones it never completes a stream with
    an event. *)
Definition next_connection (l : list Connection) : Connection * list Connection :=
  match l with
  | [] => (mkConnection 0 (mkBeaconEventsStream [] []), [])
  | c :: l' => (c, l')
  end.

Section relay_service.
Context `{Ext} {E : Type -> Type} `{!Storage E} `{!Host E} `{!BeaconHandle E} `{!BuildProfile}.

(** ** Duties *)

(** The closure of the [filter_map]. *)
Definition into_duty (duty : ProposerDutiesData) : prog E (option Validator) :=
  let! pubkey := lift (pk_from_fixed (pd_pubkey duty)) in
  let! registration := st_read_validator_registration pubkey in
  Ret (match registration with
       | Some registration =>
           Some (mkValidator (pd_slot duty) (pd_validator_index duty) registration)
       | None => None
       end).

Fixpoint filter_mapP {A B} (f : A -> prog E (option B)) (l : list A) : prog E (list B) :=
  match l with
  | [] => Ret []
  | a :: l' =>
      let! b := f a in
      let! bs := filter_mapP f l' in
      Ret (match b with Some b => b :: bs | None => bs end)
  end.

Definition into_duties (duties : list ProposerDutiesData) : prog E (list Validator) :=
  let! empty := st_empty_validator_regs in
  if empty then Ret [] else filter_mapP into_duty duties.

(** The task spawned on the head events of the slots [0, 32, 64, ...]. *)
Definition duties_task (head_slot : HeadSlot) (slots_per_epoch : u64) :
  prog E (result unit string) :=
  do! sleep 6;
  let! started := instant_now in
  let! epoch := lift (epoch head_slot slots_per_epoch) in
  let! next_epoch := lift (u64_add epoch 1) in
  let! duties_epoch_res := bh_proposer_duties epoch in
  let! duties_next_epoch_res := bh_proposer_duties next_epoch in
  let!? duties_epoch := Ret duties_epoch_res in
  let!? duties_next_epoch := Ret duties_next_epoch_res in
  let validators := merge_with duties_epoch duties_next_epoch in
  let! duties := into_duties validators in
  do! match duties with
      | [] => Ret tt
      | _ => st_set_proposer_duties duties
      end;
  let! now := instant_now in
  Ret (Ok tt).

(** ** The future *)

Definition handle_event (slots_per_epoch : u64) (event : BeaconEvent) : prog E unit :=
  match event with
  | PayloadAttribute payload_attribute =>
      st_set_payload_attributes (pae_data payload_attribute)
  | Head head =>
      let slot := he_slot head in
      let head_slot := mkHeadSlot slot in
      do! st_set_head_slot head_slot;
      if (slot mod 32 =? 0)%Z then spawn (DutiesTask head_slot slots_per_epoch) else Ret tt
  end.

(** [Future::poll] *)
Definition relay_poll (self : RelayState) : prog E (PollAnswer * RelayState) :=
  let with_inner inner := mkRelayState inner (rs_connect self) (rs_slots_per_epoch self) in
  match rs_inner self with
  | BeaconEvents beacon_stream =>
      let (r, beacon_stream) := poll_next beacon_stream in
      match r with
      | Ready (Some event) =>
          do! handle_event (rs_slots_per_epoch self) event;
          Ret (Woken, with_inner (BeaconEvents beacon_stream))
      | Ready None =>
          let (reconnect_future, connect) := next_connection (rs_connect self) in
          Ret (Woken, mkRelayState (PendingConnection reconnect_future) connect
                        (rs_slots_per_epoch self))
      | Pending => Ret (Waiting, with_inner (BeaconEvents beacon_stream))
      end
  | PendingConnection conn_fut =>
      let (r, conn_fut) := connection_poll conn_fut in
      match r with
      | Ready beacon_stream => Ret (Woken, with_inner (BeaconEvents beacon_stream))
      | Pending => Ret (Waiting, with_inner (PendingConnection conn_fut))
      end
  end.

(** The executor polls the future again and again; its output is never produced. *)
Fixpoint relay_polls (n : nat) (self : RelayState) : prog E RelayState :=
  match n with
  | O => Ret self
  | S n' => let! r := relay_poll self in relay_polls n' r.2
  end.
End relay_service.

(** * Properties *)

Section laws.
Context {X : Ext} `{!BuildProfile}.
Abbreviation step := (fun X => @relay_step _ X).

(** The duties of the registered validators, in the order of the beacon node. *)
Definition duty_of (regs : ValidatorRegistrations) (d : ProposerDutiesData) (k : BlsPublicKey) :
  option Validator :=
  r ← regs !! pk_serialize k;
  Some (mkValidator (pd_slot d) (pd_validator_index d) r).

Lemma filter_mapP_duties_run regs dks w :
  sto_regs (w_abs w) = regs ->
  Forall (fun dk => pk_from_fixed (pd_pubkey dk.1) = Val dk.2) dks ->
  run_relay (filter_mapP into_duty (fst <$> dks)) w =
  (Val (omap (fun dk => duty_of regs dk.1 dk.2) dks), w).
Proof.
  unfold run_relay. intros Hregs. induction 1 as [|[d k] dks Hk _ IH]; [done |].
  change (fst <$> (d, k) :: dks) with (d :: (fst <$> dks)). cbn [filter_mapP].
  rewrite run_bind. unfold into_duty at 1. simpl in Hk. rewrite Hk, run_lift_val. run_read.
  rewrite run_ret, run_bind, IH, Hregs, run_ret. unfold duty_of. simpl.
  by destruct (regs !! _).
Qed.

Lemma into_duties_run dks w :
  Forall (fun dk => pk_from_fixed (pd_pubkey dk.1) = Val dk.2) dks ->
  run_relay (into_duties (fst <$> dks)) w =
  (Val (omap (fun dk => duty_of (sto_regs (w_abs w)) dk.1 dk.2) dks), w).
Proof.
  intros Hk. unfold run_relay, into_duties. run_read. case_bool_decide as Hempty.
  - rewrite run_ret. do 2 f_equal. rewrite Hempty. clear. induction dks as [|[d k] l IH]; simpl;
      [done |]. unfold duty_of at 1. by rewrite lookup_empty.
  - by apply filter_mapP_duties_run.
Qed.

(** ** Safety under interleaving *)

Section safety.
Context (builders : list BlsPublicKey) (fork : ForkDatas).
Abbreviation J := (fun w => by_slot_empty w /\ bids_authentic builders fork (w_abs w)).

Lemma into_duties_safe duties (Q : list Validator -> Prop) :
  (forall l, Q l) -> safe step J Q (into_duties duties).
Proof.
  intros HQ. unfold into_duties. safe_read. intros a _. case_bool_decide; [apply HQ |].
  eapply (safe_mono _ _ (fun _ => True)); [intros; apply HQ |].
  induction duties as [|d l IH]; cbn [filter_mapP]; [done |].
  apply safe_bind. unfold into_duty. apply safe_bind, safe_lift. intros k _.
  safe_read. intros a1 _. cbn [guarded]. apply safe_bind.
  eapply safe_mono, IH. done.
Qed.

Lemma duties_task_safe head_slot slots_per_epoch :
  safe step J (fun _ => True) (duties_task head_slot slots_per_epoch).
Proof.
  unfold duties_task. do 2 (apply safe_bind; intros ? ?; split; [done |]; cbn [guarded]).
  do 2 (apply safe_bind, safe_lift; intros ? _).
  do 2 (apply safe_bind; intros ? ?; split; [done |]; cbn [guarded]).
  cbn [relay_step fst].
  match goal with |- context [out_duties ?o ?e] => destruct (out_duties o e) as [d1|] end;
    [|done].
  match goal with |- context [out_duties ?o ?e] => destruct (out_duties o e) as [d2|] end;
    [|done].
  do 2 (apply safe_try_bind; cbn [guarded]).
  apply safe_bind, into_duties_safe. intros [|d l].
  - intros w Hw. by split.
  - apply safe_bind. safe_last_write; [intros; by apply ba_set_duties |].
    intros w Hw. by split.
Qed.

Lemma relay_poll_safe st (Q : PollAnswer * RelayState -> Prop) :
  (forall r, Q r) -> safe step J Q (relay_poll st).
Proof.
  intros HQ. unfold relay_poll. destruct (rs_inner st) as [s|c].
  - destruct (poll_next s) as [[[e|]|] s'].
    + apply safe_bind. unfold handle_event. destruct e as [p|h].
      * safe_last_write; [intros; by apply ba_set_attrs | apply HQ].
      * safe_write; [intros; by apply ba_set_head |].
        destruct (_ =? 0)%Z; [|apply HQ]. intros w Hw. split; [done | apply HQ].
    + destruct (next_connection _). apply HQ.
    + apply HQ.
  - destruct (connection_poll c) as [[]]; apply HQ.
Qed.

Lemma relay_polls_safe n st : safe step J (fun _ => True) (relay_polls n st).
Proof.
  revert st; induction n as [|n IH]; intros st; [done |].
  cbn [relay_polls]. apply safe_bind, relay_poll_safe. intros r. apply IH.
Qed.
End safety.
(** ** One event *)

Lemma relay_poll_event_run st s s' ev w :
  rs_inner st = BeaconEvents s -> poll_next s = (Ready (Some ev), s') ->
  exists w', run_relay (relay_poll st) w =
      (Val (Woken, mkRelayState (BeaconEvents s') (rs_connect st) (rs_slots_per_epoch st)), w') /\
  match ev with
  | PayloadAttribute p =>
      w_abs w' = sto_set_attrs (pae_data p) (w_abs w) /\ w_spawned w' = w_spawned w
  | Head h =>
      w_abs w' = sto_set_head (mkHeadSlot (he_slot h)) (w_abs w) /\
      w_spawned w' =
        (if (he_slot h mod 32 =? 0)%Z
         then DutiesTask (mkHeadSlot (he_slot h)) (rs_slots_per_epoch st) :: w_spawned w
         else w_spawned w)
  end.
Proof.
  intros Hin Hpoll. unfold run_relay, relay_poll. rewrite Hin, Hpoll.
  destruct ev as [p|h]; simpl handle_event.
  - cbn. destruct (inner_delivered_contains _ _); cbn; eexists; split; try reflexivity; by split.
  - cbn. destruct (he_slot h mod 32 =? 0)%Z; cbn; eexists; split; try reflexivity; by split.
Qed.

End laws.

Section main.
Context {X : Ext} `{!BuildProfile}.

(** The storable duties are, in the order of the beacon node, those whose key is registered,
    with the registration of that key; nothing when no validator is registered. *)
Theorem into_duties_correct dks w :
  Forall (fun dk => pk_from_fixed (pd_pubkey dk.1) = Val dk.2) dks ->
  run_relay (into_duties (fst <$> dks)) w =
  (Val (omap (fun dk => duty_of (sto_regs (w_abs w)) dk.1 dk.2) dks), w).
Proof. apply into_duties_run. Qed.

(** C20: the duties task stores the duties of the current and of the next epoch, restricted to the
    registered validators, except that an empty list never overwrites the stored duties; when
    the beacon node fails to give either epoch the storage is left alone. *)
Theorem duties_task_correct head n e w :
  epoch head n = Val e -> (e + 1 < u64_modulus)%Z ->
  match out_duties (w_out w) e, out_duties (w_out w) (e + 1) with
  | Ok d1, Ok d2 => forall ks,
      Forall2 (fun d k => pk_from_fixed (pd_pubkey d) = Val k) (merge_with d1 d2) ks ->
      let duties := omap (fun dk => duty_of (sto_regs (w_abs w)) dk.1 dk.2)
                      (zip (merge_with d1 d2) ks) in
      exists w', run_relay (duties_task head n) w = (Val (Ok tt), w') /\
        w_abs w' = match duties with [] => w_abs w | _ => sto_set_duties duties (w_abs w) end
  | _, _ => exists err w', run_relay (duties_task head n) w = (Val (Err err), w') /\
      w_store w' = w_store w
  end.
Proof.
  intros He Hlt. unfold run_relay, duties_task.
  destruct (out_duties (w_out w) e) as [d1|er] eqn:H1;
    [destruct (out_duties (w_out w) (e + 1)) as [d2|er] eqn:H2|].
  - intros ks Hks.
    set (duties := omap _ (zip (merge_with d1 d2) ks)).
    rewrite run_sleep, run_now, He, run_lift_val, u64_add_small, run_lift_val,
      !run_duties by done. cbn [w_ticked w_out]. rewrite H1, H2.
    rewrite run_try_bind, run_ret, run_try_bind, run_ret, run_bind.
    pose proof (into_duties_run (zip (merge_with d1 d2) ks) (w_ticked w)) as Hrun.
    assert (fst <$> zip (merge_with d1 d2) ks = merge_with d1 d2) as Hfst
      by (apply fst_zip; by apply Nat.eq_le_incl, (Forall2_length _ _ _ Hks)).
    rewrite Hfst in Hrun. unfold run_relay in Hrun. rewrite Hrun.
    2:{ clear -Hks. induction Hks; constructor; done. }
    change (w_abs (w_ticked w)) with (w_abs w). fold duties.
    destruct duties as [|d l]; cbn; eexists; split; reflexivity.
  - rewrite run_sleep, run_now, He, run_lift_val, u64_add_small, run_lift_val, !run_duties by done.
    cbn [w_ticked w_out]. rewrite H1, H2. do 2 eexists. split; reflexivity.
  - rewrite run_sleep, run_now, He, run_lift_val, u64_add_small, run_lift_val, !run_duties by done.
    cbn [w_ticked w_out]. rewrite H1. do 2 eexists. split; reflexivity.
Qed.

(** C21: one event updates the storage as it should: payload attributes replace the stored ones; a
    head event replaces the head slot and spawns the duties task exactly on the slots divisible
    by 32, whatever number of slots per epoch was configured. *)
Theorem relay_poll_event st s s' ev w :
  rs_inner st = BeaconEvents s -> poll_next s = (Ready (Some ev), s') ->
  exists w', run_relay (relay_poll st) w =
      (Val (Woken, mkRelayState (BeaconEvents s') (rs_connect st) (rs_slots_per_epoch st)), w') /\
  match ev with
  | PayloadAttribute p =>
      w_abs w' = sto_set_attrs (pae_data p) (w_abs w) /\ w_spawned w' = w_spawned w
  | Head h =>
      w_abs w' = sto_set_head (mkHeadSlot (he_slot h)) (w_abs w) /\
      w_spawned w' =
        (if (he_slot h mod 32 =? 0)%Z
         then DutiesTask (mkHeadSlot (he_slot h)) (rs_slots_per_epoch st) :: w_spawned w
         else w_spawned w)
  end.
Proof. apply relay_poll_event_run. Qed.

Lemma pending_polls_run n c l m k w :
  cn_pending c = m ->
  run_relay (relay_polls (S m + n) (mkRelayState (PendingConnection c) l k)) w =
  run_relay (relay_polls n (mkRelayState (BeaconEvents (cn_stream c)) l k)) w.
Proof.
  revert c; induction m as [|m IH]; intros [p s] Hp; simpl in Hp; subst; [done |].
  etransitivity; [|exact (IH (mkConnection m s) eq_refl)]. reflexivity.
Qed.

(** C22: the service reconnects: when the event stream ends, then after as many polls as the new
    connection stays pending, and two more, it follows the stream of that connection; the
    storage is not touched meanwhile. *)
Theorem relay_service_reconnects st s s' c l w :
  rs_inner st = BeaconEvents s -> poll_next s = (Ready None, s') -> rs_connect st = c :: l ->
  run_relay (relay_polls (cn_pending c + 2) st) w =
  (Val (mkRelayState (BeaconEvents (cn_stream c)) l (rs_slots_per_epoch st)), w).
Proof.
  intros Hin Hpoll Hc. replace (cn_pending c + 2)%nat with (S (S (cn_pending c) + 0)) by lia.
  unfold run_relay. cbn [relay_polls]. unfold relay_poll at 1. rewrite Hin, Hpoll, Hc.
  cbn [next_connection bind snd].
  pose proof (pending_polls_run 0 c l (cn_pending c) (rs_slots_per_epoch st) w eq_refl) as Hrun.
  unfold run_relay in Hrun. by rewrite Hrun.
Qed.
End main.
