(* ===== verification/Startup.v ===== *)
(** Start-up, [bin/relay/src/main.rs] and [cli.rs]: the arguments, the fork data, the first
    events the storage is set up from, and the order in which the parts start. *)

From stdpp Require Import pretty.
From S2P Require Import Prelude Prog External Types Blst Signer BeaconTypes BeaconBlock.
From S2P Require Import StorageTypes Storage Metrics InMemory World InMemoryStorage EventStream.
From S2P Require Import Auth.

(** * Socket addresses *)

(** [SocketAddr] of an IPv4 address. *)
Record SocketAddr : Type := mkSocketAddr { sa_ip : list Z; sa_port : Z }.

Definition UNSPECIFIED : list Z := [0; 0; 0; 0]%Z.

Definition is_u16 (z : Z) : Prop := (0 <= z <= 65535)%Z.

(** The digits at the head of the text: their value, checked against [limit] as it is read,
    their number, and the rest of the text. *)
Fixpoint read_digits (limit : option Z) (acc : Z) (count : nat) (s : string) :
  option (Z * nat * string) :=
  match s with
  | EmptyString => Some (acc, count, s)
  | String c s' =>
      let n := Z.of_N (Ascii.N_of_ascii c) in
      if ((48 <=? n) && (n <=? 57))%Z then
        let acc := (acc * 10 + (n - 48))%Z in
        if match limit with Some m => (m <? acc)%Z | None => false end then None
        else read_digits limit acc (S count) s'
      else Some (acc, count, s)
  end.

(** [Parser::read_number] of the standard library, in base 10. *)
Definition read_number (max : Z) (max_digits : option nat) (allow_zero_prefix : bool)
    (s : string) : option (Z * string) :=
  let has_leading_zero := String.prefix "0" s in
  match read_digits (match max_digits with Some _ => None | None => Some max end) 0 0 s with
  | None => None
  | Some (v, digit_count, rest) =>
      if match max_digits with Some m => (m <? digit_count)%nat | None => false end then None
      else if (digit_count =? 0)%nat then None
      else if negb allow_zero_prefix && has_leading_zero && (1 <? digit_count)%nat then None
      else if (max <? v)%Z then None
      else Some (v, rest)
  end.

Definition read_given_char (c : ascii) (s : string) : option string :=
  match s with String c' s' => if Ascii.eqb c c' then Some s' else None | EmptyString => None end.

Definition read_octet : string -> option (Z * string) := read_number 255 (Some 3%nat) false.

Definition read_ipv4_addr (s : string) : option (list Z * string) :=
  '(a, s) ← read_octet s; s ← read_given_char "." s;
  '(b, s) ← read_octet s; s ← read_given_char "." s;
  '(c, s) ← read_octet s; s ← read_given_char "." s;
  '(d, s) ← read_octet s;
  Some ([a; b; c; d], s).

(** [SocketAddr::from_str] on an IPv4 address; the texts of the other kind start with a
    bracket. *)
Definition socket_addr_from_str (s : string) : result SocketAddr string :=
  match ('(ip, s) ← read_ipv4_addr s; s ← read_given_char ":" s;
         '(port, s) ← read_number 65535 None true s; Some (ip, port, s)) with
  | Some (ip, port, EmptyString) => Ok (mkSocketAddr ip port)
  | _ => Err "invalid socket address syntax"
  end.

Section startup.
Context `{Ext}.

(** * Command line *)

Definition DEFAULT_GRPC_PORT : string := "50051".
Definition DEFAULT_HTTP_PORT : string := "9063".
Definition DEFAULT_METRICS_PORT : string := "9090".
Definition DEFAULT_CHAIN : string := "mainnet".
Definition DEFAULT_FORK_VERSION : string := "0x00000000".
Definition DEFAULT_CURRENT_VERSION : string := "0x20000093".
Definition DEFAULT_VALIDATORS_ROOT : string :=
  "0x4b363db94e286120d76eb905340fdd4e54bfe9f06bf33ff6cf5ad27f511bfe95".
Definition DEFAULT_AUTH_URL : string := "https://auth.example.com".
Definition DEFAULT_BEACON_URL : string := "http://127.0.0.1:3500".

(** The parsed arguments the code reads. *)
Record CliArgs : Type := mkCliArgs {
  ca_mbs_auth_url : string;
  ca_beacon_url : string;
  ca_grpc_port : Z;
  ca_http_port : Z;
  ca_metrics_port : Z;
  ca_slots_per_epoch : u64;
  ca_white_listed_builders : list (array 48);
  ca_genesis_fork_version : ForkVersion;
  ca_current_fork_version : ForkVersion;
  ca_genesis_validators_root : Hash256;
  ca_chain : NamedChain;
  ca_bls_secret_key : BlsSecretKey
}.

Definition parse_bls_secret_key (s : string) : result BlsSecretKey string :=
  map_err (fun e => "Invalid BLS secret key: " +:+ e) (sk_from_str s).

Definition parse_fork_version (s : string) : fallible ForkVersion string := fork_version_from_str s.

Definition parse_genesis_root (s : string) : result Hash256 string :=
  let s := trim_start_0x s in
  let? b := map_err (fun e => "Invalid genesis root: " +:+ hex_error_display e) (hex_decode s) in
  match array_of 32 b with
  | None => Err "Invalid genesis root length"
  | Some a => Ok a
  end.

Definition cli_grpc_addr (args : CliArgs) : outcome SocketAddr :=
  expect unwrap_msg (socket_addr_from_str ("0.0.0.0:" +:+ pretty (ca_grpc_port args))).

Definition cli_http_addr (args : CliArgs) : outcome SocketAddr :=
  expect unwrap_msg (socket_addr_from_str ("0.0.0.0:" +:+ pretty (ca_http_port args))).

Definition cli_fork_data_builder (args : CliArgs) : ForkData :=
  mkForkData (fv_0 (ca_genesis_fork_version args)) hash256_default.

Definition cli_fork_data_proposer (args : CliArgs) : ForkData :=
  mkForkData (fv_0 (ca_current_fork_version args)) (ca_genesis_validators_root args).

Definition cli_fork_data (args : CliArgs) : ForkDatas :=
  mkForkDatas (cli_fork_data_builder args) (cli_fork_data_proposer args).

Fixpoint mapM_outcome {A B} (f : A -> outcome B) (l : list A) : outcome (list B) :=
  match l with
  | [] => Val []
  | a :: l' => let^ b := f a in let^ bs := mapM_outcome f l' in Val (b :: bs)
  end.

Definition enabled_builders (args : CliArgs) : outcome (list BlsPublicKey) :=
  mapM_outcome pk_from_fixed (ca_white_listed_builders args).

Inductive StartUpErrors : Type :=
| EmptyBuilders
| Unauthorized (e : AuthError)
| InvalidChain (msg : string)
| SetupStorage (e : string).

Definition cli_genesis_fork_version (args : CliArgs) : fallible ForkVersion StartUpErrors :=
  match try_from_chain (ca_chain args) with
  | Val r => Val (map_err InvalidChain r)
  | Panics m => Panics m
  end.

(** * Set-up of the storage *)

(** The loop over [beacon_events_stream.next().await], given its successive answers; [None]
    when they run out before both events were seen, and the task is still waiting.  An
    answer [None] of the stream is skipped like any other event. *)
Fixpoint first_events (answers : list (option BeaconEvent))
    (payload_attributes_event : option PayloadAttributesEvent) (head_event : option HeadEvent) :
  option (PayloadAttributesEvent * HeadEvent) :=
  match payload_attributes_event, head_event with
  | Some p, Some h => Some (p, h)
  | _, _ =>
      match answers with
      | [] => None
      | answer :: answers =>
          match answer with
          | Some (PayloadAttribute event) =>
              first_events answers
                (match payload_attributes_event with None => Some event | some => some end)
                head_event
          | Some (Head event) =>
              first_events answers payload_attributes_event
                (match head_event with None => Some event | some => some end)
          | None => first_events answers payload_attributes_event head_event
          end
      end
  end.

Definition setup_storage (answers : list (option BeaconEvent))
    (wlist_builders : list BlsPublicKey) (fork_data : ForkDatas) :
  option (list MetricOp * InMemoryStorageInner) :=
  match first_events answers None None with
  | None => None
  | Some (payload_attributes_event, head_event) =>
      let attr := pae_data payload_attributes_event in
      let slot := he_slot head_event in
      Some (in_memory_storage_new (mkHeadSlot slot) attr wlist_builders fork_data ∅ [])
  end.

(** * Set-up of the fork data *)

Section fork_data.
Context {E : Type -> Type} `{!BeaconHandle E}.

Definition setup_fork_data (genesis_fork_version : ForkVersion) :
  prog E (result ForkDatas string) :=
  let!? fork_data := bh_get_fork_data in
  let genesis_fork_version := fv_0 genesis_fork_version in
  let!? current_version :=
    lift (fork_version_from_str (cf_current_version (fdr_fork (gfr_data fork_data)))) in
  let!? genesis_validators_root :=
    Ret (hash256_from_str (fdr_genesis_validators_root (gfr_data fork_data))) in
  Ret (Ok (from_genesis_and_current_version genesis_fork_version (fv_0 current_version)
             genesis_validators_root)).

(** * The main function *)

(** The parts running at the end of [main]. *)
Inductive Server : Type := MetricsServer | BeaconServiceTask | GrpcServerTask | HttpServerTask.

Record Started : Type := mkStarted {
  sd_servers : list Server;
  sd_metrics_addr : SocketAddr;
  sd_grpc_addr : SocketAddr;
  sd_http_addr : SocketAddr;
  sd_storage : InMemoryStorageInner;
  sd_fork_data : ForkDatas;
  sd_signer : BlsSigner;
  sd_auth : MbsAuth;
  sd_slots_per_epoch : u64
}.

(** [main] up to [relay.await]: what it returns early with, or the parts it started.
    [client_build] is the answer of [reqwest::Client::builder().build()], [answers] those of
    the beacon event stream; [None] while it waits for the first events. *)
Definition main (args : CliArgs) (client_build : result unit ReqwestError)
    (answers : list (option BeaconEvent)) : prog E (option (result Started StartUpErrors)) :=
  let! grpc_addr := lift (cli_grpc_addr args) in
  let! http_addr := lift (cli_http_addr args) in
  let! fork_version := lift (cli_genesis_fork_version args) in
  match fork_version with
  | Err e => Ret (Some (Err e))
  | Ok fork_version =>
      let default_fork_data := cli_fork_data args in
      let bls_secret_key := ca_bls_secret_key args in
      let addr := mkSocketAddr UNSPECIFIED (ca_metrics_port args) in
      let! builders := lift (enabled_builders args) in
      match builders with
      | [] => Ret (Some (Err EmptyBuilders))
      | _ =>
          let! fork_data := setup_fork_data fork_version in
          let fork_data := match fork_data with Ok d => d | Err _ => default_fork_data end in
          match setup_storage answers builders fork_data with
          | None => Ret None
          | Some (_, storage) =>
              let signer := signer_new bls_secret_key fork_data in
              match client_build with
              | Err e => Ret (Some (Err (Unauthorized (RequestError e))))
              | Ok _ =>
                  Ret (Some (Ok {|
                    sd_servers := [MetricsServer; BeaconServiceTask; GrpcServerTask; HttpServerTask];
                    sd_metrics_addr := addr;
                    sd_grpc_addr := grpc_addr;
                    sd_http_addr := http_addr;
                    sd_storage := storage;
                    sd_fork_data := fork_data;
                    sd_signer := signer;
                    sd_auth := mkMbsAuth (ca_mbs_auth_url args);
                    sd_slots_per_epoch := ca_slots_per_epoch args
                  |}))
              end
          end
      end
  end.
End fork_data.
End startup.

(** * Properties *)

Section laws.
Context {X : Ext}.

(** The text of a port reads back as the port. *)
Lemma digits_value_mono s acc v : (0 <= acc)%Z -> digits_value acc s = Some v -> (acc <= v)%Z.
Proof.
  revert acc; induction s as [|c s IH]; intros acc Hacc; simpl; [by intros [= <-] |].
  destruct ((48 <=? _) && (_ <=? 57))%Z eqn:Hd; [|done].
  apply andb_true_iff in Hd as [Hd _]. intros Hv. apply IH in Hv; lia.
Qed.

Lemma read_digits_value max s acc n v :
  (0 <= acc)%Z -> digits_value acc s = Some v -> (v <= max)%Z ->
  read_digits (Some max) acc n s = Some (v, (n + String.length s)%nat, EmptyString).
Proof.
  revert acc n; induction s as [|c s IH]; intros acc n Hacc; cbn [read_digits digits_value].
  { intros [= <-] _. by rewrite Nat.add_0_r. }
  destruct ((48 <=? _) && (_ <=? 57))%Z eqn:Hd; [|done]. intros Hv Hmax.
  apply andb_true_iff in Hd as [Hd _].
  assert (0 <= acc * 10 + (Z.of_N (Ascii.N_of_ascii c) - 48))%Z as Hpos by lia.
  pose proof (digits_value_mono _ _ _ Hpos Hv) as Hle.
  destruct (Z.ltb_spec max (acc * 10 + (Z.of_N (Ascii.N_of_ascii c) - 48))); [lia |].
  rewrite (IH _ (S n)) by done. cbn [String.length]. by rewrite Nat.add_succ_r.
Qed.

Lemma any_address_parses port :
  is_u16 port ->
  socket_addr_from_str ("0.0.0.0:" +:+ pretty port) = Ok (mkSocketAddr UNSPECIFIED port).
Proof.
  intros [Hlo Hhi]. pose proof (digits_value_pretty_Z port Hlo) as Hd.
  assert (read_number 65535 None true (pretty port) = Some (port, EmptyString)) as Hport.
  { unfold read_number. rewrite (read_digits_value _ _ _ _ port) by done.
    destruct (pretty port) eqn:Hp; [by injection Hd as <- |]. cbn -[Z.ltb].
    destruct (Z.ltb_spec 65535 port); [lia | done]. }
  clear Hd. generalize dependent (pretty port). intros t Hport. unfold socket_addr_from_str.
  change (read_ipv4_addr ("0.0.0.0:" +:+ t)) with (Some (UNSPECIFIED, ":" +:+ t)). cbn -[read_number read_given_char].
  change (read_given_char ":" (":" +:+ t)) with (Some t). cbn -[read_number]. by rewrite Hport.
Qed.

(** The events of a stream that are there, in order. *)
Definition given (answers : list (option BeaconEvent)) : list BeaconEvent := omap id answers.

Definition or_first {A} (o : option A) (l : list A) : option A :=
  match o with Some a => Some a | None => head l end.

Lemma first_events_run answers p h :
  first_events answers p h =
  match or_first p (payload_events (given answers)), or_first h (head_events (given answers)) with
  | Some p, Some h => Some (p, h)
  | _, _ => None
  end.
Proof.
  revert p h; induction answers as [|[[e|e]|] l IH]; intros p h; simpl.
  - by destruct p, h.
  - rewrite IH. by destruct p, h.
  - rewrite IH. destruct p, h; simpl; try done.
  - rewrite IH. by destruct p, h.
Qed.

Lemma setup_storage_run answers builders fork :
  setup_storage answers builders fork =
  match head (payload_events (given answers)), head (head_events (given answers)) with
  | Some p, Some h =>
      Some (in_memory_storage_new (mkHeadSlot (he_slot h)) (pae_data p) builders fork ∅ [])
  | _, _ => None
  end.
Proof.
  unfold setup_storage. rewrite first_events_run. simpl.
  by destruct (head (payload_events (given answers))), (head (head_events (given answers))).
Qed.

Lemma mapM_outcome_val {A B} (f : A -> outcome B) l bs :
  mapM_outcome f l = Val bs <-> Forall2 (fun a b => f a = Val b) l bs.
Proof.
  revert bs; induction l as [|a l IH]; intros bs; simpl.
  - split; [intros [= <-]; constructor | by inversion 1].
  - split.
    + destruct (f a) as [b|m] eqn:Ha; simpl; [|done].
      destruct (mapM_outcome f l) as [bs'|m]; simpl; [|done].
      intros [= <-]. constructor; [done | by apply IH].
    + inversion 1 as [|? b ? bs' Hb Hrest]; subst. apply IH in Hrest. by rewrite Hb, Hrest.
Qed.
End laws.

Section main.
Context {X : Ext}.

(** C34: the storage is set up from the first payload attributes event and the first head event
    of the stream, whichever comes first, skipping every other event and every end of the
    stream; as long as one of the two has not come the set-up does not return. *)
Theorem setup_storage_first_events answers builders fork :
  setup_storage answers builders fork =
  match head (payload_events (given answers)), head (head_events (given answers)) with
  | Some p, Some h =>
      Some (in_memory_storage_new (mkHeadSlot (he_slot h)) (pae_data p) builders fork ∅ [])
  | _, _ => None
  end.
Proof. apply setup_storage_run. Qed.

(** The fork data the beacon node gives, if it gives it. *)
Definition node_fork_data (version : ForkVersion) (out : Outside) : option ForkDatas :=
  match out_fork out with
  | Err _ => None
  | Ok d =>
      match fork_version_from_str (cf_current_version (fdr_fork (gfr_data d))) with
      | Val (Ok v) =>
          match hash256_from_str (fdr_genesis_validators_root (gfr_data d)) with
          | Ok r => Some (from_genesis_and_current_version (fv_0 version) (fv_0 v) r)
          | Err _ => None
          end
      | _ => None
      end
  end.

Lemma setup_fork_data_run version w :
  exists r, run_relay (setup_fork_data version) w = (r, w) /\
  forall d, r = Val (Ok d) <-> node_fork_data version (w_out w) = Some d.
Proof.
  unfold run_relay, setup_fork_data, node_fork_data. cbn.
  destruct (out_fork (w_out w)) as [d|e]; cbn; [|eexists; split; [done | done]].
  destruct (fork_version_from_str _) as [[v|e]|m]; cbn; try (eexists; split; [done | done]).
  destruct (hash256_from_str _); cbn; eexists; (split; [done|]); naive_solver.
Qed.

(** What is true of the parts that [main] starts. *)
Definition started_as (args : CliArgs) (answers : list (option BeaconEvent)) (out : Outside)
    (sd : Started) : Prop :=
  sd_metrics_addr sd = mkSocketAddr UNSPECIFIED (ca_metrics_port args) /\
  sd_grpc_addr sd = mkSocketAddr UNSPECIFIED (ca_grpc_port args) /\
  sd_http_addr sd = mkSocketAddr UNSPECIFIED (ca_http_port args) /\
  exists version,
    try_from_chain (ca_chain args) = Val (Ok version) /\
    i_wlist_builders (sd_storage sd) <> [] /\
    Forall2 (fun b k => pk_from_fixed b = Val k)
      (ca_white_listed_builders args) (i_wlist_builders (sd_storage sd)) /\
    sd_fork_data sd =
      default (cli_fork_data args) (node_fork_data version out) /\
    i_fork_data (sd_storage sd) = sd_fork_data sd /\
    signer_fork_data (sd_signer sd) = sd_fork_data sd /\
    exists p h,
      head (payload_events (given answers)) = Some p /\
      head (head_events (given answers)) = Some h /\
      sd_storage sd = inner_new (mkHeadSlot (he_slot h)) (pae_data p)
        (i_wlist_builders (sd_storage sd)) (sd_fork_data sd) ∅ [].

Lemma main_starts_run args client_build answers w sd :
  is_u16 (ca_grpc_port args) -> is_u16 (ca_http_port args) ->
  (run_relay (main args client_build answers) w).1 = Val (Some (Ok sd)) ->
  started_as args answers (w_out w) sd.
Proof.
  intros Hgrpc Hhttp. unfold started_as, run_relay, main, cli_genesis_fork_version.
  unfold cli_grpc_addr, cli_http_addr.
  rewrite !any_address_parses by done. cbn [expect]. rewrite !run_lift_val.
  destruct (try_from_chain (ca_chain args)) as [[version|e]|m]; [| by cbn | by cbn].
  simpl map_err. rewrite run_lift_val.
  destruct (enabled_builders args) as [builders|m] eqn:Hb; [|by cbn].
  rewrite run_lift_val. destruct builders as [|b0 bs]; [by cbn |].
  destruct (setup_fork_data_run version w) as (r & Hrun & Hr). unfold run_relay in Hrun.
  rewrite run_bind, Hrun. destruct r as [fd|m]; [|by cbn].
  set (fork := match fd with Ok d => d | Err _ => cli_fork_data args end).
  assert (fork = default (cli_fork_data args) (node_fork_data version (w_out w))) as Hfork.
  { subst fork. destruct fd as [d|e].
    - by rewrite (proj1 (Hr d) eq_refl).
    - destruct (node_fork_data version (w_out w)) as [d|] eqn:Hd; [|done].
      assert (Val (Err e) = Val (Ok d)); [by apply Hr | done]. }
  rewrite setup_storage_run.
  destruct (head (payload_events (given answers))), (head (head_events (given answers))); cbn; try done.
  destruct client_build; cbn; [|done]. intros [= <-]. cbn. split_and!; try done. exists version.
  split_and!; try done; [by apply mapM_outcome_val | by eexists _, _].
Qed.

(** When [main] reaches the relay loop, the whitelist is not empty and holds the configured
    keys, the chain is a supported one, and the fork data, the same for the storage, the
    signer and the gRPC service, is the one of the beacon node (with the genesis version of
    the chain) when the node gives it, and that of the command line otherwise; the servers
    listen on every interface, each on its configured port; the storage is new, at the slot of
    the first head event and with the first payload attributes. *)
Theorem main_starts args client_build answers w sd :
  is_u16 (ca_grpc_port args) -> is_u16 (ca_http_port args) ->
  (run_relay (main args client_build answers) w).1 = Val (Some (Ok sd)) ->
  started_as args answers (w_out w) sd.
Proof. apply main_starts_run. Qed.

(** Without builders [main] stops, once the chain is a supported one. *)
Lemma main_empty_builders args client_build answers w version :
  is_u16 (ca_grpc_port args) -> is_u16 (ca_http_port args) ->
  try_from_chain (ca_chain args) = Val (Ok version) -> ca_white_listed_builders args = [] ->
  run_relay (main args client_build answers) w = (Val (Some (Err EmptyBuilders)), w).
Proof.
  intros Hgrpc Hhttp Hchain Hnone.
  unfold run_relay, main, cli_genesis_fork_version, cli_grpc_addr, cli_http_addr, enabled_builders.
  rewrite !any_address_parses by done. cbn [expect]. rewrite !run_lift_val, Hchain, Hnone.
  by cbn.
Qed.
End main.
