(* ===== verification/Cli.v ===== *)
(** The command line, [bin/relay/src/cli.rs]: the arguments that the [Parser] derive declares on
    [CliArgs], what they read, and [main] run on a command line.

    clap is a parameter, [Clap]: the parser of the argument texts and the parsers of the values
    whose type is not the relay's.  [ClapLaws] states what it documents of the command lines that
    give options as [--name value]; the arguments, their parsers and their defaults are the
    relay's. *)

From stdpp Require Import pretty.
From S2P Require Import Prelude Prog External Types Blst Signer BeaconTypes BeaconBlock.
From S2P Require Import StorageTypes Storage Metrics InMemory World InMemoryStorage EventStream.
From S2P Require Import Auth Startup.

Local Open Scope string_scope.

(** * What clap is asked for *)

Section cli.
Context `{Ext}.

(** A value of an argument, with the type its parser gave it. *)
Inductive AnyValue : Type :=
| AnyUrl (url : string)
| AnyU16 (n : Z)
| AnyU64 (n : u64)
| AnyPubkey (key : array 48)
| AnyForkVersion (version : ForkVersion)
| AnyHash256 (root : Hash256)
| AnyChain (chain : NamedChain)
| AnySecretKey (key : BlsSecretKey).

(** An argument: the name of its option, the default value, the delimiter of its values,
    whether it takes any number of them ([ArgAction::Append]), and the parser of a value. *)
Record Arg : Type := mkArg {
  arg_long : string;
  arg_default : option string;
  arg_delimiter : option ascii;
  arg_append : bool;
  arg_parser : string -> fallible AnyValue string
}.

(** An argument without default that takes one value is required. *)
Definition arg_required (a : Arg) : bool :=
  negb (arg_append a) && match arg_default a with None => true | Some _ => false end.

(** The values of each argument, by the name of its option. *)
Definition ArgMatches : Type := list (string * list AnyValue).
End cli.
Arguments AnyValue {_}.
Arguments Arg {_}.
Arguments ArgMatches {_}.

(** clap and the value parsers of the other libraries; an error is its message.  A [Url] is
    given by its text. *)
Class Clap `{Ext} := {
  clap_matches : list Arg -> list string -> fallible ArgMatches string;
  url_from_str : string -> result string string;
  value_u16 : string -> result Z string;
  value_u64 : string -> result u64 string;
  fixed48_from_str : string -> result (array 48) string;
  fixed48_display : array 48 -> string;
  named_chain_from_str : string -> result NamedChain string;
  (** [constants::EPOCH_SLOTS] of reth *)
  EPOCH_SLOTS : u64
}.

(** ** Command lines *)

(** The pieces of a text between the delimiters. *)
Fixpoint split_on (c : ascii) (s : string) : list string :=
  match s with
  | EmptyString => [EmptyString]
  | String d s' =>
      if Ascii.eqb c d then EmptyString :: split_on c s'
      else match split_on c s' with
           | [] => [String d EmptyString]
           | w :: ws => String d w :: ws
           end
  end.

(** The options that are given, each with its value, and the command line that gives them. *)
Abbreviation Options := (list (string * string)).

Definition command_line (given : Options) : list string :=
  mjoin ((fun o => ["--" +:+ o.1; o.2]) <$> given).

Definition values_given (name : string) (given : Options) : list string :=
  omap (fun o => if String.eqb o.1 name then Some o.2 else None) given.

(** A value that cannot be taken for an option. *)
Definition is_value (s : string) : bool :=
  match s with EmptyString => false | String c _ => negb (Ascii.eqb c "-") end.

Section values.
Context `{Ext}.

Definition given_pieces (a : Arg) (given : Options) : list string :=
  match arg_delimiter a with
  | Some c => mjoin (split_on c <$> values_given (arg_long a) given)
  | None => values_given (arg_long a) given
  end.

(** The texts of the values of an argument: the given ones, or else the default. *)
Definition arg_texts (a : Arg) (given : Options) : list string :=
  match values_given (arg_long a) given with
  | [] => option_list (arg_default a)
  | _ => given_pieces a given
  end.

(** Only options that exist are given, those that take one value at most once. *)
Definition well_formed (args : list Arg) (given : Options) : bool :=
  forallb (fun o => existsb (fun a => String.eqb (arg_long a) o.1) args && is_value o.2) given &&
  forallb (fun a => arg_append a || (length (values_given (arg_long a) given) <=? 1)%nat) args.

(** The value [v] is read from the text [s]. *)
Definition reads_as (a : Arg) (s : string) (v : AnyValue) : Prop := arg_parser a s = Val (Ok v).

(** An argument that makes the command line be refused. *)
Definition refused (given : Options) (a : Arg) : Prop :=
  (arg_required a = true /\ values_given (arg_long a) given = []) \/
  (exists s e, s ∈ given_pieces a given /\ arg_parser a s = Val (Err e)).
End values.

(** What clap and the libraries document. *)
Class ClapLaws `{Ext} (C : Clap) : Prop := {
  (** every value is read by the parser of its argument, and the absent ones from the default *)
  clap_reads : forall (args : list Arg) prog given vss,
    NoDup (arg_long <$> args) -> well_formed args given = true ->
    Forall (fun a => arg_required a = true -> values_given (arg_long a) given <> []) args ->
    Forall2 (fun a vs => Forall2 (reads_as a) (arg_texts a given) vs) args vss ->
    clap_matches args (prog :: command_line given) = Val (Ok (zip (arg_long <$> args) vss));
  (** a missing required argument or a value that its parser refuses is an error *)
  clap_refuses : forall (args : list Arg) prog given,
    NoDup (arg_long <$> args) -> well_formed args given = true ->
    (forall a s, a ∈ args -> exists r, arg_parser a s = Val r) ->
    Exists (refused given) args ->
    exists e, clap_matches args (prog :: command_line given) = Val (Err e);
  (** integers are read in decimal and checked against their range *)
  value_u16_digits : forall s z,
    s <> "" -> digits_value 0 s = Some z -> (z <= 65535)%Z -> value_u16 s = Ok z;
  value_u16_range : forall s z, value_u16 s = Ok z -> is_u16 z;
  value_u64_digits : forall s z,
    s <> "" -> digits_value 0 s = Some z -> (z < u64_modulus)%Z -> value_u64 s = Ok z;
  (** a URL that has a host and no path gets the path [/] *)
  url_of_host : forall u,
    u ∈ [DEFAULT_AUTH_URL; DEFAULT_BEACON_URL; "http://localhost:1234"] ->
    url_from_str u = Ok (u +:+ "/");
  (** bytes are written in lower-case hexadecimal, and read with the prefix *)
  fixed48_reads : forall a, fixed48_from_str ("0x" +:+ concat_02x (arr_bytes a)) = Ok a;
  fixed48_displays : forall a, fixed48_display a = "0x" +:+ concat_02x (arr_bytes a);
  hex_encode_lower : forall b, hex_encode b = concat_02x b;
  serde_hex_lower : forall b, serde_hex_encode b = "0x" +:+ concat_02x b;
  (** the names of the chains *)
  named_chain_reads : Forall (fun p => named_chain_from_str p.1 = Ok p.2)
    [("mainnet", Mainnet); ("goerli", Goerli); ("holesky", Holesky); ("sepolia", Sepolia);
     ("dev", Dev)];
  epoch_slots : EPOCH_SLOTS = 32%Z
}.

(** * The arguments of the relay *)

Section args.
Context `{Ext} {C : Clap}.

(** A parser of values, from the one of the type. *)
Definition value_parser {T} (any : T -> AnyValue) (p : string -> fallible T string) (s : string) :
  fallible AnyValue string := let^? v := p s in Val (Ok (any v)).

Definition pure_parser {T} (any : T -> AnyValue) (p : string -> result T string) :
  string -> fallible AnyValue string := value_parser any (fun s => Val (p s)).

(** [#[clap(long = name, default_value = default)]] *)
Definition arg_with_default (name default : string) (p : string -> fallible AnyValue string) :=
  mkArg name (Some default) None false p.

(** [<CliArgs as clap::Args>::augment_args], derived. *)
Definition CliArgs_args : list Arg := [
  arg_with_default "auth.url" DEFAULT_AUTH_URL (pure_parser AnyUrl url_from_str);
  arg_with_default "beacon.url" DEFAULT_BEACON_URL (pure_parser AnyUrl url_from_str);
  arg_with_default "grpc.port" DEFAULT_GRPC_PORT (pure_parser AnyU16 value_u16);
  arg_with_default "http.port" DEFAULT_HTTP_PORT (pure_parser AnyU16 value_u16);
  arg_with_default "metrics.port" DEFAULT_METRICS_PORT (pure_parser AnyU16 value_u16);
  arg_with_default "epoch.slots" (pretty EPOCH_SLOTS) (pure_parser AnyU64 value_u64);
  mkArg "builders.enabled" None (Some ","%char) true (pure_parser AnyPubkey fixed48_from_str);
  arg_with_default "fork-data.genesis-version" DEFAULT_FORK_VERSION
    (value_parser AnyForkVersion parse_fork_version);
  arg_with_default "fork-data.current-version" DEFAULT_CURRENT_VERSION
    (value_parser AnyForkVersion parse_fork_version);
  arg_with_default "fork-data.genesis-validators-root" DEFAULT_VALIDATORS_ROOT
    (pure_parser AnyHash256 parse_genesis_root);
  arg_with_default "chain" DEFAULT_CHAIN (pure_parser AnyChain named_chain_from_str);
  mkArg "bls-secret-key" None None false (pure_parser AnySecretKey parse_bls_secret_key)
].

(** [Any::downcast] *)
Definition as_url v := match v with AnyUrl x => Some x | _ => None end.
Definition as_u16 v := match v with AnyU16 x => Some x | _ => None end.
Definition as_u64 v := match v with AnyU64 x => Some x | _ => None end.
Definition as_pubkey v := match v with AnyPubkey x => Some x | _ => None end.
Definition as_fork_version v := match v with AnyForkVersion x => Some x | _ => None end.
Definition as_hash256 v := match v with AnyHash256 x => Some x | _ => None end.
Definition as_chain v := match v with AnyChain x => Some x | _ => None end.
Definition as_secret_key v := match v with AnySecretKey x => Some x | _ => None end.

Definition matches_of (m : ArgMatches) (name : string) : list AnyValue :=
  mjoin (omap (fun p => if String.eqb p.1 name then Some p.2 else None) m).

Definition mismatch (name : string) : string :=
  "Mismatch between definition and access of `" +:+ name +:+ "`".

(** [ArgMatches::remove_one] and [ArgMatches::remove_many]: they panic on a value of another
    type. *)
Definition remove_one {T} (cast : AnyValue -> option T) (name : string) (m : ArgMatches) :
  fallible T string :=
  match matches_of m name with
  | [] => Val (Err ("The following required argument was not provided: " +:+ name))
  | v :: _ => match cast v with Some t => Val (Ok t) | None => Panics (mismatch name) end
  end.

Definition remove_many {T} (cast : AnyValue -> option T) (name : string) (m : ArgMatches) :
  fallible (list T) string :=
  match mapM cast (matches_of m name) with
  | Some l => Val (Ok l)
  | None => Panics (mismatch name)
  end.

(** [<CliArgs as clap::FromArgMatches>::from_arg_matches], derived. *)
Definition CliArgs_from_arg_matches (m : ArgMatches) : fallible CliArgs string :=
  let^? mbs_auth_url := remove_one as_url "auth.url" m in
  let^? beacon_url := remove_one as_url "beacon.url" m in
  let^? grpc_port := remove_one as_u16 "grpc.port" m in
  let^? http_port := remove_one as_u16 "http.port" m in
  let^? metrics_port := remove_one as_u16 "metrics.port" m in
  let^? slots_per_epoch := remove_one as_u64 "epoch.slots" m in
  let^? white_listed_builders := remove_many as_pubkey "builders.enabled" m in
  let^? genesis_fork_version := remove_one as_fork_version "fork-data.genesis-version" m in
  let^? current_fork_version := remove_one as_fork_version "fork-data.current-version" m in
  let^? genesis_validators_root := remove_one as_hash256 "fork-data.genesis-validators-root" m in
  let^? chain := remove_one as_chain "chain" m in
  let^? bls_secret_key := remove_one as_secret_key "bls-secret-key" m in
  Val (Ok {|
    ca_mbs_auth_url := mbs_auth_url;
    ca_beacon_url := beacon_url;
    ca_grpc_port := grpc_port;
    ca_http_port := http_port;
    ca_metrics_port := metrics_port;
    ca_slots_per_epoch := slots_per_epoch;
    ca_white_listed_builders := white_listed_builders;
    ca_genesis_fork_version := genesis_fork_version;
    ca_current_fork_version := current_fork_version;
    ca_genesis_validators_root := genesis_validators_root;
    ca_chain := chain;
    ca_bls_secret_key := bls_secret_key
  |}).

(** [CliArgs::parse_from]; with [Err] the process prints the message and exits. *)
Definition CliArgs_parse_from (argv : list string) : fallible CliArgs string :=
  let^? m := clap_matches CliArgs_args argv in CliArgs_from_arg_matches m.

(** How the process ends before the relay runs: the usage error of the command line, or the error
    [main] returns. *)
Inductive Exit : Type := UsageError (msg : string) | MainError (e : StartUpErrors).

(** The program on its command line: [main] with [CliArgs::parse()]. *)
Definition relay_program {E : Type -> Type} `{!BeaconHandle E} (argv : list string)
    (client_build : result unit ReqwestError) (answers : list (option BeaconEvent)) :
  prog E (option (result Started Exit)) :=
  let! args := lift (CliArgs_parse_from argv) in
  match args with
  | Err msg => Ret (Some (Err (UsageError msg)))
  | Ok args =>
      let! started := main args client_build answers in
      Ret (map_err MainError <$> started)
  end.
End args.

(** * What a command line reads *)

Section reads.
Context `{Ext} {C : Clap}.

(** The text of an argument that takes one value. *)
Definition text_of (name : string) (dflt : option string) (given : Options) : option string :=
  match values_given name given with v :: _ => Some v | [] => dflt end.

(** [t] is what the parser [p] reads for the argument. *)
Definition reads_one {T} (p : string -> fallible T string) (name : string)
    (dflt : option string) (given : Options) (t : T) : Prop :=
  exists s, text_of name dflt given = Some s /\ p s = Val (Ok t).

Definition from_result {T} (p : string -> result T string) (s : string) : fallible T string :=
  Val (p s).

(** Each argument is read from the value that is given, or else from its default; the
    builders from the pieces of all the values that are given. *)
Record cli_reads (given : Options) (args : CliArgs) : Prop := mkReads {
  rd_auth : reads_one (from_result url_from_str) "auth.url" (Some DEFAULT_AUTH_URL) given
    (ca_mbs_auth_url args);
  rd_beacon : reads_one (from_result url_from_str) "beacon.url" (Some DEFAULT_BEACON_URL) given
    (ca_beacon_url args);
  rd_grpc : reads_one (from_result value_u16) "grpc.port" (Some DEFAULT_GRPC_PORT) given
    (ca_grpc_port args);
  rd_http : reads_one (from_result value_u16) "http.port" (Some DEFAULT_HTTP_PORT) given
    (ca_http_port args);
  rd_metrics : reads_one (from_result value_u16) "metrics.port" (Some DEFAULT_METRICS_PORT) given
    (ca_metrics_port args);
  rd_slots : reads_one (from_result value_u64) "epoch.slots" (Some (pretty EPOCH_SLOTS)) given
    (ca_slots_per_epoch args);
  rd_builders : Forall2 (fun s k => fixed48_from_str s = Ok k)
    (mjoin (split_on "," <$> values_given "builders.enabled" given))
    (ca_white_listed_builders args);
  rd_genesis_version : reads_one parse_fork_version "fork-data.genesis-version"
    (Some DEFAULT_FORK_VERSION) given (ca_genesis_fork_version args);
  rd_current_version : reads_one parse_fork_version "fork-data.current-version"
    (Some DEFAULT_CURRENT_VERSION) given (ca_current_fork_version args);
  rd_root : reads_one (from_result parse_genesis_root) "fork-data.genesis-validators-root"
    (Some DEFAULT_VALIDATORS_ROOT) given (ca_genesis_validators_root args);
  rd_chain : reads_one (from_result named_chain_from_str) "chain" (Some DEFAULT_CHAIN) given
    (ca_chain args);
  rd_key : reads_one (from_result parse_bls_secret_key) "bls-secret-key" None given
    (ca_bls_secret_key args)
}.

(** The root of the main network. *)
Definition mainnet_validators_root : Hash256 := @Array 32
  [Byte.x4b; Byte.x36; Byte.x3d; Byte.xb9; Byte.x4e; Byte.x28; Byte.x61; Byte.x20;
  Byte.xd7; Byte.x6e; Byte.xb9; Byte.x05; Byte.x34; Byte.x0f; Byte.xdd; Byte.x4e;
  Byte.x54; Byte.xbf; Byte.xe9; Byte.xf0; Byte.x6b; Byte.xf3; Byte.x3f; Byte.xf6;
  Byte.xcf; Byte.x5a; Byte.xd2; Byte.x7f; Byte.x51; Byte.x1b; Byte.xfe; Byte.x95] I.

(** The arguments of a command line that gives the secret key only. *)
Definition default_args (key : BlsSecretKey) : CliArgs := {|
  ca_mbs_auth_url := "https://auth.example.com/";
  ca_beacon_url := "http://127.0.0.1:3500/";
  ca_grpc_port := 50051;
  ca_http_port := 9063;
  ca_metrics_port := 9090;
  ca_slots_per_epoch := 32;
  ca_white_listed_builders := [];
  ca_genesis_fork_version := mkForkVersion (array_fill 4 Byte.x00);
  ca_current_fork_version :=
    mkForkVersion (@Array 4 [Byte.x20; Byte.x00; Byte.x00; Byte.x93] I);
  ca_genesis_validators_root := mainnet_validators_root;
  ca_chain := Mainnet;
  ca_bls_secret_key := key
|}.

(** ** One argument *)

Lemma texts_read a l :
  (forall s, exists r, arg_parser a s = Val r) ->
  (exists vs, Forall2 (reads_as a) l vs) \/ (exists s e, s ∈ l /\ arg_parser a s = Val (Err e)).
Proof.
  intros Htotal. induction l as [|s l IH]; [left; by exists [] |].
  destruct (Htotal s) as [[v|e] Hs]; [|right; exists s, e; by split; [left |]].
  destruct IH as [[vs Hvs]|(s' & e & Hin & He)].
  - left. exists (v :: vs). by constructor.
  - right. exists s', e. by split; [right |].
Qed.

Lemma arg_read_or_refused a given :
  (forall s, exists r, arg_parser a s = Val r) ->
  (forall d, arg_default a = Some d -> exists v, reads_as a d v) ->
  refused given a \/
  (arg_required a = true -> values_given (arg_long a) given <> []) /\
  exists vs, Forall2 (reads_as a) (arg_texts a given) vs.
Proof.
  intros Htotal Hdefault. unfold refused, arg_texts.
  destruct (values_given (arg_long a) given) as [|v l] eqn:Hv.
  - destruct (arg_required a) eqn:Hr; [left; by left |]. right. split; [done |].
    destruct (arg_default a) as [d|]; [|by exists []].
    destruct (Hdefault d eq_refl) as [v Hd]. exists [v]. repeat constructor; done.
  - destruct (texts_read a (given_pieces a given) Htotal) as [Hvs|Hbad]; [|left; by right].
    right. by split.
Qed.

Lemma args_read_or_refused given (args : list Arg) :
  (forall a s, a ∈ args -> exists r, arg_parser a s = Val r) ->
  (forall a d, a ∈ args -> arg_default a = Some d -> exists v, reads_as a d v) ->
  Exists (refused given) args \/
  Forall (fun a => arg_required a = true -> values_given (arg_long a) given <> []) args /\
  exists vss, Forall2 (fun a vs => Forall2 (reads_as a) (arg_texts a given) vs) args vss.
Proof.
  induction args as [|a args IH]; intros Htotal Hdefault; [right; split; [done | by exists []] |].
  destruct (arg_read_or_refused a given) as [Ha|[Hr [vs Hvs]]].
  - intros s. apply Htotal. by left.
  - intros d. apply Hdefault. by left.
  - left. by constructor.
  - destruct IH as [Hl|[Hrs [vss Hvss]]].
    + intros a' s Ha'. apply Htotal. by right.
    + intros a' d Ha'. apply Hdefault. by right.
    + left. by constructor 2.
    + right. split; [by constructor |]. exists (vs :: vss). by constructor.
Qed.

Lemma value_parser_ok {T} (any : T -> AnyValue) p s v :
  value_parser any p s = Val (Ok v) <-> exists t, v = any t /\ p s = Val (Ok t).
Proof.
  unfold value_parser. rewrite fallible_bind_ok. split.
  - intros (t & Ht & [= <-]). by exists t.
  - intros (t & -> & Ht). by exists t.
Qed.

Lemma single_given args given a :
  well_formed args given = true -> a ∈ args -> arg_append a = false ->
  (length (values_given (arg_long a) given) <= 1)%nat.
Proof.
  intros [_ Hl]%andb_true_iff Ha Happ. rewrite forallb_forall in Hl.
  apply list_elem_of_In in Ha. apply Hl in Ha. rewrite Happ in Ha. by apply Nat.leb_le.
Qed.

(** The texts of an argument that takes one value. *)
Lemma one_text name dflt p given :
  (length (values_given name given) <= 1)%nat ->
  arg_texts (mkArg name dflt None false p) given = option_list (text_of name dflt given).
Proof.
  unfold arg_texts, given_pieces, text_of. cbn.
  destruct (values_given name given) as [|v [|]]; [done | done | cbn; lia].
Qed.

Lemma one_value {T} (any : T -> AnyValue) p name dflt given vs :
  (length (values_given name given) <= 1)%nat ->
  Forall2 (reads_as (mkArg name dflt None false (value_parser any p)))
    (arg_texts (mkArg name dflt None false (value_parser any p)) given) vs <->
  (text_of name dflt given = None /\ vs = []) \/
  (exists t, vs = [any t] /\ reads_one p name dflt given t).
Proof.
  intros Hone. rewrite one_text by done. unfold reads_one.
  destruct (text_of name dflt given) as [s|]; cbn [option_list]; split.
  - intros Hvs. right. apply Forall2_cons_inv_l in Hvs as (v & ? & Hv & Hnil & ->).
    apply Forall2_nil_inv_l in Hnil as ->. apply value_parser_ok in Hv as (t & -> & Ht). eauto.
  - intros [[? _]|(t & -> & s' & [= <-] & Ht)]; [done |]. repeat constructor.
    apply value_parser_ok. eauto.
  - intros ->%Forall2_nil_inv_l. by left.
  - by intros [[_ ->]|(t & _ & s' & ? & _)].
Qed.

(** The same when there is a value: an argument that has a default, or is given. *)
Lemma one_value_given {T} (any : T -> AnyValue) p name dflt given vs :
  (length (values_given name given) <= 1)%nat ->
  (arg_required (mkArg name dflt None false (value_parser any p)) = true ->
   values_given name given <> []) ->
  Forall2 (reads_as (mkArg name dflt None false (value_parser any p)))
    (arg_texts (mkArg name dflt None false (value_parser any p)) given) vs ->
  exists t, vs = [any t] /\ reads_one p name dflt given t.
Proof.
  intros Hone Hreq [[Hnone _]|Ht]%one_value; [|done |done]. exfalso. revert Hreq Hnone.
  unfold text_of, arg_required. cbn. destruct (values_given name given), dflt; naive_solver.
Qed.

Lemma one_value_reads {T} (any : T -> AnyValue) p name dflt given t :
  (length (values_given name given) <= 1)%nat -> reads_one p name dflt given t ->
  Forall2 (reads_as (mkArg name dflt None false (value_parser any p)))
    (arg_texts (mkArg name dflt None false (value_parser any p)) given) [any t].
Proof. intros Hone Ht. apply one_value; eauto. Qed.

Lemma reads_one_given {T} (p : string -> fallible T string) name given t :
  reads_one p name None given t -> values_given name given <> [].
Proof.
  unfold reads_one, text_of. by destruct (values_given name given); [intros (? & ? & _) |].
Qed.

(** The argument that takes any number of values. *)
Lemma many_values {T} (any : T -> AnyValue) p name c given vs :
  Forall2 (reads_as (mkArg name None (Some c) true (pure_parser any p)))
    (arg_texts (mkArg name None (Some c) true (pure_parser any p)) given) vs <->
  exists ts, vs = any <$> ts /\
    Forall2 (fun s t => p s = Ok t) (mjoin (split_on c <$> values_given name given)) ts.
Proof.
  replace (arg_texts _ given) with (mjoin (split_on c <$> values_given name given))
    by (unfold arg_texts, given_pieces; cbn; by destruct (values_given name given)).
  generalize (mjoin (split_on c <$> values_given name given)) as l. intros l.
  revert vs; induction l as [|s l IH]; intros vs; split.
  - intros ->%Forall2_nil_inv_l. by exists [].
  - intros (ts & -> & ->%Forall2_nil_inv_l). constructor.
  - intros (v & vs' & Hv & Hvs & ->)%Forall2_cons_inv_l.
    apply IH in Hvs as (ts & -> & Hts).
    apply (value_parser_ok any (from_result p)) in Hv as (t & -> & [= Ht]). exists (t :: ts).
    split; [done | by constructor].
  - intros (ts & -> & (t & ts' & Ht & Hts & ->)%Forall2_cons_inv_l). constructor.
    + apply (value_parser_ok any (from_result p)). exists t. unfold from_result. by rewrite Ht.
    + apply IH. eauto.
Qed.

Lemma cast_all {T} (any : T -> AnyValue) (cast : AnyValue -> option T) ts :
  (forall t, cast (any t) = Some t) -> mapM cast (any <$> ts) = Some ts.
Proof.
  intros Hcast. induction ts as [|t ts IH]; [done |]. cbn. rewrite Hcast. cbn. by rewrite IH.
Qed.
End reads.

(** ** All the arguments *)

Section literals.
Context {X : Ext} {XL : ExtLaws X} {C : Clap} {CL : ClapLaws C}.

Lemma hex_text_reads b : hex_decode (concat_02x b) = Ok b.
Proof. rewrite <-hex_encode_lower. apply hex_decode_encode. Qed.

Lemma fork_version_reads (v : array 4) s :
  trim_start_0x s = concat_02x (arr_bytes v) -> parse_fork_version s = Val (Ok (mkForkVersion v)).
Proof.
  intros Hs. unfold parse_fork_version, fork_version_from_str.
  rewrite Hs, hex_text_reads. rewrite array_len. cbn. by rewrite array_of_bytes.
Qed.

Lemma genesis_root_reads (r : Hash256) s :
  trim_start_0x s = concat_02x (arr_bytes r) -> parse_genesis_root s = Ok r.
Proof.
  intros Hs. unfold parse_genesis_root. rewrite Hs, hex_text_reads. cbn [map_err result_bind].
  by rewrite array_of_bytes.
Qed.

Lemma chain_reads name c :
  (name, c) ∈ [("mainnet", Mainnet); ("goerli", Goerli); ("holesky", Holesky);
               ("sepolia", Sepolia); ("dev", Dev)] ->
  named_chain_from_str name = Ok c.
Proof. intros Hin. exact (proj1 (Forall_forall _ _) named_chain_reads _ Hin). Qed.

Lemma port_reads s z :
  s <> "" -> digits_value 0 s = Some z -> (z <= 65535)%Z -> from_result value_u16 s = Val (Ok z).
Proof. intros. unfold from_result. by rewrite (value_u16_digits s z). Qed.

Lemma url_reads u :
  u ∈ [DEFAULT_AUTH_URL; DEFAULT_BEACON_URL; "http://localhost:1234"] ->
  from_result url_from_str u = Val (Ok (u +:+ "/")).
Proof. intros Hu. unfold from_result. by rewrite url_of_host. Qed.

Lemma values_not_named name given :
  values_given name given = [] -> forall dflt, text_of name dflt given = dflt.
Proof. unfold text_of. by intros ->. Qed.

End literals.

(** The parsers read the defaults, and the literals of the tests. *)
Ltac read_literal :=
  lazymatch goal with
  | |- from_result url_from_str _ = _ => apply url_reads; set_solver
  | |- from_result value_u16 _ = _ => by apply port_reads
  | |- from_result value_u64 (pretty EPOCH_SLOTS) = _ =>
      unfold from_result; rewrite epoch_slots; by rewrite (value_u64_digits _ 32)
  | |- from_result value_u64 _ = _ => unfold from_result; by erewrite value_u64_digits
  | |- parse_fork_version _ = _ => by apply fork_version_reads
  | |- from_result parse_genesis_root _ = Val (Ok ?r) =>
      unfold from_result; by rewrite (genesis_root_reads r)
  | |- from_result named_chain_from_str _ = Val (Ok ?c) =>
      unfold from_result; rewrite (chain_reads _ c); [done | set_solver]
  end.

Section laws.
Context {X : Ext} {XL : ExtLaws X} {C : Clap} {CL : ClapLaws C}.

(** The defaults are values of their arguments. *)
Lemma default_reads key s :
  parse_bls_secret_key s = Ok key -> cli_reads [("bls-secret-key", s)] (default_args key).
Proof.
  intros Hkey. split; try (eexists; split; [reflexivity |]); try read_literal; [constructor |].
  unfold from_result. cbn [snd]. by rewrite Hkey.
Qed.

Lemma value_parser_total {T} (any : T -> AnyValue) p s :
  (forall s, exists r, p s = Val r) -> exists r, value_parser any p s = Val r.
Proof.
  intros Hp. unfold value_parser. destruct (Hp s) as [[t|e] ->]; cbn; eauto.
Qed.

Lemma cli_parsers_total a s : a ∈ CliArgs_args -> exists r, arg_parser a s = Val r.
Proof.
  revert a. apply Forall_forall. repeat (apply Forall_cons; split); [..|by apply Forall_nil];
    apply value_parser_total; intros s'; try (eexists; reflexivity).
  all: apply fork_version_from_str_total.
Qed.

Lemma value_parser_reads {T} (any : T -> AnyValue) p s t :
  p s = Val (Ok t) -> exists v, value_parser any p s = Val (Ok v).
Proof. intros Hp. exists (any t). apply value_parser_ok. by exists t. Qed.

Lemma cli_defaults_read a d :
  a ∈ CliArgs_args -> arg_default a = Some d -> exists v, reads_as a d v.
Proof.
  revert a. apply (proj1 (Forall_forall (fun a => arg_default a = Some d ->
    exists v, reads_as a d v) CliArgs_args)).
  repeat (apply Forall_cons; split); [..|by apply Forall_nil]; try done; intros [= <-].
  1, 2: eapply value_parser_reads, url_reads; set_solver.
  1, 2, 3: by eapply value_parser_reads, port_reads.
  - eapply (value_parser_reads AnyU64 (from_result value_u64) _ 32%Z). read_literal.
  - by eapply value_parser_reads, (fork_version_reads (array_fill 4 Byte.x00)).
  - by eapply value_parser_reads,
      (fork_version_reads (@Array 4 [Byte.x20; Byte.x00; Byte.x00; Byte.x93] I)).
  - eapply (value_parser_reads AnyHash256 (from_result parse_genesis_root) _
      mainnet_validators_root). read_literal.
  - eapply (value_parser_reads AnyChain (from_result named_chain_from_str) _ Mainnet).
    read_literal.
Qed.

Lemma cli_names_differ : NoDup (arg_long <$> CliArgs_args).
Proof. apply (bool_decide_unpack _). by vm_compute. Qed.

(** The options that take one value have at most one. *)
Lemma cli_single given :
  well_formed CliArgs_args given = true ->
  Forall (fun a => arg_append a = false ->
    (length (values_given (arg_long a) given) <= 1)%nat) CliArgs_args.
Proof. intros Hwf. apply Forall_forall. intros a Ha. by apply (single_given CliArgs_args). Qed.

Ltac split_forall :=
  repeat match goal with H : Forall _ (_ :: _) |- _ => apply Forall_cons in H as [? H] end.
Ltac split_forall2 :=
  repeat match goal with
  | H : Forall2 _ (_ :: _) _ |- _ => apply Forall2_cons_inv_l in H as (? & ? & ? & H & ->)
  | H : Forall2 _ [] _ |- _ => apply Forall2_nil_inv_l in H as ->
  end.

(** The values clap holds for the arguments. *)
Definition cli_values (args : CliArgs) : list (list AnyValue) := [
  [AnyUrl (ca_mbs_auth_url args)]; [AnyUrl (ca_beacon_url args)];
  [AnyU16 (ca_grpc_port args)]; [AnyU16 (ca_http_port args)]; [AnyU16 (ca_metrics_port args)];
  [AnyU64 (ca_slots_per_epoch args)]; AnyPubkey <$> ca_white_listed_builders args;
  [AnyForkVersion (ca_genesis_fork_version args)];
  [AnyForkVersion (ca_current_fork_version args)];
  [AnyHash256 (ca_genesis_validators_root args)]; [AnyChain (ca_chain args)];
  [AnySecretKey (ca_bls_secret_key args)]].

Ltac read_one :=
  lazymatch goal with
  | |- Forall2 (reads_as (mkArg _ None (Some _) _ _)) _ _ =>
      apply many_values; eexists; split; [reflexivity | eassumption]
  | |- _ => apply one_value_reads; [by auto | eassumption]
  end.

(** What is read is what the program gets. *)
Lemma cli_reads_parse prog given args :
  well_formed CliArgs_args given = true -> cli_reads given args ->
  CliArgs_parse_from (prog :: command_line given) = Val (Ok args).
Proof.
  intros Hwf []. pose proof (cli_single given Hwf) as Hone.
  unfold CliArgs_args in Hone. split_forall.
  unfold CliArgs_parse_from.
  rewrite (clap_reads CliArgs_args prog given (cli_values args));
    [| apply cli_names_differ | done | |].
  - unfold CliArgs_from_arg_matches, remove_one, remove_many. cbn.
    rewrite app_nil_r, cast_all by done. by destruct args.
  - do 12 (apply Forall_cons; split; [try done|]); [|by apply Forall_nil].
    intros _. by eapply reads_one_given.
  - do 12 (apply Forall2_cons; split; [read_one|]). by apply Forall2_nil.
Qed.

(** What the values of the arguments were read from. *)
Ltac read_back :=
  repeat lazymatch goal with
  | H : Forall2 (reads_as (mkArg _ None (Some _) _ _)) _ _ |- _ =>
      apply many_values in H as (? & -> & ?)
  | H : Forall2 (reads_as (arg_with_default ?n ?d (pure_parser ?any ?p))) _ _ |- _ =>
      apply (one_value_given any (from_result p) n (Some d)) in H as (? & -> & ?); [|by auto|done]
  | H : Forall2 (reads_as (arg_with_default ?n ?d (value_parser ?any ?p))) _ _ |- _ =>
      apply (one_value_given any p n (Some d)) in H as (? & -> & ?); [|by auto|done]
  | H : Forall2 (reads_as (mkArg ?n None None _ (pure_parser ?any ?p))) _ _ |- _ =>
      apply (one_value_given any (from_result p) n None) in H as (? & -> & ?);
      [|by auto|by auto]
  end.

(** Either everything is read, or the program exits. *)
Lemma cli_reads_or_exits prog given :
  well_formed CliArgs_args given = true ->
  (exists args, cli_reads given args) \/
  (exists e, CliArgs_parse_from (prog :: command_line given) = Val (Err e)).
Proof.
  intros Hwf. pose proof (cli_single given Hwf) as Hone.
  destruct (args_read_or_refused given CliArgs_args) as [Hbad|[Hreq [vss Hvss]]].
  - intros a s. apply cli_parsers_total.
  - intros a d. apply cli_defaults_read.
  - right. destruct (clap_refuses CliArgs_args prog given cli_names_differ Hwf
      cli_parsers_total Hbad) as [e He].
    exists e. unfold CliArgs_parse_from. by rewrite He.
  - left. unfold CliArgs_args in Hvss, Hone, Hreq. split_forall. split_forall2. read_back.
    eexists (mkCliArgs _ _ _ _ _ _ _ _ _ _ _ _). split; eassumption.
Qed.
End laws.

(** * The theorems *)

Section program.
Context {X : Ext} {XL : ExtLaws X} {C : Clap} {CL : ClapLaws C}.

Lemma supported_chain name c :
  (name, c) ∈ [("mainnet", Mainnet); ("goerli", Goerli); ("holesky", Holesky);
               ("sepolia", Sepolia); ("dev", Dev)] ->
  exists version, try_from_chain c = Val (Ok version).
Proof.
  intros Hin. cut (exists v : array 4, try_from_chain c = Val (Ok (mkForkVersion v)));
    [intros [v Hv]; eauto |].
  rewrite !elem_of_cons in Hin.
  destruct Hin as [[= _ ->]|[[= _ ->]|[[= _ ->]|[[= _ ->]|[[= _ ->]|[]%not_elem_of_nil]]]]].
  - exists (array_fill 4 Byte.x00). by apply fork_version_reads.
  - exists (@Array 4 [Byte.x00; Byte.x00; Byte.x10; Byte.x20] I). by apply fork_version_reads.
  - exists (@Array 4 [Byte.x01; Byte.x01; Byte.x70; Byte.x00] I). by apply fork_version_reads.
  - exists (@Array 4 [Byte.x90; Byte.x00; Byte.x00; Byte.x69] I). by apply fork_version_reads.
  - exists (@Array 4 [Byte.x20; Byte.x00; Byte.x00; Byte.x89] I). by apply fork_version_reads.
Qed.

(** The ports that are read are ports. *)
Lemma port_range name dflt given z :
  reads_one (from_result value_u16) name dflt given z -> is_u16 z.
Proof. intros (s & _ & [= Hz]). by eapply value_u16_range. Qed.

(** C25: a command line of options that exist, each single one at most once, is read argument by
    argument, from the value given or else from the default, the builders from the pieces of
    their values; when a value cannot be read, or the secret key is missing, the program exits
    with a usage error, and it never panics.  The secret key alone gives the documented
    defaults: main network, ports 50051, 9063 and 9090, 32 slots per epoch, no builder. *)
Theorem command_line_read prog given :
  well_formed CliArgs_args given = true ->
  (forall args, CliArgs_parse_from (prog :: command_line given) = Val (Ok args) <->
                cli_reads given args) /\
  ((exists args, CliArgs_parse_from (prog :: command_line given) = Val (Ok args)) \/
   (exists e, CliArgs_parse_from (prog :: command_line given) = Val (Err e))) /\
  (forall s key, given = [("bls-secret-key", s)] -> parse_bls_secret_key s = Ok key ->
     CliArgs_parse_from (prog :: command_line given) = Val (Ok (default_args key))).
Proof.
  intros Hwf. split_and!.
  - intros args. split; [|by apply cli_reads_parse]. intros Hargs.
    destruct (cli_reads_or_exits prog given Hwf) as [[args' Hreads]|[e He]];
      [|by rewrite He in Hargs].
    rewrite (cli_reads_parse prog given args' Hwf Hreads) in Hargs. by injection Hargs as <-.
  - destruct (cli_reads_or_exits prog given Hwf) as [[args Hreads]|He]; [left | by right].
    exists args. by apply cli_reads_parse.
  - intros s key -> Hkey. by apply cli_reads_parse, default_reads.
Qed.

(** The chain that is read is one that has a fork version. *)
Lemma chain_supported args given name :
  cli_reads given args -> text_of "chain" (Some DEFAULT_CHAIN) given = Some name ->
  name ∈ ["mainnet"; "goerli"; "holesky"; "sepolia"; "dev"] ->
  exists version, try_from_chain (ca_chain args) = Val (Ok version).
Proof.
  intros Hreads Hname Hin. destruct (rd_chain _ _ Hreads) as (s & Hs & [= Hc]).
  rewrite Hname in Hs. injection Hs as <-.
  change (name ∈ fst <$> [("mainnet", Mainnet); ("goerli", Goerli); ("holesky", Holesky);
    ("sepolia", Sepolia); ("dev", Dev)]) in Hin.
  apply list_elem_of_fmap in Hin as ([n c] & -> & Hin). rewrite (chain_reads _ _ Hin) in Hc.
  injection Hc as <-. by eapply supported_chain.
Qed.

Lemma no_builders args given :
  cli_reads given args -> values_given "builders.enabled" given = [] ->
  ca_white_listed_builders args = [].
Proof.
  intros Hreads Hnone. pose proof (rd_builders _ _ Hreads) as Hb. rewrite Hnone in Hb.
  by apply Forall2_nil_inv_l in Hb.
Qed.

(** The program is [main] on the arguments, or the exit of the parser. *)
Lemma program_run args argv client_build answers w :
  CliArgs_parse_from argv = Val (Ok args) ->
  run_relay (relay_program argv client_build answers) w =
  (let (r, w') := run_relay (main args client_build answers) w in
   (let^ started := r in Val (map_err MainError <$> started), w')).
Proof.
  intros Hargs. unfold run_relay, relay_program. rewrite Hargs, run_lift_val, run_bind.
  by destruct (run _ (main args client_build answers) w) as [[started|m] w'].
Qed.

Lemma program_exits e argv client_build answers w :
  CliArgs_parse_from argv = Val (Err e) ->
  run_relay (relay_program argv client_build answers) w = (Val (Some (Err (UsageError e))), w).
Proof. intros Hargs. unfold run_relay, relay_program. by rewrite Hargs, run_lift_val. Qed.

(** When the relay loop is reached, the arguments were read and [main] ran on them. *)
Lemma program_started prog given client_build answers w sd :
  well_formed CliArgs_args given = true ->
  (run_relay (relay_program (prog :: command_line given) client_build answers) w).1 =
    Val (Some (Ok sd)) ->
  exists args, cli_reads given args /\ started_as args answers (w_out w) sd.
Proof.
  intros Hwf Hsd. destruct (cli_reads_or_exits prog given Hwf) as [[args Hreads]|[e He]].
  - exists args. split; [done |].
    rewrite (program_run args) in Hsd by by apply cli_reads_parse.
    destruct (run_relay (main args client_build answers) w) as [[[[sd'|e]|]|m] w'] eqn:Hmain;
      cbn in Hsd; try done. injection Hsd as ->.
    apply (main_starts_run args client_build answers); [| | by rewrite Hmain].
    + exact (port_range _ _ _ _ (rd_grpc _ _ Hreads)).
    + exact (port_range _ _ _ _ (rd_http _ _ Hreads)).
  - by rewrite (program_exits e) in Hsd.
Qed.

(** C24: the program started with a command line.  Without a secret key it exits with a usage
    error, whatever else is given (so does the command the README gives for another network);
    without builders it ends with [EmptyBuilders], on every chain it supports; and when it
    reaches the relay loop, the command line was read and the parts were started as it says: the
    listening addresses, the whitelist, not empty, and the fork data. *)
Theorem program_follows_command_line prog given client_build answers w :
  well_formed CliArgs_args given = true ->
  (values_given "bls-secret-key" given = [] -> exists e,
     run_relay (relay_program (prog :: command_line given) client_build answers) w =
     (Val (Some (Err (UsageError e))), w)) /\
  (forall args name, cli_reads given args -> values_given "builders.enabled" given = [] ->
     text_of "chain" (Some DEFAULT_CHAIN) given = Some name ->
     name ∈ ["mainnet"; "goerli"; "holesky"; "sepolia"; "dev"] ->
     run_relay (relay_program (prog :: command_line given) client_build answers) w =
     (Val (Some (Err (MainError EmptyBuilders))), w)) /\
  (forall sd,
     (run_relay (relay_program (prog :: command_line given) client_build answers) w).1 =
     Val (Some (Ok sd)) ->
     exists args, cli_reads given args /\ started_as args answers (w_out w) sd).
Proof.
  intros Hwf.
  destruct (cli_reads_or_exits prog given Hwf) as [[args Hreads]|[e He]].
  - pose proof (port_range _ _ _ _ (rd_grpc _ _ Hreads)) as Hgrpc.
    pose proof (port_range _ _ _ _ (rd_http _ _ Hreads)) as Hhttp.
    pose proof (cli_reads_parse prog given args Hwf Hreads) as Hparse.
    rewrite (program_run args) by done. split_and!.
    + intros Hnokey. by destruct (reads_one_given _ _ _ _ (rd_key _ _ Hreads)).
    + intros args' name Hreads' Hnone Hname Hin.
      assert (args' = args) as ->.
      { rewrite (cli_reads_parse prog given args' Hwf Hreads') in Hparse. by injection Hparse. }
      destruct (chain_supported args given name) as [version Hv]; try done.
      rewrite (main_empty_builders _ _ _ _ version); try done.
      by apply (no_builders args given).
    + intros sd Hsd. apply (program_started prog given client_build answers w sd Hwf).
      by rewrite (program_run args).
  - rewrite (program_exits e) by done. split_and!; [by exists e | | done].
    intros args name Hreads. by rewrite (cli_reads_parse prog given args) in He.
Qed.
End program.
