(* ===== verification/Auction.v ===== *)
(** One slot of the auction, end to end: a submission is accepted
    ([crates/http/src/server/builder_api/post_bids.rs]), its header is served
    ([proposer_api/get_header.rs]), and the proposer's signed block brings its payload back
    ([proposer_api/blinded_blocks.rs]), the three handlers run one after the other over the
    in-memory storage. *)

From S2P Require Import Prelude Prog External Types Blst Signer BeaconTypes BeaconBlock.
From S2P Require Import StorageTypes Header Storage BidSpec Metrics InMemory World.
From S2P Require Import InMemoryStorage HttpErrors PostBids GetHeader BlindedBlocks.

(** A submission that is accepted leaves the state [accept_bid] describes, and nothing else. *)
Section accepted.
Context {X : Ext} `{!BuildProfile}.

Lemma post_bids_accepted sub w w1 :
  (hs_slot (sto_head (w_abs w)) < u64_max)%Z ->
  run_relay (post_bids sub) w = (Val (Ok OK), w1) ->
  exists duty, admissible (sto_fork (w_abs w)) (w_abs w) (bs_message sub)
      (ep_prev_randao (bs_execution_payload sub)) (bs_signature sub) duty /\
    w_abs w1 = accept_bid sub duty (w_abs w) /\ w_spawned w1 = w_spawned w.
Proof.
  intros Hhead Hrun.
  pose proof (post_bids_run (fun A => @relay_step X A) w_abs w_frame sub w Hhead) as Hspec.
  destruct (first_failure _) as [e|] eqn:Hff.
  - unfold run_relay in Hrun. rewrite Hrun in Hspec. congruence.
  - destruct (proj1 (bid_checks_admissible _ _) Hff) as [duty Had].
    destruct Hspec as (duty' & s' & Hduty & Hs & Habs & Hframe).
    unfold run_relay in Hrun. rewrite Hrun in Hs. injection Hs as <-.
    rewrite (ad_duty _ _ _ _ _ _ Had) in Hduty. injection Hduty as <-.
    exists duty. split; [done |]. split; [done |]. by injection Hframe.
Qed.
End accepted.

(** The two requests of the proposer, on any world that holds the bid. *)
Section served.
Context {X : Ext} {L : ExtLaws X} `{!BuildProfile}.

(** The header of a submission, signed by the relay. *)
Definition header_of (sub : BidSubmission) (relay : BlsSigner) : SignedHeader :=
  let msg := mkHeader (header_of_payload (bs_execution_payload sub))
    (as_kzg_commitment <$> bb_commitments (bs_blobs_bundle sub))
    (bt_value (bs_message sub)) (signer_public_key relay) in
  mkSignedHeader msg (signer_sign relay msg).

Lemma get_header_serves slot hash pubkey relay sub w :
  (hs_slot (sto_head (w_abs w)) < u64_max)%Z ->
  slot = (hs_slot (sto_head (w_abs w)) + 1)%Z ->
  is_Some (sto_regs (w_abs w) !! pk_serialize pubkey) ->
  sto_read_best slot hash pubkey (w_abs w) = Some sub ->
  (lenN (bb_commitments (bs_blobs_bundle sub)) <= MAX_BLOB_COMMITMENTS)%N ->
  exists w', run_relay (get_header slot hash pubkey relay) w =
      (Val (Ok (mkVersioned Deneb (header_of sub relay))), w') /\
    w_store w' = w_store w /\ w_spawned w' = w_spawned w.
Proof.
  intros Hhead Hslot [reg Hreg] Hbest Hlen.
  destruct (get_header_run slot hash pubkey relay w Hhead) as (r & w' & Hrun & Hst & Hsp & Ha).
  exists w'. split; [|done]. rewrite Hrun. do 2 f_equal.
  inversion Ha; try congruence; simplify_eq; [lia | done].
Qed.

(** The proposer of [duty] signs a block for the slot of its duty. *)
Lemma post_blinded_blocks_delivers duty (proposer : BlsSigner) b resp w :
  sto_find_duty (bl_slot b) (w_abs w) = Some duty ->
  v_validator_index duty = bl_proposer_index b ->
  signer_public_key proposer = duty_pubkey duty ->
  signer_fork_data proposer = sto_fork (w_abs w) ->
  is_Some (sto_regs (w_abs w) !! pk_serialize (duty_pubkey duty)) ->
  sto_blinded (w_abs w) !! pk_serialize (duty_pubkey duty) = Some resp ->
  let signed := mkSignedBlindedBlock b (signer_proposer_sign proposer b) in
  exists w', run_relay (post_blinded_blocks signed) w = (Val (Ok (mkVersioned Deneb resp)), w') /\
    blinded_effect w w' signed (Ok (mkVersioned Deneb resp)).
Proof.
  intros Hduty Hidx Hkey Hfork [reg Hreg] Hresp signed.
  destruct (post_blinded_blocks_run signed w) as (r & w' & Hrun & Ha & He).
  assert (bls_sig_verify (sbl_signature signed) (duty_pubkey duty)
    (signing_root (sbl_message signed) (compute_proposer_domain (sto_fork (w_abs w)))) = true)
    as Hver by (rewrite <-Hfork, <-Hkey; apply gsk_sign_verifies).
  change (bl_slot b) with (sbl_slot signed) in Hduty.
  assert (r = Ok (mkVersioned Deneb resp)) as ->; [|by exists w'].
  inversion Ha as [Hd|d Hd Hi|d Hd Hi Hr|d rg Hd Hi Hr Hs|d Had Hb|d rsp Had Hb];
    try (pose proof (bl_duty _ _ _ Had) as Hd); rewrite Hduty in Hd; simplify_eq; try done;
    congruence.
Qed.
End served.

(** The slot, run to its end. *)
Section slot.
Context {X : Ext} {L : ExtLaws X} `{!BuildProfile}.

(** What the slot starts from: the submission is accepted, and its proposer, which has the duty,
    is registered and signs a block of its slot. *)
Record auction_slot (sub : BidSubmission) (duty : Validator) (proposer : BlsSigner)
    (b : BlindedBlock) (w w1 : World) : Prop := {
  as_head : (hs_slot (sto_head (w_abs w)) < u64_max)%Z;
  as_accepted : run_relay (post_bids sub) w = (Val (Ok OK), w1);
  as_duty : sto_find_duty (bt_slot (bs_message sub)) (w_abs w) = Some duty;
  as_registered : is_Some (sto_regs (w_abs w) !! pk_serialize (duty_pubkey duty));
  as_proposer : bt_proposer_pubkey (bs_message sub) = duty_pubkey duty;
  as_commitments : (lenN (bb_commitments (bs_blobs_bundle sub)) <= MAX_BLOB_COMMITMENTS)%N;
  as_key : signer_public_key proposer = duty_pubkey duty;
  as_fork : signer_fork_data proposer = sto_fork (w_abs w);
  as_slot : bl_slot b = bt_slot (bs_message sub);
  as_index : bl_proposer_index b = v_validator_index duty
}.

Lemma auction_slot_run sub duty (relay proposer : BlsSigner) b w w1 :
  auction_slot sub duty proposer b w w1 ->
  let signed := mkSignedBlindedBlock b (signer_proposer_sign proposer b) in
  let resp := to_blinded_block_response sub in
  exists w2 w3,
    run_relay (get_header (bt_slot (bs_message sub)) (bt_parent_hash (bs_message sub))
      (signer_public_key proposer) relay) w1 = (Val (Ok (mkVersioned Deneb (header_of sub relay))), w2) /\
    run_relay (post_blinded_blocks signed) w2 = (Val (Ok (mkVersioned Deneb resp)), w3) /\
    w_spawned w3 = PublishTask (unblinded signed resp) Ssz :: w_spawned w /\
    ep_block_hash (bs_execution_payload sub) ∈ sto_delivered (w_abs w3).
Proof.
  intros [Hhead Hpost Hduty Hreg Hprop Hlen Hkey Hfork Hslot Hidx] signed resp.
  destruct (post_bids_accepted _ _ _ Hhead Hpost) as (duty' & Had & Habs & Hspawn).
  assert (duty' = duty) as -> by (pose proof (ad_duty _ _ _ _ _ _ Had); congruence).
  destruct (get_header_serves (bt_slot (bs_message sub)) (bt_parent_hash (bs_message sub))
    (signer_public_key proposer) relay sub w1) as (w2 & Hget & Hst2 & Hsp2);
    rewrite ?Habs; try done.
  { exact (ad_next_slot _ _ _ _ _ _ Had). }
  { rewrite Hkey. exact Hreg. }
  { rewrite Hkey, <-Hprop. apply sto_read_best_set. }
  assert (w_abs w2 = w_abs w1) as Habs2 by (unfold w_abs; by rewrite Hst2).
  destruct (post_blinded_blocks_delivers duty proposer b resp w2) as (w3 & Hblind & He3 & Hs3);
    rewrite ?Habs2, ?Habs; try done.
  { rewrite Hslot. exact Hduty. }
  { apply lookup_insert_eq. }
  exists w2, w3. split_and!; try done.
  - rewrite Hs3, Hsp2, Hspawn. reflexivity.
  - rewrite He3. simpl. set_solver.
Qed.
End slot.

Section main.
Context {X : Ext} {L : ExtLaws X} `{!BuildProfile}.

(** C10: a slot of the auction, end to end.  Once a submission for the slot's proposer is
    accepted, the proposer that asks for the header is served the header of that payload, with
    the value of the bid; and when it sends a block of its slot back, signed with the key of
    its duty, it is given exactly the payload and the blobs of the submission, whose hash is
    the one of the header; the block spawned for publication is the proposer's, made of that
    payload, and its hash is recorded as delivered. *)
Theorem auction_round_trip sub duty (relay proposer : BlsSigner) b w w1 :
  auction_slot sub duty proposer b w w1 ->
  let signed := mkSignedBlindedBlock b (signer_proposer_sign proposer b) in
  let resp := to_blinded_block_response sub in
  exists header w2 w3,
    run_relay (get_header (bt_slot (bs_message sub)) (bt_parent_hash (bs_message sub))
      (signer_public_key proposer) relay) w1 = (Val (Ok (mkVersioned Deneb header)), w2) /\
    h_value (sh_message header) = bt_value (bs_message sub) /\
    run_relay (post_blinded_blocks signed) w2 = (Val (Ok (mkVersioned Deneb resp)), w3) /\
    eh_block_hash (h_header (sh_message header)) = ep_block_hash (bbr_execution_payload resp) /\
    w_spawned w3 = PublishTask (unblinded signed resp) Ssz :: w_spawned w /\
    ep_block_hash (bs_execution_payload sub) ∈ sto_delivered (w_abs w3).
Proof.
  intros Hslot signed resp. destruct (auction_slot_run sub duty relay proposer b w w1 Hslot)
    as (w2 & w3 & Hget & Hpost & Hspawn & Hdeliv).
  by exists (header_of sub relay), w2, w3.
Qed.
End main.
