(* ===== verification/Signing.v ===== *)
(** What the relay checks and makes signatures over, and what the network checks: the signing
    roots of the messages are those of the consensus and builder specifications, and the
    signature of a published block is valid for the block in the bytes that are published. *)

From S2P Require Import Prelude Prog External Types Blst Signer BeaconTypes BeaconBlock.
From S2P Require Import StorageTypes Header Ssz SszBlock Merkle Roots Storage BidSpec Metrics.
From S2P Require Import InMemory World InMemoryStorage HttpErrors GetHeader BlindedBlocks Auth.
From S2P Require Import BeaconApi PostBids Auction.

(** * Signing roots *)

Section roots.
Context {X : Ext} {L : ExtLaws X} (hash2 : Hash256 -> Hash256 -> Hash256).
Context {T : TreeHashLaws X hash2}.

Lemma signing_root_spec {A} `{!SignedRoot A} (a : A) domain :
  signing_root a domain = hash2 (tree_hash_root a) domain.
Proof.
  unfold signing_root, signing_data_root. by rewrite derive_root_spec, !hash256_root_spec.
Qed.

Lemma fork_data_root_spec d :
  fork_data_root d =
  hash2 (pad_to 32 (arr_bytes (fd_current_version d))) (fd_genesis_validators_root d).
Proof.
  unfold fork_data_root. by rewrite derive_root_spec, bytes4_root_spec, hash256_root_spec.
Qed.

(** C31: what is signed is what the specifications say: the signing roots of a bid, of a validator
    registration and of a builder bid (the header the relay serves) are the hash of the hash tree
    root of their SSZ containers and of the domain, and a domain is its four-byte tag followed by
    28 bytes of the hash of the fork version and of the genesis validators root. *)
Theorem signed_messages_conform domain :
  (forall bid : BidTrace, ssz_ok (SszEnc:=bid_trace_container) bid ->
     signing_root bid domain = hash2 (root_of hash2 bid_trace_container bid) domain) /\
  (forall m : ValidatorRegistrationMessage, ssz_ok (SszEnc:=registration_container) m ->
     signing_root m domain = hash2 (root_of hash2 registration_container m) domain) /\
  (forall h : Header, ssz_ok (SszEnc:=builder_bid_container) h ->
     signing_root h domain = hash2 (root_of hash2 builder_bid_container h) domain) /\
  (forall d : ForkData,
     let root := hash2 (pad_to 32 (arr_bytes (fd_current_version d)))
                   (fd_genesis_validators_root d) in
     arr_bytes (fd_compute_builder_domain d) =
       [Byte.x00; Byte.x00; Byte.x00; Byte.x01] ++ take 28 (arr_bytes root) /\
     arr_bytes (fd_compute_proposer_domain d) =
       [Byte.x00; Byte.x00; Byte.x00; Byte.x00] ++ take 28 (arr_bytes root)).
Proof.
  split_and!.
  1-3: intros m Hm; rewrite signing_root_spec; f_equal.
  - by apply bid_trace_rooted.
  - by apply registration_rooted.
  - by apply builder_bid_rooted.
  - intros d root. unfold fd_compute_builder_domain, fd_compute_proposer_domain.
    by rewrite fork_data_root_spec.
Qed.
End roots.

(** * The published block *)

Section published.
Context {X : Ext} {L : ExtLaws X} (hash2 : Hash256 -> Hash256 -> Hash256).
Context {T : TreeHashLaws X hash2} `{!SszLib} {S : SszLibLaws _}.
Context `{!FromJson ApiErrorResponse} `{!FromJson BeaconSyncStatusResponse}
  `{!FromJson ProposerDutiesResponse} `{!FromJson GetForkResponse}
  `{!FromJson KnownValidatorResponse} `{!ToJson SignedBeaconBlockContent}.

(** The content [c] is published to the node [self] with the body [body]. *)
Definition published_as (self : BeaconNodeApi) (c : SignedBeaconBlockContent) (body : bytes) :
  Prop := forall w,
  (run_relay (api_publish_block (BeaconApi:=beacon_node_api self) c Ssz) w).1 =
  Val (result_map (fun _ => tt) (out_http (w_out w)
    (mkHttpRequest POST (bn_url self +:+ PUBLISH_BLOCK)
       [("Eth-Consensus-Version", "deneb"); ("content-type", "application/octet-stream")]
       (RawBody body)))).

(** The body carries a block with a signature that is valid for it under the key and the
    domain, as a node checks it: from the bytes alone. *)
Definition carries_signed_block (body : bytes) (signature : BlsSignature) (key : BlsPublicKey)
    (domain : Domain) : Prop :=
  exists block proofs blobs,
    ssz_decode (ssz_ty SignedBeaconBlockContent) body =
      Some (VNode [VNode [block; VBytes (arr_bytes (bls_sig_serialize signature))];
                   proofs; blobs]) /\
    bls_sig_verify signature key
      (hash2 (hash_tree_root hash2 (ssz_ty BeaconBlock) block) domain) = true.

Lemma encodable_block c : encodable c -> ssz_ok (sb_message (sc_signed_block c)).
Proof.
  intros [Hok _]. apply Forall_cons in Hok as [Hok _]. by apply Forall_cons in Hok as [Hok _].
Qed.

(** A blinded block that is signed, unblinded with the payload whose header it has. *)
Lemma unblinded_carries_signed_block (b : SignedBlindedBlock) resp key domain :
  bls_sig_verify (sbl_signature b) key (signing_root (sbl_message b) domain) = true ->
  bbb_execution_payload_header (bl_body (sbl_message b)) =
    header_of_payload (bbr_execution_payload resp) ->
  encodable (unblinded b resp) ->
  carries_signed_block (derived_ssz_bytes (unblinded b resp)) (sbl_signature b) key domain.
Proof.
  intros Hsig Hheader Henc. pose proof (encodable_block _ Henc) as Hok.
  exists (ssz_val (sb_message (sc_signed_block (unblinded b resp)))),
    (ssz_val (SszEnc:=list_enc kzg_enc 4096) (bb_proofs (bbr_blobs_bundle resp))),
    (ssz_val (SszEnc:=list_enc (fixed_bytes_enc BYTES_PER_BLOB) 4096)
       (bb_blobs (bbr_blobs_bundle resp))).
  split; [exact (derived_bytes_decode _ Henc) |].
  rewrite (signing_root_spec hash2) in Hsig.
  by rewrite (blinded_root hash2 _ _ Hheader Hok) in Hsig.
Qed.

(** The signature of a published block is valid.  When a proposer is given the payload behind
    the header it signed, the body that is posted to the beacon node decodes to a block and to
    the proposer's signature, and the signature verifies, under the key of the duty of the slot,
    for the hash tree root of this decoded block: the root of the blinded block that the proposer
    signed is the root of the block with the payload. *)
Theorem published_block_signed self (b : SignedBlindedBlock) resp w w' :
  run_relay (post_blinded_blocks b) w = (Val (Ok (mkVersioned Deneb resp)), w') ->
  bbb_execution_payload_header (bl_body (sbl_message b)) =
    header_of_payload (bbr_execution_payload resp) ->
  encodable (unblinded b resp) ->
  w_spawned w' = PublishTask (unblinded b resp) Ssz :: w_spawned w /\
  exists duty body,
    sto_find_duty (sbl_slot b) (w_abs w) = Some duty /\
    published_as self (unblinded b resp) body /\
    carries_signed_block body (sbl_signature b) (duty_pubkey duty)
      (compute_proposer_domain (sto_fork (w_abs w))).
Proof.
  intros Hrun Hheader Henc. destruct (post_blinded_blocks_run b w) as (r & w2 & Hr & Ha & He).
  rewrite Hrun in Hr. injection Hr as <- <-. destruct He as [_ Hspawn]. split; [exact Hspawn |].
  inversion Ha as [| | | | |duty resp' Had Hresp]; subst.
  exists duty, (derived_ssz_bytes (unblinded b resp)).
  split; [by apply Had |]. split; [intros w2; by rewrite publish_block_run |].
  apply unblinded_carries_signed_block; [by apply Had | done | done].
Qed.

Context `{!BuildProfile}.

(** C14: the auction, end to end, as the network sees it.  Once a submission is accepted, the
    header served for it is the header of its payload; and when the proposer signs a block with
    that header and sends it back, it is given the payload, and the body that is posted to the
    beacon node decodes to a block that the proposer's signature, decoded with it, signs under the
    key of the duty. *)
Theorem auction_block_valid self sub duty (relay proposer : BlsSigner) b w w1 :
  auction_slot sub duty proposer b w w1 ->
  bbb_execution_payload_header (bl_body b) = header_of_payload (bs_execution_payload sub) ->
  let signed := mkSignedBlindedBlock b (signer_proposer_sign proposer b) in
  let resp := to_blinded_block_response sub in
  encodable (unblinded signed resp) ->
  exists header w2 w3 body,
    run_relay (get_header (bt_slot (bs_message sub)) (bt_parent_hash (bs_message sub))
      (signer_public_key proposer) relay) w1 = (Val (Ok (mkVersioned Deneb header)), w2) /\
    h_header (sh_message header) = bbb_execution_payload_header (bl_body b) /\
    run_relay (post_blinded_blocks signed) w2 = (Val (Ok (mkVersioned Deneb resp)), w3) /\
    w_spawned w3 = PublishTask (unblinded signed resp) Ssz :: w_spawned w /\
    published_as self (unblinded signed resp) body /\
    carries_signed_block body (sbl_signature signed) (duty_pubkey duty)
      (compute_proposer_domain (sto_fork (w_abs w))).
Proof.
  intros Hslot Hheader signed resp Henc.
  destruct (auction_slot_run sub duty relay proposer b w w1 Hslot)
    as (w2 & w3 & Hget & Hpost & Hspawn & _).
  exists (header_of sub relay), w2, w3, (derived_ssz_bytes (unblinded signed resp)).
  split; [done |]. split; [by rewrite Hheader |]. split; [done |]. split; [done |].
  split; [intros w0; by rewrite publish_block_run |].
  apply unblinded_carries_signed_block; [|done | done].
  rewrite <-(as_key _ _ _ _ _ _ Hslot), <-(as_fork _ _ _ _ _ _ Hslot).
  apply signer_proposer_sign_verifies.
Qed.
End published.
