(* ===== verification/Concurrent.v ===== *)
(** The tasks of the relay running together: gRPC and HTTP requests, the relay service, the
    tasks it spawns.  They share the storage and are interleaved at its critical sections. *)

From S2P Require Import Prelude Prog External Types Blst Signer BeaconTypes BeaconBlock.
From S2P Require Import StorageTypes Header Storage BidSpec Metrics InMemory World.
From S2P Require Import InMemoryStorage HttpErrors Auth Grpc PostBids GetHeader BlindedBlocks.
From S2P Require Import PostValidators DataApi EventStream RelayService.

Section tasks.
Context `{Ext} `{!BuildProfile} `{!FromJson MbsUser} `{!ToJson SecretBody}.

(** A task: a request being served, or a part of the relay service. *)
Inductive RelayTask : Type :=
| TSubmitBlock (req : SubmitBlockRequest)
| TPostBids (submission : BidSubmission)
| TGetHeader (slot : u64) (parent_hash : B256) (pubkey : BlsPublicKey) (signer : BlsSigner)
| TPostBlindedBlocks (block : SignedBlindedBlock)
| TPostValidators (auth : MbsAuth) (query : ApiKeyQuery)
    (body : result (list ValidatorRegistration) Cause)
| TGetValidators
| TGetBids (params : QueryParams)
| TRelayService (polls : nat) (state : RelayState)
| TDuties (head_slot : HeadSlot) (slots_per_epoch : u64)
| TPublish (block : SignedBeaconBlockContent) (t : SubmissionType).

(** The program of a task; the services are started with the fork data [fork]. *)
Definition task_prog (fork : ForkDatas) (t : RelayTask) : prog RelayE unit :=
  match t with
  | TSubmitBlock req => discard (submit_block (mkRelayService fork) req)
  | TPostBids sub => discard (post_bids sub)
  | TGetHeader slot hash pubkey signer => discard (get_header slot hash pubkey signer)
  | TPostBlindedBlocks b => discard (post_blinded_blocks b)
  | TPostValidators auth query body =>
      discard (post_validators (Auth0:=mbs_auth_validate auth) query body)
  | TGetValidators => discard get_validators
  | TGetBids params => discard (get_bids params)
  | TRelayService n st => discard (relay_polls n st)
  | TDuties head n => discard (duties_task head n)
  | TPublish b t => discard (publish_task b t)
  end.

Abbreviation step := (fun X => @relay_step _ X).
Abbreviation J builders fork :=
  (fun w => by_slot_empty w /\ bids_authentic builders fork (w_abs w)).

Lemma discard_safe (I : World -> Prop) {A} (p : prog RelayE A) :
  safe step I (fun _ => True) p -> safe step I (fun _ => True) (discard p).
Proof. intros Hp. apply safe_bind. eapply safe_mono, Hp. done. Qed.

Lemma task_safe builders fork t :
  safe step (J builders fork) (fun _ => True) (task_prog fork t).
Proof.
  destruct t; apply discard_safe.
  - by apply (submit_block_safe step w_abs w_frame by_slot_empty).
  - apply (post_bids_safe step w_abs w_frame by_slot_empty).
  - apply get_header_safe.
  - apply post_blinded_blocks_safe.
  - apply post_validators_safe. intros secret. apply mbs_auth_safe.
  - unfold get_validators. safe_read. done.
  - apply get_bids_safe.
  - apply relay_polls_safe.
  - apply duties_task_safe.
  - apply publish_task_safe. done.
Qed.

Lemma tasks_safe builders fork ts :
  Forall (safe step (J builders fork) (fun _ => True)) (task_prog fork <$> ts).
Proof. apply Forall_fmap, Forall_true. intros t. apply task_safe. Qed.

(** The world a storage starts in. *)
Definition initial_world (slot : HeadSlot) (attrs : PayloadAttributes)
    (builders : list BlsPublicKey) (fork : ForkDatas) (out : Outside) : World :=
  let (metrics, inner) := in_memory_storage_new slot attrs builders fork ∅ [] in
  mkWorld inner metrics [] [] 0 out.

Lemma initial_safe slot attrs builders fork out :
  J builders fork (initial_world slot attrs builders fork out).
Proof.
  split; [done |]. split; simpl; [done.. | | |]; intros k r Hk; by rewrite lookup_empty in Hk.
Qed.
End tasks.

Section main.
Context {X : Ext} `{!BuildProfile} `{!FromJson MbsUser} `{!ToJson SecretBody}.

(** The map of the best bids by slot stays empty in every state the relay reaches: the
    storage has a reader for it but no writer. *)
Theorem best_bid_by_slot_never_written slot attrs builders fork out ts ts' w' n :
  rtc (pool_step (fun A => @relay_step X A))
    (task_prog fork <$> ts, initial_world slot attrs builders fork out) (ts', w') ->
  (run_relay (st_read_best_bid_by_slot n) w').1 = Val None.
Proof.
  intros Hsteps.
  apply (pool_safe _ (fun w => by_slot_empty w /\ bids_authentic builders fork (w_abs w))
    (fun _ => True)) in Hsteps as [_ [Hempty _]]; [| apply tasks_safe | apply initial_safe].
  simpl in Hempty. unfold run_relay. cbn. unfold inner_best_by_slot.
  by rewrite Hempty, lookup_empty.
Qed.
End main.
