(* ===== verification/System.v ===== *)
(** The closed system: the requests and the relay service, with the tasks they hand to
    [tokio::spawn] started by the executor at any later moment.  Detached tasks are part of the
    interleaving here, where [Concurrent] takes every task as given. *)

From S2P Require Import Prelude Prog External Types Blst Signer BeaconTypes BeaconBlock.
From S2P Require Import StorageTypes Header Storage BidSpec Metrics InMemory World.
From S2P Require Import InMemoryStorage HttpErrors Auth Grpc PostBids GetHeader BlindedBlocks.
From S2P Require Import PostValidators DataApi EventStream RelayService Concurrent.

Section system.
Context `{Ext} `{!BuildProfile}.

(** The body of a spawned task: its result is only logged. *)
Definition spawned_prog (t : Task) : prog RelayE unit :=
  match t with
  | PublishTask block submission_type => discard (publish_task block submission_type)
  | DutiesTask head_slot slots_per_epoch => discard (duties_task head_slot slots_per_epoch)
  end.

Definition w_with_tasks (ts : list Task) (w : World) : World :=
  mkWorld (w_store w) (w_metrics w) ts (w_published w) (w_tick w) (w_out w).

Abbreviation System := (list (prog RelayE unit) * World)%type.
Abbreviation step := (fun X => @relay_step _ X).

(** A step of the system: some task makes its next event, or the executor starts a task that
    was spawned. *)
Inductive sys_step : System -> System -> Prop :=
| SysEvent c c' : pool_step step c c' -> sys_step c c'
| SysStart ts w l1 t l2 :
    w_spawned w = l1 ++ t :: l2 ->
    sys_step (ts, w) (ts ++ [spawned_prog t], w_with_tasks (l1 ++ l2) w).

Lemma pool_sys_steps c c' : rtc (pool_step step) c c' -> rtc sys_step c c'.
Proof. induction 1; [done |]. by eapply rtc_l; [apply SysEvent |]. Qed.

(** Every task stopped and every spawned task was started. *)
Definition quiescent (c : System) : Prop := Forall stopped c.1 /\ w_spawned c.2 = [].

(** The system stops only when it is quiescent. *)
Lemma sys_step_progress (c : System) : quiescent c \/ exists c', sys_step c c'.
Proof.
  destruct c as [ts w]. destruct (pool_step_progress step ts w) as [Hts|[c' Hc]].
  - destruct (w_spawned w) as [|t l] eqn:Hsp; [by left | right].
    eexists. by apply (SysStart ts w [] t l).
  - right. exists c'. by apply SysEvent.
Qed.

Lemma quiescent_no_step (c c' : System) : quiescent c -> ~ sys_step c c'.
Proof.
  intros [Hts Hw] Hstep. inversion Hstep as [? ? Hpool|ts w l1 t l2 Hsp]; subst.
  - destruct c as [ts w]. by apply (stopped_no_step _ _ _ _ Hts Hpool).
  - simpl in Hw. rewrite Hsp in Hw. by destruct l1.
Qed.
End system.

(** ** Safety of the closed system *)

Section safety.
Context `{Ext} `{!BuildProfile}.
Abbreviation step := (fun X => @relay_step _ X).
Context (pan : string -> Prop) (I : World -> Prop).

(** Starting a waiting task keeps the invariant, and the task keeps it. *)
Hypothesis I_start : forall w l1 t l2, w_spawned w = l1 ++ t :: l2 -> I w ->
  I (w_with_tasks (l1 ++ l2) w) /\ guarded step pan I (fun _ => True) (spawned_prog t).

(** An invariant that the given tasks keep, and the detached ones, holds in every state of the
    system. *)
Lemma system_guarded c c' :
  rtc sys_step c c' ->
  Forall (guarded step pan I (fun _ => True)) c.1 -> I c.2 ->
  Forall (guarded step pan I (fun _ => True)) c'.1 /\ I c'.2.
Proof.
  induction 1 as [c|c1 c2 c3 Hstep _ IH]; [done |]. intros Hts Hw.
  destruct Hstep as [c c' Hpool|ts w l1 t l2 Hsp]; apply IH; simpl in *.
  - eapply pool_guarded; [by apply rtc_once | done | done].
  - eapply pool_guarded; [by apply rtc_once | done | done].
  - apply Forall_app. split; [done |]. apply Forall_singleton. by eapply I_start.
  - by eapply I_start.
Qed.
End safety.

Section main.
Context {X : Ext} `{!BuildProfile} `{!FromJson MbsUser} `{!ToJson SecretBody}.

Lemma spawned_prog_safe builders fork t :
  safe (fun A => @relay_step X A) (fun w => by_slot_empty w /\ bids_authentic builders fork (w_abs w))
    (fun _ => True) (spawned_prog t).
Proof.
  destruct t; apply discard_safe; [by apply publish_task_safe | apply duties_task_safe].
Qed.

Lemma system_bids_authentic_run slot attrs builders fork out ts ts' w' :
  rtc sys_step (task_prog fork <$> ts, initial_world slot attrs builders fork out) (ts', w') ->
  bids_authentic builders fork (w_abs w').
Proof.
  intros Hsteps.
  apply (system_guarded (fun _ => True) (fun w => by_slot_empty w /\ bids_authentic builders fork (w_abs w)))
    in Hsteps as [_ [_ Hinv]]; [done | | apply tasks_safe | apply initial_safe].
  intros w l1 t l2 _ []. split; [done | apply spawned_prog_safe].
Qed.

(** C1: authenticity under concurrency: start the storage empty and run any set of tasks of the
    relay (requests on every API, the relay service) together with the tasks they spawn, which
    the executor starts whenever it likes, interleaved in any way at the critical sections of
    the storage, with any answers from outside.  In every state reached, each stored best bid
    is stored under its own slot, parent hash and proposer, has a positive value, and was
    signed in the builder domain by the key it names, a whitelisted builder; the same holds for
    the bids by block number, and every payload that can be delivered comes from such a
    submission. *)
Theorem system_bids_authentic slot attrs builders fork out ts ts' w' :
  rtc sys_step (task_prog fork <$> ts, initial_world slot attrs builders fork out) (ts', w') ->
  bids_authentic builders fork (w_abs w').
Proof. apply system_bids_authentic_run. Qed.
End main.
