(* ===== verification/Relay.v ===== *)
(** The relay from its command line to every state it reaches: [main] on the command line, and
    the system of tasks in the storage it set up. *)

From S2P Require Import Prelude Prog External Types Blst Signer BeaconTypes BeaconBlock.
From S2P Require Import StorageTypes Header Storage BidSpec Metrics InMemory World.
From S2P Require Import InMemoryStorage Auth EventStream RelayService Startup Cli Concurrent.
From S2P Require Import System.

Section relay.
Context {X : Ext} {XL : ExtLaws X} {C : Clap} {CL : ClapLaws C}.
Context `{!BuildProfile} `{!FromJson MbsUser} `{!ToJson SecretBody}.

(** The world at the end of [main]: the storage it set up, with the metrics of its set-up, and
    no spawned task. *)
Definition started_world (sd : Started) (out : Outside) : World :=
  let attrs := i_payload_attributes (sd_storage sd) in
  mkWorld (sd_storage sd)
    [set_block (pa_parent_block_number attrs); set_proposal_slot (pa_proposal_slot attrs)]
    [] [] 0 out.

Lemma started_world_initial args answers out out' sd :
  started_as args answers out sd ->
  exists slot attrs,
    started_world sd out' =
    initial_world slot attrs (i_wlist_builders (sd_storage sd)) (sd_fork_data sd) out'.
Proof.
  intros (_ & _ & _ & version & _ & _ & _ & _ & _ & _ & p & h & _ & _ & Hsto).
  exists (mkHeadSlot (he_slot h)), (pae_data p). unfold started_world. by rewrite Hsto.
Qed.

(** C6: from the command line to the bids: whatever tasks the started relay runs, interleaved with
    the tasks they spawn in any way and with any answers from outside, every bid it stores or can
    deliver was signed, in the builder domain of the fork data that [main] chose, by one of the
    keys listed on the command line, and has a positive value. *)
Theorem program_bids_authentic prog given client_build answers w sd out ts ts' w' :
  well_formed CliArgs_args given = true ->
  (run_relay (relay_program (prog :: command_line given) client_build answers) w).1 =
    Val (Some (Ok sd)) ->
  rtc sys_step (task_prog (sd_fork_data sd) <$> ts, started_world sd out) (ts', w') ->
  exists args builders,
    cli_reads given args /\
    Forall2 (fun b k => pk_from_fixed b = Val k) (ca_white_listed_builders args) builders /\
    bids_authentic builders (sd_fork_data sd) (w_abs w').
Proof.
  intros Hwf Hrun Hsteps.
  destruct (program_started prog given client_build answers w sd Hwf Hrun)
    as (args & Hreads & Hstarted).
  destruct (started_world_initial _ _ _ out _ Hstarted) as (slot & attrs & Hworld).
  rewrite Hworld in Hsteps. exists args, (i_wlist_builders (sd_storage sd)).
  destruct Hstarted as (_ & _ & _ & version & _ & _ & Hbuilders & _).
  split_and!; [done | done | by eapply system_bids_authentic_run].
Qed.

(** The option of the slots per epoch is not checked: with 0 the relay starts, and every task that
    refreshes the duties panics when it divides by it. *)
Theorem zero_epoch_slots given args head w :
  cli_reads given args -> values_given "epoch.slots" given = ["0"%string] ->
  ca_slots_per_epoch args = 0%Z /\
  (run_relay (duties_task head (ca_slots_per_epoch args)) w).1 =
  Panics "attempt to divide by zero".
Proof.
  intros Hreads Hzero. destruct (rd_slots _ _ Hreads) as (s & Hs & [= Hn]).
  unfold text_of in Hs. rewrite Hzero in Hs. injection Hs as <-.
  rewrite (value_u64_digits _ 0) in Hn by done. injection Hn as <-. by split.
Qed.
End relay.
