(* ===== verification/Typing.v ===== *)
(** Well-typed values: every [u64] of the program is within its width (the model has integers).
    Conversions and critical sections keep it.  And the inputs that make a task panic: what a
    conversion does not take, the last slot, epochs of no slot. *)

From S2P Require Import Prelude Prog External Types Blst Signer BeaconTypes BeaconBlock.
From S2P Require Import StorageTypes Storage Metrics InMemory World Grpc EventStream RelayService.

Section typing.
Context `{Ext}.

Record typed_withdrawal (w : Withdrawal) : Prop := {
  tw_index : is_u64 (wd_index w);
  tw_validator : is_u64 (wd_validator_index w);
  tw_amount : is_u64 (wd_amount w)
}.

Record typed_payload (p : ExecutionPayload) : Prop := {
  tp_number : is_u64 (ep_block_number p);
  tp_gas_limit : is_u64 (ep_gas_limit p);
  tp_gas_used : is_u64 (ep_gas_used p);
  tp_timestamp : is_u64 (ep_timestamp p);
  tp_blob_gas : is_u64 (ep_blob_gas_used p);
  tp_excess : is_u64 (ep_excess_blob_gas p);
  tp_withdrawals : Forall typed_withdrawal (ep_withdrawals p)
}.

Record typed_trace (b : BidTrace) : Prop := {
  tt_slot : is_u64 (bt_slot b);
  tt_gas_limit : is_u64 (bt_gas_limit b);
  tt_gas_used : is_u64 (bt_gas_used b)
}.

Record typed_submission (s : BidSubmission) : Prop := {
  ts_trace : typed_trace (bs_message s);
  ts_payload : typed_payload (bs_execution_payload s)
}.

Record typed_registration (r : ValidatorRegistration) : Prop := {
  tr_gas_limit : is_u64 (rm_gas_limit (vr_message r));
  tr_timestamp : is_u64 (rm_timestamp (vr_message r))
}.

Record typed_duty (d : Validator) : Prop := {
  td_slot : is_u64 (v_slot d);
  td_index : is_u64 (v_validator_index d);
  td_entry : typed_registration (v_entry d)
}.

Record typed_rpc_withdrawal (w : RpcWithdrawal) : Prop := {
  trw_index : is_u64 (rw_index w);
  trw_validator : is_u64 (rw_validator_index w);
  trw_amount : is_u64 (rw_amount w)
}.

Record typed_attrs (a : PayloadAttributes) : Prop := {
  ta_slot : is_u64 (pa_proposal_slot a);
  ta_number : is_u64 (pa_parent_block_number a);
  ta_proposer : is_u64 (pa_proposer_index a);
  ta_timestamp : is_u64 (pa_timestamp a);
  ta_withdrawals : forall ws, pa_withdrawals a = Some ws -> Forall typed_rpc_withdrawal ws
}.

Definition typed_head (h : HeadSlot) : Prop := is_u64 (hs_slot h).

Record typed_store (i : InMemoryStorageInner) : Prop := {
  ti_head : typed_head (i_slot i);
  ti_attrs : typed_attrs (i_payload_attributes i);
  ti_duties : Forall typed_duty (i_proposer_duties i);
  ti_regs : map_Forall (fun _ => typed_registration) (i_validator_registrations i);
  ti_best : map_Forall (fun key b => is_u64 key.1.1 /\ typed_submission b) (i_best_bid_per_slot i);
  ti_by_slot : map_Forall (fun n b => is_u64 n /\ typed_submission b) (i_best_bid_by_slot i);
  ti_by_number : map_Forall (fun n b => is_u64 n /\ typed_submission b)
    (i_best_bid_by_block_number i);
  ti_blinded : map_Forall (fun _ r => typed_payload (bbr_execution_payload r))
    (i_blinded_block_resp i)
}.

(** ** What comes from outside *)

Record typed_proposer_duty (d : ProposerDutiesData) : Prop := {
  tpd_slot : is_u64 (pd_slot d);
  tpd_index : is_u64 (pd_validator_index d)
}.

Definition typed_outside (out : Outside) : Prop :=
  forall e r, out_duties out e = Ok r -> Forall typed_proposer_duty (pdr_data r).

Definition typed_event (e : BeaconEvent) : Prop :=
  match e with
  | PayloadAttribute e => typed_attrs (pae_data e)
  | Head e => typed_head (mkHeadSlot (he_slot e))
  end.

Definition typed_stream (s : BeaconEventsStream) : Prop :=
  Forall (fun e => typed_event (PayloadAttribute e)) (stream_oks (es_payload_attributes s)) /\
  Forall (fun e => typed_event (Head e)) (stream_oks (es_new_head s)).

(** The streams a relay service follows: the one it has or waits for, and those of the
    connections to come. *)
Definition relay_streams (st : RelayState) : list BeaconEventsStream :=
  match rs_inner st with BeaconEvents s => s | PendingConnection c => cn_stream c end ::
  (cn_stream <$> rs_connect st).

Record typed_relay (st : RelayState) : Prop := {
  tre_streams : Forall typed_stream (relay_streams st);
  tre_epoch : is_u64 (rs_slots_per_epoch st)
}.

(** A gRPC message: its integers are [uint64]s. *)
Record typed_pb_trace (b : PbBidTrace) : Prop := {
  tpb_slot : is_u64 (pb_slot b);
  tpb_gas_limit : is_u64 (pb_gas_limit b);
  tpb_gas_used : is_u64 (pb_gas_used b)
}.

Record typed_pb_payload (p : PbExecutionPayload) : Prop := {
  tpp_number : is_u64 (pe_block_number p);
  tpp_gas_limit : is_u64 (pe_gas_limit p);
  tpp_gas_used : is_u64 (pe_gas_used p);
  tpp_timestamp : is_u64 (pe_timestamp p);
  tpp_blob_gas : is_u64 (pe_blob_gas_used p);
  tpp_excess : is_u64 (pe_excess_blob_gas p);
  tpp_withdrawals :
    Forall (fun w => is_u64 (pw_index w) /\ is_u64 (pw_amount w)) (pe_withdrawals p)
}.

Record typed_request (r : SubmitBlockRequest) : Prop := {
  trq_trace : forall b, sr_bid_trace r = Some b -> typed_pb_trace b;
  trq_payload : forall p, sr_execution_payload r = Some p -> typed_pb_payload p
}.

(** ** The inputs that make a task panic *)

Definition panics {A} (o : outcome A) : Prop :=
  match o with Panics _ => True | Val _ => False end.

(** A head event of the last slot. *)
Definition last_head_event (s : BeaconEventsStream) : Prop :=
  Exists (fun e => he_slot e = u64_max) (stream_oks (es_new_head s)).

(** A duty whose key is not a key. *)
Definition bad_duty (out : Outside) : Prop :=
  exists e r, out_duties out e = Ok r /\ Exists (fun d => panics (pk_from_fixed (pd_pubkey d))) (pdr_data r).

(** A gRPC message with a key or a signature that its conversion does not take. *)
Definition bad_message (r : SubmitBlockRequest) : Prop :=
  (exists b, sr_bid_trace r = Some b /\
     (panics (pk_from_vec (pb_builder_pubkey b)) \/ panics (pk_from_vec (pb_proposer_pubkey b)))) \/
  panics (sig_from_vec (sr_signature r)).

(** Which of them the inputs hold. *)
Record Causes : Type := mkCauses {
  zero_epoch : Prop;    (* a number of slots per epoch is 0 *)
  last_head : Prop;     (* a head slot is the last [u64] *)
  bad_duties : Prop;    (* a duty of the node has no key *)
  bad_request : Prop    (* a gRPC message has no key, or no signature *)
}.

(** The panics they explain, by their message. *)
Definition explained `{!BuildProfile} (c : Causes) (m : string) : Prop :=
  (m = "attempt to divide by zero"%string /\ zero_epoch c) \/
  (m = "attempt to add with overflow"%string /\ overflow_checks = true /\ last_head c) \/
  (m = "Failed to parse public key from fixed bytes"%string /\ bad_duties c) \/
  ((m = "Failed to parse public key"%string \/ m = "Failed to parse signature"%string) /\
   bad_request c).

(** ** The states, given the causes *)

Context (c : Causes).

Definition head_ok (h : HeadSlot) : Prop := typed_head h /\ (hs_slot h = u64_max -> last_head c).

Definition slots_ok (n : u64) : Prop := is_u64 n /\ (n = 0%Z -> zero_epoch c).

Definition stream_ok (s : BeaconEventsStream) : Prop :=
  typed_stream s /\ (last_head_event s -> last_head c).

Definition spawn_ok (t : Task) : Prop :=
  match t with
  | PublishTask _ _ => True
  | DutiesTask head n => head_ok head /\ slots_ok n
  end.

Record relay_ok (st : RelayState) : Prop := {
  ro_streams : Forall stream_ok (relay_streams st);
  ro_epoch : slots_ok (rs_slots_per_epoch st)
}.

Record world_ok (w : World) : Prop := {
  wo_store : typed_store (w_store w);
  wo_head : hs_slot (i_slot (w_store w)) = u64_max -> last_head c;
  wo_out : typed_outside (w_out w);
  wo_duties : bad_duty (w_out w) -> bad_duties c;
  wo_spawned : Forall spawn_ok (w_spawned w)
}.
End typing.

(** ** Conversions *)

Section conversions.
Context {X : Ext} {L : ExtLaws X}.

Lemma pk_from_vec_cases l :
  (exists k, pk_from_vec l = Val k) \/
  (pk_from_vec l = Panics "Failed to parse public key" /\ panics (pk_from_vec l)).
Proof. unfold pk_from_vec. destruct (pk_from_bytes l); cbn; eauto. Qed.

Lemma pk_from_fixed_cases a :
  (exists k, pk_from_fixed a = Val k) \/
  (pk_from_fixed a = Panics "Failed to parse public key from fixed bytes" /\
   panics (pk_from_fixed a)).
Proof. unfold pk_from_fixed. destruct (pk_from_bytes _); cbn; eauto. Qed.

Lemma sig_from_vec_cases l :
  (exists s, sig_from_vec l = Val s) \/
  (sig_from_vec l = Panics "Failed to parse signature" /\ panics (sig_from_vec l)).
Proof. unfold sig_from_vec. destruct (sig_from_bytes l); cbn; eauto. Qed.

(** The conversion of a bid trace keeps the integers, and panics only on a bad key. *)
Lemma bid_trace_try_from_typed b :
  typed_pb_trace b ->
  (exists r, bid_trace_try_from b = Val r /\ forall t, r = Ok t -> typed_trace t) \/
  (bid_trace_try_from b = Panics "Failed to parse public key" /\
   (panics (pk_from_vec (pb_builder_pubkey b)) \/ panics (pk_from_vec (pb_proposer_pubkey b)))).
Proof.
  intros [Hs Hl Hu]. unfold bid_trace_try_from.
  destruct (u256_parse _) as [v|e]; simpl; [|left; by eexists].
  rewrite !b256_try_from_spec, address_try_from_spec.
  destruct (array_of _ _); simpl; [|left; by eexists].
  destruct (array_of _ _); simpl; [|left; by eexists].
  destruct (pk_from_vec_cases (pb_builder_pubkey b)) as [[k1 ->]|[-> Hp]]; [|right; by auto].
  destruct (pk_from_vec_cases (pb_proposer_pubkey b)) as [[k2 ->]|[-> Hp]]; [|right; by auto].
  simpl. destruct (array_of _ _); simpl; left; eexists; (split; [done |]); [|done].
  intros t [= <-]. by split.
Qed.

Lemma collect_f_Forall {A B Er} (f : A -> fallible B Er) (P : A -> Prop) (Q : B -> Prop) l bs :
  (forall a b, P a -> f a = Val (Ok b) -> Q b) -> Forall P l ->
  collect_f f l = Val (Ok bs) -> Forall Q bs.
Proof.
  intros HPQ Hl. revert bs. induction Hl as [|a l Ha _ IH]; simpl; intros bs.
  - intros [= <-]. constructor.
  - intros (b & Hb & (bs' & Hbs & [= <-])%fallible_bind_ok)%fallible_bind_ok.
    constructor; [by eapply HPQ | by apply IH].
Qed.

Lemma execution_payload_try_from_typed p q :
  typed_pb_payload p -> execution_payload_try_from p = Val (Ok q) -> typed_payload q.
Proof.
  intros Hp. unfold execution_payload_try_from.
  intros (ws & Hws & Hq)%fallible_bind_ok.
  assert (Forall typed_withdrawal ws) as Htyped.
  { eapply collect_f_Forall; [| exact (tpp_withdrawals _ Hp) | exact Hws].
    intros w w' [Hi Ha]. rewrite withdrawal_try_from_spec. destruct (array_of _ _); [|done].
    intros [= <-]. by split. }
  repeat (apply fallible_bind_ok in Hq as (? & ? & Hq); cbv beta zeta in Hq).
  injection Hq as <-. destruct Hp. split; simpl; try done.
  match goal with H : Val (ok_or (vl_new 16 ws) _) = _ |- _ =>
    rewrite vl_new_spec in H; destruct (lenN ws <=? 16)%N; simplify_eq/= end.
  done.
Qed.
End conversions.

(** ** Critical sections *)

Section sections.
Context `{Ext}.

Lemma inner_set_slot_typed h i : typed_head h -> typed_store i -> typed_store (inner_set_slot h i).
Proof. intros Hh []. by split. Qed.

Lemma inner_set_attrs_typed a i :
  typed_attrs a -> typed_store i -> typed_store (inner_set_payload_attributes a i).
Proof. intros Ha []. by split. Qed.

Lemma inner_set_duties_typed d i :
  Forall typed_duty d -> typed_store i -> typed_store (inner_set_duties d i).
Proof. intros Hd []. by split. Qed.

Lemma inner_set_regs_typed m i :
  map_Forall (fun _ => typed_registration) m -> typed_store i ->
  typed_store (inner_set_registrations m i).
Proof. intros Hm []. by split. Qed.

Lemma inner_set_best_typed b i :
  typed_submission b -> typed_store i ->
  typed_store (inner_set_best_bid (bt_slot (bs_message b)) b i).
Proof.
  intros [Ht Hp] []. split; simpl; try done; apply map_Forall_insert_2; try done.
  - split; [apply Ht | by split].
  - split; [apply Hp | by split].
Qed.

Lemma inner_set_blinded_typed k r i :
  typed_payload (bbr_execution_payload r) -> typed_store i ->
  typed_store (inner_set_blinded k r i).
Proof. intros Hr []. split; simpl; try done. by apply map_Forall_insert_2. Qed.

Lemma inner_push_delivered_typed h i : typed_store i -> typed_store (inner_push_delivered h i).
Proof. intros []. by split. Qed.
End sections.

#[export] Hint Resolve inner_set_slot_typed inner_set_attrs_typed inner_set_duties_typed
  inner_set_regs_typed inner_set_best_typed inner_set_blinded_typed inner_push_delivered_typed
  : relay.
