(* ===== verification/TypeSafety.v ===== *)
(** Type safety of the closed system: started from a well-typed state, with well-typed inputs,
    the state stays well-typed and a task panics only for a cause among its inputs, whatever the
    interleaving. *)

From S2P Require Import Prelude Prog External Types Blst Signer BeaconTypes BeaconBlock.
From S2P Require Import StorageTypes Header Storage BidSpec Metrics InMemory World.
From S2P Require Import InMemoryStorage HttpErrors Auth Grpc PostBids GetHeader BlindedBlocks.
From S2P Require Import PostValidators DataApi EventStream RelayService Concurrent System Typing.

Section steps.
Context {X : Ext} `{!BuildProfile} (c : Causes).
Abbreviation step := (fun A => @relay_step X A).
Abbreviation P := (explained c).
Abbreviation I := (world_ok c).
Implicit Types i : InMemoryStorageInner.

(** One event at a time. *)
Lemma ok_rd {A B} (f : InMemoryStorageInner -> A) (k : A -> prog RelayE B) Q :
  (forall i, typed_store i -> guarded step P I Q (k (f i))) -> guarded step P I Q (bind (rd f) k).
Proof. intros Hk w Hw. split; [done |]. apply Hk, Hw. Qed.

(** The head slot that is read is the last one only if one of the inputs was. *)
Lemma ok_head {B} (k : HeadSlot -> prog RelayE B) Q :
  (forall h, head_ok c h -> guarded step P I Q (k h)) ->
  guarded step P I Q (bind st_read_head_slot k).
Proof. intros Hk w Hw. split; [done |]. apply Hk. split; [apply Hw | apply (wo_head _ _ Hw)]. Qed.

Lemma ok_wr_last f (Q : unit -> Prop) :
  (forall i, typed_store i -> typed_store (f i)) -> (forall i, i_slot (f i) = i_slot i) ->
  Q tt -> guarded step P I Q (wr f).
Proof.
  intros Hf Hs Hq w []. split; [|done]. split; simpl; auto. by rewrite Hs.
Qed.

Lemma ok_wr {B} f (k : unit -> prog RelayE B) Q :
  (forall i, typed_store i -> typed_store (f i)) -> (forall i, i_slot (f i) = i_slot i) ->
  guarded step P I Q (k tt) -> guarded step P I Q (bind (wr f) k).
Proof. intros. by apply guarded_bind, ok_wr_last. Qed.

Lemma ok_set_head {B} h (k : unit -> prog RelayE B) Q :
  head_ok c h -> guarded step P I Q (k tt) ->
  guarded step P I Q (bind (st_set_head_slot h) k).
Proof.
  intros [Hh Hlast] Hk w []. split; [|done]. split; simpl; auto. by apply inner_set_slot_typed.
Qed.

(** The slot after the head: an overflow at the last slot. *)
Lemma ok_next_slot {B} h slot (k : bool -> prog RelayE B) Q :
  head_ok c h -> (forall b, guarded step P I Q (k b)) ->
  guarded step P I Q (bind (lift (is_next_slot h slot)) k).
Proof.
  intros [Hh Hlast] Hk. unfold is_next_slot, u64_add. case_decide as Hsum; [apply Hk |].
  destruct overflow_checks eqn:Ho; [|apply Hk]. right; left. split_and!; [done.. |].
  apply Hlast. unfold typed_head, is_u64, u64_max in *. lia.
Qed.

Lemma ok_emit_last m (Q : unit -> Prop) : Q tt -> guarded step P I Q (emit m).
Proof. intros Hq w []. split; [by split | done]. Qed.

Lemma ok_emit {B} m (k : unit -> prog RelayE B) Q :
  guarded step P I Q (k tt) -> guarded step P I Q (bind (emit m) k).
Proof. intros. by apply guarded_bind, ok_emit_last. Qed.

Lemma ok_now {B} (k : Z -> prog RelayE B) Q :
  (forall t, guarded step P I Q (k t)) -> guarded step P I Q (bind instant_now k).
Proof. intros Hk w []. split; [by split | apply Hk]. Qed.

Lemma ok_sleep {B} d (k : unit -> prog RelayE B) Q :
  guarded step P I Q (k tt) -> guarded step P I Q (bind (sleep d) k).
Proof. intros Hk w Hw. by split. Qed.

Lemma ok_spawn {B} t (k : unit -> prog RelayE B) Q :
  spawn_ok c t -> guarded step P I Q (k tt) -> guarded step P I Q (bind (spawn t) k).
Proof. intros Ht Hk w []. split; [|done]. split; simpl; auto. Qed.

Lemma ok_duties {B} e (k : result ProposerDutiesResponse string -> prog RelayE B) Q :
  (forall r, (forall d, r = Ok d -> Forall typed_proposer_duty (pdr_data d) /\
       (Exists (fun d => panics (pk_from_fixed (pd_pubkey d))) (pdr_data d) -> bad_duties c)) ->
     guarded step P I Q (k r)) ->
  guarded step P I Q (bind (bh_proposer_duties e) k).
Proof.
  intros Hk w Hw. split; [done |]. apply Hk. intros d Hd. split; [by apply (wo_out _ _ Hw _ _ Hd) |].
  intros Hbad. apply (wo_duties _ _ Hw). by exists e, d.
Qed.

Lemma ok_known {B} pk (k : result KnownValidatorResponse string -> prog RelayE B) Q :
  (forall r, guarded step P I Q (k r)) -> guarded step P I Q (bind (bh_get_known_validator pk) k).
Proof. intros Hk w Hw. split; [done | apply Hk]. Qed.

Lemma ok_discard {A} (p : prog RelayE A) Q :
  guarded step P I Q p -> guarded step P I (fun _ => True) (discard p).
Proof. intros Hp. apply guarded_bind. eapply guarded_mono, Hp. done. Qed.

(** The methods that are several events. *)
Lemma ok_set_attrs {B} a (k : unit -> prog RelayE B) Q :
  typed_attrs a -> guarded step P I Q (k tt) ->
  guarded step P I Q (bind (st_set_payload_attributes a) k).
Proof.
  intros Ha Hk. apply guarded_bind.
  change (st_set_payload_attributes a) with (set_payload_attributes a).
  unfold set_payload_attributes. do 2 apply ok_emit. apply guarded_bind. apply ok_rd.
  intros i _. destruct (inner_delivered_contains _ _); 
    apply ok_emit_last, ok_wr_last; auto with relay.
Qed.

Lemma ok_set_regs {B} m (k : unit -> prog RelayE B) Q :
  map_Forall (fun _ => typed_registration) m -> guarded step P I Q (k tt) ->
  guarded step P I Q (bind (st_set_validator_registrations m) k).
Proof.
  intros Hm Hk. apply guarded_bind.
  change (st_set_validator_registrations m) with (set_validator_registrations m).
  unfold set_validator_registrations. apply ok_wr; [auto with relay | done |].
  by apply ok_emit_last.
Qed.

Lemma ok_set_delivered {B} h (k : unit -> prog RelayE B) Q :
  guarded step P I Q (k tt) -> guarded step P I Q (bind (st_set_delivered_blocks h) k).
Proof.
  intros Hk. apply guarded_bind.
  change (st_set_delivered_blocks h) with (set_delivered_blocks h).
  unfold set_delivered_blocks. apply ok_emit, ok_wr_last; auto with relay.
Qed.
End steps.

(** ** The handlers *)

Section handlers.
Context {X : Ext} {L : ExtLaws X} `{!BuildProfile} (c : Causes).
Abbreviation step := (fun A => @relay_step X A).
Abbreviation P := (explained c).
Abbreviation I := (world_ok c).

Lemma typed_best i key b :
  typed_store i -> i_best_bid_per_slot i !! key = Some b -> typed_submission b.
Proof. intros Hi Hb. by apply (ti_best _ Hi _ _ Hb). Qed.

Lemma store_submission_total {A} sub (duty : Validator) (a : A) :
  typed_submission sub ->
  guarded step P I (fun _ => True)
    (do! st_set_best_bid (bt_slot (bs_message sub)) sub;
     do! st_set_blinded_block_response (duty_pubkey duty) (to_blinded_block_response sub);
     Ret a).
Proof.
  intros Hs. apply ok_wr; [auto with relay | done |]. apply ok_wr; [| done | done].
  intros i. apply inner_set_blinded_typed. apply Hs.
Qed.

Lemma post_bids_total sub :
  typed_submission sub -> guarded step P I (fun _ => True) (post_bids sub).
Proof.
  intros Hs. unfold post_bids. apply guarded_bind. unfold http_is_bid_higher.
  apply ok_rd. intros i _.
  destruct (match inner_best_bid _ _ _ i with Some _ => _ | None => _ end)
    as [higher|m|] eqn:Hh; [|by destruct (inner_best_bid _ _ _ i)..].
  cbn [bind]. destruct higher; [|done]. cbn [negb]. destruct (u256_is_zero _); [done |].
  apply ok_rd. intros i1 _. destruct (inner_is_whitelisted _ i1); [|done]. cbn [negb].
  apply ok_head. intros head Hhead. apply ok_next_slot; [done |].
  intros []; [|done]. cbn [negb].
  apply ok_rd. intros i3 _. destruct (validate_bid _ _ _); [|done].
  apply ok_rd. intros i4 _. destruct (inner_find_duty _ i4) as [duty|]; [|done].
  apply ok_rd. intros i5 _. destruct (bid_verify_signature _ _ _); [|done]. cbn [negb].
  destruct sub. by apply store_submission_total.
Qed.

Lemma validate_bid_and_payload_total bid payload :
  guarded step P I (fun _ => True) (validate_bid_and_payload bid payload).
Proof.
  unfold validate_bid_and_payload. destruct (u256_is_zero _); [done |].
  apply ok_rd. intros i1 _. destruct (inner_is_whitelisted _ i1); [|done]. cbn [negb].
  apply ok_head. intros head Hhead. apply ok_next_slot; [done |].
  intros []; [|done]. cbn [negb].
  apply ok_rd. intros i3 _. destruct (validate_bid _ _ _); [|done].
  by apply ok_rd.
Qed.

Lemma update_best_total bid payload blobs sig key :
  typed_trace bid -> typed_payload payload ->
  guarded step P I (fun _ => True) (update_best bid payload blobs sig key).
Proof.
  intros Hb Hp. unfold update_best. apply ok_wr.
  - intros i. by apply (inner_set_best_typed (mkBidSubmission bid payload blobs sig)).
  - done.
  - apply ok_wr_last; [|done | done]. intros i. by apply inner_set_blinded_typed.
Qed.

Lemma submit_block_total svc req :
  typed_request req -> (bad_message req -> bad_request c) ->
  guarded step P I (fun _ => True) (submit_block svc req).
Proof.
  intros [Ht Hp] Hbad. unfold submit_block.
  apply guarded_try_bind. destruct (sr_bid_trace req) as [b|] eqn:Hb; [|done].
  apply guarded_try_bind. destruct (sr_execution_payload req) as [p|]; [|done].
  apply guarded_try_bind. destruct (sr_blobs_bundle req) as [bl|]; [|done].
  apply guarded_try_bind.
  destruct (bid_trace_try_from_typed b (Ht _ eq_refl)) as [(r & -> & Htrace)|[-> Hpanic]].
  2:{ do 3 right. split; [by left |]. apply Hbad. left. by exists b. }
  destruct r as [bid|e]; [|done]. apply guarded_bind. unfold is_bid_higher. apply ok_rd. intros i _.
  destruct (match inner_best_bid _ _ _ i with Some _ => _ | None => _ end)
    as [higher|m|] eqn:Hh; [|by destruct (inner_best_bid _ _ _ i)..].
  cbn [guarded]. destruct higher; [|done]. cbn [negb]. apply guarded_try_bind.
  destruct (execution_payload_try_from_total p) as [q Hq]. rewrite Hq.
  destruct q as [payload|e]; [|done]. apply guarded_try_bind.
  eapply guarded_mono, validate_bid_and_payload_total. intros [duty|e] _; [|done].
  apply guarded_bind.
  destruct (sig_from_vec_cases (sr_signature req)) as [[sig Hsig]|[Hsig Hpanic]]; rewrite Hsig.
  2:{ do 3 right. split; [by right |]. apply Hbad. by right. }
  apply guarded_try_bind. destruct (verify_signature _ _ _); [|done]. apply guarded_try_bind.
  destruct (blobs_bundle_try_from_total bl) as [bb ->]. destruct bb as [blobs|e]; [|done].
  apply guarded_bind. eapply guarded_mono, update_best_total; [done | by apply Htrace |].
  eapply execution_payload_try_from_typed; [by apply Hp | done].
Qed.

Lemma get_header_total slot hash pubkey signer :
  guarded step P I (fun _ => True) (get_header slot hash pubkey signer).
Proof.
  unfold get_header. apply ok_rd. intros i _. destruct (inner_get_registration _ i); [|done].
  apply ok_head. intros head Hhead. apply ok_now. intros t. apply ok_next_slot; [done |].
  intros []; [|done]. cbn [negb].
  apply ok_rd. intros i2 _. destruct (inner_best_bid _ _ _ i2) as [bid|]; [|done].
  apply guarded_try_bind. destruct (map_err _ _); [|done]. cbn [guarded].
  apply ok_now. intros t1. apply ok_emit.
  apply guarded_bind. destruct (u256_try_into_u64 _); [apply ok_emit_last |];
    by do 2 apply ok_emit.
Qed.

Lemma post_blinded_blocks_total b : guarded step P I (fun _ => True) (post_blinded_blocks b).
Proof.
  unfold post_blinded_blocks. apply ok_now. intros t. apply ok_rd. intros i _.
  destruct (inner_find_duty _ i) as [duty|]; [|done]. destruct (negb _); [done |].
  apply ok_rd. intros i1 _. apply ok_rd. intros i2 _.
  destruct (inner_get_registration _ i2); [|done]. destruct (negb _); [done |].
  apply ok_rd. intros i3 _. destruct (inner_get_blinded _ i3); [|done].
  apply ok_spawn; [done |]. apply ok_now. intros t1. apply ok_emit.
  by apply ok_set_delivered.
Qed.

(** The registrations collected by a request are some of those it brought. *)
Lemma post_validators_total auth_ query body :
  (forall secret, guarded step P I (fun _ => True) (auth_ secret)) ->
  (forall regs, body = Ok regs -> Forall typed_registration regs) ->
  guarded step P I (fun _ => True) (post_validators (Auth0:=auth_) query body).
Proof.
  intros Hauth Hbody. unfold post_validators. apply guarded_try_bind.
  unfold validate_api_key. apply guarded_bind. eapply guarded_mono, Hauth.
  intros [u|e] _; [|done]. cbn [guarded]. destruct body as [regs|code]; [|done].
  unfold post_validators_handler. apply ok_now. intros t. apply ok_rd. intros i _.
  apply guarded_bind.
  apply (guarded_mono _ _ _ (fun acc : ValidatorRegistrations * Z =>
    map_Forall (fun _ => typed_registration) acc.1)).
  - intros acc Hacc. apply ok_set_regs; [done |]. by apply ok_now.
  - apply guarded_foldP; [|done]. intros acc reg Hin Hacc. unfold register_one.
    apply ok_known. intros [v|e]; [|done]. destruct (negb _); [done |].
    destruct (negb _); [done |]. apply map_Forall_insert_2; [|done].
    specialize (Hbody _ eq_refl). rewrite Forall_forall in Hbody. by apply Hbody.
Qed.

Lemma mbs_auth_total `{!FromJson MbsUser} `{!ToJson SecretBody} auth secret :
  guarded step P I (fun _ => True) (mbs_auth_validate auth secret).
Proof.
  unfold mbs_auth_validate. apply guarded_bind. intros w Hw. split; [done |]. cbn [guarded].
  destruct (relay_step _ w).1 as [resp|e]; [|done]. destruct (_ =? _)%Z; [done |].
  by destruct (rs_text resp).
Qed.

Lemma get_bids_total params : guarded step P I (fun _ => True) (get_bids params).
Proof.
  unfold get_bids, lookup_param. apply ok_now. intros t.
  apply guarded_bind, (guarded_mono _ _ _ (fun _ => True)).
  - intros [bid|] _; [by apply ok_now |]. apply guarded_bind, (guarded_mono _ _ _ (fun _ => True)).
    + intros [bid|] _; [by apply ok_now | done].
    + destruct (qp_block_number params); [|done]. intros w Hw. by split.
  - destruct (qp_slot params); [|done]. intros w Hw. by split.
Qed.
End handlers.

(** ** The relay service *)

Section service.
Context {X : Ext} `{!BuildProfile} (c : Causes).
Abbreviation step := (fun A => @relay_step X A).
Abbreviation P := (explained c).
Abbreviation I := (world_ok c).

Lemma into_duties_total duties :
  Forall typed_proposer_duty duties ->
  (Exists (fun d => panics (pk_from_fixed (pd_pubkey d))) duties -> bad_duties c) ->
  guarded step P I (Forall typed_duty) (into_duties duties).
Proof.
  intros Hd. unfold into_duties. intros Hbad. apply ok_rd. intros i _.
  destruct (inner_regs_empty i); [constructor |]. revert Hbad.
  induction Hd as [|d l [Hslot Hidx] _ IH]; intros Hbad; [constructor |]. cbn [filter_mapP].
  apply guarded_bind. unfold into_duty.
  destruct (pk_from_fixed_cases (pd_pubkey d)) as [[k Hk]|[Hk Hpanic]]; rewrite Hk.
  2:{ right; right; left. split; [done |]. apply Hbad. by left. }
  apply ok_rd. intros i1 Hi1. cbn [guarded]. apply guarded_bind. eapply guarded_mono, IH.
  2:{ intros Hl. apply Hbad. by right. }
  intros bs Hbs. destruct (inner_get_registration k i1) as [r|] eqn:Hr; [|done].
  cbn [guarded]. constructor; [|done]. split; simpl; [done.. |]. by apply (ti_regs _ Hi1 _ _ Hr).
Qed.

(** The epoch of a slot and the next one: the next one overflows for the last slot alone, and
    only when an epoch is one slot. *)
Lemma ok_epochs {B} h n (k : u64 -> u64 -> prog RelayE B) Q :
  head_ok c h -> slots_ok c n -> (forall e1 e2, guarded step P I Q (k e1 e2)) ->
  guarded step P I Q
    (let! e1 := lift (epoch h n) in let! e2 := lift (u64_add e1 1) in k e1 e2).
Proof.
  intros [Hh Hlast] [Hn Hzero] Hk. unfold epoch, u64_div.
  destruct (Z.eqb_spec n 0) as [->|Hne]; [left; split; [done | by apply Hzero] |].
  cbn [lift bind]. unfold u64_add. case_decide as Hsum; [apply Hk |].
  destruct overflow_checks eqn:Ho; [|apply Hk]. right; left. split_and!; [done.. |].
  apply Hlast. unfold typed_head, is_u64, u64_max in *.
  assert (hs_slot h / n <= hs_slot h)%Z by (apply Z.div_le_upper_bound; nia).
  assert (0 <= hs_slot h / n)%Z by (apply Z.div_pos; lia). lia.
Qed.

Lemma duties_task_total head n :
  head_ok c head -> slots_ok c n -> guarded step P I (fun _ => True) (duties_task head n).
Proof.
  intros Hhead Hn. unfold duties_task. apply ok_sleep, ok_now. intros t.
  apply ok_epochs; [done.. |]. intros e1 e2.
  apply ok_duties. intros r1 Hr1. apply ok_duties. intros r2 Hr2.
  apply guarded_try_bind. cbn [guarded]. destruct r1 as [d1|]; [|done].
  apply guarded_try_bind. cbn [guarded]. destruct r2 as [d2|]; [|done].
  destruct (Hr1 d1 eq_refl) as [Ht1 Hb1], (Hr2 d2 eq_refl) as [Ht2 Hb2].
  apply guarded_bind. eapply guarded_mono; [|apply into_duties_total].
  - intros [|d l] Hd; cbn [bind]; [by apply ok_now |].
    apply ok_wr; [auto with relay | done |]. by apply ok_now.
  - by apply Forall_app.
  - intros [Hl|Hl]%Exists_app; auto.
Qed.

(** What a poll of a stream gives is one of its events, and the stream stays what it was. *)
Lemma poll_next_ok s :
  stream_ok c s ->
  match (poll_next s).1 with
  | Ready (Some (PayloadAttribute p)) => typed_attrs (pae_data p)
  | Ready (Some (Head h)) => head_ok c (mkHeadSlot (he_slot h))
  | _ => True
  end /\ stream_ok c (poll_next s).2.
Proof.
  pose proof (poll_next_conserves s) as Hcons. destruct (poll_next s) as [r s'].
  destruct Hcons as [Hp Hh]. intros [[Hpa Hheads] Hlast]. unfold last_head_event in Hlast.
  rewrite <-Hp in Hpa. rewrite <-Hh in Hheads, Hlast.
  apply Forall_app in Hpa as [Hp1 Hp2]. apply Forall_app in Hheads as [Hh1 Hh2].
  rewrite Exists_app in Hlast. split.
  - destruct r as [[[p|h]|]|]; simpl in *; [by inversion Hp1 | | done | done].
    split; [by inversion Hh1 |]. intros He. apply Hlast. by do 2 left.
  - split; [by split |]. intros He. apply Hlast. by right.
Qed.

Lemma relay_poll_total st :
  relay_ok c st -> guarded step P I (fun r => relay_ok c r.2) (relay_poll st).
Proof.
  intros [[Hinner Hconn]%Forall_cons Hn]. unfold relay_poll. destruct (rs_inner st) as [s|cn].
  - pose proof (poll_next_ok s Hinner) as [He Hs].
    destruct (poll_next s) as [[[e|]|] s']; simpl in He, Hs.
    + destruct e as [p|h]; cbn [handle_event].
      * apply ok_set_attrs; [done |]. split; [|done]. by constructor.
      * apply guarded_bind, ok_set_head; [done |]. assert (relay_ok c (mkRelayState
          (BeaconEvents s') (rs_connect st) (rs_slots_per_epoch st))) as Hst
          by (split; [by constructor | done]).
        destruct (_ =? 0)%Z; [|done]. intros w []. split; [|done].
        split; simpl; try done. by constructor.
    + destruct (rs_connect st) as [|cn l] eqn:Hc; simpl; (split; [|done]).
      * constructor; [|done]. split; [by split | intros Hl; inversion Hl].
      * apply Forall_cons in Hconn as []. by constructor.
    + split; [|done]. by constructor.
  - unfold connection_poll. destruct (cn_pending cn); (split; [|done]); by constructor.
Qed.

Lemma relay_polls_total n st :
  relay_ok c st -> guarded step P I (fun _ => True) (relay_polls n st).
Proof.
  revert st; induction n as [|n IH]; intros st Hst; [done |].
  cbn [relay_polls]. apply guarded_bind. eapply guarded_mono, relay_poll_total, Hst.
  intros r Hr. by apply IH.
Qed.

Lemma spawned_prog_total t :
  spawn_ok c t -> guarded step P I (fun _ => True) (spawned_prog t).
Proof.
  destruct t as [b s|h n]; cbn [spawn_ok spawned_prog].
  - intros _ w []. by split; [split |].
  - intros [Hh Hn]. eapply ok_discard. by apply duties_task_total.
Qed.
End service.

(** ** The system *)

Section main.
Context {X : Ext} {L : ExtLaws X} `{!BuildProfile} `{!FromJson MbsUser} `{!ToJson SecretBody}.

(** The integers that a task is given are in their ranges. *)
Definition typed_task (t : RelayTask) : Prop :=
  match t with
  | TSubmitBlock req => typed_request req
  | TPostBids sub => typed_submission sub
  | TPostValidators _ _ body => forall regs, body = Ok regs -> Forall typed_registration regs
  | TRelayService _ state => typed_relay state
  | TDuties head n => typed_head head /\ is_u64 n
  | TGetHeader _ _ _ _ | TPostBlindedBlocks _ | TGetValidators | TGetBids _ | TPublish _ _ => True
  end.

(** The inputs that can make a task panic: epochs of no slot; the last slot; a gRPC message with
    a key or a signature that is none. *)
Definition zero_epoch_task (t : RelayTask) : Prop :=
  match t with
  | TRelayService _ state => rs_slots_per_epoch state = 0%Z
  | TDuties _ n => n = 0%Z
  | _ => False
  end.

Definition last_head_task (t : RelayTask) : Prop :=
  match t with
  | TRelayService _ state => Exists last_head_event (relay_streams state)
  | TDuties head _ => hs_slot head = u64_max
  | _ => False
  end.

Definition bad_request_task (t : RelayTask) : Prop :=
  match t with TSubmitBlock req => bad_message req | _ => False end.

Definition input_causes (slot : HeadSlot) (out : Outside) (ts : list RelayTask) : Causes := {|
  zero_epoch := Exists zero_epoch_task ts;
  last_head := hs_slot slot = u64_max \/ Exists last_head_task ts;
  bad_duties := bad_duty out;
  bad_request := Exists bad_request_task ts
|}.

(** A task among the given ones, when the causes are those of them all. *)
Lemma task_total c fork t :
  typed_task t -> (zero_epoch_task t -> zero_epoch c) -> (last_head_task t -> last_head c) ->
  (bad_request_task t -> bad_request c) ->
  guarded (fun A => @relay_step X A) (explained c) (world_ok c) (fun _ => True) (task_prog fork t).
Proof.
  destruct t; cbn [typed_task task_prog zero_epoch_task last_head_task bad_request_task];
    intros Ht Hz Hl Hb; apply (ok_discard c _ (fun _ => True)).
  - by apply submit_block_total.
  - by apply post_bids_total.
  - apply get_header_total.
  - apply post_blinded_blocks_total.
  - apply post_validators_total; [intros secret; apply mbs_auth_total | done].
  - by apply (ok_rd c _ _ (fun _ => True)).
  - apply get_bids_total.
  - destruct Ht as [Hs Hn]. apply relay_polls_total. split; [|done].
    apply Forall_forall. intros s Hin. split; [by apply (proj1 (Forall_forall _ _) Hs) |].
    intros Hlast. apply Hl, Exists_exists. by exists s.
  - destruct Ht. by apply duties_task_total.
  - intros w []. by split; [split |].
Qed.

Lemma tasks_total fork slot out ts :
  Forall typed_task ts ->
  let c := input_causes slot out ts in
  Forall (guarded (fun A => @relay_step X A) (explained c) (world_ok c) (fun _ => True))
    (task_prog fork <$> ts).
Proof.
  intros Hts c. apply Forall_fmap, Forall_forall. intros t Hin.
  apply task_total; [by apply (proj1 (Forall_forall _ _) Hts) | | |]; simpl; intros Ht; [|right |];
    apply Exists_exists; by exists t.
Qed.

Lemma initial_typed slot attrs builders fork out ts :
  typed_head slot -> typed_attrs attrs -> typed_outside out ->
  world_ok (input_causes slot out ts) (initial_world slot attrs builders fork out).
Proof.
  intros Hs Ha Ho. split; simpl; [| by left | done | done | constructor].
  split; simpl; try done; apply map_Forall_empty.
Qed.

Lemma spawned_start c w l1 t l2 :
  w_spawned w = l1 ++ t :: l2 -> world_ok c w ->
  world_ok c (w_with_tasks (l1 ++ l2) w) /\
  guarded (fun A => @relay_step X A) (explained c) (world_ok c) (fun _ => True) (spawned_prog t).
Proof.
  intros Hsp [Hst Hhead Hout Hd Hspawn]. rewrite Hsp in Hspawn.
  apply Forall_app in Hspawn as [H1 [Ht H2]%Forall_cons]. split.
  - split; simpl; [done.. |]. by apply Forall_app.
  - by apply spawned_prog_total.
Qed.

(** A pool that has come to rest without a panic has returned. *)
Lemma rest_returns (ts : list (prog RelayE unit)) (w : World) :
  (forall m, Panic m ∉ ts) -> nf sys_step (ts, w) -> ts = replicate (length ts) (Ret tt).
Proof.
  intros Hpanic Hnf.
  destruct (sys_step_progress (ts, w)) as [[Hstop _]|[c Hc]]; [|destruct Hnf; by exists c].
  clear -Hstop Hpanic. simpl in Hstop. induction Hstop as [|p l Hp _ IH]; [done |].
  simpl. f_equal; [|apply IH; intros m Hm; apply (Hpanic m); by right].
  destruct p as [[]|m|]; [done | | done]. destruct (Hpanic m). by left.
Qed.

(** C5: type safety of the closed system: start it with integers in their ranges (the head slot,
    the payload attributes, the requests, the events, the duties of the node).  In every state
    reached by any interleaving of the tasks, and of those they spawn, every stored integer is in
    its range, the withdrawals of the payload attributes included; and a task that has panicked
    did so for one of four reasons that are among the inputs: a division by zero, when the relay
    service or a duties task was given 0 slots per epoch; an overflow of an addition, in a
    checked build, when the initial head slot, or that of a head event or of a duties task, is the
    last [u64]; a key that does not parse, in the duties of the node; a key or a signature that
    does not parse, in a gRPC submission.  With no such input, when the system has come to rest
    every task has returned. *)
Theorem system_type_safe slot attrs builders fork out ts ts' w' :
  typed_head slot -> typed_attrs attrs -> typed_outside out -> Forall typed_task ts ->
  rtc sys_step (task_prog fork <$> ts, initial_world slot attrs builders fork out) (ts', w') ->
  let causes := input_causes slot out ts in
  typed_store (w_store w') /\ (forall m, Panic m ∈ ts' -> explained causes m) /\
  (nf sys_step (ts', w') -> (forall m, ~ explained causes m) ->
   ts' = replicate (length ts') (Ret tt)).
Proof.
  intros Hs Ha Ho Hts Hsteps causes.
  destruct (system_guarded (explained causes) (world_ok causes)
    (spawned_start causes) _ _ Hsteps) as [Htot Hw].
  - by apply tasks_total.
  - by apply initial_typed.
  - assert (forall m, Panic m ∈ ts' -> explained causes m) as Hpanic
      by (intros m Hm; by apply (proj1 (Forall_forall _ _) Htot _ Hm)).
    split; [apply Hw |]. split; [done |]. intros Hnf Hnone. apply (rest_returns ts' w'); [|done].
    intros m Hm. by apply (Hnone m), Hpanic.
Qed.
End main.
