(* ===== verification/TestKit.v ===== *)
(** What the tests of the repository share: assertions, the constants and keys of
    [crates/primitives/src/test_utils.rs], random values, and the storage the tests set up.

    A test is a program that returns [tt] when it passes and panics when an assertion fails.
    The value of a random constructor is a function of its call site ([Random]), arbitrary. *)

From S2P Require Import Prelude Prog External Types Blst Signer BeaconTypes StorageTypes Storage.
From S2P Require Import Metrics InMemory BeaconBlock World InMemoryStorage.

(** ** Assertions *)

Definition assert_that {E : Type -> Type} (condition : bool) (message : string) : prog E unit :=
  if condition then Ret tt else Panic message.

Definition assert_eq {E : Type -> Type} {A} `{!EqDecision A} (left right : A) (message : string) :
  prog E unit := assert_that (bool_decide (left = right)) message.

(** [Result::unwrap] and [Option::unwrap]. *)
Definition unwrap {A Er} (r : result A Er) : outcome A := expect unwrap_msg r.
Definition unwrap_some {A} (o : option A) : outcome A :=
  match o with
  | Some a => Val a
  | None => Panics "called `Option::unwrap()` on a `None` value"
  end.

(** [for a in l { body }] *)
Definition forP {E : Type -> Type} {A} (body : A -> prog E unit) (l : list A) : prog E unit :=
  foldP (fun _ a => body a) l tt.

(** ** Random values, by call site *)

Class Random `{Ext} := {
  random_b256 : nat -> B256;
  random_address : nat -> Address;
  random_secret_key : nat -> BlsSecretKey
}.

Section test_utils.
Context `{Ext} `{!Random}.

Definition random_pubkey (site : nat) : BlsPublicKey :=
  gsk_public_key (Sig:=Signature) (random_secret_key site).

(** [BlsSigner::default] *)
Definition signer_default (site : nat) : outcome BlsSigner :=
  let^ fork_data := fork_datas_default in Val (mkBlsSigner (random_secret_key site) fork_data).

(** ** [test_utils.rs] *)

Definition TEST_ETH_ADDRESS : string := "0x0000000000000000000000000000000000000001".

Definition TEST_BLOCK_HASH : string :=
  "0x0000000000000000000000000000000000000000000000000000000000000001".

(** The keys are generated once, at the first use. *)
Definition init_test_bls_pubkey : BlsPublicKey := random_pubkey 0.
Definition init_test_builder_pubkey : BlsPublicKey := random_pubkey 1.

Definition test_bls_pubkey : BlsPublicKey := init_test_bls_pubkey.
Definition test_bls_pubkey_str : string := pk_display init_test_bls_pubkey.
Definition test_builder_pubkey : BlsPublicKey := init_test_builder_pubkey.
Definition test_builder_pubkey_str : string := pk_display init_test_builder_pubkey.

Definition TEST_BLS_SIGNATURE : string :=
  "0xad92d76a40ecc96a5ab46ae0a7e62c50fc895412be3ae3e0cddad60c54be7aa2c4bbe90b40345e3c2d1a6925aa3a9c6e03f4e30e28b9a315cac4d73de4b8f77a77e0a4f63fa7d6e0a73393cb15cfe596d845eaa146fd52cd9f3b80cde3f2b27a".

Definition TEST_BLS_SECRET_KEY : string :=
  "0x0000000000000000000000000000000000000000000000000000000000000001".

Definition TEST_EXTRA_DATA_HEX : string :=
  "0x7465737400000000000000000000000000000000000000000000000000000000".

(** ** The fixtures most test modules define alike *)

Definition payload_attr (slot : u64) (suggested_fee_recipient : Address) : PayloadAttributes := {|
  pa_proposal_slot := slot;
  pa_parent_block_root := array_fill 32 Byte.x00;
  pa_parent_block_number := 0;
  pa_parent_block_hash := array_fill 32 Byte.x00;
  pa_proposer_index := 0;
  pa_timestamp := 0;
  pa_prev_randao := array_fill 32 Byte.x00;
  pa_suggested_fee_recipient := address_0 suggested_fee_recipient;
  pa_withdrawals := Some [];
  pa_parent_beacon_block_root := None
|}.

(** A registration with the signature of the tests, which is a constant. *)
Definition test_registration (fee_recipient : Address) (timestamp : u64) (pubkey : BlsPublicKey) :
  outcome ValidatorRegistration :=
  let^ signature := unwrap (sig_from_str TEST_BLS_SIGNATURE) in
  Val (mkRegistration (mkRegistrationMessage fee_recipient 0 timestamp pubkey) signature).

(** [InMemoryStorage::new] in an otherwise empty world. *)
Definition setup_storage (slot : u64) (attrs : PayloadAttributes) (builders : list BlsPublicKey)
    (out : Outside) : outcome World :=
  let^ fork_data := fork_datas_default in
  let (metrics, inner) :=
    in_memory_storage_new (mkHeadSlot slot) attrs builders fork_data ∅ [] in
  Val (mkWorld inner metrics [] [] 0 out).
End test_utils.

(** ** Proving that a test passes *)

(** [p] run from [w] returns [tt] in a world that satisfies [Q]. *)
Definition passes `{Ext} (p : prog RelayE unit) (w : World) (Q : World -> Prop) : Prop :=
  exists w', run_relay p w = (Val tt, w') /\ Q w'.

Section kit_laws.
Context `{Ext} {E : Type -> Type} {S : Type} (step : forall A, E A -> S -> A * S).

Lemma assert_that_true m : assert_that (E:=E) true m = Ret tt.
Proof. done. Qed.

Lemma assert_eq_refl {A} `{!EqDecision A} (a : A) m : assert_eq (E:=E) a a m = Ret tt.
Proof. unfold assert_eq. by rewrite bool_decide_true. Qed.
End kit_laws.
