(* ===== verification/CliTests.v ===== *)
(** The tests of the command line, [bin/relay/src/cli.rs]: each returns the results of its
    assertions. *)

From stdpp Require Import pretty.
From S2P Require Import Prelude Prog External Types Blst Signer BeaconTypes BeaconBlock.
From S2P Require Import StorageTypes Storage Metrics InMemory World InMemoryStorage EventStream.
From S2P Require Import Auth Startup Cli TestKit.

Local Open Scope string_scope.

Section tests.
Context `{Ext} {C : Clap} `{!Random}.

(** [parse_from] in a test: the process exits on an error, which fails the test. *)
Definition parsed_from (argv : list string) : outcome CliArgs :=
  let^ r := CliArgs_parse_from argv in expect "exit" r.

(** [str::trim_end_matches('/')] *)
Fixpoint trim_end_slash (s : string) : string :=
  match s with
  | EmptyString => EmptyString
  | String c s' =>
      match trim_end_slash s' with
      | EmptyString => if Ascii.eqb c "/" then EmptyString else String c EmptyString
      | t => String c t
      end
  end.

(** [str::parse::<u16>] *)
Definition u16_from_str (s : string) : option Z :=
  v ← u64_from_str s; if (v <=? 65535)%Z then Some v else None.

Definition custom_beacon_url : string := "http://localhost:1234".
Definition custom_grpc_port : string := "50051".
Definition custom_slots_per_epoch : string := "32".
Definition custom_fork_version : string := "01010101".
Definition custom_genesis_root : string :=
  "364b5565185058cbade2bd5d4633fb13794bcd7b474c76935c4a053571404352".

Definition parse_configs : outcome (list bool) :=
  let^ args := parsed_from ["test"; "--bls-secret-key"; TEST_BLS_SECRET_KEY] in
  let^ default_grpc_port := unwrap_some (u16_from_str DEFAULT_GRPC_PORT) in
  let defaults := [
    bool_decide (trim_end_slash (ca_beacon_url args) = DEFAULT_BEACON_URL);
    bool_decide (ca_grpc_port args = default_grpc_port);
    bool_decide (ca_slots_per_epoch args = EPOCH_SLOTS);
    bool_decide (length (ca_white_listed_builders args) = 0%nat)] in
  let builder1 := test_builder_pubkey_str in
  let builder2 := test_builder_pubkey_str in
  let custom_builders := builder1 +:+ "," +:+ builder2 in
  let^ args := parsed_from [
    "test";
    "--bls-secret-key"; TEST_BLS_SECRET_KEY;
    "--beacon.url"; custom_beacon_url;
    "--grpc.port"; custom_grpc_port;
    "--epoch.slots"; custom_slots_per_epoch;
    "--builders.enabled"; custom_builders;
    "--fork-data.current-version"; custom_fork_version;
    "--fork-data.genesis-validators-root"; custom_genesis_root;
    "--chain"; "dev"] in
  let^ grpc_port := unwrap_some (u16_from_str custom_grpc_port) in
  let^ slots_per_epoch := unwrap_some (u64_from_str custom_slots_per_epoch) in
  let^ listed1 := unwrap_some (ca_white_listed_builders args !! 0%nat) in
  let^ listed2 := unwrap_some (ca_white_listed_builders args !! 1%nat) in
  Val (defaults ++ [
    bool_decide (trim_end_slash (ca_beacon_url args) = custom_beacon_url);
    bool_decide (ca_grpc_port args = grpc_port);
    bool_decide (ca_slots_per_epoch args = slots_per_epoch);
    bool_decide (length (ca_white_listed_builders args) = 2%nat);
    bool_decide (fixed48_display listed1 = builder1);
    bool_decide (fixed48_display listed2 = builder2);
    bool_decide (hex_encode (arr_bytes (ca_genesis_validators_root args)) = custom_genesis_root);
    bool_decide (hex_encode (arr_bytes (fv_0 (ca_current_fork_version args))) =
                 custom_fork_version);
    match ca_chain args with Dev => true | _ => false end])%list.

Definition parse_bls_key : outcome (list bool) :=
  let key := test_builder_pubkey_str in
  let^ args := parsed_from
    ["test"; "--builders.enabled"; key; "--bls-secret-key"; TEST_BLS_SECRET_KEY] in
  let^ listed := unwrap_some (ca_white_listed_builders args !! 0%nat) in
  let^ builders := enabled_builders args in
  Val [bool_decide (length (ca_white_listed_builders args) = 1%nat);
       bool_decide (fixed48_display listed = key);
       bool_decide (length builders = 1%nat)].
End tests.

(** * The delimiter *)

Definition lacks (c : ascii) (s : string) : bool :=
  forallb (fun d => negb (Ascii.eqb c d)) (String.list_ascii_of_string s).

Lemma split_on_piece c s : lacks c s = true -> split_on c s = [s].
Proof.
  induction s as [|d s IH]; [done |]. unfold lacks; cbn -[Ascii.eqb]. intros [Hd Hs]%andb_true_iff.
  apply negb_true_iff in Hd. rewrite Hd. by rewrite IH.
Qed.

Lemma split_on_app c s t :
  lacks c s = true -> split_on c (s +:+ String c t) = s :: split_on c t.
Proof.
  induction s as [|d s IH]; unfold lacks; cbn -[Ascii.eqb].
  - intros _. change ("" +:+ String c t) with (String c t). cbn -[Ascii.eqb].
    by rewrite Ascii.eqb_refl.
  - intros [Hd Hs]%andb_true_iff. apply negb_true_iff in Hd.
    change (String d s +:+ String c t) with (String d (s +:+ String c t)).
    cbn -[Ascii.eqb String.append]. rewrite Hd. by rewrite IH.
Qed.

Lemma lacks_app c s t : lacks c (s +:+ t) = lacks c s && lacks c t.
Proof.
  induction s as [|d s IH]; [done |].
  change (String d s +:+ t) with (String d (s +:+ t)).
  unfold lacks in *; cbn -[Ascii.eqb String.append]. by rewrite IH, andb_assoc.
Qed.

Lemma hex_lacks_comma b : lacks "," (concat_02x b) = true.
Proof.
  induction b as [|x b IH]; [done |].
  change (concat_02x (x :: b)) with (byte_02x x +:+ concat_02x b).
  rewrite lacks_app, IH. by destruct x.
Qed.

Section laws.
Context {X : Ext} {XL : ExtLaws X} {C : Clap} {CL : ClapLaws C} {RX : Random}.

Definition builder_bytes : array 48 := pk_serialize test_builder_pubkey.

Lemma builder_text : test_builder_pubkey_str = "0x" +:+ concat_02x (arr_bytes builder_bytes).
Proof. unfold test_builder_pubkey_str, pk_display, impl_display. by rewrite serde_hex_lower. Qed.

Lemma parsed_run prog given args :
  well_formed CliArgs_args given = true -> cli_reads given args ->
  parsed_from (prog :: command_line given) = Val args.
Proof. intros Hwf Hreads. unfold parsed_from. by rewrite (cli_reads_parse prog given args). Qed.

Context (key : BlsSecretKey) (Hkey : sk_from_str TEST_BLS_SECRET_KEY = Ok key).

Definition custom_options : Options := [
  ("bls-secret-key", TEST_BLS_SECRET_KEY); ("beacon.url", custom_beacon_url);
  ("grpc.port", custom_grpc_port); ("epoch.slots", custom_slots_per_epoch);
  ("builders.enabled", test_builder_pubkey_str +:+ "," +:+ test_builder_pubkey_str);
  ("fork-data.current-version", custom_fork_version);
  ("fork-data.genesis-validators-root", custom_genesis_root); ("chain", "dev")].

Definition custom_root : Hash256 := @Array 32
  [Byte.x36; Byte.x4b; Byte.x55; Byte.x65; Byte.x18; Byte.x50; Byte.x58; Byte.xcb;
  Byte.xad; Byte.xe2; Byte.xbd; Byte.x5d; Byte.x46; Byte.x33; Byte.xfb; Byte.x13;
  Byte.x79; Byte.x4b; Byte.xcd; Byte.x7b; Byte.x47; Byte.x4c; Byte.x76; Byte.x93;
  Byte.x5c; Byte.x4a; Byte.x05; Byte.x35; Byte.x71; Byte.x40; Byte.x43; Byte.x52] I.

Definition custom_args : CliArgs := {|
  ca_mbs_auth_url := DEFAULT_AUTH_URL +:+ "/";
  ca_beacon_url := custom_beacon_url +:+ "/";
  ca_grpc_port := 50051;
  ca_http_port := 9063;
  ca_metrics_port := 9090;
  ca_slots_per_epoch := 32;
  ca_white_listed_builders := [builder_bytes; builder_bytes];
  ca_genesis_fork_version := mkForkVersion (array_fill 4 Byte.x00);
  ca_current_fork_version := mkForkVersion (array_fill 4 Byte.x01);
  ca_genesis_validators_root := custom_root;
  ca_chain := Dev;
  ca_bls_secret_key := key
|}.

Lemma test_key_reads : parse_bls_secret_key TEST_BLS_SECRET_KEY = Ok key.
Proof. unfold parse_bls_secret_key. by rewrite Hkey. Qed.

Lemma builder_split t :
  split_on "," (test_builder_pubkey_str +:+ String "," t) =
  test_builder_pubkey_str :: split_on "," t.
Proof. apply split_on_app. rewrite builder_text. apply hex_lacks_comma. Qed.

Lemma builder_alone : split_on "," test_builder_pubkey_str = [test_builder_pubkey_str].
Proof. apply split_on_piece. rewrite builder_text. apply hex_lacks_comma. Qed.

Lemma builder_reads : fixed48_from_str test_builder_pubkey_str = Ok builder_bytes.
Proof. rewrite builder_text. apply fixed48_reads. Qed.

Lemma builder_converts : exists k, pk_from_fixed builder_bytes = Val k.
Proof.
  unfold pk_from_fixed.
  change builder_bytes with (pk_compress (pk_point _ test_builder_pubkey)).
  rewrite (pk_from_bytes_compress (pk_point _ test_builder_pubkey)). cbn. eauto.
Qed.

Ltac read_options :=
  split; try (eexists; split; [reflexivity | cbn [snd]]); try read_literal;
  try (unfold from_result; by rewrite test_key_reads).

Lemma custom_reads : cli_reads custom_options custom_args.
Proof.
  read_options.
  change (mjoin _) with
    (split_on "," (test_builder_pubkey_str +:+ String "," test_builder_pubkey_str) ++ [])%list.
  rewrite builder_split, builder_alone. repeat constructor; apply builder_reads.
Qed.

Lemma key_reads :
  cli_reads [("builders.enabled", test_builder_pubkey_str);
             ("bls-secret-key", TEST_BLS_SECRET_KEY)]
    (let d := default_args key in {|
      ca_mbs_auth_url := ca_mbs_auth_url d;
      ca_beacon_url := ca_beacon_url d;
      ca_grpc_port := ca_grpc_port d;
      ca_http_port := ca_http_port d;
      ca_metrics_port := ca_metrics_port d;
      ca_slots_per_epoch := ca_slots_per_epoch d;
      ca_white_listed_builders := [builder_bytes];
      ca_genesis_fork_version := ca_genesis_fork_version d;
      ca_current_fork_version := ca_current_fork_version d;
      ca_genesis_validators_root := ca_genesis_validators_root d;
      ca_chain := ca_chain d;
      ca_bls_secret_key := key
    |}).
Proof.
  read_options.
  change (mjoin _) with (split_on "," test_builder_pubkey_str ++ [])%list.
  rewrite builder_alone. repeat constructor. apply builder_reads.
Qed.

Lemma builder_is_value t : is_value (test_builder_pubkey_str +:+ t) = true.
Proof. by rewrite builder_text. Qed.

Lemma custom_well_formed : well_formed CliArgs_args custom_options = true.
Proof.
  unfold custom_options. pose proof (builder_is_value ("," +:+ test_builder_pubkey_str)) as Ht.
  revert Ht. generalize (test_builder_pubkey_str +:+ "," +:+ test_builder_pubkey_str).
  intros t Ht.
  unfold well_formed. cbn -[is_value]. by rewrite Ht.
Qed.

Lemma key_well_formed :
  well_formed CliArgs_args [("builders.enabled", test_builder_pubkey_str);
                            ("bls-secret-key", TEST_BLS_SECRET_KEY)] = true.
Proof.
  assert (is_value test_builder_pubkey_str = true) as Ht by by rewrite builder_text.
  revert Ht. generalize test_builder_pubkey_str. intros t Ht.
  unfold well_formed. cbn -[is_value]. by rewrite Ht.
Qed.

(** The assertions of both tests hold. *)
Lemma parse_configs_run : parse_configs = Val (replicate 13 true).
Proof.
  unfold parse_configs.
  change ["test"; "--bls-secret-key"; TEST_BLS_SECRET_KEY] with
    ("test" :: command_line [("bls-secret-key", TEST_BLS_SECRET_KEY)]).
  rewrite (parsed_run _ _ (default_args key)); [|done | apply default_reads, test_key_reads].
  lazymatch goal with |- context [parsed_from ("test" :: ?l)] =>
    change (parsed_from ("test" :: l)) with
      (parsed_from ("test" :: command_line custom_options)) end.
  rewrite (parsed_run _ _ custom_args); [|apply custom_well_formed | apply custom_reads].
  cbn [outcome_bind unwrap_some ca_white_listed_builders custom_args lookup list_lookup].
  rewrite !fixed48_displays, !hex_encode_lower, builder_text, epoch_slots.
  rewrite !(bool_decide_eq_true_2 (_ +:+ _ = _ +:+ _)) by done. vm_refl.
Qed.

Lemma parse_bls_key_run : parse_bls_key = Val (replicate 3 true).
Proof.
  unfold parse_bls_key.
  change ["test"; "--builders.enabled"; test_builder_pubkey_str; "--bls-secret-key";
    TEST_BLS_SECRET_KEY] with ("test" :: command_line
      [("builders.enabled", test_builder_pubkey_str); ("bls-secret-key", TEST_BLS_SECRET_KEY)]).
  erewrite parsed_run; [|apply key_well_formed | apply key_reads].
  unfold enabled_builders. destruct builder_converts as [k Hk].
  cbn -[pk_from_fixed builder_bytes test_builder_pubkey_str]. rewrite Hk.
  cbn -[builder_bytes test_builder_pubkey_str].
  rewrite !fixed48_displays, builder_text.
  by rewrite !(bool_decide_eq_true_2 (_ = _)) by done.
Qed.
End laws.

(** The tests of the command line pass: the secret key alone gives the defaults; every option
    is read from its value, two builders from one comma-separated value; and the listed
    builders convert to the keys of the whitelist. *)
Theorem cli_tests_pass {X : Ext} {XL : ExtLaws X} {C : Clap} {CL : ClapLaws C} {RX : Random} key :
  sk_from_str TEST_BLS_SECRET_KEY = Ok key ->
  parse_configs = Val (replicate 13 true) /\ parse_bls_key = Val (replicate 3 true).
Proof.
  intros Hkey. split; [by apply (parse_configs_run key) | by apply (parse_bls_key_run key)].
Qed.
