(* ===== verification/GrpcTests.v ===== *)
(** The tests of the gRPC server, [mod test] of [crates/grpc/src/server.rs], against the model:
    each test is the program it runs, and the theorem says that it passes, whatever the random
    values are. *)

From stdpp Require Import pretty.
From S2P Require Import Prelude Prog External Types Blst Signer BeaconTypes StorageTypes Storage.
From S2P Require Import BidSpec Metrics InMemory BeaconBlock World InMemoryStorage Grpc GrpcServer.
From S2P Require Import TestKit.

#[export] Instance code_eq_dec : EqDecision Code.
Proof. solve_decision. Defined.

Section fixtures.
Context `{Ext} `{!Random}.

Definition bid_trace (slot : u64) (value : string) : PbBidTrace :=
  let pubkey := test_bls_pubkey in {|
    pb_slot := slot;
    pb_parent_hash := replicate 32 Byte.x00;
    pb_block_hash := replicate 32 Byte.x00;
    pb_builder_pubkey := arr_bytes (pk_serialize pubkey);
    pb_proposer_pubkey := arr_bytes (pk_serialize pubkey);
    pb_proposer_fee_recipient := address_to_vec address_zero;
    pb_gas_limit := 0;
    pb_gas_used := 0;
    pb_value := value
  |}.

(** [bid.builder_pubkey = key.serialize().to_vec()] *)
Definition with_builder (key : BlsPublicKey) (b : PbBidTrace) : PbBidTrace :=
  mkPbBidTrace (pb_slot b) (pb_parent_hash b) (pb_block_hash b) (arr_bytes (pk_serialize key))
    (pb_proposer_pubkey b) (pb_proposer_fee_recipient b) (pb_gas_limit b) (pb_gas_used b)
    (pb_value b).

(** The fee recipient is random. *)
Definition execution_payload (site : nat) (prev_randao : B256) : PbExecutionPayload := {|
  pe_parent_hash := replicate 32 Byte.x00;
  pe_state_root := replicate 32 Byte.x00;
  pe_receipts_root := replicate 32 Byte.x00;
  pe_logs_bloom := replicate 256 Byte.x00;
  pe_prev_randao := b256_to_vec prev_randao;
  pe_extra_data := replicate 32 Byte.x00;
  pe_base_fee_per_gas := replicate 32 Byte.x00;
  pe_fee_recipient := address_to_vec (random_address site);
  pe_block_hash := replicate 32 Byte.x00;
  pe_transactions := [];
  pe_withdrawals := [];
  pe_block_number := 0;
  pe_gas_limit := 0;
  pe_timestamp := 0;
  pe_gas_used := 0;
  pe_blob_gas_used := 0;
  pe_excess_blob_gas := 0
|}.

Definition blobs_bundle : PbBlobsBundle := mkPbBlobsBundle [] [] [].

Definition validator_registration (site : nat) (fee_recipient : Address) :
  outcome ValidatorRegistration := test_registration fee_recipient 0 (random_pubkey site).

Definition proposer_duties (site : nat) (slot : u64) (fee_recipient : Address) :
  outcome (list Validator) :=
  let^ entry := validator_registration site fee_recipient in
  Val [mkValidator slot 0 entry].

(** The storage behind the server; the client is connected to it. *)
Definition setup (builders : list BlsPublicKey) (out : Outside) : outcome World :=
  setup_storage 10 (payload_attr 0 (random_address 0)) builders out.
End fixtures.

Section tests.
Context `{Ext} `{!Random} `{!BuildProfile} `{!TonicTypes} `{!Tonic RelayE}.

(** The assertions every refused submission is checked with. *)
Definition expect_invalid_argument (response : result SubmitBlockResponse GrpcStatus)
    (expected message : string) : prog RelayE unit :=
  match response with
  | Ok _ => Panic expected
  | Err error =>
      do! assert_eq (gs_code error) CodeInvalidArgument "Expected InvalidArgument error";
      assert_eq (gs_message error) message "Error message mismatch"
  end.

Definition test_execution_payload_none (client : MevRelayClient) : prog RelayE unit :=
  let request := mkSubmitBlockRequest (Some (bid_trace 0 "1000")) None [] (Some blobs_bundle) in
  let! response := client_submit_block client request in
  expect_invalid_argument response "Expected an error when execution payload is None"
    "Missing Execution Payload".

Definition test_bid_none (client : MevRelayClient) : prog RelayE unit :=
  let request := mkSubmitBlockRequest None (Some (execution_payload 1 (random_b256 1))) []
                   (Some blobs_bundle) in
  let! response := client_submit_block client request in
  expect_invalid_argument response "Expected an error when bid trace is None" "Missing bid".

Definition test_invalid_builder (client : MevRelayClient) : prog RelayE unit :=
  let bid := with_builder (random_pubkey 2) (bid_trace 0 "1000") in
  let request := mkSubmitBlockRequest (Some bid) (Some (execution_payload 2 (random_b256 2))) []
                   (Some blobs_bundle) in
  let! response := client_submit_block client request in
  expect_invalid_argument response "Expected an error for invalid builder"
    "Invalid builder address.".

Definition test_invalid_slot (client : MevRelayClient) : prog RelayE unit :=
  let bid := with_builder bls_pk_default (bid_trace 10 "1000") in
  let request := mkSubmitBlockRequest (Some bid) (Some (execution_payload 3 (random_b256 3))) []
                   (Some blobs_bundle) in
  let! response := client_submit_block client request in
  expect_invalid_argument response "Expected an error for invalid builder"
    "Submission for past slot.".

Definition test_invalid_attributes (site : nat) (client : MevRelayClient)
    (error_message : string) : prog RelayE unit :=
  let bid := with_builder bls_pk_default (bid_trace 11 "1000") in
  let request := mkSubmitBlockRequest (Some bid)
                   (Some (execution_payload site (random_b256 site))) [] (Some blobs_bundle) in
  let! response := client_submit_block client request in
  expect_invalid_argument response "Expected an error for the test case" error_message.

Definition test_invalid_duties (site : nat) (client : MevRelayClient)
    (error_message : string) : prog RelayE unit :=
  let bid := with_builder bls_pk_default (bid_trace 11 "1000") in
  let! signature := lift (unwrap (sig_from_str TEST_BLS_SIGNATURE)) in
  let request := mkSubmitBlockRequest (Some bid) (Some (execution_payload site b256_zero))
                   (sig_to_vec signature) (Some blobs_bundle) in
  let! response := client_submit_block client request in
  expect_invalid_argument response "Expected an error for the test case" error_message.

Definition invalid_builder (client : MevRelayClient) : prog RelayE unit :=
  do! test_execution_payload_none client;
  do! test_bid_none client;
  test_invalid_builder client.

Definition slot_validation (client : MevRelayClient) : prog RelayE unit :=
  test_invalid_slot client.

Definition attributes_validation (client : MevRelayClient) : prog RelayE unit :=
  do! test_invalid_attributes 4 client "Payload attributes: Invalid slot.";
  let invalid_attr_by_proposer_fee := payload_attr 11 (random_address 5) in
  do! st_set_payload_attributes invalid_attr_by_proposer_fee;
  do! test_invalid_attributes 6 client "Payload attributes: Invalid prev_randao.";
  let invalid_attr_by_prev_randao := payload_attr 11 address_zero in
  do! st_set_payload_attributes invalid_attr_by_prev_randao;
  test_invalid_attributes 7 client "Payload attributes: Invalid prev_randao.".

Definition duties_validation (client : MevRelayClient) : prog RelayE unit :=
  let valid_attrs := payload_attr 11 address_zero in
  do! st_set_payload_attributes valid_attrs;
  do! test_invalid_duties 8 client "No duty found.";
  let! invalid_duties_by_proposer_fee := lift (proposer_duties 9 11 (random_address 9)) in
  do! st_set_proposer_duties invalid_duties_by_proposer_fee;
  test_invalid_duties 10 client "Invalid signature".

(** The storage once the slot of the tests has its attributes and its duty. *)
Definition ready_slot (site : nat) : prog RelayE unit :=
  let valid_attrs := payload_attr 11 address_zero in
  do! st_set_payload_attributes valid_attrs;
  let! valid_duty := lift (proposer_duties site 11 address_zero) in
  st_set_proposer_duties valid_duty.

Definition invalid_signature (client : MevRelayClient) : prog RelayE unit :=
  let enabled_builder := test_bls_pubkey in
  let! signature := lift (unwrap (sig_from_str TEST_BLS_SIGNATURE)) in
  let bid := with_builder enabled_builder (bid_trace 11 "1000") in
  let request := mkSubmitBlockRequest (Some bid) (Some (execution_payload 11 b256_zero))
                   (sig_to_vec signature) (Some blobs_bundle) in
  do! ready_slot 12;
  let! response := client_submit_block client request in
  expect_invalid_argument response "Expected an error for the test case" "Invalid signature".

(** The request for a bid of the given value, signed by the enabled builder. *)
Definition signed_request (signer : BlsSigner) (enabled_builder : BlsPublicKey) (site : nat)
    (value : string) : outcome (BidTrace * SubmitBlockRequest) :=
  let bid := with_builder enabled_builder (bid_trace 11 value) in
  let^ signable_bid := bid_trace_try_from bid in
  let^ signable_bid := unwrap signable_bid in
  let signature := signer_sign signer signable_bid in
  let^ signature := unwrap (sig_from_str (sig_display signature)) in
  Val (signable_bid, mkSubmitBlockRequest (Some bid) (Some (execution_payload site b256_zero))
                       (sig_to_vec signature) (Some blobs_bundle)).

(** The key the signer of a test submits with. *)
Definition enabled_builder_of (signer : BlsSigner) : outcome BlsPublicKey :=
  unwrap (pk_from_str (pk_display (signer_public_key signer))).

Definition valid_submission (client : MevRelayClient) (signer : BlsSigner)
    (enabled_builder : BlsPublicKey) : prog RelayE unit :=
  let! (signable_bid, request) := lift (signed_request signer enabled_builder 13 "1000") in
  do! ready_slot 14;
  let! response := client_submit_block client request in
  let! _ := lift (unwrap response) in
  let parent_hash := bt_parent_hash signable_bid in
  let proposer_pubkey := bt_proposer_pubkey signable_bid in
  let! best_bid := st_read_best_bid 11 parent_hash proposer_pubkey in
  let! best_bid := lift (unwrap_some best_bid) in
  assert_eq (u256_val (bt_value (bs_message best_bid))) 1000%Z "assertion failed".

(** One of the tasks of [concurrent_submissions]. *)
Definition concurrent_task (client : MevRelayClient) (signer : BlsSigner)
    (enabled_builder : BlsPublicKey) (i : nat) : prog RelayE unit :=
  let start_value := 1000%Z in
  let bid_value := (start_value + Z.of_nat i * 100)%Z in
  let! (_, request) := lift (signed_request signer enabled_builder i (pretty bid_value)) in
  let! response := client_submit_block client request in
  let! _ := lift (unwrap response) in
  Ret tt.

(** The tasks run on the single thread of the test: none is interrupted between its request and
    the answer, and [order] is the order in which they are served. *)
Definition concurrent_submissions (client : MevRelayClient) (signer : BlsSigner)
    (enabled_builder : BlsPublicKey) (order : list nat) : prog RelayE unit :=
  do! ready_slot 15;
  let n := 1000%Z in
  do! forP (concurrent_task client signer enabled_builder) order;
  let pubkey := test_bls_pubkey in
  let! best_bid := st_read_best_bid 11 b256_zero pubkey in
  let! best_bid := lift (unwrap_some best_bid) in
  let amount := (1000 + (n - 1) * 100)%Z in
  assert_eq (u256_val (bt_value (bs_message best_bid))) amount "assertion failed".
End tests.

(** * The requests of the tests, decoded *)

Section decoding.
Context {X : Ext} {L : ExtLaws X} `{!Random}.

Definition test_trace (slot : u64) (key : BlsPublicKey) (value : Uint256) : BidTrace := {|
  bt_slot := slot;
  bt_parent_hash := b256_zero;
  bt_block_hash := b256_zero;
  bt_builder_pubkey := key;
  bt_proposer_pubkey := test_bls_pubkey;
  bt_proposer_fee_recipient := address_zero;
  bt_gas_limit := 0;
  bt_gas_used := 0;
  bt_value := mkU256 value
|}.

Lemma pk_from_vec_serialize (k : BlsPublicKey) :
  pk_from_vec (arr_bytes (pk_serialize k)) = Val k.
Proof. destruct k as [k]. unfold pk_from_vec. simpl. by rewrite pk_from_bytes_compress. Qed.

Lemma b256_try_from_zeros : b256_try_from (replicate 32 Byte.x00) = Val (Ok b256_zero).
Proof. exact (b256_roundtrip b256_zero). Qed.

Lemma bid_trace_decodes slot key value v :
  uint_from_str value = Ok v ->
  bid_trace_try_from (with_builder key (bid_trace slot value)) = Val (Ok (test_trace slot key v)).
Proof.
  intros Hv. unfold bid_trace_try_from, with_builder, bid_trace, u256_parse.
  cbn [pb_slot pb_parent_hash pb_block_hash pb_builder_pubkey pb_proposer_pubkey
    pb_proposer_fee_recipient pb_gas_limit pb_gas_used pb_value].
  rewrite Hv, b256_try_from_zeros, !pk_from_vec_serialize, address_roundtrip. done.
Qed.

Lemma execution_payload_decodes site randao :
  exists p, execution_payload_try_from (execution_payload site randao) = Val (Ok p) /\
    ep_prev_randao p = randao.
Proof.
  unfold execution_payload_try_from, execution_payload.
  cbn [pe_withdrawals pe_parent_hash pe_fee_recipient pe_state_root pe_receipts_root pe_logs_bloom
    pe_prev_randao pe_extra_data pe_base_fee_per_gas pe_block_hash pe_transactions collect_f
    fallible_bind].
  rewrite !b256_try_from_zeros, address_roundtrip, b256_roundtrip.
  cbn [fallible_bind fallible_map_err map_err].
  destruct (u256_try_from_spec (replicate 32 Byte.x00)) as [[Hl _]|[_ [a ->]]]; [done |].
  simpl. rewrite !vl_new_spec. simpl. by eexists.
Qed.

Lemma blobs_bundle_decodes :
  blobs_bundle_try_from blobs_bundle = Val (Ok (mkBlobsBundle [] [] [])).
Proof. unfold blobs_bundle_try_from. simpl. by rewrite !vl_new_spec. Qed.

(** What the service answers to a request of the tests. *)
Lemma test_verdict fork st slot key value v site randao sig :
  uint_from_str value = Ok v ->
  exists payload, ep_prev_randao payload = randao /\
  let bid := test_trace slot key v in
  grpc_verdict fork st (mkSubmitBlockRequest (Some (with_builder key (bid_trace slot value)))
    (Some (execution_payload site randao)) sig (Some blobs_bundle)) =
  if beats_best_b st bid then
    match state_verdict st bid payload with
    | Err m => Val (Err (Err (InvalidArgument m)))
    | Ok duty =>
        match sig_from_vec sig with
        | Panics m => Panics m
        | Val s =>
            if bid_verify_signature bid s (compute_builder_domain fork)
            then Val (Ok (mkBidSubmission bid payload (mkBlobsBundle [] [] []) s, duty))
            else Val (Err (Err (InvalidArgument "Invalid signature")))
        end
    end
  else Val (Err (Ok (mkSubmitBlockResponse 400 "Bid below best."))).
Proof.
  intros Hv. destruct (execution_payload_decodes site randao) as (payload & Hp & Hr).
  exists payload. split; [done |]. unfold grpc_verdict, ensure. simpl.
  rewrite (bid_trace_decodes _ _ _ _ Hv). simpl.
  destruct (beats_best_b _ _); simpl; [|done]. rewrite Hp. simpl.
  destruct (state_verdict _ _ _); simpl; [|done].
  destruct (sig_from_vec sig); simpl; [|done].
  destruct (bid_verify_signature _ _ _); simpl; [|done].
  by rewrite blobs_bundle_decodes.
Qed.
End decoding.

(** * The tests pass *)

Section passing.
Context {X : Ext} {L : ExtLaws X} `{!Random} `{!BuildProfile}.
Context {T : TonicTypes} {TE : @Tonic T RelayE} (lb : Loopback (E:=RelayE)) {TL : TonicLaws lb}.
Context (fork : ForkDatas).

(** A request of the tests: its bid, if any, is for a decimal value, its payload, if any, is the
    one of the tests, its signature is empty or has 96 bytes. *)
Record test_request (req : SubmitBlockRequest) : Prop := {
  tq_bid : forall b, sr_bid_trace req = Some b -> exists slot key value,
    is_u64 value /\ b = with_builder key (bid_trace slot (pretty value));
  tq_payload : forall p, sr_execution_payload req = Some p ->
    exists site randao, p = execution_payload site randao;
  tq_signature : (lenN (sr_signature req) <= 96)%N;
  tq_blobs : sr_blobs_bundle req = Some blobs_bundle
}.

(** Messages of that size go through, and decimal values parse. *)
Hypothesis fits : forall req, test_request req -> lb_fits lb req.
Hypothesis decimal : forall value, is_u64 value ->
  exists v, uint_from_str (pretty value) = Ok v /\ uint_val v = value.

Abbreviation step := (fun A => @relay_step X A).
Abbreviation client := (connected_client lb (submit_block (mkRelayService fork))).

(** A call of the client is answered by the verdict. *)
Lemma run_refused req m expected w :
  test_request req -> (hs_slot (sto_head (w_abs w)) < u64_max)%Z ->
  grpc_verdict fork (w_abs w) req = Val (Err (Err (InvalidArgument m))) ->
  run step (let! response := client_submit_block client req in
            expect_invalid_argument response expected m) w = (Val tt, w).
Proof.
  intros Hreq Hhead Hv.
  rewrite (run_proper step _ _ (bind_proper _ _ (client_submit_block_reaches lb _ _ (fits _ Hreq))
    _ _ (fun r => reflexivity _)) _ _ eq_refl).
  rewrite bind_assoc, run_bind.
  pose proof (submit_block_run step w_abs w_frame (mkRelayService fork) req w Hhead) as Hrun.
  simpl in Hrun. rewrite Hv in Hrun. rewrite Hrun. simpl. by rewrite assert_eq_refl.
Qed.

(** ** The states the tests reach before a bid is accepted *)

Definition test_state (attrs : PayloadAttributes) (duties : list Validator)
    (builders : list BlsPublicKey) : StoreState :=
  mkStoreState (mkHeadSlot 10) attrs duties ∅ builders ∅ ∅ ∅ fork ∅ [].

Lemma setup_state builders out :
  fork_datas_default = Val fork ->
  exists w, setup builders out = Val w /\
    w_abs w = test_state (payload_attr 0 (random_address 0)) [] builders.
Proof. intros Hf. unfold setup, setup_storage. rewrite Hf. by eexists. Qed.

Lemma test_state_verdict attrs duties builders slot key v payload :
  (0 < uint_val v)%Z ->
  state_verdict (test_state attrs duties builders) (test_trace slot key v) payload =
  if negb (existsb (pk_eqb key) builders) then Err "Invalid builder address." else
  if negb (11 =? slot)%Z then Err "Submission for past slot." else
  let? _ := map_err validation_error_display (validate_bid attrs slot (ep_prev_randao payload)) in
  ok_or (List.find (fun d => (v_slot d =? slot)%Z) duties) "No duty found.".
Proof.
  intros Hv. unfold state_verdict, u256_is_zero, u256_val. simpl.
  destruct (Z.eqb_spec (uint_val v) 0); [lia | done].
Qed.

Lemma pk_eqb_refl (k : BlsPublicKey) : pk_eqb k k = true.
Proof. by apply bool_decide_eq_true. Qed.

(** A request with a bid of 1000 for [slot], by [key]. *)
Lemma refused_1000 slot key site randao sig attrs duties builders m expected w :
  w_abs w = test_state attrs duties builders -> (lenN sig <= 96)%N ->
  (forall v payload, uint_val v = 1000%Z -> ep_prev_randao payload = randao ->
    match state_verdict (test_state attrs duties builders) (test_trace slot key v) payload with
    | Err m' => m' = m
    | Ok _ => exists s, sig_from_vec sig = Val s /\ m = "Invalid signature"%string /\
        bid_verify_signature (test_trace slot key v) s (compute_builder_domain fork) = false
    end) ->
  run step (let! response := client_submit_block client (mkSubmitBlockRequest
              (Some (with_builder key (bid_trace slot "1000")))
              (Some (execution_payload site randao)) sig (Some blobs_bundle)) in
            expect_invalid_argument response expected m) w = (Val tt, w).
Proof.
  intros Hw Hsig Hverdict. destruct (decimal 1000) as (v & Hv & Hv1000); [by split |].
  change (pretty 1000%Z) with "1000"%string in Hv.
  apply run_refused.
  - split; simpl; [| |done..].
    + intros b [= <-]. exists slot, key, 1000%Z. by split; [split |].
    + intros p [= <-]. by exists site, randao.
  - by rewrite Hw.
  - destruct (test_verdict fork (w_abs w) slot key "1000" v site randao sig Hv)
      as (payload & Hr & ->). rewrite Hw.
    assert (beats_best_b (test_state attrs duties builders) (test_trace slot key v) = true) as ->
      by done.
    specialize (Hverdict v payload Hv1000 Hr). destruct (state_verdict _ _ _) as [duty|m'].
    + destruct Hverdict as (s & -> & -> & ->). done.
    + by subst.
Qed.

(** ** Each test *)

Lemma invalid_builder_passes w attrs duties :
  w_abs w = test_state attrs duties [] ->
  run step (invalid_builder client) w = (Val tt, w).
Proof.
  intros Hw. unfold invalid_builder, test_execution_payload_none, test_bid_none.
  rewrite run_bind, run_refused with (m:="Missing Execution Payload"%string); cycle 1.
  { split; simpl; [|done..]. intros b [= <-]. by exists 0%Z, test_bls_pubkey, 1000%Z. }
  { by rewrite Hw. }
  { done. }
  rewrite run_bind, run_refused with (m:="Missing bid"%string); cycle 1.
  { split; simpl; [done | |done..]. intros p [= <-]. by eexists _, _. }
  { by rewrite Hw. }
  { done. }
  apply (refused_1000 _ _ _ _ _ attrs duties []); [done.. |].
  intros v payload Hv _. rewrite test_state_verdict by lia. done.
Qed.

Lemma slot_validation_passes w attrs duties :
  w_abs w = test_state attrs duties [bls_pk_default] ->
  run step (slot_validation client) w = (Val tt, w).
Proof.
  intros Hw. apply (refused_1000 _ _ _ _ _ attrs duties [bls_pk_default]); [done.. |].
  intros v payload Hv _. rewrite test_state_verdict by lia. simpl. by rewrite pk_eqb_refl.
Qed.

(** A bid of the default key for slot 11, before the payload attributes allow it. *)
Lemma invalid_attributes_passes site w attrs duties e m :
  w_abs w = test_state attrs duties [bls_pk_default] ->
  validate_bid attrs 11 (random_b256 site) = Err e -> m = validation_error_display e ->
  run step (test_invalid_attributes site client m) w = (Val tt, w).
Proof.
  intros Hw He ->. apply (refused_1000 _ _ _ _ _ attrs duties [bls_pk_default]); [done.. |].
  intros v payload Hv Hr. rewrite test_state_verdict by lia. simpl.
  by rewrite pk_eqb_refl, Hr, He.
Qed.

Lemma validate_wrong_randao fee randao :
  randao <> b256_zero -> validate_bid (payload_attr 11 fee) 11 randao = Err VPrevRandao.
Proof.
  intros Hne. unfold validate_bid, prev_randao. simpl. rewrite bool_decide_false; [done |].
  intros Heq. by destruct Hne.
Qed.

Lemma validate_test_attrs : validate_bid (payload_attr 11 address_zero) 11 b256_zero = Ok tt.
Proof. by apply validate_bid_ok. Qed.

Lemma attributes_validation_passes w :
  w_abs w = test_state (payload_attr 0 (random_address 0)) [] [bls_pk_default] ->
  random_b256 6 <> b256_zero -> random_b256 7 <> b256_zero ->
  exists w', run step (attributes_validation client) w = (Val tt, w').
Proof.
  intros Hw H6 H7. unfold attributes_validation.
  rewrite run_bind, (invalid_attributes_passes 4 w _ _ VSlot _ Hw) by done.
  run_write w_frame w1 Ha1 Hf1. rewrite Hw in Ha1.
  rewrite run_bind, (invalid_attributes_passes 6 w1 _ _ VPrevRandao _ Ha1)
    by (done || by apply validate_wrong_randao).
  run_write w_frame w2 Ha2 Hf2. rewrite Ha1 in Ha2. exists w2.
  by rewrite (invalid_attributes_passes 7 w2 _ _ VPrevRandao _ Ha2)
    by (done || by apply validate_wrong_randao).
Qed.

(** The signature of the tests is a point of the curve; it signs neither of the bids it is
    submitted with. *)
Context (point : Signature) (inf : bool).
Abbreviation test_signature := (mkSignature Signature (Some point) inf).
Hypothesis signature_parses : sig_from_str TEST_BLS_SIGNATURE = Ok test_signature.

Definition unsigned (key : BlsPublicKey) : Prop := forall v, uint_val v = 1000%Z ->
  bid_verify_signature (test_trace 11 key v) (sig_from_point point false)
    (compute_builder_domain fork) = false.

Lemma sig_vec_length (s : BlsSignature) : (lenN (sig_to_vec s) <= 96)%N.
Proof. unfold sig_to_vec. by rewrite array_len. Qed.

Lemma sig_vec_point (pt : Signature) b :
  sig_from_vec (sig_to_vec (mkSignature _ (Some pt) b)) = Val (sig_from_point pt false).
Proof.
  unfold sig_from_vec. change (sig_to_vec (mkSignature _ (Some pt) b)) with
    (arr_bytes (sig_to_bytes pt)). by rewrite sig_from_bytes_to_bytes.
Qed.

(** A duty of slot 11 with a registration of the tests. *)
Lemma proposer_duties_val site fee :
  exists entry, proposer_duties site 11 fee = Val [mkValidator 11 0 entry].
Proof.
  unfold proposer_duties, validator_registration, test_registration, unwrap.
  rewrite signature_parses. by eexists.
Qed.

Abbreviation ready_attrs := (payload_attr 11 address_zero).

(** A bid of 1000 for slot 11 with the signature of the tests, once the attributes are set. *)
Lemma unsigned_refused key site duties builders m expected w :
  w_abs w = test_state ready_attrs duties builders ->
  existsb (pk_eqb key) builders = true -> unsigned key ->
  match List.find (fun d => (v_slot d =? 11)%Z) duties with
  | Some _ => m = "Invalid signature"%string
  | None => m = "No duty found."%string
  end ->
  run step (let! response := client_submit_block client (mkSubmitBlockRequest
              (Some (with_builder key (bid_trace 11 "1000")))
              (Some (execution_payload site b256_zero)) (sig_to_vec test_signature)
              (Some blobs_bundle)) in
            expect_invalid_argument response expected m) w = (Val tt, w).
Proof.
  intros Hw Hkey Hbad Hduty.
  apply (refused_1000 _ _ _ _ _ ready_attrs duties builders); [done | apply sig_vec_length |].
  intros v payload Hv Hr. rewrite test_state_verdict by lia. rewrite Hkey, Hr, validate_test_attrs. simpl. destruct (List.find _ _) as [d|]; simpl; [|done].
  eexists. split; [apply sig_vec_point |]. split; [done | by apply Hbad].
Qed.

Lemma duties_validation_passes w attrs :
  w_abs w = test_state attrs [] [bls_pk_default] -> unsigned bls_pk_default ->
  exists w', run step (duties_validation client) w = (Val tt, w').
Proof.
  intros Hw Hbad. unfold duties_validation.
  assert (existsb (pk_eqb bls_pk_default) [bls_pk_default] = true) as Hkey
    by (simpl; by rewrite pk_eqb_refl).
  run_write w_frame w1 Ha1 Hf1. rewrite Hw in Ha1.
  unfold test_invalid_duties, unwrap. rewrite signature_parses. cbn [expect lift bind].
  rewrite run_bind, (unsigned_refused _ 8 [] [bls_pk_default]) by done.
  destruct (proposer_duties_val 9 (random_address 9)) as [entry ->]. cbn [lift bind].
  run_write w_frame w2 Ha2 Hf2. rewrite Ha1 in Ha2. exists w2.
  by apply (unsigned_refused _ _ [mkValidator 11 0 entry] [bls_pk_default]).
Qed.

Lemma ready_slot_run site w attrs builders :
  w_abs w = test_state attrs [] builders ->
  exists entry w', run step (ready_slot site) w = (Val tt, w') /\
    w_abs w' = test_state ready_attrs [mkValidator 11 0 entry] builders.
Proof.
  intros Hw. unfold ready_slot.
  destruct (proposer_duties_val site address_zero) as [entry ->]. exists entry.
  run_write w_frame w1 Ha1 Hf1. rewrite Hw in Ha1. cbn [lift bind].
  destruct (law_set_duties step w_abs w_frame [mkValidator 11 0 entry] w1) as (w2 & -> & Ha2 & _).
  exists w2. by rewrite Ha2, Ha1.
Qed.

Lemma invalid_signature_passes w attrs :
  w_abs w = test_state attrs [] [test_bls_pubkey] -> unsigned test_bls_pubkey ->
  exists w', run step (invalid_signature client) w = (Val tt, w').
Proof.
  intros Hw Hbad. unfold invalid_signature, unwrap.
  rewrite signature_parses. cbn [expect lift bind].
  destruct (ready_slot_run 12 w attrs _ Hw) as (entry & w' & Hrun & Hw'). exists w'.
  rewrite run_bind, Hrun.
  apply (unsigned_refused _ _ [mkValidator 11 0 entry] [test_bls_pubkey]); [done | | done | done].
  simpl. by rewrite pk_eqb_refl.
Qed.

(** ** Accepted bids *)

(** The signer of a test signs with the key it submits under. *)
Lemma pk_text (k k' : BlsPublicKey) : pk_from_str (pk_display k) = Ok k' -> k' = k.
Proof.
  unfold pk_from_str, pk_display, impl_from_str, impl_display.
  rewrite serde_hex_decode_encode. simpl.
  destruct (pk_deserialize _) as [k1|] eqn:Hk; simpl; [|done]. intros [= ->].
  apply pk_deserialize_canonical in Hk as [Hk _].
  assert (arr_bytes (pk_serialize k') = arr_bytes (pk_serialize k)) as Hbytes by exact Hk.
  pose proof (pk_from_vec_serialize k) as H1. pose proof (pk_from_vec_serialize k') as H2.
  rewrite Hbytes, H1 in H2. by injection H2.
Qed.

(** The text of a signature parses to one with the same bytes. *)
Lemma sig_text (pt : Signature) b :
  exists s, sig_from_str (sig_display (mkSignature _ (Some pt) b)) = Ok s /\
    sig_to_vec s = arr_bytes (sig_to_bytes pt).
Proof.
  unfold sig_from_str, sig_display, impl_from_str, impl_display.
  rewrite serde_hex_decode_encode. simpl.
  change (bls_sig_serialize (mkSignature _ (Some pt) b)) with (sig_to_bytes pt).
  unfold bls_sig_deserialize, sig_deserialize. case_decide as Hn; simpl.
  - eexists. split; [done |]. by rewrite Hn.
  - rewrite sig_from_bytes_to_bytes. simpl. by eexists.
Qed.

Context (signer : BlsSigner).
Hypothesis signer_fork : signer_fork_data signer = fork.
Abbreviation key := (signer_public_key signer).

Lemma signed_request_val site (value : Z) v :
  uint_from_str (pretty value) = Ok v ->
  exists sig s, signed_request signer key site (pretty value) =
    Val (test_trace 11 key v, mkSubmitBlockRequest (Some (with_builder key (bid_trace 11 (pretty value))))
      (Some (execution_payload site b256_zero)) sig (Some blobs_bundle)) /\
    (lenN sig <= 96)%N /\ sig_from_vec sig = Val s /\
    bid_verify_signature (test_trace 11 key v) s (compute_builder_domain fork) = true.
Proof.
  intros Hv. unfold signed_request. rewrite (bid_trace_decodes _ _ _ _ Hv). cbn [outcome_bind unwrap expect].
  unfold unwrap. cbn [expect outcome_bind].
  pose proof (signer_sign_verifies signer (test_trace 11 key v)) as Hver.
  destruct (signer_sign signer (test_trace 11 key v)) as [[pt|] b] eqn:Hsign; [|discriminate Hver].
  destruct (sig_text pt b) as (s & -> & Hs). cbn [expect outcome_bind].
  exists (sig_to_vec s), (sig_from_point pt false). split; [done |].
  split; [apply sig_vec_length |]. rewrite Hs. split.
  - unfold sig_from_vec. by rewrite sig_from_bytes_to_bytes.
  - by rewrite <-signer_fork.
Qed.

(** What the accepted bids of a test leave as it is. *)
Record ready (st : StoreState) : Prop := {
  rd_head : sto_head st = mkHeadSlot 10;
  rd_attrs : sto_attrs st = ready_attrs;
  rd_builders : sto_builders st = [key];
  rd_duty : exists d, sto_find_duty 11 st = Some d
}.

Abbreviation bids_key := (slot_hash_key 11 b256_zero test_bls_pubkey).

Lemma ready_accept st sub duty : ready st -> ready (accept_bid sub duty st).
Proof. by intros []. Qed.

Lemma ready_verdict st v payload :
  ready st -> (0 < uint_val v)%Z -> ep_prev_randao payload = b256_zero ->
  exists d, state_verdict st (test_trace 11 key v) payload = Ok d.
Proof.
  intros [Hh Ha Hb [d Hd]] Hv Hr. exists d. apply state_verdict_ok.
  rewrite Hh, Ha, Hr. split_and!; try done. unfold sto_is_whitelisted. rewrite Hb. simpl.
  by rewrite pk_eqb_refl.
Qed.

(** The best value after a verdict: the larger of the two. *)
Lemma best_after st v payload blobs s d :
  (0 < uint_val v)%Z ->
  if beats_best_b st (test_trace 11 key v)
  then best_value bids_key (accept_bid (mkBidSubmission (test_trace 11 key v) payload blobs s) d st)
       = Z.max (best_value bids_key st) (uint_val v)
  else (uint_val v <= best_value bids_key st)%Z.
Proof.
  intros Hv. unfold beats_best_b, best_value, sto_read_best. simpl.
  unfold bid_key. simpl. rewrite lookup_insert_eq. unfold bid_value at 2. simpl.
  unfold u256_val. simpl.
  destruct (sto_best st !! bids_key) as [b|]; [|unfold bid_value, u256_val; simpl; lia].
  destruct (Z.ltb_spec (bid_value b) (uint_val v)); unfold bid_value, u256_val in *; simpl; lia.
Qed.

(** A signed request of positive value is answered without an error, and the best bid is then
    worth the larger of the two. *)
Lemma signed_request_run site (value : Z) w :
  is_u64 value -> (0 < value)%Z -> ready (w_abs w) ->
  exists bid req w' r, signed_request signer key site (pretty value) = Val (bid, req) /\
    bt_parent_hash bid = b256_zero /\ bt_proposer_pubkey bid = test_bls_pubkey /\
    (forall R (k : result SubmitBlockResponse GrpcStatus -> prog RelayE R),
       run step (bind (client_submit_block client req) k) w = run step (k (Ok r)) w') /\
    ready (w_abs w') /\
    best_value bids_key (w_abs w') = Z.max (best_value bids_key (w_abs w)) value.
Proof.
  intros Hu Hpos Hready. destruct (decimal value Hu) as (v & Hv & Hval).
  destruct (signed_request_val site value v Hv) as (sig & s & Hreq & Hlen & Hs & Hver).
  assert (forall R (k : result SubmitBlockResponse GrpcStatus -> prog RelayE R) req,
    test_request req -> run step (bind (client_submit_block client req) k) w =
    run step (let! r := submit_block (mkRelayService fork) req in k (map_err status_of r)) w)
    as Hcall.
  { intros R k req Htest.
    rewrite (run_proper step _ _ (bind_proper _ _
      (client_submit_block_reaches lb _ _ (fits _ Htest)) _ _ (fun r => reflexivity _)) _ _ eq_refl).
    by rewrite (run_proper step _ _ (bind_assoc _ _ _) _ _ eq_refl). }
  set (req := mkSubmitBlockRequest _ _ _ _) in *. exists (test_trace 11 key v), req. rewrite Hreq.
  assert (test_request req) as Htest.
  { split; simpl; [| |done..].
    - intros b [= <-]. by exists 11%Z, key, value.
    - intros p [= <-]. by exists site, b256_zero. }
  assert (hs_slot (sto_head (w_abs w)) < u64_max)%Z as Hhead by by rewrite (rd_head _ Hready).
  pose proof (submit_block_run step w_abs w_frame (mkRelayService fork) req w Hhead) as Hrun.
  simpl in Hrun. destruct (test_verdict fork (w_abs w) 11 key (pretty value) v site b256_zero sig Hv)
    as (payload & Hr & Heq). fold req in Heq. rewrite Heq in Hrun. clear Heq.
  destruct (ready_verdict _ v payload Hready) as [d Hd]; [lia | done |].
  pose proof (best_after (w_abs w) v payload (mkBlobsBundle [] [] []) s d) as Hbest.
  rewrite Hval in Hbest. specialize (Hbest Hpos).
  destruct (beats_best_b _ _).
  - rewrite Hd, Hs, Hver in Hrun. destruct Hrun as (w' & Hrun & Ha & _).
    exists w', (mkSubmitBlockResponse 200 "Success"). split; [done |]. do 2 (split; [done |]).
    split; [|by rewrite Ha; split; [apply ready_accept |]].
    intros R k. by rewrite Hcall, run_bind, Hrun by done.
  - exists w, (mkSubmitBlockResponse 400 "Bid below best."). split; [done |]. do 2 (split; [done |]).
    split; [|split; [done | lia]]. intros R k. by rewrite Hcall, run_bind, Hrun by done.
Qed.

Lemma ready_slot_ready site w attrs :
  w_abs w = test_state attrs [] [key] ->
  exists w', run step (ready_slot site) w = (Val tt, w') /\ ready (w_abs w') /\
    best_value bids_key (w_abs w') = 0%Z.
Proof.
  intros Hw. destruct (ready_slot_run site w attrs _ Hw) as (entry & w' & Hrun & Ha).
  exists w'. split; [done |]. rewrite Ha. split; [|done]. split; try done. by exists (mkValidator 11 0 entry).
Qed.

(** The value of the best bid, read back. *)
Lemma read_best_value w value :
  (0 < value)%Z -> best_value bids_key (w_abs w) = value ->
  exists b, run step (st_read_best_bid 11 b256_zero test_bls_pubkey) w = (Val (Some b), w) /\
    u256_val (bt_value (bs_message b)) = value.
Proof.
  intros Hv Hbest. rewrite (law_read_best step w_abs w_frame 11 b256_zero test_bls_pubkey w).
  unfold best_value, sto_read_best in *. destruct (sto_best (w_abs w) !! bids_key) as [b|]; [|lia].
  by exists b.
Qed.

Lemma valid_submission_passes w attrs :
  w_abs w = test_state attrs [] [key] ->
  exists w', run step (valid_submission client signer key) w = (Val tt, w').
Proof.
  intros Hw. destruct (ready_slot_ready 14 w attrs Hw) as (w1 & Hslot & Hready & Hzero).
  destruct (signed_request_run 13 1000 w1) as (bid & req & w2 & r & Hreq & Hph & Hpk & Hrun & _ & Hbest);
    [by split | done | done |].
  unfold valid_submission. change "1000"%string with (pretty 1000%Z). rewrite Hreq. cbn [lift bind].
  rewrite run_bind, Hslot, Hrun, Hph, Hpk. cbn [unwrap expect lift bind]. unfold unwrap.
  cbn [expect lift bind].
  destruct (read_best_value w2 1000) as (b & Hread & Hb); [done | rewrite Hbest, Hzero; done |].
  rewrite run_bind, Hread. cbn [unwrap_some lift bind]. rewrite Hb, assert_eq_refl. by exists w2.
Qed.

(** The value of the bid of a task of [concurrent_submissions]. *)
Abbreviation task_value i := (1000 + Z.of_nat i * 100)%Z.

Lemma tasks_run order w :
  ready (w_abs w) -> Forall (fun i => is_u64 (task_value i)) order ->
  exists w', run step (forP (concurrent_task client signer key) order) w = (Val tt, w') /\
    best_value bids_key (w_abs w') =
      fold_left (fun m i => Z.max m (task_value i)) order (best_value bids_key (w_abs w)).
Proof.
  unfold forP. revert w. induction order as [|i order IH]; intros w Hready Horder; [by exists w |].
  apply Forall_cons in Horder as [Hi Horder]. cbn [foldP fold_left].
  destruct (signed_request_run i (task_value i) w) as (bid & req & w1 & r & Hreq & _ & _ & Hrun
    & Hready1 & Hbest); [done | lia | done |].
  destruct (IH w1 Hready1 Horder) as (w' & Hrest & Hbest'). exists w'.
  split; [|by rewrite Hbest', Hbest].
  unfold concurrent_task at 1. cbv zeta. rewrite Hreq, run_bind. cbn [lift bind].
  rewrite Hrun. exact Hrest.
Qed.

(** The largest value of a list of tasks. *)
Lemma fold_max (f : nat -> Z) l m :
  (forall i, i ∈ l -> (f i <= fold_left (fun m i => Z.max m (f i)) l m)%Z) /\
  (m <= fold_left (fun m i => Z.max m (f i)) l m)%Z /\
  (fold_left (fun m i => Z.max m (f i)) l m = m \/
   exists i, i ∈ l /\ fold_left (fun m i => Z.max m (f i)) l m = f i).
Proof.
  revert m. induction l as [|i l IH]; intros m; simpl.
  { split; [|split; [lia | by left]]. intros i Hi. by apply not_elem_of_nil in Hi. }
  destruct (IH (Z.max m (f i))) as (Hin & Hm & Hor). split; [|split; [lia |]].
  - intros j [->|Hj]%elem_of_cons; [lia | by apply Hin].
  - destruct Hor as [Heq|(j & Hj & Heq)].
    + destruct (Z.max_spec m (f i)) as [[_ Hmax]|[_ Hmax]]; rewrite Hmax in Heq.
      * right. exists i. split; [by left |]. by rewrite Hmax.
      * left. by rewrite Hmax.
    + right. exists j. split; [by right | done].
Qed.

Lemma concurrent_submissions_passes order w attrs :
  w_abs w = test_state attrs [] [key] -> order ≡ₚ seq 0 1000 ->
  exists w', run step (concurrent_submissions client signer key order) w = (Val tt, w').
Proof.
  intros Hw Horder. destruct (ready_slot_ready 15 w attrs Hw) as (w1 & Hslot & Hready & Hzero).
  destruct (tasks_run order w1 Hready) as (w2 & Hrun & Hbest).
  { rewrite Horder, Forall_forall. intros i Hi%elem_of_seq. unfold is_u64, u64_max, u64_modulus. lia. }
  unfold concurrent_submissions. rewrite run_bind, Hslot, run_bind, Hrun.
  destruct (fold_max (fun i => task_value i) order 0) as (Hin & _ & Hor).
  rewrite Hzero in Hbest. rewrite <-Hbest in Hin, Hor.
  assert (best_value bids_key (w_abs w2) = task_value 999) as Hmax.
  { assert (999 ∈ order)%nat as H999 by (rewrite Horder; apply elem_of_seq; lia).
    specialize (Hin 999%nat H999). destruct Hor as [Hz|(i & Hi & Heq)]; [lia |].
    rewrite Horder in Hi. apply elem_of_seq in Hi. lia. }
  destruct (read_best_value w2 (task_value 999)) as (b & Hread & Hb); [done | done |].
  rewrite run_bind, Hread. cbn [unwrap_some lift bind]. rewrite Hb, assert_eq_refl. by exists w2.
Qed.
End passing.

Section main.
Context {X : Ext} {L : ExtLaws X} `{!Random} `{!BuildProfile}.
Context {T : TonicTypes} {TE : @Tonic T RelayE}.

(** The test set up with [builders] passes. *)
Definition test_passes (builders : list BlsPublicKey) (out : Outside) (test : prog RelayE unit) :
  Prop :=
  exists w w', setup builders out = Val w /\ run_relay test w = (Val tt, w').

(** C37: the model passes the tests of the gRPC server, through the generated client and
    server, whatever the keys and addresses drawn at random: every refusal has the expected
    code and message, a signed bid becomes the best bid, and of the thousand submissions of
    [concurrent_submissions], served one after the other in any order, the highest stays.  The
    random [prev_randao] of two tests must not be zero, and the constant signature must not
    happen to sign the two bids it is submitted with. *)
Theorem grpc_tests_pass (lb : Loopback (E:=RelayE)) {TL : TonicLaws lb} fork point inf signer builder out order :
  (forall req, test_request req -> lb_fits lb req) ->
  (forall value, is_u64 value -> exists v, uint_from_str (pretty value) = Ok v /\ uint_val v = value) ->
  fork_datas_default = Val fork ->
  sig_from_str TEST_BLS_SIGNATURE = Ok (mkSignature Signature (Some point) inf) ->
  unsigned fork point bls_pk_default -> unsigned fork point test_bls_pubkey ->
  random_b256 6 <> b256_zero -> random_b256 7 <> b256_zero ->
  signer_default 13 = Val signer -> enabled_builder_of signer = Val builder ->
  order ≡ₚ seq 0 1000 ->
  let client := connected_client (E:=RelayE) lb (submit_block (mkRelayService fork)) in
  test_passes [] out (invalid_builder client) /\
  test_passes [bls_pk_default] out (slot_validation client) /\
  test_passes [bls_pk_default] out (attributes_validation client) /\
  test_passes [bls_pk_default] out (duties_validation client) /\
  test_passes [test_bls_pubkey] out (invalid_signature client) /\
  test_passes [builder] out (valid_submission client signer builder) /\
  test_passes [builder] out (concurrent_submissions client signer builder order).
Proof.
  intros Hfits Hdec Hfork Hsig Hbad1 Hbad2 H6 H7 Hsigner Hbuilder Horder client.
  assert (signer_fork_data signer = fork /\ builder = signer_public_key signer) as [Hsf ->].
  { unfold signer_default in Hsigner. rewrite Hfork in Hsigner. injection Hsigner as <-.
    split; [done |]. unfold enabled_builder_of, unwrap in Hbuilder.
    destruct (pk_from_str _) as [k|e] eqn:Hk; [|done]. injection Hbuilder as <-. by apply pk_text. }
  assert (forall builders test,
    (forall w, w_abs w = test_state fork (payload_attr 0 (random_address 0)) [] builders ->
      exists w', run_relay test w = (Val tt, w')) -> test_passes builders out test) as Hsetup.
  { intros builders test Hrun. destruct (setup_state fork builders out Hfork) as (w & Hs & Hw).
    destruct (Hrun w Hw) as [w' Hw']. by exists w, w'. }
  unfold run_relay in Hsetup. split_and!; apply Hsetup; intros w Hw.
  - eexists. by eapply invalid_builder_passes.
  - eexists. by eapply slot_validation_passes.
  - by eapply attributes_validation_passes.
  - by eapply duties_validation_passes.
  - by eapply invalid_signature_passes.
  - by eapply valid_submission_passes.
  - by eapply concurrent_submissions_passes.
Qed.
End main.
