(* ===== verification/HttpTests.v ===== *)
(** The tests of the HTTP server: the [mod tests] of [crates/http/src/server/mod.rs] and of its
    routes, against the model.  A request of a test goes through the filters of its route; the
    JSON of a body the tests post decodes to the value it was made of ([fits]); the body of a
    reply is read back as the value that was replied. *)

From stdpp Require Import pretty.
From S2P Require Import Prelude Prog External Types Blst Signer BeaconTypes BeaconBlock.
From S2P Require Import StorageTypes Header Storage BidSpec Metrics InMemory World.
From S2P Require Import InMemoryStorage HttpErrors Warp PostBids Auth GetHeader BlindedBlocks.
From S2P Require Import PostValidators DataApi Routes TestKit.

(** ** Requests and replies of [warp::test] *)

Definition bare_request (method : string) (path : list string) (query : string) : ServerRequest :=
  mkServerRequest method path query [] "".

(** [.json(&body)] *)
Definition json_request (method : string) (path : list string) (query body : string) :
  ServerRequest :=
  mkServerRequest method path query
    [("content-length", pretty (Z.of_nat (String.length body)));
     ("content-type", "application/json")] body.

Class ToBody (T : Type) := to_body : T -> string.

(** The body made of the value is within the limit of its route, and decodes to the value. *)
Definition fits `{Ext} {T : Type} `{!FromBody T} `{!ToBody T} (limit : Z) (x : T) : Prop :=
  (Z.of_nat (String.length (to_body x)) <= limit)%Z /\
  forall method path query, from_body (json_request method path query (to_body x)) = Ok x.

Section tests.
Context `{Ext} `{!Random} `{!BuildProfile} `{!WarpCauses} {W : Warp RelayE}.
Context `{!FromQuery ApiKeyQuery} `{!FromQuery QueryParams}.
Context `{!FromBody BidSubmission} `{!FromBody SignedBlindedBlock}.
Context `{!FromBody (list ValidatorRegistration)}.
Context `{!ToBody SignedBlindedBlock} `{!ToBody (list ValidatorRegistration)}.
Context (rejection_debug : Rejection -> string).

Definition reply_status (r : Reply) : Z :=
  match r with
  | StatusReply status => status
  | ErrReply error => er_status error
  | _ => OK
  end.

(** [resp.status()]; a rejection that is not recovered is none of the statuses tested for. *)
Definition resp_status (resp : result Reply Rejection) : option Z :=
  match resp with Ok r => Some (reply_status r) | Err _ => None end.

(** The message of an error reply. *)
Definition resp_message (resp : result Reply Rejection) : option string :=
  match resp with Ok (ErrReply error) => Some (er_json error) | _ => None end.

Definition recovered (routes : Filter RelayE Reply) : Filter RelayE Reply :=
  recover routes (fun err => ErrReply (handle_rejection rejection_debug err)).

(** The storage of the tests of the routes. *)
Definition http_setup (slot : u64) (out : Outside) : outcome World :=
  setup_storage slot (payload_attr 0 (random_address 0)) [] out.

(** ** [proposer_api/status.rs] *)

Definition test_status_route : prog RelayE unit :=
  let! resp := serve status_route (bare_request "GET" ["eth"; "v1"; "builder"; "status"] "") in
  assert_eq (resp_status resp) (Some OK) "status".

(** ** [builder_api/get_validators.rs] *)

Definition gv_validator_registration : outcome ValidatorRegistration :=
  test_registration address_zero 0 (random_pubkey 2).

Definition gv_validator : outcome Validator :=
  let^ entry := gv_validator_registration in Val (mkValidator 0 0 entry).

Definition test_get_validators : prog RelayE unit :=
  let! validator := lift gv_validator in
  do! st_set_proposer_duties [validator];
  let! resp := serve get_validators_route
                 (bare_request "GET" ["relay"; "v1"; "builder"; "validators"] "") in
  do! assert_eq (resp_status resp) (Some OK) "status";
  match resp with
  | Ok (DutiesReply duties) =>
      do! assert_eq (length duties) 1%nat "duties.len()";
      match duties with
      | duty :: _ =>
          do! assert_eq (v_validator_index duty) 0%Z "validator_index";
          do! assert_eq (v_slot duty) 0%Z "slot";
          do! assert_eq (rm_fee_recipient (vr_message (v_entry duty))) address_zero
                "fee_recipient";
          let! expected_sig := lift (unwrap (sig_from_str TEST_BLS_SIGNATURE)) in
          assert_eq (bls_sig_serialize (vr_signature (v_entry duty)))
            (bls_sig_serialize expected_sig) "signature"
      | [] => Panic "index out of bounds"
      end
  | _ => Panic unwrap_msg
  end.

(** ** [proposer_api/get_header.rs] *)

Definition gh_validator_registration (site : nat) (timestamp : u64) :
  outcome ValidatorRegistration := test_registration address_zero timestamp (random_pubkey site).

Definition gh_bid_trace (slot : u64) (value : string) : outcome BidTrace :=
  let pubkey := test_bls_pubkey in
  let^ value := unwrap (u256_parse value) in
  Val {|
    bt_slot := slot;
    bt_parent_hash := b256_zero;
    bt_block_hash := b256_zero;
    bt_builder_pubkey := pubkey;
    bt_proposer_pubkey := pubkey;
    bt_proposer_fee_recipient := address_zero;
    bt_gas_limit := 0;
    bt_gas_used := 0;
    bt_value := value
  |}.

Definition gh_execution_payload : outcome ExecutionPayload :=
  let^ extra_data := unwrap_some (vl_new 32 []) in
  let^ transactions := unwrap_some (vl_new 1048576 []) in
  let^ withdrawals := unwrap_some (vl_new 16 []) in
  let^ logs_bloom := unwrap_some (fv_new 256 (replicate 256 Byte.x00)) in
  Val {|
    ep_parent_hash := b256_zero;
    ep_fee_recipient := address_zero;
    ep_state_root := b256_zero;
    ep_receipts_root := b256_zero;
    ep_logs_bloom := logs_bloom;
    ep_prev_randao := b256_zero;
    ep_block_number := 0;
    ep_gas_limit := 0;
    ep_gas_used := 0;
    ep_timestamp := 0;
    ep_extra_data := extra_data;
    ep_base_fee_per_gas := u256_from_u64 0;
    ep_block_hash := b256_zero;
    ep_transactions := transactions;
    ep_withdrawals := withdrawals;
    ep_blob_gas_used := 0;
    ep_excess_blob_gas := 0
  |}.

Definition gh_bid_submission : outcome BidSubmission :=
  let^ trace := gh_bid_trace 10 "0x0" in
  let^ payload := gh_execution_payload in
  Val (mkBidSubmission trace payload blobs_bundle_default bls_sig_default).

Definition header_request (slot : string) : ServerRequest :=
  bare_request "GET" ["eth"; "v1"; "builder"; "header"; slot;
    "0x0000000000000000000000000000000000000000000000000000000000000000";
    test_bls_pubkey_str] "".

Definition valid_get_header (signer : BlsSigner) : prog RelayE unit :=
  let! registration := lift (gh_validator_registration 3 1) in
  do! st_set_validator_registration test_bls_pubkey registration;
  let! bid := lift gh_bid_submission in
  do! st_set_best_bid 11 bid;
  let pub_key := signer_public_key signer in
  let domain := fd_compute_builder_domain (signer_fork_data_builder signer) in
  let! resp := serve (get_header_route signer) (header_request "11") in
  do! assert_eq (resp_status resp) (Some OK) "status";
  match resp with
  | Ok (HeaderReply versioned_bid) =>
      do! assert_eq (vs_version versioned_bid) Deneb "version";
      let sig := sh_signature (vs_data versioned_bid) in
      let msg := sh_message (vs_data versioned_bid) in
      assert_that (bls_sig_verify sig pub_key (signing_root msg domain)) "signature"
  | _ => Panic unwrap_msg
  end.

Definition test_invalid_slot_error (signer : BlsSigner) : prog RelayE unit :=
  let! registration := lift (gh_validator_registration 4 1) in
  do! st_set_validator_registration test_bls_pubkey registration;
  let! resp := serve (recovered (get_header_route signer)) (header_request "1") in
  do! assert_eq (resp_status resp) (Some BAD_REQUEST) "status";
  assert_eq (resp_message resp) (Some "slot is too old"%string) "message".

Definition test_no_bid_found_error (signer : BlsSigner) : prog RelayE unit :=
  let! registration := lift (gh_validator_registration 5 1) in
  do! st_set_validator_registration test_bls_pubkey registration;
  let! bid := lift gh_bid_submission in
  do! st_set_best_bid 10 bid;
  let! resp := serve (recovered (get_header_route signer)) (header_request "11") in
  do! assert_eq (resp_status resp) (Some BAD_REQUEST) "status";
  assert_eq (resp_message resp) (Some "No bid found"%string) "message".

(** ** [proposer_api/post_validators.rs] *)

Definition pv_validator_registration (site : nat) (pubkey : BlsPublicKey)
    (signature : option BlsSignature) : ValidatorRegistration :=
  mkRegistration (mkRegistrationMessage (random_address site) 0 0 pubkey)
    (default bls_sig_default signature).

Definition generate_signed_registrations (num_regs : nat) : outcome (list ValidatorRegistration) :=
  let^ fork_data := fork_datas_default in
  Val ((fun i =>
    let signer := mkBlsSigner (random_secret_key (100 + i)) fork_data in
    let pubkey := signer_public_key signer in
    let registration := pv_validator_registration (100 + i) pubkey None in
    let signature := signer_sign signer (vr_message registration) in
    mkRegistration (vr_message registration) signature) <$> seq 0 num_regs).

Context (team_id user_id : N).

(** [TestAuth]: any secret is a user's; the identifiers are random. *)
#[local] Instance TestAuth : Auth RelayE := fun _ => Ret (Ok (mkMbsUser team_id user_id)).

Definition validators_request (registrations : list ValidatorRegistration) : ServerRequest :=
  json_request "POST" ["eth"; "v1"; "builder"; "validators"] "api_key=123" (to_body registrations).

Definition pv_invalid_by_sig : prog RelayE unit :=
  let! signature := lift (unwrap (sig_from_str TEST_BLS_SIGNATURE)) in
  let signer := random_pubkey 6 in
  let registations := pv_validator_registration 6 signer (Some signature) in
  let! resp := serve post_validators_route (validators_request [registations]) in
  assert_eq (resp_status resp) (Some OK) "status".

Definition pv_valid (registrations : list ValidatorRegistration) : prog RelayE unit :=
  let! resp := serve post_validators_route (validators_request registrations) in
  assert_eq (resp_status resp) (Some OK) "status".

Definition test_post_validators : prog RelayE unit :=
  do! pv_invalid_by_sig;
  let! registrations := lift (generate_signed_registrations 50) in
  pv_valid registrations.

(** ** [server/mod.rs] *)

Definition test_server : prog RelayE unit :=
  let proposer_api := or (or status_route post_blinded_blocks_route) post_validators_route in
  let builder := get_validators_route in
  let data := get_bids_route in
  let routes := recovered (or (or proposer_api builder) data) in
  let! resp := serve routes (bare_request "GET" ["relay"; "v1"; "builder"; "validators"] "") in
  do! assert_eq (resp_status resp) (Some OK) "status";
  let! resp := serve routes (bare_request "GET" ["eth"; "v1"; "builder"; "status"] "") in
  do! assert_eq (resp_status resp) (Some OK) "status";
  let! resp := serve routes
    (bare_request "POST" ["relay"; "v1"; "data"; "bidtraces"; "builder_blocks_received"] "") in
  assert_eq (resp_status resp) (Some OK) "status".

(** ** [proposer_api/blinded_blocks.rs]

    The two JSON fixtures are parameters: the signed blinded block and the stored payload. *)

Context (signed_blinded_block : SignedBlindedBlock) (blinded_block_resp : BlindedBlockResponse).

Definition bb_validator_registration (site : nat) (pubkey : BlsPublicKey) :
  outcome ValidatorRegistration := test_registration (random_address site) 0 pubkey.

Definition bb_duties (site : nat) (pubkey : BlsPublicKey) : outcome (list Validator) :=
  let^ entry := bb_validator_registration site pubkey in Val [mkValidator 46 26 entry].

Definition blinded_request (block : SignedBlindedBlock) : ServerRequest :=
  json_request "POST" ["eth"; "v1"; "builder"; "blinded_blocks"] "" (to_body block).

(** The registration, the duty and the payload of the proposer. *)
Definition bb_prepare (site : nat) (pubkey : BlsPublicKey) : prog RelayE unit :=
  let! registration := lift (bb_validator_registration site pubkey) in
  do! st_set_validator_registration pubkey registration;
  let! duties := lift (bb_duties (site + 1) pubkey) in
  do! st_set_proposer_duties duties;
  st_set_blinded_block_response pubkey blinded_block_resp.

Definition bb_test_invalid_signature : prog RelayE unit :=
  let proposer := random_pubkey 7 in
  do! bb_prepare 8 proposer;
  let! resp := serve (recovered post_blinded_blocks_route) (blinded_request signed_blinded_block) in
  do! assert_eq (resp_status resp) (Some BAD_REQUEST) "status";
  assert_eq (resp_message resp) (Some "Invalid signature."%string) "message".

Definition can_submit_blinded_block (signer : BlsSigner) : prog RelayE unit :=
  let msg := sbl_message signed_blinded_block in
  let signature := signer_proposer_sign signer msg in
  let blinded_block := mkSignedBlindedBlock msg signature in
  let pubkey := signer_public_key signer in
  do! bb_prepare 10 pubkey;
  let expected_exec_payload := bbr_execution_payload blinded_block_resp in
  let! resp := serve post_blinded_blocks_route (blinded_request blinded_block) in
  do! assert_eq (resp_status resp) (Some OK) "status";
  match resp with
  | Ok (PayloadReply json_resp) =>
      let exec_payload := bbr_execution_payload (vs_data json_resp) in
      do! assert_eq (ep_block_hash exec_payload) (ep_block_hash expected_exec_payload) "block_hash";
      assert_eq (length (ep_transactions exec_payload))
        (length (ep_transactions expected_exec_payload)) "transactions.len()"
  | _ => Panic unwrap_msg
  end.

Definition can_validate_sig (signer : BlsSigner) : prog RelayE unit :=
  let msg := sbl_message signed_blinded_block in
  let signature := signer_proposer_sign signer msg in
  let! fork_data := st_fork_data in
  let beacon_proposer_domain := compute_proposer_domain fork_data in
  let root := signing_root msg beacon_proposer_domain in
  let pubkey := signer_public_key signer in
  assert_that (bls_sig_verify signature pubkey root) "signature".
End tests.

(** * The tests pass *)

Section passing.
Context {X : Ext} {L : ExtLaws X} `{!Random} `{!BuildProfile} `{!WarpCauses}.
Context {W : Warp RelayE} {WL : WarpLaws RelayE}.
Context `{!FromQuery ApiKeyQuery} `{!FromQuery QueryParams}.
Context `{!FromBody BidSubmission} `{!FromBody SignedBlindedBlock}.
Context `{!FromBody (list ValidatorRegistration)}.
Context `{!ToBody SignedBlindedBlock} `{!ToBody (list ValidatorRegistration)}.
Context (rejection_debug : Rejection -> string).

Abbreviation step := (fun A => @relay_step X A).

(** ** The steps of a test *)

Lemma serve_bind {A B} (f : Filter RelayE A) rq (k : result A Rejection -> prog RelayE B) p w :
  serve f rq ≡ p -> run step (bind (serve f rq) k) w = run step (bind p k) w.
Proof. intros Heq. apply run_proper; [|done]. by apply bind_proper. Qed.

Lemma route_bind {B} route path h rq (k : result Reply Rejection -> prog RelayE B) w :
  route_for route path h -> sq_path rq = path ->
  run step (bind (serve route rq) k) w = run step (bind (h rq) k) w.
Proof. intros Hr Hp. apply serve_bind. by apply Hr. Qed.

(** A recovered route answers with the reply of the handler or of its rejection. *)
Lemma recovered_bind {B} route rq p (k : result Reply Rejection -> prog RelayE B) w :
  serve route rq ≡ p ->
  run step (bind (serve (recovered rejection_debug route) rq) k) w =
  run step (let! r := p in k (Ok (match r with
    | Ok a => a | Err e => ErrReply (handle_rejection rejection_debug e) end))) w.
Proof.
  intros Heq. rewrite (serve_bind (recovered rejection_debug route) rq _ (let! r := p in
    Ret (match r with Ok a => Ok a | Err e => Ok (ErrReply (handle_rejection rejection_debug e)) end))).
  - rewrite !run_bind. destruct (run step p w) as [[[a|e]|m] s]; done.
  - unfold recovered. rewrite law_recover, Heq. done.
Qed.

Lemma framed_run {A} (p q : prog RelayE (result A Rejection)) w a w' :
  framed p q -> run step q w = (Val (Ok a), w') -> run step p w = (Val (Ok a), w').
Proof.
  intros (pre & suf & _ & _ & Heq) Hq. rewrite (run_proper step _ _ Heq _ _ eq_refl).
  by rewrite run_bind, Hq.
Qed.

Lemma read_body_json {T} `{!FromBody T} `{!ToBody T} limit method path query (x : T) :
  fits limit x -> (limit < u64_modulus)%Z ->
  read_body T limit (json_request method path query (to_body x)) = Ok x.
Proof.
  intros [Hlen Hdec] Hlim. unfold read_body, length_check, content_length, header_value, json_request.
  simpl. rewrite u64_from_str_pretty by (split; lia). destruct (Z.leb_spec (Z.of_nat (String.length (to_body x))) limit); [|lia].
  simpl. apply Hdec.
Qed.

(** The storage of the tests. *)
Definition http_state (slot : u64) (fork : ForkDatas) : StoreState :=
  mkStoreState (mkHeadSlot slot) (payload_attr 0 (random_address 0)) [] ∅ [] ∅ ∅ ∅ fork ∅ [].

Definition http_passes (slot : u64) (out : Outside) (test : prog RelayE unit) : Prop :=
  exists w w', http_setup slot out = Val w /\ run_relay test w = (Val tt, w').

Lemma http_setup_passes slot fork out test :
  fork_datas_default = Val fork ->
  (forall w, w_abs w = http_state slot fork -> exists w', run_relay test w = (Val tt, w')) ->
  http_passes slot out test.
Proof.
  intros Hf Htest. unfold http_passes, http_setup, setup_storage. rewrite Hf. simpl.
  destruct (Htest (mkWorld (in_memory_storage_new (mkHeadSlot slot)
    (payload_attr 0 (random_address 0)) [] fork ∅ []).2
    (in_memory_storage_new (mkHeadSlot slot) (payload_attr 0 (random_address 0)) [] fork ∅ []).1
    [] [] 0 out) eq_refl) as [w' Hw']. by eexists _, w'.
Qed.

(** ** The tests without a proposer *)

Lemma test_status_route_run w : run step test_status_route w = (Val tt, w).
Proof. unfold test_status_route. by erewrite route_bind by (apply status_route_for || done). Qed.

Context (point : Signature) (inf : bool).
Hypothesis signature_parses : sig_from_str TEST_BLS_SIGNATURE = Ok (mkSignature Signature (Some point) inf).

Lemma test_registration_val fee t k :
  test_registration fee t k = Val (mkRegistration (mkRegistrationMessage fee 0 t k)
    (mkSignature Signature (Some point) inf)).
Proof. unfold test_registration, unwrap. by rewrite signature_parses. Qed.

Lemma test_get_validators_run w : exists w', run step test_get_validators w = (Val tt, w').
Proof.
  unfold test_get_validators, gv_validator, gv_validator_registration.
  rewrite test_registration_val. cbn [outcome_bind lift bind].
  run_write w_frame w1 Ha Hf. exists w1.
  erewrite route_bind by (apply duties_route_for || done).
  unfold replying, try_bind, get_validators. rewrite run_bind, run_bind, run_bind.
  rewrite (law_read_duties step w_abs w_frame w1), Ha. cbn.
  unfold unwrap. rewrite signature_parses. cbn. by rewrite !assert_eq_refl.
Qed.

(** A request that one of the composed routes answers. *)
Lemma recovered_hit {B} routes rq q (k : result Reply Rejection -> prog RelayE B) w a w' :
  framed (serve routes rq) q -> run step q w = (Val (Ok a), w') ->
  run step (bind (serve (recovered rejection_debug routes) rq) k) w = run step (k (Ok a)) w'.
Proof.
  intros (pre & suf & _ & _ & Heq) Hq. rewrite (recovered_bind _ _ _ _ _ Heq).
  by rewrite !run_bind, Hq.
Qed.

Lemma test_server_run team_id user_id w :
  from_query (bare_request "POST"
    ["relay"; "v1"; "data"; "bidtraces"; "builder_blocks_received"] "") = Ok (mkQueryParams None None) ->
  exists w', run step (test_server rejection_debug team_id user_id) w = (Val tt, w').
Proof.
  intros Hquery. unfold test_server. cbv zeta. eexists.
  erewrite (recovered_hit _ _ _ _ w); [| route_framed |].
  2:{ unfold replying, try_bind, get_validators. rewrite !run_bind.
      by rewrite (law_read_duties step w_abs w_frame w). }
  cbn [resp_status reply_status]. rewrite assert_eq_refl. cbn [bind].
  erewrite (recovered_hit _ _ _ _ w); [| route_framed | done].
  cbn [resp_status reply_status]. rewrite assert_eq_refl. cbn [bind].
  erewrite (recovered_hit _ _ _ _ w); [| route_framed |].
  2:{ rewrite Hquery. done. }
  cbn [resp_status reply_status]. by rewrite assert_eq_refl.
Qed.

(** ** Registrations *)

(** A body of registrations is accepted, whatever the beacon node says about them. *)
Lemma validators_route_run {B} team_id user_id regs (k : result Reply Rejection -> prog RelayE B) w :
  from_query (validators_request regs) = Ok (mkApiKeyQuery "123") ->
  fits 83886080 regs ->
  exists w', run step (bind (serve (post_validators_route (Auth0:=TestAuth team_id user_id))
                              (validators_request regs)) k) w =
             run step (k (Ok (StatusReply OK))) w'.
Proof.
  intros Hquery Hfits.
  pose proof (post_validators_handler_run "123" regs w) as (w' & Hrun & _). exists w'.
  erewrite route_bind by (apply validators_route_for || done).
  unfold posted, with_input, validators_request in *. cbn [sq_method json_request].
  rewrite String.eqb_refl, Hquery, read_body_json by (done || unfold u64_modulus; lia).
  unfold replying, try_bind. rewrite !run_bind. unfold post_validators, validate_api_key, validate.
  cbn [TestAuth try_bind bind ak_api_key]. unfold run_relay in Hrun. by rewrite Hrun.
Qed.

Lemma test_post_validators_run team_id user_id fork w :
  fork_datas_default = Val fork ->
  (forall regs, from_query (validators_request regs) = Ok (mkApiKeyQuery "123")) ->
  fits 83886080 [pv_validator_registration 6 (random_pubkey 6)
                   (Some (mkSignature Signature (Some point) inf))] ->
  (forall regs, generate_signed_registrations 50 = Val regs -> fits 83886080 regs) ->
  exists w', run step (test_post_validators team_id user_id) w = (Val tt, w').
Proof.
  intros Hfork Hquery Hone Hmany.
  unfold test_post_validators, pv_invalid_by_sig, pv_valid, unwrap.
  unfold generate_signed_registrations in *. rewrite Hfork, signature_parses in *.
  cbn [expect outcome_bind lift bind] in *. rewrite run_bind.
  edestruct (validators_route_run (B:=unit)) as (w1 & ->); [apply Hquery | exact Hone |].
  cbn [resp_status reply_status]. rewrite assert_eq_refl. cbn [run].
  edestruct (validators_route_run (B:=unit)) as (w2 & ->); [apply Hquery | by apply Hmany |].
  cbn [resp_status reply_status]. rewrite assert_eq_refl. by exists w2.
Qed.
(** ** Headers *)

(** The path of the requests decodes. *)
Hypothesis zero_hash_parses :
  b256_from_str "0x0000000000000000000000000000000000000000000000000000000000000000" =
  Ok (b256_0 b256_zero).
Hypothesis test_key_parses : pk_from_str test_bls_pubkey_str = Ok test_bls_pubkey.

Lemma header_request_path text slot :
  u64_from_str text = Some slot ->
  header_path (sq_path (header_request text)) = Some (slot, b256_zero, test_bls_pubkey).
Proof.
  intros Hslot. unfold header_path, header_request, bare_request. simpl sq_path.
  rewrite decide_True by done. simpl. rewrite Hslot. simpl. unfold b256_parse.
  rewrite zero_hash_parses. cbn -[pk_from_str]. by rewrite test_key_parses.
Qed.

(** What the header route does with the request of a test: the answer of the handler. *)
Lemma header_handler_run signer slot w :
  hs_slot (sto_head (w_abs w)) = 10%Z ->
  exists r w', run step (replying HeaderReply (get_header slot b256_zero test_bls_pubkey signer)) w =
    (Val (match r with Ok v => Ok (HeaderReply v) | Err e => Err e end), w') /\
    header_answer (w_abs w) slot b256_zero test_bls_pubkey signer r.
Proof.
  intros Hhead.
  destruct (get_header_run slot b256_zero test_bls_pubkey signer w) as (r & w' & Hrun & _ & _ & Ha).
  { by rewrite Hhead. }
  exists r, w'. split; [|done]. unfold replying, try_bind. rewrite run_bind.
  unfold run_relay in Hrun. rewrite Hrun. by destruct r.
Qed.

Lemma header_bind signer text slot (k : result Reply Rejection -> prog RelayE unit) w :
  u64_from_str text = Some slot -> hs_slot (sto_head (w_abs w)) = 10%Z ->
  exists r w', header_answer (w_abs w) slot b256_zero test_bls_pubkey signer r /\
    run step (bind (serve (get_header_route signer) (header_request text)) k) w =
    run step (k (match r with Ok v => Ok (HeaderReply v) | Err e => Err e end)) w'.
Proof.
  intros Htext Hhead. destruct (header_handler_run signer slot w Hhead) as (r & w' & Hrun & Ha).
  exists r, w'. split; [done |].
  pose proof (header_route_serves (E:=RelayE) signer (header_request text)) as Hserve.
  rewrite (header_request_path _ _ Htext) in Hserve.
  by rewrite (serve_bind _ _ _ _ _ Hserve), run_bind, Hrun.
Qed.

Lemma header_recovered_bind signer text slot (k : result Reply Rejection -> prog RelayE unit) w :
  u64_from_str text = Some slot -> hs_slot (sto_head (w_abs w)) = 10%Z ->
  exists r w', header_answer (w_abs w) slot b256_zero test_bls_pubkey signer r /\
    run step (bind (serve (recovered rejection_debug (get_header_route signer))
                      (header_request text)) k) w =
    run step (k (Ok (match r with
      | Ok v => HeaderReply v
      | Err e => ErrReply (handle_rejection rejection_debug e) end))) w'.
Proof.
  intros Htext Hhead. destruct (header_handler_run signer slot w Hhead) as (r & w' & Hrun & Ha).
  exists r, w'. split; [done |].
  pose proof (header_route_serves (E:=RelayE) signer (header_request text)) as Hserve.
  rewrite (header_request_path _ _ Htext) in Hserve.
  rewrite (recovered_bind _ _ _ _ _ Hserve), run_bind, Hrun. by destruct r.
Qed.

Hypothesis zero_value_parses : is_ok (uint_from_str "0x0") = true.

(** The bid the tests store: of slot 10, for the test key and the zero parent hash, without
    blobs. *)
Lemma gh_bid_val : exists bid,
  gh_bid_submission = Val bid /\
  (forall slot, bid_key slot bid = slot_hash_key slot b256_zero test_bls_pubkey) /\
  lenN (bb_commitments (bs_blobs_bundle bid)) = 0%N.
Proof.
  unfold gh_bid_submission, gh_bid_trace, u256_parse.
  destruct (uint_from_str "0x0") as [v|]; [|done]. cbn [unwrap expect outcome_bind].
  unfold gh_execution_payload. rewrite !vl_new_spec, fv_new_spec.
  cbn. by eexists.
Qed.

Lemma valid_get_header_run signer fork w :
  w_abs w = http_state 10 fork -> exists w', run step (valid_get_header signer) w = (Val tt, w').
Proof.
  intros Hst. unfold valid_get_header, gh_validator_registration.
  rewrite test_registration_val. cbn [outcome_bind lift bind].
  run_write w_frame w1 Ha1 Hf1.
  destruct gh_bid_val as (bid & -> & Hkey & Hlen). cbn [lift bind].
  run_write w_frame w2 Ha2 Hf2. rewrite Ha1, Hst in Ha2. cbv zeta.
  edestruct (header_bind signer "11" 11)
    as (r & w3 & Ha & ->); [done | by rewrite Ha2 |].
  rewrite Ha2 in Ha.
  inversion Ha as [Hr|rg Hr Hs|rg Hr Hs Hb|rg b Hr Hs Hb Hl|rg b msg Hr Hs Hb Hl Hmsg]; subst r;
    unfold sto_read_best in *; simpl in *;
    try rewrite Hkey, lookup_insert_eq in Hb; try rewrite lookup_insert_eq in Hr; try done.
  - injection Hb as <-. rewrite Hlen in Hl. done.
  - pose proof (signer_sign_verifies signer msg) as Hv. unfold compute_builder_domain in Hv.
    unfold signer_fork_data_builder. rewrite Hv. by eexists.
Qed.

Lemma test_invalid_slot_run signer fork w :
  w_abs w = http_state 10 fork ->
  exists w', run step (test_invalid_slot_error rejection_debug signer) w = (Val tt, w').
Proof.
  intros Hst. unfold test_invalid_slot_error, gh_validator_registration.
  rewrite test_registration_val. cbn [outcome_bind lift bind].
  run_write w_frame w1 Ha1 Hf1. rewrite Hst in Ha1.
  edestruct (header_recovered_bind signer "1" 1)
    as (r & w2 & Ha & ->); [done | by rewrite Ha1 |].
  rewrite Ha1 in Ha. inversion Ha as [Hr|rg Hr Hs|rg Hr Hs Hb|rg b Hr Hs Hb Hl|rg b msg Hr Hs Hb Hl];
    subst r; simpl in *; try done; [by rewrite lookup_insert_eq in Hr | by eexists].
Qed.

Lemma test_no_bid_found_run signer fork w :
  w_abs w = http_state 10 fork ->
  exists w', run step (test_no_bid_found_error rejection_debug signer) w = (Val tt, w').
Proof.
  intros Hst. unfold test_no_bid_found_error, gh_validator_registration.
  rewrite test_registration_val. cbn [outcome_bind lift bind].
  run_write w_frame w1 Ha1 Hf1.
  destruct gh_bid_val as (bid & -> & Hkey & Hlen). cbn [lift bind].
  run_write w_frame w2 Ha2 Hf2. rewrite Ha1, Hst in Ha2.
  edestruct (header_recovered_bind signer "11" 11)
    as (r & w3 & Ha & ->); [done | by rewrite Ha2 |].
  rewrite Ha2 in Ha.
  match type of Ha with header_answer ?st _ _ _ _ _ =>
    assert (sto_read_best 11 b256_zero test_bls_pubkey st = None) as Hnone
  end.
  { unfold sto_read_best. simpl. rewrite Hkey, lookup_insert_ne; [done |]. by intros [=]. }
  inversion Ha as [Hr|rg Hr Hs|rg Hr Hs Hb|rg b Hr Hs Hb Hl|rg b msg Hr Hs Hb Hl];
    subst r; try (rewrite Hnone in Hb; discriminate); simpl in *; try done;
    [by rewrite lookup_insert_eq in Hr | by eexists].
Qed.
(** ** Blinded blocks *)

Context (block : SignedBlindedBlock) (payload : BlindedBlockResponse).
Hypothesis fixture_slot : sbl_slot block = 46%Z.
Hypothesis fixture_index : sbl_proposer_index block = 26%Z.

Definition bb_registration (site : nat) (key : BlsPublicKey) : ValidatorRegistration :=
  mkRegistration (mkRegistrationMessage (random_address site) 0 0 key)
    (mkSignature Signature (Some point) inf).

(** The storage with the registration, the duty and the payload of the proposer. *)
Definition bb_state (site : nat) (key : BlsPublicKey) (fork : ForkDatas) : StoreState :=
  mkStoreState (mkHeadSlot 10) (payload_attr 0 (random_address 0))
    [mkValidator 46 26 (bb_registration (site + 1) key)]
    (<[pk_serialize key := bb_registration site key]> ∅) [] ∅ ∅ ∅ fork
    (<[pk_serialize key := payload]> ∅) [].

Lemma bb_prepare_bind site key fork (k : unit -> prog RelayE unit) w :
  w_abs w = http_state 10 fork ->
  exists w', w_abs w' = bb_state site key fork /\
    run step (bind (bb_prepare payload site key) k) w = run step (k tt) w'.
Proof.
  intros Hst. unfold bb_prepare, bb_duties, bb_validator_registration.
  rewrite !test_registration_val. cbn [outcome_bind lift bind]. rewrite run_bind.
  run_write w_frame w1 Ha1 Hf1. run_write w_frame w2 Ha2 Hf2.
  destruct (law_set_blinded step w_abs w_frame key payload w2) as (w3 & Hrun & Ha3 & _).
  exists w3. rewrite Hrun. split; [|done]. by rewrite Ha3, Ha2, Ha1, Hst.
Qed.

(** What the handler answers in that storage: the payload exactly when the signature is the
    one of the proposer. *)
Lemma bb_answer signature site key fork w :
  w_abs w = bb_state site key fork ->
  exists w', run_relay (post_blinded_blocks (mkSignedBlindedBlock (sbl_message block) signature)) w =
    (Val (if bls_sig_verify signature key
               (signing_root (sbl_message block) (compute_proposer_domain fork))
          then Ok (mkVersioned Deneb payload)
          else Err [CPostBlindedBlock InvalidSignature]), w').
Proof.
  intros Hst. set (b := mkSignedBlindedBlock (sbl_message block) signature).
  destruct (post_blinded_blocks_run b w) as (r & w' & Hrun & Ha & _). exists w'.
  rewrite Hrun. do 2 f_equal. rewrite Hst in Ha.
  assert (forall d, sto_find_duty (sbl_slot b) (bb_state site key fork) = d ->
            d = Some (mkValidator 46 26 (bb_registration (site + 1) key))) as Hduty.
  { intros d <-. unfold sto_find_duty, bb_state. simpl.
    change (sbl_slot b) with (sbl_slot block). by rewrite fixture_slot. }
  change (sbl_message block) with (sbl_message b). change signature with (sbl_signature b).
  inversion Ha as [Hd|d Hd Hi|d Hd Hi Hr|d rg Hd Hi Hr Hs|d Had Hb|d rsp Had Hb]; subst r;
    try (pose proof (bl_duty _ _ _ Had) as Hd); apply Hduty in Hd; try discriminate;
    injection Hd as ->; unfold duty_pubkey in *; simpl in *.
  - by change (sbl_proposer_index b) with (sbl_proposer_index block) in Hi; rewrite fixture_index in Hi.
  - by rewrite lookup_insert_eq in Hr.
  - by rewrite Hs.
  - by rewrite lookup_insert_eq in Hb.
  - rewrite lookup_insert_eq in Hb. injection Hb as <-. pose proof (bl_signed _ _ _ Had) as Hs.
    unfold duty_pubkey in Hs. simpl in Hs. by rewrite Hs.
Qed.

(** What the route does with the block of a test. *)
Lemma bb_posted_run signature site key fork w :
  w_abs w = bb_state site key fork ->
  fits 8388608 (mkSignedBlindedBlock (sbl_message block) signature) ->
  let rq := blinded_request (mkSignedBlindedBlock (sbl_message block) signature) in
  exists q w', serve post_blinded_blocks_route rq ≡ q /\
    run step q w =
    (Val (if bls_sig_verify signature key
               (signing_root (sbl_message block) (compute_proposer_domain fork))
          then Ok (PayloadReply (mkVersioned Deneb payload))
          else Err [CPostBlindedBlock InvalidSignature]), w').
Proof.
  intros Hst Hfits rq. destruct (bb_answer signature site key fork w Hst) as [w' Hrun].
  eexists _, w'. split; [by apply blinded_route_for |].
  unfold posted, with_input, rq, blinded_request. cbn [sq_method json_request].
  rewrite String.eqb_refl, read_body_json by done.
  unfold replying, try_bind. rewrite run_bind. unfold run_relay in Hrun. rewrite Hrun.
  by destruct (bls_sig_verify _ _ _).
Qed.

Lemma sbl_eta (b : SignedBlindedBlock) :
  mkSignedBlindedBlock (sbl_message b) (sbl_signature b) = b.
Proof. by destruct b. Qed.

Lemma bb_test_invalid_signature_run fork w :
  w_abs w = http_state 10 fork -> fits 8388608 block ->
  bls_sig_verify (sbl_signature block) (random_pubkey 7)
    (signing_root (sbl_message block) (compute_proposer_domain fork)) = false ->
  exists w', run step (bb_test_invalid_signature rejection_debug block payload) w = (Val tt, w').
Proof.
  intros Hst Hfits Hsig. unfold bb_test_invalid_signature.
  edestruct bb_prepare_bind as (w1 & Hst1 & ->); [done |].
  destruct (bb_posted_run (sbl_signature block) _ _ _ _ Hst1) as (q & w2 & Hserve & Hrun).
  { by rewrite sbl_eta. }
  rewrite Hsig in Hrun.
  cbv zeta in Hserve. rewrite sbl_eta in Hserve.
  rewrite (recovered_bind _ _ _ _ _ Hserve), run_bind, Hrun. by eexists.
Qed.

Lemma can_submit_blinded_block_run signer fork w :
  w_abs w = http_state 10 fork -> signer_fork_data signer = fork ->
  fits 8388608 (mkSignedBlindedBlock (sbl_message block)
                  (signer_proposer_sign signer (sbl_message block))) ->
  exists w', run step (can_submit_blinded_block block payload signer) w = (Val tt, w').
Proof.
  intros Hst Hfork Hfits. unfold can_submit_blinded_block. cbv zeta.
  edestruct bb_prepare_bind as (w1 & Hst1 & ->); [done |].
  destruct (bb_posted_run (signer_proposer_sign signer (sbl_message block)) _ _ _ _ Hst1 Hfits)
    as (q & w2 & Hserve & Hrun).
  pose proof (signer_proposer_sign_verifies signer (sbl_message block)) as Hv.
  rewrite Hfork in Hv. rewrite Hv in Hrun.
  rewrite (serve_bind _ _ _ _ _ Hserve), run_bind, Hrun.
  cbn [resp_status reply_status]. rewrite !assert_eq_refl. by eexists.
Qed.

Lemma can_validate_sig_run signer fork w :
  w_abs w = http_state 10 fork -> signer_fork_data signer = fork ->
  run step (can_validate_sig block signer) w = (Val tt, w).
Proof.
  intros Hst Hfork. unfold can_validate_sig. cbv zeta. run_read. rewrite Hst.
  pose proof (signer_proposer_sign_verifies signer (sbl_message block)) as Hv.
  rewrite Hfork in Hv. cbn [sto_fork http_state]. by rewrite Hv.
Qed.
(** ** The theorem *)

(** C30: every test of the HTTP server that does not only decode a fixture passes in the model,
    with the routes as the program composes them: the status, the duties, the header that is
    served and whose signature verifies, the two refused header requests and the messages of
    their replies, the registrations, the blinded block with a foreign and with the proposer's
    signature, and the composed server.  The assumptions on the external code: the constants
    parse, the queries decode to what their text says, the bodies posted decode to the values
    they were made of and are below the limits of their routes, and the signature of the fixture is not one of the random key. *)
Theorem http_tests_pass fork signer out team_id user_id :
  fork_datas_default = Val fork -> signer_fork_data signer = fork ->
  from_query (bare_request "POST"
    ["relay"; "v1"; "data"; "bidtraces"; "builder_blocks_received"] "") = Ok (mkQueryParams None None) ->
  (forall regs, from_query (validators_request regs) = Ok (mkApiKeyQuery "123")) ->
  fits 83886080 [pv_validator_registration 6 (random_pubkey 6)
                   (Some (mkSignature Signature (Some point) inf))] ->
  (forall regs, generate_signed_registrations 50 = Val regs -> fits 83886080 regs) ->
  fits 8388608 block ->
  fits 8388608 (mkSignedBlindedBlock (sbl_message block)
                  (signer_proposer_sign signer (sbl_message block))) ->
  bls_sig_verify (sbl_signature block) (random_pubkey 7)
    (signing_root (sbl_message block) (compute_proposer_domain fork)) = false ->
  http_passes 10 out test_status_route /\
  http_passes 10 out test_get_validators /\
  http_passes 10 out (valid_get_header signer) /\
  http_passes 10 out (test_invalid_slot_error rejection_debug signer) /\
  http_passes 10 out (test_no_bid_found_error rejection_debug signer) /\
  http_passes 10 out (test_post_validators team_id user_id) /\
  http_passes 10 out (bb_test_invalid_signature rejection_debug block payload) /\
  http_passes 10 out (can_submit_blinded_block block payload signer) /\
  http_passes 10 out (can_validate_sig block signer) /\
  http_passes 0 out (test_server rejection_debug team_id user_id).
Proof.
  intros Hfork Hsigner Hdata Hquery Hone Hmany Hblock Hsigned Hsig.
  repeat split; apply (http_setup_passes _ fork); try done; intros w Hw.
  - eexists; apply test_status_route_run.
  - apply test_get_validators_run.
  - by eapply valid_get_header_run.
  - by eapply test_invalid_slot_run.
  - by eapply test_no_bid_found_run.
  - by eapply test_post_validators_run.
  - by eapply bb_test_invalid_signature_run.
  - by eapply can_submit_blinded_block_run.
  - eexists; by eapply can_validate_sig_run.
  - by apply test_server_run.
Qed.
End passing.
