(* ===== verification/UnitTests.v ===== *)
(** The tests of the storage, of the stored types, of the signer, of the beacon service and
    events, and of the relay service, against the model; JSON fixtures are parameters. *)

From S2P Require Import Merkle Sha256.
From S2P Require Import Prelude Prog External Types Blst Signer BeaconTypes BeaconBlock.
From S2P Require Import StorageTypes Header VersionedBid Storage BidSpec Metrics InMemory World.
From S2P Require Import InMemoryStorage BeaconApi BeaconService EventStream RelayService TestKit.

(** * Definitions *)

(** ** [crates/primitives/src/storage/head_slot.rs] *)

Definition test_is_first_slot_of_new_epoch_true : outcome bool :=
  let slots_per_epoch := 32%Z in
  let slot := mkHeadSlot 33 in
  is_first_slot_of_new_epoch slot slots_per_epoch.

Definition test_is_first_slot_of_new_epoch_false : outcome bool :=
  let slots_per_epoch := 32%Z in
  let slot := mkHeadSlot 34 in
  let^ b := is_first_slot_of_new_epoch slot slots_per_epoch in Val (negb b).

Definition test_epoch_calculation : outcome (list bool) :=
  let slots_per_epoch := 32%Z in
  let tests := [(32, 1); (33, 1); (64, 2); (65, 2)]%Z in
  foldr (fun '(slot, expected_epoch) rest =>
    let^ e := epoch (mkHeadSlot slot) slots_per_epoch in
    let^ rest := rest in Val ((e =? expected_epoch)%Z :: rest)) (Val []) tests.

Section tests.
Context `{Ext} `{!Random} `{!BuildProfile}.

(** ** [crates/primitives/src/blst/signer.rs] and [beacon/registrations.rs] *)

Record SomethingElse : Type := mkSomethingElse { se_inner : u64 }.

#[export] Instance something_else_signed_root : SignedRoot SomethingElse :=
  derive_tree_hash (fun x => derive_root [u64_root (se_inner x)]).

Definition can_sign : outcome bool :=
  let sk := random_secret_key 0 in
  let pk := gsk_public_key (Sig:=Signature) sk in
  let^ fork_data := fork_datas_default in
  let signer := signer_new sk fork_data in
  let domain := compute_builder_domain (signer_fork_data signer) in
  let to_sign := mkSomethingElse 0 in
  let sig := signer_sign signer to_sign in
  let is_verified := bls_sig_verify sig pk (signing_root to_sign domain) in
  Val is_verified.

Definition can_compute_b_domain : outcome (list bool) :=
  let^ signer := signer_default 14 in
  let domain := compute_builder_domain (signer_fork_data signer) in
  let to_string := hex_encode (arr_bytes domain) in
  let expected := "00000001f5a5fd42d16a20302798ef6ed309979b43003d2320d9f0e8ea9831a9"%string in
  let devnet_fork_version :=
    "00000001e4b3c03845c9cd15780441feed2a67053b9cc4ae1547af5747433120"%string in
  let signer := signer_new (random_secret_key 15) (fork_datas_new
    (mkForkData (@Array 4 [Byte.x20; Byte.x00; Byte.x00; Byte.x89] I) hash256_default)
    fork_data_default) in
  let domain := compute_builder_domain (signer_fork_data signer) in
  Val [bool_decide (to_string = expected);
       bool_decide (hex_encode (arr_bytes domain) = devnet_fork_version)].

Definition verified_sig : outcome bool :=
  let^ signer := signer_default 0 in
  let pubkey := signer_public_key signer in
  let^ fee_recipient := unwrap (address_parse "0x0000000000000000000000000000000000000001") in
  let message := mkRegistrationMessage fee_recipient 30000000 1711287496 pubkey in
  let signature := signer_sign signer message in
  let validator := mkRegistration message signature in
  let fork_data := signer_fork_data_builder signer in
  Val (registration_verify_signature validator fork_data).

(** ** [crates/primitives/src/beacon/versioned_bid.rs] *)

Definition exec_payload_to_exec_header (tx_trie : list TransactionSigned -> Hash256)
    (withdrawals_trie : list Withdrawal -> Hash256) (exec_payload : ExecutionPayload) :
  prog RelayE unit :=
  let! exec_header := lift (unwrap (header_try_from tx_trie withdrawals_trie exec_payload)) in
  do! assert_eq (eh_parent_hash exec_header) (ep_parent_hash exec_payload) "parent_hash";
  do! assert_eq (eh_fee_recipient exec_header) (ep_fee_recipient exec_payload) "fee_recipient";
  do! assert_eq (eh_state_root exec_header) (ep_state_root exec_payload) "state_root";
  do! assert_eq (eh_receipts_root exec_header) (ep_receipts_root exec_payload) "receipts_root";
  assert_eq (eh_prev_randao exec_header) (ep_prev_randao exec_payload) "prev_randao".

(** ** [crates/storage/src/in_memory/mod.rs] *)

Definition mem_payload_attr (timestamp : u64) : PayloadAttributes := {|
  pa_proposal_slot := 0;
  pa_parent_block_root := array_fill 32 Byte.x00;
  pa_parent_block_number := 0;
  pa_parent_block_hash := array_fill 32 Byte.x00;
  pa_proposer_index := 0;
  pa_timestamp := timestamp;
  pa_prev_randao := array_fill 32 Byte.x00;
  pa_suggested_fee_recipient := array_fill 20 Byte.x00;
  pa_withdrawals := Some [];
  pa_parent_beacon_block_root := None
|}.

Definition mem_validator_registration (site : nat) (timestamp : u64) :
  outcome ValidatorRegistration := test_registration address_zero timestamp (random_pubkey site).

Definition mem_proposer_duties (site : nat) (slot : u64) : outcome (list Validator) :=
  let^ entry := mem_validator_registration site slot in Val [mkValidator slot 0 entry].

(** The comparisons of registrations and duties, which have no decidable equality of their own:
    the values are compared field by field, points by their serialization. *)
Definition registration_eqb (r s : ValidatorRegistration) : bool :=
  bool_decide (bls_sig_serialize (vr_signature r) = bls_sig_serialize (vr_signature s)) &&
  bool_decide (rm_fee_recipient (vr_message r) = rm_fee_recipient (vr_message s)) &&
  (rm_gas_limit (vr_message r) =? rm_gas_limit (vr_message s))%Z &&
  (rm_timestamp (vr_message r) =? rm_timestamp (vr_message s))%Z &&
  pk_eqb (rm_pubkey (vr_message r)) (rm_pubkey (vr_message s)).

Definition validator_eqb (v w : Validator) : bool :=
  (v_slot v =? v_slot w)%Z && (v_validator_index v =? v_validator_index w)%Z &&
  registration_eqb (v_entry v) (v_entry w).

Fixpoint list_eqb {A} (eqb : A -> A -> bool) (l m : list A) : bool :=
  match l, m with
  | [], [] => true
  | a :: l, b :: m => eqb a b && list_eqb eqb l m
  | _, _ => false
  end.

Definition assert_storage_contents (key : BlsPublicKey) (registration : ValidatorRegistration)
    (duty : list Validator) (slot : u64) (payload : PayloadAttributes) : prog RelayE unit :=
  let! read := st_read_validator_registration key in
  do! assert_that (match read with Some r => registration_eqb r registration | None => false end)
        "registration";
  let! read := st_read_proposer_duties in
  do! assert_that (list_eqb validator_eqb read duty) "duties";
  let! read := st_read_head_slot in
  do! assert_eq (hs_slot read) slot "slot";
  let! read := st_read_payload_attributes in
  assert_eq read payload "payload attributes".

Definition update_storage_contents (i : nat) (key : BlsPublicKey) : prog RelayE unit :=
  let next := (Z.of_nat i + 1)%Z in
  let! new_registration := lift (mem_validator_registration (3 * i + 2) next) in
  do! st_set_validator_registration key new_registration;
  let! new_duty := lift (mem_proposer_duties (3 * i + 3) next) in
  do! st_set_proposer_duties new_duty;
  do! st_set_head_slot (mkHeadSlot next);
  let new_payload := mem_payload_attr next in
  do! st_set_payload_attributes new_payload;
  assert_storage_contents key new_registration new_duty next new_payload.

Definition perform_storage_operations (i : nat) : prog RelayE unit :=
  let key := random_pubkey (3 * i) in
  let! registration := lift (mem_validator_registration (3 * i) (Z.of_nat i)) in
  let! duty := lift (mem_proposer_duties (3 * i + 1) (Z.of_nat i)) in
  let slot := Z.of_nat i in
  let payload := mem_payload_attr (Z.of_nat i) in
  do! st_set_validator_registration key registration;
  do! st_set_proposer_duties duty;
  do! st_set_head_slot (mkHeadSlot slot);
  do! st_set_payload_attributes payload;
  do! assert_storage_contents key registration duty slot payload;
  update_storage_contents i key.

(** The runtime of the test has one thread and the tasks never wait: each runs to its end, in
    some order. *)
Definition can_store_under_high_concurrency (order : list nat) : prog RelayE unit :=
  forP perform_storage_operations order.

Definition mem_setup (out : Outside) : outcome World :=
  setup_storage 0 (mem_payload_attr 0) [] out.

(** ** [crates/beacon/src/service/mod.rs] *)

Context (proposer_duties_response : ProposerDutiesResponse).

#[local] Instance TestApi : BeaconApi RelayE := {|
  api_sync_status := Ret (Ok (mkSyncStatusResponse (mkSyncStatus 0 false)));
  api_proposer_duties _ := Ret (Ok proposer_duties_response);
  api_publish_block _ _ := Ret (Ok tt);
  api_get_fork_data := Panic "not implemented";
  api_get_known_validator _ := Panic "not implemented"
|}.

(** Sending a command, letting the service run, and awaiting the future that comes back. *)
Definition await_command {A} (sent : result nat BeaconServiceErr * BeaconState)
    (await : ApiFuture -> option (prog RelayE (result A string))) :
  prog RelayE (result A string * BeaconState) :=
  match sent.1 with
  | Err _ => Ret (Err "broken channel"%string, sent.2)
  | Ok tx =>
      let s := service_run sent.2 in
      match handle_recv tx s with
      | Some (Ok future) =>
          match await future with
          | Some call => let! r := call in Ret (r, s)
          | None => Panic "another future"
          end
      | _ => Ret (Err "broken channel"%string, s)
      end
  end.

Definition can_send_commands : prog RelayE unit :=
  let service := beacon_service_new in
  let! (response, service) := await_command (handle_sync_status service) await_sync in
  do! assert_that (is_ok response) "response.is_ok()";
  let! (response, service) := await_command (handle_proposer_duties 0 service) await_duties in
  assert_that (is_ok response) "response.is_ok()".

(** ** [crates/beacon/src/events/mod.rs]

    The hashes of the head event and the payload attributes event are given. *)

Context (block state duty_root : array 32) (payload_attribute_event : PayloadAttributesEvent).

Definition head_event (slot : u64) : HeadEvent := {|
  he_slot := slot;
  he_block := block;
  he_state := state;
  he_epoch_transition := false;
  he_previous_duty_dependent_root := duty_root;
  he_current_duty_dependent_root := duty_root;
  he_execution_optimistic := false
|}.

(** [futures::stream::iter]: ready at every poll, with the end after the items, [ends] times:
    more often than the stream is polled. *)
Definition iter_stream {T} (ends : nat) (items : list (result T SseError)) : EventStream T :=
  ((fun item => Ready (Some item)) <$> items) ++ replicate ends (Ready None).

Definition test_event_stream (payload_events : list (result PayloadAttributesEvent SseError))
    (head_events : list (result HeadEvent SseError)) : BeaconEventsStream :=
  mkBeaconEventsStream (iter_stream 3 payload_events) (iter_stream 3 head_events).

(** [stream.next().await], of a stream that is ready. *)
Definition next_event (stream : BeaconEventsStream) :
  prog RelayE (option BeaconEvent * BeaconEventsStream) :=
  match poll_next stream with
  | (Ready event, stream) => Ret (event, stream)
  | (Pending, _) => Panic "the stream is not ready"
  end.

Definition assert_next_event (stream : BeaconEventsStream) (expected_event : BeaconEvent) :
  prog RelayE BeaconEventsStream :=
  let! (event, stream) := next_event stream in
  let! event := lift (unwrap_some event) in
  do! assert_eq event expected_event "Unexpected event encountered";
  Ret stream.

Definition assert_no_more_events (stream : BeaconEventsStream) : prog RelayE unit :=
  let! (event, _) := next_event stream in
  assert_that (match event with None => true | Some _ => false end)
    "Expected no more events in the stream".

Definition can_emit_events : prog RelayE unit :=
  let stream := test_event_stream [Ok payload_attribute_event] [Ok (head_event 1)] in
  let! stream := assert_next_event stream (PayloadAttribute payload_attribute_event) in
  let! _ := assert_next_event stream (Head (head_event 1)) in
  Ret tt.

Definition no_epoch_event_on_non_first_slot : prog RelayE unit :=
  let stream := test_event_stream [Ok payload_attribute_event] [Ok (head_event 2)] in
  let! stream := assert_next_event stream (PayloadAttribute payload_attribute_event) in
  let! stream := assert_next_event stream (Head (head_event 2)) in
  assert_no_more_events stream.

Definition can_handle_errors : prog RelayE unit :=
  let payload_error := Err "MaxRetriesExceeded(10)"%string in
  let head_error := Err "MaxRetriesExceeded(10)"%string in
  let stream := test_event_stream [payload_error] [head_error] in
  assert_no_more_events stream.

(** ** [bin/relay/src/service.rs] *)

(** [MockBeaconConnection::stream] *)
Definition mock_stream : BeaconEventsStream :=
  test_event_stream [Ok payload_attribute_event] [Ok (head_event 1)].

(** The service runs for the second the test sleeps: [polls] polls, during which it may connect
    again, each new connection after a number of pending polls. *)
Definition can_fill_storage_from_events (polls : nat) (reconnections : list nat) :
  prog RelayE unit :=
  let connections := (fun pending => mkConnection pending mock_stream) <$> reconnections in
  let relay_service := relay_service_new mock_stream connections 32 in
  let! _ := relay_polls polls relay_service in
  let! validators := st_read_proposer_duties in
  let! slot := st_read_head_slot in
  let! payload_attr := st_read_payload_attributes in
  do! assert_eq (length validators) 0%nat "validators.len()";
  do! assert_eq (hs_slot slot) 1%Z "slot";
  assert_eq payload_attr (pae_data payload_attribute_event) "payload_attr".

Definition relay_setup (out : Outside) : outcome World :=
  setup_storage 0 (pae_data payload_attribute_event) [] out.
End tests.

(** * The tests pass *)

Section passing.
Context {X : Ext} {L : ExtLaws X} `{!Random} `{!BuildProfile}.
Abbreviation step := (fun A => @relay_step X A).

(** ** Pure tests *)

Lemma head_slot_tests_run :
  test_is_first_slot_of_new_epoch_true = Val true /\
  test_is_first_slot_of_new_epoch_false = Val true /\
  test_epoch_calculation = Val [true; true; true; true].
Proof. done. Qed.

Lemma can_sign_run fork : fork_datas_default = Val fork -> can_sign = Val true.
Proof. intros Hf. unfold can_sign. rewrite Hf. cbn. f_equal. apply gsk_sign_verifies. Qed.

Lemma verified_sig_run fork :
  fork_datas_default = Val fork ->
  is_ok (address_parse "0x0000000000000000000000000000000000000001") = true ->
  verified_sig = Val true.
Proof.
  intros Hf Ha. unfold verified_sig, signer_default. rewrite Hf. cbn [outcome_bind].
  destruct (address_parse _) as [a|]; [|done]. cbn [unwrap expect outcome_bind]. f_equal.
  apply gsk_sign_verifies.
Qed.

Lemma exec_payload_to_exec_header_run tx_trie withdrawals_trie payload w :
  is_ok (header_try_from tx_trie withdrawals_trie payload) = true ->
  run step (exec_payload_to_exec_header tx_trie withdrawals_trie payload) w = (Val tt, w).
Proof.
  unfold exec_payload_to_exec_header, header_try_from.
  destruct (map_err _ _); [|done]. intros _. cbn. by rewrite !assert_eq_refl.
Qed.

(** ** Storage *)

Lemma registration_eqb_refl r : registration_eqb r r = true.
Proof.
  unfold registration_eqb, pk_eqb. rewrite !Z.eqb_refl, !bool_decide_eq_true_2 by done. done.
Qed.

Lemma validators_eqb_refl l : list_eqb validator_eqb l l = true.
Proof.
  induction l as [|v l IH]; [done |]. cbn [list_eqb]. rewrite IH. unfold validator_eqb.
  by rewrite !Z.eqb_refl, registration_eqb_refl.
Qed.

Lemma assert_storage_contents_run key r d slot p w :
  sto_regs (w_abs w) !! pk_serialize key = Some r -> sto_duties (w_abs w) = d ->
  hs_slot (sto_head (w_abs w)) = slot -> sto_attrs (w_abs w) = p ->
  run step (assert_storage_contents key r d slot p) w = (Val tt, w).
Proof.
  intros Hr Hd Hs Hp. unfold assert_storage_contents.
  run_read. rewrite Hr, registration_eqb_refl. cbn [assert_that bind].
  run_read. rewrite Hd, validators_eqb_refl. cbn [assert_that bind].
  run_read. rewrite Hs, assert_eq_refl. cbn [bind].
  run_read. by rewrite Hp, assert_eq_refl.
Qed.

(** The four writes, then the assertions, which see them. *)
Lemma write_then_assert_run key r d slot p (k : unit -> prog RelayE unit) w :
  exists w',
    run step (do! st_set_validator_registration key r; do! st_set_proposer_duties d;
              do! st_set_head_slot (mkHeadSlot slot); do! st_set_payload_attributes p;
              do! assert_storage_contents key r d slot p; k tt) w = run step (k tt) w'.
Proof.
  run_write w_frame w1 Ha1 Hf1. run_write w_frame w2 Ha2 Hf2.
  run_write w_frame w3 Ha3 Hf3. run_write w_frame w4 Ha4 Hf4. exists w4.
  rewrite run_bind, assert_storage_contents_run; [done | rewrite Ha4, Ha3, Ha2, Ha1..]; try done.
  simpl. by rewrite lookup_insert_eq.
Qed.

Context (point : Signature) (inf : bool).
Hypothesis signature_parses : sig_from_str TEST_BLS_SIGNATURE = Ok (mkSignature Signature (Some point) inf).

Lemma mem_registration_val site t :
  exists r, mem_validator_registration site t = Val r.
Proof.
  unfold mem_validator_registration, test_registration, unwrap. rewrite signature_parses.
  by eexists.
Qed.

Lemma mem_duties_val site t : exists d, mem_proposer_duties site t = Val d.
Proof.
  unfold mem_proposer_duties. destruct (mem_registration_val site t) as [r ->]. by eexists.
Qed.

Lemma perform_storage_operations_run i w :
  exists w', run step (perform_storage_operations i) w = (Val tt, w').
Proof.
  unfold perform_storage_operations, update_storage_contents. cbv zeta.
  destruct (mem_registration_val (3 * i) (Z.of_nat i)) as [r ->].
  destruct (mem_duties_val (3 * i + 1) (Z.of_nat i)) as [d ->].
  destruct (mem_registration_val (3 * i + 2) (Z.of_nat i + 1)) as [r' Hr'].
  destruct (mem_duties_val (3 * i + 3) (Z.of_nat i + 1)) as [d' Hd'].
  rewrite !run_lift_val.
  destruct (write_then_assert_run (random_pubkey (3 * i)) r d (Z.of_nat i)
    (mem_payload_attr (Z.of_nat i)) (fun _ =>
      let! new_registration := lift (mem_validator_registration (3 * i + 2) (Z.of_nat i + 1)) in
      do! st_set_validator_registration (random_pubkey (3 * i)) new_registration;
      let! new_duty := lift (mem_proposer_duties (3 * i + 3) (Z.of_nat i + 1)) in
      do! st_set_proposer_duties new_duty;
      do! st_set_head_slot (mkHeadSlot (Z.of_nat i + 1));
      do! st_set_payload_attributes (mem_payload_attr (Z.of_nat i + 1));
      assert_storage_contents (random_pubkey (3 * i)) new_registration new_duty (Z.of_nat i + 1)
        (mem_payload_attr (Z.of_nat i + 1))) w) as [w1 ->].
  rewrite Hr', run_lift_val, Hd'. cbn [lift bind].
  run_write w_frame w2 Ha2 Hf2. run_write w_frame w3 Ha3 Hf3.
  run_write w_frame w4 Ha4 Hf4. run_write w_frame w5 Ha5 Hf5. exists w5.
  apply assert_storage_contents_run; rewrite Ha5, Ha4, Ha3, Ha2; try done.
  simpl. by rewrite lookup_insert_eq.
Qed.

Lemma can_store_run order w :
  exists w', run step (can_store_under_high_concurrency order) w = (Val tt, w').
Proof.
  unfold can_store_under_high_concurrency, forP. revert w.
  induction order as [|i order IH]; intros w; [by exists w |]. cbn [foldP]. rewrite run_bind.
  destruct (perform_storage_operations_run i w) as [w1 ->]. apply IH.
Qed.

(** ** Beacon service *)

Lemma can_send_commands_run duties w :
  run step (can_send_commands duties) w = (Val tt, w).
Proof. done. Qed.

(** ** Beacon events *)

Context (block state duty_root : array 32) (event : PayloadAttributesEvent).
Abbreviation head := (head_event block state duty_root).

Lemma event_tests_run w :
  run step (can_emit_events block state duty_root event) w = (Val tt, w) /\
  run step (no_epoch_event_on_non_first_slot block state duty_root event) w = (Val tt, w) /\
  run step can_handle_errors w = (Val tt, w).
Proof.
  unfold can_emit_events, no_epoch_event_on_non_first_slot, assert_next_event. split_and!.
  - do 2 (cbn -[assert_eq]; rewrite assert_eq_refl). done.
  - do 2 (cbn -[assert_eq]; rewrite assert_eq_refl). done.
  - done.
Qed.
(** ** Relay service *)

(** Every event a stream will deliver is one of the two of the mock. *)
Definition mock_events (s : BeaconEventsStream) : Prop :=
  Forall (eq event) (stream_oks (es_payload_attributes s)) /\
  Forall (eq (head 1)) (stream_oks (es_new_head s)).

Definition mock_state (st : RelayState) : Prop :=
  match rs_inner st with
  | BeaconEvents s => mock_events s
  | PendingConnection c => mock_events (cn_stream c)
  end /\ Forall (fun c => mock_events (cn_stream c)) (rs_connect st).

(** The storage once both events have been seen. *)
Definition filled (w : World) : Prop :=
  sto_duties (w_abs w) = [] /\ hs_slot (sto_head (w_abs w)) = 1%Z /\
  sto_attrs (w_abs w) = pae_data event.

Lemma mock_events_next s :
  mock_events s ->
  mock_events (poll_next s).2 /\
  forall e, (poll_next s).1 = Ready (Some e) -> e = PayloadAttribute event \/ e = Head (head 1).
Proof.
  intros [Hp Hh]. pose proof (poll_next_conserves s) as Hc. destruct (poll_next s) as [r s'].
  destruct Hc as [Hcp Hch]. rewrite <-Hcp, Forall_app in Hp. rewrite <-Hch, Forall_app in Hh.
  destruct Hp as [Hp Hp'], Hh as [Hh Hh']. split; [by split |]. simpl. intros e ->.
  destruct e as [e|e]; simpl in Hp, Hh;
    [left; apply Forall_cons in Hp as [<- _] | right; apply Forall_cons in Hh as [<- _]]; done.
Qed.

Lemma relay_poll_filled st w :
  mock_state st -> filled w ->
  exists r w', run step (relay_poll st) w = (Val r, w') /\ mock_state r.2 /\ filled w'.
Proof.
  intros [Hin Hcs] Hw. destruct (rs_inner st) as [s|c] eqn:Hi.
  - pose proof (mock_events_next s Hin) as [Hs' He]. destruct (poll_next s) as [[[e|]|] s'] eqn:Hp.
    + destruct (relay_poll_event_run st s s' e w Hi Hp) as (w' & Hrun & Hw').
      unfold run_relay in Hrun. eexists _, w'. split; [exact Hrun |]. split; [by split |].
      destruct Hw as (Hd & Hh & Ha), (He e eq_refl) as [->| ->]; destruct Hw' as [Hw' _];
        by repeat split; rewrite Hw'.
    + unfold relay_poll. rewrite Hi, Hp. destruct (rs_connect st) as [|c l] eqn:Hc.
      * eexists _, w. split; [done |]. split; [|done]. split; [|done]. by split.
      * apply Forall_cons in Hcs as [Hc1 Hcs]. eexists _, w. split; [done |]. split; [|done]. by split.
    + unfold relay_poll. rewrite Hi, Hp. eexists _, w. split; [done |]. split; [|done]. by split.
  - unfold relay_poll. rewrite Hi. destruct c as [[|n] s]; (eexists _, w; split; [done |]; split; [|done]; by split).
Qed.

Lemma relay_polls_filled n st w :
  mock_state st -> filled w ->
  exists st' w', run step (relay_polls n st) w = (Val st', w') /\ filled w'.
Proof.
  revert st w; induction n as [|n IH]; intros st w Hst Hw; [by eexists _, w |].
  cbn [relay_polls]. rewrite run_bind.
  destruct (relay_poll_filled st w Hst Hw) as (r & w1 & -> & Hst1 & Hw1). by apply IH.
Qed.

(** The storage is filled at the second poll, and stays so. *)
Lemma can_fill_storage_run polls reconnections w :
  (2 <= polls)%nat -> sto_duties (w_abs w) = [] ->
  exists w', run step (can_fill_storage_from_events block state duty_root event polls reconnections) w
    = (Val tt, w').
Proof.
  intros Hpolls Hd. destruct polls as [|[|n]]; [lia.. |]. clear Hpolls.
  unfold can_fill_storage_from_events.
  set (connections := _ <$> reconnections). cbv zeta.
  assert (exists st w2, run step (relay_polls (S (S n))
      (relay_service_new (mock_stream block state duty_root event) connections 32)) w = (Val st, w2) /\
      filled w2) as (st & w2 & Hrun & Hw2).
  { cbn [relay_polls]. rewrite run_bind.
    destruct (relay_poll_event_run
      (relay_service_new (mock_stream block state duty_root event) connections 32) _ _
      (PayloadAttribute event) w eq_refl eq_refl) as (w1 & Hrun1 & Hw1 & _).
    unfold run_relay in Hrun1. rewrite Hrun1. cbn [snd]. rewrite run_bind.
    match goal with |- context [relay_poll ?st] =>
      destruct (relay_poll_event_run st _ _ (Head (head 1)) w1 eq_refl eq_refl)
        as (w2 & Hrun2 & Hw2 & _)
    end.
    unfold run_relay in Hrun2. rewrite Hrun2. cbn [snd]. apply relay_polls_filled.
    - split; [split; simpl; repeat constructor |]. simpl. apply Forall_fmap, Forall_true.
      intros k. split; simpl; repeat constructor.
    - unfold filled. rewrite Hw2, Hw1. by split_and!. }
  exists w2. rewrite run_bind, Hrun. destruct Hw2 as (Hd2 & Hh2 & Ha2).
  run_read. run_read. run_read. rewrite Hd2, Hh2, Ha2. cbn [length].
  rewrite assert_eq_refl. cbn [bind]. rewrite assert_eq_refl. cbn [bind]. by rewrite assert_eq_refl.
Qed.

(** ** The theorem *)

(** The test passes from the storage it sets up. *)
Definition passes_from (setup : Outside -> outcome World) (test : prog RelayE unit) : Prop :=
  forall out, exists w w', setup out = Val w /\ run step test w = (Val tt, w').

(** C29: the remaining tests pass in the model: the epochs of the head slots, the signatures of a
    signer and of a registration, the storage under the writes of any number of tasks in any
    order (each task reads back what it wrote), the commands of the beacon service, the events
    of the merged stream and its end on an error, and the relay service, which has filled the
    storage from the second poll on, however often it is polled and connects again. *)
Theorem unit_tests_pass fork duties tx_trie withdrawals_trie payload order polls reconnections :
  fork_datas_default = Val fork ->
  is_ok (address_parse "0x0000000000000000000000000000000000000001") = true ->
  is_ok (header_try_from tx_trie withdrawals_trie payload) = true ->
  (2 <= polls)%nat ->
  test_is_first_slot_of_new_epoch_true = Val true /\
  test_is_first_slot_of_new_epoch_false = Val true /\
  test_epoch_calculation = Val [true; true; true; true] /\
  can_sign = Val true /\ verified_sig = Val true /\
  passes_from mem_setup (exec_payload_to_exec_header tx_trie withdrawals_trie payload) /\
  passes_from mem_setup (can_store_under_high_concurrency order) /\
  passes_from mem_setup (can_send_commands duties) /\
  passes_from mem_setup (can_emit_events block state duty_root event) /\
  passes_from mem_setup (no_epoch_event_on_non_first_slot block state duty_root event) /\
  passes_from mem_setup can_handle_errors /\
  passes_from (relay_setup event)
    (can_fill_storage_from_events block state duty_root event polls reconnections).
Proof.
  intros Hfork Haddr Hhdr Hpolls.
  assert (forall attrs (test : prog RelayE unit),
    (forall w, sto_duties (w_abs w) = [] -> exists w', run step test w = (Val tt, w')) ->
    passes_from (setup_storage 0 attrs []) test) as Hfrom.
  { intros attrs test Htest out. unfold setup_storage. rewrite Hfork. cbn [outcome_bind].
    edestruct (Htest (mkWorld (inner_new (mkHeadSlot 0) attrs [] fork ∅ [])
      [set_block (pa_parent_block_number attrs); set_proposal_slot (pa_proposal_slot attrs)]
      [] [] 0 out)) as [w' Hw']; [done |]. by eexists _, w'. }
  destruct head_slot_tests_run as (H1 & H2 & H3). split_and!; try done.
  - by apply (can_sign_run fork).
  - by apply (verified_sig_run fork).
  - apply Hfrom. intros w _. exists w. by apply exec_payload_to_exec_header_run.
  - apply Hfrom. intros w _. apply can_store_run.
  - apply Hfrom. intros w _. exists w. apply can_send_commands_run.
  - apply Hfrom. intros w _. exists w. apply event_tests_run.
  - apply Hfrom. intros w _. exists w. apply event_tests_run.
  - apply Hfrom. intros w _. exists w. apply event_tests_run.
  - apply Hfrom. intros w Hw. by apply can_fill_storage_run.
Qed.
End passing.

(** ** The domains *)

Section domains.
Context {X : Ext} `{!Random} {T : TreeHashLaws X sha_hash2}.

Lemma builder_domain_hex d text :
  (forall b, hex_encode b = concat_02x b) ->
  concat_02x (arr_bytes BuilderDomain ++ take 28 (arr_bytes
    (sha_hash2 (pad_to 32 (arr_bytes (fd_current_version (fds_builder d))))
       (fd_genesis_validators_root (fds_builder d))))) = text ->
  hex_encode (arr_bytes (compute_builder_domain d)) = text.
Proof.
  intros Hhex <-. rewrite Hhex. unfold compute_builder_domain, fd_compute_builder_domain,
    fork_data_root. by rewrite derive_root_spec, bytes4_root_spec, hash256_root_spec.
Qed.

(** C33: the test of the signing domains passes when trees are hashed with SHA-256 and hexadecimal
    digits are written in lower case: the builder domains of the default fork data and of the
    development network are the ones the test expects. *)
Theorem domain_test_passes fork :
  (forall b, hex_encode b = concat_02x b) -> fork_datas_default = Val fork ->
  can_compute_b_domain = Val [true; true].
Proof.
  intros Hhex Hfork. unfold can_compute_b_domain, signer_default. rewrite Hfork.
  cbn [outcome_bind signer_fork_data].
  assert (fds_builder fork = fork_data_default) as Hb.
  { unfold fork_datas_default in Hfork. destruct (hash256_from_str _); [|done].
    cbn [expect outcome_bind] in Hfork. destruct (fork_version_from_str _) as [[v|]|]; try done.
    by injection Hfork as <-. }
  do 2 f_equal; [|f_equal]; apply bool_decide_eq_true_2, builder_domain_hex; try exact Hhex.
  - rewrite Hb. vm_refl.
  - vm_refl.
Qed.
End domains.
