(* ===== verification/Toy.v ===== *)
(** A concrete instance of the external code, small enough to execute: keys are their bytes, a
    signature is the key followed by the message, hashes are a checksum, hex is hex.  It
    satisfies the documented laws, and the examples of the development run on it. *)

From stdpp Require Import pretty.
From S2P Require Import Prelude Bits External Types Blst Signer BeaconTypes Ssz Merkle.

(** ** Integers and bytes *)

Fixpoint be_value (acc : Z) (l : bytes) : Z :=
  match l with [] => acc | b :: l' => be_value (acc * 256 + byte_val b) l' end.

Definition array32 (z : Z) : array 32 := pad_to 32 (le_bytes 32 z).

(** A checksum: distinguishes the examples. *)
Definition checksum (l : bytes) : array 32 :=
  array32 (fold_left (fun acc b => Z.land (acc * 257 + byte_val b + 1) 1099511627775)%Z l 7%Z).

Definition uint_clip (z : Z) : Uint256 := default (Uint 0 I) (uint_of (z mod u256_modulus)%Z).

(** ** Hex *)

Definition hex_value (c : ascii) : option N :=
  let n := Ascii.N_of_ascii c in
  if ((48 <=? n) && (n <=? 57))%N then Some (n - 48)%N
  else if ((97 <=? n) && (n <=? 102))%N then Some (n - 87)%N
  else if ((65 <=? n) && (n <=? 70))%N then Some (n - 55)%N
  else None.

Fixpoint toy_hex_decode (s : string) : result bytes string :=
  match s with
  | EmptyString => Ok []
  | String h (String l s') =>
      match hex_value h, hex_value l with
      | Some h, Some l => let? b := toy_hex_decode s' in Ok (byte_of_N (16 * h + l) :: b)
      | _, _ => Err "invalid character"
      end
  | String _ EmptyString => Err "odd number of digits"
  end.

Definition toy_prefixed_decode (s : string) : result bytes string :=
  match s with
  | String "0"%char (String "x"%char s') => toy_hex_decode s'
  | _ => Err "missing 0x prefix"
  end.

(** The value of hexadecimal digits. *)
Fixpoint hex_digits_value (acc : N) (s : string) : option N :=
  match s with
  | EmptyString => Some acc
  | String c s' => d ← hex_value c; hex_digits_value (16 * acc + d) s'
  end.

(** Decimal digits, or hexadecimal ones after the prefix. *)
Definition toy_uint (s : string) : result Uint256 string :=
  match digits_value 0 s with
  | Some z => ok_or (uint_of z) "overflow"
  | None =>
      match s with
      | String "0"%char (String "x"%char s') =>
          let? n := ok_or (hex_digits_value 0 s') "digit" in ok_or (uint_of (Z.of_N n)) "overflow"
      | _ => Err "digit"
      end
  end.

Definition toy_array (n : N) (s : string) : result (array n) string :=
  let? b := toy_hex_decode (trim_start_0x s) in ok_or (array_of n b) "invalid length".

Definition toy_signature (pk : array 48) (msg : bytes) : array 96 :=
  pad_to 96 (arr_bytes pk ++ msg).

(** The hash of the Merkle trees is a parameter. *)
Definition toy_ext (hash2 : Hash256 -> Hash256 -> Hash256) : Ext := {|
  PublicKey := array 48;
  Signature := array 96;
  SecretKey := array 32;
  BlstError := bool;
  BLST_SUCCESS := true;
  blst_error_eq_dec := bool_eq_dec;
  blst_error_debug b := if b then "BLST_SUCCESS" else "BLST_ERROR";
  pk_default := array_fill 48 Byte.x00;
  pk_compress k := k;
  pk_from_bytes b := ok_or (array_of 48 b) false;
  pk_key_validate b := ok_or (array_of 48 b) false;
  sig_to_bytes s := s;
  sig_from_bytes b := ok_or (array_of 96 b) false;
  sig_verify s _ msg _ _ pk _ := bool_decide (s = toy_signature pk msg);
  sk_key_gen ikm _ := ok_or (array_of 32 ikm) false;
  sk_to_pk sk := pad_to 48 (arr_bytes sk);
  sk_sign sk msg _ _ := toy_signature (pad_to 48 (arr_bytes sk)) msg;
  sk_from_bytes b := ok_or (array_of 32 b) false;
  sk_to_bytes sk := sk;
  TransactionSigned := bytes;
  RlpError := string;
  fixed_from_slice n b :=
    match array_of n b with Some a => Val a | None => Panics "slice length" end;
  b256_from_str := toy_array 32;
  uint_from_str := toy_uint;
  uint_from_be_slice b := if (lenN b =? 32)%N then Val (uint_clip (be_value 0 b))
                          else Panics "slice length";
  uint_as_le_slice u := array32 (uint_val u);
  uint_display u := pretty (uint_val u);
  hex_encode := concat_02x;
  FromHexError := string;
  hex_error_debug e := e;
  hex_error_display e := e;
  hex_decode := toy_hex_decode;
  address_from_str := toy_array 20;
  hash256_from_str := toy_array 32;
  keccak256 := checksum;
  tx_decode b := Ok b;
  serde_hex_encode b := ("0x" ++ concat_02x b)%string;
  serde_hex_decode := toy_prefixed_decode;
  prefixed_hex_visit := toy_prefixed_decode;
  vl_new T n l := if (lenN l <=? n)%N then Some l else None;
  vl_from T n l := if (lenN l <=? n)%N then l else take (N.to_nat n) l;
  quoted_int z := pretty z;
  quoted_int_vec_visit l := collect (fun s => ok_or (u64_from_str s) "not a number"%string) l;
  fv_error_debug _ _ := "OutOfBounds"%string;
  fv_new T n l := if (lenN l =? n)%N then Some l else None;
  fv_from T d n l := take (N.to_nat n) (l ++ replicate (N.to_nat n) d);
  hash256_is_ssz_fixed_len := true;
  hash256_ssz_fixed_len := 32;
  hash256_ssz_bytes_len _ := 32%N;
  hash256_ssz_append h buf := buf ++ arr_bytes h;
  MerkleHasher := N * bytes;
  mh_with_leaves n := (n, []);
  mh_write h b :=
    if (chunk_count (lenN (h.2 ++ b)) <=? h.1)%N then Some (h.1, h.2 ++ b) else None;
  mh_finish h := Some (merkleize hash2 h.1 (pack h.2));
  merkle_root b n := merkleize hash2 n (pack b);
  derive_root l := merkleize hash2 (lenN l) l;
  hash256_root h := h;
  u64_root z := pad_to 32 (le_bytes 8 z);
  bytes4_root b := pad_to 32 (arr_bytes b);
  bytes48_tree_hash_type := Vector;
  bytes48_packed_encoding _ := Panics "Vector should never be packed.";
  bytes48_packing_factor := Panics "Vector should never be packed.";
  bytes48_root b := merkleize hash2 2 (pack (arr_bytes b));
  fixed_bytes_root n b := hash_tree_root hash2 (TBytes n) (VBytes b);
  byte_list_root n b := hash_tree_root hash2 (TByteList n) (VBytes b);
  u64_list_root n l :=
    hash_tree_root hash2 (TList (TUint 8) n) (VNode ((fun z => VBytes (le_bytes 8 z)) <$> l));
  list_root n l := mix_in_length hash2 (merkleize hash2 n l) (lenN l);
  vector_root n l := merkleize hash2 n l;
  bitlist_root n l := hash_tree_root hash2 (TBitlist n) (VBits l);
  bitvector_root n l := bits_root hash2 n l
|}.

Definition toy_hash2 (a b : Hash256) : Hash256 := checksum (arr_bytes a ++ arr_bytes b).

#[export] Instance Toy : Ext := toy_ext toy_hash2.

(** ** The laws *)

Lemma toy_hex_byte b s :
  toy_hex_decode (byte_02x b ++ s) = let? l := toy_hex_decode s in Ok (b :: l).
Proof. destruct b; reflexivity. Qed.

Lemma toy_hex_roundtrip l : toy_hex_decode (concat_02x l) = Ok l.
Proof.
  induction l as [|b l IH]; [done |].
  change (concat_02x (b :: l)) with (byte_02x b ++ concat_02x l)%string.
  by rewrite toy_hex_byte, IH.
Qed.

Lemma toy_hex_trim l : trim_start_0x (concat_02x l) = concat_02x l.
Proof. destruct l as [|b l]; [done | destruct b; reflexivity]. Qed.

Lemma ok_or_array n b (e : bool) a : ok_or (array_of n b) e = Ok a -> arr_bytes a = b.
Proof. destruct (array_of n b) eqn:H; simpl; [|done]. intros [= <-]. by apply array_of_Some. Qed.

Lemma toy_ext_laws hash2 : ExtLaws (toy_ext hash2).
Proof.
  split; lazymatch goal with
    | |- context [uint_as_le_slice] => idtac
    | |- _ => simpl; try done end.
  - intros T n l. destruct (N.leb_spec (lenN l) n) as [Hle|]; [|done].
    unfold lenN in Hle. by rewrite take_ge by lia.
  - intros n l a Ha. by rewrite <-Ha, array_of_bytes.
  - intros l Hl. rewrite Hl. eexists. reflexivity.
  - intros u. change (uint_as_le_slice u) with (array32 (uint_val u)). unfold array32.
    pose proof (length_le_bytes 32 (uint_val u)) as Hl. revert Hl.
    generalize (le_bytes 32 (uint_val u)). intros l Hl.
    rewrite pad_to_bytes, Hl; [apply app_nil_r | unfold lenN; rewrite Hl; done].
  - intros l pk _. apply ok_or_array.
  - intros l s _. apply ok_or_array.
  - intros pk. by rewrite array_of_bytes.
  - intros s. by rewrite array_of_bytes.
  - intros sk msg _ _. by apply bool_decide_eq_true.
  - apply toy_hex_roundtrip.
  - apply toy_hex_roundtrip.
  - apply toy_hex_trim.
Qed.

#[export] Instance toy_laws : ExtLaws Toy := toy_ext_laws toy_hash2.

Lemma toy_writes hash2 n parts h :
  foldl (fun h b => h ≫= fun h => mh_write (Ext:=toy_ext hash2) h b)
    (Some (mh_with_leaves (Ext:=toy_ext hash2) n)) parts = Some h -> h = (n, mjoin parts).
Proof.
  revert h. induction parts as [|b parts IH] using rev_ind; intros h; [by intros [= <-] |].
  rewrite foldl_app. cbn [foldl].
  destruct (foldl _ _ _) as [g|]; [|done]. rewrite (IH g eq_refl). cbn.
  destruct (_ <=? n)%N; [|done]. intros [= <-]. rewrite join_app. cbn. by rewrite app_nil_r.
Qed.

Lemma toy_tree_laws hash2 : TreeHashLaws (toy_ext hash2) hash2.
Proof.
  split; try done.
  - intros n parts h b ->%toy_writes Hn. cbn in *. rewrite (proj2 (N.leb_le _ _) Hn). by eexists.
  - intros n parts h ->%toy_writes. done.
Qed.
