(* ===== verification/ToyServers.v ===== *)
(** Concrete instances of the interfaces of warp ([Warp]) and tonic ([Tonic]): a filter is the
    function of the request it denotes, a channel is the service it leads to.  They satisfy the
    documented laws, so the theorems about the two servers have instances. *)

From S2P Require Import Prelude Prog External Types Blst Signer BeaconTypes StorageTypes Storage.
From S2P Require Import HttpErrors Warp Grpc GrpcServer.

(** ** warp *)

Section toy_warp.
Context `{Ext} {E : Type -> Type}.

#[export] Instance toy_causes : WarpCauses := {|
  method_not_allowed := CWarp "MethodNotAllowed";
  length_required := CWarp "LengthRequired";
  payload_too_large := CWarp "PayloadTooLarge";
  warp_causes := ltac:(repeat constructor)
|}.

Definition toy_or {A} (f g : ServerRequest -> prog E (result A Rejection)) (rq : ServerRequest) :
  prog E (result A Rejection) :=
  let! r := f rq in
  match r with
  | Ok a => Ret (Ok a)
  | Err e => let! r' := g rq in Ret (map_err (fun e' => e ++ e') r')
  end.

#[export] Instance toy_warp : Warp E := {|
  Filter A := ServerRequest -> prog E (result A Rejection);
  serve _ f := f;
  path_macro _ parse rq := Ret (ok_or (parse (sq_path rq)) reject);
  post rq := Ret (if (sq_method rq =? "POST")%string then Ok tt else Err [method_not_allowed]);
  get rq := Ret (if (sq_method rq =? "GET")%string then Ok tt else Err [method_not_allowed]);
  query _ decode rq := Ret (of_cause (decode rq));
  body_json _ decode rq := Ret (of_cause (decode rq));
  content_length_limit limit rq := Ret (of_cause (length_check limit rq));
  any_map _ a _ := Ret (Ok a);
  and _ _ f g rq := let!? a := f rq in let!? b := g rq in Ret (Ok (a, b));
  and_then _ _ f h rq := let!? a := f rq in h a;
  or _ f g := toy_or f g;
  recover _ f h rq := let! r := f rq in Ret (match r with Ok a => Ok a | Err e => Ok (h e) end);
  with_cors_any_origin _ f := f
|}.

#[export] Instance toy_warp_laws : WarpLaws E.
Proof. split; reflexivity. Qed.
End toy_warp.

(** ** tonic *)

(** A request carries its path and its message; the body of a response is the answer. *)
Definition ToyBody : Type := option (result SubmitBlockResponse GrpcStatus).

Section toy_tonic.
Context {E : Type -> Type}.

(** The service a channel leads to, as what it answers to a path and a message. *)
Definition ToyService : Type := string * SubmitBlockRequest -> prog E (GrpcResponse ToyBody).

#[export] Instance toy_tonic_types : TonicTypes := {|
  CompressionEncoding := unit;
  EnabledCompressionEncodings := bool;
  no_encodings := false;
  enable _ _ := true;
  HttpReq := string * SubmitBlockRequest;
  uri_path rq := rq.1;
  BoxBody := ToyBody;
  empty_body := None;
  Channel := ToyService;
  GrpcServer.Endpoint := ToyService;
  Origin := string;
  ClientGrpc := ToyService;
  client_new c := c;
  client_with_origin c _ := c;
  client_send_compressed c _ := c;
  client_accept_compressed c _ := c;
  client_max_decoding c _ := c;
  client_max_encoding c _ := c
|}.

Definition toy_read (r : GrpcResponse ToyBody) : result SubmitBlockResponse GrpcStatus :=
  default (Err (mkGrpcStatus (CodeOther 12) "")) (gr_body _ r).

#[export] Instance toy_tonic : Tonic E := {|
  server_unary _ _ _ _ f rq :=
    let! r := f rq.2 in Ret (mkGrpcResponse 200 [] (Some (map_err status_of r)));
  channel_connect c := Ret (Ok c);
  client_ready _ := Ret (Ok tt);
  client_unary c m _ path := let! r := (c : ToyService) (path, m) in Ret (toy_read r);
  transport_serve _ _ := Ret (Ok tt)
|}.

Definition toy_loopback : Loopback := {|
  lb_channel service := service : Channel;
  lb_request _ m path := (path, m);
  lb_decode rq := Some rq.2;
  lb_response r := mkGrpcResponse 200 [] (Some r);
  lb_read := toy_read;
  lb_fits _ := True
|}.

#[export] Instance toy_tonic_laws : TonicLaws toy_loopback.
Proof.
  split; try done.
  - by exists ""%string.
  - intros f rq m [= <-]. reflexivity.
Qed.
End toy_tonic.
