(* ===== verification/ToyJson.v ===== *)
(** A concrete instance of the JSON libraries ([SerdeLib], [SerdeJson]) over the external code of
    [Toy]: bytes are prefixed hexadecimal strings, a document is its number in an enumeration of
    the values.  It satisfies the laws, and the fixtures of the tests are read with it. *)

From stdpp Require Import pretty countable.
From S2P Require Import Prelude Bits External Types Blst Signer BeaconTypes SszBlock Json Toy.
From S2P Require Import Prog Warp HttpErrors StorageTypes Header BeaconBlock JsonTypes Routes.
From S2P Require Import BeaconApi JsonApi.

(** ** The forms of the libraries *)

Definition hex_text (b : bytes) : JsonValue := JString ("0x" ++ concat_02x b)%string.
Definition hex_read (j : JsonValue) : option bytes :=
  match j with JString s => ok (toy_prefixed_decode s) | _ => None end.

Lemma hex_read_text b : hex_read (hex_text b) = Some b.
Proof.
  unfold hex_read, hex_text.
  change (toy_prefixed_decode _) with (toy_hex_decode (concat_02x b)).
  by rewrite toy_hex_roundtrip.
Qed.

(** Byte strings within a bound. *)
Definition hex_codec {A} (to : A -> bytes) (from : bytes -> option A) : Codec A := {|
  enc a := hex_text (to a); dec j := b ← hex_read j; from b |}.

Lemma hex_codec_dec {A} (to : A -> bytes) (from : bytes -> option A) a :
  from (to a) = Some a -> dec (hex_codec to from) (enc (hex_codec to from) a) = Some a.
Proof. intros Hf. cbn [dec enc hex_codec]. by rewrite hex_read_text. Qed.

Definition bounded (n : N) (b : bytes) : option bytes :=
  if (lenN b <=? n)%N then Some b else None.

Lemma bounded_ok n b : (lenN b <= n)%N -> bounded n b = Some b.
Proof. intros Hb. unfold bounded. by rewrite (proj2 (N.leb_le _ _) Hb). Qed.

Definition toy_uint_of (j : JsonValue) : option Uint256 :=
  match j with JString s => ok (toy_uint s) | _ => None end.

Lemma digits_value_of_pretty z : (0 <= z)%Z -> digits_value 0 (pretty z) = Some z.
Proof.
  intros Hz. pose proof (digits_value_pretty_Z z Hz) as Hd.
  destruct (pretty z) as [|c s] eqn:Hp; [by injection Hd as <- |]. exact Hd.
Qed.

Lemma toy_uint_pretty u : toy_uint (pretty (uint_val u)) = Ok u.
Proof.
  pose proof (uint_range u) as Hr. unfold toy_uint. rewrite digits_value_of_pretty by lia.
  unfold uint_of. case_decide as Hd; [cbn; f_equal; by apply uint_eq |].
  destruct Hd. apply Is_true_eq_left. lia.
Qed.

#[export] Instance toy_serde : SerdeLib := {|
  fixed_bytes_codec n := hex_codec arr_bytes (array_of n);
  uint_codec := {| enc u := JString (pretty (uint_val u)); dec := toy_uint_of |};
  bytes_4_hex := hex_codec arr_bytes (array_of 4);
  hash256_codec := hex_codec arr_bytes (array_of 32);
  hex_fixed_vec n := hex_codec (fun b => b) (fun b => if (lenN b =? n)%N then Some b else None);
  hex_var_list n := hex_codec (fun b => b) (bounded n);
  list_of_hex_var_list n m := {|
    enc l := JArray (hex_text <$> l);
    dec j := match j with
             | JArray l => bs ← mapM (fun j => b ← hex_read j; bounded n b) l;
                           if (lenN bs <=? m)%N then Some bs else None
             | _ => None end |};
  bitlist_codec n := hex_codec bitlist_bytes (fun b =>
    l ← bitlist_of_bytes b; if (lenN l <=? n)%N then Some l else None);
  bitvector_codec n := hex_codec (pack_bits (N.to_nat (n / 8 + 1))) (fun b =>
    Some (take (N.to_nat n) (unpack_bits b)));
  variable_list_read _ n l := if (lenN l <=? n)%N then Some l else None;
  fixed_vector_read _ n l := if (lenN l =? n)%N then Some l else None;
  uuid_codec := {| enc u := JNumber (Z.of_N u);
                   dec j := match j with JNumber z => Some (Z.to_N z) | _ => None end |}
|}.

#[export] Instance toy_serde_laws : SerdeLibLaws toy_serde.
Proof.
  split.
  - intros n a. apply hex_codec_dec, array_of_bytes.
  - intros u. cbn. by rewrite toy_uint_pretty.
  - intros a. apply hex_codec_dec, array_of_bytes.
  - intros a. apply hex_codec_dec, array_of_bytes.
  - intros n b Hb. apply hex_codec_dec. by rewrite Hb, N.eqb_refl.
  - intros n b Hb. by apply hex_codec_dec, bounded_ok.
  - intros n m l Hm Hn. cbn.
    assert (mapM (fun j => b ← hex_read j; bounded n b) (hex_text <$> l) = Some l) as ->.
    { clear Hm. induction Hn as [|b l Hb Hl IH]; [done |]. cbn [fmap list_fmap mapM].
      rewrite hex_read_text. cbn [mbind option_bind]. rewrite (bounded_ok n b Hb).
      cbn [mbind option_bind]. by rewrite IH. }
    cbn. by rewrite (proj2 (N.leb_le _ _) Hm).
  - intros n l Hl. apply hex_codec_dec. rewrite bitlist_of_bytes_spec. cbn.
    by rewrite (proj2 (N.leb_le _ _) Hl).
  - intros n l Hl. apply hex_codec_dec. pose proof (N.div_mod n 8) as Hd.
    pose proof (N.mod_upper_bound n 8). unfold lenN in Hl.
    rewrite unpack_pack_bits by lia. f_equal. rewrite <-Hl, Nat2N.id. apply take_app_length.
  - intros T n l Hl. cbn. by rewrite (proj2 (N.leb_le _ _) Hl).
  - intros T n l Hl. cbn. by rewrite Hl, N.eqb_refl.
  - intros u _. cbn. by rewrite N2Z.id.
  - intros a. cbn. unfold toy_array. rewrite toy_hex_trim, toy_hex_roundtrip. cbn.
    by rewrite array_of_bytes.
  - apply toy_uint_pretty.
  - intros b. cbn. apply toy_hex_roundtrip.
  - intros l Hl. cbn. induction Hl as [|z l Hz Hl IH]; [done |].
    cbn [map collect]. rewrite u64_from_str_pretty by done. cbn. by rewrite IH.
Qed.

(** ** Documents *)

(** Values as trees, for their enumeration. *)
Abbreviation JsonTree := (gen_tree (bool + Z + string)).

Fixpoint json_tree (j : JsonValue) : JsonTree :=
  match j with
  | JNull => GenNode 0 []
  | JBool b => GenLeaf (inl (inl b))
  | JNumber n => GenLeaf (inl (inr n))
  | JString s => GenLeaf (inr s)
  | JFloat s => GenNode 1 [GenLeaf (inr s)]
  | JArray l => GenNode 2 (json_tree <$> l)
  | JObject l => GenNode 3 ((fun '(n, v) => GenNode 4 [GenLeaf (inr n); json_tree v]) <$> l)
  end.

Fixpoint tree_json (t : JsonTree) : JsonValue :=
  match t with
  | GenLeaf (inl (inl b)) => JBool b
  | GenLeaf (inl (inr n)) => JNumber n
  | GenLeaf (inr s) => JString s
  | GenNode 1 [GenLeaf (inr s)] => JFloat s
  | GenNode 2 l => JArray (tree_json <$> l)
  | GenNode 3 l => JObject ((fun t => match t with
      | GenNode _ [GenLeaf (inr n); v] => (n, tree_json v)
      | _ => (EmptyString, JNull) end) <$> l)
  | _ => JNull
  end.

Lemma tree_json_tree : forall j, tree_json (json_tree j) = j.
Proof.
  fix IH 1. intros [|b|n|s|s|l|l]; try reflexivity; cbn [json_tree tree_json].
  - f_equal. induction l as [|j l IHl]; [reflexivity |]. cbn [fmap list_fmap]. by rewrite IH, IHl.
  - f_equal. induction l as [|[n j] l IHl]; [reflexivity |].
    cbn [fmap list_fmap]. by rewrite IH, IHl.
Qed.

#[export] Instance json_eq_dec : EqDecision JsonValue.
Proof.
  refine (fun a b => cast_if (decide (json_tree a = json_tree b))); [|congruence].
  rewrite <-(tree_json_tree a), <-(tree_json_tree b). congruence.
Defined.
#[export] Instance json_countable : Countable JsonValue :=
  inj_countable' json_tree tree_json tree_json_tree.

#[export] Instance toy_documents : SerdeJson := {|
  json_print j := pretty (Z.pos (encode j));
  json_parse s := z ← digits_value 0 s; decode (Z.to_pos z);
  json_error s := s
|}.

#[export] Instance toy_documents_laws : SerdeJsonLaws toy_documents.
Proof.
  intros j. cbn [json_parse json_print toy_documents].
  rewrite digits_value_of_pretty by done. cbn [mbind option_bind]. rewrite Pos2Z.id. apply decode_encode.
Qed.

(** The body filter. *)
#[export] Instance toy_body {T} `{!Serde T} : FromBody T := fun rq =>
  ok_or (json_from_str (sq_body rq)) (CWarp "BodyDeserialize").

#[export] Instance toy_body_json {T} {s : Serde T} : BodyOfJson T.
Proof.
  intros rq _. unfold from_body, toy_body.
  destruct (json_from_str (sq_body rq)); [done | by eexists].
Qed.
