(* ===== verification/ToyCli.v ===== *)
(** A concrete command line parser that satisfies [ClapLaws]: options are given as
    [--name value] and nothing else, texts are read as by the library [Toy]. *)

From stdpp Require Import pretty.
From S2P Require Import Prelude Prog External Types Blst Signer BeaconTypes.
From S2P Require Import Startup Cli Toy.

Local Open Scope string_scope.

Definition option_name (s : string) : option string :=
  match s with String "-" (String "-" name) => Some name | _ => None end.

Fixpoint read_options (argv : list string) : option Options :=
  match argv with
  | [] => Some []
  | o :: v :: argv =>
      name ← option_name o; given ← read_options argv; Some ((name, v) :: given)
  | _ => None
  end.

Definition toy_values (given : Options) (a : Arg) : fallible (list AnyValue) string :=
  if arg_required a && bool_decide (values_given (arg_long a) given = [])
  then Val (Err "missing argument")
  else collect_f (arg_parser a) (arg_texts a given).

Definition toy_matches (args : list Arg) (argv : list string) : fallible ArgMatches string :=
  match argv with
  | [] => Val (Err "no program name")
  | _ :: argv =>
      match read_options argv with
      | Some given =>
          if well_formed args given then
            let^? vss := collect_f (toy_values given) args in
            Val (Ok (zip (arg_long <$> args) vss))
          else Val (Err "unexpected argument")
      | None => Val (Err "unexpected argument")
      end
  end.

Definition toy_number (bound : Z) (s : string) : result Z string :=
  match s with
  | EmptyString => Err "invalid digit"
  | _ => match digits_value 0 s with
         | Some z => if (z <? bound)%Z then Ok z else Err "out of range"
         | None => Err "invalid digit"
         end
  end.

Definition toy_chain (s : string) : result NamedChain string :=
  if decide (s = "mainnet") then Ok Mainnet
  else if decide (s = "goerli") then Ok Goerli
  else if decide (s = "holesky") then Ok Holesky
  else if decide (s = "sepolia") then Ok Sepolia
  else if decide (s = "dev") then Ok Dev
  else Err "unknown chain".

#[export] Instance ToyClap : Clap := {|
  clap_matches := toy_matches;
  url_from_str u := Ok (u +:+ "/");
  value_u16 := toy_number 65536;
  value_u64 := toy_number u64_modulus;
  fixed48_from_str := toy_array 48;
  fixed48_display a := "0x" +:+ concat_02x (arr_bytes a);
  named_chain_from_str := toy_chain;
  EPOCH_SLOTS := 32
|}.

(** ** The laws *)

Lemma read_options_line given : read_options (command_line given) = Some given.
Proof.
  induction given as [|[n v] given IH]; [done |].
  change (command_line ((n, v) :: given)) with
    (String "-" (String "-" n) :: v :: command_line given).
  cbn [read_options option_name]. cbn [mbind option_bind]. by rewrite IH.
Qed.

Lemma collect_f_ok {A B Er} (f : A -> fallible B Er) l bs :
  Forall2 (fun a b => f a = Val (Ok b)) l bs -> collect_f f l = Val (Ok bs).
Proof. induction 1 as [|a b l bs Ha _ IH]; cbn; [done |]. rewrite Ha. cbn. by rewrite IH. Qed.

Lemma collect_f_refuses {A B Er} (f : A -> fallible B Er) l :
  (forall a, a ∈ l -> exists r, f a = Val r) ->
  Exists (fun a => exists e, f a = Val (Err e)) l -> exists e, collect_f f l = Val (Err e).
Proof.
  intros Htotal Hbad. induction Hbad as [a l [e He]|a l Hl IH]; cbn; [rewrite He; by exists e |].
  destruct (Htotal a) as [[b|e] Ha]; [by left | |]; rewrite Ha; cbn; [|by exists e].
  destruct IH as [e He]; [by intros a' Ha'; apply Htotal; right |]. rewrite He. by exists e.
Qed.

Lemma toy_values_total given (a : Arg) :
  (forall s, exists r, arg_parser a s = Val r) -> exists r, toy_values given a = Val r.
Proof.
  intros Htotal. unfold toy_values. destruct (_ && _); [eauto |].
  induction (arg_texts a given) as [|s l IH]; cbn; [eauto |].
  destruct (Htotal s) as [[v|e] ->]; cbn; [|eauto]. destruct IH as [[vs|e] ->]; cbn; eauto.
Qed.

Lemma toy_refused given (a : Arg) :
  (forall s, exists r, arg_parser a s = Val r) -> refused given a ->
  exists e, toy_values given a = Val (Err e).
Proof.
  intros Htotal Hbad. unfold toy_values.
  destruct (arg_required a) eqn:Hreq, (values_given (arg_long a) given) as [|v l] eqn:Hv;
    cbn; try (by eexists).
  all: destruct Hbad as [[? ?]|(s & e & Hin & He)]; [congruence |].
  all: unfold arg_texts; rewrite Hv.
  2: { unfold given_pieces in Hin. rewrite Hv in Hin.
       destruct (arg_delimiter a); by apply not_elem_of_nil in Hin. }
  all: apply collect_f_refuses; [by intros s' _; apply Htotal |].
  all: apply Exists_exists; eauto.
Qed.

#[export] Instance toy_clap_laws : ClapLaws ToyClap.
Proof.
  split.
  - intros args prog given vss _ Hwf Hreq Hvss. cbn. rewrite read_options_line, Hwf.
    rewrite (collect_f_ok _ args vss); [done |].
    clear Hwf. induction Hvss as [|a vs args vss Hvs _ IH]; [constructor |].
    apply Forall_cons in Hreq as [Ha Hreq]. constructor; [|by apply IH].
    unfold toy_values. destruct (arg_required a); cbn.
    + rewrite bool_decide_eq_false_2 by auto. by apply collect_f_ok.
    + by apply collect_f_ok.
  - intros args prog given _ Hwf Htotal Hbad. cbn. rewrite read_options_line, Hwf.
    destruct (collect_f_refuses (toy_values given) args) as [e He].
    + intros a Ha. apply toy_values_total. intros s. by apply Htotal.
    + apply Exists_exists in Hbad as (a & Ha & Hbad). apply Exists_exists. exists a.
      split; [done |]. apply toy_refused; [|done]. intros s. by apply Htotal.
    + exists e. by rewrite He.
  - intros [|c s] z; [done |]. intros _ Hz Hle. unfold value_u16. cbn [ToyClap].
    unfold toy_number. rewrite Hz. destruct (Z.ltb_spec z 65536); [done | lia].
  - intros [|c s] z; [done |]. unfold value_u16. cbn [ToyClap]. unfold toy_number, is_u16.
    destruct (digits_value 0 (String c s)) as [v|] eqn:Hv; [|done].
    apply digits_value_nonneg in Hv; [|done].
    destruct (Z.ltb_spec v 65536); [|done]. intros [= <-]. lia.
  - intros [|c s] z; [done |]. intros _ Hz Hle. unfold value_u64. cbn [ToyClap].
    unfold toy_number. rewrite Hz. destruct (Z.ltb_spec z u64_modulus); [done | lia].
  - done.
  - intros a. cbn [fixed48_from_str ToyClap]. unfold toy_array.
    change (trim_start_0x ("0x" +:+ ?t)) with (trim_start_0x t).
    rewrite toy_hex_trim, toy_hex_roundtrip. cbn. by rewrite array_of_bytes.
  - done.
  - done.
  - done.
  - repeat constructor.
  - done.
Qed.
