(* ===== verification/JsonTests.v ===== *)
(** The tests of the repository that decode a JSON fixture, and their fixtures: a fixture is the
    value its text denotes, the keys of [test_utils.rs] in the place of the placeholders.  The
    tests run on the instances [Toy] and [ToyJson], which decode hexadecimal strings and integers
    as the libraries do and accept any bytes of the right length as a key. *)

From S2P Require Import Prelude Prog External Types Blst Signer BeaconTypes BeaconBlock.
From S2P Require Import StorageTypes Header Json JsonTypes TestKit Toy ToyJson.

Local Open Scope string_scope.

(** * The fixtures *)

Definition blinded_block_resp_json : JsonValue := JObject [
    ("version", JString "deneb");
    ("data", JObject [
        ("execution_payload", JObject [
            ("parent_hash", JString "0x6e8d3ca42def0f3bf60f415f60028a70c60033515118ebc419453d3d176dbc24");
            ("fee_recipient", JString "0x0000000000000000000000000000000000000001");
            ("state_root", JString "0xcf8e0d4e9587369b2301d0790347320302cc0943d5a1884560367e8208d920f2");
            ("receipts_root", JString "0xcf8e0d4e9587369b2301d0790347320302cc0943d5a1884560367e8208d920f2");
            ("logs_bloom", JString "0x00000000000000000000000000000000000000000000000000000000000000000000000000000000000000000000000000000000000000000000000000000000000000000000000000000000000000000000000000000000000000000000000000000000000000000000000000000000000000000000000000000000000000000000000000000000000000000000000000000000000000000000000000000000000000000000000000000000000000000000000000000000000000000000000000000000000000000000000000000000000000000000000000000000000000000000000000000000000000000000000000000000000000000000000000000000");
            ("prev_randao", JString "0xcf8e0d4e9587369b2301d0790347320302cc0943d5a1884560367e8208d920f2");
            ("block_number", JString "1");
            ("gas_limit", JString "1");
            ("gas_used", JString "1");
            ("timestamp", JString "1");
            ("extra_data", JString "0xcf8e0d4e9587369b2301d0790347320302cc0943d5a1884560367e8208d920f2");
            ("base_fee_per_gas", JString "1");
            ("blob_gas_used", JString "1");
            ("excess_blob_gas", JString "1");
            ("block_hash", JString "0xfe739553c4dca9f03fb1ed1773fbefe394d525d98d9012a22517d4976a95fe79");
            ("transactions", JArray [JString "0x02f878831469668303f51d843b9ac9f9843b9aca0082520894c93269b73096998db66be0441e836d873535cb9c8894a19041886f000080c001a031cc29234036afbf9a1fb9476b463367cb1f957ac0b919b69bbc798436e604aaa018c4e9c3914eb27aadd0b91e10b18655739fcf8c1fc398763a9f1beecb8ddc86"]);
            ("withdrawals", JArray [JObject [
                  ("index", JString "1");
                  ("validator_index", JString "1");
                  ("address", JString "0xabcf8e0d4e9587369b2301d0790347320302cc09");
                  ("amount", JString "32000000000")]])]);
        ("blobs_bundle", JObject [
            ("commitments", JArray [JString "0x8dab030c51e16e84be9caab84ee3d0b8bbec1db4a0e4de76439da8424d9b957370a10a78851f97e4b54d2ce1ab0d686f"]);
            ("proofs", JArray [JString "0xb4021b0de10f743893d4f71e1bf830c019e832958efd6795baf2f83b8699a9eccc5dc99015d8d4d8ec370d0cc333c06a"]);
            ("blobs", JArray [])])])].

Definition signed_blinded_block_json : JsonValue := JObject [
    ("message", JObject [
        ("slot", JString "46");
        ("proposer_index", JString "26");
        ("parent_root", JString "0x018ae046795a46532d3a9a38826f323ef34b8381c6fcc8c1a6ba81229663476b");
        ("state_root", JString "0xbcca323c304aca7a104c490d3699b01856a5236317ba62eb4c98d2f64d67df47");
        ("body", JObject [
            ("randao_reveal", JString "0x93b0506f7754cf1d73213cad2866d6db547b25e323660457b6c0d8bf8f4ee203a76e6a6007fd70af6334b0fb636832e109ef06082cb958eeb6ea739870d2fb3f631659d9d07631a1d9f3fbe99dc1fedc7dc997badcff549a167d45efd2cfdc85");
            ("eth1_data", JObject [
                ("deposit_root", JString "0x8e9bcd43f7a4b257953cbc2b531c31f6361278e8a9bdb19f9da72658ead1ec25");
                ("deposit_count", JString "0");
                ("block_hash", JString "0x6e8d3ca42def0f3bf60f415f60028a70c60033515118ebc419453d3d176dbc24")]);
            ("graffiti", JString "0x0000000000000000000000000000000000000000000000000000000000000000");
            ("proposer_slashings", JArray []);
            ("attester_slashings", JArray []);
            ("attestations", JArray [JObject [
                  ("aggregation_bits", JString "0x07");
                  ("data", JObject [
                      ("slot", JString "45");
                      ("index", JString "0");
                      ("beacon_block_root", JString "0x018ae046795a46532d3a9a38826f323ef34b8381c6fcc8c1a6ba81229663476b");
                      ("source", JObject [
                          ("epoch", JString "0");
                          ("root", JString "0x0000000000000000000000000000000000000000000000000000000000000000")]);
                      ("target", JObject [
                          ("epoch", JString "1");
                          ("root", JString "0xaae421d67d88fe420dc7dd1fc37199ed8e523cdabba46aa9ffa499dd7195a87b")])]);
                  ("signature", JString "0x82bb1d0497ccce8a1e761fff78a1862b711fc5c5043d35774cceae092324f0408a969b3b49775e58419f2bd27b7792cd1858d3dedc24b5a6d1fd98c89f7bb21be9de9f4668a51fa5d1a64ca4585c841a9dbd6ab757a1a9f6b9b39d9efa47f63a")]]);
            ("deposits", JArray []);
            ("voluntary_exits", JArray []);
            ("sync_aggregate", JObject [
                ("sync_committee_bits", JString "0xffffffffffffffffffffffffffffffffffffffffffffffffffffffffffffffffffffffffffffffffffffffffffffffffffffffffffffffffffffffffffffffff");
                ("sync_committee_signature", JString "0x8cc00bf45244dd3dc8d7980fb307f9addca49471986969567ae9d3473595bf76b8b372bd9fb4c16754d1f3d4589c42230018a045924151e44574255a0d538a2534d9279dd835b7a6e896522de29d0f0e69159e7aa843803843a02a1217bc1432")]);
            ("execution_payload_header", JObject [
                ("parent_hash", JString "0xb05e822983bf40f95fd29745a6f197ced438547d7ba2ea1ffe4585e0aa8a85d8");
                ("fee_recipient", JString "0x0000000000000000000000000000000000000001");
                ("state_root", JString "0x0b61a994773b5e9b6789034559386a62d4831fb74efd5277573dd0913803e2f5");
                ("receipts_root", JString "0x66ba7d16f10900d45932f3667e48904816300d1471c7b177f7c1ec597e057194");
                ("logs_bloom", JString "0x00000000000000000000000000000000000000000000000000000000000000000000000000000000000000000000000000000000000000000000000000000000000000000000000000000000000000000000000000000000000000000000000000000000000000000000000000000000000000000000000000000000000000000000000000000000000000000000000000000000000000000000000000000000000000000000000000000000000000000000000000000000000000000000000000000000000000000000000000000000000000000000000000000000000000000000000000000000000000000000000000000000000000000000000000000000");
                ("prev_randao", JString "0x0704821e9081571c9abed4967fd180f945fd4fa8799492e5bc34997659df7888");
                ("block_number", JString "44");
                ("gas_limit", JString "30000000");
                ("gas_used", JString "2121000");
                ("timestamp", JString "1712160326");
                ("extra_data", JString "0x7465737400000000000000000000000000000000000000000000000000000000");
                ("base_fee_per_gas", JString "2807727");
                ("block_hash", JString "0xfe739553c4dca9f03fb1ed1773fbefe394d525d98d9012a22517d4976a95fe79");
                ("transactions_root", JString "0x1c22cb966103ab6be8819a478cbdaed75138204745d6c53397bbb7c070518645");
                ("withdrawals_root", JString "0x792930bbd5baac43bcc798ee49aa8185ef76bb3b44ba62b91d86ae569e4bb535");
                ("blob_gas_used", JString "0");
                ("excess_blob_gas", JString "0")]);
            ("bls_to_execution_changes", JArray []);
            ("blob_kzg_commitments", JArray [])])]);
    ("signature", JString "0x8b31d25f6560a9e51a6ab6617ae1601d75fb044c9592ae0d7ee1cdb721d4451971327fc3948287937d1269926fd9b3a709f7fb95835be8b1c0ad34f0b5b1e61add41400c48b461a96c20a143894b990217b7b2fad5a876e523d896bf8f281eae")].

Definition bid_json (key : string) : JsonValue := JObject [
    ("message", JObject [
        ("slot", JString "1");
        ("parent_hash", JString "0x0000000000000000000000000000000000000000000000000000000000000001");
        ("block_hash", JString "0x0000000000000000000000000000000000000000000000000000000000000001");
        ("builder_pubkey", JString key);
        ("proposer_pubkey", JString key);
        ("proposer_fee_recipient", JString "0x0000000000000000000000000000000000000001");
        ("gas_limit", JString "1");
        ("gas_used", JString "1");
        ("value", JString "1")]);
    ("execution_payload", JObject [
        ("parent_hash", JString "0x0000000000000000000000000000000000000000000000000000000000000001");
        ("fee_recipient", JString "0x0000000000000000000000000000000000000001");
        ("state_root", JString "0x0000000000000000000000000000000000000000000000000000000000000001");
        ("receipts_root", JString "0x0000000000000000000000000000000000000000000000000000000000000001");
        ("logs_bloom", JString "0x00000000000000000000000000000000000000000000000000000000000000000000000000000000000000000000000000000000000000000000000000000000000000000000000000000000000000000000000000000000000000000000000000000000000000000000000000000000000000000000000000000000000000000000000000000000000000000000000000000000000000000000000000000000000000000000000000000000000000000000000000000000000000000000000000000000000000000000000000000000000000000000000000000000000000000000000000000000000000000000000000000000000000000000000000000000");
        ("prev_randao", JString "0x0000000000000000000000000000000000000000000000000000000000000001");
        ("block_number", JString "1");
        ("gas_limit", JString "1");
        ("gas_used", JString "1");
        ("timestamp", JString "1");
        ("extra_data", JString "0x7465737400000000000000000000000000000000000000000000000000000000");
        ("base_fee_per_gas", JString "1");
        ("blob_gas_used", JString "1");
        ("excess_blob_gas", JString "1");
        ("block_hash", JString "0x0000000000000000000000000000000000000000000000000000000000000001");
        ("transactions", JArray [JString "0x02f87880648252089400000000000000000000000000000000000000018080c001a00000000000000000000000000000000000000000000000000000000000000000a00000000000000000000000000000000000000000000000000000000000000000"]);
        ("withdrawals", JArray [JObject [
              ("index", JString "1");
              ("validator_index", JString "1");
              ("address", JString "0x0000000000000000000000000000000000000001");
              ("amount", JString "32000000000")]])]);
    ("blobs_bundle", JObject [
        ("commitments", JArray [JString "0x8dab030c51e16e84be9caab84ee3d0b8bbec1db4a0e4de76439da8424d9b957370a10a78851f97e4b54d2ce1ab0d686f"]);
        ("proofs", JArray [JString "0xb4021b0de10f743893d4f71e1bf830c019e832958efd6795baf2f83b8699a9eccc5dc99015d8d4d8ec370d0cc333c06a"]);
        ("blobs", JArray [])]);
    ("signature", JString "0xad92d76a40ecc96a5ab46ae0a7e62c50fc895412be3ae3e0cddad60c54be7aa2c4bbe90b40345e3c2d1a6925aa3a9c6e03f4e30e28b9a315cac4d73de4b8f77a77e0a4f63fa7d6e0a73393cb15cfe596d845eaa146fd52cd9f3b80cde3f2b27a")].

Definition known_validators_json (key : string) : JsonValue := JObject [
    ("execution_optimistic", JBool false);
    ("finalized", JBool true);
    ("data", JObject [
        ("index", JString "1");
        ("balance", JString "1");
        ("status", JString "active");
        ("validator", JObject [
            ("pubkey", JString key);
            ("withdrawal_credentials", JString "WithdrawalCred1");
            ("effective_balance", JString "1");
            ("slashed", JBool false);
            ("activation_eligibility_epoch", JString "0");
            ("activation_epoch", JString "0");
            ("exit_epoch", JString "12341431");
            ("withdrawable_epoch", JString "1213413")])])].

Definition proposer_duties_json (key : string) : JsonValue := JObject [
    ("data", JArray [JObject [
          ("slot", JString "123456");
          ("pubkey", JString key);
          ("validator_index", JString "654321")];
       JObject [
          ("slot", JString "123457");
          ("pubkey", JString key);
          ("validator_index", JString "654322")];
       JObject [
          ("slot", JString "123458");
          ("pubkey", JString key);
          ("validator_index", JString "654323")]])].


(** * The functions that read them, and the tests *)

Section tests.
Context `{Ext} `{!SerdeLib} `{!Random}.

(** [serde_json::from_str(json).unwrap()] *)
Definition read_fixture {T} `{!Serde T} (j : JsonValue) : outcome T := unwrap (ok_or (de j) tt).

(** [proposer_api/blinded_blocks.rs] *)
Definition blinded_block_resp : outcome (Versioned BlindedBlockResponse) :=
  read_fixture blinded_block_resp_json.
Definition signed_blinded_block : outcome SignedBlindedBlock :=
  read_fixture signed_blinded_block_json.

Definition can_deserialize : outcome bool :=
  let^ signed_blinded_block := signed_blinded_block in
  let^ hash := unwrap (b256_parse
    "0xfe739553c4dca9f03fb1ed1773fbefe394d525d98d9012a22517d4976a95fe79") in
  let^ blinded_block_resp := blinded_block_resp in
  Val ((sbl_slot signed_blinded_block =? 46)%Z &&
       (sbl_proposer_index signed_blinded_block =? 26)%Z &&
       bool_decide (sbl_block_hash signed_blinded_block = hash) &&
       bool_decide (ep_block_hash (bbr_execution_payload (vs_data blinded_block_resp)) = hash)).

(** [builder_api/post_bids.rs] *)
Definition bid : outcome BidSubmission := read_fixture (bid_json test_builder_pubkey_str).
Definition can_bid : outcome unit := let^ _ := bid in Val tt.

(** [server/mod.rs] *)
Definition known_validators_response : outcome KnownValidatorResponse :=
  read_fixture (known_validators_json test_bls_pubkey_str).

(** [events/mod.rs] *)
Definition proposer_duties_response : outcome ProposerDutiesResponse :=
  read_fixture (proposer_duties_json test_bls_pubkey_str).
End tests.

(** * They pass *)

(** Values for the random ones: the keys of the tests are those of the secret keys 32 and 33. *)
#[local] Instance fixture_random : Random := {|
  random_b256 _ := mkB256 (array_fill 32 Byte.x05);
  random_address _ := mkAddress (array_fill 20 Byte.x06);
  random_secret_key site := mkSecretKey SecretKey (array_fill 32 (byte_of_N (N.of_nat site + 32)))
|}.

(** The fixtures of the repository decode, field by field, under the derives (the keys in the
    codec of [Toy]): the signed blinded block and the payload have the slot, the proposer and the
    hashes their test expects, the bid fixture is a submission for slot 1, the known validator is
    active and has the key of the tests, and there are three duties, for consecutive slots, with
    that key. *)
Theorem fixtures_decode :
  can_deserialize = Val true /\ can_bid = Val tt /\
  (let^ sub := bid in
   Val ((bt_slot (bs_message sub) =? 1)%Z && (u256_val (bt_value (bs_message sub)) =? 1)%Z &&
        pk_eqb (bt_builder_pubkey (bs_message sub)) test_builder_pubkey &&
        (length (ep_transactions (bs_execution_payload sub)) =? 1)%nat)) = Val true /\
  (let^ v := known_validators_response in
   Val (is_active v && pk_eqb (kv_pubkey (ve_validator (kvr_data v))) test_bls_pubkey)) =
  Val true /\
  (let^ d := proposer_duties_response in
   Val ((fun d => (pd_slot d, bool_decide (pd_pubkey d = pk_serialize test_bls_pubkey))) <$>
        pdr_data d)) =
  Val [(123456, true); (123457, true); (123458, true)]%Z.
Proof. split_and!; vm_refl. Qed.
