(* ===== verification/Examples.v ===== *)
(** A small relay to run: one builder, one proposer with the duty of slot 10, a beacon node and
    an auth service that answer, over the concrete external code of [Toy].  The lost update
    of two concurrent submissions is shown on it. *)

From S2P Require Import Prelude Prog External Types Blst Signer BeaconTypes BeaconBlock.
From S2P Require Import StorageTypes Header Storage BidSpec Metrics InMemory World.
From S2P Require Import InMemoryStorage HttpErrors Auth Grpc PostBids GetHeader BlindedBlocks.
From S2P Require Import PostValidators DataApi BeaconApi EventStream BeaconService RelayService.
From S2P Require Import Startup Builders Toy Concurrent Auction.

#[export] Instance ex_profile : BuildProfile := true.
#[export] Instance ex_user_json : FromJson MbsUser :=
  fun s => if (s =? "user")%string then Ok (mkMbsUser 1 2) else Err "invalid user".
#[export] Instance ex_secret_json : ToJson SecretBody := fun b => sb_secret b.
#[export] Instance ex_error_json : FromJson ApiErrorResponse := fun _ => Err "invalid error".

(** ** Keys *)

Definition ex_key (b : byte) : BlsSecretKey := mkSecretKey _ (pad_to 32 [b]).
Definition ex_pk (b : byte) : BlsPublicKey := gsk_public_key (Sig:=Signature) (ex_key b).

Definition ex_fork : ForkDatas :=
  mkForkDatas fork_data_default (mkForkData (pad_to 4 [Byte.x20]) (array_fill 32 Byte.x01)).

Definition ex_signer (b : byte) : BlsSigner := mkBlsSigner (ex_key b) ex_fork.
Definition builder : BlsPublicKey := ex_pk Byte.x0b.
Definition proposer : BlsPublicKey := ex_pk Byte.x0a.
Definition relay_signer : BlsSigner := ex_signer Byte.x0e.

(** ** A submission of a given value *)

Definition ex_u256 (z : Z) : U256 := mkU256 (uint_clip z).

Definition ex_pb_payload : PbExecutionPayload := {|
  pe_parent_hash := replicate 32 Byte.x00;
  pe_state_root := replicate 32 Byte.x02;
  pe_receipts_root := replicate 32 Byte.x03;
  pe_logs_bloom := [];
  pe_prev_randao := replicate 32 Byte.x07;
  pe_extra_data := [Byte.x65];
  pe_base_fee_per_gas := replicate 32 Byte.x00;
  pe_fee_recipient := replicate 20 Byte.x09;
  pe_block_hash := replicate 32 Byte.x0c;
  pe_transactions := [mkCompressTx [Byte.x01]];
  pe_withdrawals := [mkPbWithdrawal 1 2 (replicate 20 Byte.x01) 3];
  pe_block_number := 77;
  pe_gas_limit := 30;
  pe_timestamp := 40;
  pe_gas_used := 20;
  pe_blob_gas_used := 0;
  pe_excess_blob_gas := 0
|}.

Definition ex_payload : ExecutionPayload := {|
  ep_parent_hash := b256_zero;
  ep_fee_recipient := mkAddress (array_fill 20 Byte.x09);
  ep_state_root := mkB256 (array_fill 32 Byte.x02);
  ep_receipts_root := mkB256 (array_fill 32 Byte.x03);
  ep_logs_bloom := replicate 256 Byte.x00;
  ep_prev_randao := mkB256 (array_fill 32 Byte.x07);
  ep_block_number := 77;
  ep_gas_limit := 30;
  ep_gas_used := 20;
  ep_timestamp := 40;
  ep_extra_data := [Byte.x65];
  ep_base_fee_per_gas := ex_u256 0;
  ep_block_hash := mkB256 (array_fill 32 Byte.x0c);
  ep_transactions := [[Byte.x01]];
  ep_withdrawals := [mkWithdrawal 1 3 (mkAddress (array_fill 20 Byte.x01)) 3];
  ep_blob_gas_used := 0;
  ep_excess_blob_gas := 0
|}.

Definition ex_trace (value : Z) : BidTrace := {|
  bt_slot := 10;
  bt_parent_hash := b256_zero;
  bt_block_hash := mkB256 (array_fill 32 Byte.x0c);
  bt_builder_pubkey := builder;
  bt_proposer_pubkey := proposer;
  bt_proposer_fee_recipient := mkAddress (array_fill 20 Byte.x09);
  bt_gas_limit := 30;
  bt_gas_used := 20;
  bt_value := ex_u256 value
|}.

Definition ex_submission (value : Z) : BidSubmission :=
  mkBidSubmission (ex_trace value) ex_payload blobs_bundle_default
    (signer_sign (ex_signer Byte.x0b) (ex_trace value)).

(** The same submission, of value 100, on the wire. *)
Definition ex_pb_trace : PbBidTrace := {|
  pb_slot := 10;
  pb_parent_hash := replicate 32 Byte.x00;
  pb_block_hash := replicate 32 Byte.x0c;
  pb_builder_pubkey := arr_bytes (pk_serialize builder);
  pb_proposer_pubkey := arr_bytes (pk_serialize proposer);
  pb_proposer_fee_recipient := replicate 20 Byte.x09;
  pb_gas_limit := 30;
  pb_gas_used := 20;
  pb_value := "100"
|}.

Definition ex_request : SubmitBlockRequest := {|
  sr_bid_trace := Some ex_pb_trace;
  sr_execution_payload := Some ex_pb_payload;
  sr_signature := arr_bytes (bls_sig_serialize (bs_signature (ex_submission 100)));
  sr_blobs_bundle := Some (mkPbBlobsBundle [] [] [])
|}.

(** What it decodes to. *)
Definition value_or {A Er} (d : A) (r : fallible A Er) : A :=
  match r with Val (Ok a) => a | _ => d end.

Definition ex_decoded : BidSubmission := {|
  bs_message := value_or (ex_trace 100) (bid_trace_try_from ex_pb_trace);
  bs_execution_payload := value_or ex_payload (execution_payload_try_from ex_pb_payload);
  bs_blobs_bundle := value_or blobs_bundle_default
                       (blobs_bundle_try_from (mkPbBlobsBundle [] [] []));
  bs_signature := match sig_from_vec (sr_signature ex_request) with
                  | Val s => s | Panics _ => sig_empty end
|}.

(** ** The proposer *)

Definition ex_registration : ValidatorRegistration :=
  let message := mkRegistrationMessage (mkAddress (array_fill 20 Byte.x09)) 30 1 proposer in
  mkRegistration message (signer_sign (ex_signer Byte.x0a) message).

Definition ex_duty : Validator := mkValidator 10 5 ex_registration.
Definition ex_duties_data : ProposerDutiesData := mkProposerDuty 10 (pk_serialize proposer) 5.

(** ** The world *)

Definition ex_attrs : PayloadAttributes := {|
  pa_proposal_slot := 10;
  pa_parent_block_root := array_fill 32 Byte.x00;
  pa_parent_block_number := 76;
  pa_parent_block_hash := array_fill 32 Byte.x00;
  pa_proposer_index := 5;
  pa_timestamp := 40;
  pa_prev_randao := array_fill 32 Byte.x07;
  pa_suggested_fee_recipient := array_fill 20 Byte.x09;
  pa_withdrawals := Some [];
  pa_parent_beacon_block_root := None
|}.

Definition ex_head (slot : Z) : HeadEvent :=
  mkHeadEvent slot (array_fill 32 Byte.x00) (array_fill 32 Byte.x00) false
    (array_fill 32 Byte.x00) (array_fill 32 Byte.x00) false.

Definition ex_known : KnownValidatorResponse := mkKnownValidatorResponse false true
  (mkValidatorEntry 5 "32" "active_ongoing"
     (mkKnownValidator proposer "cred" "32" false 0 0 100 200)).

Definition ex_out : Outside := {|
  out_sync := Ok (mkSyncStatusResponse (mkSyncStatus 9 false));
  out_fork := Err "no debug namespace";
  out_duties e := if (e =? 0)%Z then Ok (mkProposerDuties [ex_duties_data])
                  else Ok (mkProposerDuties []);
  out_known _ := Ok ex_known;
  out_publish _ := Ok tt;
  out_http _ := Ok (mkHttpResponse 200 (Ok "user"));
  out_times n := (1000000000 * Z.of_nat n)%Z
|}.

Definition ex_start : World :=
  initial_world (mkHeadSlot 9) ex_attrs [builder] ex_fork ex_out.

(** The world once the proposer has registered and the duties are stored. *)
Definition ex_world : World :=
  w_with_store
    (inner_set_duties [ex_duty] (inner_insert_registration proposer ex_registration
       (w_store ex_start))) ex_start.

(** The world once the bid of value 100 is stored. *)
Definition ex_world_bid : World := (run_relay (post_bids (ex_submission 100)) ex_world).2.

(** ** The examples run *)

Example ex_submit_grpc :
  (run_relay (submit_block (mkRelayService ex_fork) ex_request) ex_world).1 =
  Val (Ok (mkSubmitBlockResponse 200 "Success")).
Proof. vm_refl. Qed.

Example ex_submit_http : (run_relay (post_bids (ex_submission 100)) ex_world).1 = Val (Ok 200%Z).
Proof. vm_refl. Qed.
Lemma ex_bid_run :
  run_relay (post_bids (ex_submission 100)) ex_world = (Val (Ok OK), ex_world_bid).
Proof.
  pose proof ex_submit_http as H. unfold ex_world_bid. destruct (run_relay _ _) as [a w].
  simpl in *. by subst.
Qed.

Lemma ex_head_small : (hs_slot (sto_head (w_abs ex_world)) < u64_max)%Z.
Proof. vm_compute. reflexivity. Qed.

(** The slot of [ex_world], and the block of a proposer that signs the header it is served. *)
Lemma ex_auction_slot b :
  bl_slot b = 10%Z -> bl_proposer_index b = 5%Z ->
  auction_slot (ex_submission 100) ex_duty (ex_signer Byte.x0a) b ex_world ex_world_bid.
Proof.
  intros Hslot Hindex.
  split; [exact ex_head_small | exact ex_bid_run | reflexivity | | reflexivity | | reflexivity..
         | exact Hslot | exact Hindex].
  - apply (bool_decide_eq_true_1
      (is_Some (sto_regs (w_abs ex_world) !! pk_serialize (duty_pubkey ex_duty)))). vm_refl.
  - apply N.leb_le. vm_refl.
Qed.

Definition ex_honest : BlindedBlock :=
  mkBlindedBlock 10 5 b256_zero b256_zero (mkBlindedBlockBody sig_empty
    (mkEth1Data b256_zero 0 b256_zero) b256_zero [] [] [] [] []
    (mkSyncAggregate (replicate 512 true) sig_empty) (header_of_payload ex_payload) [] []).

Example ex_submit_lower :
  (run_relay (post_bids (ex_submission 50)) ex_world_bid).1 = Val (Err [CPostBids BelowFloor]).
Proof. vm_refl. Qed.

Definition ex_key_of_slot : SlotHashKey := slot_hash_key 10 b256_zero proposer.

(** C11: submissions race: two accepted bids for the same slot, parent and proposer can end with
    the lower one stored, when both are compared with the best bid before either is written:
    the comparison and the update are different critical sections. *)
Theorem concurrent_submissions_lose_update :
  exists (w : World) (low high : BidSubmission) (sched : list nat),
    (bid_value low < bid_value high)%Z /\
    bid_key 10 low = bid_key 10 high /\
    let r := schedule (fun A => @relay_step Toy A) sched [post_bids low; post_bids high] w in
    r.1 = [Ret (Ok OK); Ret (Ok OK)] /\
    sto_best (w_abs r.2) !! bid_key 10 high = Some low.
Proof.
  exists ex_world, (ex_submission 100), (ex_submission 200).
  exists ([0; 1; 1; 1; 1; 1; 1; 1; 1] ++ [0; 0; 0; 0; 0; 0; 0])%nat.
  split; [vm_compute; reflexivity |]. split; [vm_refl |]. split; vm_refl.
Qed.
