(* ===== verification/JsonWitnesses.v ===== *)
(** The theorems about the JSON exchanges, applied to the relay of [Examples] with the documents of
    [ToyJson]. *)

From S2P Require Import Prelude Prog External Types Blst Signer BeaconTypes BeaconBlock.
From S2P Require Import StorageTypes Header Storage Metrics World HttpErrors Warp PostBids Auth.
From S2P Require Import Ssz BlindedBlocks DataApi Routes BeaconApi Json JsonTypes JsonApi.
From S2P Require Import Toy ToyServers ToyJson Examples PostValidators InMemoryStorage.

Abbreviation step := (fun A => @relay_step Toy A).

(** ** Values that are read back *)

Lemma toy_key_ok (k : BlsPublicKey) :
  bool_decide (arr_bytes (pk_serialize k) = arr_bytes INFINITY_PUBLIC_KEY) = false -> serde_ok k.
Proof.
  intros Hk%bool_decide_eq_false_1. cbn. unfold pk_deserialize. rewrite decide_False by done.
  destruct k as [k]. unfold tpk_deserialize. simpl. by rewrite array_len, N.eqb_refl, array_of_bytes.
Qed.

Lemma toy_signature_ok (p : Signature) :
  let s := mkSignature Signature (Some p) false in
  bool_decide (arr_bytes (bls_sig_serialize s) = arr_bytes NONE_SIGNATURE) = false ->
  bool_decide (arr_bytes (bls_sig_serialize s) = arr_bytes INFINITY_SIGNATURE) = false ->
  serde_ok s.
Proof.
  intros s Hn%bool_decide_eq_false_1 Hi. cbn [serde_ok bls_sig_serde text_serde].
  unfold bls_sig_deserialize, sig_deserialize. rewrite decide_False by done. rewrite Hi.
  simpl. by rewrite array_of_bytes.
Qed.

Lemma ex_submission_ok : serde_ok (ex_submission 100).
Proof.
  cbn [serde_ok bid_submission_serde derive_serde fields_ok]. split_and!; try exact I.
  - cbn [serde_ok bid_trace_serde derive_serde fields_ok].
    split_and!; try exact I; try (by split); apply toy_key_ok; vm_refl.
  - cbn [serde_ok execution_payload_serde derive_serde fields_ok].
    split_and!; try exact I; try (by split); try vm_refl.
    + cbn. by vm_compute.
    + split; [by vm_compute |]. apply Forall_singleton. by vm_compute.
    + split; [by vm_compute |]. apply Forall_singleton.
      cbn [serde_ok withdrawal_serde derive_serde fields_ok]. split_and!; try exact I; by split.
  - cbn [serde_ok blobs_bundle_serde derive_serde fields_ok].
    split_and!; try exact I; (split; [by vm_compute | apply Forall_nil_2]) || by vm_compute.
  - apply toy_signature_ok; vm_refl.
Qed.

(** ** The requests *)

Section requests.
#[local] Existing Instance toy_warp.
#[local] Instance ex_key_query : FromQuery ApiKeyQuery := fun rq => Ok (mkApiKeyQuery (sq_query rq)).
#[local] Instance ex_bids_query : FromQuery QueryParams := fun _ => Ok (mkQueryParams None None).
#[local] Instance ex_auth : Auth RelayE := mbs_auth_validate (mkMbsAuth "https://auth/").

Definition ex_post_json (path : list string) (body : string) : ServerRequest :=
  mkServerRequest "POST" path ""
    [("content-length", "4000"); ("content-type", "application/json")]%string body.

Lemma ex_json_post path body : json_post 8388608 path body (ex_post_json path body).
Proof. split; try reflexivity. exists 4000%Z. split; [reflexivity | done]. Qed.

Lemma json_requests_reach_handlers_witness :
  let rq := ex_post_json ["relay"; "v1"; "builder"; "blocks"]%string
              (json_to_string (ex_submission 100)) in
  serde_ok (ex_submission 100) /\
  run_relay (serve (http_server (fun _ => ""%string) relay_signer) rq) ex_world =
    (Val (Ok (StatusReply OK)), ex_world_bid).
Proof.
  intros rq. split; [exact ex_submission_ok |].
  pose proof (proj1 (json_requests_reach_handlers step (fun _ => ""%string) relay_signer
    rq ex_world) (ex_submission 100) ex_submission_ok (ex_json_post _ _)) as H.
  assert (run step (replying StatusReply (post_bids (ex_submission 100))) ex_world =
    (Val (Ok (StatusReply OK)), ex_world_bid)) as Hr.
  { unfold replying, try_bind. rewrite run_bind. pose proof ex_bid_run as Hb.
    unfold run_relay in Hb. rewrite Hb. reflexivity. }
  rewrite Hr in H. exact H.
Defined.

Lemma hex_blobs_refused_witness :
  let rq := ex_post_json ["relay"; "v1"; "builder"; "blocks"]%string
              (json_print (submission_with_hex_blobs (ex_submission 100) ["0x00"%string])) in
  exists err, run_relay (serve (http_server (fun _ => ""%string) relay_signer) rq) ex_world =
    (Val (Ok (ErrReply err)), ex_world) /\ er_status err = INTERNAL_SERVER_ERROR.
Proof.
  intros rq.
  exact (proj1 (hex_blobs_refused step (fun _ => ""%string) relay_signer rq ex_world
    (ex_submission 100) "0x00"%string [] (ex_json_post _ _))).
Defined.
End requests.

(** ** The exchanges *)

#[local] Instance ex_ssz : SszLib := {| ssz_encode := ssz_spec |}.

Lemma json_exchanges_decode_witness :
  serde_ok [ex_submission 100] /\
  json_from_str (reply_body (BidsReply [ex_submission 100])) = Some [ex_submission 100].
Proof.
  assert (serde_ok [ex_submission 100]) as Hok by (constructor; [exact ex_submission_ok | constructor]).
  split; [exact Hok |].
  destruct (json_exchanges_decode (mkBeaconNodeApi "node") ex_world) as (_ & _ & _ & Hbids & _).
  exact (Hbids _ Hok).
Defined.
