(* ===== verification/Witnesses.v ===== *)
(** The theorems with hypotheses, applied at concrete inputs where the hypotheses hold: the
    relay of [Examples] over the external code of [Toy]. *)

From S2P Require Import Prelude Prog External Types Blst Signer BeaconTypes BeaconBlock.
From S2P Require Import Ssz SszBlock.
From S2P Require Import StorageTypes Header Storage BidSpec Metrics InMemory World.
From S2P Require Import InMemoryStorage HttpErrors Auth Grpc PostBids GetHeader BlindedBlocks.
From S2P Require Import PostValidators DataApi BeaconApi EventStream BeaconService RelayService.
From S2P Require Import Startup Builders Toy ToyServers Warp Routes GrpcServer Auction Concurrent.
From S2P Require Import System Typing TypeSafety Examples.

Abbreviation step := (fun A => @relay_step Toy A).

Lemma ex_head_small_bid : (hs_slot (sto_head (w_abs ex_world_bid)) < u64_max)%Z.
Proof. vm_compute. reflexivity. Qed.

(** Registration, duties and a bid, interleaved at every event. *)
Definition ex_tasks : list RelayTask :=
  [TPostValidators (mkMbsAuth "https://auth/") (mkApiKeyQuery "key") (Ok [ex_registration]);
   TDuties (mkHeadSlot 0) 32;
   TPostBids (ex_submission 100);
   TSubmitBlock ex_request].

Definition ex_sched : list nat :=
  replicate 12 0%nat ++ replicate 14 1%nat ++ mjoin (replicate 12 [2%nat; 3%nat]).

Definition ex_end : list (prog RelayE unit) * World :=
  schedule step ex_sched (task_prog ex_fork <$> ex_tasks) ex_start.

Lemma ex_end_steps :
  rtc sys_step (task_prog ex_fork <$> ex_tasks, ex_start) (ex_end.1, ex_end.2).
Proof. rewrite <-surjective_pairing. apply pool_sys_steps, schedule_steps. Qed.

Lemma system_bids_authentic_witness :
  is_Some (sto_best (w_abs ex_end.2) !! ex_key_of_slot) /\
  bids_authentic [builder] ex_fork (w_abs ex_end.2).
Proof.
  split.
  - apply (bool_decide_eq_true_1 (is_Some (sto_best (w_abs ex_end.2) !! ex_key_of_slot))). vm_refl.
  - exact (system_bids_authentic (mkHeadSlot 9) ex_attrs [builder] ex_fork ex_out ex_tasks _ _
      ex_end_steps).
Defined.

Lemma submit_block_correct_witness :
  exists sub duty, decodes ex_request sub /\
    w_abs (run_relay (submit_block (mkRelayService ex_fork) ex_request) ex_world).2 =
      accept_bid sub duty (w_abs ex_world).
Proof.
  pose proof (submit_block_correct step w_abs w_frame (mkRelayService ex_fork) ex_request ex_world
    ex_head_small) as H.
  pose proof ex_submit_grpc as Hok. unfold run_relay in *.
  destruct (run _ _ _) as [a w']. simpl in Hok. subst a.
  destruct (grpc_verdict _ _ _) as [[[sub duty]|a]|m].
  - destruct H as (Hd & _ & _ & Ha & _). by exists sub, duty.
  - destruct H as (_ & _ & [= ->] & Hne). by destruct Hne.
  - destruct H as (_ & _ & m' & Heq). discriminate Heq.
Defined.

Lemma post_bids_correct_witness :
  first_failure (bid_checks (w_abs ex_world_bid) (ex_submission 50)) = Some BelowFloor /\
  run_relay (post_bids (ex_submission 50)) ex_world_bid =
    (Val (Err [CPostBids BelowFloor]), ex_world_bid).
Proof.
  pose proof (post_bids_correct step w_abs w_frame (ex_submission 50) ex_world_bid
    ex_head_small_bid) as H.
  assert (first_failure (bid_checks (w_abs ex_world_bid) (ex_submission 50)) = Some BelowFloor)
    as Hff by vm_refl.
  split; [done |]. rewrite Hff in H. exact H.
Defined.

Lemma best_bids_only_improve_witness :
  (best_value ex_key_of_slot (w_abs ex_world) <=
   best_value ex_key_of_slot (w_abs (serve_all step ex_fork
     [ViaHttp (ex_submission 200); ViaGrpc ex_request] ex_world)))%Z.
Proof.
  exact (best_bids_only_improve step w_abs w_frame ex_fork
    [ViaHttp (ex_submission 200); ViaGrpc ex_request] ex_world ex_key_of_slot ex_head_small).
Defined.

Lemma ex_decodes : decodes ex_request ex_decoded.
Proof.
  exists ex_pb_trace, ex_pb_payload, (mkPbBlobsBundle [] [] []).
  split; [reflexivity |]. split; [reflexivity |]. split; [reflexivity |].
  split_and!; vm_refl.
Qed.

Lemma grpc_http_equivalent_witness :
  let g := run_relay (submit_block (mkRelayService ex_fork) ex_request) ex_world in
  let h := run_relay (post_bids ex_decoded) ex_world in
  (g.1 = Val (Ok (mkSubmitBlockResponse 200 "Success")) <-> h.1 = Val (Ok OK)) /\
  w_abs g.2 = w_abs h.2.
Proof.
  exact (grpc_http_equivalent step w_abs w_frame ex_request ex_decoded ex_world
    ex_decodes ex_head_small).
Defined.

Lemma get_header_correct_witness :
  exists r w', run_relay (get_header 10 b256_zero proposer relay_signer) ex_world_bid = (Val r, w') /\
    w_store w' = w_store ex_world_bid /\ w_spawned w' = w_spawned ex_world_bid /\
    header_answer (w_abs ex_world_bid) 10 b256_zero proposer relay_signer r.
Proof. exact (get_header_correct 10 b256_zero proposer relay_signer _ ex_head_small_bid). Defined.

Definition ex_header : Versioned SignedHeader :=
  let msg := mkHeader (header_of_payload ex_payload) [] (ex_u256 100) (signer_public_key relay_signer)
  in mkVersioned Deneb (mkSignedHeader msg (signer_sign relay_signer msg)).

Lemma ex_header_served :
  (run_relay (get_header 10 b256_zero proposer relay_signer) ex_world_bid).1 = Val (Ok ex_header).
Proof. vm_refl. Qed.

Lemma served_header_verifies_witness :
  let msg := sh_message (vs_data ex_header) in
  bls_sig_verify (sh_signature (vs_data ex_header)) (signer_public_key relay_signer)
    (signing_root msg (compute_builder_domain ex_fork)) = true /\
  h_pubkey msg = signer_public_key relay_signer /\
  exists bid, sto_read_best 10 b256_zero proposer (w_abs ex_world_bid) = Some bid /\
    h_value msg = bt_value (bs_message bid) /\
    eh_block_hash (h_header msg) = ep_block_hash (bs_execution_payload bid) /\
    lenN (h_blob_kzg_commitments msg) = lenN (bb_commitments (bs_blobs_bundle bid)).
Proof.
  exact (served_header_verifies 10 b256_zero proposer relay_signer _ ex_header
    ex_head_small_bid ex_header_served).
Defined.

Lemma get_bids_ignores_slot_witness :
  by_slot_empty ex_world_bid /\
  (run_relay (get_bids (mkQueryParams (Some 10%Z) None)) ex_world_bid).1 = Val (Ok []).
Proof.
  assert (by_slot_empty ex_world_bid) as Hempty by (unfold by_slot_empty; vm_refl).
  split; [exact Hempty |].
  exact (get_bids_ignores_slot (mkQueryParams (Some 10%Z) None) ex_world_bid Hempty).
Defined.

Lemma execution_payload_conversion_witness :
  execution_payload_try_from ex_pb_payload = Val (Ok (bs_execution_payload ex_decoded)) /\
  arr_bytes (b256_0 (ep_block_hash (bs_execution_payload ex_decoded))) =
    pe_block_hash ex_pb_payload.
Proof.
  assert (execution_payload_try_from ex_pb_payload = Val (Ok (bs_execution_payload ex_decoded)))
    as Hconv by vm_refl.
  split; [exact Hconv |].
  pose proof (execution_payload_conversion ex_pb_payload _ Hconv) as H. apply H.
Defined.

(** ** The beacon service *)

Definition ex_handles : BeaconState :=
  (handle_proposer_duties 3 (handle_get_known_validator proposer beacon_service_new).2).2.

Lemma ex_handles_reachable : rtc beacon_step beacon_service_new ex_handles.
Proof.
  eapply rtc_l; [apply (BsSend (CmdKnownValidator proposer)); done |].
  eapply rtc_l; [apply (BsSend (CmdProposerDuties 3)); done | done].
Qed.

(** With a budget of one the first poll leaves the second command and asks for another poll. *)
Lemma service_answers_commands_witness :
  (service_poll 1 ex_handles).1 <> Waiting /\
  bs_queue (service_poll 1 ex_handles).2 = [CmdProposerDuties 3 1] /\
  bs_oneshots (service_polls 2 1 ex_handles) !! 1%nat = Some (OsSent (ProposerDutyFuture 3)).
Proof.
  destruct (service_answers_commands 1 ex_handles ex_handles_reachable)
    as (Hleft & Hanswer & _ & _ & Hall).
  split; [intros Hw%Hanswer; apply (Nat.lt_irrefl 1); apply (Nat.lt_trans _ 2); [|exact Hw]; constructor|].
  split; [exact Hleft |].
  exact (proj2 (Hall 2%nat ltac:(constructor)) (CmdProposerDuties 3 1) ltac:(right; left)).
Defined.

Definition ex_content : SignedBeaconBlockContent :=
  signed_beacon_block_content_new ex_payload
    (mkBlindedBlock 10 5 b256_zero b256_zero (mkBlindedBlockBody sig_empty
       (mkEth1Data b256_zero 0 b256_zero) b256_zero [] [] [] [] []
       (mkSyncAggregate [] sig_empty) (header_of_payload ex_payload) [] []))
    sig_empty blobs_bundle_default.

Lemma publish_request_served_witness :
  handle_recv 2 (service_run (handle_publish_block ex_content Ssz ex_handles).2) =
  Some (Ok (PublishBlockFuture ex_content Ssz)).
Proof.
  exact (publish_request_served ex_handles ex_content Ssz 2
    (handle_publish_block ex_content Ssz ex_handles).2 ex_handles_reachable eq_refl).
Defined.

(** ** The block on the wire *)

Definition ex_ssz_lib : SszLib := {| ssz_encode := ssz_spec |}.
Lemma ex_ssz_lib_laws : SszLibLaws ex_ssz_lib.
Proof. by split. Qed.

(** A block with an attestation, a withdrawal and transactions. *)
Definition ex_wire_payload : ExecutionPayload :=
  mkExecutionPayload b256_zero (mkAddress (array_fill 20 Byte.x09)) b256_zero b256_zero
    (replicate 256 Byte.x00) b256_zero 77 30 20 40 [Byte.x65] (ex_u256 7) b256_zero
    [[Byte.x01; Byte.x02]; []; [Byte.x03]]
    [mkWithdrawal 1 2 (mkAddress (array_fill 20 Byte.x09)) 3] 0 0.

Definition ex_wire_content : SignedBeaconBlockContent :=
  signed_beacon_block_content_new ex_wire_payload
    (mkBlindedBlock 10 5 b256_zero b256_zero (mkBlindedBlockBody sig_empty
       (mkEth1Data b256_zero 0 b256_zero) b256_zero [] []
       [mkAttestation (replicate 9 true)
          (mkAttestationData 9 0 b256_zero (mkCheckpoint 0 b256_zero) (mkCheckpoint 1 b256_zero))
          sig_empty] [] []
       (mkSyncAggregate (replicate 512 true) sig_empty) (header_of_payload ex_wire_payload) [] []))
    sig_empty blobs_bundle_default.

Lemma ex_wire_encodable : encodable ex_wire_content.
Proof.
  split; [|apply N.ltb_lt; vm_refl].
  repeat match goal with
  | |- Forall _ _ => constructor
  | |- _ /\ _ => split
  | |- ssz_ok _ => progress cbn
  | |- fd_ok _ _ => progress cbn
  | |- True => exact I
  | |- is_u64 _ => by split
  | |- (_ < u64_modulus)%Z => done
  | |- lenN _ = _ => vm_refl
  | |- (_ <= _)%N => apply N.leb_le; vm_refl
  end.
Qed.

Section wire.
#[local] Existing Instance ex_ssz_lib.
#[local] Existing Instance ex_ssz_lib_laws.
#[local] Instance ex_any_json {T} : FromJson T := fun _ => Err "no json".
#[local] Instance ex_to_json : ToJson SignedBeaconBlockContent := fun _ => "{}".

(** The heads of the content, the signed block, the block and its body take 12, 100, 84 and 392
    bytes, the attestation and its offset 234 and the payload 588. *)
Example ex_wire_length :
  lenN (derived_ssz_bytes ex_wire_content) = (12 + 100 + 84 + 392 + 234 + 588)%N.
Proof. vm_refl. Qed.

Lemma published_block_decodes_witness :
  encodable ex_wire_content /\
  exists b,
    (run_relay (api_publish_block (BeaconApi:=beacon_node_api (mkBeaconNodeApi "node"))
       ex_wire_content Ssz) ex_world_bid).1 =
    Val (result_map (fun _ => tt) (out_http (w_out ex_world_bid)
      (mkHttpRequest POST "nodeeth/v1/beacon/blocks"
         [("Eth-Consensus-Version", "deneb"); ("content-type", "application/octet-stream")]%string
         (RawBody b)))) /\
    ssz_decode (ssz_ty SignedBeaconBlockContent) b = Some (ssz_val ex_wire_content).
Proof.
  split; [exact ex_wire_encodable |].
  destruct (published_block_decodes (mkBeaconNodeApi "node") ex_wire_content ex_world_bid
    ex_wire_encodable) as (b & Hrun & Hb & _).
  exists b. exact (conj Hrun Hb).
Defined.
End wire.

(** ** The relay service *)

(** A key as it is read back from its bytes. *)
Definition parsed (k : BlsPublicKey) : BlsPublicKey :=
  match pk_from_fixed (pk_serialize k) with Val k => k | Panics _ => k end.

Lemma ex_duty_keys :
  Forall (fun dk => pk_from_fixed (pd_pubkey dk.1) = Val dk.2) [(ex_duties_data, parsed proposer)].
Proof. constructor; [vm_refl | constructor]. Qed.

Lemma into_duties_correct_witness :
  run_relay (into_duties [ex_duties_data]) ex_world = (Val [ex_duty], ex_world).
Proof.
  etransitivity; [exact (into_duties_correct [(ex_duties_data, parsed proposer)] ex_world ex_duty_keys) |].
  assert (omap (fun dk => duty_of (sto_regs (w_abs ex_world)) dk.1 dk.2) [(ex_duties_data, parsed proposer)]
    = [ex_duty]) as ->; [vm_refl | done].
Defined.

Lemma duties_task_correct_witness :
  exists w', run_relay (duties_task (mkHeadSlot 0) 32) ex_world = (Val (Ok tt), w') /\
    w_abs w' = sto_set_duties [ex_duty] (w_abs ex_world).
Proof.
  assert (Forall2 (fun d k => pk_from_fixed (pd_pubkey d) = Val k)
    (merge_with (mkProposerDuties [ex_duties_data]) (mkProposerDuties [])) [parsed proposer]) as Hks
    by (constructor; [vm_refl | constructor]).
  pose proof (duties_task_correct (mkHeadSlot 0) 32 0 ex_world eq_refl eq_refl [parsed proposer] Hks)
    as H.
  assert (omap (fun dk => duty_of (sto_regs (w_abs ex_world)) dk.1 dk.2)
    (zip (merge_with (mkProposerDuties [ex_duties_data]) (mkProposerDuties [])) [parsed proposer])
    = [ex_duty]) as Heq by vm_refl.
  cbv zeta in H. rewrite Heq in H. exact H.
Defined.

Definition ex_stream : BeaconEventsStream :=
  mkBeaconEventsStream [Pending] [Ready (Some (Ok (ex_head 64)))].

Lemma relay_poll_event_witness :
  exists w', run_relay (relay_poll (mkRelayState (BeaconEvents ex_stream) [] 32)) ex_world =
      (Val (Woken, mkRelayState (BeaconEvents (mkBeaconEventsStream [] [])) [] 32), w') /\
    w_abs w' = sto_set_head (mkHeadSlot 64) (w_abs ex_world) /\
    w_spawned w' = [DutiesTask (mkHeadSlot 64) 32].
Proof.
  exact (relay_poll_event (mkRelayState (BeaconEvents ex_stream) [] 32) ex_stream
    (mkBeaconEventsStream [] []) (Head (ex_head 64)) ex_world eq_refl eq_refl).
Defined.

Lemma relay_service_reconnects_witness :
  run_relay (relay_polls 5 (mkRelayState (BeaconEvents (mkBeaconEventsStream [] [Ready None]))
    [mkConnection 3 ex_stream] 32)) ex_world =
  (Val (mkRelayState (BeaconEvents ex_stream) [] 32), ex_world).
Proof.
  exact (relay_service_reconnects
    (mkRelayState (BeaconEvents (mkBeaconEventsStream [] [Ready None])) [mkConnection 3 ex_stream] 32)
    (mkBeaconEventsStream [] [Ready None]) (mkBeaconEventsStream [] []) (mkConnection 3 ex_stream) []
    ex_world eq_refl eq_refl eq_refl).
Defined.

(** ** Start-up *)

Definition ex_args : CliArgs := {|
  ca_mbs_auth_url := "https://auth/";
  ca_beacon_url := "http://127.0.0.1:3500/";
  ca_grpc_port := 50051;
  ca_http_port := 9063;
  ca_metrics_port := 9090;
  ca_slots_per_epoch := 32;
  ca_white_listed_builders := [pk_serialize builder];
  ca_genesis_fork_version := mkForkVersion (pad_to 4 []);
  ca_current_fork_version := mkForkVersion (pad_to 4 [Byte.x20]);
  ca_genesis_validators_root := array_fill 32 Byte.x01;
  ca_chain := Holesky;
  ca_bls_secret_key := ex_key Byte.x0e
|}.

Definition ex_answers : list (option BeaconEvent) :=
  [None; Some (Head (ex_head 9)); Some (Head (ex_head 11));
   Some (PayloadAttribute (mkPayloadAttributesEvent "deneb" ex_attrs))].

Definition ex_started : Started := {|
  sd_servers := [MetricsServer; BeaconServiceTask; GrpcServerTask; HttpServerTask];
  sd_metrics_addr := mkSocketAddr UNSPECIFIED (ca_metrics_port ex_args);
  sd_grpc_addr := mkSocketAddr UNSPECIFIED (ca_grpc_port ex_args);
  sd_http_addr := mkSocketAddr UNSPECIFIED (ca_http_port ex_args);
  sd_storage := inner_new (mkHeadSlot 9) ex_attrs [parsed builder] (cli_fork_data ex_args) ∅ [];
  sd_fork_data := cli_fork_data ex_args;
  sd_signer := signer_new (ex_key Byte.x0e) (cli_fork_data ex_args);
  sd_auth := mkMbsAuth "https://auth/";
  sd_slots_per_epoch := 32
|}.

Lemma ex_main : (run_relay (main ex_args (Ok tt) ex_answers) ex_start).1 = Val (Some (Ok ex_started)).
Proof. vm_refl. Qed.

Lemma main_starts_witness :
  exists version,
    try_from_chain Holesky = Val (Ok version) /\
    sd_fork_data ex_started =
      default (cli_fork_data ex_args) (node_fork_data version (w_out ex_start)).
Proof.
  destruct (main_starts ex_args (Ok tt) ex_answers ex_start ex_started ltac:(done) ltac:(done)
    ex_main) as (_ & _ & _ & version & Hv & _ & _ & Hf & _). exists version. split; [exact Hv | exact Hf].
Defined.

(** ** Numbers *)

Lemma u64_as_f64_error_witness :
  (2 ^ 53 * Z.abs (u64_as_f64 (2 ^ 53 + 1) - (2 ^ 53 + 1)) <= 2 ^ 53 + 1)%Z /\
  u64_as_f64 (2 ^ 53 + 1) = (2 ^ 53)%Z.
Proof.
  split; [|vm_refl]. exact (proj1 (u64_as_f64_error (2 ^ 53 + 1) ltac:(lia))).
Defined.

Lemma is_next_slot_cases_witness :
  is_next_slot (mkHeadSlot u64_max) 0 = Panics "attempt to add with overflow".
Proof.
  exact (is_next_slot_cases (mkHeadSlot u64_max) 0 ltac:(vm_compute; split; [discriminate | reflexivity])).
Defined.

Lemma epoch_bounds_witness : epoch (mkHeadSlot 65) 32 = Val 2%Z /\ (32 * 2 <= 65 < 32 * 3)%Z.
Proof.
  split; [reflexivity |].
  exact (proj1 (epoch_bounds (mkHeadSlot 65) 32
    ltac:(vm_compute; split; [discriminate | reflexivity]) ltac:(lia))).
Defined.

(** ** Codecs and limits *)

Lemma public_key_codec_witness :
  pk_deserialize (Pub:=PublicKey) (arr_bytes (pk_serialize proposer)) = Ok (parsed proposer) /\
  arr_bytes (pk_serialize (parsed proposer)) = arr_bytes (pk_serialize proposer) /\
  pk_deserialize (Pub:=PublicKey) [Byte.x01] = Err (InvalidByteLength 1 48).
Proof.
  assert (pk_deserialize (Pub:=PublicKey) (arr_bytes (pk_serialize proposer)) = Ok (parsed proposer))
    as Hk by vm_refl.
  split; [exact Hk |]. split.
  - exact (proj1 (public_key_codec (arr_bytes (pk_serialize proposer))) _ Hk).
  - exact (proj2 (proj2 (public_key_codec [Byte.x01])) ltac:(discriminate)).
Defined.

Lemma signature_codec_witness :
  exists s', bls_sig_deserialize (arr_bytes (bls_sig_serialize (vr_signature ex_registration))) =
             Ok s' /\
             bls_sig_serialize s' = bls_sig_serialize (vr_signature ex_registration).
Proof.
  exact (proj1 (signature_codec (vr_signature ex_registration) proposer (array_fill 32 Byte.x00))).
Defined.

Lemma fork_version_parse_witness :
  fork_version_from_str "0x20000000" = Val (Ok (mkForkVersion (pad_to 4 [Byte.x20]))).
Proof. exact (proj1 (proj2 (fork_version_parse (pad_to 4 [Byte.x20]) EmptyString))). Defined.

Lemma kzg_text_roundtrip_witness :
  kzg_from_str (kzg_debug (mkKzg (pad_to 48 [Byte.xab]))) = Ok (mkKzg (pad_to 48 [Byte.xab])).
Proof. exact (proj1 (kzg_text_roundtrip (mkKzg (pad_to 48 [Byte.xab])) EmptyString)). Defined.

(** The bid of the example with a builder key that is not one. *)
Definition ex_bad_trace : PbBidTrace :=
  mkPbBidTrace (pb_slot ex_pb_trace) (pb_parent_hash ex_pb_trace) (pb_block_hash ex_pb_trace)
    [Byte.x01] (pb_proposer_pubkey ex_pb_trace) (pb_proposer_fee_recipient ex_pb_trace)
    (pb_gas_limit ex_pb_trace) (pb_gas_used ex_pb_trace) (pb_value ex_pb_trace).

Lemma bid_trace_panics_witness : exists m, bid_trace_try_from ex_bad_trace = Panics m.
Proof.
  apply (proj2 (bid_trace_panics ex_bad_trace)).
  split; [reflexivity |]. split; [reflexivity |]. split; [reflexivity |]. by left.
Defined.

(** The submission of the example with 4097 commitments. *)
Definition ex_too_many : BidSubmission :=
  mkBidSubmission (ex_trace 100) ex_payload
    (mkBlobsBundle (replicate 4097 (mkBytes48 (array_fill 48 Byte.x00))) [] []) sig_empty.

Lemma signed_header_limit_witness :
  signed_header_try_from ex_too_many relay_signer = Err SszTypes.
Proof.
  apply (proj1 (proj1 (signed_header_limit ex_too_many relay_signer))). apply N.ltb_lt. vm_refl.
Defined.

(** ** A payload that is not the one whose header was signed *)

Definition with_block_hash (h : B256) (e : ExecutionPayloadHeader) : ExecutionPayloadHeader :=
  mkExecutionPayloadHeader (eh_parent_hash e) (eh_fee_recipient e) (eh_state_root e)
    (eh_receipts_root e) (eh_logs_bloom e) (eh_prev_randao e) (eh_block_number e)
    (eh_gas_limit e) (eh_gas_used e) (eh_timestamp e) (eh_extra_data e)
    (eh_base_fee_per_gas e) h (eh_transactions_root e) (eh_withdrawals_root e)
    (eh_blob_gas_used e) (eh_excess_blob_gas e).

Definition ex_blinded : BlindedBlock :=
  mkBlindedBlock 10 5 b256_zero b256_zero (mkBlindedBlockBody sig_empty
    (mkEth1Data b256_zero 0 b256_zero) b256_zero [] [] [] [] [] (mkSyncAggregate [] sig_empty)
    (with_block_hash b256_zero (header_of_payload ex_payload)) [] []).

Lemma payload_not_tied_to_header_witness :
  let signed := mkSignedBlindedBlock ex_blinded (signer_proposer_sign (ex_signer Byte.x0a) ex_blinded) in
  let resp := mkBlindedBlockResponse ex_payload blobs_bundle_default in
  sbl_block_hash signed <> ep_block_hash (bbr_execution_payload resp) /\
  exists w, (run_relay (post_blinded_blocks signed) w).1 = Val (Ok (mkVersioned Deneb resp)).
Proof.
  intros signed resp. split.
  - intros Heq. assert (bool_decide (b256_zero = ep_block_hash ex_payload) = false) as Hne
      by vm_refl. exact (bool_decide_eq_false_1 _ Hne Heq).
  - eexists. exact (payload_not_tied_to_header (w_store ex_world) (ex_signer Byte.x0a) ex_blinded
      (vr_message ex_registration) resp ex_world).
Defined.

(** ** The slot of [ex_world], from the submission to the delivery *)

Lemma auction_round_trip_witness :
  let signed := mkSignedBlindedBlock ex_blinded (signer_proposer_sign (ex_signer Byte.x0a) ex_blinded) in
  let resp := to_blinded_block_response (ex_submission 100) in
  exists header w2 w3,
    run_relay (get_header 10 b256_zero proposer relay_signer) ex_world_bid =
      (Val (Ok (mkVersioned Deneb header)), w2) /\
    h_value (sh_message header) = ex_u256 100 /\
    run_relay (post_blinded_blocks signed) w2 = (Val (Ok (mkVersioned Deneb resp)), w3) /\
    eh_block_hash (h_header (sh_message header)) = ep_block_hash (bbr_execution_payload resp) /\
    w_spawned w3 = [PublishTask (unblinded signed resp) Ssz] /\
    ep_block_hash ex_payload ∈ sto_delivered (w_abs w3).
Proof.
  exact (auction_round_trip (ex_submission 100) ex_duty relay_signer (ex_signer Byte.x0a)
    ex_blinded ex_world ex_world_bid (ex_auction_slot ex_blinded eq_refl eq_refl)).
Defined.

(** The inputs of these tasks are well-typed. *)
Ltac u64_val := vm_compute; split; [discriminate | reflexivity].

Lemma ex_typed_submission : typed_submission (ex_submission 100).
Proof.
  split; [split | split]; [u64_val.. |]. constructor; [split; u64_val | constructor].
Qed.

Lemma ex_typed_request : typed_request ex_request.
Proof.
  split.
  - intros b Hb. assert (b = ex_pb_trace) as -> by (symmetry; exact (f_equal (default b) Hb)).
    split; u64_val.
  - intros p Hp. assert (p = ex_pb_payload) as -> by (symmetry; exact (f_equal (default p) Hp)).
    split; [u64_val.. |]. constructor; [split; u64_val | constructor].
Qed.

Lemma ex_typed_tasks : Forall typed_task ex_tasks.
Proof.
  repeat (apply Forall_cons; split).
  - intros regs [= <-]. constructor; [split; u64_val | constructor].
  - split; u64_val.
  - apply ex_typed_submission.
  - apply ex_typed_request.
  - constructor.
Qed.

Lemma ex_typed_out : typed_outside ex_out.
Proof.
  intros e r. simpl. destruct (e =? 0)%Z; intros [= <-]; [|constructor].
  constructor; [|constructor]. split; u64_val.
Qed.

(** None of the inputs makes a task panic. *)
Lemma val_no_panic {A} (o : outcome A) :
  match o with Val _ => true | Panics _ => false end = true -> ~ panics o.
Proof. destruct o; [by intros _ [] | done]. Qed.

Lemma ex_no_cause m : ~ explained (input_causes (mkHeadSlot 9) ex_out ex_tasks) m.
Proof.
  unfold explained, input_causes, ex_tasks; simpl.
  intros [[_ Hz]|[(_ & _ & [Hl|Hl])|[[_ (e & r & Hr & Hd)]|[_ Hb]]]].
  - repeat (apply Exists_cons in Hz as [Hz|Hz]; [done |]). inversion Hz.
  - done.
  - repeat (apply Exists_cons in Hl as [Hl|Hl]; [done |]). inversion Hl.
  - simpl in Hr. destruct (e =? 0)%Z; injection Hr as <-; simpl in Hd; [|inversion Hd].
    apply Exists_cons in Hd as [Hd|Hd]; [|inversion Hd]. revert Hd. apply val_no_panic. vm_refl.
  - repeat (apply Exists_cons in Hb as [Hb|Hb]; [|]); try done; [|inversion Hb].
    destruct Hb as [(b & Hbt & [Hp|Hp])|Hp]; [| | revert Hp; apply val_no_panic; vm_refl];
      (assert (b = ex_pb_trace) as -> by (symmetry; exact (f_equal (default b) Hbt)));
      revert Hp; apply val_no_panic; vm_refl.
Qed.

(** This interleaving ends with every task returned and no spawned task left. *)
Lemma ex_end_rest :
  exists ts' w', rtc sys_step (task_prog ex_fork <$> ex_tasks, ex_start) (ts', w') /\
    ts' = replicate 4 (Ret tt) /\ w_spawned w' = [].
Proof. exists ex_end.1, ex_end.2. split; [exact ex_end_steps |]. split; vm_refl. Qed.

Lemma ex_typed_start : typed_head (mkHeadSlot 9) /\ typed_attrs ex_attrs.
Proof. split; [u64_val |]. split; [u64_val.. |]. intros ws [= <-]. constructor. Qed.

Lemma system_type_safe_witness :
  exists ts' w', rtc sys_step (task_prog ex_fork <$> ex_tasks, ex_start) (ts', w') /\
    typed_store (w_store w') /\ ts' = replicate 4 (Ret tt).
Proof.
  destruct ex_end_rest as (ts' & w' & Hsteps & Hts & Hsp). exists ts', w'.
  destruct (system_type_safe (mkHeadSlot 9) ex_attrs [builder] ex_fork ex_out ex_tasks ts' w'
    (proj1 ex_typed_start) (proj2 ex_typed_start) ex_typed_out ex_typed_tasks Hsteps)
    as (Hw & _ & Hend).
  split; [exact Hsteps |]. split; [exact Hw |]. rewrite Hts in Hend |- *.
  apply Hend; [|exact ex_no_cause].
  intros [c Hc]. refine (quiescent_no_step _ _ _ Hc). split; [by repeat constructor | exact Hsp].
Defined.

(** ** The HTTP server and the gRPC server *)

Section ex_servers.
#[local] Existing Instance toy_warp.

(** A body names the value of the submission; other bodies and queries do not decode. *)
#[local] Instance ex_bid_body : FromBody BidSubmission := fun rq =>
  if (sq_body rq =? "100")%string then Ok (ex_submission 100) else Err (CWarp "BodyDeserialize").
#[local] Instance ex_block_body : FromBody SignedBlindedBlock := fun _ =>
  Err (CWarp "BodyDeserialize").
#[local] Instance ex_registrations_body : FromBody (list ValidatorRegistration) := fun _ =>
  Ok [ex_registration].
#[local] Instance ex_key_query : FromQuery ApiKeyQuery := fun rq => Ok (mkApiKeyQuery (sq_query rq)).
#[local] Instance ex_bids_query : FromQuery QueryParams := fun _ => Ok (mkQueryParams None None).
#[local] Instance ex_auth : Auth RelayE := mbs_auth_validate (mkMbsAuth "https://auth/").

Definition ex_post_blocks : ServerRequest :=
  mkServerRequest "POST" ["relay"; "v1"; "builder"; "blocks"] "" [("content-length", "3")] "100".

Lemma http_server_dispatches_witness :
  header_value "origin" ex_post_blocks = None /\
  run_relay (serve (http_server (fun _ => ""%string) relay_signer) ex_post_blocks) ex_world =
    (Val (Ok (StatusReply OK)), ex_world_bid).
Proof.
  assert (header_value "origin" ex_post_blocks = None) as Ho by reflexivity.
  split; [exact Ho |].
  pose proof (http_server_dispatches step (fun _ => ""%string) relay_signer ex_post_blocks ex_world
    Ho) as H. cbv zeta in H.
  assert (endpoint_of (sq_path ex_post_blocks) = Some EpBlocks) as He by reflexivity.
  rewrite He in H.
  assert (run step (serve_endpoint relay_signer EpBlocks ex_post_blocks) ex_world =
    (Val (Ok (StatusReply OK)), ex_world_bid)) as Hr.
  { change (run step (replying StatusReply (post_bids (ex_submission 100))) ex_world =
      (Val (Ok (StatusReply OK)), ex_world_bid)).
    unfold replying, try_bind. rewrite run_bind. pose proof ex_bid_run as Hb.
    unfold run_relay in Hb. rewrite Hb. reflexivity. }
  rewrite Hr in H. exact H.
Defined.
End ex_servers.

Lemma grpc_client_reaches_service_witness :
  let service := submit_block (mkRelayService ex_fork) in
  let channel := lb_channel toy_loopback (server_call (MevRelayServer_new service)) in
  (run_relay (client_submit_block (MevRelayClient_new channel) ex_request) ex_world).1 =
    Val (Ok (mkSubmitBlockResponse 200 "Success")).
Proof.
  intros service channel.
  pose proof (proj1 (grpc_client_reaches_service toy_loopback service ex_request I)) as H.
  unfold run_relay. rewrite (run_proper _ _ _ H _ _ eq_refl), run_bind.
  pose proof ex_submit_grpc as Hok. unfold run_relay in Hok. subst service.
  destruct (run _ (submit_block _ _) _) as [o w]. simpl in Hok. by subst.
Defined.
