(* ===== verification/SigningWitnesses.v ===== *)
(** The theorems about what is signed and about the published block, applied to the relay of
    [Examples] and, for the domains, to trees hashed with SHA-256. *)

From S2P Require Import Prelude Prog External Types Blst Signer BeaconTypes BeaconBlock.
From S2P Require Import StorageTypes Header Ssz SszBlock Merkle Sha256 Roots Storage BidSpec.
From S2P Require Import Metrics InMemory World InMemoryStorage HttpErrors GetHeader BlindedBlocks.
From S2P Require Import Auth BeaconApi PostBids Auction Signing TestKit UnitTests Toy Examples.

#[local] Instance ex_tree_laws : TreeHashLaws Toy toy_hash2 := toy_tree_laws toy_hash2.
#[local] Instance ex_ssz : SszLib := {| ssz_encode := ssz_spec |}.
#[local] Instance ex_ssz_laws : SszLibLaws ex_ssz.
Proof. by split. Qed.
#[local] Instance ex_no_json {T} : FromJson T := fun _ => Err "no json"%string.
#[local] Instance ex_to_json : ToJson SignedBeaconBlockContent := fun _ => "{}"%string.

(** Bounds of the fields of a concrete value. *)
Ltac solve_ok :=
  repeat match goal with
  | |- Forall _ _ => constructor
  | |- _ /\ _ => split
  | |- ssz_ok _ => progress cbn
  | |- fd_ok _ _ => progress cbn
  | |- True => exact I
  | |- is_u64 _ => by split
  | |- (_ < u64_modulus)%Z => done
  | |- lenN _ = _ => vm_refl
  | |- (_ <= _)%N => apply N.leb_le; vm_refl
  end.

Lemma signed_messages_conform_witness :
  ssz_ok (SszEnc:=bid_trace_container) (ex_trace 100) /\
  signing_root (ex_trace 100) (array_fill 32 Byte.x07) =
  toy_hash2 (root_of toy_hash2 bid_trace_container (ex_trace 100)) (array_fill 32 Byte.x07).
Proof.
  assert (ssz_ok (SszEnc:=bid_trace_container) (ex_trace 100)) as Hok by solve_ok.
  split; [exact Hok |].
  exact (proj1 (signed_messages_conform toy_hash2 (array_fill 32 Byte.x07)) _ Hok).
Defined.

Lemma merkle_helpers_correct_witness :
  vec_tree_hash_root 5 [ex_u256 1; ex_u256 2; ex_u256 3] =
  Val (complete_tree toy_hash2 5
    [uint_as_le_slice (u256_0 (ex_u256 1)); uint_as_le_slice (u256_0 (ex_u256 2));
     uint_as_le_slice (u256_0 (ex_u256 3))]).
Proof.
  exact (proj1 (proj2 (merkle_helpers_correct toy_hash2)) 5%N [ex_u256 1; ex_u256 2; ex_u256 3]
    ltac:(apply N.leb_le; reflexivity)).
Defined.

(** ** The block of [ex_world] *)

Definition ex_signed : SignedBlindedBlock :=
  mkSignedBlindedBlock ex_honest (signer_proposer_sign (ex_signer Byte.x0a) ex_honest).
Definition ex_resp : BlindedBlockResponse := to_blinded_block_response (ex_submission 100).

Lemma ex_signed_encodable : encodable (unblinded ex_signed ex_resp).
Proof. split; [|apply N.ltb_lt; vm_refl]. solve_ok. Qed.

Definition ex_signed_domain : Domain := compute_proposer_domain (sto_fork (w_abs ex_world)).

Lemma auction_block_valid_witness :
  exists body, published_as (mkBeaconNodeApi "node") (unblinded ex_signed ex_resp) body /\
    carries_signed_block toy_hash2 body (sbl_signature ex_signed) (duty_pubkey ex_duty)
      ex_signed_domain.
Proof.
  destruct (auction_block_valid toy_hash2 (mkBeaconNodeApi "node") (ex_submission 100) ex_duty
    relay_signer (ex_signer Byte.x0a) ex_honest ex_world ex_world_bid
    (ex_auction_slot ex_honest eq_refl eq_refl) eq_refl ex_signed_encodable)
    as (header & w2 & w3 & body & _ & _ & _ & _ & Hpub & Hval).
  exists body. exact (conj Hpub Hval).
Defined.

Lemma ex_delivery :
  run_relay (post_blinded_blocks ex_signed) ex_world_bid =
  (Val (Ok (mkVersioned Deneb ex_resp)), (run_relay (post_blinded_blocks ex_signed) ex_world_bid).2).
Proof.
  assert ((run_relay (post_blinded_blocks ex_signed) ex_world_bid).1 =
    Val (Ok (mkVersioned Deneb ex_resp))) as Hr by vm_refl.
  rewrite <-Hr. apply surjective_pairing.
Qed.

Lemma published_block_signed_witness :
  exists duty body,
    sto_find_duty 10 (w_abs ex_world_bid) = Some duty /\
    published_as (mkBeaconNodeApi "node") (unblinded ex_signed ex_resp) body /\
    carries_signed_block toy_hash2 body (sbl_signature ex_signed) (duty_pubkey duty)
      (compute_proposer_domain (sto_fork (w_abs ex_world_bid))).
Proof.
  exact (proj2 (published_block_signed toy_hash2 (mkBeaconNodeApi "node") ex_signed ex_resp
    ex_world_bid _ ex_delivery eq_refl ex_signed_encodable)).
Defined.

(** ** SHA-256 *)

Definition sha_fork : ForkDatas :=
  mkForkDatas fork_data_default (mkForkData (@Array 4 [Byte.x20; Byte.x00; Byte.x00; Byte.x93] I)
    (@Array 32 (replicate 31 Byte.x00 ++ [Byte.x01]) I)).

Definition sha_random : @Random (toy_ext sha_hash2) :=
  @Build_Random (toy_ext sha_hash2) (fun _ => mkB256 (array_fill 32 Byte.x05))
    (fun _ => mkAddress (array_fill 20 Byte.x06))
    (fun _ => mkSecretKey (@SecretKey (toy_ext sha_hash2)) (array_fill 32 Byte.x07)).

Lemma domain_test_passes_witness :
  fork_datas_default (H:=toy_ext sha_hash2) = Val sha_fork /\
  can_compute_b_domain (H:=toy_ext sha_hash2) (H0:=sha_random) = Val [true; true].
Proof.
  assert (fork_datas_default (H:=toy_ext sha_hash2) = Val sha_fork) as Hfork by vm_refl.
  split; [exact Hfork |].
  exact (domain_test_passes (X:=toy_ext sha_hash2) (T:=toy_tree_laws sha_hash2) sha_fork
    (fun _ => eq_refl) Hfork).
Defined.
