(* ===== verification/TestWitnesses.v ===== *)
(** The theorems about the tests of the repository, applied to the external code of [Toy] and to
    concrete random values. *)

From stdpp Require Import pretty.
From S2P Require Import Prelude Prog External Types Blst Signer BeaconTypes BeaconBlock.
From S2P Require Import StorageTypes Storage Metrics InMemory World InMemoryStorage Grpc.
From S2P Require Import GrpcServer HttpErrors Warp PostBids Auth GetHeader BlindedBlocks.
From S2P Require Import PostValidators DataApi Routes Toy ToyServers Examples TestKit.
From S2P Require Import VersionedBid BeaconService EventStream RelayService.
From S2P Require Import GrpcTests HttpTests UnitTests Witnesses.

#[local] Instance ex_random : Random := {|
  random_b256 _ := mkB256 (array_fill 32 Byte.x05);
  random_address _ := mkAddress (array_fill 20 Byte.x06);
  random_secret_key site := ex_key (byte_of_N (N.of_nat site + 32))
|}.

Lemma toy_decimal (value : Z) :
  is_u64 value -> exists v : Uint256, uint_from_str (pretty value) = Ok v /\ uint_val v = value.
Proof.
  intros [Hlo Hhi]. unfold u64_modulus in Hhi. simpl. unfold toy_uint. rewrite digits_value_pretty_Z by done.
  unfold uint_of. case_decide as Hr; simpl; [by eexists |].
  destruct Hr. apply Is_true_true, andb_true_iff. rewrite Z.leb_le, Z.ltb_lt.
  unfold u256_modulus. split; [done |]. transitivity (2 ^ 64)%Z; [done | reflexivity].
Qed.

Definition ex_test_fork : ForkDatas :=
  match fork_datas_default with Val f => f | Panics _ => ex_fork end.

Definition ex_test_sig : BlsSignature :=
  match sig_from_str TEST_BLS_SIGNATURE with Ok s => s | Err _ => sig_empty end.
Definition ex_point : Signature := default (array_fill 96 Byte.x00) (sig_point _ ex_test_sig).

Definition ex_test_signer : BlsSigner := mkBlsSigner (random_secret_key 13) ex_test_fork.

Lemma ex_unsigned key :
  bid_verify_signature (test_trace 11 key (uint_clip 1000)) (sig_from_point ex_point false)
    (compute_builder_domain ex_test_fork) = false ->
  unsigned ex_test_fork ex_point key.
Proof.
  intros Hno v Hv. assert (v = uint_clip 1000) as ->; [|done].
  apply uint_eq. rewrite Hv. reflexivity.
Qed.

Lemma toy_pk_text (k : BlsPublicKey) :
  arr_bytes (pk_serialize k) <> arr_bytes INFINITY_PUBLIC_KEY -> pk_from_str (pk_display k) = Ok k.
Proof.
  intros Hne. unfold pk_from_str, pk_display, impl_from_str, impl_display.
  rewrite serde_hex_decode_encode. unfold pk_deserialize. cbn [result_bind].
  rewrite decide_False by done. destruct k as [k]. unfold tpk_deserialize. simpl.
  rewrite array_len, N.eqb_refl. simpl. by rewrite array_of_bytes.
Qed.

Lemma ex_enabled_builder :
  enabled_builder_of ex_test_signer = Val (signer_public_key ex_test_signer).
Proof.
  unfold enabled_builder_of. rewrite toy_pk_text; [done |].
  apply (bool_decide_eq_false_1 (arr_bytes (pk_serialize (signer_public_key ex_test_signer)) =
    arr_bytes INFINITY_PUBLIC_KEY)). vm_refl.
Qed.

Lemma grpc_tests_pass_witness :
  let client := connected_client (E:=RelayE) toy_loopback
                  (submit_block (mkRelayService ex_test_fork)) in
  test_passes [signer_public_key ex_test_signer] ex_out
    (concurrent_submissions client ex_test_signer (signer_public_key ex_test_signer) (seq 0 1000)).
Proof.
  refine (proj2 (proj2 (proj2 (proj2 (proj2 (proj2
    (grpc_tests_pass toy_loopback ex_test_fork ex_point (sig_is_infinity _ ex_test_sig)
       ex_test_signer (signer_public_key ex_test_signer) ex_out (seq 0 1000)
       (fun _ _ => I) toy_decimal _ _ _ _ _ _ _ _ _))))))).
  - vm_refl.
  - vm_refl.
  - apply ex_unsigned. vm_refl.
  - apply ex_unsigned. vm_refl.
  - discriminate.
  - discriminate.
  - vm_refl.
  - exact ex_enabled_builder.
  - reflexivity.
Defined.

(** ** The HTTP server *)

Section http.
#[local] Existing Instance toy_warp.

(** A block of slot 46 by the proposer 26, with a signature that is not the proposer's. *)
Definition ex_test_block : SignedBlindedBlock :=
  mkSignedBlindedBlock
    (mkBlindedBlock 46 26 (bl_parent_root ex_blinded) (bl_state_root ex_blinded)
       (bl_body ex_blinded))
    ex_test_sig.
Definition ex_signed_block : SignedBlindedBlock :=
  mkSignedBlindedBlock (sbl_message ex_test_block)
    (signer_proposer_sign ex_test_signer (sbl_message ex_test_block)).
Definition ex_test_payload : BlindedBlockResponse :=
  mkBlindedBlockResponse ex_payload blobs_bundle_default.

Definition ex_one : list ValidatorRegistration :=
  [pv_validator_registration 6 (random_pubkey 6)
     (Some (mkSignature Signature (Some ex_point) (sig_is_infinity _ ex_test_sig)))].
Definition ex_many : list ValidatorRegistration :=
  match generate_signed_registrations 50 with Val regs => regs | Panics _ => [] end.

(** The texts of the bodies the tests post, and of the query of the registrations. *)
#[local] Instance ex_block_text : ToBody SignedBlindedBlock := fun b =>
  if bool_decide (bls_sig_serialize (sbl_signature b) = bls_sig_serialize ex_test_sig)
  then "fixture"%string else "signed"%string.
#[local] Instance ex_block_json : FromBody SignedBlindedBlock := fun rq =>
  Ok (if (sq_body rq =? "fixture")%string then ex_test_block else ex_signed_block).
#[local] Instance ex_registrations_text : ToBody (list ValidatorRegistration) := fun regs =>
  match regs with [_] => "one"%string | _ => "many"%string end.
#[local] Instance ex_registrations_json : FromBody (list ValidatorRegistration) := fun rq =>
  Ok (if (sq_body rq =? "one")%string then ex_one else ex_many).
#[local] Instance ex_submission_json : FromBody BidSubmission := fun _ =>
  Err (CWarp "BodyDeserialize").
#[local] Instance ex_api_key_query : FromQuery ApiKeyQuery := fun rq =>
  if (sq_query rq =? "api_key=123")%string then Ok (mkApiKeyQuery "123")
  else Err (CWarp "InvalidQuery").
#[local] Instance ex_params_query : FromQuery QueryParams := fun _ => Ok (mkQueryParams None None).

Lemma ex_many_fits regs :
  generate_signed_registrations 50 = Val regs -> fits 83886080 regs.
Proof.
  intros Hgen. assert (length regs = 50%nat) as Hlen.
  { unfold generate_signed_registrations in Hgen. destruct fork_datas_default; [|discriminate Hgen].
    apply (f_equal (fun o => match o with Val l => length l | Panics _ => 0%nat end)) in Hgen.
    cbn [outcome_bind] in Hgen. by rewrite length_fmap, length_seq in Hgen. }
  destruct regs as [|r [|r' regs]]; [done.. |]. split; [done |].
  intros method path query. change (Ok ex_many = Ok (E:=Cause) (r :: r' :: regs)).
  unfold ex_many. by rewrite Hgen.
Qed.

Lemma toy_zero_hash :
  b256_from_str "0x0000000000000000000000000000000000000000000000000000000000000000" =
  Ok (b256_0 b256_zero).
Proof.
  assert (forall (r : result (array 32) string) (a : array 32),
    (let? b := r in Ok (arr_bytes b)) = Ok (arr_bytes a) -> r = Ok a) as Heq.
  { intros [b|] a Hr; [|discriminate Hr]. f_equal. apply array_eq. simpl in Hr. congruence. }
  apply Heq. vm_refl.
Qed.

(** A value whose text is known. *)
Lemma text_fits (block : SignedBlindedBlock) (text : string) :
  to_body block = text ->
  from_body (json_request "POST" [] "" text) = Ok block ->
  (String.length text <= 10)%nat -> fits 8388608 block.
Proof.
  intros <- Hdec Hlen. split; [lia |]. intros method path query. exact Hdec.
Qed.

Lemma http_tests_pass_witness :
  http_passes 10 ex_out (can_submit_blinded_block ex_test_block ex_test_payload ex_test_signer).
Proof.
  refine (proj1 (proj2 (proj2 (proj2 (proj2 (proj2 (proj2 (proj2 (http_tests_pass
    (fun _ => ""%string) ex_point (sig_is_infinity _ ex_test_sig) _ _ _ _
    ex_test_block ex_test_payload _ _ ex_test_fork ex_test_signer ex_out 1%N 2%N
    _ _ _ _ _ _ _ _ _))))))))).
  - vm_refl.
  - exact toy_zero_hash.
  - apply toy_pk_text.
    apply (bool_decide_eq_false_1 (arr_bytes (pk_serialize test_bls_pubkey) =
      arr_bytes INFINITY_PUBLIC_KEY)). vm_refl.
  - vm_refl.
  - reflexivity.
  - reflexivity.
  - vm_refl.
  - reflexivity.
  - reflexivity.
  - reflexivity.
  - split; [discriminate | reflexivity].
  - exact ex_many_fits.
  - apply (text_fits _ "fixture"); [vm_refl | reflexivity | by vm_compute; lia].
  - apply (text_fits _ "signed"); [vm_refl | reflexivity | by vm_compute; lia].
  - vm_refl.
Defined.
End http.

(** ** The other tests *)

Definition ex_test_event : PayloadAttributesEvent :=
  mkPayloadAttributesEvent "capella" (payload_attr 7 (random_address 1)).

Lemma unit_tests_pass_witness :
  passes_from (relay_setup ex_test_event)
    (can_fill_storage_from_events (array_fill 32 Byte.x01) (array_fill 32 Byte.x02)
       (array_fill 32 Byte.x03) ex_test_event 20 [0%nat; 3%nat]).
Proof.
  refine (proj2 (proj2 (proj2 (proj2 (proj2 (proj2 (proj2 (proj2 (proj2 (proj2 (proj2
    (unit_tests_pass ex_point (sig_is_infinity _ ex_test_sig) _ (array_fill 32 Byte.x01)
       (array_fill 32 Byte.x02) (array_fill 32 Byte.x03) ex_test_event ex_test_fork
       (mkProposerDuties []) (fun _ => array_fill 32 Byte.x00)
       (fun _ => array_fill 32 Byte.x00) ex_payload [2%nat; 0%nat; 1%nat] 20 [0%nat; 3%nat]
       _ _ _ _)))))))))))).
  - vm_refl.
  - vm_refl.
  - vm_refl.
  - vm_refl.
  - repeat constructor.
Defined.

(** The storage test needs its single thread: when another task writes between the writes and
    the reads of a task, an assertion fails. *)
Example storage_test_interleaved_fails :
  (schedule (fun A => @relay_step Toy A) (replicate 8 0%nat ++ [1; 1; 0; 0]%nat)
     (perform_storage_operations <$> [0%nat; 1%nat]) ex_start).1 !! 0%nat =
  Some (Panic "duties").
Proof. vm_refl. Qed.
