(* ===== verification/CliWitnesses.v ===== *)
(** The theorems about the command line, applied to the parser of [ToyCli]. *)

From S2P Require Import Prelude Prog External Types Blst Signer BeaconTypes BeaconBlock.
From S2P Require Import StorageTypes Storage Metrics InMemory World InMemoryStorage EventStream.
From S2P Require Import Auth RelayService Startup Cli Concurrent System Relay TestKit CliTests.
From S2P Require Import BidSpec Toy ToyCli Examples Witnesses TestWitnesses.

Local Open Scope string_scope.

Definition ex_cli_key : BlsSecretKey :=
  match sk_from_str TEST_BLS_SECRET_KEY with Ok k => k | Err _ => ex_key Byte.x01 end.

Lemma ex_cli_key_reads : sk_from_str TEST_BLS_SECRET_KEY = Ok ex_cli_key.
Proof. vm_refl. Qed.

Lemma command_line_read_witness :
  CliArgs_parse_from ["relay"; "--bls-secret-key"; TEST_BLS_SECRET_KEY] =
    Val (Ok (default_args ex_cli_key)) /\
  cli_reads [("bls-secret-key", TEST_BLS_SECRET_KEY)] (default_args ex_cli_key).
Proof.
  destruct (command_line_read "relay" [("bls-secret-key", TEST_BLS_SECRET_KEY)]
    ltac:(vm_refl)) as (Hiff & _ & Hdefault).
  assert (parse_bls_secret_key TEST_BLS_SECRET_KEY = Ok ex_cli_key) as Hkey by vm_refl.
  split; [exact (Hdefault _ _ eq_refl Hkey)|].
  apply Hiff. exact (Hdefault _ _ eq_refl Hkey).
Defined.

Definition ex_options : Options := [
  ("builders.enabled", "0x" +:+ concat_02x (arr_bytes (pk_serialize builder)));
  ("chain", "holesky"); ("http.port", "8080"); ("bls-secret-key", TEST_BLS_SECRET_KEY)].

Definition ex_program (given : Options) :=
  run_relay (relay_program ("relay" :: command_line given) (Ok tt) ex_answers) ex_start.

Definition ex_cli_started : Started :=
  match (ex_program ex_options).1 with Val (Some (Ok sd)) => sd | _ => ex_started end.

Lemma ex_cli_main : (ex_program ex_options).1 = Val (Some (Ok ex_cli_started)).
Proof. vm_refl. Qed.

(** The command of the README for another network, the same without builders, and a complete
    one. *)
Lemma program_follows_command_line_witness :
  (exists e, ex_program [("chain", "holesky")] = (Val (Some (Err (UsageError e))), ex_start)) /\
  ex_program [("bls-secret-key", TEST_BLS_SECRET_KEY)] =
    (Val (Some (Err (MainError EmptyBuilders))), ex_start) /\
  exists sd args, (ex_program ex_options).1 = Val (Some (Ok sd)) /\ cli_reads ex_options args /\
    sd_http_addr sd = mkSocketAddr UNSPECIFIED (ca_http_port args).
Proof.
  split; [|split].
  - exact (proj1 (program_follows_command_line "relay" [("chain", "holesky")] (Ok tt) ex_answers
      ex_start ltac:(vm_refl)) eq_refl).
  - apply (proj1 (proj2 (program_follows_command_line "relay"
      [("bls-secret-key", TEST_BLS_SECRET_KEY)] (Ok tt) ex_answers ex_start ltac:(vm_refl)))
      (default_args ex_cli_key) "mainnet"); [|done | done | by left].
    apply default_reads. vm_refl.
  - destruct (program_follows_command_line "relay" ex_options (Ok tt) ex_answers ex_start
      ltac:(vm_refl)) as (_ & _ & Hstart).
    destruct (Hstart ex_cli_started ex_cli_main) as (args & Hreads & _ & _ & Hhttp & _).
    exists ex_cli_started, args. split; [exact ex_cli_main | by split].
Defined.

#[local] Instance ex_random : Random := {|
  random_b256 n := mkB256 (array_fill 32 Byte.x00);
  random_address n := mkAddress (array_fill 20 Byte.x00);
  random_secret_key n := ex_key Byte.x05
|}.

Lemma cli_tests_pass_witness : parse_bls_key = Val (replicate 3 true).
Proof. exact (proj2 (cli_tests_pass ex_cli_key ex_cli_key_reads)). Defined.

(** ** The started relay *)

(** The tasks of [ex_tasks], interleaved in the relay that the command line started. *)
Definition ex_cli_end : list (prog RelayE unit) * World :=
  schedule step ex_sched (task_prog (sd_fork_data ex_cli_started) <$> ex_tasks)
    (started_world ex_cli_started ex_out).

Lemma ex_cli_end_steps :
  rtc sys_step
    (task_prog (sd_fork_data ex_cli_started) <$> ex_tasks, started_world ex_cli_started ex_out)
    (ex_cli_end.1, ex_cli_end.2).
Proof. rewrite <-surjective_pairing. apply pool_sys_steps, schedule_steps. Qed.

Lemma program_bids_authentic_witness :
  is_Some (sto_best (w_abs ex_cli_end.2) !! ex_key_of_slot) /\
  exists args builders, cli_reads ex_options args /\
    bids_authentic builders (sd_fork_data ex_cli_started) (w_abs ex_cli_end.2).
Proof.
  split.
  - apply (bool_decide_eq_true_1
      (is_Some (sto_best (w_abs ex_cli_end.2) !! ex_key_of_slot))). vm_refl.
  - destruct (program_bids_authentic "relay" ex_options (Ok tt) ex_answers ex_start
      ex_cli_started ex_out ex_tasks _ _ ltac:(vm_refl) ex_cli_main ex_cli_end_steps)
      as (args & builders & Hreads & _ & Hbids).
    exists args, builders. by split.
Defined.

Lemma zero_epoch_slots_witness :
  (run_relay (duties_task (mkHeadSlot 32) 0) ex_start).1 = Panics "attempt to divide by zero".
Proof.
  assert (exists args, cli_reads [("epoch.slots", "0"); ("bls-secret-key", TEST_BLS_SECRET_KEY)]
    args) as [args Hreads].
  { destruct (cli_reads_or_exits "relay" [("epoch.slots", "0");
      ("bls-secret-key", TEST_BLS_SECRET_KEY)] ltac:(vm_refl)) as [Hreads|[e He]]; [exact Hreads |].
    assert (match CliArgs_parse_from ["relay"; "--epoch.slots"; "0"; "--bls-secret-key";
      TEST_BLS_SECRET_KEY] with Val (Ok _) => true | _ => false end = true) as Hok by vm_refl.
    exfalso. revert Hok. cbn [command_line fmap list_fmap mjoin list_join app fst snd] in He.
    change ("--" +:+ "epoch.slots") with "--epoch.slots" in He.
    change ("--" +:+ "bls-secret-key") with "--bls-secret-key" in He. rewrite He. discriminate. }
  destruct (zero_epoch_slots _ args (mkHeadSlot 32) ex_start Hreads eq_refl) as [Hn Hrun].
  rewrite Hn in Hrun. exact Hrun.
Defined.
